(* ===== verification/_CoqProject ===== *)
-Q . S2P
Prelude.v
Invariants.v
Externals.v
Messages.v
Distance.v
Sorting.v
NodeInfo.v
LocalNodeInfo.v
ClientNodes.v
Callbacks.v
RoutingUtils.v
BootstrapCache.v
World.v
RoutingTable.v
TableFacts.v
TableProps.v
Sending.v
SendProps.v
NodeDetection.v
RoutingHandlers.v
RoutingJoin.v
HandlerFacts.v
Frames.v
TableSpec.v
Threads.v
Robust.v
HandlerProps.v
JoinProps.v
DetectionProps.v
NatDetect.v
NatProps.v
NatSafe.v
NatThreads.v
Gossip.v
GossipProps.v
KadMessageHandler.v
KadProps.v
Exchange.v
Discovery.v
Routing.v
HandshakeExchange.v
Closed.v
Demo.v
DemoProps.v
Network.v
BenchText.v
BenchMessages.v
BenchCommand.v
BenchTable.v
BenchNode.v
BenchProps.v
BenchSafe.v
