(* ===== verification/Prelude.v ===== *)
(** xkad: the Kademlia node of the TOP network, in Rocq.

    * The program and the files that model it

    The sources are C++ under src/src, with their headers under
    src/routing_table, src/nat_detect and src/gossip; src/bench and src/demo
    hold two programs built on them. Each definition is one C++ function under
    its own name and is the whole function; where two overloads share a name, a
    suffix tells them apart.

    - Node ids and the XOR metric: Distance.v (CloserToTarget and the bucket
      scan of SetNodeBucket in routing_table.cc).
    - Node descriptors: NodeInfo.v (node_info.cc, the constants of
      routing_utils.h). The local node: LocalNodeInfo.v (local_node_info.cc).
      Node ids, zones and configuration: RoutingUtils.v (routing_utils.cc,
      nodeid_utils.cc).
    - Registries: ClientNodes.v (client_node_manager.cc,
      dynamic_xip_manager.cc), Callbacks.v (callback_manager.cc,
      heartbeat_manager.cc), BootstrapCache.v (bootstrap_cache.cc,
      bootstrap_cache_helper.cc).
    - The routing table, class RoutingTable of routing_table.cc: its state with
      the objects it owns and the environment is the record [World] of World.v;
      its container operations are in RoutingTable.v, its sending side in
      Sending.v, its message handlers in RoutingHandlers.v, its life cycle and
      joining in RoutingJoin.v. NodeDetection.v is node_detection_manager.cc,
      which works on the same state.
    - NAT detection: NatDetect.v (nat_manager.cc, nat_handshake_manager.cc) on
      its own record [NatManager]; NatThreads.v cuts Stop and the manager's
      thread at their mutex and at the thread's wait.
    - Gossip: Gossip.v (rumor_handler.cc, rumor_filter.cc,
      rumor_message_manager.cc).
    - Dispatch of messages by type, clients and acknowledgements:
      KadMessageHandler.v (kad_message_handler.cc).
    - The bench program: BenchText.v, BenchMessages.v, BenchCommand.v
      (src/bench/util.cc), BenchTable.v (class MyRoutingTable of
      src/bench/node.cc), BenchNode.v (the rest of node.cc, main.cc).
    - The demo program: Demo.v (src/demo/main.cc).
    - Code the sources call but do not contain: Externals.v (xbase, keys, xips,
      bloom filters, configuration), Messages.v (the protobuf messages and
      their codec), Sorting.v (std::partial_sort).

    How they interact. A datagram reaches [KadMessageHandler.process], which
    runs a handler of RoutingHandlers.v on the [World], or queues the message
    for the NAT manager. Handlers read and change the table through
    RoutingTable.v and answer through Sending.v, whose packets end in the log
    [w_net]; Exchange.v hands the packets of one [World] to another. Timers and
    the callbacks of the transport are operations of the same state. The
    NodeInfo objects the C++ code shares by pointer live in one store [w_heap],
    so that a change made through one index is seen through all of them. The
    bench program runs the same operations on the table inside its own state
    with [table]; the demo program composes configuration, NAT manager and
    routing table into the process that main starts.

    * The form of the model

    A program is a function of the state monad [ST S]: from a state to a
    result and a state, or to a [fault], which stands for what the C++ code
    does not survive (an index outside a string, an empty pointer, a failed
    assert, a dangling reference, an uncaught exception, a signed overflow, a
    data race). Theorems therefore say of an operation that it ends in [Ok], not
    only what holds if it does. Unsigned integers and conversions are [Z] with
    their wrap-around written out ([u16], [i32], ...); signed arithmetic on
    values that can leave their range (the heartbeat and detection counters, the
    timeouts of requests, the times and hops of the bench's messages) is checked
    ([signed], [int_inc], [int_dec]). By default each handler is one atomic step;
    Threads.v splits AddNode and DropNode at their mutexes and at each access of
    a variable that no mutex protects, and NatThreads.v cuts the NAT manager's
    thread at its mutex and at its wait. An operation that waits (MultiJoin,
    MultiNatDetect, the sleeps of the bench commands) takes what the other
    threads do during each wait as an argument.

    Fuel and bounds. MultiJoin runs as many rounds as the list it is given;
    [MultiJoin_ends] shows that it ends in the round in which a join arrives.
    The draws of GetClosestAlphaNodes are given 64 rounds of fuel, and one is
    shown to be enough. GetLines and CompareDiffLines get two more than the
    length of their texts, and are shown never to run out. ThreadProc takes the
    number of turns. The loops of the bench's automatic tests take a fuel and
    the list of what happens during their waits, and answer [OutOfFuel] when
    either is used up; the theorems about them give both.

    * What the theorems show

    - The table (TableFacts.v, TableProps.v, TableSpec.v, HandlerFacts.v): the
      invariant [table_ok] (distinct ids, an exact index, exact buckets of at
      most eight nodes), kept by every operation and every
      message in every order; the exact effect of AddNode, DropNode and the
      queries; and the refinement of an abstract k-bucket map.
    - Threads (Threads.v): what every interleaving of AddNode and DropNode
      keeps until a data race stops it, where such races come from (the
      published copy of the nodes is replaced without a mutex, and two calls can
      share one node), that two threads can add one id twice, and that threads
      with different ids disturb one another only in publishing.
    - Robustness (Robust.v, HandlerProps.v, NatSafe.v, BenchSafe.v): no message
      whose ids have the right length faults on a started node or a started NAT
      manager, and on a started bench only one whose times or hops overflow; and
      the message with a short id that does fault.
    - Networks (Network.v): nodes that join, leave and call each other over a
      transport that may lose, repeat and misdeliver. No reachable network has
      a node that faults or a table that names a node outside the network;
      Closed.v shows of each operation that it keeps to the ids it was given.
    - Discovery (Discovery.v): a search, delivered there and back, makes the
      neighbours of the other node known.
    - Routing (Routing.v, HandshakeExchange.v): a connect request is carried
      from host to host, each closer by xor, to a node its sender does not know;
      the ping of that node and the answer to it make the two neighbours. The
      fuel of [follow], one hop per host of the network, is shown to be enough.
    - Distance and sending (Distance.v, SendProps.v): the comparison is that of
      XOR distances, and greedy forwarding comes closer at each hop.
    - Joining (HandlerProps.v, JoinProps.v, Exchange.v): the first answer wins,
      two nodes end up knowing each other, MultiJoin ends with its documented
      waits. Frames.v gives what each operation leaves alone.
    - Timers (DetectionProps.v, Callbacks.v): detections and requests end.
    - NAT detection (NatProps.v, NatThreads.v): the verdict of the exchange, its
      finality, the number of pings, and when Stop can return.
    - Clients and gossip (KadProps.v, GossipProps.v).
    - The programs (BenchProps.v, DemoProps.v): what the bench measures, its
      files, and that the demo, configured and joined, serves a node.

    [...Laws] classes state the documented behaviour of library code that
    theorems use; concrete instances ([Examples], [selection],
    [countable_wire]) discharge them in the witnesses.

    Invariants of the state are kept operation by operation. Invariants.v has
    the rules of the two forms this takes, [ensures I] (what ends in [Ok] keeps
    [I]) and [always I] (it ends in [Ok] and keeps [I]); the invariants of
    Robust.v, Closed.v, NatSafe.v and NatThreads.v are instances.

    * Not modelled

    The transport, timers, worker threads and logging are library code: what
    they answer is an argument, what they are asked is a log. The protobuf
    output under src/proto and src/bench is generated; its codec is a
    parameter. heartbeat_state.* and routing_table_heartbeat.h are commented
    out; nat_detect_manager.h declares a class nobody defines.
    The callers of PrintRoutingTable and DumpNodes are commented out too; the
    two are definitions that answer what they write. BenchCommand::Run is an
    endless loop: it is modelled by any number of its turns. Of the demo, the
    signal handler and the printed texts are left out. The tests under
    src/tests are not part of the program.

    * This file

    Shared vocabulary of the development: the error outcome of C++ code whose
    behaviour can be undefined, the state monad the handlers are written in,
    functional record update, fixed-width integers, byte strings, ordered-map
    views of [gmap], and the generic lemmas and tactics of every component. *)

From stdpp Require Export base tactics list gmap strings fin_maps.
From Stdlib Require Export ZArith NArith Lia Ascii Sorted.
From Stdlib Require String.
#[global] Set Default Proof Using "Type".

Declare Scope kad_scope.
Delimit Scope kad_scope with kad.
Open Scope Z_scope.

(** ** Functional record update: [r <| f := v |>] and [r <| f ::= g |>] *)

(** [Eta R] is the eta-expansion of the record type [R]; it is enough to
    derive a setter for each of its fields. *)
Class Eta (R : Type) : Type := eta_expand : R -> R.

Class Setter {R A : Type} (f : R -> A) : Type := upd : (A -> A) -> R -> R.
Arguments upd {R A} f {_} _ _.

Ltac derive_setter f :=
  match type of f with
  | ?R -> ?A =>
      let e := constr:(_ : Eta R) in
      let body := constr:(fun (g : A -> A) (r : R) =>
        ltac:(let t := eval hnf in (e r) in
              let p := eval pattern (f r) in t in
              match p with ?F _ => exact (F (g (f r))) end)) in
      let body := eval cbv beta in body in
      exact body
  end.

#[global] Hint Extern 0 (Setter ?f) => derive_setter f : typeclass_instances.

Notation "r <| f ::= g |>" := (upd f g r)
  (at level 1, left associativity, f at level 9, g at level 200) : kad_scope.
Notation "r <| f := v |>" := (upd f (fun _ => v) r)
  (at level 1, left associativity, f at level 9, v at level 200) : kad_scope.
Open Scope kad_scope.

(** ** Outcomes: the value computed, or the reason the C++ behaviour is lost *)

Inductive fault :=
  | OutOfRange     (* string or vector index outside the object *)
  | NullDeref      (* dereference of an empty shared_ptr *)
  | AssertFailed   (* a failed assert() *)
  | UseAfterFree   (* use of an object whose owner is gone *)
  | Uncaught       (* an exception nobody catches: std::terminate *)
  | SignedOverflow (* a signed sum, difference or increment out of its range *)
  | DataRace       (* two threads at one variable, unsynchronised *)
  | OutOfFuel.     (* a loop that did not end within the fuel given *)

Inductive outcome (A : Type) :=
  | Ok (a : A)
  | Fault (e : fault).
Arguments Ok {A} _.
Arguments Fault {A} _.

#[global] Instance fault_eq_dec : EqDecision fault.
Proof. solve_decision. Defined.

#[global] Instance outcome_ret : MRet outcome := fun A a => Ok a.
#[global] Instance outcome_bind : MBind outcome := fun A B f m =>
  match m with Ok a => f a | Fault e => Fault e end.
#[global] Instance outcome_fmap : FMap outcome := fun A B f m =>
  match m with Ok a => Ok (f a) | Fault e => Fault e end.

(** ** The state monad of the handlers *)

Definition ST (S A : Type) : Type := S -> outcome (A * S).

#[global] Instance ST_ret S : MRet (ST S) := fun A a s => Ok (a, s).
#[global] Instance ST_bind S : MBind (ST S) := fun A B f m s =>
  match m s with Ok (a, s') => f a s' | Fault e => Fault e end.

Definition gets {S A} (f : S -> A) : ST S A := fun s => Ok (f s, s).
Definition modify {S} (f : S -> S) : ST S unit := fun s => Ok (tt, f s).
Definition run {S A} (f : S -> A * S) : ST S A := fun s => Ok (f s).
Definition raise {S A} (e : fault) : ST S A := fun _ => Fault e.
Definition lift {S A} (o : outcome A) : ST S A := fun s =>
  match o with Ok a => Ok (a, s) | Fault e => Fault e end.
Definition from_some {S A} (e : fault) (o : option A) : ST S A :=
  match o with Some a => mret a | None => raise e end.
Definition when {S} (b : bool) (m : ST S unit) : ST S unit :=
  if b then m else mret tt.

(** [for (auto& x : l) f(x);] *)
Fixpoint for_each {S A} (l : list A) (f : A -> ST S unit) : ST S unit :=
  match l with
  | [] => mret tt
  | x :: l' => _ ← f x; for_each l' f
  end.

(** [for (...) acc = f(acc, x);] where an iteration can fail. *)
Fixpoint fold_m {A B} (f : B -> A -> outcome B) (l : list A) (b : B) : outcome B :=
  match l with
  | [] => Ok b
  | x :: l' => b' ← f b x; fold_m f l' b'
  end.

(** ** Weakest preconditions *)

(** [wp m Q s]: from [s], [m] runs without a fault and ends with [Q]. *)
Definition wp {S A} (m : ST S A) (Q : A -> S -> Prop) (s : S) : Prop :=
  match m s with Ok (a, s') => Q a s' | Fault _ => False end.

(** [wlp m Q s]: if [m] ends without a fault from [s], then with [Q]. *)
Definition wlp {S A} (m : ST S A) (Q : A -> S -> Prop) (s : S) : Prop :=
  match m s with Ok (a, s') => Q a s' | Fault _ => True end.

(** ** Fixed-width integers *)

Definition u8 (z : Z) : Z := z mod 2 ^ 8.
Definition u16 (z : Z) : Z := z mod 2 ^ 16.
Definition u32 (z : Z) : Z := z mod 2 ^ 32.
Definition u64 (z : Z) : Z := z mod 2 ^ 64.
Definition i32 (z : Z) : Z := (z + 2 ^ 31) mod 2 ^ 32 - 2 ^ 31.
Definition i64 (z : Z) : Z := (z + 2 ^ 63) mod 2 ^ 64 - 2 ^ 63.

(** Signed arithmetic: [z] is what a sum or a difference of [w]-bit signed
    integers should be; [++] and [--] of an int. *)
Definition fits (w z : Z) : Prop := - 2 ^ (w - 1) <= z < 2 ^ (w - 1).
Definition signed (w z : Z) : outcome Z :=
  if (- 2 ^ (w - 1) <=? z) && (z <? 2 ^ (w - 1)) then Ok z else Fault SignedOverflow.
Definition int_inc (c : Z) : outcome Z :=
  if c =? 2 ^ 31 - 1 then Fault SignedOverflow else Ok (c + 1).
Definition int_dec (c : Z) : outcome Z :=
  if c =? - 2 ^ 31 then Fault SignedOverflow else Ok (c - 1).

(** ** Byte strings *)

(** [s\[i\]] of a [std::string]: position [size()] reads the terminating zero,
    anything further is outside the object. *)
Definition str_at (s : string) (i : nat) : option ascii :=
  match String.get i s with
  | Some c => Some c
  | None => if (i =? String.length s)%nat then Some Ascii.zero else None
  end.

Definition str_empty (s : string) : bool := (String.length s =? 0)%nat.

Definition string_ltb (a b : string) : bool :=
  match String.compare a b with Lt => true | _ => false end.

(** Binary digits of a positive number, as text and back. *)
Fixpoint pos_digits (p : positive) : string :=
  match p with
  | xH => EmptyString
  | xO p' => String "0" (pos_digits p')
  | xI p' => String "1" (pos_digits p')
  end.

Fixpoint digits_pos (s : string) : option positive :=
  match s with
  | EmptyString => Some xH
  | String c s' =>
      p ← digits_pos s';
      if decide (c = "0"%char) then Some (xO p)
      else if decide (c = "1"%char) then Some (xI p) else None
  end.

(** ** Ordered views of a map, as [std::map] iterates it *)

Fixpoint insert_by {A} (lt : A -> A -> bool) (x : A) (l : list A) : list A :=
  match l with
  | [] => [x]
  | y :: l' => if lt y x then y :: insert_by lt x l' else x :: l
  end.

Definition sort_by {A} (lt : A -> A -> bool) (l : list A) : list A :=
  foldr (insert_by lt) [] l.

(** The entries of a [std::map] in key order. *)
Definition entries_by {K V} `{Countable K} (lt : K -> K -> bool) (m : gmap K V)
    : list (K * V) :=
  sort_by (fun a b => lt a.1 b.1) (map_to_list m).

(** ** Tactics *)

(** Split the innermost boolean test or option match of the goal. *)
Ltac case_inner :=
  match goal with
  | |- context [match ?x with _ => _ end] =>
      lazymatch x with
      | context [match _ with _ => _ end] => fail
      | _ => let E := fresh "E" in destruct x eqn:E
      end
  end.

(** Split the innermost test of a hypothesis. *)
Ltac case_inner_in H :=
  match type of H with
  | context [match ?x with _ => _ end] =>
      lazymatch x with
      | context [match _ with _ => _ end] => fail
      | _ => let E := fresh "E" in destruct x eqn:E
      end
  end.

(** Split conjunctions, and nothing that unfolds to one. *)
Ltac splits := repeat match goal with |- _ /\ _ => split end.

(** Booleans of the code as propositions. *)
Ltac bool_props :=
  repeat match goal with
  | H : (_ && _)%bool = true |- _ => apply andb_prop in H as [? ?]
  | H : (_ || _)%bool = false |- _ => apply orb_false_elim in H as [? ?]
  | H : negb _ = true |- _ => apply negb_true_iff in H
  | H : negb _ = false |- _ => apply negb_false_iff in H
  | H : (_ =? _)%Z = true |- _ => apply Z.eqb_eq in H
  | H : (_ =? _)%Z = false |- _ => apply Z.eqb_neq in H
  | H : (_ <? _)%Z = true |- _ => apply Z.ltb_lt in H
  | H : (_ <? _)%Z = false |- _ => apply Z.ltb_ge in H
  | H : (_ <=? _)%Z = true |- _ => apply Z.leb_le in H
  | H : (_ <=? _)%Z = false |- _ => apply Z.leb_gt in H
  | H : (_ =? _)%nat = true |- _ => apply Nat.eqb_eq in H
  | H : (_ =? _)%nat = false |- _ => apply Nat.eqb_neq in H
  | H : (_ <? _)%nat = true |- _ => apply Nat.ltb_lt in H
  | H : (_ <? _)%nat = false |- _ => apply Nat.ltb_ge in H
  | H : (_ =? _)%string = true |- _ => apply String.eqb_eq in H
  | H : (_ =? _)%string = false |- _ => apply String.eqb_neq in H
  | H : bool_decide _ = true |- _ => apply bool_decide_eq_true in H
  | H : bool_decide _ = false |- _ => apply bool_decide_eq_false in H
  end.

(** ** Lemmas: monads *)

Section monad_lemmas.
Context {S A B : Type}.
Implicit Types (s : S) (m : ST S A) (f : A -> ST S B).

Lemma bind_unfold m f s :
  (m ≫= f) s = match m s with Ok (a, s') => f a s' | Fault e => Fault e end.
Proof. reflexivity. Qed.

Lemma wp_bind m f (Q : B -> S -> Prop) s :
  wp m (fun a s' => wp (f a) Q s') s -> wp (m ≫= f) Q s.
Proof.
  unfold wp. rewrite bind_unfold. by destruct (m s) as [[a s']|e].
Qed.

Lemma wlp_bind m f (Q : B -> S -> Prop) s :
  wlp m (fun a s' => wlp (f a) Q s') s -> wlp (m ≫= f) Q s.
Proof.
  unfold wlp. rewrite bind_unfold. by destruct (m s) as [[a s']|e].
Qed.

Lemma wp_mono m (P Q : A -> S -> Prop) s :
  (forall a s', P a s' -> Q a s') -> wp m P s -> wp m Q s.
Proof. unfold wp. destruct (m s) as [[a s']|e]; auto. Qed.

Lemma wlp_mono m (P Q : A -> S -> Prop) s :
  (forall a s', P a s' -> Q a s') -> wlp m P s -> wlp m Q s.
Proof. unfold wlp. destruct (m s) as [[a s']|e]; auto. Qed.

Lemma wp_wlp m (Q : A -> S -> Prop) s : wp m Q s -> wlp m Q s.
Proof. unfold wp, wlp. by destruct (m s) as [[a s']|e]. Qed.

Lemma wp_ret (a : A) (Q : A -> S -> Prop) s : Q a s -> wp (mret a) Q s.
Proof. done. Qed.

Lemma wlp_ret (a : A) (Q : A -> S -> Prop) s : Q a s -> wlp (mret a) Q s.
Proof. done. Qed.

Lemma wlp_elim m (Q : A -> S -> Prop) s a s' :
  wlp m Q s -> m s = Ok (a, s') -> Q a s'.
Proof. unfold wlp. intros H E. by rewrite E in H. Qed.

Lemma wp_elim m (Q : A -> S -> Prop) s :
  wp m Q s -> exists a s', m s = Ok (a, s') /\ Q a s'.
Proof. unfold wp. destruct (m s) as [[a s']|e]; naive_solver. Qed.
End monad_lemmas.

(** One step of a program on a known state, for rewriting. *)
Section step_lemmas.
Context {S A B : Type}.
Implicit Types (s : S) (m : ST S A) (g : A -> ST S B).

Lemma step_bind m g s a s' : m s = Ok (a, s') -> (m ≫= g) s = g a s'.
Proof. intros E. by rewrite bind_unfold, E. Qed.
Lemma step_fault m g s e : m s = Fault e -> (m ≫= g) s = Fault e.
Proof. intros E. by rewrite bind_unfold, E. Qed.
Lemma step_assoc {C} (m : ST S C) (f : C -> ST S A) g s :
  ((m ≫= f) ≫= g) s = (m ≫= (fun x => f x ≫= g)) s.
Proof. rewrite !bind_unfold. by destruct (m s) as [[c s']|]. Qed.
Lemma step_ret a g s : (mret a ≫= g) s = g a s.
Proof. done. Qed.
Lemma step_gets (f : S -> A) g s : (gets f ≫= g) s = g (f s) s.
Proof. done. Qed.
Lemma step_modify (f : S -> S) (k : unit -> ST S B) s : (modify f ≫= k) s = k tt (f s).
Proof. done. Qed.
Lemma step_run (f : S -> A * S) g s : (run f ≫= g) s = g (f s).1 (f s).2.
Proof. rewrite bind_unfold. unfold run. by destruct (f s). Qed.
Lemma step_lift a g s : (lift (Ok a) ≫= g) s = g a s.
Proof. done. Qed.
Lemma step_some e a g s : (from_some e (Some a) ≫= g) s = g a s.
Proof. done. Qed.
End step_lemmas.

Lemma wp_for_each {S A} (l : list A) (f : A -> ST S unit) (I : S -> Prop) s :
  I s ->
  (forall x s', x ∈ l -> I s' -> wp (f x) (fun _ => I) s') ->
  wp (for_each l f) (fun _ => I) s.
Proof.
  revert s. induction l as [|x l IH]; intros s Hs Hf; [done|]. simpl.
  apply wp_bind. eapply wp_mono; [|apply Hf; [left|done]].
  intros [] s' Hs'. apply IH; [done|]. intros y s'' Hy. apply Hf. by right.
Qed.

Lemma wlp_for_each {S A} (l : list A) (f : A -> ST S unit) (I : S -> Prop) s :
  I s ->
  (forall x s', x ∈ l -> I s' -> wlp (f x) (fun _ => I) s') ->
  wlp (for_each l f) (fun _ => I) s.
Proof.
  revert s. induction l as [|x l IH]; intros s Hs Hf; [done|]. simpl.
  apply wlp_bind. eapply wlp_mono; [|apply Hf; [left|done]].
  intros [] s' Hs'. apply IH; [done|]. intros y s'' Hy. apply Hf. by right.
Qed.

(** ** Lemmas: ordered views *)

Lemma insert_by_perm {A} (lt : A -> A -> bool) x l : insert_by lt x l ≡ₚ x :: l.
Proof.
  induction l as [|y l IH]; simpl; [done|].
  destruct (lt y x); [|done]. rewrite IH. apply Permutation_swap.
Qed.

Lemma sort_by_perm {A} (lt : A -> A -> bool) l : sort_by lt l ≡ₚ l.
Proof.
  induction l as [|x l IH]; simpl; [done|]. by rewrite insert_by_perm, IH.
Qed.

Lemma entries_by_perm {K V} `{Countable K} (lt : K -> K -> bool) (m : gmap K V) :
  entries_by lt m ≡ₚ map_to_list m.
Proof. apply sort_by_perm. Qed.

Lemma elem_of_entries {K V} `{Countable K} (lt : K -> K -> bool) (m : gmap K V) k v :
  (k, v) ∈ entries_by lt m <-> m !! k = Some v.
Proof. by rewrite entries_by_perm, elem_of_map_to_list. Qed.

Lemma length_entries {K V} `{Countable K} (lt : K -> K -> bool) (m : gmap K V) :
  length (entries_by lt m) = size m.
Proof. by rewrite entries_by_perm, length_map_to_list. Qed.

Lemma NoDup_fst_entries {K V} `{Countable K} (lt : K -> K -> bool) (m : gmap K V) :
  NoDup (entries_by lt m).*1.
Proof.
  rewrite entries_by_perm. apply NoDup_fst_map_to_list.
Qed.

(** A sorted list cut by a predicate that, once false, stays false. *)
Lemma sorted_filter_take {A} (R : A -> A -> Prop) (P : A -> Prop) `{!forall x, Decision (P x)} l :
  StronglySorted R l -> (forall x y, R x y -> P y -> P x) ->
  filter P l = take (length (filter P l)) l /\
  filter (fun x => ~ P x) l = drop (length (filter P l)) l.
Proof.
  intros Hs Hd. induction Hs as [|x l Hs IH Hx]; [done|]. destruct IH as [IH1 IH2].
  rewrite !filter_cons. destruct (decide (P x)) as [Hp|Hp].
  - rewrite (decide_False (P := ~ P x)) by tauto. simpl. by rewrite <- IH1, <- IH2.
  - rewrite (decide_True (P := ~ P x)) by done.
    assert (forall y, y ∈ l -> ~ P y) as Hl.
    { intros y Hy HPy. rewrite Forall_forall in Hx. eauto. }
    assert (filter P l = []) as E.
    { clear -Hl. induction l as [|y l IH]; [done|]. rewrite filter_cons.
      rewrite decide_False by (apply Hl; left). apply IH. intros z Hz. apply Hl. by right. }
    rewrite E in *. simpl in *. by rewrite IH2, drop_0.
Qed.

Lemma filter_length_mono {A} (P Q : A -> Prop) `{!forall x, Decision (P x)}
    `{!forall x, Decision (Q x)} l :
  (forall x, x ∈ l -> P x -> Q x) -> (length (filter P l) <= length (filter Q l))%nat.
Proof.
  induction l as [|x l IH]; intros HPQ; [done|]. rewrite !filter_cons.
  assert (length (filter P l) <= length (filter Q l))%nat by (apply IH; intros y Hy; apply HPQ; by right).
  destruct (decide (P x)) as [Hx|Hx]; [rewrite decide_True by (apply HPQ; [left|done])|case_decide];
    simpl; lia.
Qed.

Lemma filter_length_lt {A} (P Q : A -> Prop) `{!forall x, Decision (P x)}
    `{!forall x, Decision (Q x)} l y :
  (forall x, x ∈ l -> P x -> Q x) -> y ∈ l -> Q y -> ~ P y ->
  (length (filter P l) < length (filter Q l))%nat.
Proof.
  intros HPQ Hy HQ HP. apply elem_of_Permutation in Hy as [l' Hl]. rewrite Hl in *.
  rewrite !filter_cons, decide_False, (decide_True (P := Q y)) by done. simpl.
  apply Nat.lt_succ_r, filter_length_mono. intros x Hx. apply HPQ. rewrite Hl. by right.
Qed.

Lemma StronglySorted_filter {A} (R : A -> A -> Prop) (P : A -> Prop) `{!forall x, Decision (P x)} l :
  StronglySorted R l -> StronglySorted R (filter P l).
Proof.
  induction 1 as [|x l Hs IH Hx]; [constructor|]. rewrite filter_cons. case_decide; [|done].
  constructor; [done|]. rewrite Forall_forall in *. intros y [_ Hy]%list_elem_of_filter. auto.
Qed.

Lemma insert_by_sorted {A} (lt : A -> A -> bool) x l :
  (forall a b c, lt b a = false -> lt c b = false -> lt c a = false) ->
  (forall a b, lt a b = true -> lt b a = false) ->
  StronglySorted (fun a b => lt b a = false) l ->
  StronglySorted (fun a b => lt b a = false) (insert_by lt x l).
Proof.
  intros Ht Ha Hs. induction Hs as [|y l Hs IH Hy]; simpl; [by repeat constructor|].
  destruct (lt y x) eqn:E.
  - constructor; [done|]. apply Forall_forall. intros z.
    rewrite insert_by_perm. intros [->|Hz]%elem_of_cons; [by apply Ha|].
    rewrite Forall_forall in Hy. by apply Hy.
  - constructor; [by constructor|]. constructor; [done|].
    rewrite Forall_forall in *. intros z Hz. eapply Ht; [exact E|]. by apply Hy.
Qed.

Lemma sort_by_sorted {A} (lt : A -> A -> bool) l :
  (forall a b c, lt b a = false -> lt c b = false -> lt c a = false) ->
  (forall a b, lt a b = true -> lt b a = false) ->
  StronglySorted (fun a b => lt b a = false) (sort_by lt l).
Proof.
  intros Ht Ha. induction l as [|x l IH]; [constructor|]. by apply insert_by_sorted.
Qed.

Lemma entries_Z_sorted {V} (m : gmap Z V) :
  StronglySorted (fun a b => a.1 <= b.1) (entries_by Z.ltb m).
Proof.
  assert (StronglySorted (fun a b : Z * V => (b.1 <? a.1)%Z = false) (entries_by Z.ltb m)) as Hs.
  { apply sort_by_sorted; intros; bool_props; rewrite Z.ltb_ge in *; lia. }
  induction Hs as [|x l Hs IH Hx]; constructor; [done|].
  eapply Forall_impl; [exact Hx|]. intros y Hy. by apply Z.ltb_ge.
Qed.

Lemma digits_pos_digits p : digits_pos (pos_digits p) = Some p.
Proof. induction p as [p IH|p IH|]; simpl; by rewrite ?IH. Qed.

(** ** Lemmas: lists *)

Lemma filter_ext_in {A} (P Q : A -> Prop) `{!forall x, Decision (P x)} `{!forall x, Decision (Q x)}
    (l : list A) :
  (forall x, x ∈ l -> (P x <-> Q x)) -> filter P l = filter Q l.
Proof.
  induction l as [|x l IH]; intros HPQ; [done|]. rewrite !filter_cons.
  rewrite IH by (intros y Hy; apply HPQ; by right).
  destruct (decide (P x)) as [Hx|Hx], (decide (Q x)) as [Hy|Hy]; try done;
    apply HPQ in Hx || (apply HPQ in Hy); try done; by left.
Qed.

Lemma NoDup_fmap_filter {A B} (f : A -> B) (P : A -> Prop) `{!forall x, Decision (P x)} l :
  NoDup (f <$> l) -> NoDup (f <$> filter P l).
Proof.
  induction l as [|x l IH]; [done|]. rewrite fmap_cons, filter_cons. intros [Hx Hn]%NoDup_cons.
  case_decide; [|by apply IH]. rewrite fmap_cons. apply NoDup_cons. split; [|by apply IH].
  intros (y & E & [_ Hy]%list_elem_of_filter)%list_elem_of_fmap.
  apply Hx, list_elem_of_fmap. by exists y.
Qed.

Lemma map_ext_elem {A B} (f g : A -> B) (l : list A) :
  (forall x, x ∈ l -> f x = g x) -> f <$> l = g <$> l.
Proof. intros Hfg. apply list_fmap_ext. intros i x Hx%list_elem_of_lookup_2. auto. Qed.

(** ** Lemmas: integers *)

Lemma u8_range z : 0 <= u8 z < 2 ^ 8.
Proof. apply Z.mod_pos_bound. lia. Qed.
Lemma u32_range z : 0 <= u32 z < 2 ^ 32.
Proof. apply Z.mod_pos_bound. lia. Qed.
Lemma signed_fits w z : fits w z -> signed w z = Ok z.
Proof. unfold fits, signed. intros [H1 H2]. by rewrite (proj2 (Z.leb_le _ _) H1), (proj2 (Z.ltb_lt _ _) H2). Qed.
Lemma signed_overflow w z : ~ fits w z -> signed w z = Fault SignedOverflow.
Proof.
  unfold fits, signed. intros Hz. destruct (Z.leb_spec (- 2 ^ (w - 1)) z); [|done].
  destruct (Z.ltb_spec z (2 ^ (w - 1))); [|done]. by destruct Hz.
Qed.
#[global] Instance fits_dec w z : Decision (fits w z).
Proof. unfold fits. apply _. Defined.
Lemma int_inc_below c : c < 2 ^ 31 - 1 -> int_inc c = Ok (c + 1).
Proof. intros. unfold int_inc. destruct (Z.eqb_spec c (2 ^ 31 - 1)); [lia|done]. Qed.
Lemma int_dec_above c : - 2 ^ 31 < c -> int_dec c = Ok (c - 1).
Proof. intros. unfold int_dec. destruct (Z.eqb_spec c (- 2 ^ 31)); [lia|done]. Qed.
Lemma u16_id z : 0 <= z < 2 ^ 16 -> u16 z = z.
Proof. apply Z.mod_small. Qed.
Lemma i32_id z : - 2 ^ 31 <= z < 2 ^ 31 -> i32 z = z.
Proof. intros. unfold i32. rewrite Z.mod_small; lia. Qed.

(** ** Lemmas: strings *)

#[local] Arguments String.append _ _ : simpl nomatch.

Lemma string_app_assoc s t u : ((s +:+ t) +:+ u = s +:+ (t +:+ u))%string.
Proof. induction s as [|c s IH]; simpl; congruence. Qed.

Lemma string_app_inj_l s t u : (s +:+ t = s +:+ u)%string -> t = u.
Proof. induction s as [|c s IH]; simpl; [done|]. intros [= E]. auto. Qed.

Lemma pos_digits_prefix c p q s t :
  c <> "0"%char -> c <> "1"%char ->
  (pos_digits p +:+ String c s = pos_digits q +:+ String c t)%string -> p = q /\ s = t.
Proof.
  intros H0 H1. revert q.
  induction p as [p IH|p IH|]; intros [q|q|]; simpl; intros [= E]; try done;
    try (by edestruct IH as [-> ->]).
Qed.

Lemma get_is_Some s i : (i < String.length s)%nat <-> is_Some (String.get i s).
Proof.
  revert i. induction s as [|c s IH]; intros [|i]; simpl.
  - split; [lia|by intros []].
  - split; [lia|by intros []].
  - split; [by eexists|lia].
  - rewrite <- IH. lia.
Qed.

Lemma str_at_get s i : (i < String.length s)%nat -> str_at s i = String.get i s.
Proof. intros [c Hc]%get_is_Some. unfold str_at. by rewrite Hc. Qed.

Lemma str_at_lt s i : (i < String.length s)%nat -> is_Some (str_at s i).
Proof. intros Hi. rewrite str_at_get by done. by apply get_is_Some. Qed.

Lemma str_at_oob s i : (String.length s < i)%nat -> str_at s i = None.
Proof.
  unfold str_at. revert i. induction s as [|c s IH]; intros [|i] Hi; simpl in *; try lia; [done|].
  apply IH. lia.
Qed.

Create HintDb kad.
#[export] Hint Resolve wp_ret wlp_ret wp_wlp : kad.

(** ** Tactics on programs and records *)

(** Two records are equal when their fields are. *)
Ltac record_ext :=
  match goal with
  | |- @eq ?R ?a ?b =>
      let E := fresh "E" in
      assert (forall r : R, eta_expand r = r) as E by (by intros []);
      refine (eq_trans (eq_sym (E a)) (eq_trans _ (E b))); clear E;
      let ta := eval hnf in (eta_expand a) in
      let tb := eval hnf in (eta_expand b) in
      change (ta = tb); f_equal
  end.

(** Run the monadic program of the goal as far as its state is known. *)
Ltac mstep :=
  first [rewrite step_ret | rewrite step_gets | rewrite step_modify | rewrite step_run
        | rewrite step_lift | rewrite step_some | rewrite step_assoc]; cbv beta.
Ltac msteps := repeat mstep.
