(* ===== verification/Invariants.v ===== *)
(** Programs that keep an invariant of the state. [ensures I P m]: run where [I]
    holds, [m] ends, unless it faults, where [I] holds, with a result that
    satisfies [P]. [always I m]: run where [I] holds, [m] does not fault and
    ends where [I] holds. The files that prove an invariant of a component
    instantiate the rules below and add those of the component's primitives. *)

From S2P Require Import Prelude.

Definition ensures {S A} (I : S -> Prop) (P : A -> Prop) (m : ST S A) : Prop :=
  forall s, I s -> wlp m (fun a s' => P a /\ I s') s.

Definition always {S A} (I : S -> Prop) (m : ST S A) : Prop :=
  forall s, I s -> wp m (fun _ s' => I s') s.

Section ensures.
Context {S : Type} {I : S -> Prop}.
Notation ensures := (ensures I).

Lemma ensures_ret {A} (P : A -> Prop) a : P a -> ensures P (mret a).
Proof. intros Ha s Hs. by split. Qed.

Lemma ensures_bind {A B} (P : A -> Prop) (Q : B -> Prop) (m : ST S A) (f : A -> ST S B) :
  ensures P m -> (forall a, P a -> ensures Q (f a)) -> ensures Q (m ≫= f).
Proof.
  intros Hm Hf s Hs. apply wlp_bind. eapply wlp_mono; [|by apply Hm].
  intros a s' [Ha Hs']. by apply Hf.
Qed.

Lemma ensures_mono {A} (P Q : A -> Prop) m : ensures P m -> (forall a, P a -> Q a) -> ensures Q m.
Proof. intros Hm HPQ s Hs. eapply wlp_mono; [|by apply Hm]. intros a s' [Ha Hs']. auto. Qed.

Lemma ensures_gets {A} (P : A -> Prop) (f : S -> A) :
  (forall s, I s -> P (f s)) -> ensures P (gets f).
Proof. intros Hf s Hs. split; auto. Qed.

Lemma ensures_raise {A} (P : A -> Prop) e : ensures P (raise e).
Proof. by intros s Hs. Qed.

Lemma ensures_lift {A} (P : A -> Prop) (o : outcome A) :
  (forall a, o = Ok a -> P a) -> ensures P (lift o).
Proof. intros Ho s Hs. destruct o; [|done]. split; auto. Qed.

Lemma ensures_from_some {A} (P : A -> Prop) e (o : option A) :
  (forall a, o = Some a -> P a) -> ensures P (from_some e o).
Proof. intros Ho s Hs. destruct o; [|done]. split; auto. Qed.

Lemma ensures_when (P : unit -> Prop) b (m : ST S unit) : P tt -> ensures P m -> ensures P (when b m).
Proof. destruct b; [done|]. intros Hp _. by apply ensures_ret. Qed.

Lemma ensures_for_each {A} (l : list A) (f : A -> ST S unit) :
  (forall x, x ∈ l -> ensures (fun _ => True) (f x)) -> ensures (fun _ => True) (for_each l f).
Proof.
  induction l as [|x l IH]; intros Hf; [by apply ensures_ret|].
  eapply ensures_bind; [apply Hf; left|]. intros [] _. apply IH. intros y Hy. apply Hf. by right.
Qed.

Lemma ensures_modify (f : S -> S) : (forall s, I s -> I (f s)) -> ensures (fun _ => True) (modify f).
Proof. intros Hf s Hs. split; [done|by apply Hf]. Qed.

Lemma ensures_run {A} (P : A -> Prop) (f : S -> A * S) :
  (forall s, I s -> P (f s).1 /\ I (f s).2) -> ensures P (run f).
Proof. intros Hf s Hs. unfold wlp, run. specialize (Hf s Hs). by destruct (f s). Qed.

End ensures.

Section always.
Context {S : Type} {I : S -> Prop}.
Notation always := (always I).

Lemma always_ret {A} (a : A) : always (mret a).
Proof. by intros s Hs. Qed.

Lemma always_bind {A B} (m : ST S A) (f : A -> ST S B) :
  always m -> (forall a, always (f a)) -> always (m ≫= f).
Proof.
  intros Hm Hf s Hs. apply wp_bind. eapply wp_mono; [|by apply Hm]. intros a s' Hs'. by apply Hf.
Qed.

Lemma always_gets {A} (f : S -> A) : always (gets f).
Proof. by intros s Hs. Qed.

Lemma always_when b (m : ST S unit) : always m -> always (when b m).
Proof. destruct b; [done|]. intros _. apply always_ret. Qed.

Lemma always_for_each {A} (l : list A) (f : A -> ST S unit) :
  (forall x, always (f x)) -> always (for_each l f).
Proof. intros Hf s Hs. by apply wp_for_each; [|intros x s' _; apply Hf]. Qed.

Lemma always_modify (f : S -> S) : (forall s, I s -> I (f s)) -> always (modify f).
Proof. intros Hf s Hs. by apply Hf. Qed.

(** What the invariant says of the state makes a read succeed. *)
Lemma always_some {A B} (o : S -> option A) e (f : A -> ST S B) :
  (forall s, I s -> is_Some (o s)) -> (forall a, always (f a)) ->
  always (a ← gets o; a ← from_some e a; f a).
Proof.
  intros Ho Hf s Hs. destruct (Ho s Hs) as [a E]. unfold wp. msteps. rewrite E. msteps. by apply Hf.
Qed.

Lemma always_read {A} (o : S -> option A) e :
  (forall s, I s -> is_Some (o s)) -> always (a ← gets o; from_some e a).
Proof. intros Ho s Hs. destruct (Ho s Hs) as [a E]. unfold wp. msteps. by rewrite E. Qed.

Lemma always_ensures {A} (m : ST S A) : always m -> ensures I (fun _ => True) m.
Proof.
  intros Hm s Hs. eapply wlp_mono; [|by apply wp_wlp, Hm]. by intros a s' Hs'.
Qed.

Lemma always_after {A} (m : ST S A) s a s' : always m -> I s -> m s = Ok (a, s') -> I s'.
Proof. intros Hm Hs E. destruct (wp_elim _ _ _ (Hm s Hs)) as (a1 & s1 & E1 & H1). congruence. Qed.

(** Not to fault and to keep a stronger invariant when not faulting. *)
Lemma always_and {A} (J : S -> Prop) (P : A -> Prop) (m : ST S A) s :
  always m -> ensures J P m -> I s -> J s -> exists a s', m s = Ok (a, s') /\ P a /\ I s' /\ J s'.
Proof.
  intros Hm HJ Hs Hs'. destruct (wp_elim _ _ _ (Hm s Hs)) as (a & s1 & E & H1).
  destruct (wlp_elim _ _ _ _ _ (HJ s Hs') E) as [Ha H2]. eauto 10.
Qed.
End always.
