(* ===== verification/Externals.v ===== *)
(** The code the repository calls but does not contain, as interfaces: the
    constants and hash functions of xbase and xpbase, the kadmlia-key and xip
    objects, the bloom filter, the configuration file. Each class lists the
    operations the sources use; each [...Laws] class states the documented
    behaviour some theorems rely on. [Examples] at the end instantiates every
    interface with concrete functions. *)

From stdpp Require Import pretty.
From S2P Require Import Prelude.

(** ** xbase / xpbase: constants and pure functions *)

Class Xbase := {
  (* xpbase/base/top_utils.h *)
  kNodeIdSize : nat;
  kRoot : Z; kClient : Z; kEdgeXVPN : Z; kEdgeTopMessage : Z; kEdgeTopStorage : Z;
  kXVPN : Z; kTopMessage : Z; kTopStorage : Z;
  kInvalidType : Z; kRoleInvalid : Z;
  (* xpbase/base/error_code.h *)
  kKadSuccess : Z; kKadFailed : Z; kKadTimeout : Z; kKadNodeHasAdded : Z;
  kKadNodeNotExists : Z; kKadForbidden : Z;
  (* the message types *)
  kKadConnectRequest : Z; kKadHandshake : Z;
  kKadBootstrapJoinRequest : Z; kKadBootstrapJoinResponse : Z;
  kKadFindNodesRequest : Z; kKadFindNodesResponse : Z; kKadAck : Z;
  kKadHeartbeatRequest : Z; kKadHeartbeatResponse : Z;
  kKadNatDetectRequest : Z; kKadNatDetectResponse : Z;
  kKadNatDetectHandshake2Node : Z; kKadNatDetectHandshake2Boot : Z;
  kKadNatDetectFinish : Z; kKadDropNodeRequest : Z;
  (* xbase/xpacket.h *)
  enum_xpacket_priority_type_routine : Z;
  enum_xpacket_priority_type_priority : Z;
  enum_xpacket_priority_type_flash : Z;
  enum_xip_type_dynamic : Z;
  (* xgossip/include/gossip_utils.h *)
  kGossipSendoutMaxTimes : Z; kGossipBloomfilter : Z;
  kGossipSwitchLayerCount : Z; kGossipBloomfilterIgnoreLevel : Z;
  (* xbase/xhash.h, xbase/xutl.h, xpbase/base/check_cast.h *)
  xhash32 : string -> Z;
  xhash64 : string -> Z;
  GetStringSha128 : string -> string;
  tostring : Z -> string;            (* base::xstring_utl::tostring *)
  fmt_id : Z -> string;              (* StringUtil::str_fmt("%d_", id) *)
  check_cast_u8 : Z -> Z;            (* check_cast<uint8_t> *)
  check_cast_string : Z -> string    (* check_cast<std::string>(port) *) }.

Class XbaseLaws `{Xbase} : Prop := {
  kNodeIdSize_pos : (0 < kNodeIdSize)%nat;
  kNodeIdSize_small : Z.of_nat kNodeIdSize < 2 ^ 20;
  kad_codes_distinct :
    NoDup [kKadSuccess; kKadFailed; kKadTimeout; kKadNodeHasAdded;
           kKadNodeNotExists; kKadForbidden];
  message_types_distinct :
    NoDup [kKadConnectRequest; kKadHandshake; kKadBootstrapJoinRequest;
           kKadBootstrapJoinResponse; kKadFindNodesRequest; kKadFindNodesResponse;
           kKadAck; kKadHeartbeatRequest; kKadHeartbeatResponse;
           kKadNatDetectRequest; kKadNatDetectResponse; kKadNatDetectHandshake2Node;
           kKadNatDetectHandshake2Boot; kKadNatDetectFinish; kKadDropNodeRequest];
  xhash32_range s : 0 <= xhash32 s < 2 ^ 32;
  xhash64_range s : 0 <= xhash64 s < 2 ^ 64;
  tostring_inj : Inj (=) (=) tostring;
  (* "%d_" prints digits and then an underscore, so a text has one reading *)
  fmt_id_inj a b s t :
    0 <= a < 2 ^ 32 -> 0 <= b < 2 ^ 32 ->
    (fmt_id a +:+ s = fmt_id b +:+ t)%string -> a = b /\ s = t;
  check_cast_u8_id z : 0 <= z < 2 ^ 8 -> check_cast_u8 z = z;
  check_cast_string_inj : Inj (=) (=) check_cast_string }.

(** ** base::KadmliaKey: the object behind a node id *)

Class KadKey := {
  KadmliaKey : Type;
  key_Get : KadmliaKey -> string;
  key_Xip : KadmliaKey -> string;
  key_GetServiceType : KadmliaKey -> Z;
  key_xnetwork_id : KadmliaKey -> Z;
  key_set_xnetwork_id : Z -> KadmliaKey -> KadmliaKey;
  key_set_zone_id : Z -> KadmliaKey -> KadmliaKey;
  GetKadmliaKey_hash : string -> bool -> KadmliaKey; (* GetKadmliaKey(str, tag) *)
  GetKadmliaKey_str : string -> KadmliaKey           (* GetKadmliaKey(str) *) }.

(** ** base::XipParser: the fields of an xip address *)

Class Xip := {
  XipParser : Type;
  xip_default : XipParser;
  xip_of_string : string -> XipParser;
  xip_string : XipParser -> string;
  xip_xnetwork_id : XipParser -> Z;
  xip_set_xip_type : Z -> XipParser -> XipParser;
  xip_set_process_id : Z -> XipParser -> XipParser;
  xip_set_router_id : Z -> XipParser -> XipParser;
  xip_set_switch_id : Z -> XipParser -> XipParser;
  xip_set_local_id : Z -> XipParser -> XipParser }.

(** ** base::Uint64BloomFilter *)

Class Bloom := {
  Uint64BloomFilter : Type;
  bf_new : Z -> Z -> Uint64BloomFilter;          (* bit size, hash count *)
  bf_of_vec : list Z -> Z -> Uint64BloomFilter;  (* words, hash count *)
  bf_Add : string -> Uint64BloomFilter -> Uint64BloomFilter;
  bf_Contain : Uint64BloomFilter -> string -> bool;
  bf_Uint64Vector : Uint64BloomFilter -> list Z }.

(** A bloom filter has no false negatives, never forgets, and is the same
    filter when it is rebuilt from its own words. *)
Class BloomLaws `{Bloom} : Prop := {
  bf_contain_add f x : bf_Contain (bf_Add x f) x = true;
  bf_contain_mono f x y : bf_Contain f y = true -> bf_Contain (bf_Add x f) y = true;
  bf_rebuild_new bits k xs y :
    let f := foldr bf_Add (bf_new bits k) xs in
    bf_Contain (bf_of_vec (bf_Uint64Vector f) k) y = bf_Contain f y;
  bf_rebuild_vec v k xs y :
    let f := foldr bf_Add (bf_of_vec v k) xs in
    bf_Contain (bf_of_vec (bf_Uint64Vector f) k) y = bf_Contain f y;
  bf_words_nonempty bits k xs :
    0 < bits -> bf_Uint64Vector (foldr bf_Add (bf_new bits k) xs) <> [];
  bf_words_nonempty_vec v k xs :
    v <> [] -> bf_Uint64Vector (foldr bf_Add (bf_of_vec v k) xs) <> [] }.

(** Adding one text after the other is adding the reversed list. *)
Lemma foldl_bf_Add `{Bloom} {A} (g : A -> string) (l : list A) f :
  foldl (fun f a => bf_Add (g a) f) f l = foldr bf_Add f (reverse (g <$> l)).
Proof.
  revert f. induction l as [|a l IH]; intros f; [done|]. cbn [foldl fmap list_fmap].
  by rewrite IH, reverse_cons, foldr_app.
Qed.

Lemma bf_contain_all `{BloomLaws} f xs y : y ∈ xs -> bf_Contain (foldr bf_Add f xs) y = true.
Proof.
  induction xs as [|x xs IH]; [by intros ?%elem_of_nil|].
  intros [->|Hin]%elem_of_cons; simpl; [apply bf_contain_add|].
  by apply bf_contain_mono, IH.
Qed.

(** ** base::Config *)

Class Config := {
  config : Type;
  cfg_string : config -> string -> string -> option string;
  cfg_u32 : config -> string -> string -> option Z;
  cfg_u16 : config -> string -> string -> option Z;
  cfg_bool : config -> string -> string -> option bool;
  (* base::ParseEndpoints(text, set): the endpoints of the text are inserted *)
  ParseEndpoints : string -> gset (string * Z);
  (* base::LineParser(text, separator): the fields of the text *)
  LineParser : string -> ascii -> list string }.

(** ** Endpoint texts (base::ParseVecEndpoint) *)

Class Endpoints := {
  ParseVecEndpoint : list string -> gset (string * Z) -> gset (string * Z) }.

(** ** base::ContainTemplate and base::ManagerTemplate

    The bounded memory of hashes behind RumorFilter and the keyed store behind
    RumorMessageManager. *)

Class ContainTemplate := {
  contain : Type;
  ct_FindData : Z -> contain -> bool;
  ct_AddData : Z -> contain -> bool * contain }.

(** What was just added is found. *)
Class ContainLaws `{ContainTemplate} : Prop := {
  ct_find_added x s s' : ct_AddData x s = (true, s') -> ct_FindData x s' = true;
  ct_add_refused x s s' : ct_AddData x s = (false, s') -> s' = s }.

Class ManagerTemplate (V : Type) := {
  manager : Type;
  mt_empty : manager;
  mt_AddData : Z -> V -> manager -> bool * manager;
  mt_DeleteKey : Z -> manager -> manager;
  mt_FindData : Z -> manager -> option V;
  mt_GetAllData : manager -> list V;
  mt_Count : manager -> Z }.

(** ** Concrete instances, used to evaluate the model on examples *)

Module Examples.

(** Four-byte node ids and small, distinct constants; the hashes add the bytes. *)
Definition byte_sum (s : string) : Z :=
  fold_right (fun c acc => (Z.of_N (N_of_ascii c) + 7 * acc) mod 2 ^ 32) 0
    (String.list_ascii_of_string s).

Lemma byte_sum_range s : 0 <= byte_sum s < 2 ^ 32.
Proof.
  unfold byte_sum. destruct (String.list_ascii_of_string s) as [|c l]; simpl; [lia|].
  apply Z.mod_pos_bound. lia.
Qed.

#[export] Instance ex_xbase : Xbase := {|
  kNodeIdSize := 4;
  kRoot := 1; kClient := 2; kEdgeXVPN := 3; kEdgeTopMessage := 4; kEdgeTopStorage := 5;
  kXVPN := 6; kTopMessage := 7; kTopStorage := 8;
  kInvalidType := 2 ^ 64 - 1; kRoleInvalid := 0;
  kKadSuccess := 0; kKadFailed := 1; kKadTimeout := 2; kKadNodeHasAdded := 3;
  kKadNodeNotExists := 4; kKadForbidden := 5;
  kKadConnectRequest := 0; kKadHandshake := 2;
  kKadBootstrapJoinRequest := 3; kKadBootstrapJoinResponse := 4;
  kKadFindNodesRequest := 5; kKadFindNodesResponse := 6; kKadAck := 7;
  kKadHeartbeatRequest := 8; kKadHeartbeatResponse := 9;
  kKadNatDetectRequest := 23; kKadNatDetectResponse := 24;
  kKadNatDetectHandshake2Node := 25; kKadNatDetectHandshake2Boot := 26;
  kKadNatDetectFinish := 27; kKadDropNodeRequest := 28;
  enum_xpacket_priority_type_routine := 0;
  enum_xpacket_priority_type_priority := 1;
  enum_xpacket_priority_type_flash := 2;
  enum_xip_type_dynamic := 1;
  kGossipSendoutMaxTimes := 3; kGossipBloomfilter := 1;
  kGossipSwitchLayerCount := 3; kGossipBloomfilterIgnoreLevel := 1;
  xhash32 := byte_sum; xhash64 := byte_sum; GetStringSha128 s := s;
  tostring := pretty;
  fmt_id z := (pos_digits (encode z) +:+ "_")%string;
  check_cast_u8 z := z;
  check_cast_string := pretty |}.

#[export] Instance ex_xbase_laws : XbaseLaws.
Proof.
  split; try (intros; apply byte_sum_range).
  - simpl. lia.
  - simpl. lia.
  - by apply (bool_decide_unpack _).
  - by apply (bool_decide_unpack _).
  - intros s. pose proof (byte_sum_range s). simpl. lia.
  - intros x y. apply (inj pretty).
  - intros a b s t _ _. simpl. rewrite !string_app_assoc. simpl.
    intros [?%(inj encode) ?]%pos_digits_prefix; done.
  - done.
  - intros x y. apply (inj pretty).
Qed.

(** A key is its bytes, network and zone. *)
Record key := mkKey { k_bytes : string; k_net : Z; k_zone : Z }.

#[export] Instance ex_kadkey : KadKey := {|
  KadmliaKey := key;
  key_Get := k_bytes;
  key_Xip := k_bytes;
  key_GetServiceType := k_net;
  key_xnetwork_id := k_net;
  key_set_xnetwork_id n k := mkKey (k_bytes k) n (k_zone k);
  key_set_zone_id z k := mkKey (k_bytes k) (k_net k) z;
  GetKadmliaKey_hash s _ := mkKey s 0 0;
  GetKadmliaKey_str s := mkKey s 0 0 |}.

Definition ex_key : KadmliaKey := mkKey "abcd" 1 0.

(** An xip is its type and its four address parts. *)
Record xip_fields := mkXip {
  x_bytes : string; x_type : Z; x_process : Z; x_router : Z; x_switch : Z; x_local : Z }.

#[export] Instance ex_xip : Xip := {|
  XipParser := xip_fields;
  xip_default := mkXip "" 0 0 0 0 0;
  xip_of_string s := mkXip s 0 0 0 0 0;
  xip_string x := (x_bytes x +:+ "/" +:+ pretty (x_type x) +:+ "." +:+
    pretty (x_process x) +:+ "." +:+ pretty (x_router x) +:+ "." +:+
    pretty (x_switch x) +:+ "." +:+ pretty (x_local x))%string;
  xip_xnetwork_id _ := 0;
  xip_set_xip_type t x := mkXip (x_bytes x) t (x_process x) (x_router x) (x_switch x) (x_local x);
  xip_set_process_id v x := mkXip (x_bytes x) (x_type x) v (x_router x) (x_switch x) (x_local x);
  xip_set_router_id v x := mkXip (x_bytes x) (x_type x) (x_process x) v (x_switch x) (x_local x);
  xip_set_switch_id v x := mkXip (x_bytes x) (x_type x) (x_process x) (x_router x) v (x_local x);
  xip_set_local_id v x := mkXip (x_bytes x) (x_type x) (x_process x) (x_router x) (x_switch x) v |}.

(** The exact set of strings as a (perfect) bloom filter; its words are the
    code points of the members. *)
Definition word_of (s : string) : Z := Z.pos (encode s).
Definition of_word (z : Z) : string := default "" (decode (Z.to_pos z)).

#[export] Instance ex_bloom : Bloom := {|
  Uint64BloomFilter := list string;
  bf_new _ _ := [];
  bf_of_vec v _ := of_word <$> tail v;
  bf_Add x f := x :: f;
  bf_Contain f x := bool_decide (x ∈ f);
  bf_Uint64Vector f := 0 :: (word_of <$> f) |}.

Lemma of_word_word_of s : of_word (word_of s) = s.
Proof. unfold of_word, word_of. cbn [Z.to_pos]. by rewrite decode_encode. Qed.

#[export] Instance ex_bloom_laws : BloomLaws.
Proof.
  split.
  - intros f x. apply bool_decide_eq_true. left.
  - intros f x y H%bool_decide_eq_true. apply bool_decide_eq_true. by right.
  - intros bits k xs y f. simpl. apply bool_decide_ext.
    rewrite <- list_fmap_compose.
    rewrite (list_fmap_ext _ id) by (intros; apply of_word_word_of).
    by rewrite list_fmap_id.
  - intros v k xs y f. simpl. apply bool_decide_ext.
    rewrite <- list_fmap_compose.
    rewrite (list_fmap_ext _ id) by (intros; apply of_word_word_of).
    by rewrite list_fmap_id.
  - done.
  - done.
Qed.

(** A configuration is a map from section and key to a text or a number; an
    endpoint list is the text itself with port 0. *)
Definition cfg_num (o : option (string + Z)) : option Z :=
  match o with Some (inr z) => Some z | _ => None end.

#[export] Instance ex_config : Config := {|
  config := gmap (string * string) (string + Z);
  cfg_string c s k := match c !! (s, k) with Some (inl t) => Some t | _ => None end;
  cfg_u32 c s k := cfg_num (c !! (s, k));
  cfg_u16 c s k := cfg_num (c !! (s, k));
  cfg_bool c s k := (fun z => negb (z =? 0)) <$> cfg_num (c !! (s, k));
  ParseEndpoints s := {[ (s, 0) ]};
  LineParser s _ := [s] |}.

#[export] Instance ex_endpoints : Endpoints := {|
  ParseVecEndpoint l s := s ∪ list_to_set ((fun t => (t, 0)) <$> l) |}.

(** A memory that never forgets, and a store that never overwrites. *)
#[export] Instance ex_contain : ContainTemplate := {|
  contain := list Z;
  ct_FindData x s := bool_decide (x ∈ s);
  ct_AddData x s := if bool_decide (x ∈ s) then (false, s) else (true, x :: s) |}.

#[export] Instance ex_contain_laws : ContainLaws.
Proof.
  split; simpl; intros x s s'; destruct (bool_decide (x ∈ s)) eqn:E; intros [= <-]; try done.
  apply bool_decide_eq_true. left.
Qed.

#[export] Instance ex_manager_template V : ManagerTemplate V := {|
  manager := gmap Z V;
  mt_empty := ∅;
  mt_AddData k v m := match m !! k with Some _ => (false, m) | None => (true, <[k := v]> m) end;
  mt_DeleteKey k m := delete k m;
  mt_FindData k m := m !! k;
  mt_GetAllData m := snd <$> map_to_list m;
  mt_Count m := Z.of_nat (size m) |}.

End Examples.
