(* ===== verification/Messages.v ===== *)
(** The messages: the RoutingMessage envelope, restricted to the fields this
    repository reads or writes, and the bodies of proto/kadmlia.proto.

    A proto2 [optional] field is an [option]: [has_x()] is [is_set], [x()] is
    [get] (the value, or the default of its type), [set_x(v)] is
    [m <| x := Some v |>]; a [repeated] field is a list and [add_x] appends.
    The wire format itself is library code: [Proto] is the pair of generated
    functions SerializeToString / ParseFromString. *)

From S2P Require Import Prelude.

(** ** Generated accessors *)

Class Dflt (A : Type) : Type := dflt : A.
#[global] Instance Dflt_string : Dflt string := ""%string.
#[global] Instance Dflt_Z : Dflt Z := 0.
#[global] Instance Dflt_bool : Dflt bool := false.

Definition get {R A} `{Dflt A} (f : R -> option A) (r : R) : A := default dflt (f r).
Definition is_set {R A} (f : R -> option A) (r : R) : bool :=
  match f r with Some _ => true | None => false end.

(** ** Messages *)

(** HopInfo of [RoutingMessage.hop_nodes]. *)
Record HopInfo := mkHopInfo {
  hop_node_id : option string }.

#[global] Instance HopInfo_eta : Eta HopInfo := fun r =>
  mkHopInfo (hop_node_id r).
Definition HopInfo_empty : HopInfo :=
  mkHopInfo None.
#[global] Instance HopInfo_eq_dec : EqDecision HopInfo.
Proof. solve_decision. Defined.

(** RelayHopInfo of [RoutingMessage.relay_hop_info]. *)
Record RelayHopInfo := mkRelayHopInfo {
  rhi_relay_entry_id : option string;
  rhi_relay_exit_id : option string;
  rhi_service_type : option Z;
  rhi_relay_flag : option bool }.

#[global] Instance RelayHopInfo_eta : Eta RelayHopInfo := fun r =>
  mkRelayHopInfo (rhi_relay_entry_id r) (rhi_relay_exit_id r) (rhi_service_type r) (rhi_relay_flag r).
Definition RelayHopInfo_empty : RelayHopInfo :=
  mkRelayHopInfo None None None None.
#[global] Instance RelayHopInfo_eq_dec : EqDecision RelayHopInfo.
Proof. solve_decision. Defined.

(** The gossip sub-message of a RoutingMessage. *)
Record GossipParam := mkGossipParam {
  gp_neighber_count : option Z;
  gp_stop_times : option Z;
  gp_gossip_type : option Z;
  gp_max_hop_num : option Z;
  gp_evil_rate : option Z;
  gp_switch_layer_hop_num : option Z;
  gp_ign_bloomfilter_level : option Z;
  gp_msg_hash : option Z }.

#[global] Instance GossipParam_eta : Eta GossipParam := fun r =>
  mkGossipParam (gp_neighber_count r) (gp_stop_times r) (gp_gossip_type r) (gp_max_hop_num r)
    (gp_evil_rate r) (gp_switch_layer_hop_num r) (gp_ign_bloomfilter_level r)
    (gp_msg_hash r).
Definition GossipParam_empty : GossipParam :=
  mkGossipParam None None None None None None None None.
#[global] Instance GossipParam_eq_dec : EqDecision GossipParam.
Proof. solve_decision. Defined.

(** The envelope of every packet (xtransport/proto): the fields this repository reads or writes. *)
Record RoutingMessage := mkRoutingMessage {
  msg_hop_num : option Z;
  msg_src_service_type : option Z;
  msg_des_service_type : option Z;
  msg_src_node_id : option string;
  msg_des_node_id : option string;
  msg_type : option Z;
  msg_id : option Z;
  msg_xid : option string;
  msg_priority : option Z;
  msg_broadcast : option bool;
  msg_gossip : option GossipParam;
  msg_data : option string;
  msg_client_id : option string;
  msg_relay_flag : option bool;
  msg_client_msg : option bool;
  msg_request_type : option bool;
  msg_is_root : option bool;
  msg_multi_relay : option bool;
  msg_xrequest_id : option string;
  msg_seq : option Z;
  msg_version_tag : option string;
  msg_debug : option string;
  msg_status : option Z;
  msg_ack_id : option Z;
  msg_relay_hop_info : list RelayHopInfo;
  msg_trace_route : list string;
  msg_hop_nodes : list HopInfo;
  msg_bloomfilter : list Z }.

#[global] Instance RoutingMessage_eta : Eta RoutingMessage := fun r =>
  mkRoutingMessage (msg_hop_num r) (msg_src_service_type r) (msg_des_service_type r) (msg_src_node_id
    r) (msg_des_node_id r) (msg_type r) (msg_id r) (msg_xid r) (msg_priority r)
    (msg_broadcast r) (msg_gossip r) (msg_data r) (msg_client_id r) (msg_relay_flag r)
    (msg_client_msg r) (msg_request_type r) (msg_is_root r) (msg_multi_relay r)
    (msg_xrequest_id r) (msg_seq r) (msg_version_tag r) (msg_debug r) (msg_status r)
    (msg_ack_id r) (msg_relay_hop_info r) (msg_trace_route r) (msg_hop_nodes r)
    (msg_bloomfilter r).
Definition RoutingMessage_empty : RoutingMessage :=
  mkRoutingMessage None None None None None None None None None None None None None None None None None None None None None None None None [] [] [] [].
#[global] Instance RoutingMessage_eq_dec : EqDecision RoutingMessage.
Proof. solve_decision. Defined.

(** kadmlia.proto: message ConnectReq. *)
Record ConnectReq := mkConnectReq {
  creq_local_ip : option string;
  creq_local_port : option Z;
  creq_public_ip : option string;
  creq_public_port : option Z;
  creq_nat_type : option Z;
  creq_relay_routing_id : option string }.

#[global] Instance ConnectReq_eta : Eta ConnectReq := fun r =>
  mkConnectReq (creq_local_ip r) (creq_local_port r) (creq_public_ip r) (creq_public_port r)
    (creq_nat_type r) (creq_relay_routing_id r).
Definition ConnectReq_empty : ConnectReq :=
  mkConnectReq None None None None None None.
#[global] Instance ConnectReq_eq_dec : EqDecision ConnectReq.
Proof. solve_decision. Defined.

(** kadmlia.proto: message BootstrapJoinRequest. *)
Record BootstrapJoinRequest := mkBootstrapJoinRequest {
  jreq_local_ip : option string;
  jreq_local_port : option Z;
  jreq_client_mode : option bool;
  jreq_nat_type : option Z;
  jreq_xid : option string;
  jreq_xip : option string }.

#[global] Instance BootstrapJoinRequest_eta : Eta BootstrapJoinRequest := fun r =>
  mkBootstrapJoinRequest (jreq_local_ip r) (jreq_local_port r) (jreq_client_mode r) (jreq_nat_type r)
    (jreq_xid r) (jreq_xip r).
Definition BootstrapJoinRequest_empty : BootstrapJoinRequest :=
  mkBootstrapJoinRequest None None None None None None.
#[global] Instance BootstrapJoinRequest_eq_dec : EqDecision BootstrapJoinRequest.
Proof. solve_decision. Defined.

(** kadmlia.proto: message BootstrapJoinResponse. *)
Record BootstrapJoinResponse := mkBootstrapJoinResponse {
  jres_public_ip : option string;
  jres_public_port : option Z;
  jres_bootstrap_id : option string;
  jres_nat_type : option Z;
  jres_xid : option string;
  jres_xip : option string;
  jres_dxip : option string }.

#[global] Instance BootstrapJoinResponse_eta : Eta BootstrapJoinResponse := fun r =>
  mkBootstrapJoinResponse (jres_public_ip r) (jres_public_port r) (jres_bootstrap_id r) (jres_nat_type r)
    (jres_xid r) (jres_xip r) (jres_dxip r).
Definition BootstrapJoinResponse_empty : BootstrapJoinResponse :=
  mkBootstrapJoinResponse None None None None None None None.
#[global] Instance BootstrapJoinResponse_eq_dec : EqDecision BootstrapJoinResponse.
Proof. solve_decision. Defined.

(** kadmlia.proto: message NatDetectRequest. *)
Record NatDetectRequest := mkNatDetectRequest {
  ndreq_local_ip : option string;
  ndreq_local_port : option Z }.

#[global] Instance NatDetectRequest_eta : Eta NatDetectRequest := fun r =>
  mkNatDetectRequest (ndreq_local_ip r) (ndreq_local_port r).
Definition NatDetectRequest_empty : NatDetectRequest :=
  mkNatDetectRequest None None.
#[global] Instance NatDetectRequest_eq_dec : EqDecision NatDetectRequest.
Proof. solve_decision. Defined.

(** kadmlia.proto: message NatDetectResponse. *)
Record NatDetectResponse := mkNatDetectResponse {
  ndres_nat_type : option Z;
  ndres_detect_port : option Z }.

#[global] Instance NatDetectResponse_eta : Eta NatDetectResponse := fun r =>
  mkNatDetectResponse (ndres_nat_type r) (ndres_detect_port r).
Definition NatDetectResponse_empty : NatDetectResponse :=
  mkNatDetectResponse None None.
#[global] Instance NatDetectResponse_eq_dec : EqDecision NatDetectResponse.
Proof. solve_decision. Defined.

(** kadmlia.proto: message NatDetectFinish. *)
Record NatDetectFinish := mkNatDetectFinish {
  ndfin_resv : option Z }.

#[global] Instance NatDetectFinish_eta : Eta NatDetectFinish := fun r =>
  mkNatDetectFinish (ndfin_resv r).
Definition NatDetectFinish_empty : NatDetectFinish :=
  mkNatDetectFinish None.
#[global] Instance NatDetectFinish_eq_dec : EqDecision NatDetectFinish.
Proof. solve_decision. Defined.

(** kadmlia.proto: message Handshake. *)
Record Handshake := mkHandshake {
  hs_local_ip : option string;
  hs_local_port : option Z;
  hs_type : option Z;
  hs_public_ip : option string;
  hs_public_port : option Z;
  hs_nat_type : option Z;
  hs_xid : option string;
  hs_xip : option string }.

#[global] Instance Handshake_eta : Eta Handshake := fun r =>
  mkHandshake (hs_local_ip r) (hs_local_port r) (hs_type r) (hs_public_ip r) (hs_public_port r)
    (hs_nat_type r) (hs_xid r) (hs_xip r).
Definition Handshake_empty : Handshake :=
  mkHandshake None None None None None None None None.
#[global] Instance Handshake_eq_dec : EqDecision Handshake.
Proof. solve_decision. Defined.

(** kadmlia.proto: message NodeInfo. *)
Record PbNodeInfo := mkPbNodeInfo {
  pn_public_ip : option string;
  pn_public_port : option Z;
  pn_local_ip : option string;
  pn_local_port : option Z;
  pn_id : option string;
  pn_nat_type : option Z;
  pn_xip : option string;
  pn_xid : option string }.

#[global] Instance PbNodeInfo_eta : Eta PbNodeInfo := fun r =>
  mkPbNodeInfo (pn_public_ip r) (pn_public_port r) (pn_local_ip r) (pn_local_port r) (pn_id r)
    (pn_nat_type r) (pn_xip r) (pn_xid r).
Definition PbNodeInfo_empty : PbNodeInfo :=
  mkPbNodeInfo None None None None None None None None.
#[global] Instance PbNodeInfo_eq_dec : EqDecision PbNodeInfo.
Proof. solve_decision. Defined.

(** kadmlia.proto: message Heartbeat (its map, as a finite map). *)
Record Heartbeat := mkHeartbeat {
  hb_extinfo_map : gmap string string }.

#[global] Instance Heartbeat_eta : Eta Heartbeat := fun r =>
  mkHeartbeat (hb_extinfo_map r).
Definition Heartbeat_empty : Heartbeat :=
  mkHeartbeat ∅.
#[global] Instance Heartbeat_eq_dec : EqDecision Heartbeat.
Proof. solve_decision. Defined.

(** kadmlia.proto: message FindClosestNodesRequest. *)
Record FindClosestNodesRequest := mkFindClosestNodesRequest {
  fnreq_count : option Z;
  fnreq_target_id : option string;
  fnreq_src_nodeinfo : option PbNodeInfo;
  fnreq_bloomfilter : list Z }.

#[global] Instance FindClosestNodesRequest_eta : Eta FindClosestNodesRequest := fun r =>
  mkFindClosestNodesRequest (fnreq_count r) (fnreq_target_id r) (fnreq_src_nodeinfo r) (fnreq_bloomfilter r).
Definition FindClosestNodesRequest_empty : FindClosestNodesRequest :=
  mkFindClosestNodesRequest None None None [].
#[global] Instance FindClosestNodesRequest_eq_dec : EqDecision FindClosestNodesRequest.
Proof. solve_decision. Defined.

(** kadmlia.proto: message FindClosestNodesResponse. *)
Record FindClosestNodesResponse := mkFindClosestNodesResponse {
  fnres_nodes : list PbNodeInfo }.

#[global] Instance FindClosestNodesResponse_eta : Eta FindClosestNodesResponse := fun r =>
  mkFindClosestNodesResponse (fnres_nodes r).
Definition FindClosestNodesResponse_empty : FindClosestNodesResponse :=
  mkFindClosestNodesResponse [].
#[global] Instance FindClosestNodesResponse_eq_dec : EqDecision FindClosestNodesResponse.
Proof. solve_decision. Defined.

#[global] Instance Dflt_GossipParam : Dflt GossipParam := GossipParam_empty.
#[global] Instance Dflt_PbNodeInfo : Dflt PbNodeInfo := PbNodeInfo_empty.

(** ** The wire format *)

Class Proto (T : Type) := {
  SerializeToString : T -> option string;
  ParseFromString : string -> option T }.

(** What protobuf documents of its generated code: parsing what was
    serialized gives the message back. *)
Class ProtoLaws (T : Type) `{Proto T} : Prop :=
  parse_serialize (m : T) (s : string) :
    SerializeToString m = Some s -> ParseFromString s = Some m.

(** The codecs of all the messages the node exchanges. *)
Class Wire := {
  wire_RoutingMessage :: Proto RoutingMessage;
  wire_ConnectReq :: Proto ConnectReq;
  wire_BootstrapJoinRequest :: Proto BootstrapJoinRequest;
  wire_BootstrapJoinResponse :: Proto BootstrapJoinResponse;
  wire_NatDetectRequest :: Proto NatDetectRequest;
  wire_NatDetectResponse :: Proto NatDetectResponse;
  wire_NatDetectFinish :: Proto NatDetectFinish;
  wire_Handshake :: Proto Handshake;
  wire_Heartbeat :: Proto Heartbeat;
  wire_FindClosestNodesRequest :: Proto FindClosestNodesRequest;
  wire_FindClosestNodesResponse :: Proto FindClosestNodesResponse }.

(** ** A concrete codec, for evaluating the model on examples

    Any countable type can be written as a positive and a positive as a string
    of binary digits. *)

#[global] Instance HopInfo_countable : Countable HopInfo.
Proof.
  refine (inj_countable' (fun r => hop_node_id r)
    (fun x0 => mkHopInfo x0) _).
  by intros [].
Defined.

#[global] Instance RelayHopInfo_countable : Countable RelayHopInfo.
Proof.
  refine (inj_countable'
    (fun r => ((rhi_relay_entry_id r, rhi_relay_exit_id r), (rhi_service_type r, rhi_relay_flag r)))
    (fun '((x0, x1), (x2, x3)) => mkRelayHopInfo x0 x1 x2 x3) _).
  by intros [].
Defined.

#[global] Instance GossipParam_countable : Countable GossipParam.
Proof.
  refine (inj_countable'
    (fun r => (((gp_neighber_count r, gp_stop_times r), (gp_gossip_type r, gp_max_hop_num r)),
       ((gp_evil_rate r, gp_switch_layer_hop_num r), (gp_ign_bloomfilter_level r, gp_msg_hash r))))
    (fun '(((x0, x1), (x2, x3)), ((x4, x5), (x6, x7))) => mkGossipParam x0 x1 x2 x3 x4 x5 x6 x7) _).
  by intros [].
Defined.

#[global] Instance RoutingMessage_countable : Countable RoutingMessage.
Proof.
  refine (inj_countable'
    (fun r => ((((msg_hop_num r, (msg_src_service_type r, msg_des_service_type r)), ((msg_src_node_id r,
       msg_des_node_id r), (msg_type r, msg_id r))), ((msg_xid r, (msg_priority r, msg_broadcast
       r)), ((msg_gossip r, msg_data r), (msg_client_id r, msg_relay_flag r)))), (((msg_client_msg
       r, (msg_request_type r, msg_is_root r)), ((msg_multi_relay r, msg_xrequest_id r), (msg_seq
       r, msg_version_tag r))), ((msg_debug r, (msg_status r, msg_ack_id r)), ((msg_relay_hop_info
       r, msg_trace_route r), (msg_hop_nodes r, msg_bloomfilter r))))))
    (fun '((((x0, (x1, x2)), ((x3, x4), (x5, x6))), ((x7, (x8, x9)), ((x10, x11), (x12, x13)))),
       (((x14, (x15, x16)), ((x17, x18), (x19, x20))), ((x21, (x22, x23)), ((x24, x25), (x26,
       x27))))) => mkRoutingMessage x0 x1 x2 x3 x4 x5 x6 x7 x8 x9 x10 x11 x12 x13 x14 x15 x16 x17 x18 x19 x20 x21 x22 x23 x24 x25 x26 x27) _).
  by intros [].
Defined.

#[global] Instance ConnectReq_countable : Countable ConnectReq.
Proof.
  refine (inj_countable'
    (fun r => ((creq_local_ip r, (creq_local_port r, creq_public_ip r)), (creq_public_port r,
       (creq_nat_type r, creq_relay_routing_id r))))
    (fun '((x0, (x1, x2)), (x3, (x4, x5))) => mkConnectReq x0 x1 x2 x3 x4 x5) _).
  by intros [].
Defined.

#[global] Instance BootstrapJoinRequest_countable : Countable BootstrapJoinRequest.
Proof.
  refine (inj_countable'
    (fun r => ((jreq_local_ip r, (jreq_local_port r, jreq_client_mode r)), (jreq_nat_type r, (jreq_xid r,
       jreq_xip r))))
    (fun '((x0, (x1, x2)), (x3, (x4, x5))) => mkBootstrapJoinRequest x0 x1 x2 x3 x4 x5) _).
  by intros [].
Defined.

#[global] Instance BootstrapJoinResponse_countable : Countable BootstrapJoinResponse.
Proof.
  refine (inj_countable'
    (fun r => ((jres_public_ip r, (jres_public_port r, jres_bootstrap_id r)), ((jres_nat_type r, jres_xid
       r), (jres_xip r, jres_dxip r))))
    (fun '((x0, (x1, x2)), ((x3, x4), (x5, x6))) => mkBootstrapJoinResponse x0 x1 x2 x3 x4 x5 x6) _).
  by intros [].
Defined.

#[global] Instance NatDetectRequest_countable : Countable NatDetectRequest.
Proof.
  refine (inj_countable'
    (fun r => (ndreq_local_ip r, ndreq_local_port r))
    (fun '(x0, x1) => mkNatDetectRequest x0 x1) _).
  by intros [].
Defined.

#[global] Instance NatDetectResponse_countable : Countable NatDetectResponse.
Proof.
  refine (inj_countable'
    (fun r => (ndres_nat_type r, ndres_detect_port r))
    (fun '(x0, x1) => mkNatDetectResponse x0 x1) _).
  by intros [].
Defined.

#[global] Instance NatDetectFinish_countable : Countable NatDetectFinish.
Proof.
  refine (inj_countable' (fun r => ndfin_resv r)
    (fun x0 => mkNatDetectFinish x0) _).
  by intros [].
Defined.

#[global] Instance Handshake_countable : Countable Handshake.
Proof.
  refine (inj_countable'
    (fun r => (((hs_local_ip r, hs_local_port r), (hs_type r, hs_public_ip r)), ((hs_public_port r,
       hs_nat_type r), (hs_xid r, hs_xip r))))
    (fun '(((x0, x1), (x2, x3)), ((x4, x5), (x6, x7))) => mkHandshake x0 x1 x2 x3 x4 x5 x6 x7) _).
  by intros [].
Defined.

#[global] Instance PbNodeInfo_countable : Countable PbNodeInfo.
Proof.
  refine (inj_countable'
    (fun r => (((pn_public_ip r, pn_public_port r), (pn_local_ip r, pn_local_port r)), ((pn_id r,
       pn_nat_type r), (pn_xip r, pn_xid r))))
    (fun '(((x0, x1), (x2, x3)), ((x4, x5), (x6, x7))) => mkPbNodeInfo x0 x1 x2 x3 x4 x5 x6 x7) _).
  by intros [].
Defined.

#[global] Instance Heartbeat_countable : Countable Heartbeat.
Proof.
  refine (inj_countable' (fun r => hb_extinfo_map r)
    (fun x0 => mkHeartbeat x0) _).
  by intros [].
Defined.

#[global] Instance FindClosestNodesRequest_countable : Countable FindClosestNodesRequest.
Proof.
  refine (inj_countable'
    (fun r => ((fnreq_count r, fnreq_target_id r), (fnreq_src_nodeinfo r, fnreq_bloomfilter r)))
    (fun '((x0, x1), (x2, x3)) => mkFindClosestNodesRequest x0 x1 x2 x3) _).
  by intros [].
Defined.

#[global] Instance FindClosestNodesResponse_countable : Countable FindClosestNodesResponse.
Proof.
  refine (inj_countable' (fun r => fnres_nodes r)
    (fun x0 => mkFindClosestNodesResponse x0) _).
  by intros [].
Defined.

Definition countable_proto (T : Type) `{Countable T} : Proto T := {|
  SerializeToString m := Some (pos_digits (encode m));
  ParseFromString s := p ← digits_pos s; decode p |}.

Definition countable_wire : Wire := {|
  wire_RoutingMessage := countable_proto _;
  wire_ConnectReq := countable_proto _;
  wire_BootstrapJoinRequest := countable_proto _;
  wire_BootstrapJoinResponse := countable_proto _;
  wire_NatDetectRequest := countable_proto _;
  wire_NatDetectResponse := countable_proto _;
  wire_NatDetectFinish := countable_proto _;
  wire_Handshake := countable_proto _;
  wire_Heartbeat := countable_proto _;
  wire_FindClosestNodesRequest := countable_proto _;
  wire_FindClosestNodesResponse := countable_proto _ |}.

Lemma countable_proto_laws (T : Type) `{Countable T} :
  @ProtoLaws T (countable_proto T).
Proof.
  intros m s [= <-]. simpl. rewrite digits_pos_digits. simpl. apply decode_encode.
Qed.
