(* ===== verification/Distance.v ===== *)
(** The XOR metric of src/routing_table.cc: the comparison CloserToTarget and
    the bucket computation inside SetNodeBucket, byte by byte as the code does
    them, and their meaning: a node id is a big-endian number, the distance of
    two ids is the XOR of their numbers, CloserToTarget compares distances and
    the bucket index is the bit length of the distance. *)

From S2P Require Import Prelude Externals.

(** ** The code *)

Definition char_at (s : string) (i : nat) : outcome N :=
  match str_at s i with
  | Some c => Ok (N_of_ascii c)
  | None => Fault OutOfRange
  end.

Section code.
Context `{Xbase}.

(** One turn of the loop of CloserToTarget from byte [i] on, [n] bytes left. *)
Fixpoint closer_from (n i : nat) (id1 id2 target_id : string) : outcome bool :=
  match n with
  | O => Ok false
  | S n' =>
      c1 ← char_at id1 i; t ← char_at target_id i;
      c2 ← char_at id2 i;
      let result1 := N.lxor c1 t in
      let result2 := N.lxor c2 t in
      if (result1 =? result2)%N then closer_from n' (S i) id1 id2 target_id
      else Ok (result1 <? result2)%N
  end.

Definition CloserToTarget (id1 id2 target_id : string) : outcome bool :=
  closer_from kNodeIdSize 0 id1 id2 target_id.

(** [while (bit_index != 8U)] of SetNodeBucket, [n] turns left. *)
Fixpoint diff_bit_from (n bit_index : nat) (holder_byte node_byte : N) : nat :=
  match n with
  | O => bit_index
  | S n' =>
      let k := N.of_nat (7 - bit_index) in
      if Bool.eqb (N.testbit holder_byte k) (N.testbit node_byte k)
      then diff_bit_from n' (S bit_index) holder_byte node_byte
      else bit_index
  end.

(** [while (id_bit_index != kNodeIdSize)] of SetNodeBucket, [n] turns left:
    the bucket index, or [None] when all bytes are equal. *)
Fixpoint bucket_from (n id_bit_index : nat) (local_id node_id : string)
    : outcome (option Z) :=
  match n with
  | O => Ok None
  | S n' =>
      a ← char_at local_id id_bit_index;
      b ← char_at node_id id_bit_index;
      if (a =? b)%N then bucket_from n' (S id_bit_index) local_id node_id
      else Ok (Some (8 * (Z.of_nat kNodeIdSize - Z.of_nat id_bit_index)
                     - Z.of_nat (diff_bit_from 8 0 a b)))
  end.

Definition bucket_scan (local_id node_id : string) : outcome (option Z) :=
  bucket_from kNodeIdSize 0 local_id node_id.
End code.

(** ** The meaning of an id *)

Definition bytes_of (s : string) : list N := N_of_ascii <$> String.list_ascii_of_string s.

(** Big-endian value of a byte sequence. *)
Fixpoint be_value (l : list N) : N :=
  match l with
  | [] => 0
  | b :: l' => b * 2 ^ (8 * N.of_nat (length l')) + be_value l'
  end%N.

Definition id_value (s : string) : N := be_value (bytes_of s).

(** The Kademlia distance of two ids. *)
Definition xor_distance (a b : string) : N := N.lxor (id_value a) (id_value b).

(** Well-formed ids. *)
Definition id_ok `{Xbase} (s : string) : Prop := String.length s = kNodeIdSize.

#[global] Instance id_ok_dec `{Xbase} s : Decision (id_ok s).
Proof. unfold id_ok. apply _. Defined.

(** ** Bytes *)

Definition byte_ok (b : N) : Prop := (b < 2 ^ 8)%N.

Lemma length_bytes_of s : length (bytes_of s) = String.length s.
Proof.
  unfold bytes_of. rewrite length_fmap. induction s as [|c s IH]; simpl; congruence.
Qed.

Lemma bytes_of_ok s : Forall byte_ok (bytes_of s).
Proof.
  unfold bytes_of. apply Forall_fmap, Forall_forall. intros c _.
  apply N_ascii_bounded.
Qed.

Lemma lookup_bytes_of s i : bytes_of s !! i = N_of_ascii <$> String.get i s.
Proof.
  unfold bytes_of. rewrite list_lookup_fmap. f_equal.
  revert i. induction s as [|c s IH]; intros [|i]; simpl; auto.
Qed.

Lemma bytes_of_inj s t : bytes_of s = bytes_of t -> s = t.
Proof.
  unfold bytes_of. revert t. induction s as [|c s IH]; intros [|d t]; simpl; try done.
  intros [= Hc Ht]. f_equal; [|by apply IH].
  rewrite <- (ascii_N_embedding c), <- (ascii_N_embedding d). by rewrite Hc.
Qed.

Lemma char_at_bytes s i b : bytes_of s !! i = Some b -> char_at s i = Ok b.
Proof.
  rewrite lookup_bytes_of. unfold char_at, str_at.
  destruct (String.get i s); simpl; congruence.
Qed.

Lemma char_at_oob s i : (String.length s < i)%nat -> char_at s i = Fault OutOfRange.
Proof. intros Hi. unfold char_at. by rewrite str_at_oob. Qed.

(** ** Big-endian values and XOR *)

Lemma lxor_split (k x u y v : N) :
  (u < 2 ^ k)%N -> (v < 2 ^ k)%N ->
  N.lxor (x * 2 ^ k + u) (y * 2 ^ k + v) = (N.lxor x y * 2 ^ k + N.lxor u v)%N.
Proof.
  intros Hu Hv.
  assert (forall x u, (u < 2 ^ k)%N -> N.shiftr (x * 2 ^ k + u) k = x) as Hdiv.
  { intros x' u' Hu'. rewrite N.shiftr_div_pow2, N.div_add_l by lia.
    rewrite N.div_small by done. lia. }
  assert (forall x u, (u < 2 ^ k)%N -> N.land (x * 2 ^ k + u) (N.ones k) = u) as Hmod.
  { intros x' u' Hu'. rewrite N.land_ones, N.add_comm.
    rewrite N.Div0.mod_add. by apply N.mod_small. }
  rewrite (N.div_mod' (N.lxor _ _) (2 ^ k)).
  rewrite <- N.shiftr_div_pow2, <- N.land_ones.
  rewrite N.shiftr_lxor, !Hdiv by done.
  assert (forall a b c, N.land (N.lxor a b) c = N.lxor (N.land a c) (N.land b c)) as Hd.
  { intros a b c. apply N.bits_inj. intros n.
    rewrite N.land_spec, !N.lxor_spec, !N.land_spec.
    by destruct (N.testbit a n), (N.testbit b n), (N.testbit c n). }
  rewrite Hd, !Hmod by done. lia.
Qed.

Lemma be_value_lt l : Forall byte_ok l -> (be_value l < 2 ^ (8 * N.of_nat (length l)))%N.
Proof.
  induction 1 as [|b l Hb Hl IH]; simpl length; [done|]. simpl be_value.
  rewrite Nat2N.inj_succ, N.mul_succ_r, N.pow_add_r. unfold byte_ok in Hb. nia.
Qed.

Lemma lxor_byte a b : byte_ok a -> byte_ok b -> byte_ok (N.lxor a b).
Proof.
  unfold byte_ok. intros Ha Hb. destruct (N.eq_dec (N.lxor a b) 0) as [->|Hn]; [done|].
  apply N.log2_lt_pow2; [lia|]. eapply N.le_lt_trans; [apply N.log2_lxor|].
  apply N.max_lub_lt.
  - destruct (N.eq_dec a 0) as [->|]; [done|]. apply N.log2_lt_pow2; lia.
  - destruct (N.eq_dec b 0) as [->|]; [done|]. apply N.log2_lt_pow2; lia.
Qed.

Lemma be_value_lxor l1 l2 :
  length l1 = length l2 -> Forall byte_ok l1 -> Forall byte_ok l2 ->
  N.lxor (be_value l1) (be_value l2) = be_value (zip_with N.lxor l1 l2).
Proof.
  revert l2. induction l1 as [|a l1 IH]; intros [|b l2] Hlen H1 H2; simpl in *; try done.
  apply Forall_cons in H1 as [Ha H1], H2 as [Hb H2]. injection Hlen as Hlen.
  rewrite <- Hlen, lxor_split, IH; try done.
  - rewrite length_zip_with_l_eq by done. done.
  - by apply be_value_lt.
  - rewrite Hlen. by apply be_value_lt.
Qed.

Lemma be_value_inj l1 l2 :
  length l1 = length l2 -> Forall byte_ok l1 -> Forall byte_ok l2 ->
  be_value l1 = be_value l2 -> l1 = l2.
Proof.
  revert l2. induction l1 as [|a l1 IH]; intros [|b l2] Hlen H1 H2 He; simpl in *; try done.
  apply Forall_cons in H1 as [Ha H1], H2 as [Hb H2]. injection Hlen as Hlen.
  pose proof (be_value_lt _ H1) as L1. pose proof (be_value_lt _ H2) as L2.
  rewrite <- Hlen in He, L2.
  assert (a = b) as ->.
  { apply (f_equal (fun z => z / 2 ^ (8 * N.of_nat (length l1)))%N) in He.
    rewrite !N.div_add_l, !N.div_small in He by lia. lia. }
  f_equal. apply IH; try done. lia.
Qed.

Lemma id_value_inj s t :
  String.length s = String.length t -> id_value s = id_value t -> s = t.
Proof.
  intros Hlen He. apply bytes_of_inj, be_value_inj; try apply bytes_of_ok; [|done].
  by rewrite !length_bytes_of.
Qed.

Lemma xor_distance_bytes s t :
  String.length s = String.length t ->
  xor_distance s t = be_value (zip_with N.lxor (bytes_of s) (bytes_of t)).
Proof.
  intros Hlen. apply be_value_lxor; try apply bytes_of_ok. by rewrite !length_bytes_of.
Qed.

Lemma xor_distance_inj a b t :
  String.length a = String.length b ->
  xor_distance a t = xor_distance b t -> a = b.
Proof.
  intros Hlen He. apply id_value_inj; [done|]. unfold xor_distance in He.
  apply (f_equal (N.lxor (id_value t))) in He.
  rewrite <- !(N.lxor_comm (N.lxor _ _)), !N.lxor_assoc, !N.lxor_nilpotent, !N.lxor_0_r in He.
  done.
Qed.

Lemma xor_distance_comm a b : xor_distance a b = xor_distance b a.
Proof. apply N.lxor_comm. Qed.

Lemma xor_distance_self a : xor_distance a a = 0%N.
Proof. apply N.lxor_nilpotent. Qed.

(** ** CloserToTarget compares distances *)

Lemma be_value_cons_lt a l1 b l2 :
  length l1 = length l2 -> Forall byte_ok l1 -> Forall byte_ok l2 ->
  (be_value (a :: l1) <? be_value (b :: l2))%N =
  if (a =? b)%N then (be_value l1 <? be_value l2)%N else (a <? b)%N.
Proof.
  intros Hlen H1 H2. simpl. rewrite <- Hlen.
  pose proof (be_value_lt _ H1) as L1. pose proof (be_value_lt _ H2) as L2.
  rewrite <- Hlen in L2. set (p := (2 ^ (8 * N.of_nat (length l1)))%N) in *.
  destruct (N.eqb_spec a b) as [->|Hab].
  - destruct (N.ltb_spec (be_value l1) (be_value l2)); apply N.ltb_lt || apply N.ltb_ge; lia.
  - destruct (N.ltb_spec a b); apply N.ltb_lt || apply N.ltb_ge; nia.
Qed.

Lemma zip_lxor_ok l1 l2 :
  Forall byte_ok l1 -> Forall byte_ok l2 -> Forall byte_ok (zip_with N.lxor l1 l2).
Proof.
  intros H1. revert l2. induction H1 as [|a l1 Ha H1 IH]; intros l2 H2; simpl; [done|].
  destruct H2 as [|b l2 Hb H2]; simpl; constructor; [by apply lxor_byte|auto].
Qed.

Section facts.
Context `{Xbase}.

Lemma closer_from_spec n i id1 id2 t :
  String.length id1 = (i + n)%nat -> String.length id2 = (i + n)%nat ->
  String.length t = (i + n)%nat ->
  closer_from n i id1 id2 t =
  Ok (be_value (zip_with N.lxor (drop i (bytes_of id1)) (drop i (bytes_of t))) <?
      be_value (zip_with N.lxor (drop i (bytes_of id2)) (drop i (bytes_of t))))%N.
Proof.
  revert i. induction n as [|n IH]; intros i H1 H2 Ht.
  { rewrite !drop_ge by (rewrite length_bytes_of; lia). done. }
  assert (forall s, String.length s = (i + S n)%nat ->
    exists b, bytes_of s !! i = Some b) as Hlk.
  { intros s Hs. apply lookup_lt_is_Some. rewrite length_bytes_of. lia. }
  destruct (Hlk id1 H1) as [b1 E1], (Hlk id2 H2) as [b2 E2], (Hlk t Ht) as [bt Et].
  cbn [closer_from]. rewrite (char_at_bytes _ _ _ E1), (char_at_bytes _ _ _ Et),
    (char_at_bytes _ _ _ E2). cbn [mbind outcome_bind].
  rewrite (drop_S _ _ _ E1), (drop_S _ _ _ E2), (drop_S _ _ _ Et).
  cbn [zip_with]. rewrite be_value_cons_lt.
  - destruct (N.eqb_spec (N.lxor b1 bt) (N.lxor b2 bt)); [|done]. apply IH; lia.
  - rewrite !length_zip_with, !length_drop, !length_bytes_of. lia.
  - apply zip_lxor_ok; apply Forall_drop, bytes_of_ok.
  - apply zip_lxor_ok; apply Forall_drop, bytes_of_ok.
Qed.

(** A target shorter than the ids: the scan leaves the string when the ids
    agree up to its end. *)
Lemma closer_from_short n i id1 id2 t :
  String.length id1 = (i + n)%nat -> String.length id2 = (i + n)%nat ->
  (i <= S (String.length t) < i + n)%nat ->
  (forall j, (j <= String.length t)%nat -> String.get j id1 = String.get j id2) ->
  closer_from n i id1 id2 t = Fault OutOfRange.
Proof.
  revert i. induction n as [|n IH]; intros i H1 H2 Hi Hsame; [lia|]. cbn [closer_from].
  destruct (str_at_lt id1 i ltac:(lia)) as [c1 E1].
  assert (char_at id1 i = Ok (N_of_ascii c1)) as -> by (unfold char_at; by rewrite E1). cbn.
  destruct (decide (i = S (String.length t))) as [->|Hne].
  - by rewrite (char_at_oob t) by lia.
  - assert (exists c, str_at t i = Some c) as [c Ec].
    { unfold str_at. destruct (String.get i t) as [c|] eqn:E; [by exists c|].
      destruct (decide (i < String.length t)%nat) as [Hlt%get_is_Some|Hge].
      - rewrite E in Hlt. by destruct Hlt.
      - exists Ascii.zero. by rewrite (proj2 (Nat.eqb_eq i (String.length t))) by lia. }
    assert (char_at id2 i = Ok (N_of_ascii c1)) as ->.
    { unfold char_at. rewrite str_at_get in E1 |- * by lia.
      rewrite <- Hsame by lia. by rewrite E1. }
    unfold char_at. rewrite Ec. cbn. rewrite N.eqb_refl. apply IH; [lia..|done].
Qed.

Lemma closer_short id1 id2 t :
  id_ok id1 -> id_ok id2 -> (S (String.length t) < kNodeIdSize)%nat ->
  (forall j, (j <= String.length t)%nat -> String.get j id1 = String.get j id2) ->
  CloserToTarget id1 id2 t = Fault OutOfRange.
Proof. intros H1 H2 Ht Hs. apply closer_from_short; [done..|lia|done]. Qed.

Lemma closer_correct id1 id2 t :
  id_ok id1 -> id_ok id2 -> id_ok t ->
  CloserToTarget id1 id2 t = Ok (xor_distance id1 t <? xor_distance id2 t)%N.
Proof.
  unfold id_ok. intros H1 H2 Ht. unfold CloserToTarget.
  rewrite closer_from_spec by done. rewrite !drop_0, !xor_distance_bytes by congruence.
  done.
Qed.

(** ** The bucket index is the bit length of the distance *)

Lemma diff_bit_lxor n k a b :
  diff_bit_from n k a b = diff_bit_from n k (N.lxor a b) 0.
Proof.
  revert k. induction n as [|n IH]; intros k; cbn [diff_bit_from]; [done|].
  rewrite N.lxor_spec, N.bits_0.
  destruct (N.testbit a _), (N.testbit b _); simpl; auto.
Qed.

Lemma diff_bit_size z :
  byte_ok z -> z <> 0%N -> Z.of_nat (diff_bit_from 8 0 z 0) = 8 - Z.of_N (N.size z).
Proof.
  intros Hz Hn.
  assert (forallb (fun k => let z := N.of_nat k in
    (z =? 0)%N || (Z.of_nat (diff_bit_from 8 0 z 0) =? 8 - Z.of_N (N.size z)))
    (seq 0 256) = true) as Hall by (vm_compute; reflexivity).
  rewrite forallb_forall in Hall.
  specialize (Hall (N.to_nat z)). rewrite N2Nat.id in Hall. cbv zeta in Hall.
  unfold byte_ok in Hz.
  assert (In (N.to_nat z) (seq 0 256)) as Hin by (apply in_seq; lia).
  specialize (Hall Hin). apply orb_prop in Hall as [H0|H0]; bool_props; [|lia].
  apply N.eqb_eq in H0. lia.
Qed.

Lemma size_cons b l :
  b <> 0%N -> Forall byte_ok l ->
  N.size (be_value (b :: l)) = (8 * N.of_nat (length l) + N.size b)%N.
Proof.
  intros Hb Hl. simpl. pose proof (be_value_lt _ Hl) as L.
  set (k := (8 * N.of_nat (length l))%N) in *.
  rewrite !N.size_log2 by nia.
  rewrite (N.log2_unique _ (k + N.log2 b)%N); [lia|lia|].
  pose proof (N.log2_spec b ltac:(lia)) as [B1 B2].
  rewrite <- N.add_succ_r, !N.pow_add_r. nia.
Qed.

Lemma size_mono m n : (m <= n)%N -> (N.size m <= N.size n)%N.
Proof.
  intros Hle. destruct (N.eq_dec m 0) as [->|Hm]; [simpl; lia|].
  rewrite !N.size_log2 by lia. apply N.log2_le_mono in Hle. lia.
Qed.

Lemma be_value_zero_cons l : be_value (0%N :: l) = be_value l.
Proof. done. Qed.

Lemma bucket_from_spec n i a b :
  (i + n)%nat = kNodeIdSize -> id_ok a -> id_ok b ->
  bucket_from n i a b =
  let d := be_value (zip_with N.lxor (drop i (bytes_of a)) (drop i (bytes_of b))) in
  Ok (if (d =? 0)%N then None else Some (Z.of_N (N.size d))).
Proof.
  unfold id_ok. revert i. induction n as [|n IH]; intros i Hi Ha Hb.
  { rewrite !drop_ge by (rewrite length_bytes_of; lia). done. }
  assert (forall s, String.length s = kNodeIdSize -> exists x, bytes_of s !! i = Some x) as Hlk.
  { intros s Hs. apply lookup_lt_is_Some. rewrite length_bytes_of. lia. }
  destruct (Hlk a Ha) as [x Ex], (Hlk b Hb) as [y Ey].
  cbn [bucket_from]. rewrite (char_at_bytes _ _ _ Ex), (char_at_bytes _ _ _ Ey).
  cbn [mbind outcome_bind]. rewrite (drop_S _ _ _ Ex), (drop_S _ _ _ Ey). cbn [zip_with].
  pose proof (Forall_lookup_1 _ _ _ _ (bytes_of_ok a) Ex) as Hx.
  pose proof (Forall_lookup_1 _ _ _ _ (bytes_of_ok b) Ey) as Hy.
  destruct (N.eqb_spec x y) as [->|Hxy].
  { rewrite IH by lia. by rewrite N.lxor_nilpotent, be_value_zero_cons. }
  assert (N.lxor x y <> 0%N) as Hne by (by intros ?%N.lxor_eq).
  assert (Forall byte_ok (zip_with N.lxor (drop (S i) (bytes_of a)) (drop (S i) (bytes_of b))))
    as Hok by (apply zip_lxor_ok; apply Forall_drop, bytes_of_ok).
  pose proof (size_cons _ _ Hne Hok) as Hs.
  rewrite diff_bit_lxor.
  assert (byte_ok (N.lxor x y)) as Hxyok by (by apply lxor_byte).
  rewrite diff_bit_size by done.
  destruct (N.eqb_spec (be_value (N.lxor x y ::
    zip_with N.lxor (drop (S i) (bytes_of a)) (drop (S i) (bytes_of b)))) 0) as [E|E].
  { rewrite E, (N.size_log2 _ Hne) in Hs. change (N.size 0) with 0%N in Hs. lia. }
  cbv zeta. rewrite Hs. rewrite length_zip_with, !length_drop, !length_bytes_of.
  do 2 f_equal. lia.
Qed.

Lemma bucket_scan_spec a b :
  id_ok a -> id_ok b ->
  bucket_scan a b =
  Ok (if decide (a = b) then None else Some (Z.of_N (N.size (xor_distance a b)))).
Proof.
  intros Ha Hb. unfold bucket_scan. rewrite bucket_from_spec by (done || lia).
  rewrite !drop_0. cbv zeta. unfold id_ok in *.
  rewrite <- xor_distance_bytes by congruence. f_equal.
  destruct (decide (a = b)) as [->|Hab]; [by rewrite xor_distance_self|].
  destruct (N.eqb_spec (xor_distance a b) 0) as [E|E]; [|done].
  destruct Hab. apply id_value_inj; [congruence|]. by apply N.lxor_eq.
Qed.

Lemma xor_distance_lt a b :
  id_ok a -> id_ok b -> (xor_distance a b < 2 ^ (8 * N.of_nat kNodeIdSize))%N.
Proof.
  unfold id_ok. intros Ha Hb. rewrite xor_distance_bytes by congruence.
  eapply N.lt_le_trans; [apply be_value_lt, zip_lxor_ok; apply bytes_of_ok|].
  rewrite length_zip_with, !length_bytes_of. apply N.pow_le_mono_r; lia.
Qed.

Lemma bucket_range a b :
  id_ok a -> id_ok b -> a <> b ->
  1 <= Z.of_N (N.size (xor_distance a b)) <= 8 * Z.of_nat kNodeIdSize.
Proof.
  intros Ha Hb Hab. pose proof (xor_distance_lt a b Ha Hb) as Hlt.
  assert (xor_distance a b <> 0%N) as Hn.
  { intros E%N.lxor_eq. apply Hab, id_value_inj; [|done]. unfold id_ok in *. congruence. }
  rewrite N.size_log2 by done. apply N.log2_lt_pow2 in Hlt; lia.
Qed.
End facts.

(** ** Properties *)

Section properties.
Context `{Xbase}.

(** C15: on well-formed ids CloserToTarget never reads outside a string and
    answers whether the first id is nearer to the target than the second in
    the XOR metric, ids read as big-endian numbers. *)
Theorem CloserToTarget_xor_metric id1 id2 target :
  id_ok id1 -> id_ok id2 -> id_ok target ->
  CloserToTarget id1 id2 target =
  Ok (xor_distance id1 target <? xor_distance id2 target)%N.
Proof. apply closer_correct. Qed.

(** C31: the bucket that SetNodeBucket's loops compute for well-formed ids: none
    exactly for equal ids (SetNodeBucket then stores kSelfBucketIndex and fails);
    otherwise, when bit [i] counted from the last bit as 0 is the highest in which
    the ids differ, it is [i + 1], between 1 and 8 * kNodeIdSize, the bit length
    of the XOR distance. That is one more than the header of SetNodeBucket says
    (0 for ids that differ in the last bit only, up to 8 * kNodeIdSize - 1, and
    -1 for equal ids); the repository's test SetNodeBucket_1 expects the code's
    numbers. And a node in a lower bucket is strictly nearer than a node in a
    higher one. *)
Theorem bucket_is_distance_bit_length local a :
  id_ok local -> id_ok a ->
  (bucket_scan local a = Ok None <-> local = a) /\
  (forall i, (2 ^ i <= xor_distance local a < 2 ^ (i + 1))%N ->
     (i <= 8 * N.of_nat kNodeIdSize - 1)%N /\
     bucket_scan local a = Ok (Some (Z.of_N i + 1))) /\
  (forall ba, bucket_scan local a = Ok (Some ba) ->
     ba = Z.of_N (N.size (xor_distance local a)) /\ 1 <= ba <= 8 * Z.of_nat kNodeIdSize /\
     forall b bb, id_ok b -> bucket_scan local b = Ok (Some bb) -> ba < bb ->
       (xor_distance local a < xor_distance local b)%N).
Proof.
  intros Hl Ha. rewrite bucket_scan_spec by done. splits.
  - by destruct (decide (local = a)).
  - intros i Hi. assert (0 < 2 ^ i)%N by (apply N.neq_0_lt_0, N.pow_nonzero; lia).
    destruct (decide (local = a)) as [->|Na]; [rewrite xor_distance_self in Hi; lia|].
    assert (N.size (xor_distance local a) = N.succ i) as Es
      by (rewrite N.size_log2 by lia; f_equal; apply N.log2_unique; rewrite <- ?N.add_1_r; lia).
    pose proof (bucket_range local a Hl Ha Na) as Hr. rewrite Es in *.
    split; [lia|do 2 f_equal; lia].
  - intros ba Ea. destruct (decide (local = a)) as [|Na]; [done|]. injection Ea as <-.
    split; [done|]. split; [by apply bucket_range|]. intros b bb Hb Eb Hlt.
    rewrite bucket_scan_spec in Eb by done.
    destruct (decide (local = b)) as [|Nb]; [done|]. injection Eb as <-.
    destruct (N.lt_ge_cases (xor_distance local a) (xor_distance local b)) as [|Hge]; [done|].
    apply size_mono in Hge. lia.
Qed.
End properties.

Import Externals.Examples.

Lemma CloserToTarget_xor_metric_witness :
  CloserToTarget "abcd" "abcz" "abce" = Ok true.
Proof.
  rewrite (CloserToTarget_xor_metric "abcd" "abcz" "abce"); reflexivity.
Defined.

Lemma bucket_is_distance_bit_length_witness :
  bucket_scan "abcd" "abce" = Ok (Some 1) /\
  (xor_distance "abcd" "abce" < xor_distance "abcd" "zbcd")%N.
Proof.
  destruct (bucket_is_distance_bit_length "abcd" "abce") as (_ & Hi & Hn);
    [reflexivity|reflexivity|].
  assert (bucket_scan "abcd" "abce" = Ok (Some 1)) as E
    by (apply (Hi 0%N); split; [discriminate|reflexivity]).
  split; [exact E|]. destruct (Hn 1 E) as (_ & _ & Ho). by apply (Ho "zbcd" 29).
Defined.
