(* ===== verification/Sorting.v ===== *)
(** The ordering algorithms of the C++ standard library the routing table
    uses, as an interface. [PartialSort] is what the standard promises of
    std::partial_sort(first, first + k, last, cmp) (and of std::sort, which is
    [k = length]): a permutation whose first [k] elements are in order and no
    larger than the rest, the order of the rest being unspecified. The
    comparator can itself be undefined on some arguments, so it returns an
    [outcome]. [selection] is an executable implementation of the interface. *)

From S2P Require Import Prelude.

(** ** The interface *)

Class PartialSort := {
  partial_sort : forall A : Type, (A -> A -> outcome bool) -> nat -> list A -> outcome (list A) }.
Arguments partial_sort {_ A} _ _ _.

(** [lt] is a strict weak order on the elements of [l]. *)
Record strict_weak_on {A} (lt : A -> A -> bool) (l : list A) : Prop := {
  swo_irrefl x : x ∈ l -> lt x x = false;
  swo_trans x y z : x ∈ l -> y ∈ l -> z ∈ l -> lt x y = true -> lt y z = true -> lt x z = true;
  swo_incomp x y z : x ∈ l -> y ∈ l -> z ∈ l ->
    lt x y = false -> lt y z = false -> lt x z = false }.

(** [cmp] is defined on all pairs from [l] and computes [lt]. *)
Definition computes_on {A} (cmp : A -> A -> outcome bool) (lt : A -> A -> bool) (l : list A) :=
  forall x y, x ∈ l -> y ∈ l -> cmp x y = Ok (lt x y).

(** Positions below [k] hold, in order, elements no larger than what follows. *)
Definition sorted_prefix {A} (lt : A -> A -> bool) (k : nat) (l : list A) : Prop :=
  forall i j x y, (i < j)%nat -> (i < k)%nat -> l !! i = Some x -> l !! j = Some y ->
    lt y x = false.

Class PartialSortLaws `{PartialSort} : Prop := {
  partial_sort_ok {A} (cmp : A -> A -> outcome bool) lt k (l : list A) :
    computes_on cmp lt l -> strict_weak_on lt l ->
    exists l', partial_sort cmp k l = Ok l' /\ l' ≡ₚ l /\ sorted_prefix lt k l';
  partial_sort_perm {A} (cmp : A -> A -> outcome bool) k (l l' : list A) :
    partial_sort cmp k l = Ok l' -> l' ≡ₚ l;
  (* with two elements or more, some pair is compared *)
  partial_sort_compares {A} (cmp : A -> A -> outcome bool) k (l : list A) e :
    (0 < k)%nat -> (2 <= length l)%nat ->
    (forall x y, x ∈ l -> y ∈ l -> cmp x y = Fault e) ->
    partial_sort cmp k l = Fault e }.

(** ** Selection: take the minimum out, [k] times *)

(** The first minimum of [x :: l], and the other elements in their order. *)
Fixpoint extract_min {A} (cmp : A -> A -> outcome bool) (x : A) (l : list A)
    : outcome (A * list A) :=
  match l with
  | [] => Ok (x, [])
  | y :: l' =>
      '(m, r) ← extract_min cmp y l';
      b ← cmp m x;
      Ok (if b : bool then (m, x :: r) else (x, m :: r))
  end.

Fixpoint selection {A} (cmp : A -> A -> outcome bool) (k : nat) (l : list A)
    : outcome (list A) :=
  match k, l with
  | S k', x :: l' =>
      '(m, r) ← extract_min cmp x l';
      r' ← selection cmp k' r;
      Ok (m :: r')
  | _, _ => Ok l
  end.

Definition selection_sort : PartialSort := {| partial_sort := @selection |}.

(** ** Lemmas *)

Lemma extract_min_perm {A} (cmp : A -> A -> outcome bool) x l m r :
  extract_min cmp x l = Ok (m, r) -> m :: r ≡ₚ x :: l.
Proof.
  revert x m r. induction l as [|y l IH]; intros x m r; simpl.
  { by intros [= <- <-]. }
  destruct (extract_min cmp y l) as [[m' r']|e] eqn:E; simpl; [|done].
  destruct (cmp m' x) as [b|e]; simpl; [|done]. intros [= Hb]. specialize (IH _ _ _ E).
  destruct b; injection Hb as <- <-.
  - by rewrite Permutation_swap, IH.
  - by rewrite IH.
Qed.

Lemma selection_perm {A} (cmp : A -> A -> outcome bool) k l l' :
  selection cmp k l = Ok l' -> l' ≡ₚ l.
Proof.
  revert l l'. induction k as [|k IH]; intros [|x l] l'; simpl; try by intros [= <-].
  destruct (extract_min cmp x l) as [[m r]|e] eqn:E; simpl; [|done].
  destruct (selection cmp k r) as [r'|e] eqn:Er; simpl; [|done]. intros [= <-].
  rewrite (IH _ _ Er). by eapply extract_min_perm.
Qed.

Lemma computes_on_sub {A} (cmp : A -> A -> outcome bool) lt l l' :
  l' ⊆ l -> computes_on cmp lt l -> computes_on cmp lt l'.
Proof. intros Hsub Hc x y Hx Hy. by apply Hc; apply Hsub. Qed.

Lemma strict_weak_sub {A} (lt : A -> A -> bool) l l' :
  l' ⊆ l -> strict_weak_on lt l -> strict_weak_on lt l'.
Proof.
  intros Hsub [H1 H2 H3]. split; [|intros x y z|intros x y z]; eauto.
Qed.

Lemma extract_min_spec {A} (cmp : A -> A -> outcome bool) lt x l :
  computes_on cmp lt (x :: l) -> strict_weak_on lt (x :: l) ->
  exists m r, extract_min cmp x l = Ok (m, r) /\ forall y, y ∈ r -> lt y m = false.
Proof.
  revert x. induction l as [|y l IH]; intros x Hc Hs; simpl.
  { exists x, []. split; [done|]. by intros y ?%elem_of_nil. }
  assert (y :: l ⊆ x :: y :: l) as Hsub by set_solver.
  destruct (IH y) as (m & r & E & Hmin);
    [by eapply computes_on_sub|by eapply strict_weak_sub|].
  pose proof (extract_min_perm _ _ _ _ _ E) as Hp.
  assert (m :: r ⊆ x :: y :: l) as Hin by (rewrite Hp; done).
  assert (m ∈ x :: y :: l) as Hm by (apply Hin; left).
  assert (x ∈ x :: y :: l) as Hx by left.
  rewrite E. simpl. rewrite (Hc m x Hm Hx). simpl.
  destruct (lt m x) eqn:Emx; eexists _, _; (split; [done|]); intros z Hz.
  - apply elem_of_cons in Hz as [->|Hz]; [|by apply Hmin].
    destruct (lt x m) eqn:Exm; [|done].
    pose proof (swo_trans _ _ Hs m x m Hm Hx Hm Emx Exm) as Hmm.
    by rewrite (swo_irrefl _ _ Hs m Hm) in Hmm.
  - apply elem_of_cons in Hz as [->|Hz]; [done|].
    apply (swo_incomp _ _ Hs z m x); auto. apply Hin. by right.
Qed.

Lemma sorted_prefix_cons {A} (lt : A -> A -> bool) k m l :
  (forall y, y ∈ l -> lt y m = false) -> sorted_prefix lt k l ->
  sorted_prefix lt (S k) (m :: l).
Proof.
  intros Hm Hl i j x y Hij Hk Hi Hj. destruct j as [|j]; [lia|].
  destruct i as [|i]; simpl in *.
  - injection Hi as <-. apply Hm. by eapply list_elem_of_lookup_2.
  - eapply (Hl i j); eauto; lia.
Qed.

Lemma selection_ok {A} (cmp : A -> A -> outcome bool) lt k l :
  computes_on cmp lt l -> strict_weak_on lt l ->
  exists l', selection cmp k l = Ok l' /\ l' ≡ₚ l /\ sorted_prefix lt k l'.
Proof.
  revert l. induction k as [|k IH]; intros l Hc Hs.
  { exists l. split; [done|]. split; [done|]. intros i j x y _ Hi. lia. }
  destruct l as [|x l]; simpl.
  { exists []. split; [done|]. split; [done|]. by intros i j y z _ _ Hi; rewrite lookup_nil in Hi. }
  destruct (extract_min_spec cmp lt x l) as (m & r & E & Hmin); [done|done|].
  pose proof (extract_min_perm _ _ _ _ _ E) as Hp.
  assert (r ⊆ x :: l) as Hsub by (rewrite <- Hp; set_solver).
  destruct (IH r) as (r' & Er & Hpr & Hsr);
    [by eapply computes_on_sub|by eapply strict_weak_sub|].
  exists (m :: r'). rewrite E. simpl. rewrite Er. simpl.
  split; [done|]. split; [by rewrite Hpr|].
  apply sorted_prefix_cons; [|done]. intros y Hy. apply Hmin. by rewrite <- Hpr.
Qed.

Lemma extract_min_compares {A} (cmp : A -> A -> outcome bool) x y l e :
  (forall a b, a ∈ x :: y :: l -> b ∈ x :: y :: l -> cmp a b = Fault e) ->
  extract_min cmp x (y :: l) = Fault e.
Proof.
  revert x y. induction l as [|z l IH]; intros x y Hf.
  - simpl. by rewrite Hf by set_solver.
  - assert (extract_min cmp y (z :: l) = Fault e) as He
      by (apply IH; intros a b Ha Hb; apply Hf; set_solver).
    cbn [extract_min] in *. by rewrite He.
Qed.

#[export] Instance selection_laws : @PartialSortLaws selection_sort.
Proof.
  split; simpl.
  - intros A. apply selection_ok.
  - intros A. apply selection_perm.
  - intros A cmp k l e Hk Hl Hf. destruct k as [|k]; [lia|].
    destruct l as [|x [|y l]]; simpl in Hl; try lia.
    cbn [selection]. by rewrite (extract_min_compares cmp x y l e Hf).
Qed.

(** A prefix of a sorted result: its elements are the nearest of all. *)
Lemma sorted_prefix_take {A} (lt : A -> A -> bool) k l x y :
  sorted_prefix lt k l -> x ∈ take k l -> y ∈ drop k l -> lt y x = false.
Proof.
  intros Hs [i Hi]%list_elem_of_lookup [j Hj]%list_elem_of_lookup.
  apply lookup_take_Some in Hi as [Hi Hik]. rewrite lookup_drop in Hj.
  eapply (Hs i (k + j)%nat); eauto; lia.
Qed.

Lemma strict_weak_ltb {A} (f : A -> N) (l : list A) :
  strict_weak_on (fun x y => f x <? f y)%N l.
Proof.
  split; intros; rewrite ?N.ltb_lt, ?N.ltb_ge in *; lia.
Qed.
