(* ===== verification/NodeInfo.v ===== *)
(** Constants of routing_table/routing_utils.h and nat_detect/nat_defines.h,
    the message identity used by the gossip layer, and the NodeInfo object of
    routing_table/node_info.h and src/node_info.cc: one [Definition] per
    constructor and method. Times are in nanoseconds of the steady clock. *)

From S2P Require Import Prelude Externals.

(** ** routing_utils.h *)

Definition kKadParamK : Z := 8.
Definition kKadParamAlpha : Z := 2.
Definition kKadParamAlphaRandom : Z := 1.
Definition kNodeIdTypeSize : nat := 4.
Definition kDetectionTimes : Z := 4.
Definition kJoinRetryTimes : Z := 5.
Definition kFindNodesBloomfilterBitSize : Z := 4096.
Definition kFindNodesBloomfilterHashNum : Z := 11.
Definition kRoutingMaxNodesSize `{Xbase} : Z := Z.of_nat kNodeIdSize * 8 * kKadParamK.

Definition kHandshakeRequest : Z := 1.
Definition kHandshakeResponse : Z := 2.
Definition kContinue : Z := 3.

(** ** nat_defines.h: enum NatType *)

Definition kNatTypeUnknown : Z := 0.
Definition kNatTypePublic : Z := 1.
Definition kNatTypeConeNormal : Z := 2.
Definition kNatTypeConeAbnormal : Z := 3.

(** ** MessageIdentity *)

Record MessageIdentity := mkMessageIdentity {
  mi_message_id : Z;
  mi_node_id : string }.

Definition MessageIdentity_ToString `{Xbase} (m : MessageIdentity) : string :=
  (fmt_id (mi_message_id m) +:+ mi_node_id m)%string.

Definition MessageIdentity_ltb (a b : MessageIdentity) : bool :=
  if mi_message_id a <? mi_message_id b then true
  else if mi_message_id a =? mi_message_id b then
    if string_ltb (mi_node_id a) (mi_node_id b) then true else false
  else false.

(** ** NodeInfo *)

Definition kInvalidBucketIndex : Z := -1.
Definition kSelfBucketIndex : Z := 0.
Definition kHeartbeatFirstTimeout : Z := 8.
Definition kHeartbeatSecondTimeout : Z := 2.
Definition kHeartbeatErrorMaxCount : Z := 12.

Definition seconds (n : Z) : Z := n * 10 ^ 9.

(** [udp_property] only records whether the pointer is set. *)
Record NodeInfo := mkNodeInfo {
  node_id : string;
  bucket_index : Z;
  public_ip : string;
  public_port : Z;
  local_ip : string;
  local_port : Z;
  connection_id : Z;
  detection_count : Z;
  nat_type : Z;
  detection_delay_count : Z;
  heartbeat_count : Z;
  service_type : Z;
  is_client : bool;
  tp_next_time_to_heartbeat : Z;
  same_vlan : bool;
  xid : string;
  xip : string;
  score : Z;
  hash64 : Z;
  udp_property : bool }.

#[global] Instance NodeInfo_eta : Eta NodeInfo := fun r =>
  mkNodeInfo (node_id r) (bucket_index r) (public_ip r) (public_port r) (local_ip r)
    (local_port r) (connection_id r) (detection_count r) (nat_type r)
    (detection_delay_count r) (heartbeat_count r) (service_type r) (is_client r)
    (tp_next_time_to_heartbeat r) (same_vlan r) (xid r) (xip r) (score r) (hash64 r)
    (udp_property r).

#[global] Instance NodeInfo_eq_dec : EqDecision NodeInfo.
Proof. solve_decision. Defined.

(** The member initializers of the class. *)
Definition NodeInfo_fields : NodeInfo :=
  mkNodeInfo "" kInvalidBucketIndex "" 0 "" 0 0 0 0 0 0 0 false 0 false "" "" 0 0 false.

#[global] Instance NodeInfo_inhabited : Inhabited NodeInfo := populate NodeInfo_fields.

Definition ResetHeartbeat (now : Z) (n : NodeInfo) : NodeInfo :=
  n <| heartbeat_count := 0 |>
    <| tp_next_time_to_heartbeat := now + seconds kHeartbeatFirstTimeout |>.

Definition NodeInfo_new (now : Z) : NodeInfo := ResetHeartbeat now NodeInfo_fields.

Definition NodeInfo_of_id (now : Z) (id : string) : NodeInfo :=
  (ResetHeartbeat now (NodeInfo_fields <| node_id := id |>)) <| udp_property := true |>.

(** The copy constructor: the fields it lists, the hash recomputed from the
    xid, the heartbeat reset, a UdpProperty of its own. *)
Definition NodeInfo_copy `{Xbase} (now : Z) (other : NodeInfo) : NodeInfo :=
  (ResetHeartbeat now
    (other <| tp_next_time_to_heartbeat := 0 |>
           <| hash64 := xhash64 (xid other) |>))
  <| udp_property := true |>.

(** [*this = other], for two different objects (self-assignment returns). *)
Definition NodeInfo_assign `{Xbase} (this other : NodeInfo) : NodeInfo :=
  other <| hash64 := xhash64 (xid other) |> <| udp_property := udp_property this |>.

Definition NodeInfo_ltb (a b : NodeInfo) : bool := string_ltb (node_id a) (node_id b).

Definition IsPublicNode (n : NodeInfo) : bool :=
  (public_ip n =? local_ip n)%string && (public_port n =? local_port n).

Definition NodeInfo_string (n : NodeInfo) : string := node_id n.

Definition IsTimeout (tp_now : Z) (n : NodeInfo) : bool :=
  kHeartbeatErrorMaxCount <=? heartbeat_count n.

Definition IsTimeToHeartbeat (tp_now : Z) (n : NodeInfo) : bool :=
  tp_next_time_to_heartbeat n <? tp_now.

Definition Heartbeat (now : Z) (n : NodeInfo) : outcome NodeInfo :=
  c ← int_inc (heartbeat_count n);
  Ok (n <| heartbeat_count := c |>
        <| tp_next_time_to_heartbeat := now + seconds kHeartbeatSecondTimeout |>).

(** ** Lemmas *)

(** [k] heartbeats in a row, sent at the times of [ts]. *)
Definition heartbeats (ts : list Z) (n : NodeInfo) : outcome NodeInfo :=
  fold_m (fun n t => Heartbeat t n) ts n.

Lemma heartbeats_count ts n :
  0 <= heartbeat_count n -> heartbeat_count n + Z.of_nat (length ts) < 2 ^ 31 ->
  exists n', heartbeats ts n = Ok n' /\
    heartbeat_count n' = heartbeat_count n + Z.of_nat (length ts).
Proof.
  unfold heartbeats. revert n. induction ts as [|t ts IH]; intros n H0 Hb.
  { exists n. split; [done|]. simpl. lia. }
  cbn [fold_m length] in *. unfold Heartbeat. rewrite int_inc_below by lia. cbn [mbind outcome_bind].
  match goal with |- context [fold_m _ ts ?n1] => destruct (IH n1) as (n' & E & Ec) end; simpl; try lia.
  exists n'. split; [exact E|]. rewrite Ec. simpl. lia.
Qed.

Lemma string_ltb_irrefl s : string_ltb s s = false.
Proof.
  unfold string_ltb. induction s as [|c s IH]; simpl; [done|].
  unfold Ascii.compare. by rewrite N.compare_refl.
Qed.

Lemma string_ltb_trans a b c :
  string_ltb a b = true -> string_ltb b c = true -> string_ltb a c = true.
Proof.
  unfold string_ltb. revert b c.
  induction a as [|x a IH]; intros [|y b] [|z c]; simpl; try done.
  unfold Ascii.compare.
  destruct (N.compare_spec (N_of_ascii x) (N_of_ascii y)) as [E1|E1|E1]; try done;
    destruct (N.compare_spec (N_of_ascii y) (N_of_ascii z)) as [E2|E2|E2]; try done;
    destruct (N.compare_spec (N_of_ascii x) (N_of_ascii z)) as [E3|E3|E3];
    try done; try lia. apply IH.
Qed.

Lemma string_ltb_trichotomy a b : a = b \/ string_ltb a b = true \/ string_ltb b a = true.
Proof.
  unfold string_ltb. revert b. induction a as [|x a IH]; intros [|y b]; simpl; auto.
  unfold Ascii.compare. rewrite (N.compare_antisym (N_of_ascii y)).
  destruct (N.compare_spec (N_of_ascii y) (N_of_ascii x)) as [E|E|E]; simpl; auto.
  assert (x = y) as <-.
  { rewrite <- (ascii_N_embedding x), <- (ascii_N_embedding y). by rewrite E. }
  destruct (IH b) as [->|]; auto.
Qed.

(** ** Properties *)

(** A node that has been heart-beaten k times since its last answer is
    reported as timed out exactly from the twelfth unanswered heartbeat on, and
    one ResetHeartbeat clears it. *)
Theorem heartbeat_timeout_after_twelve now tp ts n :
  Z.of_nat (length ts) < 2 ^ 31 ->
  exists n', heartbeats ts (ResetHeartbeat now n) = Ok n' /\
    IsTimeout tp n' = (12 <=? length ts)%nat /\ IsTimeout tp (ResetHeartbeat now n') = false.
Proof.
  intros Hb. destruct (heartbeats_count ts (ResetHeartbeat now n)) as (n' & En & Ec); [done..|].
  exists n'. split; [done|]. split; [|done]. unfold IsTimeout, kHeartbeatErrorMaxCount.
  rewrite Ec. simpl heartbeat_count.
  destruct (12 <=? length ts)%nat eqn:E; [apply Z.leb_le|apply Z.leb_gt]; bool_props;
    [apply Nat.leb_le in E|apply Nat.leb_gt in E]; lia.
Qed.

Lemma heartbeat_timeout_after_twelve_witness :
  exists n', heartbeats [1; 2; 3] (ResetHeartbeat 0 NodeInfo_fields) = Ok n' /\ IsTimeout 0 n' = false.
Proof.
  destruct (heartbeat_timeout_after_twelve 0 0 [1; 2; 3] NodeInfo_fields) as (n' & E & Et & _);
    [reflexivity|]. by exists n'.
Defined.

(** MessageIdentity::operator< is a strict total order on (message_id,
    node_id) pairs, so a std::map keyed by it never merges two identities; and
    for 32-bit ids two different identities never print alike. *)
Theorem MessageIdentity_order `{XbaseLaws} a b c :
  MessageIdentity_ltb a a = false /\
  (MessageIdentity_ltb a b = true -> MessageIdentity_ltb b c = true ->
   MessageIdentity_ltb a c = true) /\
  (MessageIdentity_ltb a b = false -> MessageIdentity_ltb b a = false -> a = b) /\
  (u32 (mi_message_id a) = mi_message_id a -> u32 (mi_message_id b) = mi_message_id b ->
   MessageIdentity_ToString a = MessageIdentity_ToString b -> a = b).
Proof.
  destruct a as [i s], b as [j t], c as [k u].
  unfold MessageIdentity_ltb, MessageIdentity_ToString; simpl.
  rewrite Z.ltb_irrefl, Z.eqb_refl, string_ltb_irrefl. split; [done|]. split; [|split].
  - destruct (Z.ltb_spec i j), (Z.ltb_spec j k), (Z.ltb_spec i k); try done; try lia;
      destruct (Z.eqb_spec i j), (Z.eqb_spec j k), (Z.eqb_spec i k); try done; try lia.
    destruct (string_ltb s t) eqn:E1, (string_ltb t u) eqn:E2; try done.
    by rewrite (string_ltb_trans _ _ _ E1 E2).
  - destruct (Z.ltb_spec i j), (Z.ltb_spec j i), (Z.eqb_spec i j), (Z.eqb_spec j i);
      try done; try lia. subst.
    destruct (string_ltb_trichotomy s t) as [-> | [-> | ->]]; done.
  - intros Hi Hj E. pose proof (u32_range i). pose proof (u32_range j).
    apply fmt_id_inj in E as [-> ->]; [done|lia|lia].
Qed.

Lemma MessageIdentity_order_witness :
  MessageIdentity_ltb (mkMessageIdentity 7 "a") (mkMessageIdentity 7 "b") = true /\
  MessageIdentity_ltb (mkMessageIdentity 7 "a") (mkMessageIdentity 7 "a") = false.
Proof.
  split; [reflexivity|].
  apply (@MessageIdentity_order Examples.ex_xbase Examples.ex_xbase_laws
    (mkMessageIdentity 7 "a") (mkMessageIdentity 7 "b") (mkMessageIdentity 7 "c")).
Defined.
