(* ===== verification/LocalNodeInfo.v ===== *)
(** routing_table/local_node_info.h and src/local_node_info.cc: what a node
    knows of itself, its dynamic xips, and its two address books. The getters
    of the header are the record's projections, its setters record updates. *)

From S2P Require Import Prelude Externals NodeInfo.

Section local_node_info.
Context `{Xbase} `{KadKey} `{Xip}.

(** ** State *)

(** [ln_xip] and [ln_kadmlia_key] are shared pointers, hence options. *)
Record LocalNodeInfo := mkLocalNodeInfo {
  ln_local_ip : string;
  ln_local_port : Z;
  ln_rpc_http_port : Z;
  ln_rpc_ws_port : Z;
  ln_first_node : bool;
  ln_client_mode : bool;
  ln_private_key : string;
  ln_public_key : string;
  ln_public_ip : string;
  ln_public_port : Z;
  ln_nat_type : Z;
  ln_idtype : string;
  ln_service_type : Z;
  ln_routing_table_id : Z;
  ln_role : Z;
  ln_xip : option XipParser;
  ln_kadmlia_key : option KadmliaKey;
  ln_score : Z;
  ln_node_dxip_map : gmap string string;
  ln_dxip_node_map : gmap string string;
  ln_is_root : bool;
  ln_hash64 : Z }.

#[global] Instance LocalNodeInfo_eta : Eta LocalNodeInfo := fun r =>
  mkLocalNodeInfo (ln_local_ip r) (ln_local_port r) (ln_rpc_http_port r) (ln_rpc_ws_port r)
    (ln_first_node r) (ln_client_mode r) (ln_private_key r) (ln_public_key r)
    (ln_public_ip r) (ln_public_port r) (ln_nat_type r) (ln_idtype r) (ln_service_type r)
    (ln_routing_table_id r) (ln_role r) (ln_xip r) (ln_kadmlia_key r) (ln_score r)
    (ln_node_dxip_map r) (ln_dxip_node_map r) (ln_is_root r) (ln_hash64 r).

(** The member initializers; [score_] has none, so its value is an argument. *)
Definition LocalNodeInfo_new (score : Z) : LocalNodeInfo :=
  mkLocalNodeInfo "" 0 0 0 false false "" "" "" 0 kNatTypeUnknown "" kInvalidType 0
    kRoleInvalid (Some xip_default) None score ∅ ∅ false 0.

(** ** Operations *)

Definition LocalNodeInfo_id (l : LocalNodeInfo) : outcome string :=
  match ln_kadmlia_key l with
  | Some k => Ok (key_Get k)
  | None => Fault AssertFailed
  end.

(** [LocalNodeInfo_id] under its other name. *)
Definition kad_key (l : LocalNodeInfo) : outcome string := LocalNodeInfo_id l.

(** Init(...): [nat] is what NatManagerIntf::GetLocalNatType answers, [rnd] the
    random number drawn, [gxid] the pointer global_xid. *)
Definition LocalNodeInfo_Init (ip : string) (port : Z) (first client : bool)
    (idtype : string) (key : option KadmliaKey) (service role : Z)
    (nat : bool * Z) (rnd : Z) (gxid : option KadmliaKey) (l : LocalNodeInfo)
    : outcome (bool * LocalNodeInfo) :=
  match key with
  | None => Fault NullDeref
  | Some k =>
      let l := l <| ln_local_ip := ip |> <| ln_local_port := port |>
                 <| ln_first_node := first |> <| ln_client_mode := client |>
                 <| ln_idtype := idtype |> <| ln_kadmlia_key := Some k |>
                 <| ln_xip := Some (xip_of_string (key_Xip k)) |> in
      let l := if ln_first_node l
               then l <| ln_public_ip := ln_local_ip l |>
                      <| ln_public_port := ln_local_port l |>
               else l in
      let l := l <| ln_nat_type := nat.2 |> in
      if negb nat.1 || (ln_nat_type l =? kNatTypeUnknown) then Ok (false, l)
      else
        match gxid with
        | None => Fault NullDeref
        | Some g =>
            Ok (true, l <| ln_service_type := key_GetServiceType k |>
                        <| ln_role := role |>
                        <| ln_score := rnd mod 100 |>
                        <| ln_hash64 := xhash64 (key_Get g) |>)
        end
  end.

Definition Reset (l : LocalNodeInfo) : LocalNodeInfo :=
  l <| ln_xip := None |> <| ln_kadmlia_key := None |>
    <| ln_local_ip := ""%string |> <| ln_local_port := 0 |>
    <| ln_first_node := false |> <| ln_client_mode := false |>
    <| ln_private_key := ""%string |> <| ln_public_key := ""%string |>
    <| ln_public_ip := ""%string |> <| ln_public_port := 0 |>
    <| ln_nat_type := kNatTypeUnknown |> <| ln_idtype := ""%string |>
    <| ln_role := kRoleInvalid |>.

Definition LocalNodeInfo_IsPublicNode (l : LocalNodeInfo) : bool :=
  (ln_local_ip l =? ln_public_ip l)%string && (ln_local_port l =? ln_public_port l).

Definition set_xip (xip_str : string) (l : LocalNodeInfo) : outcome LocalNodeInfo :=
  match ln_xip l with
  | Some _ => Ok (l <| ln_xip := Some (xip_of_string xip_str) |>)
  | None => Fault NullDeref
  end.

(** GetXipParser returns a reference. In client mode the object referred to is
    owned by a local shared_ptr, gone when the function returns. *)
Inductive xip_ref :=
  | Live (x : XipParser)
  | Dangling (x : XipParser).

Definition GetXipParser (l : LocalNodeInfo) : outcome xip_ref :=
  if ln_client_mode l then
    match entries_by string_ltb (ln_dxip_node_map l) with
    | [] => Ok (Dangling xip_default)
    | (client_random_self_dxip, _) :: _ =>
        Ok (Dangling (xip_of_string client_random_self_dxip))
    end
  else
    match ln_xip l with
    | Some x => Ok (Live x)
    | None => Fault NullDeref
    end.

(** Any use of the object behind the reference. *)
Definition use_xip (r : xip_ref) : outcome XipParser :=
  match r with
  | Live x => Ok x
  | Dangling _ => Fault UseAfterFree
  end.

Definition LocalNodeInfo_xip (l : LocalNodeInfo) : outcome string :=
  r ← GetXipParser l; x ← use_xip r; Ok (xip_string x).

Definition AddDxip (node_id dxip : string) (l : LocalNodeInfo) : LocalNodeInfo :=
  l <| ln_node_dxip_map ::= <[node_id := dxip]> |>
    <| ln_dxip_node_map ::= <[dxip := node_id]> |>.

Definition DropDxip (node_id : string) (l : LocalNodeInfo) : LocalNodeInfo :=
  match ln_node_dxip_map l !! node_id with
  | None => l
  | Some tmp_dxip =>
      let l := l <| ln_node_dxip_map ::= delete node_id |> in
      match ln_dxip_node_map l !! tmp_dxip with
      | Some _ => l <| ln_dxip_node_map ::= delete tmp_dxip |>
      | None => l
      end
  end.

Definition HasDynamicXip (dxip : string) (l : LocalNodeInfo) : bool :=
  match ln_dxip_node_map l !! dxip with Some _ => true | None => false end.

(** ** Lemmas *)

(** DropDxip touches nothing but the two address books. *)
Lemma DropDxip_frame n l :
  exists m1 m2, DropDxip n l = l <| ln_node_dxip_map := m1 |> <| ln_dxip_node_map := m2 |>.
Proof.
  unfold DropDxip. destruct (ln_node_dxip_map l !! n) as [d|].
  - simpl. destruct (ln_dxip_node_map l !! d); eexists _, _; reflexivity.
  - exists (ln_node_dxip_map l), (ln_dxip_node_map l). by destruct l.
Qed.

(** The two maps agree: each distributed xip has one owner, recorded both ways. *)
Definition dxip_consistent (l : LocalNodeInfo) : Prop :=
  forall n d, ln_node_dxip_map l !! n = Some d <-> ln_dxip_node_map l !! d = Some n.

Lemma DropDxip_consistent n l : dxip_consistent l -> dxip_consistent (DropDxip n l).
Proof.
  unfold dxip_consistent, DropDxip. intros Hc.
  destruct (ln_node_dxip_map l !! n) as [d|] eqn:En; [|done]. simpl.
  pose proof (proj1 (Hc n d) En) as Ed. rewrite Ed. simpl. intros n' d'.
  rewrite !lookup_delete_Some, Hc. split; intros [Hne Hl]; split; try done.
  - intros <-. rewrite Ed in Hl. congruence.
  - intros <-. apply Hc in Hl. congruence.
Qed.

(** ** Properties *)

(** In a consistent address book, adding a fresh xip for a node that had
    none and then dropping the node restores the book exactly; meanwhile the
    xip is known and the book stays consistent. *)
Theorem AddDxip_DropDxip_roundtrip n d l :
  dxip_consistent l ->
  ln_node_dxip_map l !! n = None -> ln_dxip_node_map l !! d = None ->
  dxip_consistent (AddDxip n d l) /\
  HasDynamicXip d (AddDxip n d l) = true /\
  DropDxip n (AddDxip n d l) = l.
Proof.
  intros Hc Hn Hd. split; [|split].
  - unfold dxip_consistent, AddDxip in *. simpl. intros n' d'.
    rewrite !lookup_insert_Some, Hc. split.
    + intros [[<- <-]|[Hne Hl]]; [by left|right]. split; [|done]. intros <-. congruence.
    + intros [[<- <-]|[Hne Hl]]; [by left|right]. split; [|done].
      intros <-. apply Hc in Hl. congruence.
  - unfold HasDynamicXip, AddDxip. simpl. by rewrite lookup_insert_eq.
  - unfold DropDxip, AddDxip. simpl. rewrite !lookup_insert_eq. simpl.
    record_ext; cbn; by rewrite ?delete_insert_id.
Qed.

(** When a node hands out a second dynamic xip, the first one is never
    reclaimed: after the node is dropped the local node still believes it owns
    it. *)
Theorem second_dxip_leaks n d0 d1 l :
  d0 <> d1 -> HasDynamicXip d0 (DropDxip n (AddDxip n d1 (AddDxip n d0 l))) = true.
Proof.
  intros Hne. unfold HasDynamicXip, DropDxip, AddDxip. simpl.
  rewrite !lookup_insert_eq. simpl.
  by rewrite lookup_delete_ne, lookup_insert_ne, lookup_insert_eq by done.
Qed.

(** In client mode every call of xip() reads an object that no longer
    exists: GetXipParser returns a reference into a shared_ptr local to it. *)
Theorem client_xip_use_after_free l :
  ln_client_mode l = true -> LocalNodeInfo_xip l = Fault UseAfterFree.
Proof.
  intros Hc. unfold LocalNodeInfo_xip, GetXipParser. rewrite Hc.
  by destruct (entries_by string_ltb (ln_dxip_node_map l)) as [|[d n] rest].
Qed.

(** Init answers true exactly when the NAT manager knows the NAT type,
    provided the global xid exists, which only a successful Init reads; then the
    node has an id, is of the service its key names, has a score below
    100 and, when it is a first node, its public endpoint is its local one; a
    node whose Init failed keeps its previous service type. *)
Theorem LocalNodeInfo_Init_spec ip port first client idt k srv role nat rnd gxid l :
  0 <= rnd ->
  let known := nat.1 && negb (nat.2 =? kNatTypeUnknown) in
  (LocalNodeInfo_Init ip port first client idt (Some k) srv role nat rnd gxid l = Fault NullDeref /\
   known = true /\ gxid = None) \/
  exists ok l',
    LocalNodeInfo_Init ip port first client idt (Some k) srv role nat rnd gxid l = Ok (ok, l') /\
    ok = known /\ (known = true -> is_Some gxid) /\
    LocalNodeInfo_id l' = Ok (key_Get k) /\
    (first = true -> ln_public_ip l' = ip /\ ln_public_port l' = port) /\
    (if ok then ln_service_type l' = key_GetServiceType k /\ 0 <= ln_score l' < 100 /\
                ln_nat_type l' <> kNatTypeUnknown /\
                exists g, gxid = Some g /\ ln_hash64 l' = xhash64 (key_Get g)
     else ln_service_type l' = ln_service_type l).
Proof.
  intros Hr. destruct nat as [b t]. unfold LocalNodeInfo_Init.
  pose proof (Z.mod_pos_bound rnd 100 ltac:(lia)).
  destruct first; cbn; destruct b, (Z.eqb_spec t kNatTypeUnknown) as [->|Ht], gxid as [g|]; cbn;
    try (left; done); right; (eexists _, _; split; [reflexivity|]); cbn;
    repeat split; try done; try lia; by eauto.
Qed.
End local_node_info.

Arguments LocalNodeInfo {_ _}.

Import Externals.Examples.

Definition ex_local : LocalNodeInfo :=
  (LocalNodeInfo_new 0) <| ln_kadmlia_key := Some ex_key |>.

Lemma AddDxip_DropDxip_roundtrip_witness :
  DropDxip "nodeA" (AddDxip "nodeA" "xip1" ex_local) = ex_local.
Proof.
  apply (AddDxip_DropDxip_roundtrip "nodeA" "xip1" ex_local); [done|reflexivity|reflexivity].
Defined.

Lemma second_dxip_leaks_witness :
  HasDynamicXip "x0" (DropDxip "n" (AddDxip "n" "x1" (AddDxip "n" "x0" ex_local))) = true.
Proof. apply (second_dxip_leaks "n" "x0" "x1" ex_local). discriminate. Defined.

Lemma client_xip_use_after_free_witness :
  LocalNodeInfo_xip (ex_local <| ln_client_mode := true |>) = Fault UseAfterFree.
Proof. apply (client_xip_use_after_free (ex_local <| ln_client_mode := true |>)). reflexivity. Defined.

Lemma LocalNodeInfo_Init_spec_witness :
  exists ok l',
    LocalNodeInfo_Init "10.0.0.1" 9000 true false "" (Some ex_key) 1 0
      (true, kNatTypePublic) 7 (Some ex_key) ex_local = Ok (ok, l') /\ ok = true.
Proof.
  destruct (LocalNodeInfo_Init_spec "10.0.0.1" 9000 true false "" ex_key 1 0
    (true, kNatTypePublic) 7 (Some ex_key) ex_local ltac:(lia)) as [(_ & _ & E)|(ok & l' & E & Hok & _)];
    [discriminate E|].
  exists ok, l'. split; [exact E|exact Hok].
Defined.
