(* ===== verification/ClientNodes.v ===== *)
(** The two registries of client nodes a relay keeps: ClientNodeManager
    (src/client_node_manager.cc), keyed by node id, and DynamicXipManager
    (src/dynamic_xip_manager.cc), keyed by dynamic xip, with the dispatch of
    fresh dynamic xips from a 32-bit counter. *)

From S2P Require Import Prelude Externals.

(** ** ClientNodeInfo *)

Record ClientNodeInfo := mkClientNodeInfo {
  cn_node_id : string;
  cn_public_ip : string;
  cn_public_port : Z;
  cn_src_service_type : Z }.

#[global] Instance ClientNodeInfo_eta : Eta ClientNodeInfo := fun r =>
  mkClientNodeInfo (cn_node_id r) (cn_public_ip r) (cn_public_port r) (cn_src_service_type r).

Definition ClientNodeInfo_new : ClientNodeInfo := mkClientNodeInfo "" "" 0 0.
Definition ClientNodeInfo_of_id (id : string) : ClientNodeInfo := mkClientNodeInfo id "" 0 0.

(** ** ClientNodeManager *)

Module ClientNodeManager.
Section ops.
Context `{Xbase}.

Record t := mk { client_nodes_map : gmap string ClientNodeInfo }.

Definition init : t := mk ∅.

Definition AddClientNode (node : ClientNodeInfo) (m : t) : Z * t :=
  (kKadSuccess, mk (<[cn_node_id node := node]> (client_nodes_map m))).

Definition RemoveClientNode (node_id : string) (m : t) : t :=
  match client_nodes_map m !! node_id with
  | Some _ => mk (delete node_id (client_nodes_map m))
  | None => m
  end.

Definition FindClientNode (node_id : string) (m : t) : option ClientNodeInfo :=
  client_nodes_map m !! node_id.
End ops.
End ClientNodeManager.

(** ** DynamicXipManager *)

Module DynamicXipManager.
Section ops.
Context `{Xbase} `{Xip}.

(** The d_get_..._id macros. *)
Definition d_get_process_id (id : Z) : Z := Z.shiftr (Z.land id 0xF00000) 16.
Definition d_get_router_id (id : Z) : Z := Z.shiftr (Z.land id 0x0F0000) 16.
Definition d_get_switch_id (id : Z) : Z := Z.shiftr (Z.land id 0xFF00) 8.
Definition d_get_local_id (id : Z) : Z := Z.land id 0xFF.

Record t := mk {
  dy_xip_map : gmap string ClientNodeInfo;
  atom_xip_manager_id : Z }.

(** The constructor leaves the counter uninitialized: any 32-bit [seed]. *)
Definition init (seed : Z) : t := mk ∅ (u32 seed).

Definition DispatchDynamicXip (local_xip : XipParser) (m : t) : string * t :=
  let dynamic_xip := xip_set_xip_type enum_xip_type_dynamic local_xip in
  let now_id := u32 (atom_xip_manager_id m + 1) in
  let dynamic_xip := xip_set_process_id (d_get_process_id now_id) dynamic_xip in
  let dynamic_xip := xip_set_router_id (d_get_router_id now_id) dynamic_xip in
  let dynamic_xip := xip_set_switch_id (d_get_switch_id now_id) dynamic_xip in
  let dynamic_xip := xip_set_local_id (d_get_local_id now_id) dynamic_xip in
  (xip_string dynamic_xip, mk (dy_xip_map m) now_id).

Definition AddClientNode (dy_xip : string) (node : ClientNodeInfo) (m : t) : Z * t :=
  (kKadSuccess, mk (<[dy_xip := node]> (dy_xip_map m)) (atom_xip_manager_id m)).

Definition RemoveClientNode (dy_xip : string) (m : t) : t :=
  match dy_xip_map m !! dy_xip with
  | Some _ => mk (delete dy_xip (dy_xip_map m)) (atom_xip_manager_id m)
  | None => m
  end.

Definition FindClientNode (dy_xip : string) (m : t) : option ClientNodeInfo :=
  dy_xip_map m !! dy_xip.
End ops.

(** The four address parts written into the [i]-th xip dispatched from [m]. *)
Definition nth_parts (m : t) (i : Z) : Z * Z * Z * Z :=
  let id := u32 (atom_xip_manager_id m + i) in
  (d_get_process_id id, d_get_router_id id, d_get_switch_id id, d_get_local_id id).

(** [n] dispatches in a row. *)
Fixpoint dispatch_n `{Xbase} `{Xip} (x : XipParser) (n : nat) (m : t) : t :=
  match n with
  | O => m
  | S n' => dispatch_n x n' (DispatchDynamicXip x m).2
  end.
End DynamicXipManager.

(** ** A registry, abstractly *)

(** What both managers promise: a finite map with overwrite, removal and
    lookup. *)
Class Registry (T K V : Type) `{Countable K} := {
  reg_view : T -> gmap K V;
  reg_add : K -> V -> T -> T;
  reg_remove : K -> T -> T;
  reg_find : K -> T -> option V }.

Class RegistryLaws (T K V : Type) `{Registry T K V} : Prop := {
  reg_add_view k v m : reg_view (reg_add k v m) = <[k := v]> (reg_view m);
  reg_remove_view k m : reg_view (reg_remove k m) = delete k (reg_view m);
  reg_find_view k m : reg_find k m = reg_view m !! k }.

(** ClientNodeManager keys a node by its own id. *)
#[global] Instance client_registry `{Xbase} : Registry ClientNodeManager.t string ClientNodeInfo := {|
  reg_view := ClientNodeManager.client_nodes_map;
  reg_add k v m := (ClientNodeManager.AddClientNode (v <| cn_node_id := k |>) m).2;
  reg_remove := ClientNodeManager.RemoveClientNode;
  reg_find := ClientNodeManager.FindClientNode |}.

#[global] Instance dyxip_registry `{Xbase} : Registry DynamicXipManager.t string ClientNodeInfo := {|
  reg_view := DynamicXipManager.dy_xip_map;
  reg_add k v m := (DynamicXipManager.AddClientNode k v m).2;
  reg_remove := DynamicXipManager.RemoveClientNode;
  reg_find := DynamicXipManager.FindClientNode |}.

#[global] Instance dyxip_registry_laws `{Xbase} :
  RegistryLaws DynamicXipManager.t string ClientNodeInfo.
Proof.
  split; [done| |done]. intros k m. simpl. unfold DynamicXipManager.RemoveClientNode.
  destruct (DynamicXipManager.dy_xip_map m !! k) eqn:E; [done|].
  by rewrite delete_id.
Qed.

(** ** Lemmas: the bits of the counter *)

Lemma land_field id k n :
  0 <= k -> 0 <= n -> 0 <= id ->
  Z.land id (Z.shiftl (Z.ones n) k) = Z.shiftl (Z.land (Z.shiftr id k) (Z.ones n)) k.
Proof.
  intros Hk Hn Hid. apply Z.bits_inj'. intros i Hi.
  rewrite Z.land_spec, !Z.shiftl_spec, Z.land_spec by lia.
  destruct (Z.le_gt_cases k i).
  - rewrite Z.shiftr_spec by lia. replace (i - k + k) with i by lia. done.
  - rewrite !(Z.testbit_neg_r _ (i - k)) by lia. by rewrite andb_false_r.
Qed.

Lemma parts_reassemble id :
  0 <= id ->
  Z.lor (Z.shiftl (Z.lor (DynamicXipManager.d_get_process_id id)
                         (DynamicXipManager.d_get_router_id id)) 16)
        (Z.lor (Z.shiftl (DynamicXipManager.d_get_switch_id id) 8)
               (DynamicXipManager.d_get_local_id id)) = id mod 2 ^ 24.
Proof.
  intros Hid.
  unfold DynamicXipManager.d_get_process_id, DynamicXipManager.d_get_router_id,
    DynamicXipManager.d_get_switch_id, DynamicXipManager.d_get_local_id.
  rewrite <- Z.land_ones by lia. change 0xF00000 with (Z.shiftl (Z.ones 4) 20).
  change 0x0F0000 with (Z.shiftl (Z.ones 4) 16). change 0xFF00 with (Z.shiftl (Z.ones 8) 8).
  change 0xFF with (Z.ones 8).
  apply Z.bits_inj'. intros i Hi.
  repeat first [rewrite Z.lor_spec | rewrite Z.land_spec | rewrite Z.shiftl_spec by lia].
  destruct (Z.le_gt_cases 16 i) as [H16|H16].
  - rewrite !Z.shiftr_spec by lia.
    repeat first [rewrite Z.land_spec | rewrite Z.shiftl_spec by lia].
    replace (i - 16 + 16) with i by lia.
    rewrite !Z.testbit_ones by lia.
    replace (i - 8 + 8) with i by lia.
    destruct (Z.testbit id i); simpl; [|by rewrite ?andb_false_r].
    repeat match goal with |- context [(?a <=? ?b)%Z] => destruct (Z.leb_spec a b) end;
    repeat match goal with |- context [(?a <? ?b)%Z] => destruct (Z.ltb_spec a b) end;
      simpl; try done; lia.
  - rewrite !(Z.testbit_neg_r _ (i - 16)) by lia. cbn [orb].
    destruct (Z.le_gt_cases 8 i) as [H8|H8].
    + rewrite Z.shiftr_spec, Z.land_spec, Z.shiftl_spec by lia.
      replace (i - 8 + 8) with i by lia. rewrite !Z.testbit_ones by lia.
      destruct (Z.testbit id i); simpl; [|done].
      repeat match goal with |- context [(?a <=? ?b)%Z] => destruct (Z.leb_spec a b) end;
      repeat match goal with |- context [(?a <? ?b)%Z] => destruct (Z.ltb_spec a b) end;
        simpl; try done; lia.
    + rewrite !(Z.testbit_neg_r _ (i - 8)) by lia. rewrite !Z.testbit_ones by lia.
      destruct (Z.testbit id i); simpl; [|done].
      repeat match goal with |- context [(?a <=? ?b)%Z] => destruct (Z.leb_spec a b) end;
      repeat match goal with |- context [(?a <? ?b)%Z] => destruct (Z.ltb_spec a b) end;
        simpl; try done; lia.
Qed.

Definition parts_value (p : Z * Z * Z * Z) : Z :=
  let '(process, router, switch, local) := p in
  Z.lor (Z.shiftl (Z.lor process router) 16) (Z.lor (Z.shiftl switch 8) local).

Lemma nth_parts_value m i :
  parts_value (DynamicXipManager.nth_parts m i) =
  (DynamicXipManager.atom_xip_manager_id m + i) mod 2 ^ 24.
Proof.
  unfold parts_value, DynamicXipManager.nth_parts. rewrite parts_reassemble by apply u32_range.
  unfold u32. apply Z.mod_mod_divide. by exists (2 ^ 8).
Qed.

Lemma dispatch_n_counter `{Xbase} `{Xip} x n m :
  u32 (DynamicXipManager.atom_xip_manager_id m) = DynamicXipManager.atom_xip_manager_id m ->
  DynamicXipManager.dispatch_n x n m =
  DynamicXipManager.mk (DynamicXipManager.dy_xip_map m)
    (u32 (DynamicXipManager.atom_xip_manager_id m + Z.of_nat n)).
Proof.
  revert m. induction n as [|n IH]; intros m Hm; cbn [DynamicXipManager.dispatch_n].
  - rewrite Z.add_0_r, Hm. by destruct m.
  - rewrite IH; simpl; [|apply Z.mod_mod; lia]. f_equal. unfold u32.
    rewrite Z.add_mod_idemp_l by lia. f_equal. lia.
Qed.

(** The address an [i]-th dispatch builds, from its parts. *)
Definition xip_of_parts `{Xbase} `{Xip} (x : XipParser) (p : Z * Z * Z * Z) : XipParser :=
  let '(process, router, switch, local) := p in
  xip_set_local_id local (xip_set_switch_id switch (xip_set_router_id router
    (xip_set_process_id process (xip_set_xip_type enum_xip_type_dynamic x)))).

(** ** Properties *)

(** The n-th dispatch from a manager returns the local xip with the parts of
    the n-th counter value, leaves the table of xips alone, and two dispatches
    less than 2^24 apart never write the same four address parts, also when the
    32-bit counter wraps around between them. *)
Theorem DispatchDynamicXip_fresh `{Xbase} `{Xip} x m (n : nat) (i j : Z) :
  u32 (DynamicXipManager.atom_xip_manager_id m) = DynamicXipManager.atom_xip_manager_id m ->
  (DynamicXipManager.DispatchDynamicXip x (DynamicXipManager.dispatch_n x n m)).1 =
    xip_string (xip_of_parts x (DynamicXipManager.nth_parts m (Z.of_nat n + 1))) /\
  DynamicXipManager.dy_xip_map (DynamicXipManager.dispatch_n x n m) =
    DynamicXipManager.dy_xip_map m /\
  (0 < j - i < 2 ^ 24 ->
   DynamicXipManager.nth_parts m i <> DynamicXipManager.nth_parts m j).
Proof.
  intros Hm. rewrite dispatch_n_counter by done. split; [|split; [done|]].
  - unfold DynamicXipManager.DispatchDynamicXip, xip_of_parts, DynamicXipManager.nth_parts. simpl.
    replace (u32 (u32 (DynamicXipManager.atom_xip_manager_id m + Z.of_nat n) + 1))
      with (u32 (DynamicXipManager.atom_xip_manager_id m + (Z.of_nat n + 1))); [done|].
    unfold u32. rewrite Z.add_mod_idemp_l by lia. f_equal. lia.
  - intros Hij E%(f_equal parts_value). rewrite !nth_parts_value in E.
    set (a := DynamicXipManager.atom_xip_manager_id m) in *.
    pose proof (Z.div_mod (a + i) (2 ^ 24)). pose proof (Z.div_mod (a + j) (2 ^ 24)). nia.
Qed.

Lemma DispatchDynamicXip_fresh_witness :
  let m := @DynamicXipManager.mk ∅ (2 ^ 32 - 1) in
  DynamicXipManager.nth_parts m 0 <> DynamicXipManager.nth_parts m 1.
Proof.
  intros m.
  apply (@DispatchDynamicXip_fresh Examples.ex_xbase Examples.ex_xip
    (@xip_default Examples.ex_xip) m 0%nat 0 1); [reflexivity|lia].
Defined.

(** What is added under a key is found under it until it is removed, and
    the other keys are not touched: the client registry is a finite map keyed
    by the node's own id, whatever else was in it. *)
Theorem client_registry_refines_map `{Xbase} (ops : list (string * option ClientNodeInfo)) k :
  let step m '(key, o) :=
    match o with
    | Some v => (ClientNodeManager.AddClientNode (v <| cn_node_id := key |>) m).2
    | None => ClientNodeManager.RemoveClientNode key m
    end in
  let spec m '(key, o) :=
    match o with
    | Some v => <[key := v <| cn_node_id := key |>]> m
    | None => delete key m
    end in
  ClientNodeManager.FindClientNode k (foldl step ClientNodeManager.init ops) =
  foldl spec (∅ : gmap string ClientNodeInfo) ops !! k.
Proof.
  intros step spec. unfold ClientNodeManager.FindClientNode.
  change (∅ : gmap string ClientNodeInfo)
    with (ClientNodeManager.client_nodes_map ClientNodeManager.init).
  generalize ClientNodeManager.init as m.
  induction ops as [|[key [v|]] ops IH]; intros m; [done| |]; cbn [foldl]; rewrite IH; [done|].
  cbn [step spec]. unfold ClientNodeManager.RemoveClientNode.
  destruct (ClientNodeManager.client_nodes_map m !! key) eqn:E; [done|].
  by rewrite delete_id.
Qed.
