(* ===== verification/Callbacks.v ===== *)
(** Callbacks: the CallbackManager of src/callback_manager.cc, which pairs a
    response (or a timeout) with the functor that waits for it, and the
    HeartbeatManager of src/heartbeat_manager.cc, which fans a lost connection
    out to its subscribers. A functor is a value of an abstract type [F]; its
    invocations are recorded in order in [fired]. *)

From S2P Require Import Prelude Externals Messages.

Definition kTimeCheckoutPeriod : Z := 1000 * 1000.

Section callback_manager.
Context `{Xbase} {F : Type}.

(** ** State *)

Record CallbackItem := mkCallbackItem {
  ci_message_id : Z;
  ci_callback : option F;
  ci_mutex_callback : option F;
  ci_timeout_sec : Z;
  ci_expect_count : Z }.

#[global] Instance CallbackItem_eta : Eta CallbackItem := fun r =>
  mkCallbackItem (ci_message_id r) (ci_callback r) (ci_mutex_callback r) (ci_timeout_sec r)
    (ci_expect_count r).

(** One call of a functor: its code and its message. *)
Record invocation := mkInvocation {
  inv_fun : F;
  inv_code : Z;
  inv_message : RoutingMessage }.

Record CallbackManager := mkCallbackManager {
  cm_msg_id : Z;
  callback_map : gmap Z CallbackItem;
  cm_timer : option Z;           (* the delay of the pending CallAfter *)
  fired : list invocation }.     (* oldest first *)

#[global] Instance CallbackManager_eta : Eta CallbackManager := fun r =>
  mkCallbackManager (cm_msg_id r) (callback_map r) (cm_timer r) (fired r).

(** ** Operations *)

Definition CallbackManager_new (time0 : Z) : CallbackManager :=
  mkCallbackManager (u32 time0) ∅ (Some kTimeCheckoutPeriod) [].

Definition MessageId (s : CallbackManager) : Z * CallbackManager :=
  let id := u32 (cm_msg_id s + 1) in (id, s <| cm_msg_id := id |>).

Definition CallbackManager_Join (s : CallbackManager) : CallbackManager :=
  s <| cm_timer := None |> <| callback_map := ∅ |>.

(** [std::map::insert]: nothing happens when the key is there already. *)
Definition map_insert_new {K V} `{Countable K} (k : K) (v : V) (m : gmap K V) : gmap K V :=
  match m !! k with Some _ => m | None => <[k := v]> m end.

Definition Add_item (item : option CallbackItem) (s : CallbackManager) : CallbackManager :=
  match item with
  | None => s
  | Some it => s <| callback_map ::= map_insert_new (ci_message_id it) it |>
  end.

Definition Add (message_id timeout_sec : Z) (callback : option F) (expect_count : Z)
    (s : CallbackManager) : CallbackManager :=
  let item := mkCallbackItem message_id callback None timeout_sec expect_count in
  s <| callback_map ::= map_insert_new message_id item |>.

Definition invoke (f : option F) (code : Z) (m : RoutingMessage) (s : CallbackManager)
    : CallbackManager :=
  match f with
  | Some f => s <| fired ::= fun l => l ++ [mkInvocation f code m] |>
  | None => s
  end.

(** What Callback does when the count is [c] after the decrement. *)
Definition counted (message_id c : Z) (message : RoutingMessage) (it : CallbackItem)
    (s : CallbackManager) : CallbackManager :=
  let it' := it <| ci_expect_count := c |> in
  let s := if ci_expect_count it' <=? 0
           then s <| callback_map ::= delete message_id |>
           else s <| callback_map ::= <[message_id := it']> |> in
  invoke (ci_mutex_callback it) kKadSuccess message
    (invoke (ci_callback it) kKadSuccess message s).

Definition Callback (message_id : Z) (message : RoutingMessage) (s : CallbackManager)
    : outcome CallbackManager :=
  match callback_map s !! message_id with
  | None => Ok s
  | Some it => c ← int_dec (ci_expect_count it); Ok (counted message_id c message it s)
  end.

(** [for (int i = 0; i < n; ++i) f(code, m);] *)
Definition invoke_times (n : Z) (f : option F) (code : Z) (m : RoutingMessage)
    (s : CallbackManager) : CallbackManager :=
  Nat.iter (Z.to_nat n) (invoke f code m) s.

Definition Cancel (message_id no_callback : Z) (s : CallbackManager) : CallbackManager :=
  match callback_map s !! message_id with
  | None => s
  | Some it =>
      let expect_count := ci_expect_count it in
      let s := s <| callback_map ::= delete message_id |> in
      if negb (no_callback =? 0) then s
      else
        let s := invoke_times expect_count (ci_callback it) kKadTimeout
                   (RoutingMessage_empty <| msg_id := Some message_id |>) s in
        invoke_times expect_count (ci_mutex_callback it) kKadTimeout RoutingMessage_empty s
  end.

Definition Timeout_ (message_id : Z) (s : CallbackManager) : CallbackManager :=
  Cancel message_id 0 s.

Definition ticked (it : CallbackItem) : CallbackItem :=
  it <| ci_timeout_sec ::= fun t => t - 1 |>.

(** TimeoutCheck behind the decrement of every [timeout_sec]. *)
Definition timed_out (s : CallbackManager) : CallbackManager :=
  let s := s <| callback_map ::= fmap ticked |> in
  let message_vec :=
    (filter (fun e => ci_timeout_sec e.2 <= 0) (entries_by Z.ltb (callback_map s))).*1 in
  let s := foldl (fun s id => Timeout_ id s) s message_vec in
  s <| cm_timer := Some kTimeCheckoutPeriod |>.

Definition TimeoutCheck (s : CallbackManager) : outcome CallbackManager :=
  _ ← fold_m (fun _ e => int_dec (ci_timeout_sec e.2)) (entries_by Z.ltb (callback_map s)) 0;
  Ok (timed_out s).

(** ** Runs of the manager *)

Inductive event :=
  | EvAdd (item : CallbackItem)
  | EvMessage (message_id : Z) (message : RoutingMessage)
  | EvCancel (message_id no_callback : Z)
  | EvTick.

Definition step (s : CallbackManager) (e : event) : outcome CallbackManager :=
  match e with
  | EvAdd it => Ok (Add_item (Some it) s)
  | EvMessage id m => Callback id m s
  | EvCancel id no => Ok (Cancel id no s)
  | EvTick => TimeoutCheck s
  end.

Definition run_events (s : CallbackManager) (es : list event) : outcome CallbackManager :=
  fold_m step es s.

Definition is_tick (e : event) : bool := match e with EvTick => true | _ => false end.

Definition ticks (es : list event) : nat := length (filter is_tick es).


(** ** Lemmas *)

Context `{EqDecision F}.
Implicit Types (s : CallbackManager) (f : F).

(** How often [f] has been called, and how often the item under [id] still
    owes a call of [f]. *)
Definition calls f s : nat := length (filter (fun i => inv_fun i = f) (fired s)).

Definition waits f (it : CallbackItem) : Prop := ci_callback it = Some f.

#[local] Instance waits_dec f it : Decision (waits f it).
Proof using Type*. unfold waits. apply _. Defined.

Definition owed f (id : Z) s : nat :=
  match callback_map s !! id with
  | Some it => if decide (waits f it) then Z.to_nat (ci_expect_count it) else 0
  | None => 0
  end.

Lemma calls_invoke f g code m s :
  calls f (invoke g code m s) = (calls f s + if decide (g = Some f) then 1 else 0)%nat.
Proof.
  unfold calls. destruct g as [g|]; simpl.
  - rewrite filter_app, length_app. f_equal.
    by destruct (decide (Some g = Some f)); rewrite filter_cons; simpl;
      destruct (decide (g = f)); try congruence.
  - destruct (decide (None = Some f)); [done|lia].
Qed.

Lemma map_invoke g code m s : callback_map (invoke g code m s) = callback_map s.
Proof. by destruct g. Qed.

Lemma owed_invoke f id g code m s : owed f id (invoke g code m s) = owed f id s.
Proof. unfold owed. by rewrite map_invoke. Qed.

Lemma calls_invoke_times f n g code m s :
  calls f (invoke_times n g code m s) =
  (calls f s + if decide (g = Some f) then Z.to_nat n else 0)%nat.
Proof.
  unfold invoke_times. induction (Z.to_nat n) as [|k IH]; simpl.
  - destruct (decide (g = Some f)); lia.
  - rewrite calls_invoke, IH. destruct (decide (g = Some f)); lia.
Qed.

Lemma map_invoke_times n g code m s : callback_map (invoke_times n g code m s) = callback_map s.
Proof.
  unfold invoke_times. induction (Z.to_nat n) as [|k IH]; simpl; [done|].
  by rewrite map_invoke.
Qed.

Lemma map_Cancel id no s : callback_map (Cancel id no s) = delete id (callback_map s).
Proof.
  unfold Cancel. destruct (callback_map s !! id) eqn:E; [|by rewrite delete_id].
  destruct (negb (no =? 0)); [done|]. by rewrite !map_invoke_times.
Qed.

Lemma lookup_timeouts ids s k :
  callback_map (foldl (fun s id => Timeout_ id s) s ids) !! k =
  if decide (k ∈ ids) then None else callback_map s !! k.
Proof.
  revert s. induction ids as [|i ids IH]; intros s; cbn [foldl].
  - by rewrite decide_False by apply not_elem_of_nil.
  - rewrite IH. unfold Timeout_. rewrite map_Cancel.
    destruct (decide (k ∈ ids)) as [H1|H1].
    + by rewrite decide_True by by right.
    + destruct (decide (k = i)) as [->|Hk].
      * rewrite lookup_delete_eq, decide_True by left. done.
      * rewrite lookup_delete_ne, decide_False; [done| |done].
        intros [?|?]%elem_of_cons; done.
Qed.

(** The counters of an item can be decremented. *)
Definition counters_ok (it : CallbackItem) : Prop :=
  - 2 ^ 31 < ci_expect_count it /\ - 2 ^ 31 < ci_timeout_sec it.

Definition all_ok s : Prop := forall k it, callback_map s !! k = Some it -> counters_ok it.

(** [f] is the callback of at most the item under [id]. *)
Record tracks f id (total : nat) s : Prop := {
  tr_total : (calls f s + owed f id s)%nat = total;
  tr_only k it : callback_map s !! k = Some it -> waits f it -> k = id;
  tr_mutex k it : callback_map s !! k = Some it -> ci_mutex_callback it <> Some f;
  tr_count it : callback_map s !! id = Some it -> waits f it -> 0 < ci_expect_count it }.

Lemma tracks_mono f id total s s' :
  tracks f id total s ->
  (calls f s' + owed f id s')%nat = total ->
  callback_map s' ⊆ callback_map s ->
  tracks f id total s'.
Proof.
  intros [H1 H2 H3 H4] Ht Hsub. rewrite map_subseteq_spec in Hsub. split; eauto.
Qed.

Lemma tracks_Cancel f id total k no s :
  no = 0 \/ k <> id -> tracks f id total s -> tracks f id total (Cancel k no s).
Proof.
  intros Hno Ht. eapply tracks_mono; [done| |rewrite map_Cancel; apply delete_subseteq].
  destruct Ht as [<- H2 H3 _]. destruct (Z.eqb_spec no 0) as [->|Hn].
  2: { destruct Hno as [|Hk]; [done|]. unfold owed, calls. rewrite map_Cancel.
    rewrite lookup_delete_ne by done. unfold Cancel. destruct (callback_map s !! k); [|done].
    by rewrite (proj2 (Z.eqb_neq no 0) Hn). }
  unfold owed. rewrite map_Cancel.
  unfold Cancel. destruct (callback_map s !! k) as [it|] eqn:E.
  - rewrite Z.eqb_refl. cbn [negb]. rewrite !calls_invoke_times.
    rewrite (decide_False (P := ci_mutex_callback it = Some f)) by eauto.
    destruct (decide (k = id)) as [->|Hk].
    + rewrite lookup_delete_eq, E. unfold waits, calls. simpl.
      destruct (decide (ci_callback it = Some f)); lia.
    + rewrite lookup_delete_ne by done. rewrite decide_False by eauto. unfold calls. simpl. lia.
  - destruct (decide (k = id)) as [->|Hk]; [rewrite lookup_delete_eq, E; done|].
    by rewrite lookup_delete_ne.
Qed.

Lemma tracks_Callback f id total k m s :
  tracks f id total s -> all_ok s ->
  exists s', Callback k m s = Ok s' /\ tracks f id total s' /\ all_ok s'.
Proof.
  intros Ht H5. pose proof Ht as [<- H2 H3 H4]. unfold Callback.
  destruct (callback_map s !! k) as [it|] eqn:E; [|by exists s].
  rewrite int_dec_above by apply (H5 _ _ E). eexists. split; [reflexivity|]. unfold counted.
  cbv zeta. set (it' := it <| ci_expect_count := ci_expect_count it - 1 |>).
  match goal with |- context [if ?b then ?x else ?y] => set (s1 := if b then x else y) end.
  assert (Hw : waits f it' <-> waits f it) by done.
  assert (forall j it0, callback_map s1 !! j = Some it0 ->
    it0 = it' /\ j = k /\ 0 < ci_expect_count it' \/ j <> k /\ callback_map s !! j = Some it0) as Hs1.
  { intros j it0. unfold s1. destruct (Z.leb_spec (ci_expect_count it') 0); simpl.
    - rewrite lookup_delete_Some. naive_solver.
    - rewrite lookup_insert_Some. naive_solver. }
  split; [|intros j it0; rewrite !map_invoke; intros Hj;
    destruct (Hs1 _ _ Hj) as [(-> & -> & Hp)|(_ & ?)]; [|by eauto];
    destruct (H5 _ _ E); split; [lia|done]].
  assert (calls f s1 = calls f s) as Hc by (unfold s1; by destruct (_ <=? 0)).
  assert (owed f id s = (owed f id s1 + if decide (waits f it) then 1 else 0)%nat) as Ho.
  { destruct (decide (waits f it)) as [Hf|Hf].
    - specialize (H2 _ _ E Hf) as ->. specialize (H4 _ E Hf). unfold owed, s1. rewrite E.
      rewrite decide_True by done.
      assert (ci_expect_count it' = ci_expect_count it - 1) as Ei by done.
      destruct (Z.leb_spec (ci_expect_count it') 0); simpl.
      + rewrite lookup_delete_eq. lia.
      + rewrite lookup_insert_eq, decide_True by done. fold it'. lia.
    - rewrite Nat.add_0_r. unfold owed, s1. destruct (decide (k = id)) as [->|Hk].
      + rewrite E, decide_False by done. destruct (_ <=? 0); simpl.
        * by rewrite lookup_delete_eq.
        * rewrite lookup_insert_eq. by rewrite decide_False.
      + destruct (_ <=? 0); simpl; [by rewrite lookup_delete_ne|by rewrite lookup_insert_ne]. }
  split.
  - rewrite !calls_invoke, !owed_invoke, Hc, Ho.
    rewrite (decide_False (P := ci_mutex_callback it = Some f)) by eauto.
    destruct (decide (waits f it)), (decide (ci_callback it = Some f)); try done; lia.
  - intros j it0. rewrite !map_invoke. intros Hj Hf.
    destruct (Hs1 _ _ Hj) as [(-> & -> & _)|(_ & ?)]; [|by eauto].
    eapply H2; [exact E|by apply Hw].
  - intros j it0. rewrite !map_invoke. intros Hj.
    destruct (Hs1 _ _ Hj) as [(-> & -> & _)|(_ & ?)]; [|by eauto]. simpl. eauto.
  - intros it0. rewrite !map_invoke. intros Hj Hf.
    destruct (Hs1 _ _ Hj) as [(-> & <- & Hp)|(_ & ?)]; [|by eauto]. done.
Qed.

Lemma tracks_Add f id total it s :
  tracks f id total s -> ~ waits f it -> ci_mutex_callback it <> Some f ->
  tracks f id total (Add_item (Some it) s).
Proof.
  intros Ht Hw Hm. unfold Add_item, map_insert_new. simpl.
  assert (callback_map s !! ci_message_id it = None \/
          is_Some (callback_map s !! ci_message_id it)) as [E|[it0 E]]
    by (destruct (callback_map s !! _); eauto).
  2:{ eapply tracks_mono; [done|rewrite <- (tr_total _ _ _ _ Ht)|simpl; by rewrite E].
      unfold calls, owed. simpl. by rewrite E. }
  destruct Ht as [H1 H2 H3 H4].
  split; simpl; rewrite ?E.
  - unfold calls, owed in *. simpl. rewrite E.
    destruct (decide (ci_message_id it = id)) as [<-|Hk].
    + rewrite lookup_insert_eq, decide_False by done. by rewrite E in H1.
    + by rewrite lookup_insert_ne.
  - intros j it0 [[<- <-]|[_ ?]]%lookup_insert_Some; [done|eauto].
  - intros j it0 [[<- <-]|[_ ?]]%lookup_insert_Some; [done|eauto].
  - intros it0 [[<- <-]|[_ ?]]%lookup_insert_Some; [done|eauto].
Qed.

Lemma ok_Add it s : all_ok s -> counters_ok it -> all_ok (Add_item (Some it) s).
Proof.
  intros Hok Hit. unfold Add_item, map_insert_new. intros k it0. simpl.
  destruct (callback_map s !! _); [apply Hok|].
  intros [[_ <-]|[_ ?]]%lookup_insert_Some; [done|by eapply Hok].
Qed.

Lemma tracks_timeouts f id total ids s :
  tracks f id total s -> tracks f id total (foldl (fun s id => Timeout_ id s) s ids).
Proof.
  revert s. induction ids as [|i ids IH]; intros s Ht; [done|]. apply IH. apply tracks_Cancel; [by left|done].
Qed.

(** No item of the map overflows. *)
Lemma TimeoutCheck_runs s :
  all_ok s -> TimeoutCheck s = Ok (timed_out s).
Proof.
  intros Hok. unfold TimeoutCheck.
  assert (forall es b, (forall e, e ∈ es -> - 2 ^ 31 < ci_timeout_sec e.2) ->
    exists r, fold_m (fun (_ : Z) (e : Z * CallbackItem) => int_dec (ci_timeout_sec e.2)) es b = Ok r) as Hf.
  { induction es as [|e es IH]; intros b He; [by eexists|]. cbn [fold_m].
    rewrite int_dec_above by (apply He; left). cbn [mbind outcome_bind]. apply IH.
    intros e' He'. apply He. by right. }
  destruct (Hf (entries_by Z.ltb (callback_map s)) 0) as [r ->]; [|done].
  intros [k it] He%elem_of_entries. by apply (Hok k).
Qed.

(** What is left after a tick has time left. *)
Lemma left_timed_out k it s :
  callback_map (timed_out s) !! k = Some it ->
  0 < ci_timeout_sec it /\ exists it0, callback_map s !! k = Some it0 /\ it = ticked it0.
Proof.
  unfold timed_out. simpl. rewrite lookup_timeouts. case_decide as Hin; [done|]. simpl.
  rewrite lookup_fmap_Some. intros (it0 & <- & E). split; [|by exists it0].
  apply Z.nle_gt. intros Hle. apply Hin. apply list_elem_of_fmap.
  exists (k, ticked it0). split; [done|]. apply list_elem_of_filter. split; [done|].
  apply elem_of_entries. simpl. by rewrite lookup_fmap, E.
Qed.

Lemma ok_timed_out s : all_ok s -> all_ok (timed_out s).
Proof.
  intros Hok k it (Ht & it0 & E & ->)%left_timed_out. destruct (Hok _ _ E). split; [done|lia].
Qed.

Lemma tracks_timed_out f id total s :
  tracks f id total s -> tracks f id total (timed_out s).
Proof.
  intros [H1 H2 H3 H4]. unfold timed_out. cbv zeta.
  set (s1 := s <| callback_map ::= fmap ticked |>).
  assert (tracks f id total s1) as Ht.
  { split; unfold s1; simpl.
    - rewrite <- H1. unfold calls, owed. simpl. rewrite lookup_fmap.
      by destruct (callback_map s !! id).
    - intros k it. rewrite lookup_fmap_Some. intros (it0 & <- & E). by apply (H2 _ _ E).
    - intros k it. rewrite lookup_fmap_Some. intros (it0 & <- & E). by apply (H3 _ _ E).
    - intros it. rewrite lookup_fmap_Some. intros (it0 & <- & E). by apply (H4 _ E). }
  match goal with |- context [foldl _ _ ?ids] =>
    destruct (tracks_timeouts f id total ids s1 Ht) as [G1 G2 G3 G4] end.
  split; [exact G1|exact G2|exact G3|exact G4].
Qed.

(** The request [id] is not cancelled silently, and no other item added uses
    [f]; their counters are not the smallest int. *)
Definition foreign f (id : Z) (e : event) : Prop :=
  match e with
  | EvAdd it => ~ waits f it /\ ci_mutex_callback it <> Some f /\ counters_ok it
  | EvCancel k no => no = 0 \/ k <> id
  | _ => True
  end.

(** The item under [id] waits for at most [n] more ticks. *)
Definition due f id (n : nat) s : Prop :=
  forall it, callback_map s !! id = Some it -> waits f it ->
    (0 < n)%nat /\ ci_timeout_sec it <= Z.of_nat n.

Lemma due_step f id n e s s' :
  foreign f id e -> all_ok s -> step s e = Ok s' -> due f id n s ->
  due f id (if is_tick e then pred n else n) s'.
Proof.
  intros He Hok Hs Hd. destruct e as [it|k m|k no|]; simpl in *.
  - injection Hs as <-. unfold Add_item, map_insert_new. intros it'. simpl.
    destruct (callback_map s !! ci_message_id it) eqn:E; [by apply Hd|].
    intros [[<- <-]|[_ ?]]%lookup_insert_Some; [by intros ?; destruct He|by apply Hd].
  - revert Hs. unfold Callback. destruct (callback_map s !! k) as [it|] eqn:E; [|by intros [= <-]].
    rewrite int_dec_above by apply (Hok _ _ E). intros [= <-] it'. unfold counted.
    cbv zeta. rewrite !map_invoke. destruct (_ <=? 0); simpl.
    + rewrite lookup_delete_Some. intros [_ ?]. by apply Hd.
    + rewrite lookup_insert_Some. intros [[<- <-]|[_ ?]]; [|by apply Hd].
      intros Hf. by apply (Hd it).
  - injection Hs as <-. intros it'. rewrite map_Cancel, lookup_delete_Some. intros [_ ?]. by apply Hd.
  - rewrite (TimeoutCheck_runs s Hok) in Hs. injection Hs as <-.
    intros it (Hpos & it0 & E & ->)%left_timed_out Hf. destruct (Hd it0 E Hf) as (Hn & Ht).
    simpl in *. lia.
Qed.

Lemma step_tracks f id total e s :
  tracks f id total s -> all_ok s -> foreign f id e ->
  exists s', step s e = Ok s' /\ tracks f id total s' /\ all_ok s'.
Proof.
  intros Ht Hok He. destruct e as [it|k m|k no|]; cbn [step foreign] in *.
  - destruct He as (? & ? & ?). eexists. split; [done|]. split; [by apply tracks_Add|by apply ok_Add].
  - by apply tracks_Callback.
  - eexists. split; [done|]. split; [by apply tracks_Cancel|]. intros j it. rewrite map_Cancel.
    intros [_ ?]%lookup_delete_Some. by eapply Hok.
  - eexists. split; [by apply TimeoutCheck_runs|]. split; [by apply tracks_timed_out|by apply ok_timed_out].
Qed.

Lemma tracks_run f id total es n s :
  tracks f id total s -> all_ok s -> due f id n s -> Forall (foreign f id) es ->
  exists s', run_events s es = Ok s' /\ tracks f id total s' /\ due f id (n - ticks es) s'.
Proof.
  unfold run_events, ticks. revert n s. induction es as [|e es IH]; intros n s Ht Hok Hd Hes.
  { exists s. by rewrite Nat.sub_0_r. }
  apply Forall_cons in Hes as [He Hes]. cbn [fold_m].
  destruct (step_tracks f id total e s Ht Hok He) as (s1 & E & Ht1 & Hok1).
  pose proof (due_step _ _ _ _ _ _ He Hok E Hd) as Hd1. rewrite E.
  destruct (IH _ _ Ht1 Hok1 Hd1 Hes) as (s' & E' & Ht' & Hd'). exists s'.
  split; [exact E'|]. split; [done|]. rewrite filter_cons. destruct e; simpl in *; try exact Hd'.
  by replace (n - S (length (filter is_tick es)))%nat
    with (pred n - length (filter is_tick es))%nat by lia.
Qed.

(** ** Properties *)

(** C26: A request added under a message id that is not in use, with a functor
    no other request has, is answered exactly [expect_count] times: at every
    point of every run of other requests, messages, timeouts and cancels in
    any order, in which this request itself is not cancelled silently
    ([no_callback] other than 0) and no request has the smallest int as a
    counter, the calls made so far and the calls still owed add up to
    [expect_count], and once [timeout_sec] ticks (at least one) have passed
    nothing is owed any more. No such run overflows a counter. *)
Theorem request_completes f id timeout expect es s :
  callback_map s !! id = None ->
  (forall k it, callback_map s !! k = Some it ->
     ~ waits f it /\ ci_mutex_callback it <> Some f /\ counters_ok it) ->
  calls f s = 0%nat -> 0 < expect -> - 2 ^ 31 < timeout ->
  Forall (foreign f id) es ->
  exists s', run_events (Add id timeout (Some f) expect s) es = Ok s' /\
    (calls f s' + owed f id s')%nat = Z.to_nat expect /\
    (timeout <= Z.of_nat (ticks es) -> (0 < ticks es)%nat -> calls f s' = Z.to_nat expect).
Proof.
  intros Hid Hnew Hc He Ht Hes.
  set (s0 := Add id timeout (Some f) expect s) in *.
  assert (callback_map s0 = <[id := mkCallbackItem id (Some f) None timeout expect]> (callback_map s))
    as Hm by (unfold s0, Add, map_insert_new; simpl; by rewrite Hid).
  assert (tracks f id (Z.to_nat expect) s0) as Htr.
  { split; [|intros k it|intros k it|intros it]; rewrite ?Hm.
    - unfold owed. rewrite Hm, lookup_insert_eq, decide_True by done.
      assert (calls f s0 = calls f s) as -> by done. rewrite Hc. done.
    - intros [[<- <-]|[_ E]]%lookup_insert_Some; [done|]. by apply Hnew in E as (? & ? & ?).
    - intros [[<- <-]|[_ E]]%lookup_insert_Some; [done|]. by apply Hnew in E as (? & ? & ?).
    - by rewrite lookup_insert_eq; intros [= <-]. }
  assert (all_ok s0) as Hok.
  { intros k it. rewrite Hm. intros [[<- <-]|[_ E]]%lookup_insert_Some; [split; simpl; lia|].
    by apply Hnew in E as (? & ? & ?). }
  assert (due f id (Nat.max 1 (Z.to_nat timeout)) s0) as Hd.
  { intros it. rewrite Hm, lookup_insert_eq. intros [= <-] _. simpl. lia. }
  destruct (tracks_run f id _ es _ s0 Htr Hok Hd Hes) as (s' & E & Htr' & Hd').
  exists s'. split; [done|]. split; [apply Htr'|]. intros Hlt Hpos.
  rewrite <- (tr_total _ _ _ _ Htr'). unfold owed.
  destruct (callback_map s' !! id) as [it|] eqn:Ei; [|lia].
  destruct (decide (waits f it)) as [Hw|]; [|lia]. destruct (Hd' it Ei Hw) as [H0 _]. lia.
Qed.
End callback_manager.

Lemma request_completes_witness :
  let m := RoutingMessage_empty in
  let s := @CallbackManager_new nat 100 in
  exists s', @run_events Examples.ex_xbase nat (Add 7 3 (Some 0%nat) 2 s)
      [EvMessage 7 m; EvTick; EvTick; EvCancel 8 1; EvTick] = Ok s' /\
    @calls nat _ 0%nat s' = 2%nat.
Proof.
  intros m s. destruct (@request_completes Examples.ex_xbase nat _ 0%nat 7 3 2
    [EvMessage 7 m; EvTick; EvTick; EvCancel 8 1; EvTick] s) as (s' & E & _ & Hc);
    [reflexivity|intros k it Hk; discriminate Hk|reflexivity|lia|lia| |].
  - repeat apply List.Forall_cons; [exact I|exact I|exact I|by right|exact I|apply List.Forall_nil].
  - exists s'. split; [exact E|]. apply Hc; unfold ticks; simpl; lia.
Defined.

(** ** HeartbeatManager *)

Section heartbeat_manager.
Context {W : Type}.

Definition OfflineCallback : Type := string -> Z -> ST W unit.

Record HeartbeatManager := mkHeartbeatManager { vec_cb : list OfflineCallback }.

Definition HeartbeatManager_new : HeartbeatManager := mkHeartbeatManager [].

Definition Register (name : string) (cb : OfflineCallback) (m : HeartbeatManager)
    : HeartbeatManager :=
  mkHeartbeatManager (vec_cb m ++ [cb]).

Definition OnHeartbeatFailed (ip : string) (port : Z) (m : HeartbeatManager) : ST W unit :=
  for_each (vec_cb m) (fun cb => cb ip port).

Definition OnHeartbeatCallback (ip : string) (port : Z) (m : HeartbeatManager) : ST W unit :=
  OnHeartbeatFailed ip port m.
End heartbeat_manager.
