(* ===== verification/RoutingUtils.v ===== *)
(** src/nodeid_utils.cc and src/routing_utils.cc: the construction of node ids
    from a country and a business, their inspection, and the creation of the
    global xid and of the local node from the configuration. Randomness
    (RandomString, RandomUint32, fresh keys) is an argument. *)

From S2P Require Import Prelude Externals NodeInfo LocalNodeInfo.

(** ** nodeid_utils *)

Section nodeid_utils.
Context `{Xbase}.

Definition BusinessID : gmap string Z :=
  list_to_map [
    ("ROOT", u32 kRoot); ("CLIENT", u32 kClient);
    ("EDGEXVPN", u32 kEdgeXVPN); ("EDGEXMESSAGE", u32 kEdgeTopMessage);
    ("EDGEXSTORAGE", u32 kEdgeTopStorage);
    ("XVPN", u32 kXVPN); ("XMESSAGE", u32 kTopMessage); ("XSTORAGE", u32 kTopStorage)]%string.

(** The result is cut to the [uint8_t] the function returns. *)
Definition GetWorldCountryID (country_code : string) : Z :=
  u8 (Z.land (xhash32 country_code) 0xFF000000).

Definition GetBusinessID (business : string) : Z :=
  match BusinessID !! business with
  | None => 2 ^ 32 - 1
  | Some v => v
  end.
End nodeid_utils.

(** ** routing_utils: texts and ids *)

(** ::toupper and ::tolower in the C locale. *)
Definition toupper_char (c : ascii) : ascii :=
  let n := N_of_ascii c in
  if ((97 <=? n) && (n <=? 122))%N then ascii_of_N (n - 32) else c.

Definition tolower_char (c : ascii) : ascii :=
  let n := N_of_ascii c in
  if ((65 <=? n) && (n <=? 90))%N then ascii_of_N (n + 32) else c.

Fixpoint map_string (f : ascii -> ascii) (s : string) : string :=
  match s with
  | EmptyString => EmptyString
  | String c s' => String (f c) (map_string f s')
  end.

Definition toupper (s : string) : string := map_string toupper_char s.
Definition tolower (s : string) : string := map_string tolower_char s.

Definition byte_char (z : Z) : ascii := ascii_of_N (Z.to_N (u8 z)).

(** The bytes memcpy takes from [ser], least significant first. *)
Definition GenNodeIdType_code (country_code service_type : Z) : string :=
  let ser := u8 service_type in
  String (byte_char country_code)
    (String (byte_char ser)
      (String (byte_char (Z.shiftr ser 8))
        (String (byte_char (Z.shiftr ser 16)) EmptyString))).

Section routing_utils.
Context `{Xbase}.

Definition GenNodeIdType (in_country in_business : string) : string :=
  if str_empty in_country || str_empty in_business then EmptyString
  else
    let country := toupper in_country in
    let business := toupper in_business in
    let countrycode := GetWorldCountryID country in
    if countrycode =? 2 ^ 8 - 1 then EmptyString
    else
      let businesscode := GetBusinessID business in
      if 2 ^ 32 - 1 <=? businesscode then EmptyString
      else GenNodeIdType_code countrycode (u8 businesscode).

Definition GenRandomID (RandomString : nat -> string) (country business : string) : string :=
  let idtype := GenNodeIdType country business in
  if str_empty idtype then EmptyString
  else (idtype +:+ RandomString (kNodeIdSize - kNodeIdTypeSize)%nat)%string.

(** [fresh] is the key object base::GetKadmliaKey() returns. *)
Definition GenRandomID_code `{KadKey} (fresh : KadmliaKey) (country_code service_type : Z)
    : string :=
  let kad_key := key_set_xnetwork_id (u8 service_type) fresh in
  let kad_key := key_set_zone_id (u8 country_code) kad_key in
  key_Get kad_key.

Definition GetNetworkId (id : string) : outcome (option Z) :=
  if negb (String.length id =? kNodeIdSize)%nat then Ok None
  else
    match str_at id 1 with
    | Some c => Ok (Some (Z.of_N (N_of_ascii c)))
    | None => Fault OutOfRange
    end.

(** ** routing_utils: the parts of an xid *)

(** base::XIDParser and base::XID: the object GetXID answers after the text was
    parsed, and its parts. *)
Class XIDParser := {
  XID : Type;
  xid_parse : string -> option XID;
  XID_GetXNetworkID : XID -> Z;
  XID_GetZoneID : XID -> Z }.

Definition GetXNetworkID `{XIDParser} (id : string) : outcome Z :=
  match xid_parse id with
  | Some xid_ptr => Ok (u32 (XID_GetXNetworkID xid_ptr))
  | None => Fault NullDeref
  end.

Definition GetZoneID `{XIDParser} (id : string) : outcome Z :=
  match xid_parse id with
  | Some xid_ptr => Ok (u8 (XID_GetZoneID xid_ptr))
  | None => Fault NullDeref
  end.

(** ** routing_utils: configuration *)

Context `{Config}.

Definition GetZoneIdFromConfig (c : config) : option Z :=
  match cfg_u32 c "node" "zone_id" with
  | Some zone_id => Some zone_id
  | None =>
      match cfg_string c "node" "country" with
      | None => None
      | Some country => Some (xhash32 country)
      end
  end.

Definition GetPublicEndpointsConfig (c : config) (boot_endpoints : gset (string * Z))
    : gset (string * Z) :=
  match cfg_string c "node" "public_endpoints" with
  | None => boot_endpoints
  | Some public_endpoints => boot_endpoints ∪ ParseEndpoints public_endpoints
  end.

Definition GetPublicServiceEndpointsConfig (c : config) (service_name : string)
    (boot_endpoints : gset (string * Z)) : gset (string * Z) :=
  match cfg_string c service_name "bootstrap" with
  | None => boot_endpoints
  | Some service_public_endpoints => boot_endpoints ∪ ParseEndpoints service_public_endpoints
  end.

Definition GetAllPublicServiceEndpointsConfig (c : config) (service_list : string)
    (boot_endpoints : gset (string * Z)) : gset (string * Z) :=
  foldl (fun e service_name => GetPublicServiceEndpointsConfig c service_name e)
    boot_endpoints (LineParser service_list ","%char).

(** ** The global xid *)

Context `{KadKey} `{Xip}.

Record globals := mkGlobals {
  global_node_id : string;
  global_node_id_hash : string;
  global_xid : option KadmliaKey }.

#[global] Instance globals_eta : Eta globals := fun r =>
  mkGlobals (global_node_id r) (global_node_id_hash r) (global_xid r).

Definition zone_byte (zone_id : Z) : Z := check_cast_u8 (Z.land (Z.shiftr zone_id 24) 0xFF).

Definition CreateGlobalXid (c : config) (g : globals) : outcome (bool * globals) :=
  if str_empty (global_node_id g) then Fault AssertFailed
  else
    let g := g <| global_node_id_hash := GetStringSha128 (global_node_id g) |> in
    let xid := key_set_xnetwork_id kRoot (GetKadmliaKey_hash (global_node_id g) true) in
    let g := g <| global_xid := Some xid |> in
    match GetZoneIdFromConfig c with
    | None => Ok (false, g)
    | Some zone_id => Ok (true, g <| global_xid := Some (key_set_zone_id (zone_byte zone_id) xid) |>)
    end.

(** ** The local node *)

(** [nat] answers GetLocalNatType; [gxid] is the pointer global_xid; [score0] is the indeterminate initial score;
    [rnd], [rnd_http], [rnd_ws] are the random numbers drawn, in order. *)
Definition CreateLocalInfoFromConfig (c : config) (kad_key : option KadmliaKey)
    (nat : bool * Z) (gxid : option KadmliaKey) (score0 rnd rnd_http rnd_ws : Z)
    : outcome (option LocalNodeInfo) :=
  match GetZoneIdFromConfig c with
  | None => Ok None
  | Some zone_id =>
      match kad_key with
      | None => Fault NullDeref
      | Some k =>
          let xip := xip_of_string (key_Xip k) in
          let idtype := GenNodeIdType_code (zone_byte zone_id) (u8 (xip_xnetwork_id xip)) in
          if str_empty idtype then Ok None
          else
            let client_mode := default false (cfg_bool c "node" "client_mode") in
            let first_node := default false (cfg_bool c "node" "first_node") in
            match cfg_string c "node" "local_ip" with
            | None => Ok None
            | Some local_ip =>
                r ← LocalNodeInfo_Init local_ip 0 first_node client_mode idtype (Some k)
                      (key_xnetwork_id k) kRoleInvalid nat rnd gxid (LocalNodeInfo_new score0);
                if negb r.1 then Ok None
                else
                  let http_port := default (u16 rnd_http) (cfg_u16 c "node" "http_port") in
                  let ws_port := default (u16 rnd_ws) (cfg_u16 c "node" "ws_port") in
                  Ok (Some (r.2 <| ln_rpc_http_port := http_port |>
                                <| ln_rpc_ws_port := ws_port |>))
            end
      end
  end.
End routing_utils.

(** ** Lemmas *)

Lemma byte_char_of z : 0 <= z < 2 ^ 8 -> Z.of_N (N_of_ascii (byte_char z)) = z.
Proof.
  intros Hz. unfold byte_char. rewrite N_ascii_embedding.
  - unfold u8. rewrite Z.mod_small by lia. lia.
  - pose proof (u8_range z). lia.
Qed.

Lemma GetWorldCountryID_zero `{Xbase} s : GetWorldCountryID s = 0.
Proof.
  unfold GetWorldCountryID, u8. change 0xFF000000 with (Z.shiftl (Z.ones 8) 24).
  rewrite <- Z.land_ones by lia. rewrite <- Z.land_assoc.
  change (Z.land (Z.shiftl (Z.ones 8) 24) (Z.ones 8)) with 0. apply Z.land_0_r.
Qed.

Lemma length_GenNodeIdType_code c s : String.length (GenNodeIdType_code c s) = kNodeIdTypeSize.
Proof. done. Qed.

Lemma string_length_app s t : String.length (s +:+ t)%string = (String.length s + String.length t)%nat.
Proof. induction s as [|c s IH]; [done|]. change (S (String.length (s +:+ t)%string) = S (String.length s + String.length t)). by rewrite IH. Qed.

(** ** Properties *)

(** The id drawn for a country and a known business has the full id
    length, starts with a zero byte whatever the country (the country hash is
    masked to its top byte and then cut to its lowest), and GetNetworkId reads
    back the business code modulo 256; an unknown business or an empty argument
    gives the empty id. *)
Theorem GenRandomID_network_id `{XbaseLaws} RandomString country business code :
  (forall n, String.length (RandomString n) = n) -> (kNodeIdTypeSize <= kNodeIdSize)%nat ->
  0 <= code < 2 ^ 32 - 1 ->
  country <> EmptyString -> business <> EmptyString ->
  BusinessID !! toupper business = Some code ->
  let id := GenRandomID RandomString country business in
  String.length id = kNodeIdSize /\
  str_at id 0 = Some Ascii.zero /\
  GetNetworkId id = Ok (Some (code mod 256)) /\
  (forall b, BusinessID !! toupper b = None -> GenRandomID RandomString country b = EmptyString).
Proof.
  intros Hr Hsz Hcode Hc Hb Hbus id.
  assert (forall s, s <> EmptyString -> str_empty s = false) as Hne.
  { intros [|c s]; [done|]. intros _. done. }
  assert (id = (GenNodeIdType_code 0 (u8 code) +:+ RandomString (kNodeIdSize - kNodeIdTypeSize)%nat)%string)
    as Hid.
  { unfold id, GenRandomID, GenNodeIdType. rewrite (Hne country Hc), (Hne business Hb). cbn [orb].
    rewrite GetWorldCountryID_zero. change (0 =? 2 ^ 8 - 1) with false. unfold GetBusinessID. rewrite Hbus.
    rewrite (proj2 (Z.leb_gt (2 ^ 32 - 1) code)) by lia. done. }
  assert (String.length id = kNodeIdSize) as Hlen.
  { rewrite Hid, string_length_app, Hr. simpl String.length. unfold kNodeIdTypeSize in *. lia. }
  split; [done|]. split; [by rewrite Hid|]. split.
  - unfold GetNetworkId. rewrite Hlen, Nat.eqb_refl. cbn [negb]. rewrite Hid.
    change (str_at _ 1) with (Some (byte_char (u8 (u8 code)))). cbv beta iota.
    pose proof (u8_range (u8 code)). rewrite byte_char_of by done.
    unfold u8. rewrite Z.mod_mod by lia. done.
  - intros b Hb'. unfold GenRandomID, GenNodeIdType. destruct (str_empty country || str_empty b); [done|].
    rewrite GetWorldCountryID_zero. change (0 =? 2 ^ 8 - 1) with false. unfold GetBusinessID. by rewrite Hb'.
Qed.

(** C32: Let the configuration give a zone id or a country, and a local ip, and
    let the NAT type be known; then, the global xid existing, a local node is
    created (without the global xid its null pointer is read), and in every other
    case none is. The node carries the id of the key, the zone in its idtype (the
    top byte of the zone id or, without one, of the hash of the country), the
    mode flags of the configuration (false when absent), local port 0, the hash
    of the global xid, and the configured rpc ports or, for a port that is not
    configured, the random number cut to 16 bits; a first node is its own public
    address. *)
Theorem CreateLocalInfoFromConfig_spec `{Xbase} `{Config} `{KadKey} `{Xip}
    c k nat gx score0 rnd rnd_http rnd_ws :
  let made := CreateLocalInfoFromConfig c (Some k) nat gx score0 rnd rnd_http rnd_ws in
  let able := (is_Some (cfg_u32 c "node" "zone_id") \/ is_Some (cfg_string c "node" "country")) /\
    is_Some (cfg_string c "node" "local_ip") /\ nat.1 = true /\ nat.2 <> kNatTypeUnknown in
  (~ able -> made = Ok None) /\
  (able -> gx = None -> made = Fault NullDeref) /\
  (able -> forall g, gx = Some g -> exists l, made = Ok (Some l) /\
    LocalNodeInfo_id l = Ok (key_Get k) /\ ln_hash64 l = xhash64 (key_Get g) /\
    (forall zone, cfg_u32 c "node" "zone_id" = Some zone \/
        cfg_u32 c "node" "zone_id" = None /\
        (exists country, cfg_string c "node" "country" = Some country /\ zone = xhash32 country) ->
      str_at (ln_idtype l) 0 = Some (byte_char (zone_byte zone))) /\
    Some (ln_local_ip l) = cfg_string c "node" "local_ip" /\ ln_local_port l = 0 /\
    ln_client_mode l = default false (cfg_bool c "node" "client_mode") /\
    ln_first_node l = default false (cfg_bool c "node" "first_node") /\
    (ln_first_node l = true -> ln_public_ip l = ln_local_ip l /\ ln_public_port l = 0) /\
    (forall p, cfg_u16 c "node" "http_port" = Some p -> ln_rpc_http_port l = p) /\
    (cfg_u16 c "node" "http_port" = None -> ln_rpc_http_port l = rnd_http mod 2 ^ 16) /\
    (forall p, cfg_u16 c "node" "ws_port" = Some p -> ln_rpc_ws_port l = p) /\
    (cfg_u16 c "node" "ws_port" = None -> ln_rpc_ws_port l = rnd_ws mod 2 ^ 16)).
Proof.
  destruct nat as [b t]. cbv zeta. unfold CreateLocalInfoFromConfig, GetZoneIdFromConfig.
  change (str_empty (GenNodeIdType_code _ _)) with false. cbn [fst snd].
  destruct (cfg_u32 c "node" "zone_id") as [z|], (cfg_string c "node" "country") as [country|],
    (cfg_string c "node" "local_ip") as [ip|];
    try (split; [done|split]; intros [[[? ?]|[? ?]] [[? ?] _]]; discriminate);
    unfold LocalNodeInfo_Init; cbv iota zeta;
    destruct (default false (cfg_bool c "node" "first_node")); cbn;
    destruct b, (Z.eqb_spec t kNatTypeUnknown) as [->|Ht]; cbn;
    try (split; [done|split]; intros (_ & _ & ? & ?); done);
    (split; [intros []; naive_solver|split; [by intros _ ->|intros _ g ->]]);
    (eexists; split; [reflexivity|]); cbn; splits; try done; try (by intros p ->); try (by intros ->);
    by intros zone [[= ->]|([=] & ? & [= ->] & ->)].
Qed.

Import Externals.Examples.

Fixpoint ex_RandomString (n : nat) : string :=
  match n with O => EmptyString | S n => String "r"%char (ex_RandomString n) end.

Lemma GenRandomID_network_id_witness :
  GetNetworkId (GenRandomID ex_RandomString "us" "xvpn") = Ok (Some 6).
Proof.
  apply (GenRandomID_network_id ex_RandomString "us" "xvpn" 6);
    [|unfold kNodeIdTypeSize; simpl; lia|lia|discriminate|discriminate|reflexivity].
  intros n. induction n as [|n IH]; simpl; congruence.
Defined.

(** A node whose zone comes from its country, with one configured rpc port. *)
Definition ex_local_config : config :=
  {[ ("node", "country") := inl "us"; ("node", "local_ip") := inl "10.0.0.1";
     ("node", "ws_port") := inr 7001 ]}%string.

Lemma CreateLocalInfoFromConfig_spec_witness :
  exists l, CreateLocalInfoFromConfig ex_local_config (Some ex_key) (true, kNatTypePublic)
      (Some ex_key) 0 7 65537 2 = Ok (Some l) /\
    ln_local_ip l = "10.0.0.1"%string /\ ln_rpc_http_port l = 1 /\ ln_rpc_ws_port l = 7001.
Proof.
  destruct (CreateLocalInfoFromConfig_spec ex_local_config ex_key (true, kNatTypePublic)
    (Some ex_key) 0 7 65537 2) as (_ & _ & Hs).
  edestruct Hs as (l & E & _ & _ & _ & Hip & _ & _ & _ & _ & _ & Hh & Hw & _);
    [splits; [right; by eexists|by eexists|done|discriminate]|reflexivity|].
  exists l. splits; [exact E|injection Hip as ->; reflexivity|by rewrite Hh|by apply Hw].
Defined.
