(* ===== verification/BootstrapCache.v ===== *)
(** The cache of bootstrap endpoints: src/bootstrap_cache.cc (the manager of
    one cache per service type, whose storage is commented out in the source)
    and src/bootstrap_cache_helper.cc (the public endpoints of the routing
    table, and the public nodes of other services a root node keeps). The
    functors handed to Start are called by the environment: an operation that
    calls one takes the nodes it answers as an argument. *)

From S2P Require Import Prelude Externals NodeInfo.

(** ** BootstrapCacheManager *)

Module BootstrapCacheManager.

Record BootstrapCache := mkBootstrapCache { service_type_ : Z; manager_ : bool }.

Record t := mk { inited_ : bool; map_ : gmap Z BootstrapCache }.

Definition new : t := mk false ∅.

Definition Init (m : t) : bool * t :=
  if inited_ m then (true, m) else (true, mk true (map_ m)).

Definition GetBootStrapCache (service_type : Z) (m : t) : outcome (BootstrapCache * t) :=
  if inited_ m then
    match map_ m !! service_type with
    | Some c => Ok (c, m)
    | None =>
        let ptr := mkBootstrapCache service_type true in
        Ok (ptr, mk (inited_ m) (<[service_type := ptr]> (map_ m)))
    end
  else Fault AssertFailed.

(** The bodies of SetCache and GetCache are commented out. *)
Definition SetCache (service_type : Z) (vec : list (string * Z)) (m : t) : bool := true.

Definition GetCache (service_type : Z) (vec : list (string * Z)) (m : t)
    : bool * list (string * Z) := (true, vec).

End BootstrapCacheManager.

(** ** BootstrapCacheHelper *)

Section bootstrap_cache_helper.
Context `{Xbase} `{KadKey} `{Endpoints}.

Definition kDumpBootstrapPeriod : Z := 60 * 1000 * 1000.
Definition kCacheServiceBootstrapPeriod : Z := 3 * 1000 * 1000.
Definition kCacheServiceNodesSize : Z := 8.
Definition kCacheServiceNodesDeleteSize : nat := 4.

(** A TimerRepeated object: not started, or its first delay and period. *)
Definition timer : Type := option (Z * Z).

Record BootstrapCacheHelper := mkHelper {
  h_inited : bool;
  h_kad_key : option KadmliaKey;
  public_endpoints : list string;
  vec_endpoints : list (string * Z);
  timer_dump_public_endpoints : option timer;
  timer_Cache_Service_public_endpoints : option timer;
  bootstrap_cache_ptr : option BootstrapCacheManager.BootstrapCache;
  get_public_nodes : bool;           (* whether the functor is set *)
  get_service_public_nodes : bool;
  service_public_nodes : gmap Z (list NodeInfo);
  cache_service_types : gset Z }.

#[global] Instance BootstrapCacheHelper_eta : Eta BootstrapCacheHelper := fun r =>
  mkHelper (h_inited r) (h_kad_key r) (public_endpoints r) (vec_endpoints r)
    (timer_dump_public_endpoints r) (timer_Cache_Service_public_endpoints r)
    (bootstrap_cache_ptr r) (get_public_nodes r) (get_service_public_nodes r)
    (service_public_nodes r) (cache_service_types r).

Definition BootstrapCacheHelper_new : BootstrapCacheHelper :=
  mkHelper false None [] [] None None None false false ∅ ∅.

Definition endpoint_text (ip : string) (port : Z) : string :=
  (ip +:+ ":" +:+ check_cast_string port)%string.

(** One iteration of the loops of DumpPublicEndpoints and LoadBootstrapCache. *)
Definition push_endpoint (ip : string) (port : Z) (h : BootstrapCacheHelper)
    : BootstrapCacheHelper :=
  let endpoint := endpoint_text ip port in
  if decide (endpoint ∈ public_endpoints h) then h
  else h <| public_endpoints ::= fun l => l ++ [endpoint] |>
         <| vec_endpoints ::= fun l => l ++ [(ip, port)] |>.

Definition clear_endpoints (h : BootstrapCacheHelper) : BootstrapCacheHelper :=
  h <| public_endpoints := [] |> <| vec_endpoints := [] |>.

Definition LoadBootstrapCache (m : BootstrapCacheManager.t) (h : BootstrapCacheHelper)
    : outcome BootstrapCacheHelper :=
  match bootstrap_cache_ptr h with
  | None => Fault NullDeref
  | Some c =>
      let '(ok, vec) := BootstrapCacheManager.GetCache
                          (BootstrapCacheManager.service_type_ c) [] m in
      if ok then
        Ok (foldl (fun h ep => push_endpoint ep.1 ep.2 h) (clear_endpoints h) vec)
      else Ok h
  end.

(** Start(kad_key, get_public_nodes, get_service_public_nodes); the functors
    are given by whether they are set. *)
Definition BootstrapCacheHelper_Start (kad_key : option KadmliaKey)
    (get_public get_service_public : bool) (m : BootstrapCacheManager.t)
    (h : BootstrapCacheHelper) : outcome (bool * BootstrapCacheHelper * BootstrapCacheManager.t) :=
  let h := h <| timer_dump_public_endpoints := Some None |>
             <| timer_Cache_Service_public_endpoints := Some None |> in
  if negb get_public then Fault AssertFailed
  else if h_inited h then Ok (true, h, m)
  else
    let h := h <| h_kad_key := kad_key |> <| get_public_nodes := true |> in
    match kad_key with
    | None => Fault NullDeref
    | Some k =>
        let h := if key_xnetwork_id k =? kRoot then
                   h <| get_service_public_nodes := get_service_public |>
                     <| timer_Cache_Service_public_endpoints :=
                          Some (Some (1 * 1000 * 1000, kCacheServiceBootstrapPeriod)) |>
                 else h in
        '(c, m) ← BootstrapCacheManager.GetBootStrapCache (key_GetServiceType k) m;
        h ← LoadBootstrapCache m (h <| bootstrap_cache_ptr := Some c |>);
        Ok (true, h <| timer_dump_public_endpoints :=
                         Some (Some (kDumpBootstrapPeriod, kDumpBootstrapPeriod)) |>
                    <| h_inited := true |>, m)
    end.

Definition BootstrapCacheHelper_Stop (h : BootstrapCacheHelper) : BootstrapCacheHelper :=
  if negb (h_inited h) then h
  else
    h <| h_inited := false |>
      <| timer_dump_public_endpoints := None |>
      <| timer_Cache_Service_public_endpoints := None |>
      <| bootstrap_cache_ptr := None |>
      <| get_public_nodes := false |>
      <| get_service_public_nodes := false |>.

(** GetPublicEndpoints, both overloads. *)
Definition GetPublicEndpoints (h : BootstrapCacheHelper) : list string := public_endpoints h.

Definition GetPublicEndpoints_set (boot_endpoints : gset (string * Z)) (h : BootstrapCacheHelper)
    : gset (string * Z) := ParseVecEndpoint (public_endpoints h) boot_endpoints.

(** The elements of a std::set<uint64_t> in its order. *)
Definition set_in_order (s : gset Z) : list Z := sort_by Z.ltb (elements s).

(** [rnd] is what GetRandomInt64 returns. *)
Definition GetRandomCacheServiceType (rnd : Z) (h : BootstrapCacheHelper) : Z :=
  if negb (get_service_public_nodes h) then kInvalidType
  else
    let types := set_in_order (cache_service_types h) in
    if (length types =? 0)%nat then kInvalidType
    else
      let rand_idx := u32 (u64 rnd mod Z.of_nat (length types)) in
      default kInvalidType (types !! Z.to_nat rand_idx).

(** [nodes_of st] is what the functor get_service_public_nodes_ answers. *)
Definition CacheServicePublicNodes (nodes_of : Z -> list NodeInfo) (service_type : Z)
    (h : BootstrapCacheHelper) : BootstrapCacheHelper :=
  if negb (get_service_public_nodes h) then h
  else if decide (cache_service_types h = ∅) then h
  else if decide (service_type ∉ cache_service_types h) then h
  else
    let service_nodes := nodes_of service_type in
    if (length service_nodes =? 0)%nat then h
    else
      let vec := default [] (service_public_nodes h !! service_type) in
      let vec := vec ++ service_nodes in
      let vec := if kCacheServiceNodesSize <? Z.of_nat (length vec)
                 then drop kCacheServiceNodesDeleteSize vec else vec in
      h <| service_public_nodes ::= <[service_type := vec]> |>.

Definition RepeatCacheServicePublicNodes (rnd : Z) (nodes_of : Z -> list NodeInfo)
    (h : BootstrapCacheHelper) : BootstrapCacheHelper :=
  let this_time_service_type := GetRandomCacheServiceType rnd h in
  if this_time_service_type =? kInvalidType then h
  else CacheServicePublicNodes nodes_of this_time_service_type h.

Definition SetCacheServiceType (service_type : Z) (h : BootstrapCacheHelper)
    : bool * BootstrapCacheHelper :=
  (true, h <| cache_service_types ::= fun s => {[ service_type ]} ∪ s |>).

Definition endpoints_of (nodes : list NodeInfo) : gset (string * Z) :=
  list_to_set ((fun v => (public_ip v, public_port v)) <$> nodes).

Definition GetCacheServicePublicNodes (nodes_of : Z -> list NodeInfo) (service_type : Z)
    (boot_endpoints : gset (string * Z)) (h : BootstrapCacheHelper)
    : bool * gset (string * Z) * BootstrapCacheHelper :=
  match service_public_nodes h !! service_type with
  | Some ((_ :: _) as vec) => (true, boot_endpoints ∪ endpoints_of vec, h)
  | found =>
      let h := match found with
               | Some _ => h
               | None => h <| service_public_nodes ::= <[service_type := []]> |>
               end in
      if negb (get_service_public_nodes h) then (false, boot_endpoints, h)
      else
        let service_nodes := nodes_of service_type in
        if (length service_nodes =? 0)%nat then (false, boot_endpoints, h)
        else
          (true, boot_endpoints ∪ endpoints_of service_nodes,
           h <| service_public_nodes ::= <[service_type := service_nodes]> |>)
  end.

(** [nodes] is what the functor get_public_nodes_ answers. *)
Definition DumpPublicEndpoints (nodes : list NodeInfo) (m : BootstrapCacheManager.t)
    (h : BootstrapCacheHelper) : outcome BootstrapCacheHelper :=
  if negb (get_public_nodes h) then Fault NullDeref
  else
    let h := foldl (fun h n => push_endpoint (public_ip n) (u16 (public_port n)) h)
               (clear_endpoints h) nodes in
    match vec_endpoints h, bootstrap_cache_ptr h with
    | [], _ => Ok h
    | vec, Some c =>
        let _ := BootstrapCacheManager.SetCache (BootstrapCacheManager.service_type_ c) vec m in
        Ok h
    | _, None => Fault NullDeref
    end.

End bootstrap_cache_helper.

(** ** Lemmas *)

Section lemmas.
Context `{Xbase} `{KadKey} `{Endpoints}.
Implicit Types (h : BootstrapCacheHelper).

(** The two endpoint lists agree and hold no text twice. *)
Definition endpoints_ok h : Prop :=
  public_endpoints h = (fun e => endpoint_text e.1 e.2) <$> vec_endpoints h /\
  NoDup (public_endpoints h).

Lemma push_endpoint_ok ip port h : endpoints_ok h -> endpoints_ok (push_endpoint ip port h).
Proof.
  intros [He Hn]. unfold push_endpoint. destruct (decide _) as [|Hnot]; [done|].
  split; simpl.
  - by rewrite He, fmap_app.
  - apply NoDup_app. split; [done|]. split; [|apply NoDup_singleton].
    intros x Hx ->%list_elem_of_singleton. done.
Qed.

Lemma elem_of_push_endpoint ip port h t :
  t ∈ public_endpoints (push_endpoint ip port h) <->
  t ∈ public_endpoints h \/ t = endpoint_text ip port.
Proof.
  unfold push_endpoint. destruct (decide _) as [Hin|Hnot]; simpl.
  - split; [by left|]. intros [ | -> ]; done.
  - by rewrite elem_of_app, list_elem_of_singleton.
Qed.

Lemma push_endpoints_spec eps h :
  endpoints_ok h ->
  let h' := foldl (fun h e => push_endpoint e.1 e.2 h) h eps in
  endpoints_ok h' /\
  forall t, t ∈ public_endpoints h' <->
    t ∈ public_endpoints h \/ exists e, e ∈ eps /\ t = endpoint_text e.1 e.2.
Proof.
  revert h. induction eps as [|e eps IH]; intros h Hok; cbn [foldl].
  { split; [done|]. intros t. split; [by left|]. intros [|(e & He%elem_of_nil & _)]; done. }
  destruct (IH _ (push_endpoint_ok e.1 e.2 h Hok)) as [Hok' Hin]. split; [done|].
  intros t. rewrite Hin, elem_of_push_endpoint. setoid_rewrite elem_of_cons. naive_solver.
Qed.

Lemma push_endpoint_keeps ip port h :
  get_public_nodes (push_endpoint ip port h) = get_public_nodes h /\
  bootstrap_cache_ptr (push_endpoint ip port h) = bootstrap_cache_ptr h.
Proof. unfold push_endpoint. by destruct (decide _). Qed.

Lemma foldl_push_nodes nodes h :
  foldl (fun h n => push_endpoint (public_ip n) (u16 (public_port n)) h) h nodes =
  foldl (fun h e => push_endpoint e.1 e.2 h) h
    ((fun n => (public_ip n, u16 (public_port n))) <$> nodes).
Proof. revert h. induction nodes as [|n nodes IH]; intros h; [done|]. apply IH. Qed.

Lemma push_endpoints_keep eps h :
  bootstrap_cache_ptr (foldl (fun h e => push_endpoint e.1 e.2 h) h eps) = bootstrap_cache_ptr h.
Proof.
  revert h. induction eps as [|e eps IH]; intros h; cbn [foldl]; [done|].
  rewrite IH. apply push_endpoint_keeps.
Qed.

(** The size of the cache of one service after caching a batch. *)
Definition cached h st : nat := length (default [] (service_public_nodes h !! st)).

Definition caching h st : Prop :=
  get_service_public_nodes h = true /\ st ∈ cache_service_types h.

Lemma CacheServicePublicNodes_cached nodes_of st h :
  caching h st -> nodes_of st <> [] ->
  let n := (cached h st + length (nodes_of st))%nat in
  cached (CacheServicePublicNodes nodes_of st h) st = (if 8 <? n then n - 4 else n)%nat /\
  caching (CacheServicePublicNodes nodes_of st h) st.
Proof.
  intros [Hg Hin] Hne. unfold CacheServicePublicNodes. rewrite Hg. cbn [negb].
  rewrite decide_False by set_solver. rewrite decide_False by (intros []; done).
  destruct (length (nodes_of st) =? 0)%nat eqn:E; bool_props.
  { destruct (nodes_of st); [done|]. simpl in E. lia. }
  split; [|done]. unfold cached. simpl. rewrite lookup_insert_eq. simpl.
  set (vec := default [] (service_public_nodes h !! st)).
  unfold kCacheServiceNodesSize, kCacheServiceNodesDeleteSize.
  rewrite length_app.
  destruct (8 <? Z.of_nat (length vec + length (nodes_of st))) eqn:E1,
    (8 <? length vec + length (nodes_of st))%nat eqn:E2; bool_props; try lia.
  - by rewrite length_drop, length_app.
  - by rewrite length_app.
Qed.

Lemma cached_iter nodes_of st h n :
  caching h st -> cached h st = 0%nat -> length (nodes_of st) = 5%nat ->
  let h' := Nat.iter (S n) (CacheServicePublicNodes nodes_of st) h in
  cached h' st = (n + 5)%nat /\ caching h' st.
Proof.
  intros Hc Hz Hfive. assert (nodes_of st <> []) as Hne by (intros E; by rewrite E in Hfive).
  induction n as [|n IH]; cbn [Nat.iter nat_rect] in *.
  - pose proof (CacheServicePublicNodes_cached nodes_of st h Hc Hne) as G.
    simpl in G. rewrite Hz, Hfive in G. exact G.
  - destruct IH as [IH1 IH2].
    pose proof (CacheServicePublicNodes_cached nodes_of st _ IH2 Hne) as G.
    simpl in G. rewrite IH1, Hfive in G. destruct G as [G1 G2]. split; [|exact G2].
    simpl. rewrite G1. destruct (8 <? n + 5 + 5)%nat eqn:E; bool_props; lia.
Qed.
End lemmas.

(** ** Properties *)

(** After a dump the helper holds exactly the endpoint texts of the nodes
    its functor answered, each once, with the endpoint pairs in the same order;
    whatever it held before is gone. *)
Theorem DumpPublicEndpoints_exact `{Xbase} `{KadKey} nodes m h :
  get_public_nodes h = true -> bootstrap_cache_ptr h <> None ->
  exists h', DumpPublicEndpoints nodes m h = Ok h' /\
    public_endpoints h' = (fun e => endpoint_text e.1 e.2) <$> vec_endpoints h' /\
    NoDup (public_endpoints h') /\
    forall t, t ∈ public_endpoints h' <->
      exists n, n ∈ nodes /\ t = endpoint_text (public_ip n) (u16 (public_port n)).
Proof.
  intros Hg Hc. unfold DumpPublicEndpoints. rewrite Hg, foldl_push_nodes. cbn [negb].
  set (eps := _ <$> nodes). set (h' := foldl _ _ eps). exists h'.
  destruct (push_endpoints_spec eps (clear_endpoints h)) as [[He Hn] Hin].
  { split; [done|constructor]. }
  fold h' in He, Hn, Hin. split; [|split; [done|split; [done|]]].
  - assert (bootstrap_cache_ptr h' = bootstrap_cache_ptr h) as Hb
      by apply (push_endpoints_keep eps (clear_endpoints h)).
    destruct (vec_endpoints h'); [done|]. rewrite Hb.
    by destruct (bootstrap_cache_ptr h).
  - intros t. rewrite Hin. split.
    + intros [Ht%elem_of_nil|(e & Hel & ->)]; [done|]. apply list_elem_of_fmap in Hel as (n & -> & Hn').
      by exists n.
    + intros (n & Hn' & ->). right. exists (public_ip n, u16 (public_port n)).
      split; [|done]. apply list_elem_of_fmap. by exists n.
Qed.

(** The cache of one service stays within its eight nodes as long as every
    batch brings at most four; batches of five make it grow by one node each,
    without bound, because only four nodes are deleted per batch. *)
Theorem service_cache_growth `{Xbase} `{KadKey} nodes_of st h :
  caching h st -> cached h st = 0%nat -> length (nodes_of st) = 5%nat ->
  (forall n, cached (Nat.iter (S n) (CacheServicePublicNodes nodes_of st) h) st = (n + 5)%nat) /\
  (forall few h', caching h' st -> few st <> [] -> (length (few st) <= 4)%nat ->
     (cached h' st <= 8)%nat -> (cached (CacheServicePublicNodes few st h') st <= 8)%nat).
Proof.
  intros Hc Hz Hfive. split.
  - intros n. by apply cached_iter.
  - intros few h' Hc' Hne Hl H8.
    destruct (CacheServicePublicNodes_cached few st h' Hc' Hne) as [-> _].
    destruct (8 <? _)%nat eqn:E; bool_props; lia.
Qed.

(** Starting a helper that is already started answers true but replaces
    both timers by fresh ones that are not started, so nothing is dumped or
    cached any more until it is stopped and started again. *)
Theorem second_Start_kills_timers `{Xbase} `{KadKey} k public m h h1 m1 service :
  BootstrapCacheHelper_Start (Some k) true service m h = Ok (true, h1, m1) ->
  timer_dump_public_endpoints h1 <> Some None ->
  exists h2,
    BootstrapCacheHelper_Start (Some k) true public m1 h1 = Ok (true, h2, m1) /\
    timer_dump_public_endpoints h2 = Some None /\
    timer_Cache_Service_public_endpoints h2 = Some None /\ h_inited h2 = true.
Proof.
  intros Hs Hd. unfold BootstrapCacheHelper_Start in *. cbn [negb] in *.
  assert (h_inited h1 = true) as Hi.
  { cbn in Hs. destruct (h_inited h) eqn:E; cbn in Hs.
    - injection Hs as <- <-. done.
    - destruct (BootstrapCacheManager.GetBootStrapCache _ m) as [[c m']|e]; [|done]. cbn in Hs.
      unfold LoadBootstrapCache in Hs. cbn in Hs. by injection Hs as <- <-. }
  eexists. cbn. rewrite Hi. done.
Qed.

Import Externals.Examples.

Definition ex_manager : BootstrapCacheManager.t := (BootstrapCacheManager.Init BootstrapCacheManager.new).2.
Definition ex_helper : BootstrapCacheHelper :=
  BootstrapCacheHelper_new <| get_public_nodes := true |>
    <| get_service_public_nodes := true |>
    <| bootstrap_cache_ptr := Some (BootstrapCacheManager.mkBootstrapCache 1 true) |>
    <| cache_service_types := {[ 1 ]} |>.

Definition ex_node : NodeInfo := NodeInfo_fields <| public_ip := "10.0.0.1"%string |> <| public_port := 9000 |>.

Lemma DumpPublicEndpoints_exact_witness :
  exists h', DumpPublicEndpoints [ex_node; ex_node] ex_manager ex_helper = Ok h' /\
    NoDup (public_endpoints h').
Proof.
  destruct (DumpPublicEndpoints_exact [ex_node; ex_node] ex_manager ex_helper)
    as (h' & E & _ & Hn & _); [reflexivity|discriminate|].
  exists h'. split; [exact E|exact Hn].
Defined.

Lemma service_cache_growth_witness :
  cached (Nat.iter 12 (CacheServicePublicNodes (fun _ => [ex_node; ex_node; ex_node; ex_node; ex_node]) 1)
            ex_helper) 1 = 16%nat.
Proof.
  apply (service_cache_growth (fun _ => [ex_node; ex_node; ex_node; ex_node; ex_node]) 1 ex_helper).
  - split; [reflexivity|]. unfold ex_helper. simpl. set_solver.
  - reflexivity.
  - reflexivity.
Defined.

Lemma second_Start_kills_timers_witness :
  exists h1 h2,
    BootstrapCacheHelper_Start (Some ex_key) true true ex_manager BootstrapCacheHelper_new
      = Ok (true, h1, (BootstrapCacheManager.mk true {[ 1 := BootstrapCacheManager.mkBootstrapCache 1 true ]})) /\
    timer_dump_public_endpoints h2 = Some None.
Proof.
  destruct (BootstrapCacheHelper_Start (Some ex_key) true true ex_manager BootstrapCacheHelper_new)
    as [[[b h1] m1]|e] eqn:E; [|discriminate E].
  destruct (second_Start_kills_timers ex_key true ex_manager BootstrapCacheHelper_new h1 m1 true)
    as (h2 & _ & E2 & _).
  - vm_compute in E. injection E as <- <- <-. vm_compute. reflexivity.
  - vm_compute in E. injection E as <- <- <-. discriminate.
  - exists h1, h2. vm_compute in E. injection E as <- <- <-. split; [vm_compute; reflexivity|exact E2].
Defined.
