(* ===== verification/World.v ===== *)
(** The state of one routing node: the RoutingTable object of
    routing_table/routing_table.h with the objects it owns (its
    NodeDetectionManager, DynamicXipManager and BootstrapCacheHelper), the
    process-wide singletons it uses (ClientNodeManager, CallbackManager's
    message counter, the global xid), and the environment: what the transport
    was asked to send, and the answers of the clock, the random generator and
    the sockets.

    NodeInfo objects are shared: nodes_, node_id_map_, node_hash_map_, the
    bootstrap nodes and the detection map all hold pointers to them. [w_heap]
    is the store of these objects and a [ptr] an address in it. *)

From S2P Require Import Prelude Externals Messages NodeInfo LocalNodeInfo ClientNodes.
From S2P Require Import BootstrapCache.

Definition ptr : Type := positive.

(** ** Packets *)

Inductive send_kind :=
  | KData                       (* Transport::SendData *)
  | KDataWithProp (prop : bool) (* Transport::SendDataWithProp *)
  | KPing.                      (* Transport::SendPing *)

(** What the transport was asked to send; [pk_flags] is the xip2 header's. *)
Record packet := mkPacket {
  pk_kind : send_kind;
  pk_flags : Z;
  pk_data : string;
  pk_ip : string;
  pk_port : Z }.

(** The base::xpacket_t a handler receives: where the message came from. *)
Record xpacket := mkXpacket { get_from_ip_addr : string; get_from_ip_port : Z }.

(** ** The detection manager's state *)

Record Detection := mkDetection {
  detection_nodes_map : gmap string ptr;
  detected_nodes_map : gmap string ptr;
  det_destroy : bool;
  det_timer : option (Z * Z) }.

#[global] Instance Detection_eta : Eta Detection := fun r =>
  mkDetection (detection_nodes_map r) (detected_nodes_map r) (det_destroy r) (det_timer r).

Section world.
Context `{Xbase} `{KadKey} `{Xip}.

Record World := mkWorld {
  (* the NodeInfo objects *)
  w_heap : gmap ptr NodeInfo;
  w_next : ptr;
  (* the table *)
  nodes_ : list ptr;
  node_id_map_ : gmap string ptr;
  node_hash_map_ : gmap Z ptr;
  no_lock_for_use_nodes_ : option (list ptr);
  RoutingMaxNodesSize_ : Z;
  (* what the node knows of itself *)
  local_node_ptr_ : option LocalNodeInfo;
  (* joining *)
  joined_ : bool;
  after_join_ : bool;
  bootstrap_id_ : string;
  bootstrap_ip_ : string;
  bootstrap_port_ : Z;
  bootstrap_nodes_ : list ptr;
  bootstrap_wakeups : nat;              (* notify_all calls *)
  (* owned objects *)
  transport_ptr_ : option Z;            (* its local port *)
  node_detection_ptr_ : option Detection;
  dy_manager_ : option DynamicXipManager.t;
  bootstrap_cache_helper_ : option BootstrapCacheHelper;
  security_frozen : option (list string); (* security_join_ptr_: the xids frozen *)
  timer_rejoin_ : option (Z * Z);
  timer_find_neighbours_ : option (Z * Z);
  timer_heartbeat_ : option (Z * Z);
  destroy_ : bool;
  offline_callbacks : nat;              (* OnHeartbeatFailed registrations *)
  (* heartbeat payload *)
  heart_beat_info_map_ : gmap string string;
  heart_beat_callback_ : bool;
  heart_beat_calls : list (gmap string string);
  (* singletons *)
  clients : ClientNodeManager.t;
  msg_id_ : Z;
  w_global_xid : option KadmliaKey;
  (* the environment *)
  w_net : list packet;                  (* oldest first *)
  w_now : Z;                            (* steady_clock::now() *)
  w_send_result : nat -> Z;
  w_random : nat -> Z;                  (* RandomUint32() *)
  w_drawn : nat }.

#[global] Instance World_eta : Eta World := fun r =>
  mkWorld (w_heap r) (w_next r) (nodes_ r) (node_id_map_ r) (node_hash_map_ r)
    (no_lock_for_use_nodes_ r) (RoutingMaxNodesSize_ r) (local_node_ptr_ r) (joined_ r)
    (after_join_ r) (bootstrap_id_ r) (bootstrap_ip_ r) (bootstrap_port_ r)
    (bootstrap_nodes_ r) (bootstrap_wakeups r) (transport_ptr_ r) (node_detection_ptr_ r)
    (dy_manager_ r) (bootstrap_cache_helper_ r) (security_frozen r) (timer_rejoin_ r)
    (timer_find_neighbours_ r) (timer_heartbeat_ r) (destroy_ r) (offline_callbacks r)
    (heart_beat_info_map_ r) (heart_beat_callback_ r) (heart_beat_calls r) (clients r)
    (msg_id_ r) (w_global_xid r) (w_net r) (w_now r) (w_send_result r) (w_random r)
    (w_drawn r).

(** The constructor RoutingTable(transport, key length, local node). The
    singletons and the environment are those of the process. *)
Definition RoutingTable_new (transport : option Z) (local : option LocalNodeInfo)
    (gxid : option KadmliaKey) (cl : ClientNodeManager.t) (msg_id now : Z)
    (send_result random : nat -> Z) : World :=
  mkWorld ∅ 1%positive [] ∅ ∅ None kRoutingMaxNodesSize local false false "" "" 0 [] 0%nat
    transport None None None None None None None false 0%nat ∅ false [] cl msg_id gxid []
    now send_result random 0%nat.

#[local] Notation M := (ST World).

(** ** Objects *)

Definition obj_of (w : World) (p : ptr) : NodeInfo := w_heap w !!! p.

Definition obj (p : ptr) : M NodeInfo := gets (fun w => obj_of w p).

Definition alloc (n : NodeInfo) : M ptr := run (fun w =>
  (w_next w, w <| w_heap ::= <[w_next w := n]> |> <| w_next ::= Pos.succ |>)).

(** [new NodeInfo(id)], then the assignments of [init]. *)
Definition new_NodeInfo (id : string) (init : NodeInfo -> NodeInfo) : M ptr :=
  now ← gets w_now; alloc (init (NodeInfo_of_id now id)).

Definition mutate (p : ptr) (f : NodeInfo -> NodeInfo) : M unit :=
  modify (fun w => w <| w_heap ::= alter f p |>).

(** ** Access to shared state *)

Definition local : M LocalNodeInfo := l ← gets local_node_ptr_; from_some NullDeref l.
Definition local_id : M string := l ← local; lift (LocalNodeInfo_id l).
Definition local_xip : M string := l ← local; lift (LocalNodeInfo_xip l).
Definition set_local (f : LocalNodeInfo -> LocalNodeInfo) : M unit :=
  modify (fun w => w <| local_node_ptr_ ::= fmap f |>).

(** [global_xid->Get()]. *)
Definition gxid : M string :=
  k ← gets w_global_xid; k ← from_some NullDeref k; mret (key_Get k).

Definition RandomUint32 : M Z := run (fun w =>
  (u32 (w_random w (w_drawn w)), w <| w_drawn ::= S |>)).

(** CallbackManager::MessageId(). *)
Definition next_message_id : M Z := run (fun w =>
  (u32 (msg_id_ w + 1), w <| msg_id_ := u32 (msg_id_ w + 1) |>)).

(** A call of the transport: the packet is recorded and the socket answers. *)
Definition transport_send (p : packet) : M Z :=
  t ← gets transport_ptr_;
  _ ← from_some NullDeref t;
  run (fun w => (w_send_result w (length (w_net w)), w <| w_net ::= fun l => l ++ [p] |>)).

End world.

Arguments World {_ _}.

(** The programs of the node. *)
Notation M := (ST World).
