(* ===== verification/RoutingTable.v ===== *)
(** The container operations of src/routing_table.cc: insertion and removal of
    nodes (AddNode, CanAddNode, DropNode and their helpers), sorting by
    distance, the queries (closest nodes, destination test, range queries by
    hash), the heartbeat bookkeeping and the selection of the nodes to ask for
    neighbours. Each definition is the whole C++ function; a handler is one
    atomic step of the state monad [M]. *)

From S2P Require Import Prelude Externals Messages Distance Sorting NodeInfo LocalNodeInfo.
From S2P Require Import ClientNodes BootstrapCache World.

Section routing_table.
Context `{Xbase} `{KadKey} `{Xip} `{PartialSort}.

(** ** Tests on a node *)

Definition HasNode (node : ptr) : M bool :=
  n ← obj node; m ← gets node_id_map_;
  mret (match m !! node_id n with Some _ => true | None => false end).

Definition ValidNode (node : ptr) : M bool :=
  n ← obj node;
  if negb (String.length (node_id n) =? kNodeIdSize)%nat then mret false
  else if str_empty (public_ip n) || (public_port n <=? 0) then mret false
  else mret true.

Definition SetNodeBucket (node : ptr) : M Z :=
  id ← local_id;
  n ← obj node;
  r ← lift (bucket_scan id (node_id n));
  match r with
  | Some bucket =>
      _ ← mutate node (fun n => n <| bucket_index := bucket |>);
      mret kKadSuccess
  | None =>
      _ ← mutate node (fun n => n <| bucket_index := kSelfBucketIndex |>);
      mret kKadFailed
  end.

(** ** Sorting *)

Definition cmp_xid (w : World) (target : string) (lhs rhs : ptr) : outcome bool :=
  CloserToTarget (node_id (obj_of w lhs)) (node_id (obj_of w rhs)) target.

Definition cmp_xip (w : World) (target : string) (lhs rhs : ptr) : outcome bool :=
  CloserToTarget (xip (obj_of w lhs)) (xip (obj_of w rhs)) target.

(** The overload sorting a vector of its own. *)
Definition SortNodesByTargetXid_vec (target_xid : string) (nodes : list ptr) : M (list ptr) :=
  w ← gets (fun w => w); lift (partial_sort (cmp_xid w target_xid) (length nodes) nodes).

Definition sort_nodes (cmp : World -> ptr -> ptr -> outcome bool) (number : Z) : M Z :=
  w ← gets (fun w => w);
  let count := Z.min number (Z.of_nat (length (nodes_ w))) in
  if count <=? 0 then mret 0
  else
    sorted ← lift (partial_sort (cmp w) (Z.to_nat count) (nodes_ w));
    _ ← modify (fun w => w <| nodes_ := sorted |>);
    mret count.

Definition SortNodesByTargetXid (target_xid : string) (number : Z) : M Z :=
  sort_nodes (fun w => cmp_xid w target_xid) number.

Definition SortNodesByTargetXip (target_xip : string) (number : Z) : M Z :=
  sort_nodes (fun w => cmp_xip w target_xip) number.

(** ** Insertion and removal *)

(** The argument [remove] is not used by the code. *)
Definition NewNodeReplaceOldNode (node : ptr) (remove : bool) : M bool :=
  w ← gets (fun w => w);
  let same n := bucket_index (obj_of w n) = bucket_index (obj_of w node) in
  let sum := Z.of_nat (length (filter same (nodes_ w))) in
  mret (negb (kKadParamK <=? sum)).

Definition nodes : M (list ptr) := gets nodes_.

Definition nodes_size : M Z := gets (fun w => Z.of_nat (length (nodes_ w))).

(** [no_lock_for_use_nodes_ = make_shared<vector>(nodes())], after a reset()
    that only another thread could see (Threads.v). *)
Definition refresh_unlocked : M unit :=
  l ← nodes; modify (fun w => w <| no_lock_for_use_nodes_ := Some l |>).

Definition GetUnLockNodes : M (option (list ptr)) := gets no_lock_for_use_nodes_.

Definition AddNode (node : ptr) : M Z :=
  n ← obj node;
  if nat_type n =? kNatTypeUnknown then mret kKadFailed
  else
    id ← local_id;
    if (node_id n =? id)%string then mret kKadFailed
    else
      valid ← ValidNode node;
      if negb valid then mret kKadFailed
      else
        has ← HasNode node;
        if has : bool then mret kKadNodeHasAdded
        else
          b ← SetNodeBucket node;
          if negb (b =? kKadSuccess) then mret kKadFailed
          else
            size ← nodes_size;
            _ ← SortNodesByTargetXid id size;
            room ← NewNodeReplaceOldNode node true;
            if negb room then mret kKadFailed
            else
              has ← HasNode node;
              if has : bool then mret kKadNodeHasAdded
              else
                _ ← modify (fun w => w <| nodes_ ::= fun l => l ++ [node] |>);
                n ← obj node;
                _ ← modify (fun w => w <| node_id_map_ ::=
                      fun m => match m !! node_id n with
                               | Some _ => m | None => <[node_id n := node]> m end |>);
                _ ← modify (fun w => w <| node_hash_map_ ::=
                      fun m => match m !! hash64 n with
                               | Some _ => m | None => <[hash64 n := node]> m end |>);
                _ ← refresh_unlocked;
                mret kKadSuccess.

Definition CanAddNode (node : ptr) : M bool :=
  n ← obj node;
  if nat_type n =? kNatTypeUnknown then mret false
  else
    id ← local_id;
    if (node_id n =? id)%string then mret false
    else
      valid ← ValidNode node;
      if negb valid then mret false
      else
        has ← HasNode node;
        if has : bool then mret false
        else
          b ← SetNodeBucket node;
          if negb (b =? kKadSuccess) then mret false
          else
            size ← nodes_size;
            _ ← SortNodesByTargetXid id size;
            NewNodeReplaceOldNode node false.

(** [nodes_.erase] of the first node with this id. *)
Fixpoint erase_first (p : ptr -> bool) (l : list ptr) : list ptr :=
  match l with
  | [] => []
  | x :: l' => if p x then l' else x :: erase_first p l'
  end.

Definition DropNode (node : ptr) : M Z :=
  n ← obj node;
  _ ← modify (fun w => w <| nodes_ ::=
        erase_first (fun p => (node_id (obj_of w p) =? node_id n)%string) |>);
  _ ← modify (fun w => w <| node_id_map_ ::= delete (node_id n) |>);
  _ ← modify (fun w => w <| node_hash_map_ ::= delete (hash64 n) |>);
  _ ← local;
  _ ← set_local (DropDxip (node_id n));
  _ ← modify (fun w => w <| security_frozen ::= fmap (fun l => l ++ [xid n]) |>);
  _ ← refresh_unlocked;
  mret kKadSuccess.

(** ** Queries *)

Definition GetRandomNode : M (option ptr) :=
  l ← nodes;
  if (length l =? 0)%nat then mret None
  else
    r ← RandomUint32;
    mret (l !! Z.to_nat (r mod Z.of_nat (length l))).

(** The entries of a std::map<uint64_t, ...> in key order. *)
Definition hash_entries (m : gmap Z ptr) : list (Z * ptr) := entries_by Z.ltb m.

(** The half-open iterator range from position [first] to [last] ([last]
    before [first] is never met, so the loop runs to the end). *)
Definition iterate {A} (first last : nat) (l : list A) : list A :=
  if (first <=? last)%nat then take (last - first) (drop first l) else drop first l.

(** GetRangeNodes(min, max, vec) by hash: the new value of [vec]. *)
Definition GetRangeNodes_hash (min max : Z) (vec : list ptr) : M (list ptr) :=
  if (min =? 0) && (max =? 2 ^ 64 - 1) then nodes
  else
    m ← gets node_hash_map_;
    let es := hash_entries m in
    let minit := length (filter (fun e => e.1 < min) es) in
    let maxit := length (filter (fun e => e.1 <= max) es) in
    mret (vec ++ (iterate minit maxit es).*2).

(** GetRangeNodes(min_index, max_index, vec), both bounds included. *)
Definition GetRangeNodes_index (min_index max_index : Z) (vec : list ptr) : M (list ptr) :=
  if max_index <? min_index then mret vec
  else
    m ← gets node_hash_map_;
    let size := Z.of_nat (base.size m) in
    if size <=? min_index then mret vec
    else
      let max_index := if size <=? max_index then u32 (size - 1) else max_index in
      if (min_index =? 0) && (max_index =? size - 1) then nodes
      else
        let es := hash_entries m in
        mret (vec ++ (iterate (Z.to_nat min_index) (Z.to_nat (max_index + 1)) es).*2).

Definition GetSelfIndex : M Z :=
  l ← local; m ← gets node_hash_map_;
  mret (match m !! ln_hash64 l with
        | None => -1
        | Some _ => Z.of_nat (length (filter (fun e => e.1 < ln_hash64 l) (hash_entries m)))
        end).

Definition GetNode (id : string) : M (option ptr) :=
  m ← gets node_id_map_; mret (m !! id).

(** FindLocalNode is the same lookup under another name. *)
Definition FindLocalNode (node_id : string) : M (option ptr) :=
  m ← gets node_id_map_; mret (m !! node_id).

(** [static_cast] of a uint32_t to the [int] the sort takes. *)
Definition GetClosestNodes (target_id : string) (number_to_get : Z) (base_xip : bool)
    : M (list ptr) :=
  if number_to_get =? 0 then mret []
  else
    sorted_count ← (if base_xip then SortNodesByTargetXip target_id (i32 number_to_get)
                    else SortNodesByTargetXid target_id (i32 number_to_get));
    if sorted_count =? 0 then mret []
    else l ← nodes; mret (take (Z.to_nat sorted_count) l).

Definition GetClosestNode (target_id : string) (not_self : bool) (exclude : gset string)
    (base_xip : bool) : M (option ptr) :=
  number ← gets RoutingMaxNodesSize_;
  closest_nodes ← GetClosestNodes target_id number base_xip;
  id ← local_id;
  w ← gets (fun w => w);
  let fits p := negb (not_self && (node_id (obj_of w p) =? id)%string) &&
                negb (bool_decide (node_id (obj_of w p) ∈ exclude)) in
  mret (List.find fits closest_nodes).

(** The verdict of the two ClosestToTarget overloads on the closest node. *)
Definition closest_verdict (target : string) (closest_node : option ptr) : M bool :=
  match closest_node with
  | None => mret true
  | Some p =>
      c ← obj p;
      if bucket_index c =? kSelfBucketIndex then mret true
      else id ← local_id; lift (CloserToTarget id (node_id c) target)
  end.

(** ClosestToTarget(target, exclude, closest): the code, and the new value of
    [closest] when it is written. *)
Definition ClosestToTarget_exclude (target : string) (exclude : gset string)
    : M (Z * option bool) :=
  id ← local_id;
  if (target =? id)%string then mret (kKadFailed, None)
  else
    size ← nodes_size;
    if size =? 0 then mret (kKadFailed, None)
    else if negb (String.length target =? kNodeIdSize)%nat then mret (kKadFailed, None)
    else
      closest_node ← GetClosestNode target true exclude false;
      b ← closest_verdict target closest_node;
      mret (kKadSuccess, Some b).

Definition ClosestToTarget (target : string) : M (Z * option bool) :=
  id ← local_id;
  if (target =? id)%string then mret (kKadFailed, None)
  else
    size ← nodes_size;
    if size =? 0 then mret (kKadSuccess, Some true)
    else if negb (String.length target =? kNodeIdSize)%nat then mret (kKadFailed, None)
    else
      closest_node ← GetClosestNode target true ∅ false;
      b ← closest_verdict target closest_node;
      mret (kKadSuccess, Some b).

Definition IsDestination (des_node_id : string) (check_closest : bool) : M bool :=
  id ← local_id;
  if (des_node_id =? id)%string then mret true
  else if negb check_closest then mret false
  else
    '(code, closest) ← ClosestToTarget des_node_id;
    if negb (code =? kKadSuccess) then mret false
    else mret (default false closest).

(** ** Heartbeats *)

Definition ResetNodeHeartbeat (id : string) : M unit :=
  m ← gets node_id_map_;
  match m !! id with
  | Some p => now ← gets w_now; mutate p (ResetHeartbeat now)
  | None => mret tt
  end.

(** The head of HeartbeatProc, HeartbeatCheckProc and FindNeighbours. *)
Definition sorted_neighbours : M (list ptr) :=
  id ← local_id;
  number ← gets RoutingMaxNodesSize_;
  sort_num ← SortNodesByTargetXid id (i32 number);
  l ← nodes;
  mret (take (Z.to_nat sort_num) l).

(** The heartbeats themselves are commented out in the source: the loop only
    gathers the texts of the log line, which the model leaves out. *)
Definition HeartbeatProc : M unit :=
  d ← gets destroy_;
  if d : bool then mret tt
  else
    tmp_vec ← sorted_neighbours;
    _ ← local;
    mret tt.

Definition HeartbeatCheckProc : M unit :=
  d ← gets destroy_;
  if d : bool then mret tt
  else
    tmp_vec ← sorted_neighbours;
    tp_now ← gets w_now;
    for_each tmp_vec (fun p =>
      n ← obj p;
      when (IsTimeout tp_now n) (_ ← DropNode p; mret tt)).

Definition OnHeartbeatFailed (ip : string) (port : Z) : M unit :=
  w ← gets (fun w => w);
  let failed p := public_ip (obj_of w p) = ip /\ public_port (obj_of w p) = port in
  for_each (filter failed (nodes_ w)) (fun p => _ ← DropNode p; mret tt).

(** ** Which nodes to ask for neighbours *)

(** [while (query_nodes.size() < bound)]: draw until the picked node is new. *)
Fixpoint add_random_nodes (fuel : nat) (bound skip : Z) (query_nodes : gmap string string)
    : M (gmap string string) :=
  if bound <=? Z.of_nat (base.size query_nodes) then mret query_nodes
  else
    match fuel with
    | O => raise OutOfFuel
    | S fuel' =>
        l ← nodes;
        r ← RandomUint32;
        let rand_index := r mod (Z.of_nat (length l) - skip) in
        node ← from_some OutOfRange (l !! Z.to_nat (rand_index + skip));
        n ← obj node;
        match query_nodes !! node_id n with
        | Some _ => add_random_nodes fuel' bound skip query_nodes
        | None => add_random_nodes fuel' bound skip (<[node_id n := ""%string]> query_nodes)
        end
    end.

Definition GetRandomAlphaNodes (fuel : nat) : M (gmap string string) :=
  l ← nodes;
  if (length l =? 0)%nat then mret ∅
  else add_random_nodes fuel (Z.min (Z.of_nat (length l)) kKadParamAlphaRandom) 0 ∅.

Definition ids_of (w : World) (l : list ptr) : gmap string string :=
  list_to_map ((fun p => (node_id (obj_of w p), ""%string)) <$> l).

Definition GetClosestAlphaNodes (fuel : nat) : M (gmap string string) :=
  l ← nodes;
  w ← gets (fun w => w);
  if Z.of_nat (length l) <=? kKadParamAlpha + kKadParamAlphaRandom then mret (ids_of w l)
  else
    lid ← local_id;
    count ← SortNodesByTargetXid lid kKadParamAlpha;
    l ← nodes;
    add_random_nodes fuel (kKadParamAlpha + kKadParamAlphaRandom) kKadParamAlpha
      (ids_of w (take (Z.to_nat count) l)).

(** ** Dumps *)

(** An id with its public endpoint. *)
Definition dump_line : Type := string * string * Z.
Definition line_of (n : NodeInfo) : dump_line := (node_id n, public_ip n, public_port n).

(** What PrintRoutingTable writes: the local node, the nodes, and how many
    there are in each bucket (the file lists the buckets in key order). *)
Definition table_dump : Type := dump_line * list dump_line * gmap Z Z.

(** [bucket_rank_map[bucket] += 1] for each node. *)
Definition count_buckets (buckets : list Z) : gmap Z Z :=
  foldl (fun m b => <[u32 b := u32 (default 0 (m !! u32 b) + 1)]> m) ∅ buckets.

(** [index] is the static counter that numbers the files, [opens] tells whether
    fopen succeeds; the answer holds the new counter and what is written. *)
Definition PrintRoutingTable (index : Z) (opens : bool) : M (Z * option table_dump) :=
  d ← gets destroy_;
  if d : bool then mret (index, None)
  else
    let tmp_index := u32 (index + 1) in
    id ← local_id;
    if negb opens then mret (tmp_index, None)
    else
      size ← nodes_size;
      _ ← SortNodesByTargetXid id size;
      l ← local;
      w ← gets (fun w => w);
      let ns := obj_of w <$> nodes_ w in
      mret (tmp_index, Some ((id, ln_public_ip l, ln_public_port l), line_of <$> ns,
                             count_buckets (bucket_index <$> ns))).

(** The lines DumpNodes logs: the local node's, then the nodes with their
    positions and buckets, in table order. *)
Definition DumpNodes : M (dump_line * list (Z * dump_line * Z)) :=
  l ← local; id ← local_id;
  w ← gets (fun w => w);
  mret ((id, ln_public_ip l, ln_public_port l),
        imap (fun i p => let n := obj_of w p in (Z.of_nat i, line_of n, bucket_index n)) (nodes_ w)).

End routing_table.
