(* ===== verification/TableFacts.v ===== *)
(** The invariant of the routing table and the lemmas about its container
    operations. [table_ok lid w] says that the node knows its id [lid], that
    nodes_ holds valid nodes with pairwise different ids, that node_id_map_
    indexes exactly those nodes, that every bucket index is the bit length of
    the distance to [lid], and that no bucket holds more than k = 8 nodes. *)

From S2P Require Import Prelude Externals Messages Distance Sorting NodeInfo LocalNodeInfo.
From S2P Require Import ClientNodes BootstrapCache World RoutingTable.

Section table_facts.
Context `{Xbase} `{KadKey} `{Xip}.
Implicit Types (w : World) (p : ptr) (n : NodeInfo).

(** ** The invariant *)

Definition local_key w : option KadmliaKey := l ← local_node_ptr_ w; ln_kadmlia_key l.

Definition node_valid (lid : string) n : Prop :=
  id_ok (node_id n) /\ node_id n <> lid /\ nat_type n <> kNatTypeUnknown /\
  str_empty (public_ip n) = false /\ 0 < public_port n /\
  bucket_index n = Z.of_N (N.size (xor_distance lid (node_id n))).

Definition in_bucket w (b : Z) (l : list ptr) : nat :=
  length (filter (fun p => bucket_index (obj_of w p) = b) l).

Record table_ok (lid : string) w : Prop := {
  ok_local : exists k, local_key w = Some k /\ key_Get k = lid;
  ok_lid : id_ok lid;
  ok_fresh p : (w_next w <= p)%positive -> w_heap w !! p = None;
  ok_valid p : p ∈ nodes_ w -> node_valid lid (obj_of w p);
  ok_nodup : NoDup ((fun p => node_id (obj_of w p)) <$> nodes_ w);
  ok_map i p : node_id_map_ w !! i = Some p <-> p ∈ nodes_ w /\ node_id (obj_of w p) = i;
  ok_bucket b : (in_bucket w b (nodes_ w) <= Z.to_nat kKadParamK)%nat;
  ok_cap : RoutingMaxNodesSize_ w = kRoutingMaxNodesSize }.

(** What the invariant reads. *)
Definition core w :=
  (w_heap w, w_next w, nodes_ w, node_id_map_ w, local_key w, RoutingMaxNodesSize_ w).

Lemma table_ok_core lid w w' : core w = core w' -> table_ok lid w -> table_ok lid w'.
Proof.
  unfold core. intros [= Eh En El Em Ek Ec] [G1 G2 G3 G4 G5 G6 G7 G8].
  unfold obj_of, in_bucket, obj_of in *. split; unfold obj_of, in_bucket, obj_of;
    rewrite <- ?Eh, <- ?En, <- ?El, <- ?Em, <- ?Ek, <- ?Ec; auto.
Qed.

(** The constructor gives a well-formed, empty table. *)
Lemma table_ok_new t l k g cl m now sr rnd :
  ln_kadmlia_key l = Some k -> id_ok (key_Get k) ->
  table_ok (key_Get k) (RoutingTable_new t (Some l) g cl m now sr rnd).
Proof.
  intros Hk Hid. split; simpl; try done.
  - exists k. unfold local_key. simpl. by rewrite Hk.
  - by intros p Hp%elem_of_nil.
  - constructor.
  - intros i p. rewrite lookup_empty. split; [done|]. by intros [Hp%elem_of_nil _].
  - intros b. unfold in_bucket. simpl. lia.
Qed.

(** ** Reading *)

Lemma local_id_ok lid w : table_ok lid w -> local_id w = Ok (lid, w).
Proof.
  intros [(k & Hk & <-) _ _ _ _ _ _ _]. unfold local_key in Hk.
  destruct (local_node_ptr_ w) as [l|] eqn:El; [|done]. simpl in Hk.
  unfold local_id, local. msteps. rewrite El. msteps. unfold lift, LocalNodeInfo_id.
  simpl in Hk. by rewrite Hk.
Qed.

Lemma local_ok lid w : table_ok lid w -> exists l, local_node_ptr_ w = Some l /\ local w = Ok (l, w).
Proof.
  intros [(k & Hk & <-) _ _ _ _ _ _ _]. unfold local_key in Hk.
  destruct (local_node_ptr_ w) as [l|] eqn:El; [|done]. exists l. split; [done|].
  unfold local. msteps. by rewrite El.
Qed.

Lemma ok_id_inj lid w p q :
  table_ok lid w -> p ∈ nodes_ w -> q ∈ nodes_ w ->
  node_id (obj_of w p) = node_id (obj_of w q) -> p = q.
Proof.
  intros Hok Hp Hq E.
  assert (node_id_map_ w !! node_id (obj_of w p) = Some p) as E1 by (by apply (ok_map _ _ Hok)).
  assert (node_id_map_ w !! node_id (obj_of w q) = Some q) as E2 by (by apply (ok_map _ _ Hok)).
  rewrite E in E1. congruence.
Qed.

Lemma ok_alive lid w p : (0 < kNodeIdSize)%nat -> table_ok lid w -> p ∈ nodes_ w ->
  exists n, w_heap w !! p = Some n.
Proof.
  intros Hpos Hok Hp. destruct (ok_valid _ _ Hok p Hp) as (Hid & _).
  unfold obj_of, lookup_total, map_lookup_total in Hid.
  destruct (w_heap w !! p) as [n|]; [by exists n|]. unfold id_ok in Hid. simpl in Hid. lia.
Qed.

(** ** Frame lemmas *)

Lemma table_ok_perm lid w l :
  l ≡ₚ nodes_ w -> table_ok lid w -> table_ok lid (w <| nodes_ := l |>).
Proof.
  intros Hp [G1 G2 G3 G4 G5 G6 G7 G8].
  split; unfold obj_of, in_bucket, obj_of, local_key in *; simpl; try done.
  - intros p Hin. apply G4. by rewrite <- Hp.
  - by rewrite Hp.
  - intros i p. rewrite G6. by rewrite Hp.
  - intros b. by rewrite Hp.
Qed.

(** Two heaps that agree on the fields the invariant reads. *)
Definition vital n := (node_id n, nat_type n, public_ip n, public_port n, bucket_index n).

Lemma table_ok_heap lid w (h : gmap ptr NodeInfo) nx :
  (forall p, (nx <= p)%positive -> h !! p = None) ->
  (forall p, p ∈ nodes_ w -> vital (h !!! p) = vital (obj_of w p)) ->
  table_ok lid w -> table_ok lid (w <| w_heap := h |> <| w_next := nx |>).
Proof.
  intros Hf Hv [G1 G2 G3 G4 G5 G6 G7 G8].
  assert (forall p, p ∈ nodes_ w -> node_id (h !!! p) = node_id (obj_of w p)) as Hid
    by (intros p Hp; specialize (Hv p Hp); unfold vital in Hv; congruence).
  split; simpl; try done.
  - intros p Hp. unfold obj_of. simpl. specialize (G4 p Hp). specialize (Hv p Hp).
    unfold vital in Hv. injection Hv as E1 E2 E3 E4 E5. unfold node_valid in *.
    by rewrite E1, E2, E3, E4, E5.
  - rewrite (map_ext_elem _ (fun p => node_id (obj_of w p))); done.
  - intros i p. rewrite G6. unfold obj_of at 2. simpl. split; intros [Hp E]; (split; [done|]).
    + rewrite Hid by done. done.
    + rewrite <- Hid by done. done.
  - intros b. specialize (G7 b). unfold in_bucket in *. simpl.
    rewrite (filter_ext_in _ (fun p => bucket_index (obj_of w p) = b)); [done|].
    intros p Hp. specialize (Hv p Hp). unfold vital, obj_of in *. simpl. naive_solver.
Qed.

Lemma table_ok_mutate lid w p (f : NodeInfo -> NodeInfo) :
  (p ∈ nodes_ w -> vital (f (obj_of w p)) = vital (obj_of w p)) ->
  table_ok lid w -> table_ok lid (w <| w_heap ::= alter f p |>).
Proof.
  intros Hf Hok. change (table_ok lid (w <| w_heap := alter f p (w_heap w) |>)).
  apply (table_ok_core lid (w <| w_heap := alter f p (w_heap w) |> <| w_next := w_next w |>)); [done|].
  apply table_ok_heap; [| |done].
  - intros q Hq. rewrite lookup_alter_None. by apply (ok_fresh _ _ Hok).
  - intros q Hq. unfold obj_of. rewrite !lookup_total_alt.
    destruct (decide (p = q)) as [->|Hne]; [|by rewrite lookup_alter_ne].
    rewrite lookup_alter_eq. specialize (Hf Hq). unfold obj_of in Hf. rewrite lookup_total_alt in Hf.
    by destruct (w_heap w !! q).
Qed.

Lemma table_ok_alloc lid w n :
  table_ok lid w -> table_ok lid (w <| w_heap ::= <[w_next w := n]> |> <| w_next ::= Pos.succ |>).
Proof.
  intros Hok.
  apply (table_ok_core lid (w <| w_heap := <[w_next w := n]> (w_heap w) |>
    <| w_next := Pos.succ (w_next w) |>)); [done|].
  apply table_ok_heap; [| |done].
  - intros q Hq. rewrite lookup_insert_ne by lia. apply (ok_fresh _ _ Hok). lia.
  - intros q Hq. unfold obj_of. rewrite lookup_total_insert_ne; [done|]. intros <-.
    destruct (ok_valid _ _ Hok _ Hq) as (_ & _ & Hnat & _). apply Hnat.
    unfold obj_of. rewrite lookup_total_alt, (ok_fresh _ _ Hok) by lia. done.
Qed.

(** ** Sorting *)

Definition nearer w (target : string) p q : bool :=
  (xor_distance (node_id (obj_of w p)) target <? xor_distance (node_id (obj_of w q)) target)%N.

Context `{PartialSort} `{!PartialSortLaws}.
#[local] Set Default Proof Using "Type*".

Lemma set_nodes_same w : w <| nodes_ := nodes_ w |> = w.
Proof. by destruct w. Qed.

Lemma cmp_xid_computes w target :
  (forall p, p ∈ nodes_ w -> id_ok (node_id (obj_of w p))) -> id_ok target ->
  computes_on (cmp_xid w target) (nearer w target) (nodes_ w).
Proof. intros Hid Ht p q Hp Hq. apply closer_correct; auto. Qed.

Lemma sort_valid_spec w target number :
  (forall p, p ∈ nodes_ w -> id_ok (node_id (obj_of w p))) -> id_ok target ->
  exists l,
    SortNodesByTargetXid target number w =
      Ok (Z.max 0 (Z.min number (Z.of_nat (length (nodes_ w)))), w <| nodes_ := l |>) /\
    l ≡ₚ nodes_ w /\ sorted_prefix (nearer w target) (Z.to_nat number) l.
Proof.
  intros Hid Ht. unfold SortNodesByTargetXid, sort_nodes. msteps. simpl.
  destruct (Z.leb_spec (Z.min number (Z.of_nat (length (nodes_ w)))) 0) as [Hle|Hgt].
  - exists (nodes_ w). rewrite set_nodes_same, Z.max_l by lia. split; [done|]. split; [done|].
    intros i j x y Hij Hi Ex Ey. apply lookup_lt_Some in Ey. lia.
  - destruct (partial_sort_ok _ _ (Z.to_nat (Z.min number (Z.of_nat (length (nodes_ w)))))
      _ (cmp_xid_computes w target Hid Ht)) as (l & E & Hp & Hs).
    { apply strict_weak_ltb. }
    exists l. rewrite E. msteps. rewrite Z.max_r by lia. split; [done|]. split; [done|].
    intros i j x y Hij Hi Ex Ey. apply (Hs i j x y); try done.
    apply lookup_lt_Some in Ey. rewrite Hp in Ey. lia.
Qed.

Lemma sort_xid_spec lid w target number :
  table_ok lid w -> id_ok target ->
  exists l,
    SortNodesByTargetXid target number w =
      Ok (Z.max 0 (Z.min number (Z.of_nat (length (nodes_ w)))), w <| nodes_ := l |>) /\
    l ≡ₚ nodes_ w /\ sorted_prefix (nearer w target) (Z.to_nat number) l.
Proof. intros Hok Ht. apply sort_valid_spec; [|done]. intros p Hp. by apply (ok_valid _ _ Hok). Qed.

(** ** Insertion *)

Lemma lookup_obj_alter w p (f : NodeInfo -> NodeInfo) :
  is_Some (w_heap w !! p) -> obj_of (w <| w_heap ::= alter f p |>) p = f (obj_of w p).
Proof.
  intros [n E]. unfold obj_of. simpl. rewrite !lookup_total_alt, lookup_alter_eq, E. done.
Qed.

(** What AddNode decides for a node with the data [n]. *)
Definition acceptable (lid : string) n : bool :=
  negb (nat_type n =? kNatTypeUnknown) && (negb (node_id n =? lid)%string &&
  ((String.length (node_id n) =? kNodeIdSize)%nat &&
   negb (str_empty (public_ip n) || (public_port n <=? 0)))).

Definition bucket_of (lid : string) n : Z := Z.of_N (N.size (xor_distance lid (node_id n))).

Definition has_id w (i : string) : bool :=
  match node_id_map_ w !! i with Some _ => true | None => false end.

Definition has_room (lid : string) w n : bool :=
  negb (kKadParamK <=? Z.of_nat (in_bucket w (bucket_of lid n) (nodes_ w))).

(** The state after SetNodeBucket and the sort. *)
Definition set_bucket (b : Z) p w : World :=
  w <| w_heap ::= alter (fun n => n <| bucket_index := b |>) p |>.

Lemma acceptable_true lid n :
  acceptable lid n = true ->
  nat_type n <> kNatTypeUnknown /\ node_id n <> lid /\ id_ok (node_id n) /\
  str_empty (public_ip n) = false /\ 0 < public_port n.
Proof. unfold acceptable, id_ok. intros Ha. bool_props. repeat split; auto; lia. Qed.

Lemma acceptable_allocated lid w p :
  (0 < kNodeIdSize)%nat -> acceptable lid (obj_of w p) = true -> is_Some (w_heap w !! p).
Proof.
  intros Hpos (_ & _ & Hid & _)%acceptable_true. unfold obj_of in Hid.
  rewrite lookup_total_alt in Hid. destruct (w_heap w !! p); [done|].
  unfold id_ok in Hid. simpl in Hid. lia.
Qed.

Lemma SetNodeBucket_runs lid w p :
  local_id w = Ok (lid, w) -> id_ok lid ->
  id_ok (node_id (obj_of w p)) -> node_id (obj_of w p) <> lid ->
  SetNodeBucket p w = Ok (kKadSuccess, set_bucket (bucket_of lid (obj_of w p)) p w).
Proof.
  intros Hl Hlid Hid Hne. unfold SetNodeBucket.
  rewrite (step_bind _ _ _ _ _ Hl). unfold obj. msteps.
  rewrite bucket_scan_spec by done.
  rewrite decide_False by done. msteps. unfold mutate. by msteps.
Qed.

Lemma SetNodeBucket_spec lid w p :
  table_ok lid w -> id_ok (node_id (obj_of w p)) -> node_id (obj_of w p) <> lid ->
  SetNodeBucket p w = Ok (kKadSuccess, set_bucket (bucket_of lid (obj_of w p)) p w).
Proof.
  intros Hok. apply SetNodeBucket_runs; [by apply local_id_ok|apply (ok_lid _ _ Hok)].
Qed.

Lemma in_bucket_perm w b l l' : l ≡ₚ l' -> in_bucket w b l = in_bucket w b l'.
Proof. intros Hp. unfold in_bucket. by rewrite Hp. Qed.

Lemma nodes_size_spec w : nodes_size w = Ok (Z.of_nat (length (nodes_ w)), w).
Proof. done. Qed.

Lemma HasNode_spec w p : HasNode p w = Ok (has_id w (node_id (obj_of w p)), w).
Proof. done. Qed.

Lemma ValidNode_spec w p :
  ValidNode p w =
  Ok ((String.length (node_id (obj_of w p)) =? kNodeIdSize)%nat &&
      negb (str_empty (public_ip (obj_of w p)) || (public_port (obj_of w p) <=? 0)), w).
Proof.
  unfold ValidNode, obj. msteps.
  destruct (_ =? _)%nat; cbn [negb andb]; [|done].
  by destruct (str_empty _ || _).
Qed.

(** The nodes of the table keep their data when [p] is not one of them. *)
Lemma set_bucket_obj b p q w : p <> q -> obj_of (set_bucket b p w) q = obj_of w q.
Proof.
  intros Hne. unfold obj_of, set_bucket. simpl. by rewrite lookup_total_alter_ne.
Qed.

Lemma in_bucket_set_bucket b p c l w :
  p ∉ l -> in_bucket (set_bucket b p w) c l = in_bucket w c l.
Proof.
  intros Hp. unfold in_bucket. f_equal. apply filter_ext_in. intros q Hq.
  rewrite set_bucket_obj; [done|]. intros <-. done.
Qed.

(** The common prefix of AddNode and CanAddNode: bucket, sort, room. *)
Lemma place_node lid w p :
  (0 < kNodeIdSize)%nat -> table_ok lid w -> acceptable lid (obj_of w p) = true ->
  has_id w (node_id (obj_of w p)) = false ->
  let b := bucket_of lid (obj_of w p) in
  let w1 := set_bucket b p w in
  SetNodeBucket p w = Ok (kKadSuccess, w1) /\
  exists l, l ≡ₚ nodes_ w /\ p ∉ l /\
    (exists c, SortNodesByTargetXid lid (Z.of_nat (length (nodes_ w))) w1 = Ok (c, w1 <| nodes_ := l |>)) /\
    table_ok lid (w1 <| nodes_ := l |>) /\
    (forall r, NewNodeReplaceOldNode p r (w1 <| nodes_ := l |>) =
             Ok (has_room lid w (obj_of w p), w1 <| nodes_ := l |>)).
Proof.
  intros Hpos Hok Ha Hh b w1. pose proof (acceptable_allocated _ _ _ Hpos Ha) as Hall.
  destruct (acceptable_true _ _ Ha) as (Hnat & Hne & Hid & Hip & Hport).
  assert (p ∉ nodes_ w) as Hp.
  { intros Hin. unfold has_id in Hh.
    by rewrite (proj2 (ok_map _ _ Hok (node_id (obj_of w p)) p) (conj Hin eq_refl)) in Hh. }
  split; [by apply SetNodeBucket_spec|].
  assert (table_ok lid w1) as Hok1 by (apply table_ok_mutate; [done|done]).
  destruct (sort_xid_spec lid w1 lid (Z.of_nat (length (nodes_ w)))) as (l & E & Hl & _);
    [done|apply (ok_lid _ _ Hok)|].
  change (nodes_ w1) with (nodes_ w) in Hl.
  exists l. split; [done|]. split; [by rewrite Hl|]. split; [by eexists|].
  split; [by apply table_ok_perm|]. intros r.
  unfold NewNodeReplaceOldNode. msteps. simpl.
  match goal with |- context [filter ?P l] =>
    rewrite (filter_ext_in P (fun q => bucket_index (obj_of w1 q) = b) l) end.
  - change (length _) with (in_bucket w1 b l). rewrite (in_bucket_perm _ _ _ _ Hl).
    unfold w1. by rewrite in_bucket_set_bucket.
  - intros q Hq. change (obj_of (w1 <| nodes_ := l |>) q) with (obj_of w1 q).
    change (obj_of (w1 <| nodes_ := l |>) p) with (obj_of w1 p).
    unfold w1, set_bucket at 2. rewrite lookup_obj_alter by done. done.
Qed.

Definition add_code (lid : string) w n : Z :=
  if negb (acceptable lid n) then kKadFailed
  else if has_id w (node_id n) then kKadNodeHasAdded
  else if has_room lid w n then kKadSuccess else kKadFailed.

Lemma CanAddNode_spec lid w p :
  (0 < kNodeIdSize)%nat -> NoDup [kKadSuccess; kKadFailed] ->
  table_ok lid w ->
  let n := obj_of w p in
  exists w', CanAddNode p w =
      Ok (acceptable lid n && negb (has_id w (node_id n)) && has_room lid w n, w') /\
    table_ok lid w' /\ nodes_ w' ≡ₚ nodes_ w /\ node_id_map_ w' = node_id_map_ w /\
    add_code lid w' (obj_of w' p) = add_code lid w n.
Proof.
  intros Hpos Hcodes Hok n. unfold CanAddNode, obj. msteps.
  change (obj_of w p) with n. unfold acceptable.
  destruct (Z.eqb_spec (nat_type n) kNatTypeUnknown) as [E1|E1]; [by exists w|].
  rewrite (step_bind _ _ _ _ _ (local_id_ok lid w Hok)).
  destruct (String.eqb_spec (node_id n) lid) as [E2|E2]; [by exists w|].
  rewrite (step_bind _ _ _ _ _ (ValidNode_spec w p)). change (obj_of w p) with n.
  cbn [negb andb].
  destruct ((_ =? _)%nat && _) eqn:E3; cbn [negb andb]; [|by exists w].
  rewrite (step_bind _ _ _ _ _ (HasNode_spec w p)). change (obj_of w p) with n.
  destruct (has_id w (node_id n)) eqn:E4; cbn [negb]; [by exists w|].
  assert (acceptable lid (obj_of w p) = true) as Hacc.
  { unfold acceptable. fold n. rewrite E3.
    by rewrite (proj2 (Z.eqb_neq _ _) E1), (proj2 (String.eqb_neq _ _) E2). }
  destruct (place_node lid w p) as (Eb & l & Hl & Hp & (c & Es) & Hok' & Er); try done.
  rewrite (step_bind _ _ _ _ _ Eb), Z.eqb_refl. cbn [negb].
  rewrite (step_bind _ _ _ _ _ (nodes_size_spec _)).
  change (nodes_ (set_bucket _ p w)) with (nodes_ w).
  rewrite (step_bind _ _ _ _ _ Es), Er. eexists. split; [done|]. simpl.
  split; [done|]. split; [done|]. split; [done|].
  pose proof (acceptable_allocated _ _ _ Hpos Hacc) as Hall.
  set (w1 := set_bucket (bucket_of lid (obj_of w p)) p w) in *.
  change (obj_of (w1 <| nodes_ := l |>) p) with (obj_of w1 p).
  assert (obj_of w1 p = n <| bucket_index := bucket_of lid n |>) as -> by (by apply lookup_obj_alter).
  unfold add_code. change (acceptable lid (n <| bucket_index := _ |>)) with (acceptable lid n).
  change (has_id (w1 <| nodes_ := l |>) _) with (has_id w (node_id n)). unfold has_room.
  change (bucket_of lid (n <| bucket_index := _ |>)) with (bucket_of lid n).
  change (in_bucket (w1 <| nodes_ := l |>)) with (in_bucket w1). simpl nodes_.
  rewrite <- (in_bucket_set_bucket (bucket_of lid (obj_of w p)) p _ (nodes_ w)) by (by rewrite <- Hl).
  by rewrite (in_bucket_perm _ _ _ _ Hl).
Qed.

Lemma table_ok_push lid w p :
  table_ok lid w -> is_Some (w_heap w !! p) -> node_valid lid (obj_of w p) ->
  node_id_map_ w !! node_id (obj_of w p) = None ->
  (in_bucket w (bucket_index (obj_of w p)) (nodes_ w) < Z.to_nat kKadParamK)%nat ->
  table_ok lid (w <| nodes_ ::= fun l => l ++ [p] |>
                  <| node_id_map_ ::= <[node_id (obj_of w p) := p]> |>).
Proof.
  intros Hok Hall Hv Hm Hb. pose proof Hok as [G1 G2 G3 G4 G5 G6 G7 G8].
  assert (forall q, q ∈ nodes_ w -> node_id (obj_of w q) <> node_id (obj_of w p)) as Hnew.
  { intros q Hq E. rewrite (proj2 (G6 _ q) (conj Hq E)) in Hm. done. }
  split; try done.
  - intros q [Hq|Hq%list_elem_of_singleton]%elem_of_app; [by apply G4|by subst q].
  - simpl. rewrite fmap_app. apply NoDup_app. split; [done|].
    split; [|apply NoDup_singleton].
    intros i (q & -> & Hq)%list_elem_of_fmap E%list_elem_of_singleton. by apply (Hnew q).
  - intros i q. simpl. rewrite lookup_insert_Some, elem_of_app, list_elem_of_singleton.
    change (node_id (obj_of _ q)) with (node_id (obj_of w q)).
    rewrite G6. split.
    + intros [[<- <-]|[Hne [Hq E]]]; [by split; [right|]|by split; [left|]].
    + intros [[Hq| ->] E]; [|by left]. right. split; [|done]. intros <-. by apply (Hnew q).
  - intros b. unfold in_bucket. simpl. rewrite filter_app, length_app. specialize (G7 b).
    unfold in_bucket in G7, Hb. rewrite filter_cons, filter_nil.
    change (obj_of (upd _ _ _)) with (obj_of w).
    case_decide as E; [rewrite <- E|]; simpl; lia.
Qed.

Lemma AddNode_spec lid w p :
  (0 < kNodeIdSize)%nat -> kKadSuccess <> kKadFailed -> kKadSuccess <> kKadNodeHasAdded ->
  table_ok lid w ->
  let n := obj_of w p in
  exists w', AddNode p w = Ok (add_code lid w n, w') /\ table_ok lid w' /\
    (if add_code lid w n =? kKadSuccess then
       nodes_ w' ≡ₚ p :: nodes_ w /\ node_id_map_ w' = <[node_id n := p]> (node_id_map_ w) /\
       no_lock_for_use_nodes_ w' = Some (nodes_ w') /\ is_Some (node_hash_map_ w' !! hash64 n)
     else nodes_ w' ≡ₚ nodes_ w /\ node_id_map_ w' = node_id_map_ w /\
          node_hash_map_ w' = node_hash_map_ w).
Proof.
  intros Hpos Hc1 Hc2 Hok n. unfold AddNode, obj. msteps. change (obj_of w p) with n.
  unfold add_code, acceptable.
  pose proof (proj2 (Z.eqb_neq _ _) (not_eq_sym Hc1)) as Hf.
  pose proof (proj2 (Z.eqb_neq _ _) (not_eq_sym Hc2)) as Ha.
  destruct (Z.eqb_spec (nat_type n) kNatTypeUnknown) as [E1|E1]; [by exists w; cbn; rewrite Hf|].
  rewrite (step_bind _ _ _ _ _ (local_id_ok lid w Hok)).
  destruct (String.eqb_spec (node_id n) lid) as [E2|E2]; [by exists w; cbn; rewrite Hf|].
  rewrite (step_bind _ _ _ _ _ (ValidNode_spec w p)). change (obj_of w p) with n.
  cbn [negb andb].
  destruct ((_ =? _)%nat && _) eqn:E3; cbn [negb]; [|by exists w; rewrite Hf].
  rewrite (step_bind _ _ _ _ _ (HasNode_spec w p)). change (obj_of w p) with n.
  destruct (has_id w (node_id n)) eqn:E4; [by exists w; rewrite Ha|].
  assert (acceptable lid (obj_of w p) = true) as Hacc.
  { unfold acceptable. fold n. rewrite E3.
    by rewrite (proj2 (Z.eqb_neq _ _) E1), (proj2 (String.eqb_neq _ _) E2). }
  destruct (place_node lid w p) as (Eb & l & Hl & Hp & (c & Es) & Hok' & Er); try done.
  rewrite (step_bind _ _ _ _ _ Eb), Z.eqb_refl. cbn [negb].
  rewrite (step_bind _ _ _ _ _ (nodes_size_spec _)).
  change (nodes_ (set_bucket _ p w)) with (nodes_ w).
  rewrite (step_bind _ _ _ _ _ Es), (step_bind _ _ _ _ _ (Er true)). fold n.
  destruct (has_room lid w n) eqn:E5; cbn [negb]; [|by eexists; split; [done|]; rewrite Hf].
  set (w2 := (set_bucket (bucket_of lid (obj_of w p)) p w) <| nodes_ := l |>) in *.
  rewrite Z.eqb_refl.
  pose proof (acceptable_allocated _ _ _ Hpos Hacc) as Hall.
  assert (obj_of w2 p = n <| bucket_index := bucket_of lid n |>) as Eo
    by (by apply lookup_obj_alter).
  rewrite (step_bind _ _ _ _ _ (HasNode_spec w2 p)), Eo.
  change (has_id w2 _) with (has_id w (node_id n)). rewrite E4.
  msteps. change (obj_of (upd _ _ w2) p) with (obj_of w2 p). rewrite Eo. cbn [node_id hash64].
  unfold refresh_unlocked, nodes. msteps. eexists. split; [done|].
  assert (node_id_map_ w2 !! node_id n = None) as Hm.
  { unfold has_id in E4. simpl. by destruct (node_id_map_ w !! node_id n). }
  split; [|split; [|split; [|split; [done|]]]].
  - eapply table_ok_core; [|apply (table_ok_push lid w2 p Hok')].
    + rewrite Eo. unfold core. cbn. change (node_id_map_ w2) with (node_id_map_ w) in Hm.
      by rewrite Hm.
    + unfold w2, set_bucket. simpl. rewrite lookup_alter_eq. by destruct Hall as [? ->].
    + rewrite Eo. destruct (acceptable_true _ _ Hacc) as (? & ? & ? & ? & ?). by repeat split.
    + by rewrite Eo.
    + rewrite Eo. simpl. rewrite (in_bucket_perm _ _ _ _ Hl).
      change (in_bucket w2) with (in_bucket (set_bucket (bucket_of lid (obj_of w p)) p w)).
      rewrite in_bucket_set_bucket by (by rewrite <- Hl). unfold has_room in E5. bool_props. lia.
  - simpl. by rewrite Hl, Permutation_app_comm.
  - cbn. change (node_id_map_ w2) with (node_id_map_ w) in Hm. by rewrite Hm.
  - simpl. destruct (node_hash_map_ w !! hash64 n) eqn:Eh; [by rewrite Eh|].
    by rewrite lookup_insert_eq.
Qed.

(** ** The size of the table *)

Lemma pigeonhole (f : ptr -> Z) (k m : nat) (l : list ptr) :
  (forall p, p ∈ l -> 1 <= f p <= Z.of_nat m) ->
  (forall b, (length (filter (fun p => f p = b) l) <= k)%nat) ->
  (length l <= m * k)%nat.
Proof.
  revert l. induction m as [|m IH]; intros l Hr Hk.
  { destruct l as [|x l]; [done|]. specialize (Hr x ltac:(left)). lia. }
  assert (length l = length (filter (fun p => f p = Z.of_nat (S m)) l) +
                     length (filter (fun p => f p <> Z.of_nat (S m)) l))%nat as ->.
  { clear. induction l as [|x l IH]; [done|]. rewrite !filter_cons.
    destruct (decide (f x = Z.of_nat (S m))); rewrite ?(decide_False (P := f x <> _)) by tauto;
      rewrite ?(decide_True (P := f x <> _)) by done; simpl; lia. }
  specialize (IH (filter (fun p => f p <> Z.of_nat (S m)) l)).
  assert (length (filter (fun p => f p <> Z.of_nat (S m)) l) <= m * k)%nat; [|specialize (Hk (Z.of_nat (S m))); lia].
  apply IH.
  - intros p [Hne Hp]%list_elem_of_filter. specialize (Hr p Hp). lia.
  - intros b. specialize (Hk b). etrans; [|exact Hk]. clear.
    induction l as [|x l IH]; [done|]. rewrite !filter_cons.
    destruct (decide (f x <> _)); rewrite ?filter_cons; destruct (decide (f x = b)); simpl; lia.
Qed.

Lemma valid_size lid w :
  id_ok lid -> (forall p, p ∈ nodes_ w -> node_valid lid (obj_of w p)) ->
  (forall b, (in_bucket w b (nodes_ w) <= Z.to_nat kKadParamK)%nat) ->
  Z.of_nat (length (nodes_ w)) <= kRoutingMaxNodesSize.
Proof.
  intros Hlid Hv Hb. unfold kRoutingMaxNodesSize.
  pose proof (pigeonhole (fun p => bucket_index (obj_of w p)) (Z.to_nat kKadParamK)
    (8 * kNodeIdSize) (nodes_ w)) as Hp.
  unfold kKadParamK in *.
  assert (length (nodes_ w) <= (8 * kNodeIdSize) * Z.to_nat 8)%nat; [|lia].
  apply Hp; [|apply Hb].
  intros p Hin. destruct (Hv p Hin) as (Hid & Hne & _ & _ & _ & ->).
  pose proof (bucket_range lid _ Hlid Hid (not_eq_sym Hne)). lia.
Qed.

Lemma table_size lid w :
  table_ok lid w -> Z.of_nat (length (nodes_ w)) <= RoutingMaxNodesSize_ w.
Proof.
  intros Hok. rewrite (ok_cap _ _ Hok). by apply (valid_size lid w); apply Hok.
Qed.

(** ** Removal *)

Lemma filter_none (f : ptr -> string) i (l : list ptr) :
  i ∉ f <$> l -> filter (fun p => f p <> i) l = l.
Proof.
  induction l as [|x l IH]; intros Hi; [done|]. rewrite filter_cons.
  rewrite decide_True.
  - f_equal. apply IH. intros Hin. apply Hi. by right.
  - intros E. apply Hi. rewrite <- E. left.
Qed.

Lemma erase_first_filter (f : ptr -> string) i (l : list ptr) :
  NoDup (f <$> l) ->
  erase_first (fun p => (f p =? i)%string) l = filter (fun p => f p <> i) l.
Proof.
  induction l as [|x l IH]; intros Hn; [done|]. apply NoDup_cons in Hn as [Hx Hn].
  simpl. rewrite filter_cons. destruct (String.eqb_spec (f x) i) as [E|Hne]; case_decide as Hd; try done.
  - rewrite filter_none; [done|]. by rewrite <- E.
  - f_equal. by apply IH.
Qed.

Lemma in_bucket_filter w b (P : ptr -> Prop) `{!forall x, Decision (P x)} l :
  (in_bucket w b (filter P l) <= in_bucket w b l)%nat.
Proof.
  unfold in_bucket. induction l as [|x l IH]; [done|]. rewrite !filter_cons.
  destruct (decide (P x)).
  - rewrite filter_cons. destruct (decide (bucket_index _ = b)); simpl; lia.
  - destruct (decide (bucket_index _ = b)); simpl; lia.
Qed.

Definition without w (i : string) : list ptr :=
  filter (fun q => node_id (obj_of w q) <> i) (nodes_ w).

Lemma table_ok_drop lid w i :
  table_ok lid w ->
  table_ok lid (w <| nodes_ := without w i |> <| node_id_map_ ::= delete i |>).
Proof.
  intros [G1 G2 G3 G4 G5 G6 G7 G8]. split; try done.
  - intros q [_ Hq]%list_elem_of_filter. by apply G4.
  - by apply NoDup_fmap_filter.
  - intros j q. simpl. rewrite lookup_delete_Some, G6. unfold without.
    rewrite list_elem_of_filter. change (obj_of (upd _ _ _)) with (obj_of w).
    split; [intros [Hne [Hq <-]]; split; [split; [congruence|done]|done]|].
    intros [[Hne Hq] <-]. split; [congruence|done].
  - intros b. simpl. eapply Nat.le_trans; [apply in_bucket_filter|]. apply G7.
Qed.

Definition freeze (x : string) (o : option (list string)) : option (list string) :=
  (fun l => l ++ [x]) <$> o.

Lemma DropNode_spec lid w p :
  table_ok lid w ->
  let n := obj_of w p in
  exists w', DropNode p w = Ok (kKadSuccess, w') /\ table_ok lid w' /\
    w_heap w' = w_heap w /\
    nodes_ w' = without w (node_id n) /\ node_id_map_ w' = delete (node_id n) (node_id_map_ w) /\
    node_hash_map_ w' = delete (hash64 n) (node_hash_map_ w) /\
    no_lock_for_use_nodes_ w' = Some (nodes_ w') /\
    local_node_ptr_ w' = DropDxip (node_id n) <$> local_node_ptr_ w /\
    security_frozen w' = freeze (xid n) (security_frozen w).
Proof.
  intros Hok n. unfold DropNode, obj. msteps. change (obj_of w p) with n.
  destruct (local_ok lid w Hok) as (l & El & _).
  unfold local. msteps.
  change (local_node_ptr_ (upd _ _ (upd _ _ (upd _ _ w)))) with (local_node_ptr_ w).
  rewrite El. msteps. unfold set_local, refresh_unlocked, nodes. msteps.
  eexists. split; [done|].
  assert (erase_first (fun q => (node_id (obj_of w q) =? node_id n)%string) (nodes_ w) =
          without w (node_id n)) as Ee by (apply erase_first_filter, (ok_nodup _ _ Hok)).
  split; [|by cbn; rewrite Ee, El].
  eapply table_ok_core; [|apply (table_ok_drop lid w (node_id n) Hok)].
  assert (ln_kadmlia_key (DropDxip (node_id n) l) = ln_kadmlia_key l) as Ek
    by (destruct (DropDxip_frame (node_id n) l) as (? & ? & ->); done).
  unfold core, local_key. cbn. rewrite Ee, El. cbn. by rewrite Ek.
Qed.


(** Removing a list of nodes one after the other. *)
Lemma DropNodes_ok lid (l : list ptr) w :
  table_ok lid w ->
  exists w', for_each l (fun p => _ ← DropNode p; mret tt) w = Ok (tt, w') /\ table_ok lid w' /\
    w_heap w' = w_heap w /\
    forall q, q ∈ nodes_ w' <->
      q ∈ nodes_ w /\ forall p, p ∈ l -> node_id (obj_of w p) <> node_id (obj_of w q).
Proof.
  revert w. induction l as [|p l IH]; intros w Hok.
  { exists w. split; [done|]. split; [done|]. split; [done|]. intros q.
    split; [intros Hq; split; [done|]; by intros p Hp%elem_of_nil|by intros []]. }
  destruct (DropNode_spec lid w p Hok) as (w1 & E1 & Hok1 & Eh & El & _).
  destruct (IH w1 Hok1) as (w2 & E2 & Hok2 & Eh2 & Hq). exists w2.
  assert (obj_of w1 = obj_of w) as Eo by (unfold obj_of; by rewrite Eh).
  split; [|split; [done|split; [congruence|]]].
  - cbn [for_each]. mstep. by rewrite (step_bind _ _ _ _ _ E1).
  - intros q. rewrite Hq, El, Eo. unfold without. rewrite list_elem_of_filter.
    split.
    + intros [[Hne Hin] Hl]. split; [done|]. intros p' [->|Hp']%elem_of_cons; [congruence|auto].
    + intros [Hin Hl]. split; [split; [|done]|].
      * intros E. by apply (Hl p); [left|].
      * intros p' Hp'. apply Hl. by right.
Qed.

(** ** Nearest nodes *)

(** [l] lists nodes of the table, nearest to [target] first, and no node of
    the table outside [l] is nearer than one inside. *)
Definition nearest w (target : string) (l : list ptr) : Prop :=
  (exists rest, l ++ rest ≡ₚ nodes_ w /\
     forall p q, p ∈ l -> q ∈ rest -> nearer w target q p = false) /\
  (forall i j p q, (i < j)%nat -> l !! i = Some p -> l !! j = Some q -> nearer w target q p = false).

Lemma GetClosestNodes_spec lid w target number :
  table_ok lid w -> id_ok target -> 0 <= number < 2 ^ 31 ->
  exists l w',
    GetClosestNodes target number false w = Ok (l, w') /\ table_ok lid w' /\
    (exists l0, w' = w <| nodes_ := l0 |> /\ l0 ≡ₚ nodes_ w) /\
    length l = Nat.min (Z.to_nat number) (length (nodes_ w)) /\ nearest w target l.
Proof.
  intros Hok Ht Hnum. unfold GetClosestNodes. rewrite i32_id by lia.
  destruct (Z.eqb_spec number 0) as [->|Hn0].
  { exists [], w. split; [done|]. split; [done|]. split; [exists (nodes_ w); by rewrite set_nodes_same|].
    split; [done|]. split; [|intros i j p q _ Hi; by rewrite lookup_nil in Hi].
    exists (nodes_ w). split; [done|]. by intros p q Hp%elem_of_nil. }
  destruct (sort_xid_spec lid w target number Hok Ht) as (l & E & Hl & Hs).
  rewrite (step_bind _ _ _ _ _ E).
  set (count := Z.max 0 (Z.min number (Z.of_nat (length (nodes_ w))))).
  assert (Z.to_nat count = Nat.min (Z.to_nat number) (length (nodes_ w))) as Hc by lia.
  assert (length l = length (nodes_ w)) as Hlen by (by rewrite Hl).
  set (w1 := w <| nodes_ := l |>).
  assert (table_ok lid w1) as Hok1 by (by apply table_ok_perm).
  assert (nearest w target (take (Z.to_nat count) l)) as Hnear.
  { split.
    - exists (drop (Z.to_nat count) l). rewrite take_drop. split; [done|].
      intros p q Hp Hq. destruct (decide (Z.to_nat count = Z.to_nat number)) as [Ec|Ec].
      + rewrite Ec in *. by eapply sorted_prefix_take.
      + rewrite drop_ge in Hq by lia. by apply elem_of_nil in Hq.
    - intros i j p q Hij [Ep Hi]%lookup_take_Some [Eq Hj]%lookup_take_Some.
      apply (Hs i j p q); try done. lia. }
  destruct (Z.eqb_spec count 0) as [Hz|Hz].
  - exists [], w1. split; [done|]. split; [done|]. split; [by exists l|].
    rewrite Hz in Hnear, Hc. split; [simpl; lia|done].
  - exists (take (Z.to_nat count) l), w1. unfold nodes. msteps.
    split; [done|]. split; [done|]. split; [by exists l|].
    rewrite length_take. split; [lia|done].
Qed.

(** GetClosestNode, asked for the table's capacity: the nearest node of the
    whole table outside [exclude]. *)
Lemma GetClosestNode_spec lid w target ns exclude :
  table_ok lid w -> id_ok target -> Z.of_nat (length (nodes_ w)) <= RoutingMaxNodesSize_ w < 2 ^ 31 ->
  exists r w',
    GetClosestNode target ns exclude false w = Ok (r, w') /\ table_ok lid w' /\
    (exists l0, w' = w <| nodes_ := l0 |> /\ l0 ≡ₚ nodes_ w) /\
    match r with
    | Some p => p ∈ nodes_ w /\ node_id (obj_of w p) ∉ exclude /\
        forall q, q ∈ nodes_ w -> node_id (obj_of w q) ∉ exclude -> nearer w target q p = false
    | None => forall q, q ∈ nodes_ w -> node_id (obj_of w q) ∈ exclude
    end.
Proof.
  intros Hok Ht Hcap. unfold GetClosestNode. mstep.
  destruct (GetClosestNodes_spec lid w target (RoutingMaxNodesSize_ w) Hok Ht)
    as (l & w' & E & Hok' & Hw & Hlen & [(rest & Hrest & _) Hs]); [lia|].
  rewrite (step_bind _ _ _ _ _ E), (step_bind _ _ _ _ _ (local_id_ok lid w' Hok')). msteps.
  destruct Hw as (l0 & -> & Hl0).
  assert (l ≡ₚ nodes_ w) as Hl.
  { assert (length rest = 0)%nat as Hz; [|destruct rest; [|done]; by rewrite app_nil_r in Hrest].
    apply Permutation_length in Hrest. rewrite length_app in Hrest. lia. }
  eexists _, _. split; [done|]. split; [done|]. split; [by exists l0|].
  assert (forall q, q ∈ nodes_ w -> negb (ns && (node_id (obj_of w q) =? lid)%string) = true) as Hns.
  { intros q Hq. destruct (String.eqb_spec (node_id (obj_of w q)) lid) as [E'|]; [|by rewrite andb_false_r].
    by destruct (ok_valid _ _ Hok q Hq) as (_ & Hne & _). }
  change (obj_of (w <| nodes_ := l0 |>)) with (obj_of w). destruct (List.find _ l) as [p|] eqn:Ef.
  - assert (exists l1 l2, l = l1 ++ p :: l2 /\
      forall q, q ∈ l1 -> node_id (obj_of w q) ∈ exclude) as (l1 & l2 & -> & Hl1).
    { clear -Ef Hns Hl. assert (forall q, q ∈ l -> q ∈ nodes_ w) as Hin by (intros q; by rewrite Hl).
      clear Hl. induction l as [|x l IH]; [done|]. cbn [List.find] in Ef.
      rewrite Hns in Ef by (apply Hin; left). cbn [andb] in Ef.
      destruct (bool_decide (node_id (obj_of w x) ∈ exclude)) eqn:Ex; cbn [negb] in Ef.
      - destruct IH as (l1 & l2 & -> & Hl1); [done|intros q Hq; apply Hin; by right|].
        exists (x :: l1), l2. split; [done|]. intros q [->|Hq]%elem_of_cons; [|by apply Hl1].
        by apply bool_decide_eq_true in Ex.
      - injection Ef as ->. exists [], l. split; [done|]. by intros q Hq%elem_of_nil. }
    apply List.find_some in Ef as [Hin Hp]. apply list_elem_of_In in Hin.
    assert (p ∈ nodes_ w) as Hpn by (by rewrite <- Hl).
    rewrite Hns in Hp by done. cbn [andb] in Hp. bool_props.
    split; [done|]. split; [done|]. intros q Hq Hqe. rewrite <- Hl in Hq.
    apply elem_of_app in Hq as [Hq|[->|Hq]%elem_of_cons].
    + by apply Hl1 in Hq.
    + unfold nearer. apply N.ltb_irrefl.
    + apply list_elem_of_lookup in Hq as [j Hj].
      apply (Hs (length l1) (length l1 + S j)%nat); [lia|by apply list_lookup_middle|].
      rewrite lookup_app_r by lia. by replace (length l1 + S j - length l1)%nat with (S j) by lia.
  - intros q Hq. rewrite <- Hl in Hq. apply list_elem_of_In in Hq.
    pose proof (List.find_none _ _ Ef q Hq) as Hf. cbv beta in Hf.
    apply list_elem_of_In in Hq. rewrite Hl in Hq. rewrite Hns in Hf by done.
    cbn [andb] in Hf. by bool_props.
Qed.
End table_facts.
