(* ===== verification/TableProps.v ===== *)
(** The properties of the routing table's container operations, and an example
    node on which they are evaluated. *)

From S2P Require Import Prelude Externals Messages Distance Sorting NodeInfo LocalNodeInfo.
From S2P Require Import ClientNodes BootstrapCache World RoutingTable TableFacts.

Section facts.
Context `{Xbase} `{!XbaseLaws} `{KadKey} `{Xip}.
#[local] Set Default Proof Using "Type*".

Lemma codes_distinct : NoDup [kKadSuccess; kKadFailed] /\
  kKadSuccess <> kKadFailed /\ kKadSuccess <> kKadNodeHasAdded.
Proof.
  pose proof kad_codes_distinct as Hd. rewrite !NoDup_cons in *.
  assert (forall c, c ∈ [kKadFailed; kKadNodeHasAdded] -> kKadSuccess <> c) as Hne.
  { intros c Hc E. destruct Hd as [Hd _]. apply Hd. rewrite E. set_solver. }
  split; [split; [|by split; [apply not_elem_of_nil|apply NoDup_nil]]|split; apply Hne; set_solver].
  intros E%list_elem_of_singleton. by apply (Hne kKadFailed); [left|].
Qed.

Lemma cap_small w lid : table_ok lid w ->
  Z.of_nat (length (nodes_ w)) <= RoutingMaxNodesSize_ w < 2 ^ 31.
Proof.
  intros Hok. split; [by eapply table_size|]. rewrite (ok_cap _ _ Hok).
  unfold kRoutingMaxNodesSize, kKadParamK. pose proof kNodeIdSize_small. lia.
Qed.

End facts.

Section properties.
Context `{Xbase} `{!XbaseLaws} `{KadKey} `{Xip} `{PartialSort} `{!PartialSortLaws}.
#[local] Set Default Proof Using "Type*".
Implicit Types (w : World) (p : ptr).

(** ** Dumps *)

Lemma count_buckets_spec {A} (f : A -> Z) l b :
  (forall x, x ∈ l -> 0 <= f x < 2 ^ 32) -> Z.of_nat (length l) < 2 ^ 32 ->
  let n := length (filter (fun x => f x = b) l) in
  count_buckets (f <$> l) !! b = if decide (n = 0)%nat then None else Some (Z.of_nat n).
Proof.
  induction l as [|x l IH] using rev_ind; intros Hl Hn; [done|].
  rewrite length_app in Hn. simpl in Hn.
  unfold count_buckets in *. rewrite fmap_app, fmap_cons, fmap_nil, foldl_snoc, filter_app, length_app.
  assert (u32 (f x) = f x) as -> by (apply Z.mod_small, Hl, elem_of_app; right; left).
  assert (length (filter (fun x => f x = b) l) <= length l)%nat as Hlen by apply length_filter.
  specialize (IH ltac:(intros y Hy; apply Hl, elem_of_app; by left) ltac:(lia)).
  rewrite filter_cons, filter_nil. cbn zeta in *.
  destruct (decide (f x = b)) as [->|Hne].
  - rewrite lookup_insert_eq, IH. cbn [length].
    rewrite (decide_False (P := (_ + 1)%nat = 0%nat)) by lia.
    match goal with |- context [default 0 ?o] =>
      assert (default 0 o = Z.of_nat (length (filter (fun x => f x = b) l))) as ->
        by (by destruct (decide _) as [E|_]; [rewrite E|]) end.
    unfold u32. rewrite Z.mod_small by lia. f_equal. lia.
  - rewrite lookup_insert_ne by done. cbn [length]. by rewrite Nat.add_0_r.
Qed.

(** A dump lists every node once, nearest first, under the node's own line, and
    counts at most eight nodes in any bucket. The table is left sorted. *)
Lemma PrintRoutingTable_spec lid w index :
  table_ok lid w -> destroy_ w = false ->
  exists l ip port counts,
    PrintRoutingTable index true w =
      Ok ((u32 (index + 1), Some ((lid, ip, port), line_of <$> (obj_of w <$> l), counts)),
          w <| nodes_ := l |>) /\
    l ≡ₚ nodes_ w /\ sorted_prefix (nearer w lid) (length l) l /\
    forall b, default 0 (counts !! b) = Z.of_nat (in_bucket w b (nodes_ w)) /\
              default 0 (counts !! b) <= 8.
Proof.
  intros Hok Hd. unfold PrintRoutingTable. mstep. rewrite Hd.
  rewrite (step_bind _ _ _ _ _ (local_id_ok lid w Hok)). cbn [negb].
  rewrite (step_bind _ _ _ _ _ (nodes_size_spec w)).
  destruct (sort_xid_spec lid w lid (Z.of_nat (length (nodes_ w))) Hok (ok_lid _ _ Hok))
    as (l & E & Hl & Hs).
  rewrite (step_bind _ _ _ _ _ E). destruct (ok_local _ _ Hok) as (k & Hk & _).
  unfold local_key in Hk. destruct (local_node_ptr_ w) as [ln|] eqn:El; [|done].
  unfold local. do 2 mstep. simpl local_node_ptr_. rewrite El. msteps.
  eexists l, _, _, _. split; [reflexivity|]. split; [done|].
  split; [by rewrite Nat2Z.id, <- Hl in Hs|]. intros b. rewrite <- (in_bucket_perm _ _ _ _ Hl).
  destruct (cap_small w lid Hok) as [Hsz Hcap].
  rewrite <- list_fmap_compose, count_buckets_spec.
  - pose proof (ok_bucket _ _ Hok b) as Hb. rewrite <- (in_bucket_perm _ _ _ _ Hl) in Hb.
    unfold kKadParamK, in_bucket in *.
    match goal with |- context [decide (?n = 0%nat)] =>
      change n with (length (filter (fun p => bucket_index (obj_of w p) = b) l)) end.
    destruct (decide _) as [E0|_]; [rewrite E0|]; simpl; lia.
  - intros p Hp. change (p ∈ l) in Hp. rewrite Hl in Hp. destruct (ok_valid _ _ Hok p Hp) as (Hi & Hne & _ & _ & _ & Eb).
    unfold compose. change (obj_of _ p) with (obj_of w p). rewrite Eb.
    pose proof (bucket_range lid _ (ok_lid _ _ Hok) Hi (not_eq_sym Hne)). pose proof kNodeIdSize_small. lia.
  - change (Z.of_nat (length l) < 2 ^ 32). rewrite Hl. lia.
Qed.

(** ** Insertion *)

(** C1: AddNode never runs into undefined behaviour on a well-formed table;
    its answer is decided by the node's data, the index and the size of its
    bucket alone; on success the table holds exactly one node more, indexed
    under its id and published to the lock-free readers, and on every other
    answer the table holds what it held; the invariant (distinct ids, exact
    index, exact buckets, at most eight per bucket) survives in every case. *)
Theorem AddNode_correct lid w p :
  table_ok lid w ->
  let n := obj_of w p in
  exists w', AddNode p w = Ok (add_code lid w n, w') /\ table_ok lid w' /\
    (if decide (add_code lid w n = kKadSuccess) then
       nodes_ w' ≡ₚ p :: nodes_ w /\ node_id_map_ w' = <[node_id n := p]> (node_id_map_ w) /\
       no_lock_for_use_nodes_ w' = Some (nodes_ w')
     else nodes_ w' ≡ₚ nodes_ w /\ node_id_map_ w' = node_id_map_ w /\
          node_hash_map_ w' = node_hash_map_ w) /\
    Z.of_nat (length (nodes_ w')) <= kRoutingMaxNodesSize.
Proof.
  intros Hok n. destruct codes_distinct as (? & ? & ?).
  destruct (AddNode_spec lid w p kNodeIdSize_pos) as (w' & E & Hok' & Hc); [done..|].
  exists w'. fold n in E, Hc. split; [done|]. split; [done|]. split.
  - destruct (Z.eqb_spec (add_code lid w n) kKadSuccess), (decide (add_code lid w n = kKadSuccess));
      try done. naive_solver.
  - rewrite <- (ok_cap _ _ Hok'). by eapply table_size.
Qed.

(** CanAddNode predicts AddNode: it answers true exactly when AddNode,
    called next, answers success, and it leaves the set of nodes unchanged. *)
Theorem CanAddNode_predicts_AddNode lid w p :
  table_ok lid w ->
  exists b w' code w'', CanAddNode p w = Ok (b, w') /\ AddNode p w' = Ok (code, w'') /\
    (b = true <-> code = kKadSuccess) /\ nodes_ w' ≡ₚ nodes_ w.
Proof.
  intros Hok. destruct codes_distinct as (Hnd & Hc1 & Hc2).
  destruct (CanAddNode_spec lid w p kNodeIdSize_pos Hnd Hok) as (w' & E & Hok' & Hp & Hm & Hsame).
  destruct (AddNode_spec lid w' p kNodeIdSize_pos Hc1 Hc2 Hok') as (w'' & E' & _).
  eexists _, w', _, w''. split; [exact E|]. split; [exact E'|]. split; [|done].
  rewrite Hsame. unfold add_code.
  destruct (acceptable lid (obj_of w p)), (has_id w _), (has_room lid w _); simpl; naive_solver.
Qed.

(** ** Removal *)

(** C18: DropNode removes exactly the node with the given id from nodes_ (the
    others keep their order) and from the index, publishes the new list, and
    afterwards the id is unknown; the invariant survives. *)
Theorem DropNode_correct lid w p :
  table_ok lid w ->
  let i := node_id (obj_of w p) in
  exists w', DropNode p w = Ok (kKadSuccess, w') /\ table_ok lid w' /\
    nodes_ w' = filter (fun q => node_id (obj_of w q) <> i) (nodes_ w) /\
    (forall j, node_id_map_ w' !! j = if decide (j = i) then None else node_id_map_ w !! j) /\
    no_lock_for_use_nodes_ w' = Some (nodes_ w') /\ HasNode p w' = Ok (false, w').
Proof.
  intros Hok i. destruct (DropNode_spec lid w p Hok) as (w' & E & Hok' & Eh & El & Em & _ & Hn & _).
  exists w'. split; [done|]. split; [done|]. split; [done|]. split; [|split; [done|]].
  - intros j. rewrite Em. fold i.
    destruct (decide (j = i)) as [->|Hne]; [by rewrite lookup_delete_eq|by rewrite lookup_delete_ne].
  - rewrite HasNode_spec. unfold has_id, obj_of. rewrite Eh, Em. by rewrite lookup_delete_eq.
Qed.

(** Dropping a node that shares the local node's hash (a node of the same
    host carries the same xid) also erases the local node's own entry of
    node_hash_map_, so GetSelfIndex answers -1 from then on. *)
Theorem DropNode_loses_self lid w p l :
  table_ok lid w -> local_node_ptr_ w = Some l -> hash64 (obj_of w p) = ln_hash64 l ->
  exists w', DropNode p w = Ok (kKadSuccess, w') /\ GetSelfIndex w' = Ok (-1, w').
Proof.
  intros Hok El Hh. destruct (DropNode_spec lid w p Hok) as (w' & E & _ & _ & _ & _ & Em & _ & Ell & _).
  exists w'. split; [done|]. rewrite El in Ell. simpl in Ell.
  unfold GetSelfIndex, local. msteps. rewrite Ell. msteps. rewrite Em, Hh.
  destruct (DropDxip_frame (node_id (obj_of w p)) l) as (? & ? & ->). simpl.
  by rewrite lookup_delete_eq.
Qed.

(** When the transport reports an endpoint as lost, exactly the nodes
    with that public endpoint leave the table, however many share it. *)
Theorem OnHeartbeatFailed_correct lid w ip port :
  table_ok lid w ->
  exists w', OnHeartbeatFailed ip port w = Ok (tt, w') /\ table_ok lid w' /\
    forall q, q ∈ nodes_ w' <->
      q ∈ nodes_ w /\ ~ (public_ip (obj_of w q) = ip /\ public_port (obj_of w q) = port).
Proof.
  intros Hok. unfold OnHeartbeatFailed. mstep. set (failed := filter _ _).
  destruct (DropNodes_ok lid failed w Hok) as (w' & E & Hok' & _ & Hq).
  exists w'. split; [done|]. split; [done|]. intros q. rewrite Hq. unfold failed.
  setoid_rewrite list_elem_of_filter. split; intros [Hin Hf]; (split; [done|]).
  - intros Hfail. by apply (Hf q).
  - intros p [Hfail Hp] Eid. apply Hf. by rewrite <- (ok_id_inj lid w p q).
Qed.

(** ** Queries *)

(** C16: GetClosestNodes returns min(number, table size) nodes, nearest to the
    target first in the XOR metric, none of the others being nearer than any of
    them; for a well-formed target it never reads out of a string, and it only
    reorders the table. *)
Theorem GetClosestNodes_nearest lid w target number :
  table_ok lid w -> id_ok target -> 0 <= number < 2 ^ 31 ->
  let d p := xor_distance (node_id (obj_of w p)) target in
  exists l rest w',
    GetClosestNodes target number false w = Ok (l, w') /\ table_ok lid w' /\
    nodes_ w' ≡ₚ nodes_ w /\ l ++ rest ≡ₚ nodes_ w /\
    length l = Nat.min (Z.to_nat number) (length (nodes_ w)) /\
    (forall p q, p ∈ l -> q ∈ rest -> (d p <= d q)%N) /\
    (forall i j p q, (i < j)%nat -> l !! i = Some p -> l !! j = Some q -> (d p <= d q)%N).
Proof.
  intros Hok Ht Hn d.
  destruct (GetClosestNodes_spec lid w target number Hok Ht Hn)
    as (l & w' & E & Hok' & (l0 & -> & Hl0) & Hlen & [(rest & Hrest & Hr) Hs]).
  exists l, rest, (w <| nodes_ := l0 |>). splits; try done.
  - intros p q Hp Hq. apply N.ltb_ge. by apply Hr.
  - intros i j p q Hij Hi Hj. apply N.ltb_ge. by eapply Hs.
Qed.

(** IsDestination, with what it leaves of the state. *)
Lemma IsDestination_spec lid w des check :
  table_ok lid w ->
  exists b w', IsDestination des check w = Ok (b, w') /\ table_ok lid w' /\
    (exists l0, w' = w <| nodes_ := l0 |> /\ l0 ≡ₚ nodes_ w) /\
    (b = true <->
     des = lid \/
     check = true /\ (nodes_ w = [] \/
       id_ok des /\ forall q, q ∈ nodes_ w ->
         (xor_distance lid des < xor_distance (node_id (obj_of w q)) des)%N)).
Proof.
  intros Hok. unfold IsDestination.
  assert (exists l0, w = w <| nodes_ := l0 |> /\ l0 ≡ₚ nodes_ w) as Hself
    by (exists (nodes_ w); by rewrite set_nodes_same). rewrite (step_bind _ _ _ _ _ (local_id_ok lid w Hok)).
  destruct (String.eqb_spec des lid) as [->|Hd].
  { exists true, w. splits; naive_solver. }
  destruct check; cbn [negb]; [|exists false, w; splits; naive_solver].
  unfold ClosestToTarget. rewrite step_assoc, (step_bind _ _ _ _ _ (local_id_ok lid w Hok)).
  rewrite (proj2 (String.eqb_neq _ _) Hd).
  rewrite step_assoc, (step_bind _ _ _ _ _ (nodes_size_spec w)).
  destruct (Z.eqb_spec (Z.of_nat (length (nodes_ w))) 0) as [Hz|Hz].
  { mstep. rewrite Z.eqb_refl. exists true, w. splits; try done. split; [|done]. intros _. right.
    split; [done|]. left. by destruct (nodes_ w). }
  destruct (Nat.eqb_spec (String.length des) kNodeIdSize) as [Ht|Ht]; cbn [negb].
  2:{ mstep. destruct codes_distinct as (_ & Hc & _).
      rewrite (proj2 (Z.eqb_neq _ _) (not_eq_sym Hc)). exists false, w. splits; try done.
      split; [done|]. intros [?|[_ [E|[? _]]]]; [done| |done]. by rewrite E in Hz. }
  destruct (GetClosestNode_spec lid w des true ∅ Hok Ht (cap_small _ _ Hok))
    as (r & w' & E & Hok' & (l0 & -> & Hl0) & Hr).
  rewrite step_assoc, (step_bind _ _ _ _ _ E), step_assoc.
  destruct r as [p|].
  2:{ destruct (nodes_ w) as [|q l] eqn:El; [done|]. specialize (Hr q ltac:(left)). set_solver. }
  destruct Hr as (Hp & _ & Hmin). unfold closest_verdict, obj. rewrite step_assoc. mstep.
  change (obj_of (w <| nodes_ := l0 |>) p) with (obj_of w p).
  destruct (ok_valid _ _ Hok p Hp) as (Hid & Hne & _ & _ & _ & Hb).
  pose proof (bucket_range lid _ (ok_lid _ _ Hok) Hid (not_eq_sym Hne)) as Hrange.
  rewrite (proj2 (Z.eqb_neq (bucket_index (obj_of w p)) kSelfBucketIndex))
    by (unfold kSelfBucketIndex; lia).
  rewrite step_assoc, (step_bind _ _ _ _ _ (local_id_ok lid _ Hok')).
  rewrite closer_correct by (done || apply (ok_lid _ _ Hok)). msteps. rewrite Z.eqb_refl.
  cbn [negb default]. eexists _, _. split; [done|]. split; [done|]. split; [by exists l0|].
  simpl. rewrite N.ltb_lt. split.
  - intros Hlt. right. split; [done|]. right. split; [done|]. intros q Hq.
    specialize (Hmin q Hq ltac:(set_solver)). unfold nearer in Hmin. apply N.ltb_ge in Hmin. lia.
  - intros [?|[_ [E0|[_ Hall]]]]; [done|by rewrite E0 in Hz|by apply Hall].
Qed.

(** IsDestination is total on every byte string and answers true exactly
    for the own id and, when asked to check, when the table is empty or the
    destination is a well-formed id to which no node of the table is as near
    as the local node. *)
Theorem IsDestination_correct lid w des check :
  table_ok lid w ->
  exists b w', IsDestination des check w = Ok (b, w') /\ table_ok lid w' /\ nodes_ w' ≡ₚ nodes_ w /\
    (b = true <->
     des = lid \/
     check = true /\ (nodes_ w = [] \/
       id_ok des /\ forall q, q ∈ nodes_ w ->
         (xor_distance lid des < xor_distance (node_id (obj_of w q)) des)%N)).
Proof.
  intros Hok. destruct (IsDestination_spec lid w des check Hok) as (b & w' & E & Hok' & (l0 & -> & Hp) & Hb).
  exists b, (w <| nodes_ := l0 |>). by splits.
Qed.

(** A range query by hash over a proper sub-range returns, in hash order,
    exactly the entries of node_hash_map_ inside the range, appended to the
    vector; over the full range it returns nodes_ instead, which does not hold
    the local node; an inverted range returns nothing when no hash lies
    strictly between the bounds, and otherwise everything from [min] up. *)
Theorem GetRangeNodes_hash_correct w min max vec :
  let es := hash_entries (node_hash_map_ w) in
  exists r, GetRangeNodes_hash min max vec w = Ok (r, w) /\
    (min = 0 /\ max = 2 ^ 64 - 1 -> r = nodes_ w) /\
    (~ (min = 0 /\ max = 2 ^ 64 - 1) -> min <= max ->
       r = vec ++ (filter (fun e => min <= e.1 <= max) es).*2) /\
    (max < min -> (forall e, e ∈ es -> ~ max < e.1 < min) -> r = vec) /\
    (max < min -> (exists e, e ∈ es /\ max < e.1 < min) ->
       r = vec ++ (filter (fun e => min <= e.1) es).*2).
Proof.
  intros es. unfold GetRangeNodes_hash.
  assert (forall b, (min =? 0) && (max =? 2 ^ 64 - 1) = b ->
    if b then min = 0 /\ max = 2 ^ 64 - 1 else ~ (min = 0 /\ max = 2 ^ 64 - 1)) as Hfull.
  { intros [] Hb; [bool_props; lia|]. intros [-> ->]. done. }
  specialize (Hfull _ eq_refl). destruct (_ && _).
  { exists (nodes_ w). splits; [done..|intros; lia|intros; lia]. }
  msteps. fold es. eexists. split; [done|]. unfold iterate.
  pose proof (entries_Z_sorted (node_hash_map_ w)) as Hs. fold (hash_entries (node_hash_map_ w)) in Hs.
  fold es in Hs.
  set (i := length (filter (fun e => e.1 < min) es)).
  set (j := length (filter (fun e => e.1 <= max) es)).
  destruct (sorted_filter_take _ (fun e => e.1 < min) es Hs ltac:(simpl; intros; lia)) as [_ Hi].
  fold i in Hi.
  assert (filter (fun e => min <= e.1) es = drop i es) as Hge.
  { rewrite <- Hi. apply filter_ext_in. intros. lia. }
  splits; [done| | |].
  - intros _ Hle. assert (i <= j)%nat as Hij by (apply filter_length_mono; intros; lia).
    rewrite (proj2 (Nat.leb_le i j) Hij). do 2 f_equal.
    destruct (sorted_filter_take _ (fun e => e.1 <= max) es Hs ltac:(simpl; intros; lia)) as [Hj _].
    fold j in Hj. rewrite take_drop_commute. replace (i + (j - i))%nat with j by lia.
    rewrite <- Hj.
    destruct (sorted_filter_take _ (fun e => e.1 < min) (filter (fun e => e.1 <= max) es)
      (StronglySorted_filter _ _ _ Hs) ltac:(simpl; intros; lia)) as [_ Hd].
    replace i with (length (filter (fun e => e.1 < min) (filter (fun e => e.1 <= max) es))).
    + rewrite <- Hd, !list_filter_filter. apply filter_ext_in. intros. lia.
    + rewrite list_filter_filter. unfold i. f_equal. apply filter_ext_in. intros. lia.
  - intros Hlt Hno. assert (i = j) as ->.
    { unfold i, j. f_equal. apply filter_ext_in. intros e He. specialize (Hno e He). lia. }
    rewrite Nat.leb_refl, Nat.sub_diag. by rewrite app_nil_r.
  - intros Hlt (e & He & Hb). assert (j < i)%nat as Hji.
    { apply (filter_length_lt _ _ _ e); [intros; lia|done|lia|lia]. }
    rewrite (proj2 (Nat.leb_gt i j) Hji). by rewrite Hge.
Qed.

(** ** Which nodes to ask *)

Lemma lookup_ids_of w l i :
  is_Some (ids_of w l !! i) <-> exists p, p ∈ l /\ node_id (obj_of w p) = i.
Proof.
  unfold ids_of. induction l as [|x l IH]; simpl.
  - split; [intros [? Hx]; by rewrite lookup_empty in Hx|]. intros (p & Hp%elem_of_nil & _). done.
  - rewrite lookup_insert_is_Some', IH. setoid_rewrite elem_of_cons. naive_solver.
Qed.

Lemma size_ids_of w l :
  NoDup ((fun p => node_id (obj_of w p)) <$> l) -> base.size (ids_of w l) = length l.
Proof.
  induction l as [|x l IH]; intros Hn; [done|].
  apply NoDup_cons in Hn as [Hx Hn].
  change (ids_of w (x :: l)) with (<[node_id (obj_of w x) := ""%string]> (ids_of w l)).
  rewrite map_size_insert_None; [by rewrite IH|].
  apply eq_None_not_Some. intros (p & Hp & E)%lookup_ids_of. apply Hx, list_elem_of_fmap.
  by exists p.
Qed.

Lemma add_random_one lid w l fuel :
  table_ok lid w -> nodes_ w = l -> kKadParamAlpha + kKadParamAlphaRandom < Z.of_nat (length l) ->
  exists q w', add_random_nodes (S fuel) (kKadParamAlpha + kKadParamAlphaRandom) kKadParamAlpha
      (ids_of w (take 2 l)) w = Ok (q, w') /\ table_ok lid w' /\ nodes_ w' = l /\
    base.size q = 3%nat /\
    (forall i, is_Some (q !! i) -> exists p, p ∈ l /\ node_id (obj_of w p) = i) /\
    (forall p, p ∈ take 2 l -> is_Some (q !! node_id (obj_of w p))).
Proof.
  unfold kKadParamAlpha, kKadParamAlphaRandom. intros Hok El Hlen.
  assert (NoDup ((fun p => node_id (obj_of w p)) <$> l)) as Hn by (rewrite <- El; apply (ok_nodup _ _ Hok)).
  assert (base.size (ids_of w (take 2 l)) = 2%nat) as Hsz.
  { rewrite size_ids_of; [rewrite length_take; lia|].
    rewrite <- (take_drop 2 l), fmap_app in Hn. by apply NoDup_app in Hn as (? & _ & _). }
  cbn [add_random_nodes]. rewrite Hsz. change (2 + 1 <=? Z.of_nat 2) with false. cbv iota.
  unfold nodes. mstep. rewrite El. unfold RandomUint32. mstep. cbn [fst snd].
  set (r := u32 _). set (k := Z.to_nat (r mod (Z.of_nat (length l) - 2) + 2)).
  pose proof (Z.mod_pos_bound r (Z.of_nat (length l) - 2) ltac:(lia)) as Hr.
  destruct (lookup_lt_is_Some_2 l k ltac:(lia)) as [x Hx]. rewrite Hx. msteps.
  unfold obj. msteps. change (obj_of (upd w_drawn S w) x) with (obj_of w x).
  assert (x ∈ drop 2 l) as Hxd.
  { apply list_elem_of_lookup. exists (k - 2)%nat. rewrite lookup_drop. by replace (2 + (k - 2))%nat with k by lia. }
  assert (ids_of w (take 2 l) !! node_id (obj_of w x) = None) as Hnone.
  { apply eq_None_not_Some. intros (p & Hp & E)%lookup_ids_of.
    rewrite <- (take_drop 2 l), fmap_app in Hn. apply NoDup_app in Hn as (_ & Hdis & _).
    apply (Hdis (node_id (obj_of w p))); [apply list_elem_of_fmap; by exists p|].
    rewrite E. apply list_elem_of_fmap. by exists x. }
  rewrite Hnone.
  assert (base.size (<[node_id (obj_of w x) := ""%string]> (ids_of w (take 2 l))) = 3%nat) as Hsz3
    by (by rewrite map_size_insert_None, Hsz).
  assert (exists w', add_random_nodes fuel (2 + 1) 2
    (<[node_id (obj_of w x) := ""%string]> (ids_of w (take 2 l))) (upd w_drawn S w) =
    Ok (<[node_id (obj_of w x) := ""%string]> (ids_of w (take 2 l)), w') /\
    w' = upd w_drawn S w) as (w' & E & ->).
  { eexists. split; [|reflexivity]. destruct fuel; cbn [add_random_nodes]; by rewrite Hsz3. }
  rewrite E. eexists _, _. splits; [done|by apply (table_ok_core lid w)|done|done| |].
  - intros i [<-|[_ (p & Hp & <-)%lookup_ids_of]]%lookup_insert_is_Some.
    + exists x. split; [|done]. by eapply list_elem_of_lookup_2.
    + exists p. split; [|done]. rewrite <- (take_drop 2 l). apply elem_of_app. by left.
  - intros p Hp. apply lookup_insert_is_Some'. right. apply lookup_ids_of. by exists p.
Qed.

Lemma GetClosestAlphaNodes_spec lid w fuel :
  table_ok lid w ->
  exists q w' l rest, GetClosestAlphaNodes (S fuel) w = Ok (q, w') /\ table_ok lid w' /\
    base.size q = Nat.min 3 (length (nodes_ w)) /\
    (forall i, is_Some (q !! i) -> exists p, p ∈ nodes_ w /\ node_id (obj_of w p) = i) /\
    l ++ rest ≡ₚ nodes_ w /\ length l = Nat.min 2 (length (nodes_ w)) /\
    (forall p, p ∈ l -> is_Some (q !! node_id (obj_of w p))) /\
    (forall p r, p ∈ l -> r ∈ rest ->
       (xor_distance (node_id (obj_of w p)) lid <= xor_distance (node_id (obj_of w r)) lid)%N).
Proof.
  intros Hok. unfold GetClosestAlphaNodes, nodes. msteps.
  destruct (sort_xid_spec lid w lid kKadParamAlpha Hok (ok_lid _ _ Hok)) as (l & E & Hl & Hs).
  assert (length l = length (nodes_ w)) as Hlen by (by rewrite Hl).
  assert (forall p r, p ∈ take 2 l -> r ∈ drop 2 l ->
    (xor_distance (node_id (obj_of w p)) lid <= xor_distance (node_id (obj_of w r)) lid)%N) as Hnear.
  { intros p r Hp Hr. apply N.ltb_ge. by eapply (sorted_prefix_take (nearer w lid) 2 l). }
  destruct (Z.leb_spec (Z.of_nat (length (nodes_ w))) (kKadParamAlpha + kKadParamAlphaRandom)) as [Hle|Hgt].
  - unfold kKadParamAlpha, kKadParamAlphaRandom in *.
    exists (ids_of w (nodes_ w)), w, (take 2 l), (drop 2 l).
    splits; [done|done| | |by rewrite take_drop|by rewrite length_take, Hlen| |done].
    + rewrite size_ids_of by apply (ok_nodup _ _ Hok). lia.
    + by intros i Hi%lookup_ids_of.
    + intros p Hp. apply lookup_ids_of. exists p. split; [|done]. rewrite <- Hl, <- (take_drop 2 l).
      apply elem_of_app. by left.
  - rewrite (step_bind _ _ _ _ _ (local_id_ok lid w Hok)), (step_bind _ _ _ _ _ E). msteps.
    assert (Z.max 0 (Z.min kKadParamAlpha (Z.of_nat (length (nodes_ w)))) = 2) as ->
      by (unfold kKadParamAlpha, kKadParamAlphaRandom in *; lia).
    set (w1 := w <| nodes_ := l |>).
    assert (table_ok lid w1) as Hok1 by (by apply table_ok_perm).
    destruct (add_random_one lid w1 l fuel Hok1 eq_refl ltac:(by rewrite Hlen))
      as (q & w' & Eq & Hok' & El & Hsz & Hin & Htake).
    change (ids_of w1) with (ids_of w) in Eq.
    exists q, w', (take 2 l), (drop 2 l).
    splits; [exact Eq|done| | |by rewrite take_drop|by rewrite length_take, Hlen|exact Htake|done].
    + rewrite Hsz. unfold kKadParamAlpha, kKadParamAlphaRandom in *. lia.
    + intros i Hi. destruct (Hin i Hi) as (p & Hp & Ep). exists p. split; [by rewrite <- Hl|done].
Qed.

(** C29: the choice of nodes to ask ends after a single random draw (the ids of
    the table are distinct, so a draw is never repeated): it names min(3, table
    size) different nodes of the table, and the two nearest to the local node
    are among them. *)
Theorem GetClosestAlphaNodes_correct lid w fuel :
  table_ok lid w ->
  exists q w' l rest, GetClosestAlphaNodes (S fuel) w = Ok (q, w') /\ table_ok lid w' /\
    base.size q = Nat.min 3 (length (nodes_ w)) /\
    (forall i, is_Some (q !! i) -> exists p, p ∈ nodes_ w /\ node_id (obj_of w p) = i) /\
    l ++ rest ≡ₚ nodes_ w /\ length l = Nat.min 2 (length (nodes_ w)) /\
    (forall p, p ∈ l -> is_Some (q !! node_id (obj_of w p))) /\
    (forall p r, p ∈ l -> r ∈ rest ->
       (xor_distance (node_id (obj_of w p)) lid <= xor_distance (node_id (obj_of w r)) lid)%N).
Proof. apply GetClosestAlphaNodes_spec. Qed.
End properties.

(** ** An example node

    The node "abcd" with four neighbours; ids have four bytes. *)

Import Externals.Examples.
#[local] Existing Instance selection_sort.

Definition ex_empty : World :=
  RoutingTable_new (Some 9000) (Some ex_local) (Some ex_key) ClientNodeManager.init 100 0
    (fun _ => 0) (fun n => Z.of_nat n).

Definition ex_data (port nat : Z) (n : NodeInfo) : NodeInfo :=
  n <| public_ip := "10.0.0.7"%string |> <| public_port := port |> <| nat_type := nat |>
    <| hash64 := port |>.

Definition ex_new (id : string) (port : Z) (w : World) : World :=
  match new_NodeInfo id (ex_data port kNatTypePublic) w with Ok (_, w') => w' | _ => w end.

Definition ex_add (id : string) (port : Z) (w : World) : World :=
  match (p ← new_NodeInfo id (ex_data port kNatTypePublic); AddNode p) w with
  | Ok (_, w') => w'
  | _ => w
  end.

(** Objects 1 to 4 are in the table, object 5 is not. *)
Definition ex_world : World :=
  ex_new "abcz" 9005 (ex_add "qqqq" 9004 (ex_add "zbcd" 9003 (ex_add "abzz" 9002
    (ex_add "abce" 9001 ex_empty)))).

Lemma ex_new_ok id port w : table_ok "abcd" w -> table_ok "abcd" (ex_new id port w).
Proof.
  intros Hok. unfold ex_new, new_NodeInfo. msteps. unfold alloc, run. by apply table_ok_alloc.
Qed.

Lemma ex_add_ok id port w : table_ok "abcd" w -> table_ok "abcd" (ex_add id port w).
Proof.
  intros Hok. unfold ex_add, new_NodeInfo. msteps. unfold alloc. mstep. cbn [fst snd].
  destruct codes_distinct as (_ & Hc1 & Hc2).
  destruct (AddNode_spec "abcd" (w <| w_heap ::= <[w_next w:=ex_data port kNatTypePublic (NodeInfo_of_id (w_now w) id)]> |>
    <| w_next ::= Pos.succ |>) (w_next w) kNodeIdSize_pos Hc1 Hc2) as (w' & E & Hok' & _);
    [by apply table_ok_alloc|]. by rewrite E.
Qed.

Lemma ex_world_ok : table_ok "abcd" ex_world.
Proof. apply ex_new_ok. do 4 apply ex_add_ok. by apply (table_ok_new _ ex_local ex_key). Qed.

Lemma AddNode_correct_witness :
  exists w', AddNode 5%positive ex_world = Ok (kKadSuccess, w') /\ table_ok "abcd" w'.
Proof.
  destruct (AddNode_correct "abcd" ex_world 5%positive ex_world_ok) as (w' & E & Hok & _).
  exists w'. split; [|exact Hok]. rewrite E. vm_compute. reflexivity.
Defined.

Lemma CanAddNode_predicts_AddNode_witness :
  exists b w', CanAddNode 5%positive ex_world = Ok (b, w') /\ nodes_ w' ≡ₚ nodes_ ex_world.
Proof.
  destruct (CanAddNode_predicts_AddNode "abcd" ex_world 5%positive ex_world_ok)
    as (b & w' & code & w'' & E & _ & _ & Hp).
  exists b, w'. split; [exact E|exact Hp].
Defined.

Lemma DropNode_correct_witness :
  exists w', DropNode 2%positive ex_world = Ok (kKadSuccess, w') /\ length (nodes_ w') = 3%nat.
Proof.
  destruct (DropNode_correct "abcd" ex_world 2%positive ex_world_ok) as (w' & E & _ & El & _).
  exists w'. split; [exact E|]. rewrite El. vm_compute. reflexivity.
Defined.

Lemma DropNode_loses_self_witness :
  exists w', DropNode 1%positive (ex_world <| local_node_ptr_ := Some (ex_local <| ln_hash64 := 9001 |>) |>)
    = Ok (kKadSuccess, w') /\ GetSelfIndex w' = Ok (-1, w').
Proof.
  apply (DropNode_loses_self "abcd"
    (ex_world <| local_node_ptr_ := Some (ex_local <| ln_hash64 := 9001 |>) |>) 1%positive
    (ex_local <| ln_hash64 := 9001 |>)).
  - apply (table_ok_core "abcd" ex_world); [vm_compute; reflexivity|exact ex_world_ok].
  - reflexivity.
  - vm_compute. reflexivity.
Defined.

Lemma OnHeartbeatFailed_correct_witness :
  exists w', OnHeartbeatFailed "10.0.0.7" 9002 ex_world = Ok (tt, w') /\ ~ (2%positive ∈ nodes_ w').
Proof.
  destruct (OnHeartbeatFailed_correct "abcd" ex_world "10.0.0.7" 9002 ex_world_ok) as (w' & E & _ & Hq).
  exists w'. split; [exact E|]. intros Hin. apply Hq in Hin. destruct Hin as [_ Hno]. apply Hno.
  split; vm_compute; reflexivity.
Defined.

Lemma GetClosestNodes_nearest_witness :
  exists l w', GetClosestNodes "abzz" 2 false ex_world = Ok (l, w') /\ length l = 2%nat.
Proof.
  destruct (GetClosestNodes_nearest "abcd" ex_world "abzz" 2 ex_world_ok)
    as (l & rest & w' & E & _ & _ & _ & Hl & _); [reflexivity|lia|].
  exists l, w'. split; [exact E|]. rewrite Hl. vm_compute. reflexivity.
Defined.

Lemma IsDestination_correct_witness :
  exists b w', IsDestination "abcc" true ex_world = Ok (b, w') /\ nodes_ w' ≡ₚ nodes_ ex_world.
Proof.
  destruct (IsDestination_correct "abcd" ex_world "abcc" true ex_world_ok) as (b & w' & E & _ & Hp & _).
  exists b, w'. split; [exact E|exact Hp].
Defined.

Lemma GetClosestAlphaNodes_correct_witness :
  exists q w', GetClosestAlphaNodes 1 ex_world = Ok (q, w') /\ base.size q = 3%nat.
Proof.
  destruct (GetClosestAlphaNodes_correct "abcd" ex_world 0 ex_world_ok)
    as (q & w' & l & rest & E & _ & Hs & _).
  exists q, w'. split; [exact E|]. rewrite Hs. vm_compute. reflexivity.
Defined.
