(* ===== verification/Sending.v ===== *)
(** The sending side of src/routing_table.cc: the fields every message gets,
    the three SendData overloads, the greedy forwarding of RecursiveSend, and
    the relaying of messages to clients. A message is passed by reference in
    the source: a definition that writes it returns the new message. *)

From S2P Require Import Prelude Externals Messages Distance Sorting NodeInfo LocalNodeInfo.
From S2P Require Import ClientNodes BootstrapCache World RoutingTable.

Section sending.
Context `{Xbase} `{KadKey} `{Xip} `{PartialSort} `{Wire}.

(** ** Message fields *)

Definition SetFreqMessage (message : RoutingMessage) : M RoutingMessage :=
  l ← local;
  id ← local_id;
  x ← gxid;
  mid ← next_message_id;
  let message :=
    message <| msg_hop_num := Some 0 |>
            <| msg_src_service_type := Some (ln_service_type l) |>
            <| msg_src_node_id := Some id |>
            <| msg_xid := Some x |>
            <| msg_priority := Some enum_xpacket_priority_type_routine |>
            <| msg_id := Some mid |> in
  if get msg_broadcast message then
    let gossip := get msg_gossip message in
    let gossip :=
      gossip <| gp_neighber_count := Some 4 |>
             <| gp_stop_times := Some kGossipSendoutMaxTimes |>
             <| gp_gossip_type := Some kGossipBloomfilter |>
             <| gp_max_hop_num := Some 10 |>
             <| gp_evil_rate := Some 0 |>
             <| gp_switch_layer_hop_num := Some kGossipSwitchLayerCount |>
             <| gp_ign_bloomfilter_level := Some kGossipBloomfilterIgnoreLevel |> in
    mret (message <| msg_gossip := Some gossip |>)
  else mret message.

Definition SetVersion (message : RoutingMessage) : RoutingMessage :=
  if negb (is_set msg_version_tag message)
  then message <| msg_version_tag := Some "0.6.0"%string |>
  else message.

(** [request_type] is the constant kNone, on which the function returns. *)
Definition SetTestTraceInfo (message : RoutingMessage) : RoutingMessage := message.

Definition SetSpeClientMessage (message : RoutingMessage) : RoutingMessage := message.

(** ** SendData *)

Definition SendData_bytes (data peer_ip : string) (peer_port priority : Z) : M Z :=
  transport_send (mkPacket KData (u16 priority) data peer_ip (u16 peer_port)).

(** SendData(message, peer_ip, peer_port). *)
Definition SendData (message : RoutingMessage) (peer_ip : string) (peer_port : Z)
    : M (Z * RoutingMessage) :=
  let message := SetVersion (SetTestTraceInfo message) in
  match SerializeToString message with
  | None => mret (kKadFailed, message)
  | Some data =>
      r ← SendData_bytes data peer_ip peer_port (get msg_priority message);
      mret (r, message)
  end.

(** SendData(message, node). *)
Definition SendData_node (message : RoutingMessage) (node : ptr) : M (Z * RoutingMessage) :=
  n ← obj node;
  if same_vlan n then SendData message (local_ip n) (local_port n)
  else
    let message := SetVersion (SetTestTraceInfo message) in
    match SerializeToString message with
    | None => mret (kKadFailed, message)
    | Some data =>
        r ← transport_send (mkPacket (KDataWithProp (udp_property n))
               (u16 (get msg_priority message)) data (public_ip n) (public_port n));
        mret (r, message)
    end.

(** ** Forwarding *)

(** The ids of the hops, or [None] when a hop occurs twice. *)
Fixpoint exclude_of (hops : list HopInfo) (exclude : gset string) : option (gset string) :=
  match hops with
  | [] => Some exclude
  | h :: hops' =>
      if decide (get hop_node_id h ∈ exclude) then None
      else exclude_of hops' ({[ get hop_node_id h ]} ∪ exclude)
  end.

(** The argument [retry_times] is not used by the code. *)
Definition RecursiveSend (message : RoutingMessage) (retry_times : Z) : M RoutingMessage :=
  match exclude_of (msg_hop_nodes message) ∅ with
  | None => mret message
  | Some exclude =>
      number ← gets RoutingMaxNodesSize_;
      next_nodes_vec ← GetClosestNodes (get msg_des_node_id message) number false;
      id ← local_id;
      l ← local;
      w ← gets (fun w => w);
      let ready p :=
        let n := obj_of w p in
        negb (node_id n =? id)%string &&
        negb ((public_ip n =? ln_public_ip l)%string && (public_port n =? ln_public_port l)) &&
        negb (bool_decide (node_id n ∈ exclude)) in
      match List.filter ready next_nodes_vec with
      | [] => mret message
      | node :: _ => '(_, message) ← SendData_node message node; mret message
      end
  end.

Definition SendToClosestNode_hop (message : RoutingMessage) (add_hop : bool)
    : M RoutingMessage :=
  id ← local_id;
  if (get msg_des_node_id message =? id)%string then mret message
  else
    l ← local;
    joined ← gets joined_;
    if negb (ln_first_node l) && negb joined then mret message
    else
      let message :=
        if add_hop then
          message <| msg_hop_nodes ::= fun h => h ++ [mkHopInfo (Some id)] |>
        else message in
      RecursiveSend message 0.

Definition SendToClosestNode (message : RoutingMessage) : M RoutingMessage :=
  SendToClosestNode_hop message true.

(** ** Relaying *)

Definition FindClient (node_id : string) : M (option ClientNodeInfo) :=
  gets (fun w => ClientNodeManager.FindClientNode node_id (clients w)).

Definition CheckAndSendRelay (message : RoutingMessage) : M (Z * RoutingMessage) :=
  if negb (is_set msg_client_id message) then mret (kKadFailed, message)
  else if negb (get msg_relay_flag message) then mret (kKadFailed, message)
  else
    id ← local_id;
    if negb (get msg_des_node_id message =? id)%string then mret (kKadFailed, message)
    else
      client ← FindClient (get msg_client_id message);
      match client with
      | None => mret (kKadFailed, message)
      | Some c =>
          let message := message <| msg_relay_flag := Some false |>
                                 <| msg_des_node_id := Some (cn_node_id c) |> in
          '(_, message) ← SendData message (cn_public_ip c) (cn_public_port c);
          mret (kKadSuccess, message)
      end.

Definition CheckAndSendMultiRelay (message : RoutingMessage) : M (Z * RoutingMessage) :=
  if negb (is_set msg_multi_relay message) || negb (get msg_multi_relay message)
  then mret (kKadFailed, message)
  else if is_set msg_is_root message && get msg_is_root message
  then mret (kKadFailed, message)
  else
    id ← local_id;
    if negb (get msg_des_node_id message =? id)%string then mret (kKadFailed, message)
    else
      match last (msg_relay_hop_info message) with
      | None => mret (kKadFailed, message)
      | Some hop =>
          let message := message <| msg_des_node_id := Some (get rhi_relay_entry_id hop) |>
                                 <| msg_des_service_type := Some (get rhi_service_type hop) |> in
          l ← local;
          client ← FindClient (get rhi_relay_exit_id hop);
          match client with
          | None =>
              if negb (ln_first_node l) then mret (kKadFailed, message)
              else
                '(_, message) ← SendData message (ln_local_ip l) (ln_local_port l);
                mret (kKadSuccess, message)
          | Some c =>
              '(_, message) ← SendData message (cn_public_ip c) (cn_public_port c);
              mret (kKadSuccess, message)
          end
      end.

Definition copy_hop (h : RelayHopInfo) : RelayHopInfo :=
  mkRelayHopInfo (Some (get rhi_relay_entry_id h)) (Some (get rhi_relay_exit_id h))
    (Some (get rhi_service_type h)) (Some (get rhi_relay_flag h)).

(** SetMultiRelayMsg(message, res_message): the new [res_message]. *)
Definition SetMultiRelayMsg (message res_message : RoutingMessage) : RoutingMessage :=
  let res_message :=
    if is_set msg_multi_relay message
    then res_message <| msg_multi_relay := Some (get msg_multi_relay message) |>
    else res_message in
  let hops := msg_relay_hop_info message in
  let res_message :=
    res_message <| msg_relay_hop_info ::=
      fun h => h ++ (copy_hop <$> take (length hops - 1) hops) |> in
  let res_message :=
    if is_set msg_xrequest_id message
    then res_message <| msg_xrequest_id := Some ("AAA" +:+ get msg_xrequest_id message)%string |>
    else res_message in
  res_message <| msg_trace_route ::= fun t => t ++ msg_trace_route message |>.

Definition SmartSendReply_hop (res_message : RoutingMessage) (add_hop : bool)
    : M RoutingMessage :=
  '(code, res_message) ← CheckAndSendMultiRelay res_message;
  if negb (code =? kKadSuccess) then SendToClosestNode_hop res_message add_hop
  else mret res_message.

Definition SmartSendReply (res_message : RoutingMessage) : M RoutingMessage :=
  '(code, res_message) ← CheckAndSendMultiRelay res_message;
  if negb (code =? kKadSuccess) then SendToClosestNode res_message
  else mret res_message.

End sending.
