(* ===== verification/SendProps.v ===== *)
(** The properties of the sending side: what every send puts on the wire, and
    the loop freedom of the greedy forwarding. *)

From S2P Require Import Prelude Externals Messages Distance Sorting NodeInfo LocalNodeInfo.
From S2P Require Import ClientNodes BootstrapCache World RoutingTable TableFacts TableProps.
From S2P Require Import Sending.

(** ** Hops *)

Definition hop_ids (m : RoutingMessage) : list string := get hop_node_id <$> msg_hop_nodes m.

Lemma exclude_of_spec hops s :
  match exclude_of hops s with
  | Some e => NoDup (get hop_node_id <$> hops) /\
      (forall h, h ∈ hops -> get hop_node_id h ∉ s) /\
      forall i, i ∈ e <-> i ∈ s \/ i ∈ get hop_node_id <$> hops
  | None => ~ NoDup (get hop_node_id <$> hops) \/ exists h, h ∈ hops /\ get hop_node_id h ∈ s
  end.
Proof.
  revert s. induction hops as [|h hops IH]; intros s; simpl.
  { splits; [constructor|by intros ? ?%elem_of_nil|]. intros i. rewrite elem_of_nil. tauto. }
  destruct (decide (get hop_node_id h ∈ s)) as [Hin|Hout].
  { right. exists h. split; [left|done]. }
  specialize (IH ({[ get hop_node_id h ]} ∪ s)).
  destruct (exclude_of hops _) as [e|].
  - destruct IH as (Hn & Hs & He). splits.
    + apply NoDup_cons. split; [|done]. intros (h' & E & Hh')%list_elem_of_fmap.
      apply (Hs h' Hh'). rewrite <- E. set_solver.
    + intros h' [->|Hh']%elem_of_cons; [done|]. specialize (Hs h' Hh'). set_solver.
    + intros i. rewrite He, elem_of_cons. set_solver.
  - rewrite NoDup_cons. destruct IH as [IH|(h' & Hh' & [E%elem_of_singleton|Hin]%elem_of_union)].
    + left. tauto.
    + left. intros [Hx _]. apply Hx, list_elem_of_fmap. by exists h'.
    + right. exists h'. split; [by right|done].
Qed.

(** [w] after the packets [s] were handed to the transport. *)
Definition push_net `{KadKey} `{Xip} (s : list packet) (w : World) : World :=
  w <| w_net ::= fun l => l ++ s |>.

Section facts.
Context `{Xbase} `{!XbaseLaws} `{KadKey} `{Xip} `{PartialSort} `{!PartialSortLaws} `{Wire}.
#[local] Set Default Proof Using "Type*".
Implicit Types (w : World) (p : ptr).

Lemma push_net_nil w : push_net [] w = w.
Proof. unfold push_net. destruct w. unfold upd. simpl. by rewrite app_nil_r. Qed.

Lemma push_net_app a b w : push_net b (push_net a w) = push_net (a ++ b) w.
Proof. unfold push_net. destruct w. unfold upd. simpl. by rewrite app_assoc. Qed.

Lemma table_ok_push_net lid s w : table_ok lid w -> table_ok lid (push_net s w).
Proof. by apply table_ok_core. Qed.

(** ** Sending *)

Lemma transport_send_spec w t pk :
  transport_ptr_ w = Some t -> exists r, transport_send pk w = Ok (r, push_net [pk] w).
Proof. intros Et. unfold transport_send. msteps. rewrite Et. msteps. eexists. reflexivity. Qed.

(** The packets SendData(message, ip, port) produces: none when the message
    cannot be serialized. *)
Definition data_packets (m : RoutingMessage) (ip : string) (port : Z) : list packet :=
  match SerializeToString (SetVersion m) with
  | None => []
  | Some data => [mkPacket KData (u16 (get msg_priority (SetVersion m))) data ip (u16 port)]
  end.

Lemma SendData_spec w t m ip port :
  transport_ptr_ w = Some t ->
  exists r, SendData m ip port w = Ok ((r, SetVersion m), push_net (data_packets m ip port) w).
Proof.
  intros Et. unfold SendData, SetTestTraceInfo, SendData_bytes, data_packets.
  destruct (SerializeToString (SetVersion m)) as [data|].
  - destruct (transport_send_spec w t (mkPacket KData (u16 (get msg_priority (SetVersion m))) data
      ip (u16 port)) Et) as [r E]. rewrite (step_bind _ _ _ _ _ E). by exists r.
  - rewrite push_net_nil. by eexists.
Qed.

(** The packets SendData(message, node) produces. *)
Definition node_packets (m : RoutingMessage) (n : NodeInfo) : list packet :=
  if same_vlan n then data_packets m (local_ip n) (local_port n)
  else
    match SerializeToString (SetVersion m) with
    | None => []
    | Some data => [mkPacket (KDataWithProp (udp_property n))
                      (u16 (get msg_priority (SetVersion m))) data (public_ip n) (public_port n)]
    end.

(** Where they go. *)
Definition send_endpoint (n : NodeInfo) : string * Z :=
  if same_vlan n then (local_ip n, u16 (local_port n)) else (public_ip n, public_port n).

Lemma SendData_node_spec w t m p :
  transport_ptr_ w = Some t ->
  exists r, SendData_node m p w =
    Ok ((r, SetVersion m), push_net (node_packets m (obj_of w p)) w).
Proof.
  intros Et. unfold SendData_node, obj, node_packets. msteps.
  destruct (same_vlan (obj_of w p)).
  - by apply (SendData_spec w t).
  - unfold SetTestTraceInfo. destruct (SerializeToString (SetVersion m)) as [data|].
    + destruct (transport_send_spec w t (mkPacket (KDataWithProp (udp_property (obj_of w p)))
        (u16 (get msg_priority (SetVersion m))) data (public_ip (obj_of w p))
        (public_port (obj_of w p))) Et) as [r E]. rewrite (step_bind _ _ _ _ _ E). by exists r.
    + rewrite push_net_nil. by eexists.
Qed.

Lemma SetVersion_hops m : msg_hop_nodes (SetVersion m) = msg_hop_nodes m.
Proof. unfold SetVersion. by destruct (is_set msg_version_tag m). Qed.

(** ** Forwarding *)

(** Who a message that carries [hops] may be forwarded to. *)
Definition may_receive (lid : string) (l : LocalNodeInfo) (hops : list string) (n : NodeInfo)
    : Prop :=
  node_id n <> lid /\
  (public_ip n, public_port n) <> (ln_public_ip l, ln_public_port l) /\
  node_id n ∉ hops.

Lemma ready_iff lid l hops (e : gset string) n :
  (forall i, i ∈ e <-> i ∈ hops) ->
  negb (node_id n =? lid)%string &&
  negb ((public_ip n =? ln_public_ip l)%string && (public_port n =? ln_public_port l)) &&
  negb (bool_decide (node_id n ∈ e)) = true <-> may_receive lid l hops n.
Proof.
  intros He. unfold may_receive. specialize (He (node_id n)).
  destruct (String.eqb_spec (node_id n) lid), (String.eqb_spec (public_ip n) (ln_public_ip l)),
    (Z.eqb_spec (public_port n) (ln_public_port l)), (bool_decide_reflect (node_id n ∈ e));
    simpl; intuition congruence.
Qed.

(** The first candidate of a sorted list is the nearest one. *)
Lemma head_nearest w target (ready : ptr -> bool) l p rest :
  (forall i j p q, (i < j)%nat -> l !! i = Some p -> l !! j = Some q ->
     nearer w target q p = false) ->
  List.filter ready l = p :: rest ->
  p ∈ l /\ ready p = true /\ forall q, q ∈ l -> ready q = true -> nearer w target q p = false.
Proof.
  induction l as [|x l IH]; intros Hs; simpl; [done|].
  destruct (ready x) eqn:Ex.
  - intros [= -> _]. split; [left|]. split; [done|]. intros q [->|Hq]%elem_of_cons _.
    + apply N.ltb_irrefl.
    + apply list_elem_of_lookup in Hq as [j Hj]. by apply (Hs 0%nat (S j)); [lia|..].
  - intros E. destruct IH as (Hp & Hr & Hn); [|done|].
    { intros i j a b Hij Ha Hb. by apply (Hs (S i) (S j)); [lia|..]. }
    split; [by right|]. split; [done|]. intros q [->|Hq]%elem_of_cons Hq'; [congruence|auto].
Qed.

Lemma RecursiveSend_spec lid w t l m r :
  table_ok lid w -> transport_ptr_ w = Some t -> local_node_ptr_ w = Some l ->
  id_ok (get msg_des_node_id m) ->
  let des := get msg_des_node_id m in
  let fits p := may_receive lid l (hop_ids m) (obj_of w p) in
  exists m' w' sent, RecursiveSend m r w = Ok (m', w') /\ table_ok lid w' /\
    nodes_ w' ≡ₚ nodes_ w /\ w_net w' = w_net w ++ sent /\
    ((sent = [] /\ m' = m /\
        (~ NoDup (hop_ids m) \/ forall p, p ∈ nodes_ w -> ~ fits p)) \/
     (exists p, NoDup (hop_ids m) /\ p ∈ nodes_ w /\ fits p /\
        (forall q, q ∈ nodes_ w -> fits q -> nearer w des q p = false) /\
        sent = node_packets m (obj_of w p) /\ m' = SetVersion m)).
Proof.
  intros Hok Et El Hdes des fits. unfold RecursiveSend.
  pose proof (exclude_of_spec (msg_hop_nodes m) ∅) as Hx.
  destruct (exclude_of _ ∅) as [e|].
  2: { exists m, w, []. rewrite app_nil_r. splits; try done. left. splits; [done..|left].
       destruct Hx as [Hx|(h & _ & Hh)]; [done|]. by apply elem_of_empty in Hh. }
  destruct Hx as (Hn & _ & He). msteps.
  destruct (cap_small w lid Hok) as [Hlen Hcap].
  destruct (GetClosestNodes_spec lid w des (RoutingMaxNodesSize_ w) Hok Hdes) as
    (c & w1 & E & Hok1 & (l0 & -> & Hl0) & Hc & (rest & Hp & _) & Hs); [lia|].
  rewrite (step_bind _ _ _ _ _ E), (step_bind _ _ _ _ _ (local_id_ok _ _ Hok1)).
  unfold local. msteps. change (local_node_ptr_ (w <| nodes_ := l0 |>)) with (local_node_ptr_ w). rewrite El. msteps.
  assert (forall p, p ∈ nodes_ w <-> p ∈ c) as Hall.
  { assert (rest = []) as ->; [|by intros p; rewrite <- Hp, app_nil_r].
    apply nil_length_inv. apply Permutation_length in Hp. rewrite length_app in Hp. lia. }
  set (ready := fun p : ptr => _).
  assert (forall p, ready p = true <-> fits p) as Hready.
  { intros p. apply (ready_iff lid l (hop_ids m) e (obj_of w p)). intros i. rewrite He.
    unfold hop_ids. set_solver. }
  destruct (List.filter ready c) as [|p rest'] eqn:Ef.
  - exists m, (w <| nodes_ := l0 |>), []. rewrite app_nil_r. splits; try done.
    left. splits; [done..|right]. intros p Hpw Hf%Hready. apply Hall in Hpw.
    assert (In p (List.filter ready c)) as Hin.
    { apply filter_In. split; [by apply list_elem_of_In|done]. }
    by rewrite Ef in Hin.
  - destruct (head_nearest w des ready c p rest' Hs Ef) as (Hpc & Hpr & Hpn).
    set (w1 := w <| nodes_ := l0 |>).
    destruct (SendData_node_spec w1 t m p Et) as [code Es].
    exists (SetVersion m), (push_net (node_packets m (obj_of w p)) w1),
      (node_packets m (obj_of w p)).
    splits; [by rewrite (step_bind _ _ _ _ _ Es)|by apply table_ok_push_net|done|done|].
    right. exists p. splits; [done|by apply Hall|by apply Hready| |done|done].
    intros q Hq Hfq. apply Hpn; [by apply Hall|by apply Hready].
Qed.

(** The message with this node added to its hops. *)
Definition with_hop (lid : string) (m : RoutingMessage) : RoutingMessage :=
  m <| msg_hop_nodes ::= fun h => h ++ [mkHopInfo (Some lid)] |>.

Lemma with_hop_ids lid m : hop_ids (with_hop lid m) = hop_ids m ++ [lid].
Proof. apply (fmap_app (get hop_node_id) (msg_hop_nodes m) [mkHopInfo (Some lid)]). Qed.

(** An active node sends what is not for itself on. *)
Lemma SendToClosestNode_forwards lid w l m :
  table_ok lid w -> local_node_ptr_ w = Some l -> get msg_des_node_id m <> lid ->
  ln_first_node l || joined_ w = true ->
  SendToClosestNode m w = RecursiveSend (with_hop lid m) 0 w.
Proof.
  intros Hok El Hne Hj. unfold SendToClosestNode, SendToClosestNode_hop.
  rewrite (step_bind _ _ _ _ _ (local_id_ok _ _ Hok)).
  rewrite (proj2 (String.eqb_neq _ _) Hne). unfold local. msteps. rewrite El. msteps.
  by destruct (ln_first_node l), (joined_ w).
Qed.

(** C14: a node that forwards a message adds itself to the hops and sends the
    message at most once. It sends nothing when a hop occurs twice (the message
    has been here before) or nobody is left to send it to; otherwise the
    receiver is in the table, has not seen the message, is not this node and
    is, among all such nodes, one nearest to the destination by xor. The hops
    of a message that is sent are always distinct, so no message goes round. *)
Theorem SendToClosestNode_loop_free lid w t l m :
  table_ok lid w -> transport_ptr_ w = Some t -> local_node_ptr_ w = Some l ->
  id_ok (get msg_des_node_id m) -> get msg_des_node_id m <> lid ->
  ln_first_node l || joined_ w = true ->
  let des := get msg_des_node_id m in
  let fits p := may_receive lid l (hop_ids m ++ [lid]) (obj_of w p) in
  exists m' w' sent, SendToClosestNode m w = Ok (m', w') /\ table_ok lid w' /\
    w_net w' = w_net w ++ sent /\ hop_ids m' = hop_ids m ++ [lid] /\
    ((sent = [] /\
        (~ NoDup (hop_ids m ++ [lid]) \/ forall p, p ∈ nodes_ w -> ~ fits p)) \/
     (exists p, NoDup (hop_ids m ++ [lid]) /\ p ∈ nodes_ w /\ fits p /\
        (forall q, q ∈ nodes_ w -> fits q ->
           (xor_distance (node_id (obj_of w p)) des <= xor_distance (node_id (obj_of w q)) des)%N) /\
        sent = node_packets (with_hop lid m) (obj_of w p))).
Proof.
  intros Hok Et El Hdes Hne Hj des fits.
  destruct (RecursiveSend_spec lid w t l (with_hop lid m) 0 Hok Et El Hdes)
    as (m' & w' & sent & E & Hok' & _ & Hnet & Hcase).
  rewrite with_hop_ids in Hcase. exists m', w', sent.
  split; [by rewrite (SendToClosestNode_forwards lid w l)|]. split; [done|]. split; [done|].
  destruct Hcase as [(-> & -> & Hc)|(p & Hn & Hp & Hf & Hnear & -> & ->)].
  - split; [apply with_hop_ids|]. left. split; [done|]. destruct Hc as [Hc|Hc]; [by left|]. by right.
  - split; [unfold hop_ids; rewrite SetVersion_hops; apply with_hop_ids|]. right. exists p. splits; try done.
    intros q Hq Hfq. by apply N.ltb_ge, Hnear.
Qed.

End facts.

Section witness.
Import Examples.
#[local] Existing Instance selection_sort.
#[local] Existing Instance countable_wire.

(** A message for "abzy" that has come through the node "zbcd". *)
Definition ex_routed : RoutingMessage :=
  RoutingMessage_empty <| msg_des_node_id := Some "abzy"%string |>
                       <| msg_hop_nodes := [mkHopInfo (Some "zbcd"%string)] |>.

Lemma SendToClosestNode_loop_free_witness :
  let w := ex_world <| joined_ := true |> in
  exists m' w' sent, SendToClosestNode ex_routed w = Ok (m', w') /\
    w_net w' = w_net w ++ sent /\ length sent = 1%nat.
Proof.
  intros w. assert (table_ok "abcd" w) as Hok.
  { apply (table_ok_core "abcd" ex_world); [reflexivity|exact ex_world_ok]. }
  destruct (SendToClosestNode_loop_free "abcd" w 9000 ex_local ex_routed Hok)
    as (m' & w' & sent & E & _ & En & _ & Hc); [reflexivity..|done|reflexivity|].
  exists m', w', sent. split; [exact E|]. split; [exact En|].
  assert (SendToClosestNode ex_routed w = Ok (m', w')) as E2 by exact E.
  destruct Hc as [[-> _]|(p & _ & _ & _ & _ & ->)].
  - exfalso. apply (f_equal (fun o => match o with Ok (_, s) => length (w_net s) | _ => 0%nat end)) in E2.
    cbn beta iota in E2. rewrite En in E2. vm_compute in E2. discriminate E2.
  - unfold node_packets, data_packets. destruct (same_vlan (obj_of w p)); reflexivity.
Defined.
End witness.
