(* ===== verification/NodeDetection.v ===== *)
(** src/node_detection_manager.cc: the manager that pings nodes behind a NAT
    until they answer. Its operations run inside the routing node: they share
    the NodeInfo objects of the table and send through its transport. *)

From S2P Require Import Prelude Externals Messages Distance Sorting NodeInfo LocalNodeInfo.
From S2P Require Import ClientNodes BootstrapCache World RoutingTable Sending.

Module NodeDetectionManager.
Section ops.
Context `{Xbase} `{KadKey} `{Xip} `{Wire}.

Definition kDoDetectionPeriod : Z := 600 * 1000.

(** The constructor: the timer is started. *)
Definition new : Detection := mkDetection ∅ ∅ false (Some (kDoDetectionPeriod, kDoDetectionPeriod)).

Definition detection : M Detection := d ← gets node_detection_ptr_; from_some NullDeref d.
Definition set_detection (f : Detection -> Detection) : M unit :=
  modify (fun w => w <| node_detection_ptr_ ::= fmap f |>).

Definition Join : M unit :=
  _ ← detection;
  set_detection (fun d => d <| det_destroy := true |> <| det_timer := None |>
                            <| detection_nodes_map := ∅ |> <| detected_nodes_map := ∅ |>).

Definition Detected (id : string) : M bool :=
  d ← detection;
  match detected_nodes_map d !! id with
  | None => mret false
  | Some p => n ← obj p; mret (3 <=? detection_count n)
  end.

(** The key of a node: its public endpoint. *)
Definition key_of (ip : string) (port : Z) : string := (ip +:+ "_" +:+ tostring port)%string.

Definition AddDetectionNode (node : ptr) : M Z :=
  d ← detection;
  if det_destroy d then mret kKadSuccess
  else
    n ← obj node;
    _ ← mutate node (fun n => n <| detection_delay_count :=
          if nat_type n =? kNatTypeConeAbnormal then 3 else 0 |>);
    let key := key_of (public_ip n) (public_port n) in
    match detection_nodes_map d !! key with
    | Some _ => mret kKadFailed
    | None =>
        _ ← set_detection (fun d => d <| detection_nodes_map ::= <[key := node]> |>);
        mret kKadSuccess
    end.

Definition RemoveDetection (ip : string) (port : Z) : M unit :=
  _ ← detection;
  set_detection (fun d => d <| detection_nodes_map ::= delete (key_of ip port) |>).

Definition Handshake_ (node : ptr) : M Z :=
  d ← detection;
  if det_destroy d then mret kKadSuccess
  else
    message ← SetFreqMessage RoutingMessage_empty;
    l ← local;
    n ← obj node;
    let message := message <| msg_des_service_type := Some (service_type n) |>
                           <| msg_des_node_id := Some (node_id n) |>
                           <| msg_type := Some kKadHandshake |> in
    let message := if ln_client_mode l then message <| msg_client_msg := Some true |>
                   else message in
    t ← gets transport_ptr_;
    match t with
    | None => mret kKadFailed
    | Some _ =>
        x ← gxid;
        let handshake :=
          Handshake_empty <| hs_type := Some kHandshakeRequest |>
            <| hs_local_ip := Some (ln_local_ip l) |>
            <| hs_local_port := Some (ln_local_port l) |>
            <| hs_public_ip := Some (ln_public_ip l) |>
            <| hs_public_port := Some (ln_public_port l) |>
            <| hs_nat_type := Some (ln_nat_type l) |>
            <| hs_xid := Some x |> in
        match SerializeToString handshake with
        | None => mret kKadFailed
        | Some data =>
            match SerializeToString (message <| msg_data := Some data |>) with
            | None => mret kKadFailed
            | Some msg =>
                _ ← transport_send (mkPacket KPing 0 msg (public_ip n) (public_port n));
                mret kKadSuccess
            end
        end
    end.

(** One iteration of the loop of DoTetection on the entry of [key]. *)
Definition detect_one (key : string) (p : ptr) : M unit :=
  n ← obj p;
  if 0 <? detection_delay_count n then
    c ← lift (int_dec (detection_delay_count n));
    mutate p (fun n => n <| detection_delay_count := c |>)
  else if kDetectionTimes <=? detection_count n then
    set_detection (fun d => d <| detection_nodes_map ::= delete key |>)
  else
    _ ← Handshake_ p;
    n ← obj p;
    c ← lift (int_inc (detection_count n));
    mutate p (fun n => n <| detection_count := c |>).

Definition DoTetection : M unit :=
  d ← detection;
  if det_destroy d then mret tt
  else
    for_each (entries_by string_ltb (detection_nodes_map d)) (fun e => detect_one e.1 e.2).

End ops.
End NodeDetectionManager.
