(* ===== verification/RoutingHandlers.v ===== *)
(** The message handlers and the requests of src/routing_table.cc: finding
    neighbours, connecting, the handshake, joining through a bootstrap node,
    heartbeats and node removal. A handler receives the message and the packet
    it came in; where the source writes the message it was given, the
    definition returns the new one. *)

From S2P Require Import Prelude Externals Messages Distance Sorting NodeInfo LocalNodeInfo.
From S2P Require Import ClientNodes BootstrapCache World RoutingTable Sending NodeDetection.

Section handlers.
Context `{Xbase} `{KadKey} `{Xip} `{PartialSort} `{Wire} `{Bloom}.

(** ** Joining: flags *)

Definition SetJoin (boot_id boot_ip : string) (boot_port : Z) : M bool :=
  joined ← gets joined_;
  if joined : bool then mret false
  else
    _ ← modify (fun w => w <| joined_ := true |> <| after_join_ := true |>
                           <| bootstrap_id_ := boot_id |> <| bootstrap_ip_ := boot_ip |>
                           <| bootstrap_port_ := u16 boot_port |>);
    mret true.

Definition SetUnJoin : M unit := modify (fun w => w <| joined_ := false |>).

Definition IsJoined : M bool := gets joined_.

Definition WakeBootstrap : M unit := modify (fun w => w <| bootstrap_wakeups ::= S |>).

Definition GetFindNodesMaxSize : M Z := gets RoutingMaxNodesSize_.

(** [if (client_mode()) { ... }] on a request, as SendConnectRequest does. *)
Definition mark_client (l : LocalNodeInfo) (id : string) (m : RoutingMessage) : RoutingMessage :=
  if ln_client_mode l then
    m <| msg_client_msg := Some true |> <| msg_relay_flag := Some true |>
      <| msg_request_type := Some true |> <| msg_client_id := Some id |>
  else m.

(** A request of this node to [des] of type [type], at flash priority. *)
Definition request (des : string) (des_service_type type : Z) : M RoutingMessage :=
  message ← SetFreqMessage RoutingMessage_empty;
  mret (message <| msg_des_service_type := Some des_service_type |>
                <| msg_des_node_id := Some des |>
                <| msg_type := Some type |>
                <| msg_priority := Some enum_xpacket_priority_type_flash |>).

(** ** Requests *)

Definition Bootstrap (peer_ip : string) (peer_port des_service_type : Z) : M Z :=
  message ← SetFreqMessage RoutingMessage_empty;
  l ← local; id ← local_id;
  let message := message <| msg_des_service_type := Some des_service_type |>
                         <| msg_priority := Some enum_xpacket_priority_type_flash |>
                         <| msg_des_node_id := Some ""%string |>
                         <| msg_type := Some kKadBootstrapJoinRequest |> in
  let message := if ln_client_mode l then
                   message <| msg_client_id := Some id |> <| msg_relay_flag := Some false |>
                 else message in
  x ← gxid;
  let join_req :=
    BootstrapJoinRequest_empty <| jreq_local_ip := Some (ln_local_ip l) |>
      <| jreq_local_port := Some (ln_local_port l) |>
      <| jreq_nat_type := Some (ln_nat_type l) |>
      <| jreq_xid := Some x |> in
  join_req ← (if negb (ln_client_mode l) then
                xp ← local_xip; mret (join_req <| jreq_xip := Some xp |>)
              else mret join_req);
  match SerializeToString join_req with
  | None => mret kKadFailed
  | Some data =>
      let message := SetSpeClientMessage (message <| msg_data := Some data |>) in
      '(r, _) ← SendData message peer_ip peer_port;
      mret r
  end.

Definition FindCloseNodesWithEndpoint (des_node_id : string) (boot_endpoints : string * Z)
    : M unit :=
  l ← local; id ← local_id;
  message ← request des_node_id (ln_service_type l) kKadFindNodesRequest;
  size ← GetFindNodesMaxSize;
  let find_nodes_req :=
    FindClosestNodesRequest_empty <| fnreq_count := Some size |>
                                  <| fnreq_target_id := Some id |> in
  match SerializeToString find_nodes_req with
  | None => mret tt
  | Some data =>
      let message := SetSpeClientMessage (message <| msg_data := Some data |>) in
      _ ← SendData message boot_endpoints.1 boot_endpoints.2;
      mret tt
  end.

Definition GetExistsNodesBloomfilter (nodes : list ptr) : M (list Z) :=
  w ← gets (fun w => w);
  mret (bf_Uint64Vector
    (foldl (fun f p => bf_Add (node_id (obj_of w p)) f)
       (bf_new kFindNodesBloomfilterBitSize kFindNodesBloomfilterHashNum) nodes)).

Definition SendFindClosestNodes (node_id : string) (count : Z) (nodes : list ptr)
    (des_service_type : Z) : M Z :=
  message ← request node_id des_service_type kKadFindNodesRequest;
  l ← local; id ← local_id;
  bloomfilter_vec ← GetExistsNodesBloomfilter nodes;
  xp ← local_xip;
  x ← gxid;
  let src_nodeinfo :=
    PbNodeInfo_empty <| pn_id := Some id |>
      <| pn_public_ip := Some (ln_public_ip l) |>
      <| pn_public_port := Some (ln_public_port l) |>
      <| pn_local_ip := Some (ln_local_ip l) |>
      <| pn_local_port := Some (ln_local_port l) |>
      <| pn_nat_type := Some (ln_nat_type l) |>
      <| pn_xip := Some xp |>
      <| pn_xid := Some x |> in
  let find_nodes_req :=
    FindClosestNodesRequest_empty <| fnreq_count := Some (u32 count) |>
      <| fnreq_target_id := Some id |>
      <| fnreq_bloomfilter := bloomfilter_vec |>
      <| fnreq_src_nodeinfo := Some src_nodeinfo |> in
  match SerializeToString find_nodes_req with
  | None => mret kKadFailed
  | Some data =>
      let message := SetSpeClientMessage (message <| msg_data := Some data |>) in
      node_ptr ← GetNode node_id;
      match node_ptr with
      | None => mret kKadNodeNotExists
      | Some p => _ ← SendData_node message p; mret kKadSuccess
      end
  end.

(** Draws of GetClosestAlphaNodes before it counts as not ending. *)
Definition alpha_fuel : nat := 64.

Definition FindClosestNodes (attempts count : Z) (nodes : list ptr) : M unit :=
  l ← local; joined ← gets joined_; size ← nodes_size;
  if negb (ln_first_node l) && negb joined && (size <=? 0) then mret tt
  else if attempts =? 0 then
    boot ← gets bootstrap_id_;
    _ ← SendFindClosestNodes boot count nodes (ln_service_type l);
    mret tt
  else
    query_nodes ← GetClosestAlphaNodes alpha_fuel;
    for_each (entries_by string_ltb query_nodes) (fun kv =>
      _ ← SendFindClosestNodes kv.1 count nodes (ln_service_type l);
      mret tt).

Definition SendHeartbeat (node_ptr : ptr) (des_service_type : Z) : M Z :=
  n ← obj node_ptr;
  message ← request (node_id n) des_service_type kKadHeartbeatRequest;
  info ← gets heart_beat_info_map_;
  match SerializeToString (mkHeartbeat info) with
  | None => mret kKadFailed
  | Some data =>
      let message := if negb (str_empty data) then message <| msg_data := Some data |>
                     else message in
      '(r, _) ← SendData_node message node_ptr;
      mret r
  end.

(** The body of a ConnectReq of this node. *)
Definition connect_req (l : LocalNodeInfo) : ConnectReq :=
  ConnectReq_empty <| creq_local_ip := Some (ln_local_ip l) |>
    <| creq_local_port := Some (ln_local_port l) |>
    <| creq_public_ip := Some (ln_public_ip l) |>
    <| creq_public_port := Some (ln_public_port l) |>
    <| creq_nat_type := Some (ln_nat_type l) |>.

Definition SendConnectRequest (id : string) (service_type : Z) : M unit :=
  message ← request id service_type kKadConnectRequest;
  l ← local; lid ← local_id;
  let message := mark_client l lid message in
  match SerializeToString (connect_req l) with
  | None => mret tt
  | Some data =>
      let message := message <| msg_data := Some data |> in
      if str_empty (ln_public_ip l) then mret tt
      else _ ← SendToClosestNode message; mret tt
  end.

(** The overload that sends through the node the answer came from. *)
Definition SendConnectRequest_via (findnodes_routing_id ip : string) (port : Z) (id : string)
    (service_type : Z) : M unit :=
  message ← request id service_type kKadConnectRequest;
  l ← local; lid ← local_id;
  let message := mark_client l lid message in
  let conn_req := (connect_req l) <| creq_relay_routing_id := Some findnodes_routing_id |> in
  match SerializeToString conn_req with
  | None => mret tt
  | Some data =>
      let message := message <| msg_data := Some data |> in
      if str_empty (ln_public_ip l) then mret tt
      else _ ← SendData message ip port; mret tt
  end.

(** The function returns at once. *)
Definition TellNeighborsDropAllNode : M unit := mret tt.

Definition SendDropNodeRequest (id : string) : M unit :=
  l ← local;
  if ln_client_mode l then mret tt
  else
    message ← request id (ln_service_type l) kKadDropNodeRequest;
    _ ← SendToClosestNode message;
    mret tt.

(** ** Handlers: finding nodes *)

(** [if (!message.has_data() || message.data().empty())]. *)
Definition no_data (m : RoutingMessage) : bool :=
  negb (is_set msg_data m) || str_empty (get msg_data m).

(** The fields a node takes from a NodeInfo message. *)
Definition of_pb (pn : PbNodeInfo) (n : NodeInfo) : NodeInfo :=
  n <| local_ip := get pn_local_ip pn |>
    <| local_port := u16 (get pn_local_port pn) |>
    <| public_ip := get pn_public_ip pn |>
    <| public_port := u16 (get pn_public_port pn) |>
    <| nat_type := get pn_nat_type pn |>
    <| xip := get pn_xip pn |>
    <| xid := get pn_xid pn |>
    <| hash64 := xhash64 (get pn_xid pn) |>.

(** The entry of the local node in an answer. *)
Definition pb_local (id ip : string) (port nat : Z) (xp x : string) : PbNodeInfo :=
  PbNodeInfo_empty <| pn_id := Some id |> <| pn_public_ip := Some ip |>
    <| pn_public_port := Some port |> <| pn_nat_type := Some nat |>
    <| pn_xip := Some xp |> <| pn_xid := Some x |>.

Definition pb_of (n : NodeInfo) : PbNodeInfo :=
  mkPbNodeInfo (Some (public_ip n)) (Some (public_port n)) (Some (local_ip n))
    (Some (local_port n)) (Some (node_id n)) (Some (nat_type n)) (Some (xip n)) (Some (xid n)).

(** The loop over the closest nodes: skip the target and what the asker
    knows, stop at sixteen entries. *)
Fixpoint answer_nodes (filter : Uint64BloomFilter) (target : string) (closest : list NodeInfo)
    (acc : list PbNodeInfo) : list PbNodeInfo :=
  match closest with
  | [] => acc
  | n :: closest' =>
      if (node_id n =? target)%string then answer_nodes filter target closest' acc
      else if bf_Contain filter (node_id n) then answer_nodes filter target closest' acc
      else if (16 <=? length acc)%nat then acc
      else answer_nodes filter target closest' (acc ++ [pb_of n])
  end.

(** The local node's own entry, when the asker may not know it. *)
Definition answer_self (filter : Uint64BloomFilter) : M (list PbNodeInfo) :=
  l ← local; id ← local_id;
  if ln_first_node l then
    if negb (bf_Contain filter id) then
      xp ← local_xip; x ← gxid;
      mret [pb_local id (ln_local_ip l) (ln_local_port l) (ln_nat_type l) xp x]
    else mret []
  else if negb (str_empty (ln_public_ip l)) && (0 <? ln_public_port l) then
    if negb (bf_Contain filter id) then
      xp ← local_xip; x ← gxid;
      mret [pb_local id (ln_public_ip l) (ln_public_port l) (ln_nat_type l) xp x]
    else mret []
  else mret [].

Definition request_filter (req : FindClosestNodesRequest) : Uint64BloomFilter :=
  match fnreq_bloomfilter req with
  | [] => bf_new kFindNodesBloomfilterBitSize kFindNodesBloomfilterHashNum
  | vec => bf_of_vec vec kFindNodesBloomfilterHashNum
  end.

Definition HandleFindNodesRequest (message : RoutingMessage) (packet : xpacket)
    : M RoutingMessage :=
  id ← local_id;
  if negb (get msg_des_node_id message =? id)%string then mret message
  else if no_data message then mret message
  else
    match ParseFromString (T := FindClosestNodesRequest) (get msg_data message) with
    | None => mret message
    | Some find_nodes_req =>
        let src_nodeinfo := get fnreq_src_nodeinfo find_nodes_req in
        req_src_node_ptr ← new_NodeInfo (get pn_id src_nodeinfo) (of_pb src_nodeinfo);
        src ← obj req_src_node_ptr;
        _ ← when (nat_type src =? kNatTypePublic)
              (can ← CanAddNode req_src_node_ptr;
               when can (_ ← AddNode req_src_node_ptr; mret tt));
        let new_bloomfilter := request_filter find_nodes_req in
        let target := get fnreq_target_id find_nodes_req in
        closest_nodes ← GetClosestNodes target (u32 (get fnreq_count find_nodes_req + 1)) false;
        self ← answer_self new_bloomfilter;
        w ← gets (fun w => w);
        let find_nodes_res :=
          answer_nodes new_bloomfilter target (obj_of w <$> closest_nodes) self in
        if (length find_nodes_res =? 0)%nat then mret message
        else
          match SerializeToString (mkFindClosestNodesResponse find_nodes_res) with
          | None => mret message
          | Some data =>
              res_message ← SetFreqMessage RoutingMessage_empty;
              let res_message :=
                res_message <| msg_des_node_id := Some (get msg_src_node_id message) |>
                  <| msg_type := Some kKadFindNodesResponse |>
                  <| msg_id := Some (get msg_id message) |>
                  <| msg_data := Some data |> in
              let message := message <| msg_priority := Some enum_xpacket_priority_type_flash |> in
              _ ← SendData res_message (get_from_ip_addr packet) (get_from_ip_port packet);
              mret message
          end
    end.

(** The body of the loop of HandleFindNodesResponse. *)
Definition handle_found_node (message : RoutingMessage) (packet : xpacket) (pn : PbNodeInfo)
    : M unit :=
  node_ptr ← new_NodeInfo (get pn_id pn)
    (fun n => (of_pb pn n) <| service_type := get msg_src_service_type message |>);
  can ← CanAddNode node_ptr;
  if negb can then mret tt
  else
    l ← local; id ← local_id;
    n ← obj node_ptr;
    if (public_ip n =? ln_public_ip l)%string && (public_port n =? ln_public_port l) then
      when (negb (node_id n =? id)%string)
        (x ← gxid;
         _ ← mutate node_ptr (fun n => n <| xid := x |> <| hash64 := xhash64 x |>);
         _ ← AddNode node_ptr;
         mret tt)
    else if (ln_nat_type l =? kNatTypeConeAbnormal) && (nat_type n =? kNatTypeConeAbnormal) then
      mret tt
    else if (nat_type n =? kNatTypePublic) ||
            ((local_ip n =? public_ip n)%string && (local_port n =? public_port n)) then
      _ ← AddNode node_ptr; mret tt
    else
      _ ← NodeDetectionManager.AddDetectionNode node_ptr;
      SendConnectRequest_via (get msg_src_node_id message) (get_from_ip_addr packet)
        (get_from_ip_port packet) (get pn_id pn) (get msg_src_service_type message).

Definition HandleFindNodesResponse (message : RoutingMessage) (packet : xpacket) : M unit :=
  id ← local_id;
  if negb (get msg_des_node_id message =? id)%string then mret tt
  else if no_data message then mret tt
  else
    match ParseFromString (T := FindClosestNodesResponse) (get msg_data message) with
    | None => mret tt
    | Some find_nodes_res => for_each (fnres_nodes find_nodes_res) (handle_found_node message packet)
    end.

(** ** Handlers: leaving, connecting, shaking hands *)

Definition HandleNodeQuit (message : RoutingMessage) (packet : xpacket) : M unit :=
  mine ← IsDestination (get msg_des_node_id message) false;
  if negb mine then mret tt
  else
    node_ptr ← new_NodeInfo (get msg_src_node_id message)
      (fun n => n <| xid := get msg_xid message |> <| hash64 := xhash64 (get msg_xid message) |>);
    _ ← DropNode node_ptr;
    mret tt.

Definition HandleConnectRequest (message : RoutingMessage) (packet : xpacket)
    : M RoutingMessage :=
  match ParseFromString (T := ConnectReq) (get msg_data message) with
  | None => mret message
  | Some conn_req =>
      mine ← IsDestination (get msg_des_node_id message) false;
      if negb mine then SendToClosestNode message
      else
        node_ptr ← new_NodeInfo (get msg_src_node_id message) (fun n =>
          n <| local_ip := get creq_local_ip conn_req |>
            <| local_port := u16 (get creq_local_port conn_req) |>
            <| public_ip := get creq_public_ip conn_req |>
            <| public_port := u16 (get creq_public_port conn_req) |>
            <| service_type := get msg_src_service_type message |>
            <| nat_type := get creq_nat_type conn_req |>);
        l ← local;
        n ← obj node_ptr;
        if (ln_nat_type l =? kNatTypeConeAbnormal) && (nat_type n =? kNatTypeConeAbnormal)
        then mret message
        else _ ← NodeDetectionManager.AddDetectionNode node_ptr; mret message
  end.

(** A message from or to a client carries [client_msg]. *)
Definition is_client_msg (m : RoutingMessage) : bool :=
  is_set msg_client_msg m && get msg_client_msg m.

(** HandleHandshake when the message is a response. *)
Definition handshake_response (message : RoutingMessage) (packet : xpacket)
    (handshake : Handshake) (node_ptr : ptr) : M unit :=
  n ← obj node_ptr;
  _ ← NodeDetectionManager.RemoveDetection (public_ip n) (public_port n);
  _ ← when ((get_from_ip_addr packet =? local_ip n)%string &&
            (get_from_ip_port packet =? local_port n) &&
            negb (public_ip n =? local_ip n)%string)
        (mutate node_ptr (fun n => n <| same_vlan := true |>));
  _ ← when (negb (is_client_msg message)) (_ ← AddNode node_ptr; mret tt);
  joined ← gets joined_;
  when (negb joined)
    (_ ← SetJoin (get msg_src_node_id message) (get hs_public_ip handshake)
           (get hs_public_port handshake);
     mret tt).

(** HandleHandshake when the message is a request. *)
Definition handshake_request (message : RoutingMessage) (packet : xpacket)
    (handshake : Handshake) (node_ptr : ptr) : M RoutingMessage :=
  can ← CanAddNode node_ptr;
  _ ← when can (_ ← NodeDetectionManager.AddDetectionNode node_ptr; mret tt);
  l ← local; x ← gxid; xp ← local_xip;
  let handshake :=
    handshake <| hs_type := Some kHandshakeResponse |>
      <| hs_local_ip := Some (ln_local_ip l) |>
      <| hs_local_port := Some (ln_local_port l) |>
      <| hs_public_ip := Some (ln_public_ip l) |>
      <| hs_public_port := Some (ln_public_port l) |>
      <| hs_nat_type := Some (ln_nat_type l) |>
      <| hs_xid := Some x |>
      <| hs_xip := Some xp |> in
  match SerializeToString handshake with
  | None => mret message
  | Some data =>
      res_message ← SetFreqMessage RoutingMessage_empty;
      let res_message :=
        res_message <| msg_src_service_type := Some (get msg_des_service_type message) |>
          <| msg_des_service_type := Some (get msg_src_service_type message) |>
          <| msg_src_node_id := Some (get msg_des_node_id message) |>
          <| msg_des_node_id := Some (get msg_src_node_id message) |>
          <| msg_type := Some kKadHandshake |>
          <| msg_id := Some (get msg_id message) |> in
      let message := message <| msg_priority := Some enum_xpacket_priority_type_flash |> in
      let res_message := if ln_client_mode l then res_message <| msg_client_msg := Some true |>
                         else res_message in
      _ ← SendData (res_message <| msg_data := Some data |>)
            (get_from_ip_addr packet) (get_from_ip_port packet);
      mret message
  end.

Definition HandleHandshake (message : RoutingMessage) (packet : xpacket) : M RoutingMessage :=
  mine ← IsDestination (get msg_des_node_id message) false;
  if negb mine then mret message
  else if no_data message then mret message
  else
    match ParseFromString (T := Handshake) (get msg_data message) with
    | None => mret message
    | Some handshake =>
        let '(pub_ip, pub_port) :=
          if str_empty (get hs_public_ip handshake)
          then (get_from_ip_addr packet, get_from_ip_port packet)
          else (get hs_public_ip handshake, u16 (get hs_public_port handshake)) in
        if str_empty pub_ip then raise AssertFailed
        else
          node_ptr ← new_NodeInfo (get msg_src_node_id message) (fun n =>
            n <| public_ip := pub_ip |> <| public_port := pub_port |>
              <| local_ip := get hs_local_ip handshake |>
              <| local_port := u16 (get hs_local_port handshake) |>
              <| service_type := get msg_src_service_type message |>
              <| nat_type := get hs_nat_type handshake |>
              <| xid := get hs_xid handshake |>
              <| hash64 := xhash64 (get hs_xid handshake) |>
              <| xip := get hs_xip handshake |>);
          if get hs_type handshake =? kHandshakeResponse
          then _ ← handshake_response message packet handshake node_ptr; mret message
          else handshake_request message packet handshake node_ptr
    end.

(** ** Handlers: bootstrap *)

Definition dy_manager : M DynamicXipManager.t := d ← gets dy_manager_; from_some NullDeref d.

(** The dynamic xip given to a client that joins. *)
Definition dispatch_dxip (packet : xpacket) : M string :=
  d ← dy_manager;
  l ← local;
  r ← lift (GetXipParser l);
  x ← lift (use_xip r);
  let '(dy_xip, d) := DynamicXipManager.DispatchDynamicXip x d in
  let client_ptr := ClientNodeInfo_new <| cn_public_ip := get_from_ip_addr packet |>
                                       <| cn_public_port := get_from_ip_port packet |> in
  let '(_, d) := DynamicXipManager.AddClientNode dy_xip client_ptr d in
  _ ← modify (fun w => w <| dy_manager_ := Some d |>);
  mret dy_xip.

Definition SendBootstrapJoinResponse (message : RoutingMessage) (packet : xpacket)
    : M RoutingMessage :=
  res_message ← SetFreqMessage RoutingMessage_empty;
  let res_message :=
    res_message <| msg_src_service_type := Some (get msg_des_service_type message) |>
      <| msg_des_service_type := Some (get msg_src_service_type message) |>
      <| msg_des_node_id := Some (get msg_src_node_id message) |>
      <| msg_type := Some kKadBootstrapJoinResponse |>
      <| msg_id := Some (get msg_id message) |>
      <| msg_debug := Some "join res"%string |>
      <| msg_status := Some (get msg_status message) |> in
  let message := message <| msg_priority := Some enum_xpacket_priority_type_flash |> in
  let client := is_client_msg message in
  let res_message := if client then res_message <| msg_client_msg := Some true |>
                     else res_message in
  x ← gxid; xp ← local_xip;
  let join_res :=
    BootstrapJoinResponse_empty <| jres_public_ip := Some (get_from_ip_addr packet) |>
      <| jres_public_port := Some (get_from_ip_port packet) |>
      <| jres_xid := Some x |> <| jres_xip := Some xp |> in
  join_res ← (if client : bool then
                dy_xip ← dispatch_dxip packet;
                mret (join_res <| jres_dxip := Some dy_xip |>)
              else mret join_res);
  if str_empty (get jres_public_ip join_res) || (get jres_public_port join_res <=? 0)
  then mret message
  else
    l ← local; id ← local_id;
    let join_res := join_res <| jres_bootstrap_id := Some id |>
                             <| jres_nat_type := Some (ln_nat_type l) |> in
    match SerializeToString join_res with
    | None => mret message
    | Some data =>
        _ ← SendData (res_message <| msg_data := Some data |>)
              (get_from_ip_addr packet) (get_from_ip_port packet);
        mret message
    end.

Definition HandleBootstrapJoinRequest (message : RoutingMessage) (packet : xpacket)
    : M RoutingMessage :=
  if no_data message then mret message
  else
    match ParseFromString (T := BootstrapJoinRequest) (get msg_data message) with
    | None => mret message
    | Some join_req =>
        node_ptr ← new_NodeInfo (get msg_src_node_id message) (fun n =>
          n <| local_ip := get jreq_local_ip join_req |>
            <| local_port := u16 (get jreq_local_port join_req) |>
            <| public_ip := get_from_ip_addr packet |>
            <| public_port := get_from_ip_port packet |>
            <| service_type := get msg_src_service_type message |>
            <| nat_type := get jreq_nat_type join_req |>
            <| xid := get jreq_xid join_req |>
            <| hash64 := xhash64 (get jreq_xid join_req) |>
            <| xip := get jreq_xip join_req |>);
        message ← SendBootstrapJoinResponse message packet;
        _ ← when (negb (is_client_msg message)) (_ ← AddNode node_ptr; mret tt);
        mret message
    end.

Definition HandleBootstrapJoinResponse (message : RoutingMessage) (packet : xpacket) : M unit :=
  mine ← IsDestination (get msg_des_node_id message) false;
  if negb mine then mret tt
  else if no_data message then mret tt
  else
    match ParseFromString (T := BootstrapJoinResponse) (get msg_data message) with
    | None => mret tt
    | Some join_res =>
        if kKadForbidden =? get msg_status message then mret tt
        else
          node_ptr ← new_NodeInfo (get msg_src_node_id message) (fun n =>
            n <| local_ip := get_from_ip_addr packet |>
              <| local_port := get_from_ip_port packet |>
              <| public_ip := get_from_ip_addr packet |>
              <| public_port := get_from_ip_port packet |>
              <| service_type := get msg_src_service_type message |>
              <| nat_type := get jres_nat_type join_res |>
              <| xid := get jres_xid join_res |>
              <| hash64 := xhash64 (get jres_xid join_res) |>
              <| xip := get jres_xip join_res |>);
          l ← local;
          _ ← set_local (fun l => l <| ln_public_ip := get jres_public_ip join_res |>
                                    <| ln_public_port := u16 (get jres_public_port join_res) |>);
          _ ← when (ln_client_mode l)
                (set_local (AddDxip (get msg_src_node_id message) (get jres_dxip join_res)));
          ret ← AddNode node_ptr;
          _ ← modify (fun w => w <| bootstrap_nodes_ ::= fun l => l ++ [node_ptr] |>);
          if negb (ret =? kKadSuccess) && negb (ret =? kKadNodeHasAdded) then mret tt
          else
            ok ← SetJoin (get jres_bootstrap_id join_res) (get_from_ip_addr packet)
                   (get_from_ip_port packet);
            if negb ok then mret tt
            else
              size ← GetFindNodesMaxSize;
              _ ← FindClosestNodes 1 (i32 size) [];
              WakeBootstrap
    end.

(** ** Handlers: heartbeats *)

Definition HandleHeartbeatRequest (message : RoutingMessage) (packet : xpacket)
    : M RoutingMessage :=
  mine ← IsDestination (get msg_des_node_id message) false;
  if negb mine then mret message
  else
    match ParseFromString (T := Messages.Heartbeat) (get msg_data message) with
    | None => mret message
    | Some heart_beat_info =>
        cb ← gets heart_beat_callback_;
        _ ← when cb (modify (fun w => w <| heart_beat_calls ::=
              fun l => l ++ [hb_extinfo_map heart_beat_info] |>));
        _ ← ResetNodeHeartbeat (get msg_src_node_id message);
        let message :=
          message <| msg_hop_nodes := [] |>
            <| msg_type := Some kKadHeartbeatResponse |>
            <| msg_des_node_id := Some (get msg_src_node_id message) |>
            <| msg_src_node_id := Some (get msg_des_node_id message) |>
            <| msg_priority := Some enum_xpacket_priority_type_flash |>
            <| msg_des_service_type := Some (get msg_src_service_type message) |> in
        '(_, message) ← SendData message (get_from_ip_addr packet) (get_from_ip_port packet);
        mret message
    end.

Definition HandleHeartbeatResponse (message : RoutingMessage) (packet : xpacket) : M unit :=
  ResetNodeHeartbeat (get msg_src_node_id message).

(** The base class ignores every other message. *)
Definition HandleMessage (message : RoutingMessage) (packet : xpacket) : M unit := mret tt.

(** ** Heartbeat payload *)

Definition AddHeartbeatInfo (key value : string) : M Z :=
  _ ← modify (fun w => w <| heart_beat_info_map_ ::= <[key := value]> |>);
  gets (fun w => u32 (Z.of_nat (base.size (heart_beat_info_map_ w)))).

Definition ClearHeartbeatInfo : M unit := modify (fun w => w <| heart_beat_info_map_ := ∅ |>).

Definition RegisterHeartbeatInfoCallback : M unit :=
  cb ← gets heart_beat_callback_;
  if cb : bool then raise AssertFailed
  else modify (fun w => w <| heart_beat_callback_ := true |>).

Definition UnRegisterHeartbeatInfoCallback : M unit :=
  modify (fun w => w <| heart_beat_callback_ := false |>).

Definition SupportSecurityJoin : M unit := modify (fun w => w <| security_frozen := Some [] |>).

End handlers.
