(* ===== verification/RoutingJoin.v ===== *)
(** The life cycle of the routing table in src/routing_table.cc: Init and
    UnInit, joining through the bootstrap endpoints (MultiJoin, its
    asynchronous variant, Rejoin), the periodic search for neighbours, and the
    link to the bootstrap cache helper. The loop of MultiJoin waits for other
    threads: it takes, for each round, what they do during the wait. *)

From S2P Require Import Prelude Externals Messages Distance Sorting NodeInfo LocalNodeInfo.
From S2P Require Import ClientNodes BootstrapCache World RoutingTable Sending NodeDetection.
From S2P Require Import RoutingHandlers.

Definition kHeartbeatPeriod : Z := 1 * 1000 * 1000.
Definition kRejoinPeriod : Z := 3 * 1000 * 1000.
Definition kFindNeighboursPeriod : Z := 3 * 1000 * 1000.

(** A std::set<pair<string, uint16_t>> in its order. *)
Definition endpoint_ltb (a b : string * Z) : bool :=
  if string_ltb a.1 b.1 then true
  else if string_ltb b.1 a.1 then false else a.2 <? b.2.

Definition endpoints_in_order (s : gset (string * Z)) : list (string * Z) :=
  sort_by endpoint_ltb (elements s).

Section join.
Context `{Xbase} `{KadKey} `{Xip} `{PartialSort} `{Wire} `{Bloom} `{Endpoints}.

(** ** Init and UnInit *)

(** [seed] is the uninitialized counter of the new DynamicXipManager. *)
Definition Init (seed : Z) : M bool :=
  _ ← modify (fun w => w <| bootstrap_cache_helper_ := Some BootstrapCacheHelper_new |>);
  t ← gets transport_ptr_;
  match t with
  | None => mret false
  | Some port =>
      lp ← gets local_node_ptr_;
      match lp with
      | None => mret false
      | Some _ =>
          id ← local_id;
          _ ← set_local (fun l => l <| ln_local_port := port |>);
          l ← local;
          _ ← when (ln_first_node l)
                (set_local (fun l => l <| ln_public_ip := ln_local_ip l |>
                                       <| ln_public_port := ln_local_port l |>));
          l ← local;
          x ← gxid;
          node_ptr ← new_NodeInfo id (fun n =>
            n <| local_ip := ln_local_ip l |> <| local_port := ln_local_port l |>
              <| public_ip := ln_public_ip l |> <| public_port := ln_public_port l |>
              <| xid := x |> <| hash64 := ln_hash64 l |>);
          _ ← modify (fun w => w <| node_hash_map_ ::=
                fun m => match m !! ln_hash64 l with
                         | Some _ => m | None => <[ln_hash64 l := node_ptr]> m end |>);
          _ ← modify (fun w =>
                w <| node_detection_ptr_ := Some NodeDetectionManager.new |>
                  <| dy_manager_ := Some (DynamicXipManager.init seed) |>
                  <| timer_heartbeat_ := Some (kHeartbeatPeriod, kHeartbeatPeriod) |>
                  <| offline_callbacks ::= S |>);
          _ ← when (negb (ln_first_node l))
                (modify (fun w => w <| timer_rejoin_ := Some (kRejoinPeriod, kRejoinPeriod) |>));
          _ ← modify (fun w =>
                w <| timer_find_neighbours_ := Some (kFindNeighboursPeriod, kFindNeighboursPeriod) |>);
          mret true
      end
  end.

Definition UnInit : M bool :=
  _ ← TellNeighborsDropAllNode;
  _ ← modify (fun w => w <| destroy_ := true |>);
  d ← gets node_detection_ptr_;
  _ ← match d with Some _ => NodeDetectionManager.Join | None => mret tt end;
  _ ← modify (fun w => w <| timer_rejoin_ := None |> <| timer_find_neighbours_ := None |>
                         <| timer_heartbeat_ := None |>
                         <| bootstrap_cache_helper_ ::= fmap BootstrapCacheHelper_Stop |>);
  mret true.

(** ** Joining *)

(** One request to every endpoint. *)
Definition bootstrap_all (boots : list (string * Z)) : M unit :=
  for_each boots (fun kv =>
    l ← local;
    _ ← Bootstrap kv.1 kv.2 (ln_service_type l);
    mret tt).

Definition next_wait (retried_times wait_time : Z) : Z :=
  if kJoinRetryTimes <? retried_times then
    let wait_time := u32 (wait_time * 2) in
    if 128 <? wait_time then 128 else wait_time
  else wait_time.

(** The loop of MultiJoin. [rounds] holds what the other threads do during the
    wait of each round; the answer comes with the waits, in seconds. *)
Fixpoint join_rounds (rounds : list (M unit)) (boots : list (string * Z))
    (retried_times wait_time : Z) : M (Z * list Z) :=
  match rounds with
  | [] => raise OutOfFuel
  | others :: rounds' =>
      _ ← bootstrap_all boots;
      _ ← others;
      joined ← gets joined_;
      if joined : bool then mret (kKadSuccess, [wait_time])
      else
        let retried_times := retried_times + 1 in
        '(code, waits) ← join_rounds rounds' boots retried_times
                            (next_wait retried_times wait_time);
        mret (code, wait_time :: waits)
  end.

Definition MultiJoin (rounds : list (M unit)) (boot_endpoints : gset (string * Z))
    : M (Z * list Z) :=
  joined ← gets joined_;
  if joined : bool then mret (kKadFailed, [])
  else join_rounds rounds (endpoints_in_order boot_endpoints) 0 4.

Definition MultiJoinAsync (boot_endpoints : gset (string * Z)) : M unit :=
  joined ← gets joined_;
  if joined : bool then mret tt
  else
    for_each (seq 0 (Z.to_nat kJoinRetryTimes)) (fun _ =>
      bootstrap_all (endpoints_in_order boot_endpoints)).

(** ** The bootstrap cache *)

Definition helper : M BootstrapCacheHelper :=
  h ← gets bootstrap_cache_helper_; from_some NullDeref h.

Definition GetPubEndpoints : M (list string) := h ← helper; mret (GetPublicEndpoints h).

Definition GetBootstrapCache (boot_endpoints : gset (string * Z)) : M (gset (string * Z)) :=
  h ← helper; mret (GetPublicEndpoints_set boot_endpoints h).

(** The functor StartBootstrapCacheSaver hands to the helper. *)
Definition get_public_nodes_functor : M (list NodeInfo) :=
  w ← gets (fun w => w);
  let public := List.filter IsPublicNode (obj_of w <$> nodes_ w) in
  mret (if negb (str_empty (bootstrap_ip_ w)) && (0 <=? bootstrap_port_ w) then
          public ++ [(NodeInfo_new (w_now w)) <| public_ip := bootstrap_ip_ w |>
                                              <| public_port := bootstrap_port_ w |>]
        else public).

(** The process-wide BootstrapCacheManager is passed in and out. *)
Definition StartBootstrapCacheSaver (m : BootstrapCacheManager.t)
    : M (bool * BootstrapCacheManager.t) :=
  h ← helper;
  l ← local;
  '(ok, h, m) ← lift (BootstrapCacheHelper_Start (ln_kadmlia_key l) true false m h);
  _ ← modify (fun w => w <| bootstrap_cache_helper_ := Some h |>);
  mret (ok, m).

(** ** Periodic work *)

(** [item] has the local node's own endpoints. *)
Definition same_endpoints (l : LocalNodeInfo) (n : NodeInfo) : bool :=
  (public_ip n =? ln_public_ip l)%string && (public_port n =? ln_public_port l) &&
  (local_ip n =? ln_local_ip l)%string && (local_port n =? ln_local_port l).

Definition Rejoin (rounds : list (M unit)) : M unit :=
  d ← gets destroy_;
  lp ← gets local_node_ptr_;
  t ← gets transport_ptr_;
  after ← gets after_join_;
  if d : bool then mret tt
  else
    match lp, t with
    | Some l, Some _ =>
        if ln_first_node l then mret tt
        else if negb after then mret tt
        else
          w ← gets (fun w => w);
          _ ← (if (length (nodes_ w) =? 0)%nat then SetUnJoin
               else when (length (nodes_ w) <=? 5)%nat
                      (when (forallb (same_endpoints l) (obj_of w <$> nodes_ w)) SetUnJoin));
          joined ← gets joined_;
          when (negb joined)
            (cache_bootstrap_set ← GetBootstrapCache ∅;
             w ← gets (fun w => w);
             let boots := list_to_set
               ((fun p => (public_ip (obj_of w p), public_port (obj_of w p))) <$> bootstrap_nodes_ w) in
             _ ← MultiJoin rounds (cache_bootstrap_set ∪ boots);
             mret tt)
    | _, _ => mret tt
    end.

Definition FindNeighbours : M unit :=
  d ← gets destroy_;
  lp ← gets local_node_ptr_;
  t ← gets transport_ptr_;
  if d : bool then mret tt
  else
    match lp, t with
    | Some _, Some _ =>
        tmp_vec ← sorted_neighbours;
        size ← GetFindNodesMaxSize;
        FindClosestNodes 1 (i32 size) tmp_vec
    | _, _ => mret tt
    end.

End join.
