(* ===== verification/HandlerFacts.v ===== *)
(** Every operation and every message handler keeps the table's invariant:
    [keeps lid m] says that [m], run on a well-formed node with id [lid], ends
    (when it does not fault) on a well-formed node. The rules are syntax
    directed; the tactic [keep] applies them. The section ends with the step
    relation of the node and the invariance of [table_ok] along every run. *)

From S2P Require Import Prelude Externals Messages Distance Sorting NodeInfo LocalNodeInfo.
From S2P Require Import ClientNodes BootstrapCache World RoutingTable TableFacts TableProps.
From S2P Require Import Sending NodeDetection RoutingHandlers RoutingJoin.

Section keeps.
Context `{Xbase} `{!XbaseLaws} `{KadKey} `{Xip} `{PartialSort} `{!PartialSortLaws}.
#[local] Set Default Proof Using "Type*".
Context (lid : string).

Definition keeps {A} (m : M A) : Prop :=
  forall w, table_ok lid w -> wlp m (fun _ w' => table_ok lid w') w.

(** ** Rules *)

Lemma keeps_ret {A} (a : A) : keeps (mret a).
Proof. by intros w Hw. Qed.

Lemma keeps_bind {A B} (m : M A) (f : A -> M B) :
  keeps m -> (forall a, keeps (f a)) -> keeps (m ≫= f).
Proof.
  intros Hm Hf w Hw. apply wlp_bind. eapply wlp_mono; [|by apply Hm].
  intros a w' Hw'. by apply Hf.
Qed.

Lemma keeps_gets {A} (f : World -> A) : keeps (gets f).
Proof. by intros w Hw. Qed.

Lemma keeps_raise {A} e : keeps (raise (A := A) e).
Proof. by intros w Hw. Qed.

Lemma keeps_lift {A} (o : outcome A) : keeps (lift o).
Proof. intros w Hw. by destruct o. Qed.

Lemma keeps_from_some {A} e (o : option A) : keeps (from_some e o).
Proof. intros w Hw. by destruct o. Qed.

Lemma keeps_when b (m : M unit) : keeps m -> keeps (when b m).
Proof. destruct b; [done|]. intros _. apply keeps_ret. Qed.

Lemma keeps_for_each {A} (l : list A) (f : A -> M unit) :
  (forall x, keeps (f x)) -> keeps (for_each l f).
Proof. intros Hf w Hw. by apply wlp_for_each; [|intros x w' _; apply Hf]. Qed.

Lemma keeps_modify (f : World -> World) : (forall w, core (f w) = core w) -> keeps (modify f).
Proof. intros Hf w Hw. unfold wlp, modify. by apply (table_ok_core lid w). Qed.

Lemma keeps_run {A} (f : World -> A * World) : (forall w, core (f w).2 = core w) -> keeps (run f).
Proof.
  intros Hf w Hw. unfold wlp, run. specialize (Hf w). destruct (f w) as [a w'].
  by apply (table_ok_core lid w).
Qed.

Lemma keeps_mutate p f : (forall n, vital (f n) = vital n) -> keeps (mutate p f).
Proof. intros Hf w Hw. apply table_ok_mutate; auto. Qed.

Lemma keeps_new_NodeInfo i f : keeps (new_NodeInfo i f).
Proof.
  apply keeps_bind; [apply keeps_gets|]. intros now w Hw. unfold alloc, run, wlp. by apply table_ok_alloc.
Qed.

Lemma keeps_set_local f :
  (forall l, ln_kadmlia_key (f l) = ln_kadmlia_key l) -> keeps (set_local f).
Proof.
  intros Hf. apply keeps_modify. intros w. unfold core, local_key. simpl.
  destruct (local_node_ptr_ w); [|done]. simpl. by rewrite Hf.
Qed.

Lemma keeps_AddNode p : keeps (AddNode p).
Proof.
  intros w Hw. destruct codes_distinct as (_ & Hc1 & Hc2).
  destruct (AddNode_spec lid w p kNodeIdSize_pos Hc1 Hc2 Hw) as (w' & E & Hok & _).
  unfold wlp. by rewrite E.
Qed.

Lemma keeps_CanAddNode p : keeps (CanAddNode p).
Proof.
  intros w Hw. destruct codes_distinct as (Hn & _ & _).
  destruct (CanAddNode_spec lid w p kNodeIdSize_pos Hn Hw) as (w' & E & Hok & _).
  unfold wlp. by rewrite E.
Qed.

Lemma keeps_DropNode p : keeps (DropNode p).
Proof.
  intros w Hw. destruct (DropNode_spec lid w p Hw) as (w' & E & Hok & _).
  unfold wlp. by rewrite E.
Qed.

Lemma keeps_sort cmp number : keeps (sort_nodes cmp number).
Proof.
  intros w Hw. unfold sort_nodes. apply wlp_bind. unfold wlp at 1. simpl.
  destruct (_ <=? 0); [done|].
  destruct (partial_sort _ _ _) as [l|e] eqn:E; [|done].
  apply (table_ok_perm lid w l); [by eapply partial_sort_perm|done].
Qed.
End keeps.

(** The rules as hints and the tactic that walks through a program. *)
#[export] Hint Resolve keeps_ret keeps_gets keeps_raise keeps_lift keeps_from_some
  keeps_new_NodeInfo keeps_AddNode keeps_CanAddNode keeps_DropNode keeps_sort : keep.

Ltac keep_step :=
  lazymatch goal with
  | |- keeps _ (_ ≫= _) => apply keeps_bind; [|intros ?]
  | |- keeps _ (when _ _) => apply keeps_when
  | |- keeps _ (for_each _ _) => apply keeps_for_each; intros ?
  | |- keeps _ (modify _) => apply keeps_modify; intros ?; reflexivity
  | |- keeps _ (run _) => apply keeps_run; intros ?; reflexivity
  | |- keeps _ (mutate _ _) => apply keeps_mutate; intros ?; reflexivity
  | |- keeps _ (set_local _) => apply keeps_set_local; intros ?; try reflexivity
  | |- keeps _ (let '_ := ?x in _) => destruct x
  | |- keeps _ (if ?b then _ else _) => destruct b
  | |- keeps _ (match ?x with _ => _ end) => destruct x
  | |- keeps _ ((match ?x with _ => _ end) _) => destruct x; cbv beta
  | |- keeps _ _ => solve [auto with keep nocore]
  end.
Ltac keep := repeat (cbv zeta; keep_step).

Section handlers.
Context `{Xbase} `{!XbaseLaws} `{KadKey} `{Xip} `{PartialSort} `{!PartialSortLaws} `{Wire} `{Bloom}.
#[local] Set Default Proof Using "Type*".
Context (lid : string).
Notation keeps := (keeps lid).

(** ** Queries and sending *)

Lemma keeps_local : keeps local.
Proof. unfold local. keep. Qed.
Lemma keeps_local_id : keeps local_id.
Proof. unfold local_id, local. keep. Qed.
Lemma keeps_local_xip : keeps local_xip.
Proof. unfold local_xip, local. keep. Qed.
Lemma keeps_gxid : keeps gxid.
Proof. unfold gxid. keep. Qed.
Lemma keeps_transport_send p : keeps (transport_send p).
Proof. unfold transport_send. keep. Qed.
Lemma keeps_obj p : keeps (obj p).
Proof. unfold obj. keep. Qed.
#[local] Hint Resolve keeps_local keeps_local_id keeps_local_xip keeps_gxid
  keeps_transport_send keeps_obj : keep.

Lemma keeps_GetClosestNodes target n b : keeps (GetClosestNodes target n b).
Proof. unfold GetClosestNodes, SortNodesByTargetXid, SortNodesByTargetXip, nodes. keep. Qed.
#[local] Hint Resolve keeps_GetClosestNodes : keep.

Lemma keeps_IsDestination des b : keeps (IsDestination des b).
Proof.
  unfold IsDestination, ClosestToTarget, GetClosestNode, closest_verdict, nodes_size. keep.
Qed.

Lemma keeps_SetFreqMessage m : keeps (SetFreqMessage m).
Proof. unfold SetFreqMessage, next_message_id. keep. Qed.

Lemma keeps_SendData m ip port : keeps (SendData m ip port).
Proof. unfold SendData, SendData_bytes. keep. Qed.
#[local] Hint Resolve keeps_IsDestination keeps_SetFreqMessage keeps_SendData : keep.

Lemma keeps_SendData_node m p : keeps (SendData_node m p).
Proof. unfold SendData_node. keep. Qed.
#[local] Hint Resolve keeps_SendData_node : keep.

Lemma keeps_SendToClosestNode m : keeps (SendToClosestNode m).
Proof. unfold SendToClosestNode, SendToClosestNode_hop, RecursiveSend. keep. Qed.

Lemma keeps_request des s t : keeps (request des s t).
Proof. unfold request. keep. Qed.
#[local] Hint Resolve keeps_SendToClosestNode keeps_request : keep.

Lemma keeps_SendFindClosestNodes i c l s : keeps (SendFindClosestNodes i c l s).
Proof. unfold SendFindClosestNodes, GetExistsNodesBloomfilter, GetNode. keep. Qed.
#[local] Hint Resolve keeps_SendFindClosestNodes : keep.

Lemma keeps_add_random fuel b s q : keeps (add_random_nodes fuel b s q).
Proof.
  revert q. induction fuel as [|fuel IH]; intros q; cbn [add_random_nodes];
    unfold nodes, RandomUint32; keep; auto.
Qed.
#[local] Hint Resolve keeps_add_random : keep.

Lemma keeps_FindClosestNodes a c l : keeps (FindClosestNodes a c l).
Proof.
  unfold FindClosestNodes, GetClosestAlphaNodes, SortNodesByTargetXid, nodes_size, nodes. keep.
Qed.

Lemma keeps_Bootstrap ip port s : keeps (Bootstrap ip port s).
Proof. unfold Bootstrap. keep. Qed.
#[local] Hint Resolve keeps_FindClosestNodes keeps_Bootstrap : keep.

Lemma keeps_AddDetectionNode p : keeps (NodeDetectionManager.AddDetectionNode p).
Proof.
  unfold NodeDetectionManager.AddDetectionNode, NodeDetectionManager.detection,
    NodeDetectionManager.set_detection. keep.
Qed.
#[local] Hint Resolve keeps_AddDetectionNode : keep.

Lemma keeps_RemoveDetection ip port : keeps (NodeDetectionManager.RemoveDetection ip port).
Proof.
  unfold NodeDetectionManager.RemoveDetection, NodeDetectionManager.detection,
    NodeDetectionManager.set_detection. keep.
Qed.

Lemma keeps_Handshake p : keeps (NodeDetectionManager.Handshake_ p).
Proof. unfold NodeDetectionManager.Handshake_, NodeDetectionManager.detection. keep. Qed.
#[local] Hint Resolve keeps_RemoveDetection keeps_Handshake : keep.

Lemma keeps_DoTetection : keeps NodeDetectionManager.DoTetection.
Proof.
  unfold NodeDetectionManager.DoTetection, NodeDetectionManager.detect_one,
    NodeDetectionManager.detection, NodeDetectionManager.set_detection. keep.
Qed.

Lemma keeps_SetJoin i ip port : keeps (SetJoin i ip port).
Proof. unfold SetJoin. keep. Qed.

Lemma keeps_ResetNodeHeartbeat i : keeps (ResetNodeHeartbeat i).
Proof. unfold ResetNodeHeartbeat. keep. Qed.

Lemma keeps_sorted_neighbours : keeps sorted_neighbours.
Proof. unfold sorted_neighbours, SortNodesByTargetXid, nodes. keep. Qed.

Lemma keeps_SetUnJoin : keeps SetUnJoin.
Proof. unfold SetUnJoin. keep. Qed.

Lemma keeps_SendConnectRequest_via i ip port d s : keeps (SendConnectRequest_via i ip port d s).
Proof. unfold SendConnectRequest_via. keep. Qed.
#[local] Hint Resolve keeps_SetJoin keeps_ResetNodeHeartbeat keeps_sorted_neighbours
  keeps_SetUnJoin keeps_SendConnectRequest_via : keep.

(** ** Handlers *)

Lemma keeps_HandleFindNodesRequest m p : keeps (HandleFindNodesRequest m p).
Proof. unfold HandleFindNodesRequest, answer_self. keep. Qed.

Lemma keeps_HandleFindNodesResponse m p : keeps (HandleFindNodesResponse m p).
Proof. unfold HandleFindNodesResponse, handle_found_node. keep. Qed.

Lemma keeps_HandleNodeQuit m p : keeps (HandleNodeQuit m p).
Proof. unfold HandleNodeQuit. keep. Qed.

Lemma keeps_HandleConnectRequest m p : keeps (HandleConnectRequest m p).
Proof. unfold HandleConnectRequest. keep. Qed.

Lemma keeps_HandleHandshake m p : keeps (HandleHandshake m p).
Proof. unfold HandleHandshake, handshake_request, handshake_response. keep. Qed.

Lemma keeps_SendBootstrapJoinResponse m p : keeps (SendBootstrapJoinResponse m p).
Proof. unfold SendBootstrapJoinResponse, dispatch_dxip, dy_manager. keep. Qed.
#[local] Hint Resolve keeps_SendBootstrapJoinResponse : keep.

Lemma keeps_HandleBootstrapJoinRequest m p : keeps (HandleBootstrapJoinRequest m p).
Proof. unfold HandleBootstrapJoinRequest. keep. Qed.

Lemma keeps_HandleBootstrapJoinResponse m p : keeps (HandleBootstrapJoinResponse m p).
Proof. unfold HandleBootstrapJoinResponse, GetFindNodesMaxSize, WakeBootstrap. keep. Qed.

Lemma keeps_HandleHeartbeatRequest m p : keeps (HandleHeartbeatRequest m p).
Proof. unfold HandleHeartbeatRequest. keep. Qed.

Lemma keeps_OnHeartbeatFailed ip port : keeps (OnHeartbeatFailed ip port).
Proof. unfold OnHeartbeatFailed. keep. Qed.

Lemma keeps_HeartbeatCheckProc : keeps HeartbeatCheckProc.
Proof. unfold HeartbeatCheckProc. keep. Qed.

Lemma keeps_HeartbeatProc : keeps HeartbeatProc.
Proof. unfold HeartbeatProc. keep. Qed.

Lemma keeps_CheckAndSendMultiRelay m : keeps (CheckAndSendMultiRelay m).
Proof. unfold CheckAndSendMultiRelay, FindClient. keep. Qed.

Lemma keeps_CheckAndSendRelay m : keeps (CheckAndSendRelay m).
Proof. unfold CheckAndSendRelay, FindClient. keep. Qed.
#[local] Hint Resolve keeps_CheckAndSendMultiRelay : keep.

Lemma keeps_SmartSendReply m b : keeps (SmartSendReply_hop m b).
Proof. unfold SmartSendReply_hop, SendToClosestNode_hop, RecursiveSend. keep. Qed.

Lemma keeps_PrintRoutingTable index opens : keeps (PrintRoutingTable index opens).
Proof. unfold PrintRoutingTable, SortNodesByTargetXid, nodes_size. keep. Qed.

(** ** Life cycle *)

Context `{Endpoints}.

Lemma keeps_Init seed : keeps (Init seed).
Proof. unfold Init. keep. Qed.

Lemma keeps_UnInit : keeps UnInit.
Proof.
  unfold UnInit, TellNeighborsDropAllNode, NodeDetectionManager.Join, NodeDetectionManager.detection,
    NodeDetectionManager.set_detection. keep.
Qed.

Lemma keeps_join_rounds rounds boots r t :
  (forall m, In m rounds -> keeps m) -> keeps (join_rounds rounds boots r t).
Proof.
  revert r t. induction rounds as [|m rounds IH]; intros r t Hr; cbn [join_rounds]; [keep|].
  unfold bootstrap_all. keep; [apply Hr; by left|apply IH; intros m' Hm'; apply Hr; by right].
Qed.

Lemma keeps_Rejoin rounds : (forall m, In m rounds -> keeps m) -> keeps (Rejoin rounds).
Proof.
  intros Hr. unfold Rejoin, GetBootstrapCache, helper, MultiJoin. keep. by apply keeps_join_rounds.
Qed.

Lemma keeps_FindNeighbours : keeps FindNeighbours.
Proof. unfold FindNeighbours, GetFindNodesMaxSize. keep. Qed.

(** ** Runs of the node *)

(** The entry points: messages, timers, transport callbacks, the life cycle.
    While MultiJoin waits, other entry points run. *)
Inductive operation : forall A, M A -> Prop :=
  | op_find_request m p : operation _ (HandleFindNodesRequest m p)
  | op_find_response m p : operation _ (HandleFindNodesResponse m p)
  | op_node_quit m p : operation _ (HandleNodeQuit m p)
  | op_connect m p : operation _ (HandleConnectRequest m p)
  | op_handshake m p : operation _ (HandleHandshake m p)
  | op_join_request m p : operation _ (HandleBootstrapJoinRequest m p)
  | op_join_response m p : operation _ (HandleBootstrapJoinResponse m p)
  | op_heartbeat_request m p : operation _ (HandleHeartbeatRequest m p)
  | op_heartbeat_response m p : operation _ (HandleHeartbeatResponse m p)
  | op_relay m : operation _ (CheckAndSendRelay m)
  | op_reply m b : operation _ (SmartSendReply_hop m b)
  | op_forward m : operation _ (SendToClosestNode m)
  | op_lost ip port : operation _ (OnHeartbeatFailed ip port)
  | op_heartbeat_timer : operation _ HeartbeatProc
  | op_heartbeat_check : operation _ HeartbeatCheckProc
  | op_print index opens : operation _ (PrintRoutingTable index opens)
  | op_detect : operation _ NodeDetectionManager.DoTetection
  | op_find_timer : operation _ FindNeighbours
  | op_rejoin rounds : (forall m, In m rounds -> operation _ m) -> operation _ (Rejoin rounds)
  | op_add p : operation _ (AddNode p)
  | op_drop p : operation _ (DropNode p)
  | op_init seed : operation _ (Init seed)
  | op_uninit : operation _ UnInit.

Lemma keeps_operation A (m : M A) : operation A m -> keeps m.
Proof.
  induction 1; auto using keeps_HandleFindNodesRequest, keeps_HandleFindNodesResponse,
    keeps_HandleNodeQuit, keeps_HandleConnectRequest, keeps_HandleHandshake,
    keeps_HandleBootstrapJoinRequest, keeps_HandleBootstrapJoinResponse,
    keeps_HandleHeartbeatRequest, keeps_ResetNodeHeartbeat, keeps_CheckAndSendRelay,
    keeps_SmartSendReply, keeps_SendToClosestNode, keeps_OnHeartbeatFailed, keeps_HeartbeatProc,
    keeps_HeartbeatCheckProc, keeps_PrintRoutingTable, keeps_DoTetection, keeps_FindNeighbours, keeps_Rejoin,
    keeps_AddNode, keeps_DropNode, keeps_Init, keeps_UnInit.
  apply keeps_ResetNodeHeartbeat.
Qed.

(** One step of the node: an entry point runs to its end, or time passes. *)
Inductive node_step (w : World) : World -> Prop :=
  | node_op A (m : M A) a w' : operation A m -> m w = Ok (a, w') -> node_step w w'
  | node_time now : node_step w (w <| w_now := now |>).

(** C3: whatever messages arrive, in whatever order, with whatever contents,
    and whatever timers and transport callbacks fire between them, the table of
    a node that starts well-formed stays well-formed: its ids stay distinct and
    different from the local one, the index stays exact, every bucket index is
    the bit length of the distance, no bucket exceeds eight nodes and the table
    never exceeds its capacity. *)
Theorem table_ok_invariant w w' :
  table_ok lid w -> rtc node_step w w' ->
  table_ok lid w' /\ Z.of_nat (length (nodes_ w')) <= kRoutingMaxNodesSize.
Proof.
  intros Hok Hs. assert (table_ok lid w') as Hok'.
  { induction Hs as [|w w1 w' Hstep _ IH]; [done|]. apply IH.
    destruct Hstep as [A m a w1 Hop E|now].
    - by eapply (wlp_elim m (fun _ => table_ok lid)); [apply keeps_operation|].
    - by apply (table_ok_core lid w). }
  split; [done|]. rewrite <- (ok_cap _ _ Hok'). by eapply table_size.
Qed.
End handlers.

Section witness.
Import Examples.
#[local] Existing Instance countable_wire.
#[local] Existing Instance selection_sort.

Lemma table_ok_invariant_witness :
  exists w', rtc node_step ex_world w' /\ table_ok "abcd" w'.
Proof.
  destruct (AddNode_spec "abcd" ex_world 5%positive) as (w' & E & _);
    [exact kNodeIdSize_pos|apply codes_distinct|apply codes_distinct|exact ex_world_ok|].
  assert (rtc node_step ex_world (w' <| w_now := 7 |>)) as Hs.
  { eapply rtc_l; [by apply (node_op _ _ _ _ _ (op_add _) E)|].
    apply rtc_once, node_time. }
  exists (w' <| w_now := 7 |>). split; [done|].
  exact (proj1 (table_ok_invariant "abcd" ex_world _ ex_world_ok Hs)).
Defined.
End witness.
