(* ===== verification/Frames.v ===== *)
(** What a program of the node leaves alone: [frames R m] says that the states
    before and after [m], when it does not fault, are related by the preorder
    [R]. The rules are syntax directed and the tactic [frame] applies them. Three
    instances: the operations of the table leave the environment of the node
    alone, the handlers of a search only add to the index, and no operation but
    Rejoin undoes a join. *)

From S2P Require Import Prelude Externals Messages Distance Sorting NodeInfo LocalNodeInfo.
From S2P Require Import ClientNodes BootstrapCache World RoutingTable Sending NodeDetection.
From S2P Require Import RoutingHandlers RoutingJoin.

Definition frames {S A} (R : relation S) (m : ST S A) : Prop :=
  forall w, wlp m (fun _ w' => R w w') w.

Section rules.
Context {S : Type} (R : relation S) `{!PreOrder R}.
#[local] Set Default Proof Using "Type*".

Lemma frames_ret {A} (a : A) : frames R (mret a).
Proof. intros w. change (R w w). reflexivity. Qed.

Lemma frames_bind {A B} (m : ST S A) (f : A -> ST S B) :
  frames R m -> (forall a, frames R (f a)) -> frames R (m ≫= f).
Proof.
  intros Hm Hf w. apply wlp_bind. eapply wlp_mono; [|apply Hm].
  intros a w' Hw'. eapply wlp_mono; [|apply Hf]. intros b w'' Hw''. by trans w'.
Qed.

Lemma frames_gets {A} (f : S -> A) : frames R (gets f).
Proof. intros w. change (R w w). reflexivity. Qed.

Lemma frames_raise {A} e : frames R (raise (A := A) e).
Proof. by intros w. Qed.

Lemma frames_lift {A} (o : outcome A) : frames R (lift o).
Proof. intros w. destruct o; [change (R w w); reflexivity|done]. Qed.

Lemma frames_from_some {A} e (o : option A) : frames R (from_some e o).
Proof. intros w. destruct o; [change (R w w); reflexivity|done]. Qed.

Lemma frames_when b (m : ST S unit) : frames R m -> frames R (when b m).
Proof. destruct b; [done|]. intros _. apply frames_ret. Qed.

Lemma frames_for_each {A} (l : list A) (f : A -> ST S unit) :
  (forall x, frames R (f x)) -> frames R (for_each l f).
Proof.
  intros Hf. induction l as [|x l IH]; [apply frames_ret|]. by apply frames_bind.
Qed.

Lemma frames_modify (f : S -> S) : (forall w, R w (f w)) -> frames R (modify f).
Proof. intros Hf w. apply Hf. Qed.

Lemma frames_run {A} (f : S -> A * S) : (forall w, R w (f w).2) -> frames R (run f).
Proof. intros Hf w. unfold wlp, run. specialize (Hf w). by destruct (f w). Qed.
End rules.

Create HintDb frame.

Ltac frame_step :=
  lazymatch goal with
  | |- frames ?R (_ ≫= _) => apply (frames_bind R); [|intros ?]
  | |- frames ?R (when _ _) => apply (frames_when R)
  | |- frames ?R (for_each _ _) => apply (frames_for_each R); intros ?
  | |- frames ?R (modify _) => apply (frames_modify R); intros ?
  | |- frames ?R (run _) => apply (frames_run R); intros ?
  | |- frames _ (mutate _ _) => unfold mutate
  | |- frames _ (set_local _) => unfold set_local
  | |- frames _ (alloc _) => unfold alloc
  | |- frames _ (let '_ := ?x in _) => destruct x
  | |- frames _ (if ?b then _ else _) => destruct b
  | |- frames _ (match ?x with _ => _ end) => destruct x
  | |- frames _ ((match ?x with _ => _ end) _) => destruct x; cbv beta
  | |- frames ?R _ =>
      solve [apply (frames_ret R) | apply (frames_gets R) | apply (frames_raise R)
            | apply (frames_lift R) | apply (frames_from_some R) | auto with frame nocore]
  end.
Ltac frame := repeat (cbv zeta; frame_step).

(** ** The table operations and the environment *)

Section env.
Context `{Xbase} `{KadKey} `{Xip} `{PartialSort}.

(** Everything but the objects, the table and its views. *)
Definition env (w : World) :=
  (local_node_ptr_ w, transport_ptr_ w, w_global_xid w, (w_net w, msg_id_ w, w_send_result w),
   (joined_ w, node_detection_ptr_ w, dy_manager_ w, clients w)).

Definition same_env : relation World := fun w w' => env w' = env w.

#[export] Instance same_env_preorder : PreOrder same_env.
Proof. split; [done|]. intros w1 w2 w3 E1 E2. by transitivity (env w2). Qed.

Lemma env_new_NodeInfo i f : frames same_env (new_NodeInfo i f).
Proof. unfold new_NodeInfo. frame; by unfold same_env. Qed.

Lemma env_sort cmp n : frames same_env (sort_nodes cmp n).
Proof. unfold sort_nodes. frame; by unfold same_env. Qed.
#[local] Hint Resolve env_sort : frame.

Lemma env_SetNodeBucket p : frames same_env (SetNodeBucket p).
Proof. unfold SetNodeBucket, local_id, local, obj. frame; by unfold same_env. Qed.
#[local] Hint Resolve env_SetNodeBucket : frame.

Lemma env_AddNode p : frames same_env (AddNode p).
Proof.
  unfold AddNode, local_id, local, obj, ValidNode, HasNode, SortNodesByTargetXid,
    NewNodeReplaceOldNode, refresh_unlocked, nodes, nodes_size, obj. frame; by unfold same_env.
Qed.

Lemma env_CanAddNode p : frames same_env (CanAddNode p).
Proof.
  unfold CanAddNode, local_id, local, obj, ValidNode, HasNode, SortNodesByTargetXid,
    NewNodeReplaceOldNode, nodes_size, obj. frame; by unfold same_env.
Qed.
End env.

(** ** The operations that remove no node *)

Section grows.
Context `{Xbase} `{KadKey} `{Xip} `{PartialSort} `{Wire}.

(** The index only grows. *)
Definition grows : relation World := fun w w' => node_id_map_ w ⊆ node_id_map_ w'.

#[export] Instance grows_preorder : PreOrder grows.
Proof. split; [by intros w; unfold grows|]. intros w1 w2 w3 E1 E2. unfold grows in *. by etrans. Qed.

#[local] Ltac grow := frame; unfold grows; reflexivity.

Lemma grows_new_NodeInfo i f : frames grows (new_NodeInfo i f).
Proof. unfold new_NodeInfo. grow. Qed.
Lemma grows_mutate p f : frames grows (mutate p f).
Proof. grow. Qed.
Lemma grows_local : frames grows local.
Proof. unfold local. grow. Qed.
Lemma grows_local_id : frames grows local_id.
Proof. unfold local_id, local. grow. Qed.
Lemma grows_gxid : frames grows gxid.
Proof. unfold gxid. grow. Qed.
Lemma grows_sort cmp n : frames grows (sort_nodes cmp n).
Proof. unfold sort_nodes. grow. Qed.
#[local] Hint Resolve grows_local grows_local_id grows_gxid grows_sort : frame.

Lemma grows_SetNodeBucket p : frames grows (SetNodeBucket p).
Proof. unfold SetNodeBucket, obj. grow. Qed.
#[local] Hint Resolve grows_SetNodeBucket : frame.

Lemma grows_AddNode p : frames grows (AddNode p).
Proof.
  unfold AddNode, obj, ValidNode, HasNode, SortNodesByTargetXid, NewNodeReplaceOldNode,
    refresh_unlocked, nodes, nodes_size, obj. frame; unfold grows; try reflexivity.
  simpl. destruct (_ !! _) eqn:?; [done|]. by apply insert_subseteq.
Qed.

Lemma grows_CanAddNode p : frames grows (CanAddNode p).
Proof.
  unfold CanAddNode, obj, ValidNode, HasNode, SortNodesByTargetXid, NewNodeReplaceOldNode,
    nodes_size, obj. grow.
Qed.

Lemma grows_AddDetectionNode p : frames grows (NodeDetectionManager.AddDetectionNode p).
Proof.
  unfold NodeDetectionManager.AddDetectionNode, NodeDetectionManager.detection,
    NodeDetectionManager.set_detection, obj. grow.
Qed.

Lemma grows_SendData m ip port : frames grows (SendData m ip port).
Proof. unfold SendData, SendData_bytes, transport_send. grow. Qed.

Lemma grows_request des s t : frames grows (request des s t).
Proof. unfold request, SetFreqMessage, next_message_id. grow. Qed.
#[local] Hint Resolve grows_SendData grows_request : frame.

Lemma grows_SendConnectRequest_via i ip port d s : frames grows (SendConnectRequest_via i ip port d s).
Proof. unfold SendConnectRequest_via. grow. Qed.
#[local] Hint Resolve grows_new_NodeInfo grows_AddNode grows_CanAddNode grows_AddDetectionNode
  grows_SendConnectRequest_via : frame.

Lemma grows_found_node m p pn : frames grows (handle_found_node m p pn).
Proof. unfold handle_found_node, obj. grow. Qed.
End grows.

(** ** The table operations and what the handlers dereference *)

Section sys.
Context `{Xbase} `{KadKey} `{Xip} `{PartialSort}.

(** The mode and the xip of the node, and which of its objects exist. *)
Definition sys (w : World) :=
  ((fun l => (ln_client_mode l, ln_xip l)) <$> local_node_ptr_ w,
   (fun _ => tt) <$> transport_ptr_ w, (fun _ => tt) <$> w_global_xid w,
   (fun _ => tt) <$> node_detection_ptr_ w, (fun _ => tt) <$> dy_manager_ w).

Definition same_sys : relation World := fun w w' => sys w' = sys w.

#[export] Instance same_sys_preorder : PreOrder same_sys.
Proof. split; [done|]. intros w1 w2 w3 E1 E2. by transitivity (sys w2). Qed.

Lemma same_env_sys w w' : same_env w w' -> same_sys w w'.
Proof. unfold same_env, same_sys, env, sys. intros E.
  injection E as -> -> -> _ _ _ _ -> -> _. done.
Qed.

Lemma sys_set_local f :
  (forall l, ln_client_mode (f l) = ln_client_mode l /\ ln_xip (f l) = ln_xip l) ->
  frames same_sys (set_local f).
Proof.
  intros Hf w. unfold set_local, modify, wlp, same_sys, sys. simpl.
  destruct (local_node_ptr_ w) as [l|]; [|done]. simpl. by destruct (Hf l) as [-> ->].
Qed.

Lemma sys_DropNode p : frames same_sys (DropNode p).
Proof.
  unfold DropNode, local, obj, refresh_unlocked, nodes.
  repeat (cbv zeta; lazymatch goal with
  | |- frames _ (set_local (DropDxip _)) => apply sys_set_local; intros l;
      by destruct (DropDxip_frame (node_id a) l) as (? & ? & ->)
  | _ => frame_step end); by unfold same_sys.
Qed.
End sys.

(** ** Joining is not undone *)

Section joined.
Context `{Xbase} `{KadKey} `{Xip} `{PartialSort} `{Wire} `{Bloom}.

(** What SetJoin writes. *)
Definition join_state (w : World) :=
  (joined_ w, bootstrap_id_ w, bootstrap_ip_ w, bootstrap_port_ w).

(** Once joined, the join state stays. *)
Definition join_kept : relation World := fun w w' =>
  joined_ w = true -> join_state w' = join_state w.

#[export] Instance join_kept_preorder : PreOrder join_kept.
Proof.
  split; [by intros w _|]. intros w1 w2 w3 H1' H2' E. specialize (H1' E).
  rewrite H2'; [done|]. unfold join_state in H1'. congruence.
Qed.

Lemma join_kept_same w w' : join_state w' = join_state w -> join_kept w w'.
Proof. by intros E _. Qed.
#[local] Hint Resolve join_kept_same : core.
#[local] Hint Extern 0 (join_kept _ _) => apply join_kept_same; reflexivity : core.

#[local] Ltac frame_all := frame; auto.

Lemma join_local : frames join_kept local.
Proof. unfold local. frame_all. Qed.
Lemma join_local_id : frames join_kept local_id.
Proof. unfold local_id, local. frame_all. Qed.
Lemma join_local_xip : frames join_kept local_xip.
Proof. unfold local_xip, local. frame_all. Qed.
Lemma join_gxid : frames join_kept gxid.
Proof. unfold gxid. frame_all. Qed.
Lemma join_transport_send p : frames join_kept (transport_send p).
Proof. unfold transport_send. frame_all. Qed.
Lemma join_obj p : frames join_kept (obj p).
Proof. unfold obj. frame_all. Qed.
Lemma join_new_NodeInfo i f : frames join_kept (new_NodeInfo i f).
Proof. unfold new_NodeInfo. frame_all. Qed.
Lemma join_sort cmp n : frames join_kept (sort_nodes cmp n).
Proof. unfold sort_nodes. frame_all. Qed.
#[local] Hint Resolve join_local join_local_id join_local_xip join_gxid join_transport_send
  join_obj join_new_NodeInfo join_sort : frame.

Lemma join_SetNodeBucket p : frames join_kept (SetNodeBucket p).
Proof. unfold SetNodeBucket. frame_all. Qed.
#[local] Hint Resolve join_SetNodeBucket : frame.

Lemma join_AddNode p : frames join_kept (AddNode p).
Proof.
  unfold AddNode, ValidNode, HasNode, SortNodesByTargetXid, NewNodeReplaceOldNode,
    refresh_unlocked, nodes, nodes_size. frame_all.
Qed.
Lemma join_CanAddNode p : frames join_kept (CanAddNode p).
Proof.
  unfold CanAddNode, ValidNode, HasNode, SortNodesByTargetXid, NewNodeReplaceOldNode, nodes_size.
  frame_all.
Qed.
Lemma join_DropNode p : frames join_kept (DropNode p).
Proof. unfold DropNode, refresh_unlocked, nodes. frame_all. Qed.
Lemma join_GetClosestNodes x n b : frames join_kept (GetClosestNodes x n b).
Proof. unfold GetClosestNodes, SortNodesByTargetXid, SortNodesByTargetXip, nodes. frame_all. Qed.
#[local] Hint Resolve join_AddNode join_CanAddNode join_DropNode join_GetClosestNodes : frame.

Lemma join_IsDestination des b : frames join_kept (IsDestination des b).
Proof.
  unfold IsDestination, ClosestToTarget, GetClosestNode, closest_verdict, nodes_size. frame_all.
Qed.
Lemma join_SetFreqMessage m : frames join_kept (SetFreqMessage m).
Proof. unfold SetFreqMessage, next_message_id. frame_all. Qed.
Lemma join_SendData m ip port : frames join_kept (SendData m ip port).
Proof. unfold SendData, SendData_bytes. frame_all. Qed.
#[local] Hint Resolve join_IsDestination join_SetFreqMessage join_SendData : frame.

Lemma join_SendData_node m p : frames join_kept (SendData_node m p).
Proof. unfold SendData_node. frame_all. Qed.
#[local] Hint Resolve join_SendData_node : frame.

Lemma join_SendToClosestNode_hop m b : frames join_kept (SendToClosestNode_hop m b).
Proof. unfold SendToClosestNode_hop, RecursiveSend. frame_all. Qed.
Lemma join_request des s t : frames join_kept (request des s t).
Proof. unfold request. frame_all. Qed.
#[local] Hint Resolve join_SendToClosestNode_hop join_request : frame.

Lemma join_SendFindClosestNodes i c l s : frames join_kept (SendFindClosestNodes i c l s).
Proof. unfold SendFindClosestNodes, GetExistsNodesBloomfilter, GetNode. frame_all. Qed.
#[local] Hint Resolve join_SendFindClosestNodes : frame.

Lemma join_add_random fuel b s q : frames join_kept (add_random_nodes fuel b s q).
Proof.
  revert q. induction fuel as [|fuel IH]; intros q; cbn [add_random_nodes];
    unfold nodes, RandomUint32; frame_all.
Qed.
#[local] Hint Resolve join_add_random : frame.

Lemma join_FindClosestNodes a c l : frames join_kept (FindClosestNodes a c l).
Proof.
  unfold FindClosestNodes, GetClosestAlphaNodes, SortNodesByTargetXid, nodes_size, nodes. frame_all.
Qed.
Lemma join_AddDetectionNode p : frames join_kept (NodeDetectionManager.AddDetectionNode p).
Proof.
  unfold NodeDetectionManager.AddDetectionNode, NodeDetectionManager.detection,
    NodeDetectionManager.set_detection. frame_all.
Qed.
Lemma join_RemoveDetection ip port :
  frames join_kept (NodeDetectionManager.RemoveDetection ip port).
Proof.
  unfold NodeDetectionManager.RemoveDetection, NodeDetectionManager.detection,
    NodeDetectionManager.set_detection. frame_all.
Qed.
#[local] Hint Resolve join_FindClosestNodes join_AddDetectionNode join_RemoveDetection : frame.

Lemma join_SetJoin i ip port : frames join_kept (SetJoin i ip port).
Proof.
  intros w. unfold SetJoin. apply wlp_bind. unfold wlp at 1. simpl.
  destruct (joined_ w) eqn:E; [by apply join_kept_same|].
  unfold wlp. simpl. intros E'. congruence.
Qed.
Lemma join_ResetNodeHeartbeat i : frames join_kept (ResetNodeHeartbeat i).
Proof. unfold ResetNodeHeartbeat. frame_all. Qed.
Lemma join_SendConnectRequest_via i ip port d s :
  frames join_kept (SendConnectRequest_via i ip port d s).
Proof. unfold SendConnectRequest_via. frame_all. Qed.
#[local] Hint Resolve join_SetJoin join_ResetNodeHeartbeat join_SendConnectRequest_via : frame.

Lemma join_SendBootstrapJoinResponse m p : frames join_kept (SendBootstrapJoinResponse m p).
Proof. unfold SendBootstrapJoinResponse, dispatch_dxip, dy_manager. frame_all. Qed.
#[local] Hint Resolve join_SendBootstrapJoinResponse : frame.

(** The message handlers of the routing table. *)
Inductive handler : forall A, M A -> Prop :=
  | h_find_request m p : handler _ (HandleFindNodesRequest m p)
  | h_find_response m p : handler _ (HandleFindNodesResponse m p)
  | h_node_quit m p : handler _ (HandleNodeQuit m p)
  | h_connect m p : handler _ (HandleConnectRequest m p)
  | h_handshake m p : handler _ (HandleHandshake m p)
  | h_join_request m p : handler _ (HandleBootstrapJoinRequest m p)
  | h_join_response m p : handler _ (HandleBootstrapJoinResponse m p)
  | h_heartbeat_request m p : handler _ (HandleHeartbeatRequest m p)
  | h_heartbeat_response m p : handler _ (HandleHeartbeatResponse m p)
  | h_forward m : handler _ (SendToClosestNode m)
  | h_lost ip port : handler _ (OnHeartbeatFailed ip port).

Lemma join_handler A (m : M A) : handler A m -> frames join_kept m.
Proof.
  destruct 1; [unfold HandleFindNodesRequest, answer_self
    | unfold HandleFindNodesResponse, handle_found_node
    | unfold HandleNodeQuit
    | unfold HandleConnectRequest, SendToClosestNode
    | unfold HandleHandshake, handshake_request, handshake_response
    | unfold HandleBootstrapJoinRequest
    | unfold HandleBootstrapJoinResponse, GetFindNodesMaxSize, WakeBootstrap
    | unfold HandleHeartbeatRequest
    | unfold HandleHeartbeatResponse
    | unfold SendToClosestNode
    | unfold OnHeartbeatFailed]; frame_all.
Qed.

(** ** Looking for nodes leaves what the node knows of itself *)

Definition same_local : relation World := fun w w' => local_node_ptr_ w' = local_node_ptr_ w.

#[export] Instance same_local_preorder : PreOrder same_local.
Proof. split; [done|]. intros w1 w2 w3 E1 E2. by transitivity (local_node_ptr_ w2). Qed.

#[local] Ltac frame_local := frame; by unfold same_local.

Lemma local_SetFreqMessage m : frames same_local (SetFreqMessage m).
Proof. unfold SetFreqMessage, next_message_id, local_id, local, gxid. frame_local. Qed.
Lemma local_SendData m ip port : frames same_local (SendData m ip port).
Proof. unfold SendData, SendData_bytes, transport_send. frame_local. Qed.
#[local] Hint Resolve local_SetFreqMessage local_SendData : frame.

Lemma local_SendData_node m p : frames same_local (SendData_node m p).
Proof. unfold SendData_node, obj, transport_send. frame_local. Qed.
Lemma local_sort cmp n : frames same_local (sort_nodes cmp n).
Proof. unfold sort_nodes. frame_local. Qed.
Lemma local_request des s t : frames same_local (request des s t).
Proof. unfold request. frame_local. Qed.
#[local] Hint Resolve local_SendData_node local_sort local_request : frame.

Lemma local_GetClosestNodes x n b : frames same_local (GetClosestNodes x n b).
Proof. unfold GetClosestNodes, SortNodesByTargetXid, SortNodesByTargetXip, nodes. frame_local. Qed.
#[local] Hint Resolve local_GetClosestNodes : frame.

Lemma local_SendToClosestNode_hop m b : frames same_local (SendToClosestNode_hop m b).
Proof. unfold SendToClosestNode_hop, RecursiveSend, local_id, local, obj. frame_local. Qed.
#[local] Hint Resolve local_SendToClosestNode_hop : frame.

Lemma local_SendFindClosestNodes i c l s : frames same_local (SendFindClosestNodes i c l s).
Proof.
  unfold SendFindClosestNodes, GetExistsNodesBloomfilter, GetNode, local_id, local_xip, local, gxid, obj.
  frame_local.
Qed.
Lemma local_add_random fuel b s q : frames same_local (add_random_nodes fuel b s q).
Proof.
  revert q. induction fuel as [|fuel IH]; intros q; cbn [add_random_nodes];
    unfold nodes, RandomUint32; frame; auto; unfold same_local; done.
Qed.
#[local] Hint Resolve local_SendFindClosestNodes local_add_random : frame.

Lemma local_FindClosestNodes a c l : frames same_local (FindClosestNodes a c l).
Proof.
  unfold FindClosestNodes, GetClosestAlphaNodes, SortNodesByTargetXid, nodes_size, nodes, local_id, local.
  frame_local.
Qed.

(** ** A ping leaves the objects and the detection manager *)

(** The objects and the detection manager stay as they are. *)
Definition same_detection : relation World := fun w w' =>
  w_heap w' = w_heap w /\ node_detection_ptr_ w' = node_detection_ptr_ w.

#[export] Instance same_detection_preorder : PreOrder same_detection.
Proof. split; [done|]. intros w1 w2 w3 [E1 E2] [E3 E4]. split; congruence. Qed.

Lemma frames_Handshake p : frames same_detection (NodeDetectionManager.Handshake_ p).
Proof.
  unfold NodeDetectionManager.Handshake_, NodeDetectionManager.detection, SetFreqMessage, local_id, local, gxid, next_message_id,
    transport_send, obj. frame; done.
Qed.

(** Messages and transport callbacks, one after the other. *)
Inductive handler_step (w : World) : World -> Prop :=
  | handler_run A (m : M A) a w' : handler A m -> m w = Ok (a, w') -> handler_step w w'.
End joined.
