(* ===== verification/TableSpec.v ===== *)
(** The abstract specification of the routing table and the proof that the code
    implements it: a table is a finite map from node ids to public endpoints,
    its buckets are the classes of ids whose distance to the local id has the
    same bit length, and no bucket holds more than eight ids. Nothing of the
    concrete state is left in it: no objects, no order of nodes_, no bucket
    indices, no second index. *)

From stdpp Require Import sorting.
From S2P Require Import Prelude Externals Messages Distance Sorting NodeInfo LocalNodeInfo.
From S2P Require Import ClientNodes BootstrapCache World RoutingTable TableFacts TableProps Frames.

(** ** The specification *)

(** Endpoints by id. *)
Notation kbuckets := (gmap string (string * Z)).

Section spec.
Context `{Xbase}.

(** What a node is to the table: id, ip, port, NAT type. *)
Definition peer : Type := string * string * Z * Z.
Definition peer_id (n : peer) : string := n.1.1.1.
Definition peer_endpoint (n : peer) : string * Z := (n.1.1.2, n.1.2).
Definition peer_nat (n : peer) : Z := n.2.

(** Whether the table of [lid] may hold [n] at all. *)
Definition eligible (lid : string) (n : peer) : bool :=
  negb (peer_nat n =? kNatTypeUnknown) && (negb (peer_id n =? lid)%string &&
  ((String.length (peer_id n) =? kNodeIdSize)%nat &&
   negb (str_empty (peer_endpoint n).1 || ((peer_endpoint n).2 <=? 0)))).

(** The ids in the bucket of [i]. *)
Definition bucket_mates (lid i : string) (t : kbuckets) : kbuckets :=
  filter (fun e => N.size (xor_distance lid e.1) = N.size (xor_distance lid i)) t.

Definition spec_add (lid : string) (n : peer) (t : kbuckets) : Z * kbuckets :=
  if negb (eligible lid n) then (kKadFailed, t)
  else if decide (is_Some (t !! peer_id n)) then (kKadNodeHasAdded, t)
  else if (8 <=? base.size (bucket_mates lid (peer_id n) t))%nat then (kKadFailed, t)
  else (kKadSuccess, <[peer_id n := peer_endpoint n]> t).

(** The [k] ids nearest to [target], nearest first. *)
Definition spec_closest (target : string) (k : nat) (t : kbuckets) : list string :=
  take k (sort_by (fun a b => xor_distance a target <? xor_distance b target)%N (map_to_list t).*1).

(** Whether a message for [des] ends at [lid]. *)
Definition spec_destination (lid des : string) (t : kbuckets) : bool :=
  bool_decide (des = lid) ||
  (bool_decide (t = ∅) ||
   ((String.length des =? kNodeIdSize)%nat &&
    bool_decide (map_Forall (fun i _ => (xor_distance lid des < xor_distance i des)%N) t))).

(** The operations on a table; [A] names the nodes. *)
Inductive command (A : Type) :=
  | CAdd (n : A)
  | CCanAdd (n : A)
  | CDrop (n : A)
  | CHas (n : A)
  | CLost (ip : string) (port : Z)
  | CClosest (target : string) (number : Z)
  | CDestination (des : string).
#[global] Arguments CLost {A}.
#[global] Arguments CClosest {A}.
#[global] Arguments CDestination {A}.
#[global] Arguments CAdd {A}.
#[global] Arguments CCanAdd {A}.
#[global] Arguments CDrop {A}.
#[global] Arguments CHas {A}.

Inductive answer :=
  | ACode (code : Z)
  | ABool (b : bool)
  | ANodes (ids : list string)
  | ADone.

Definition spec_command (lid : string) (c : command peer) (t : kbuckets) : answer * kbuckets :=
  match c with
  | CAdd n => let '(code, t') := spec_add lid n t in (ACode code, t')
  | CCanAdd n => (ABool (bool_decide ((spec_add lid n t).1 = kKadSuccess)), t)
  | CDrop n => (ACode kKadSuccess, delete (peer_id n) t)
  | CHas n => (ABool (bool_decide (is_Some (t !! peer_id n))), t)
  | CLost ip port => (ADone, filter (fun e => e.2 <> (ip, port)) t)
  | CClosest target number => (ANodes (spec_closest target (Z.to_nat number) t), t)
  | CDestination des => (ABool (spec_destination lid des t), t)
  end.

Fixpoint spec_commands (lid : string) (cs : list (command peer)) (t : kbuckets)
    : list answer * kbuckets :=
  match cs with
  | [] => ([], t)
  | c :: cs' =>
      let '(a, t) := spec_command lid c t in
      let '(l, t) := spec_commands lid cs' t in (a :: l, t)
  end.

(** What the code needs: targets of full length, counts that fit an int. *)
Definition well_formed {A} (c : command A) : Prop :=
  match c with
  | CClosest target number => id_ok target /\ 0 <= number < 2 ^ 31
  | _ => True
  end.
End spec.

(** ** The code *)

Section code.
Context `{Xbase} `{!XbaseLaws} `{KadKey} `{Xip} `{PartialSort} `{!PartialSortLaws}.
#[local] Set Default Proof Using "Type*".
Implicit Types (w : World) (p : ptr).

Definition run_command (c : command ptr) : M answer :=
  match c with
  | CAdd p => code ← AddNode p; mret (ACode code)
  | CCanAdd p => b ← CanAddNode p; mret (ABool b)
  | CDrop p => code ← DropNode p; mret (ACode code)
  | CHas p => b ← HasNode p; mret (ABool b)
  | CLost ip port => _ ← OnHeartbeatFailed ip port; mret ADone
  | CClosest target number =>
      l ← GetClosestNodes target number false;
      w ← gets (fun w => w);
      mret (ANodes ((fun p => node_id (obj_of w p)) <$> l))
  | CDestination des => b ← IsDestination des true; mret (ABool b)
  end.

Fixpoint run_commands (cs : list (command ptr)) : M (list answer) :=
  match cs with
  | [] => mret []
  | c :: cs' => a ← run_command c; l ← run_commands cs'; mret (a :: l)
  end.

(** ** The abstraction *)

Definition peer_of (n : NodeInfo) : peer := (node_id n, public_ip n, public_port n, nat_type n).

Definition abs (w : World) : kbuckets := (fun p => peer_endpoint (peer_of (obj_of w p))) <$> node_id_map_ w.

Definition name (w : World) (c : command ptr) : command peer :=
  match c with
  | CAdd p => CAdd (peer_of (obj_of w p))
  | CCanAdd p => CCanAdd (peer_of (obj_of w p))
  | CDrop p => CDrop (peer_of (obj_of w p))
  | CHas p => CHas (peer_of (obj_of w p))
  | CLost ip port => CLost ip port
  | CClosest target number => CClosest target number
  | CDestination des => CDestination des
  end.

(** The objects are to the table what they were. *)
Definition same_peers : relation World := fun w w' =>
  forall p, peer_of (obj_of w' p) = peer_of (obj_of w p).

#[export] Instance same_peers_preorder : PreOrder same_peers.
Proof. split; [by intros w p|]. intros w1 w2 w3 H12 H23 p. by rewrite H23. Qed.

Lemma same_peers_heap w w' : w_heap w' = w_heap w -> same_peers w w'.
Proof. intros E p. unfold obj_of. by rewrite E. Qed.

Lemma same_peers_mutate p (f : NodeInfo -> NodeInfo) :
  (forall n, peer_of (f n) = peer_of n) -> frames same_peers (mutate p f).
Proof.
  intros Hf. unfold mutate. apply (frames_modify same_peers). intros w q.
  destruct (decide (q = p)) as [->|Hne].
  - destruct (w_heap w !! p) as [n|] eqn:E.
    + rewrite lookup_obj_alter by done. apply Hf.
    + unfold obj_of. simpl. by rewrite !lookup_total_alt, lookup_alter_eq, E.
  - unfold obj_of. simpl. by rewrite lookup_total_alter_ne.
Qed.

Lemma same_peers_sort cmp n : frames same_peers (sort_nodes cmp n).
Proof. unfold sort_nodes. frame. by apply same_peers_heap. Qed.

Lemma same_peers_SetNodeBucket p : frames same_peers (SetNodeBucket p).
Proof.
  unfold SetNodeBucket, local_id, local, obj.
  repeat first [by apply same_peers_mutate | frame_step].
Qed.
#[local] Hint Resolve same_peers_sort same_peers_SetNodeBucket : frame.

Lemma same_peers_AddNode p : frames same_peers (AddNode p).
Proof.
  unfold AddNode, local_id, local, obj, ValidNode, HasNode, SortNodesByTargetXid,
    NewNodeReplaceOldNode, refresh_unlocked, nodes, nodes_size, obj. frame; by apply same_peers_heap.
Qed.

Lemma same_peers_CanAddNode p : frames same_peers (CanAddNode p).
Proof.
  unfold CanAddNode, local_id, local, obj, ValidNode, HasNode, SortNodesByTargetXid,
    NewNodeReplaceOldNode, nodes_size, obj. frame; by apply same_peers_heap.
Qed.

(** ** Reading the abstraction *)

Lemma abs_spec lid w i e :
  table_ok lid w ->
  abs w !! i = Some e <->
  exists p, p ∈ nodes_ w /\ node_id (obj_of w p) = i /\ e = peer_endpoint (peer_of (obj_of w p)).
Proof.
  intros Hok. unfold abs. rewrite lookup_fmap_Some. setoid_rewrite (ok_map _ _ Hok).
  naive_solver.
Qed.

Lemma abs_is_Some lid w i :
  table_ok lid w -> is_Some (abs w !! i) <-> exists p, p ∈ nodes_ w /\ node_id (obj_of w p) = i.
Proof.
  intros Hok. split; [intros [e He]; apply (abs_spec lid) in He; naive_solver|].
  intros (p & Hp & Hi). eexists. apply (abs_spec lid); [done|]. by exists p.
Qed.

Lemma abs_has lid w i : table_ok lid w -> has_id w i = bool_decide (is_Some (abs w !! i)).
Proof.
  intros Hok. unfold has_id, abs. rewrite lookup_fmap.
  by destruct (node_id_map_ w !! i).
Qed.

(** What neither the order of nodes_ nor the bucket fields decide. *)
Lemma abs_same w w' : same_peers w w' -> node_id_map_ w' = node_id_map_ w -> abs w' = abs w.
Proof.
  intros Hs Em. unfold abs. rewrite Em. apply map_fmap_ext. intros i p _.
  by rewrite Hs.
Qed.

Definition ids (w : World) : list string := (fun p => node_id (obj_of w p)) <$> nodes_ w.

Lemma abs_keys lid w : table_ok lid w -> (map_to_list (abs w)).*1 ≡ₚ ids w.
Proof.
  intros Hok. apply NoDup_Permutation; [apply NoDup_fst_map_to_list|apply (ok_nodup _ _ Hok)|].
  intros i. unfold ids. rewrite !list_elem_of_fmap. split.
  - intros ([j e] & -> & He%elem_of_map_to_list). apply (abs_spec lid) in He as (p & Hp & Hi & _); [|done].
    by exists p.
  - intros (p & -> & Hp). eexists (_, _). split; [reflexivity|].
    apply elem_of_map_to_list, (abs_spec lid); [done|]. by exists p.
Qed.

Lemma length_filter_fmap {A B} (f : A -> B) (P : B -> Prop) `{!forall x, Decision (P x)} l :
  length (filter P (f <$> l)) = length (filter (fun x => P (f x)) l).
Proof.
  induction l as [|x l IH]; [done|]. cbn [fmap list_fmap]. rewrite !filter_cons.
  destruct (decide (P (f x))); simpl; by rewrite IH.
Qed.

(** The bucket of the code and the bucket of the specification. *)
Lemma abs_bucket lid w i :
  table_ok lid w ->
  base.size (bucket_mates lid i (abs w)) =
  in_bucket w (Z.of_N (N.size (xor_distance lid i))) (nodes_ w).
Proof.
  intros Hok. unfold bucket_mates, in_bucket.
  set (Q := fun j => N.size (xor_distance lid j) = N.size (xor_distance lid i)).
  assert (forall m : kbuckets, base.size (filter (fun e => Q e.1) m) =
    length (filter Q (map_to_list m).*1)) as Hsize.
  { intros m. rewrite length_filter_fmap. rewrite map_filter_alt, <- length_map_to_list.
    rewrite map_to_list_to_map; [done|]. apply NoDup_fmap_fst.
    - intros k e1 e2 [_ He1%elem_of_map_to_list]%list_elem_of_filter
        [_ He2%elem_of_map_to_list]%list_elem_of_filter. congruence.
    - apply NoDup_filter, NoDup_map_to_list. }
  rewrite Hsize, (abs_keys lid) by done. unfold ids. rewrite length_filter_fmap. f_equal.
  apply filter_ext_in. intros p Hp. unfold Q.
  destruct (ok_valid _ _ Hok p Hp) as (_ & _ & _ & _ & _ & ->). lia.
Qed.

(** ** Each operation *)

Lemma eligible_of lid n : eligible lid (peer_of n) = acceptable lid n.
Proof. done. Qed.

Lemma refine_add lid w p :
  table_ok lid w ->
  spec_add lid (peer_of (obj_of w p)) (abs w) =
  (add_code lid w (obj_of w p),
   if add_code lid w (obj_of w p) =? kKadSuccess
   then <[node_id (obj_of w p) := peer_endpoint (peer_of (obj_of w p))]> (abs w) else abs w).
Proof.
  intros Hok. destruct codes_distinct as (_ & Hf & Ha).
  unfold spec_add, add_code. rewrite eligible_of, (abs_has lid), (abs_bucket lid) by done.
  change (peer_id (peer_of (obj_of w p))) with (node_id (obj_of w p)).
  destruct (acceptable lid _); cbn [negb]; [|by rewrite (proj2 (Z.eqb_neq _ _)) by congruence].
  case_bool_decide as Hh.
  { rewrite decide_True by done. by rewrite (proj2 (Z.eqb_neq _ _)) by congruence. }
  rewrite decide_False by done. unfold has_room, bucket_of. set (k := in_bucket _ _ _).
  unfold kKadParamK. destruct (Nat.leb_spec 8 k).
  - rewrite (proj2 (Z.leb_le _ _)) by lia. cbn [negb].
    by rewrite (proj2 (Z.eqb_neq _ _)) by congruence.
  - rewrite (proj2 (Z.leb_gt _ _)) by lia. cbn [negb]. by rewrite Z.eqb_refl.
Qed.

(** The code's state simulates the table [t]. *)
Definition simulates (lid : string) (w0 : World) (t : kbuckets) (w : World) : Prop :=
  table_ok lid w /\ same_peers w0 w /\ t = abs w.

Definition refines (lid : string) (w0 : World) (c : command ptr) : Prop :=
  forall t w, simulates lid w0 t w ->
  exists w', run_command c w = Ok ((spec_command lid (name w0 c) t).1, w') /\
    simulates lid w0 (spec_command lid (name w0 c) t).2 w'.

Lemma refines_add lid w0 p : refines lid w0 (CAdd p).
Proof.
  intros t w (Hok & Hs & ->). destruct codes_distinct as (_ & Hf & Ha).
  destruct (AddNode_spec lid w p kNodeIdSize_pos Hf Ha Hok) as (w' & E & Hok' & Hm).
  pose proof (wlp_elim _ (fun _ => same_peers w) _ _ _ (same_peers_AddNode p w) E) as Hsame.
  cbn [run_command name spec_command]. rewrite <- Hs, refine_add by done.
  rewrite (step_bind _ _ _ _ _ E). cbn [fst snd]. exists w'. split; [done|].
  split; [done|split; [by trans w|]].
  destruct (add_code lid w (obj_of w p) =? kKadSuccess).
  - destruct Hm as (_ & Em & _). unfold abs. rewrite Em, fmap_insert, Hsame. f_equal.
    apply map_fmap_ext. intros i q _. by rewrite Hsame.
  - destruct Hm as (_ & Em & _). symmetry. by apply abs_same.
Qed.

Lemma refines_can_add lid w0 p : refines lid w0 (CCanAdd p).
Proof.
  intros t w (Hok & Hs & ->). destruct codes_distinct as (Hnd & Hf & Ha).
  destruct (CanAddNode_spec lid w p kNodeIdSize_pos Hnd Hok) as (w' & E & Hok' & _ & Em & _).
  pose proof (wlp_elim _ (fun _ => same_peers w) _ _ _ (same_peers_CanAddNode p w) E) as Hsame.
  cbn [run_command name spec_command]. rewrite <- Hs, refine_add by done.
  rewrite (step_bind _ _ _ _ _ E). cbn [fst snd]. exists w'. split.
  - assert (acceptable lid (obj_of w p) && negb (has_id w (node_id (obj_of w p))) &&
      has_room lid w (obj_of w p) = bool_decide (add_code lid w (obj_of w p) = kKadSuccess)) as ->;
      [|done].
    unfold add_code. destruct (acceptable lid _), (has_id w _), (has_room lid w _); cbn [negb andb];
      symmetry; (by apply bool_decide_eq_true_2) || (apply bool_decide_eq_false_2; congruence).
  - split; [done|split; [by trans w|]]. symmetry. by apply abs_same.
Qed.

Lemma refines_drop lid w0 p : refines lid w0 (CDrop p).
Proof.
  intros t w (Hok & Hs & ->).
  destruct (DropNode_spec lid w p Hok) as (w' & E & Hok' & Eh & _ & Em & _).
  pose proof (same_peers_heap w w' Eh) as Hsame.
  cbn [run_command name spec_command]. rewrite <- Hs.
  rewrite (step_bind _ _ _ _ _ E). cbn [fst snd]. exists w'. split; [done|].
  split; [done|split; [by trans w|]]. unfold abs. rewrite Em, fmap_delete. f_equal.
  apply map_fmap_ext. intros i q _. by rewrite Hsame.
Qed.

Lemma refines_has lid w0 p : refines lid w0 (CHas p).
Proof.
  intros t w (Hok & Hs & ->). cbn [run_command name spec_command].
  rewrite (step_bind _ _ _ _ _ (HasNode_spec w p)). rewrite <- Hs, (abs_has lid) by done.
  exists w. split; [done|]. done.
Qed.

Lemma refines_lost lid w0 ip port : refines lid w0 (CLost ip port).
Proof.
  intros t w (Hok & Hs & ->). cbn [run_command name spec_command fst snd].
  unfold OnHeartbeatFailed. rewrite step_assoc. mstep. set (failed := filter _ _).
  destruct (DropNodes_ok lid failed w Hok) as (w' & E & Hok' & Eh & Hq).
  rewrite (step_bind _ _ _ _ _ E). exists w'. split; [done|].
  pose proof (same_peers_heap w w' Eh) as Hsame.
  split; [done|split; [by trans w|]]. apply map_eq. intros i. apply option_eq. intros e.
  rewrite map_lookup_filter_Some, (abs_spec lid w), (abs_spec lid w') by done. cbn [snd].
  assert (forall q, obj_of w' q = obj_of w q) as Eo by (intros q; unfold obj_of; by rewrite Eh).
  split.
  - intros [(p & Hp & Hi & ->) He]. exists p. rewrite Eo, Hq. splits; [done| |done|done].
    intros r [Hr Hin]%list_elem_of_filter Er.
    assert (r = p) as -> by (by apply (ok_id_inj lid w)). apply He. by destruct Hr as [<- <-].
  - intros (p & Hp & Hi & ->). rewrite Eo in *. apply Hq in Hp as [Hp Hno]. split; [by exists p|].
    intros Ee. apply (Hno p); [|done]. apply list_elem_of_filter. split; [|done].
    unfold peer_endpoint, peer_of in Ee. simpl in Ee. by injection Ee.
Qed.

(** A list sorted by distance to the target. *)
Lemma nearest_sorted lid w target l :
  table_ok lid w -> nearest w target l ->
  StronglySorted (fun a b => (xor_distance b target <? xor_distance a target)%N = false)
    ((fun p => node_id (obj_of w p)) <$> l).
Proof.
  intros Hok [_ Hs]. apply (StronglySorted_fmap _ (fun p q => nearer w target q p = false)); [done|].
  revert Hs. induction l as [|x l IH]; intros Hs; [constructor|]. constructor.
  - apply IH. intros i j p q Hij Hi Hj. apply (Hs (S i) (S j)); [lia|done|done].
  - apply Forall_forall. intros q Hq. apply list_elem_of_lookup in Hq as [j Hj].
    apply (Hs 0%nat (S j) x q); [lia|done|done].
Qed.

(** The nearest nodes are determined: no two ids are equally near. *)
Lemma spec_closest_of lid w target l k :
  table_ok lid w -> id_ok target -> nearest w target l ->
  length l = Nat.min k (length (nodes_ w)) ->
  spec_closest target k (abs w) = (fun p => node_id (obj_of w p)) <$> l.
Proof.
  intros Hok Ht Hnear Hlen. pose proof Hnear as [(rest & Hperm & Hr) _].
  set (f := fun p => node_id (obj_of w p)).
  set (lt := fun a b => (xor_distance a target <? xor_distance b target)%N).
  set (L := sort_by lt (map_to_list (abs w)).*1). set (R := sort_by lt (f <$> rest)).
  assert (forall l', StronglySorted (fun a b => lt b a = false) (sort_by lt l')) as Hsort.
  { intros l'. apply sort_by_sorted; unfold lt; intros; rewrite ?N.ltb_lt, ?N.ltb_ge in *; lia. }
  assert (L ≡ₚ (f <$> l) ++ R) as HL.
  { unfold L, R. rewrite !sort_by_perm, (abs_keys lid) by done. unfold ids, f.
    by rewrite <- Hperm, fmap_app. }
  assert (L = (f <$> l) ++ R) as Heq.
  { apply (StronglySorted_unique_strong (fun a b => lt b a = false)); [| |apply StronglySorted_app|done].
    - intros a b Ha Hb Hab Hba. rewrite <- HL in Hb. unfold lt in *. rewrite N.ltb_ge in *.
      assert (forall c, c ∈ L -> id_ok c) as Hids.
      { intros c Hc. unfold L in Hc. rewrite sort_by_perm, (abs_keys lid) in Hc by done.
        apply list_elem_of_fmap in Hc as (q & -> & Hq). apply (ok_valid _ _ Hok q Hq). }
      apply (xor_distance_inj _ _ target); [|lia].
      pose proof (Hids a Ha). pose proof (Hids b Hb). unfold id_ok in *. congruence.
    - apply Hsort.
    - splits.
      + intros a b (p & -> & Hp)%list_elem_of_fmap Hb. unfold R in Hb. rewrite sort_by_perm in Hb.
        apply list_elem_of_fmap in Hb as (q & -> & Hq). by apply (Hr p q).
      + by apply (nearest_sorted lid).
      + apply Hsort. }
  unfold spec_closest. fold lt. fold L. rewrite Heq.
  destruct (decide (k <= length (nodes_ w))%nat) as [Hk|Hk].
  - apply take_app_length'. rewrite length_fmap. lia.
  - assert (rest = []) as Hnil.
    { apply nil_length_inv. apply Permutation_length in Hperm. rewrite length_app in Hperm. lia. }
    unfold R. rewrite Hnil. cbn. rewrite app_nil_r. apply take_ge. rewrite length_fmap. lia.
Qed.

Lemma refines_closest lid w0 target number :
  id_ok target -> 0 <= number < 2 ^ 31 -> refines lid w0 (CClosest target number).
Proof.
  intros Ht Hn t w (Hok & Hs & ->). cbn [run_command name spec_command fst snd].
  destruct (GetClosestNodes_spec lid w target number Hok Ht Hn)
    as (l & w' & E & Hok' & (l0 & -> & Hp) & Hlen & Hnear).
  rewrite (step_bind _ _ _ _ _ E). mstep. exists (w <| nodes_ := l0 |>). split.
  - by rewrite (spec_closest_of lid w target l).
  - by split.
Qed.

Lemma refines_destination lid w0 des : refines lid w0 (CDestination des).
Proof.
  intros t w (Hok & Hs & ->). cbn [run_command name spec_command fst snd].
  destruct (IsDestination_spec lid w des true Hok) as (b & w' & E & Hok' & (l0 & -> & Hp) & Hb).
  rewrite (step_bind _ _ _ _ _ E). exists (w <| nodes_ := l0 |>). split; [|by split].
  assert (b = spec_destination lid des (abs w)) as ->; [|done].
  apply eq_true_iff_eq. rewrite Hb. unfold spec_destination.
  rewrite !orb_true_iff, andb_true_iff, !bool_decide_eq_true, Nat.eqb_eq, map_Forall_lookup.
  assert (nodes_ w = [] <-> abs w = ∅) as ->.
  { pose proof (abs_keys lid w Hok) as Hk. unfold ids in Hk. split; intros E0.
    - rewrite E0 in Hk. apply Permutation_nil_r, fmap_nil_inv, map_to_list_empty_iff in Hk. done.
    - rewrite E0, map_to_list_empty in Hk. symmetry in Hk.
      by apply Permutation_nil_r, fmap_nil_inv in Hk. }
  assert ((forall q, q ∈ nodes_ w -> (xor_distance lid des < xor_distance (node_id (obj_of w q)) des)%N) <->
    forall i x, abs w !! i = Some x -> (xor_distance lid des < xor_distance i des)%N) as ->.
  { split.
    - intros Hall i x (p & Hp' & <- & _)%(abs_spec lid); [by apply Hall|done].
    - intros Hall q Hq. apply (Hall _ (peer_endpoint (peer_of (obj_of w q)))), (abs_spec lid); [done|].
      by exists q. }
  unfold id_ok. tauto.
Qed.

Lemma refines_all lid w0 c : well_formed c -> refines lid w0 c.
Proof.
  destruct c; simpl; [by intros; apply refines_add|by intros; apply refines_can_add
    |by intros; apply refines_drop|by intros; apply refines_has|by intros; apply refines_lost
    |intros []; by apply refines_closest|by intros; apply refines_destination].
Qed.

(** C2: the routing table is a k-bucket table: every run of its operations from
    a well-formed state gives exactly the answers of the abstract table, a map
    from ids to endpoints whose buckets hold at most eight ids, and ends in a
    state that stands for the abstract result. Order, objects, bucket fields,
    the second index and the copy for readers make no difference. *)
Theorem table_refines_kbuckets lid w cs :
  table_ok lid w -> Forall well_formed cs ->
  exists answers w', run_commands cs w = Ok (answers, w') /\ table_ok lid w' /\
    spec_commands lid (name w <$> cs) (abs w) = (answers, abs w').
Proof.
  intros Hok Hwf. assert (simulates lid w (abs w) w) as Hsim by (by split).
  revert Hsim. generalize (abs w) as t. generalize w at 2 3. clear Hok.
  induction Hwf as [|c cs Hc Hwf IH]; intros w1 t Hsim.
  { exists [], w1. destruct Hsim as (? & _ & ->). by splits. }
  destruct (refines_all lid w c Hc t w1 Hsim) as (w2 & E & Hsim2).
  destruct (IH w2 _ Hsim2) as (answers & w3 & E3 & Hok3 & Hspec).
  cbn [run_commands fmap list_fmap spec_commands]. rewrite (step_bind _ _ _ _ _ E).
  rewrite (step_bind _ _ _ _ _ E3). eexists _, w3. split; [reflexivity|]. split; [done|].
  destruct (spec_command lid (name w c) t) as [a t2]. cbn [fst snd] in *. by rewrite Hspec.
Qed.
End code.

Section witnesses.
Import Examples.
#[local] Existing Instance selection_sort.

(** Objects 1 to 4 are in the table, object 5 is not. *)
Definition ex_commands : list (command ptr) :=
  [CAdd 5%positive; CDrop 2%positive; CHas 2%positive; CLost "10.0.0.7" 9003;
   CClosest "abzz" 2; CDestination "abcc"].

Lemma table_refines_kbuckets_witness : exists answers w',
  run_commands ex_commands ex_world = Ok (answers, w') /\
  spec_commands "abcd" (name ex_world <$> ex_commands) (abs ex_world) = (answers, abs w').
Proof.
  destruct (table_refines_kbuckets "abcd" ex_world ex_commands ex_world_ok)
    as (answers & w' & E & _ & Es); [repeat (apply Forall_cons; split; [simpl; try done|]); by constructor|].
  exists answers, w'. split; [exact E|exact Es].
Defined.
End witnesses.
