(* ===== verification/Threads.v ===== *)
(** AddNode and DropNode as threads run them: between the critical sections of
    nodes_mutex_, node_id_map_mutex_ and node_hash_map_mutex_ other threads can
    act. A [stage] is a point between two sections, [section] the section that
    starts there; run one after the other they are the functions of
    RoutingTable.v. Two variables are not behind a mutex: the bucket_index
    SetNodeBucket writes, and the shared_ptr no_lock_for_use_nodes_. [raced]
    says when two threads use one of them at the same time, one of them to
    write: the behaviour is then undefined, and [threads_step] takes no step
    from there. What every run keeps until that happens, what two threads that
    add the same id break, what threads with different ids do not break, and
    that two calls can always race for the copy. *)

From S2P Require Import Prelude Externals Messages Distance Sorting NodeInfo LocalNodeInfo.
From S2P Require Import ClientNodes BootstrapCache World RoutingTable TableFacts TableProps.

Inductive stage :=
  (* AddNode *)
  | AGuards (node : ptr)       (* the tests *)
  | ABucket (node : ptr)       (* SetNodeBucket: no mutex *)
  | ACritical (node : ptr)     (* nodes_mutex_: sort, room, push_back *)
  | AIndex (node : ptr)        (* node_id_map_mutex_ *)
  | AHash (node : ptr)         (* node_hash_map_mutex_ *)
  (* DropNode *)
  | DErase (node : ptr)        (* nodes_mutex_ *)
  | DIndex (node : ptr)        (* node_id_map_mutex_ *)
  | DHash (node : ptr)         (* node_hash_map_mutex_ *)
  | DLocal (node : ptr)        (* the dynamic xip, Frozen *)
  (* the end of both: no_lock_for_use_nodes_, no mutex *)
  | PReset                     (* reset() *)
  | PCopy                      (* nodes(), under nodes_mutex_ *)
  | PAssign (l : list ptr)     (* the assignment of the copy *)
  (* GetUnLockNodes *)
  | URead
  | Finished (code : Z).

Section sections.
Context `{Xbase} `{KadKey} `{Xip} `{PartialSort}.

Definition add_guards (node : ptr) : M stage :=
  n ← obj node;
  if nat_type n =? kNatTypeUnknown then mret (Finished kKadFailed)
  else
    id ← local_id;
    if (node_id n =? id)%string then mret (Finished kKadFailed)
    else
      valid ← ValidNode node;
      if negb valid then mret (Finished kKadFailed)
      else
        has ← HasNode node;
        if has : bool then mret (Finished kKadNodeHasAdded) else mret (ABucket node).

Definition add_bucket (node : ptr) : M stage :=
  b ← SetNodeBucket node;
  if negb (b =? kKadSuccess) then mret (Finished kKadFailed) else mret (ACritical node).

Definition add_critical (node : ptr) : M stage :=
  id ← local_id;
  size ← nodes_size;
  _ ← SortNodesByTargetXid id size;
  room ← NewNodeReplaceOldNode node true;
  if negb room then mret (Finished kKadFailed)
  else
    has ← HasNode node;
    if has : bool then mret (Finished kKadNodeHasAdded)
    else
      _ ← modify (fun w => w <| nodes_ ::= fun l => l ++ [node] |>);
      mret (AIndex node).

Definition add_index (node : ptr) : M stage :=
  n ← obj node;
  _ ← modify (fun w => w <| node_id_map_ ::=
        fun m => match m !! node_id n with Some _ => m | None => <[node_id n := node]> m end |>);
  mret (AHash node).

Definition add_hash (node : ptr) : M stage :=
  n ← obj node;
  _ ← modify (fun w => w <| node_hash_map_ ::=
        fun m => match m !! hash64 n with Some _ => m | None => <[hash64 n := node]> m end |>);
  mret PReset.

Definition drop_erase (node : ptr) : M stage :=
  n ← obj node;
  _ ← modify (fun w => w <| nodes_ ::=
        erase_first (fun p => (node_id (obj_of w p) =? node_id n)%string) |>);
  mret (DIndex node).

Definition drop_index (node : ptr) : M stage :=
  n ← obj node;
  _ ← modify (fun w => w <| node_id_map_ ::= delete (node_id n) |>);
  mret (DHash node).

Definition drop_hash (node : ptr) : M stage :=
  n ← obj node;
  _ ← modify (fun w => w <| node_hash_map_ ::= delete (hash64 n) |>);
  mret (DLocal node).

Definition drop_local (node : ptr) : M stage :=
  n ← obj node;
  _ ← local;
  _ ← set_local (DropDxip (node_id n));
  _ ← modify (fun w => w <| security_frozen ::= fmap (fun l => l ++ [xid n]) |>);
  mret PReset.

Definition publish_reset : M stage :=
  _ ← modify (fun w => w <| no_lock_for_use_nodes_ := None |>); mret PCopy.

Definition publish_copy : M stage := l ← nodes; mret (PAssign l).

Definition publish_assign (l : list ptr) : M stage :=
  _ ← modify (fun w => w <| no_lock_for_use_nodes_ := Some l |>); mret (Finished kKadSuccess).

Definition section (s : stage) : M stage :=
  match s with
  | AGuards p => add_guards p
  | ABucket p => add_bucket p
  | ACritical p => add_critical p
  | AIndex p => add_index p
  | AHash p => add_hash p
  | DErase p => drop_erase p
  | DIndex p => drop_index p
  | DHash p => drop_hash p
  | DLocal p => drop_local p
  | PReset => publish_reset
  | PCopy => publish_copy
  | PAssign l => publish_assign l
  | URead => _ ← GetUnLockNodes; mret (Finished kKadSuccess)
  | Finished code => mret (Finished code)
  end.

(** Undisturbed, [n] sections one after the other. *)
Fixpoint alone (n : nat) (s : stage) : M Z :=
  match s, n with
  | Finished code, _ => mret code
  | _, O => raise OutOfFuel
  | _, S n' => s' ← section s; alone n' s'
  end.

(** A thread between reset() and the assignment. *)
Definition publishing (s : stage) : bool :=
  match s with PReset | PCopy | PAssign _ => true | _ => false end.

(** A thread at [s] writes what a thread at [t] uses, and no mutex keeps them
    apart: the section of nodes_mutex_ reads the bucket of its node and of all
    nodes of the table. *)
Definition clash (w : World) (s t : stage) : bool :=
  match s, t with
  | ABucket p, ABucket q => bool_decide (p = q)
  | ABucket p, ACritical q => bool_decide (p ∈ q :: nodes_ w)
  | _, URead => publishing s
  | _, _ => publishing s && publishing t
  end.

(** Two threads race. *)
Fixpoint raced (pool : list stage) (w : World) : bool :=
  match pool with
  | [] => false
  | s :: pool' => existsb (fun t => clash w s t || clash w t s) pool' || raced pool' w
  end.

(** Threads and the node they share; any thread may take the next step, as
    long as they do not race. *)
Inductive threads_step : list stage * World -> list stage * World -> Prop :=
  | threads_run i s s' pool w w' :
      raced pool w = false ->
      pool !! i = Some s -> (forall c, s <> Finished c) -> section s w = Ok (s', w') ->
      threads_step (pool, w) (<[i := s']> pool, w').

(** The same, with the thread to run given: for running examples. *)
Fixpoint run_schedule (turns : list nat) (pool : list stage) (w : World)
    : outcome (list stage * World) :=
  match turns with
  | [] => Ok (pool, w)
  | i :: turns' =>
      if raced pool w then Fault DataRace
      else
        match pool !! i with
        | None => run_schedule turns' pool w
        | Some s => '(s', w') ← section s w; run_schedule turns' (<[i := s']> pool) w'
        end
  end.
End sections.

(** ** The sections are the functions *)

Section alone.
Context `{Xbase} `{KadKey} `{Xip} `{PartialSort}.
Implicit Types (w : World) (p : ptr).

Lemma alone_step n s w :
  (forall c, s <> Finished c) -> alone (S n) s w = (section s ≫= alone n) w.
Proof. by destruct s; intros Hs; [..|by destruct (Hs code)]. Qed.

Lemma alone_finish n c w : (mret (Finished c) ≫= alone n) w = (mret c : M Z) w.
Proof. rewrite step_ret. by destruct n. Qed.

Lemma same_step {A B} (m : M A) (f g : A -> M B) w :
  (forall a w', m w = Ok (a, w') -> f a w' = g a w') -> (m ≫= f) w = (m ≫= g) w.
Proof. intros E. rewrite !bind_unfold. destruct (m w) as [[a w']|]; eauto. Qed.

(** local_node_ptr_->id() is the same as long as the pointer is. *)
Lemma local_id_again w w' i w1 :
  local_id w = Ok (i, w1) -> local_node_ptr_ w' = local_node_ptr_ w ->
  w1 = w /\ local_id w' = Ok (i, w').
Proof.
  unfold local_id, local. rewrite !step_assoc, !step_gets. intros E ->. revert E.
  destruct (local_node_ptr_ w) as [l|]; [|done]. msteps. unfold lift.
  destruct (LocalNodeInfo_id l); [by intros [= -> <-]|done].
Qed.

Lemma SetNodeBucket_local p w a w' :
  SetNodeBucket p w = Ok (a, w') -> local_node_ptr_ w' = local_node_ptr_ w.
Proof.
  unfold SetNodeBucket. intros E.
  destruct (local_id w) as [[i w1]|] eqn:Ei; [|by rewrite (step_fault _ _ _ _ Ei) in E].
  destruct (local_id_again _ _ _ _ Ei eq_refl) as [-> _].
  rewrite (step_bind _ _ _ _ _ Ei) in E. unfold obj in E. rewrite step_gets in E.
  destruct (bucket_scan i _) as [[b|]|]; [..|done];
    rewrite step_lift in E; unfold mutate in E; rewrite step_modify in E; by injection E as _ <-.
Qed.

(** Both sides run the same operation; a test they share stops both or none. *)
Ltac alike E :=
  rewrite ?step_assoc; apply same_step; intros ? ? E; cbv beta.
Ltac stops :=
  match goal with |- context [if ?b then _ else _] => destruct b end; [apply alone_finish|].
Ltac enter := mstep; rewrite alone_step by done; unfold section.

(** Undisturbed, the sections of a thread are the function it runs. *)
Lemma alone_publish w : alone 3 PReset w = (_ ← refresh_unlocked; mret kKadSuccess : M Z) w.
Proof.
  rewrite alone_step by done. unfold section, publish_reset. msteps.
  rewrite alone_step by done. unfold section, publish_copy, nodes. msteps.
  rewrite alone_step by done. unfold section, publish_assign. msteps. cbn [alone].
  unfold refresh_unlocked, nodes. by msteps.
Qed.

Lemma alone_add p w : alone 8 (AGuards p) w = AddNode p w.
Proof.
  rewrite alone_step by done. unfold section, AddNode, add_guards.
  alike E0. injection E0 as <- <-. stops. alike E1. stops.
  destruct (local_id_again _ _ _ _ E1 eq_refl) as [-> _].
  alike E2. stops. rewrite ValidNode_spec in E2. injection E2 as _ <-.
  alike E3. stops. injection E3 as _ <-.
  enter. unfold add_bucket. alike E4. stops. apply SetNodeBucket_local in E4.
  enter. unfold add_critical. rewrite step_assoc.
  rewrite (step_bind _ _ _ _ _ (proj2 (local_id_again _ _ _ _ E1 E4))).
  alike E5. alike E6. alike E7. stops. alike E8. stops.
  alike E9. enter. unfold add_index, obj. msteps. rewrite alone_step by done.
  unfold section, add_hash, obj. msteps. rewrite alone_publish. by msteps.
Qed.

Lemma alone_drop p w : alone 7 (DErase p) w = DropNode p w.
Proof.
  rewrite alone_step by done. unfold section, DropNode, drop_erase, obj. msteps.
  rewrite alone_step by done. unfold section, drop_index, obj. msteps.
  rewrite alone_step by done. unfold section, drop_hash, obj. msteps.
  rewrite alone_step by done. unfold section, drop_local, obj. msteps.
  alike E1. alike E2. alike E3. rewrite step_ret. apply alone_publish.
Qed.
End alone.

(** ** What every interleaving keeps *)

Section shared.
Context `{Xbase} `{KadKey} `{Xip}.
Implicit Types (w : World) (p q : ptr) (s : stage).

(** The invariant of a table other threads are working on: the part of
    [table_ok] that no section breaks. *)
Record shared_ok (lid : string) w : Prop := {
  sh_local : exists k, local_key w = Some k /\ key_Get k = lid;
  sh_lid : id_ok lid;
  sh_fresh p : (w_next w <= p)%positive -> w_heap w !! p = None;
  sh_cap : RoutingMaxNodesSize_ w = kRoutingMaxNodesSize;
  sh_valid p : p ∈ nodes_ w -> node_valid lid (obj_of w p);
  sh_bucket b : (in_bucket w b (nodes_ w) <= Z.to_nat kKadParamK)%nat }.

Lemma table_shared lid w : table_ok lid w -> shared_ok lid w.
Proof. by intros []. Qed.

Lemma shared_local_id lid w : shared_ok lid w -> local_id w = Ok (lid, w).
Proof.
  intros [(k & Hk & <-) _ _ _ _ _]. unfold local_key in Hk.
  destruct (local_node_ptr_ w) as [l|] eqn:El; [|done]. simpl in Hk.
  unfold local_id, local. msteps. rewrite El. msteps. unfold lift, LocalNodeInfo_id.
  by rewrite Hk.
Qed.

(** What a thread between the tests and push_back knows of its node. *)
Definition ready (lid : string) w s : Prop :=
  match s with
  | ABucket p => acceptable lid (obj_of w p) = true
  | ACritical p => node_valid lid (obj_of w p)
  | _ => True
  end.

(** Sections leave ids alone, what the tests look at, and valid objects
    altogether. *)
Definition keeps_objects (lid : string) w w' : Prop :=
  forall q, node_id (obj_of w' q) = node_id (obj_of w q) /\
            acceptable lid (obj_of w' q) = acceptable lid (obj_of w q) /\
            (node_valid lid (obj_of w q) -> obj_of w' q = obj_of w q).

(** The sections a thread has left. *)
Definition weight s : nat :=
  match s with
  | AGuards _ => 8 | ABucket _ => 7 | ACritical _ => 6 | AIndex _ => 5 | AHash _ => 4
  | DErase _ => 7 | DIndex _ => 6 | DHash _ => 5 | DLocal _ => 4
  | PReset => 3 | PCopy => 2 | PAssign _ => 1
  | URead => 1 | Finished _ => 0
  end.

Definition starting s : Prop :=
  match s with AGuards _ | DErase _ | URead => True | _ => False end.

Lemma keeps_objects_refl lid w w' : w_heap w' = w_heap w -> keeps_objects lid w w'.
Proof. intros E q. unfold obj_of. by rewrite E. Qed.

Lemma ready_keeps lid w w' s : keeps_objects lid w w' -> ready lid w s -> ready lid w' s.
Proof.
  destruct s; try done; intros Hk Hr; simpl in *; destruct (Hk node) as (_ & Ha & Hv).
  - by rewrite Ha.
  - by rewrite (Hv Hr).
Qed.

Lemma shared_ok_nodes lid w w' :
  shared_ok lid w -> w_heap w' = w_heap w -> local_key w' = local_key w ->
  w_next w' = w_next w -> RoutingMaxNodesSize_ w' = RoutingMaxNodesSize_ w ->
  (forall p, p ∈ nodes_ w' -> p ∈ nodes_ w \/ node_valid lid (obj_of w p)) ->
  (forall b, (in_bucket w b (nodes_ w') <= Z.to_nat kKadParamK)%nat) ->
  shared_ok lid w'.
Proof.
  intros [G1 G2 G5 G6 G3 G4] Eh Ek Ex Ec Hn Hb.
  assert (obj_of w' = obj_of w) as Eo by (unfold obj_of; by rewrite Eh).
  split; [by rewrite Ek|done|by rewrite Eh, Ex|by rewrite Ec| |].
  - intros p Hp. rewrite Eo. destruct (Hn p Hp); auto.
  - intros b. unfold in_bucket in *. rewrite Eo. apply Hb.
Qed.

Lemma set_bucket_keeps lid w p :
  (0 < kNodeIdSize)%nat -> acceptable lid (obj_of w p) = true ->
  keeps_objects lid w (set_bucket (bucket_of lid (obj_of w p)) p w) /\
  node_valid lid (obj_of (set_bucket (bucket_of lid (obj_of w p)) p w) p).
Proof.
  intros Hpos Ha. pose proof (acceptable_allocated _ _ _ Hpos Ha) as Hall.
  assert (obj_of (set_bucket (bucket_of lid (obj_of w p)) p w) p =
          (obj_of w p) <| bucket_index := bucket_of lid (obj_of w p) |>) as E
    by (by apply lookup_obj_alter).
  destruct (acceptable_true _ _ Ha) as (? & ? & ? & ? & ?).
  split; [|rewrite E; by repeat split].
  intros q. destruct (decide (p = q)) as [<-|Hne].
  - rewrite E. split; [done|]. split; [done|]. intros (_ & _ & _ & _ & _ & Hb). unfold bucket_of. rewrite <- Hb.
    by destruct (obj_of w p).
  - by rewrite set_bucket_obj.
Qed.

Lemma in_bucket_keeps lid w w' b l :
  keeps_objects lid w w' -> (forall p, p ∈ l -> node_valid lid (obj_of w p)) ->
  in_bucket w' b l = in_bucket w b l.
Proof.
  intros Hk Hv. unfold in_bucket. f_equal. apply filter_ext_in. intros q Hq.
  by rewrite (proj2 (proj2 (Hk q)) (Hv q Hq)).
Qed.

(** ** Each section *)

Context `{PartialSort} `{!PartialSortLaws}.
#[local] Set Default Proof Using "Type*".

Definition guards_stage (lid : string) w p : stage :=
  if negb (acceptable lid (obj_of w p)) then Finished kKadFailed
  else if has_id w (node_id (obj_of w p)) then Finished kKadNodeHasAdded
  else ABucket p.

Lemma add_guards_spec lid w p :
  shared_ok lid w -> add_guards p w = Ok (guards_stage lid w p, w).
Proof.
  intros Hok. unfold add_guards, guards_stage, acceptable, obj. msteps.
  set (n := obj_of w p). destruct (Z.eqb_spec (nat_type n) kNatTypeUnknown) as [|E1]; [done|].
  rewrite (step_bind _ _ _ _ _ (shared_local_id lid w Hok)).
  destruct (String.eqb_spec (node_id n) lid) as [|E2]; [done|].
  rewrite (step_bind _ _ _ _ _ (ValidNode_spec w p)). change (obj_of w p) with n. cbn [negb andb].
  destruct ((_ =? _)%nat && _) eqn:E3; cbn [negb]; [|done].
  rewrite (step_bind _ _ _ _ _ (HasNode_spec w p)). change (obj_of w p) with n.
  by destruct (has_id w (node_id n)).
Qed.

Lemma add_bucket_spec lid w p :
  shared_ok lid w -> acceptable lid (obj_of w p) = true ->
  add_bucket p w = Ok (ACritical p, set_bucket (bucket_of lid (obj_of w p)) p w).
Proof.
  intros Hok Ha. destruct (acceptable_true _ _ Ha) as (_ & Hid & Hlen & _). unfold add_bucket.
  rewrite (step_bind _ _ _ _ _ (SetNodeBucket_runs lid w p (shared_local_id _ _ Hok)
    (sh_lid _ _ Hok) Hlen Hid)).
  by rewrite Z.eqb_refl.
Qed.

Definition critical_stage w p : stage :=
  if kKadParamK <=? Z.of_nat (in_bucket w (bucket_index (obj_of w p)) (nodes_ w))
  then Finished kKadFailed
  else if has_id w (node_id (obj_of w p)) then Finished kKadNodeHasAdded
  else AIndex p.

Lemma add_critical_spec lid w p :
  shared_ok lid w ->
  exists l, l ≡ₚ nodes_ w /\
    add_critical p w = Ok (critical_stage w p,
      w <| nodes_ := match critical_stage w p with AIndex _ => l ++ [p] | _ => l end |>).
Proof.
  intros Hok. unfold add_critical.
  rewrite (step_bind _ _ _ _ _ (shared_local_id lid w Hok)).
  rewrite (step_bind _ _ _ _ _ (nodes_size_spec w)).
  destruct (sort_valid_spec w lid (Z.of_nat (length (nodes_ w)))) as (l & E & Hl & _).
  { intros q Hq. apply (sh_valid _ _ Hok q Hq). }
  { apply (sh_lid _ _ Hok). }
  exists l. split; [done|]. rewrite (step_bind _ _ _ _ _ E).
  unfold NewNodeReplaceOldNode. msteps.
  change (length (filter _ _)) with (in_bucket w (bucket_index (obj_of w p)) l).
  rewrite (in_bucket_perm _ _ _ _ Hl). unfold critical_stage.
  destruct (kKadParamK <=? _); [done|]. cbn [negb].
  rewrite (step_bind _ _ _ _ _ (HasNode_spec _ p)).
  change (has_id (w <| nodes_ := l |>) (node_id (obj_of (w <| nodes_ := l |>) p)))
    with (has_id w (node_id (obj_of w p))).
  by destruct (has_id w _).
Qed.

Lemma drop_local_spec lid w p :
  shared_ok lid w ->
  exists w', drop_local p w = Ok (PReset, w') /\ w_heap w' = w_heap w /\
    nodes_ w' = nodes_ w /\ node_id_map_ w' = node_id_map_ w /\ local_key w' = local_key w /\
    w_next w' = w_next w /\ RoutingMaxNodesSize_ w' = RoutingMaxNodesSize_ w.
Proof.
  intros [(k & Hk & _) _ _ _ _ _]. unfold local_key in Hk.
  destruct (local_node_ptr_ w) as [l|] eqn:El; [|done]. unfold drop_local, obj, local. msteps.
  rewrite El. msteps. unfold set_local. msteps.
  eexists. split; [done|]. repeat split. unfold local_key. cbn. rewrite El. cbn.
  by destruct (DropDxip_frame (node_id (obj_of w p)) l) as (? & ? & ->).
Qed.

Lemma in_bucket_erase w b f l : (in_bucket w b (erase_first f l) <= in_bucket w b l)%nat.
Proof.
  unfold in_bucket. induction l as [|x l IH]; [done|]. cbn [erase_first].
  destruct (f x); rewrite !filter_cons; case_decide; simpl; lia.
Qed.

Lemma elem_of_erase f l p : p ∈ erase_first f l -> p ∈ l.
Proof.
  induction l as [|x l IH]; [done|]. cbn [erase_first]. destruct (f x); [by right|].
  intros [->|Hp]%elem_of_cons; [left|right; auto].
Qed.

(** A section that left all objects as they are. *)
Ltac same_objects := split; [done|split; [by apply keeps_objects_refl|simpl; lia]].

(** A section that leaves nodes_ alone too. *)
Ltac same_nodes lid w Hok :=
  do 2 eexists; (split; [done|split; [by apply (shared_ok_nodes lid w); destruct Hok; auto|same_objects]]).

(** No section faults, and each keeps the invariant and brings its thread
    closer to the end. *)
Lemma section_shared lid w s :
  (0 < kNodeIdSize)%nat -> shared_ok lid w -> ready lid w s -> (forall c, s <> Finished c) ->
  exists s' w', section s w = Ok (s', w') /\ shared_ok lid w' /\ ready lid w' s' /\
    keeps_objects lid w w' /\ (weight s' < weight s)%nat.
Proof.
  intros Hpos Hok Hr Hnf. destruct s as [p|p|p|p|p|p|p|p|p| | |l| |c]; simpl section.
  - rewrite (add_guards_spec lid w p Hok). do 2 eexists. split; [done|]. unfold guards_stage.
    destruct (acceptable lid (obj_of w p)) eqn:Ha; cbn [negb]; [|by split; [|same_objects]].
    by destruct (has_id w _); (split; [|same_objects]).
  - rewrite (add_bucket_spec lid w p Hok Hr). do 2 eexists. split; [done|].
    destruct (set_bucket_keeps lid w p Hpos Hr) as [Hk Hv].
    split; [|split; [done|split; [done|simpl; lia]]]. destruct Hok as [G1 G2 G5 G6 G3 G4].
    split; [exact G1|exact G2| |exact G6|..].
    + intros q Hq. cbn. rewrite lookup_alter_None. by apply G5.
    + intros q Hq. rewrite (proj2 (proj2 (Hk q)) (G3 q Hq)). by apply G3.
    + intros b. by rewrite (in_bucket_keeps lid w) by done.
  - destruct (add_critical_spec lid w p Hok) as (l & Hl & ->). do 2 eexists. split; [done|].
    assert (forall b, in_bucket w b l = in_bucket w b (nodes_ w)) as Hb
      by (intros b; by apply in_bucket_perm).
    unfold critical_stage. destruct (Z.leb_spec kKadParamK (Z.of_nat (in_bucket w (bucket_index (obj_of w p)) (nodes_ w))));
      [|destruct (has_id w _)]; (split; [|by same_objects]);
      apply (shared_ok_nodes lid w); try done.
    + intros q. cbn. rewrite Hl. by left.
    + intros b. etrans; [exact (Nat.eq_le_incl _ _ (Hb b))|apply (sh_bucket _ _ Hok)].
    + intros q. cbn. rewrite Hl. by left.
    + intros b. etrans; [exact (Nat.eq_le_incl _ _ (Hb b))|apply (sh_bucket _ _ Hok)].
    + intros q. cbn. rewrite elem_of_app, Hl, list_elem_of_singleton.
      intros [Hq| ->]; [by left|by right].
    + intros b. cbn. pose proof (sh_bucket _ _ Hok b). specialize (Hb b). unfold in_bucket in *.
      rewrite filter_app, length_app, Hb, filter_cons, filter_nil.
      case_decide as E; [rewrite E in *|]; simpl; lia.
  - same_nodes lid w Hok.
  - same_nodes lid w Hok.
  - do 2 eexists. split; [done|]. split; [|same_objects]. apply (shared_ok_nodes lid w); try done.
    + intros q Hq%elem_of_erase. by left.
    + intros b. etrans; [apply in_bucket_erase|apply (sh_bucket _ _ Hok)].
  - same_nodes lid w Hok.
  - same_nodes lid w Hok.
  - destruct (drop_local_spec lid w p Hok) as (w' & E & Eh & En & _ & Ek & Ex & Ec).
    do 2 eexists. split; [exact E|]. split; [|same_objects].
    apply (shared_ok_nodes lid w); rewrite ?En; try done; [by left|apply (sh_bucket _ _ Hok)].
  - same_nodes lid w Hok.
  - same_nodes lid w Hok.
  - same_nodes lid w Hok.
  - same_nodes lid w Hok.
  - by destruct (Hnf c).
Qed.

(** ** Races *)

Lemma raced_true pool w :
  raced pool w = true <->
  exists i j s t, i <> j /\ pool !! i = Some s /\ pool !! j = Some t /\ clash w s t = true.
Proof.
  induction pool as [|s pool IH]; simpl.
  { split; [done|]. intros (i & j & s & t & _ & Hi & _). by rewrite lookup_nil in Hi. }
  rewrite orb_true_iff, existsb_exists, IH. split.
  - intros [(t & Hin & Hc)|(i & j & s' & t & Hne & Hi & Hj & Hc)].
    + apply list_elem_of_In, list_elem_of_lookup in Hin as [j Hj].
      apply orb_true_iff in Hc as [Hc|Hc]; [exists 0%nat, (S j), s, t|exists (S j), 0%nat, t, s]; done.
    + exists (S i), (S j), s', t. split; [lia|done].
  - intros ([|i] & [|j] & s' & t & Hne & Hi & Hj & Hc); simplify_eq/=.
    + left. exists t. split; [by eapply list_elem_of_In, list_elem_of_lookup_2|]. by rewrite Hc.
    + left. exists s'. split; [by eapply list_elem_of_In, list_elem_of_lookup_2|].
      by rewrite Hc, orb_true_r.
    + right. exists i, j, s', t. by split; [lia|].
Qed.

(** ** The pool *)

Definition pool_weight (pool : list stage) : nat := sum_list (weight <$> pool).

Lemma pool_weight_insert pool i s s' :
  pool !! i = Some s -> (pool_weight (<[i := s']> pool) + weight s = pool_weight pool + weight s')%nat.
Proof.
  unfold pool_weight. revert i. induction pool as [|t pool IH]; intros [|i] Hi; simplify_eq/=; [lia|].
  specialize (IH i Hi). lia.
Qed.

Definition pool_ok (lid : string) (c : list stage * World) : Prop :=
  shared_ok lid c.2 /\ Forall (ready lid c.2) c.1.

Lemma pool_step lid c c' :
  (0 < kNodeIdSize)%nat -> pool_ok lid c -> threads_step c c' ->
  pool_ok lid c' /\ keeps_objects lid c.2 c'.2 /\ (pool_weight c'.1 < pool_weight c.1)%nat.
Proof.
  intros Hpos [Hok Hr] Hstep. destruct Hstep as [i s s' pool w w' _ Hi Hnf E]. simpl in *.
  destruct (section_shared lid w s Hpos Hok) as (s2 & w2 & E2 & Hok' & Hr' & Hk & Hw); [|done|].
  { by eapply Forall_lookup_1. }
  rewrite E in E2. injection E2 as <- <-. split; [split; [done|]|split; [done|]].
  - apply Forall_insert; [|done]. eapply Forall_impl; [exact Hr|]. intros t. by apply ready_keeps.
  - pose proof (pool_weight_insert pool i s s' Hi). lia.
Qed.

Lemma pool_steps lid k c c' :
  (0 < kNodeIdSize)%nat -> pool_ok lid c -> relations.nsteps threads_step k c c' ->
  pool_ok lid c' /\ (k + pool_weight c'.1 <= pool_weight c.1)%nat.
Proof.
  intros Hpos Hc Hs. induction Hs as [c|k c1 c2 c3 H1' Hs IH]; [split; [done|lia]|].
  destruct (pool_step lid c1 c2 Hpos Hc H1') as (Hc2 & _ & Hw). destruct (IH Hc2). split; [done|lia].
Qed.

Lemma starting_weight pool : Forall starting pool -> (pool_weight pool <= 8 * length pool)%nat.
Proof.
  induction 1 as [|s pool Hs _ IH]; [done|].
  change (weight s + pool_weight pool <= 8 * S (length pool))%nat.
  enough (weight s <= 8)%nat by lia. destruct s; simpl in *; lia.
Qed.

Definition finished s : Prop := match s with Finished _ => True | _ => False end.
End shared.

Section properties.
Context `{Xbase} `{!XbaseLaws} `{KadKey} `{Xip} `{PartialSort} `{!PartialSortLaws}.
#[local] Set Default Proof Using "Type*".
Implicit Types (w : World) (p q : ptr) (s : stage).

(** C6: AddNode, DropNode and GetUnLockNodes calls of any number of threads,
    their critical sections interleaved in any order, started on a well-formed
    table: at every moment up to and including the first at which two threads
    race for bucket_index or no_lock_for_use_nodes_, nodes_ holds only valid
    nodes with the bucket of their distance, no bucket more than eight, the
    table no more than its capacity. No section faults by itself, a race is the
    only thing that can stop the calls before all have returned, and they take
    at most eight sections each. *)
Theorem threads_keep_buckets lid w0 pool0 k pool w :
  table_ok lid w0 -> Forall starting pool0 ->
  relations.nsteps threads_step k (pool0, w0) (pool, w) ->
  (forall p, p ∈ nodes_ w -> node_valid lid (obj_of w p)) /\
  (forall b, (in_bucket w b (nodes_ w) <= 8)%nat) /\
  Z.of_nat (length (nodes_ w)) <= kRoutingMaxNodesSize /\
  (forall s, s ∈ pool -> exists r, section s w = Ok r) /\
  (raced pool w = true \/ Forall finished pool \/ exists c, threads_step (pool, w) c) /\
  (k <= 8 * length pool0)%nat.
Proof.
  intros Hok Hst Hs. pose proof kNodeIdSize_pos as Hpos.
  assert (pool_ok lid (pool0, w0)) as Hc.
  { split; [by apply table_shared|]. eapply Forall_impl; [exact Hst|]. by intros []. }
  destruct (pool_steps lid k _ _ Hpos Hc Hs) as [[Hsh Hr] Hw].
  simpl in *. pose proof (starting_weight _ Hst).
  assert (forall s, s ∈ pool -> exists r, section s w = Ok r) as Hrun.
  { intros s Hin. assert ((exists c, s = Finished c) \/ forall c, s <> Finished c) as [[c ->]|Hf]
      by (destruct s; eauto); [by eexists|].
    rewrite Forall_forall in Hr.
    destruct (section_shared lid w s Hpos Hsh (Hr s Hin) Hf) as (? & ? & ? & _). by eexists. }
  split; [apply (sh_valid _ _ Hsh)|]. split; [apply (sh_bucket _ _ Hsh)|].
  split; [apply (valid_size lid w); apply Hsh|]. split; [done|]. split; [|lia].
  destruct (raced pool w) eqn:Hrace; [by left|right].
  destruct (decide (Exists (fun s => weight s <> 0%nat) pool)) as [He|He].
  - right. apply Exists_exists in He as (s & Hin & Hne).
    destruct (Hrun s Hin) as [[s' w'] E]. apply list_elem_of_lookup in Hin as [i Hi].
    exists (<[i := s']> pool, w'). econstructor; [done|exact Hi| |exact E]. by intros c ->.
  - left. apply not_Exists_Forall in He; [|intros s; apply _]. eapply Forall_impl; [exact He|].
    intros []; simpl; try done; by intros [].
Qed.

(** ** Two calls that add the same id *)

Lemma erase_leaves f l p q :
  p <> q -> p ∈ l -> q ∈ l -> p ∈ erase_first f l \/ q ∈ erase_first f l.
Proof.
  intros Hne Hp Hq. induction l as [|x l IH]; [by apply elem_of_nil in Hp|]. cbn [erase_first].
  destruct (decide (p = x)) as [->|Hpx], (decide (q = x)) as [->|Hqx]; try done;
    destruct (f x); rewrite ?elem_of_cons in *; intuition.
Qed.

Lemma DropNode_shared lid w p :
  shared_ok lid w ->
  exists w', DropNode p w = Ok (kKadSuccess, w') /\ w_heap w' = w_heap w /\
    nodes_ w' = erase_first (fun r => (node_id (obj_of w r) =? node_id (obj_of w p))%string) (nodes_ w) /\
    node_id_map_ w' = delete (node_id (obj_of w p)) (node_id_map_ w).
Proof using All.
  intros Hok. rewrite <- alone_drop.
  rewrite alone_step by done. cbn [section]. unfold drop_erase, obj. msteps.
  rewrite alone_step by done. cbn [section]. unfold drop_index, obj. msteps.
  rewrite alone_step by done. cbn [section]. unfold drop_hash, obj. msteps.
  rewrite alone_step by done. cbn [section].
  match goal with |- context [(drop_local p ≫= _) ?w1] =>
    destruct (drop_local_spec lid w1 p) as (w' & E & Eh & En & Em & _);
      [|rewrite (step_bind _ _ _ _ _ E), alone_publish; eexists] end.
  - apply (shared_ok_nodes lid w); try done; [|].
    + intros q Hq%elem_of_erase. by left.
    + intros b. etrans; [apply in_bucket_erase|apply (sh_bucket _ _ Hok)].
  - unfold refresh_unlocked, nodes. msteps. split; [done|]. cbn. by rewrite Eh, En, Em.
Qed.

Lemma run_step (pool : list stage) w c i s s' w' :
  raced pool w = false -> pool !! i = Some s -> (forall c, s <> Finished c) -> section s w = Ok (s', w') ->
  rtc threads_step (<[i := s']> pool, w') c -> rtc threads_step (pool, w) c.
Proof. intros Hn Hi Hs E Hr. eapply rtc_l; [by econstructor|exact Hr]. Qed.

Lemma pool_rtc lid c c' : pool_ok lid c -> rtc threads_step c c' -> pool_ok lid c'.
Proof.
  intros Hc Hs. induction Hs as [c|c1 c2 c3 Hstep _ IH]; [done|]. apply IH.
  by eapply pool_step; [apply kNodeIdSize_pos| |].
Qed.

Lemma section_shared_ok lid w s s' w' :
  shared_ok lid w -> ready lid w s -> section s w = Ok (s', w') -> shared_ok lid w'.
Proof.
  intros Hok Hr E. assert ((exists c, s = Finished c) \/ forall c, s <> Finished c) as [[c ->]|Hf]
    by (destruct s; eauto); [by injection E as _ <-|].
  destruct (section_shared lid w s kNodeIdSize_pos Hok Hr Hf) as (? & ? & E' & Hok' & _).
  rewrite E in E'. by injection E' as -> ->.
Qed.

(** The tests and the bucket of a node the table would take. *)
Lemma guards_pass lid w p :
  shared_ok lid w -> acceptable lid (obj_of w p) = true -> has_id w (node_id (obj_of w p)) = false ->
  section (AGuards p) w = Ok (ABucket p, w) /\
  exists w', section (ABucket p) w = Ok (ACritical p, w') /\ shared_ok lid w' /\
    node_valid lid (obj_of w' p) /\ bucket_index (obj_of w' p) = bucket_of lid (obj_of w p) /\
    keeps_objects lid w w' /\ (forall q, p <> q -> obj_of w' q = obj_of w q) /\
    nodes_ w' = nodes_ w /\ node_id_map_ w' = node_id_map_ w.
Proof.
  intros Hok Ha Hh. cbn [section]. split.
  { rewrite (add_guards_spec lid w p Hok). unfold guards_stage. by rewrite Ha, Hh. }
  pose proof (add_bucket_spec lid w p Hok Ha) as E. eexists. split; [exact E|].
  destruct (set_bucket_keeps lid w p kNodeIdSize_pos Ha) as [Hk Hv].
  split; [by apply (section_shared_ok lid w (ABucket p) _ _ Hok Ha) in E|]. split; [done|].
  split; [|split; [done|]; split; [intros q Hne; by apply set_bucket_obj|done]].
  unfold set_bucket. rewrite lookup_obj_alter; [done|].
  by apply (acceptable_allocated lid); [apply kNodeIdSize_pos|].
Qed.

Lemma critical_passes lid w p :
  shared_ok lid w -> node_valid lid (obj_of w p) -> has_id w (node_id (obj_of w p)) = false ->
  (in_bucket w (bucket_index (obj_of w p)) (nodes_ w) < 8)%nat ->
  exists w', section (ACritical p) w = Ok (AIndex p, w') /\ shared_ok lid w' /\
    nodes_ w' ≡ₚ p :: nodes_ w /\ obj_of w' = obj_of w /\ node_id_map_ w' = node_id_map_ w.
Proof.
  intros Hok Hv Hh Hb. destruct (add_critical_spec lid w p Hok) as (l & Hl & E).
  unfold critical_stage, kKadParamK in E. rewrite Hh in E.
  destruct (Z.leb_spec 8 (Z.of_nat (in_bucket w (bucket_index (obj_of w p)) (nodes_ w)))); [lia|].
  exists (w <| nodes_ := l ++ [p] |>). split; [done|].
  split; [by apply (section_shared_ok lid w (ACritical p) _ _ Hok Hv E)|].
  split; [|done]. cbn. by rewrite Hl, Permutation_app_comm.
Qed.

Lemma has_id_not_in lid w p :
  table_ok lid w -> has_id w (node_id (obj_of w p)) = false -> p ∉ nodes_ w.
Proof using All.
  unfold has_id. intros Hok Hh Hin.
  by rewrite (proj2 (ok_map _ _ Hok (node_id (obj_of w p)) p) (conj Hin eq_refl)) in Hh.
Qed.

(** Let thread [i] run its next section. *)
Ltac run_thread i :=
  eapply (run_step _ _ _ i); [first [assumption|reflexivity]|done|done|first [eassumption|reflexivity]|]; cbn [insert list_insert].

(** Both threads pass their tests before either has indexed its node. *)
Lemma both_pushed lid w p q :
  table_ok lid w -> p <> q -> node_id (obj_of w p) = node_id (obj_of w q) ->
  acceptable lid (obj_of w p) = true -> acceptable lid (obj_of w q) = true ->
  has_id w (node_id (obj_of w p)) = false ->
  (in_bucket w (bucket_of lid (obj_of w p)) (nodes_ w) + 2 <= 8)%nat ->
  exists w', rtc threads_step ([AGuards p; AGuards q], w) ([AIndex p; AIndex q], w') /\
    nodes_ w' ≡ₚ p :: q :: nodes_ w /\
    node_id (obj_of w' p) = node_id (obj_of w p) /\ node_id (obj_of w' q) = node_id (obj_of w p).
Proof.
  intros Hok Hne Eid Hap Haq Hh Hroom. pose proof (table_shared _ _ Hok) as Hs.
  assert (bucket_of lid (obj_of w q) = bucket_of lid (obj_of w p)) as Eb
    by (unfold bucket_of; by rewrite Eid).
  destruct (guards_pass lid w p Hs Hap Hh) as (T1 & w1 & S1 & Hs1 & V1 & B1 & K1 & O1 & N1 & M1).
  destruct (guards_pass lid w1 q Hs1) as (T2 & w2 & S2 & Hs2 & V2 & B2 & K2 & O2 & N2 & M2);
    [by rewrite O1|unfold has_id; by rewrite O1, M1, <- Eid|].
  assert (raced [ACritical p; ABucket q] w1 = false) as R1.
  { cbn. rewrite bool_decide_eq_false_2; [done|]. rewrite N1. intros [|Hin]%elem_of_cons; [done|].
    revert Hin. apply (has_id_not_in lid w q Hok). by rewrite <- Eid. }
  assert (obj_of w2 p = obj_of w1 p) as Op by (by apply O2). rewrite O1, Eb in B2 by done.
  assert (node_id (obj_of w2 p) = node_id (obj_of w p)) as Ip by (rewrite Op; apply K1).
  assert (node_id (obj_of w2 q) = node_id (obj_of w p)) as Iq
    by (rewrite (proj1 (K2 q)), Eid; apply K1).
  assert (in_bucket w2 (bucket_of lid (obj_of w p)) (nodes_ w) =
    in_bucket w (bucket_of lid (obj_of w p)) (nodes_ w)) as Hb.
  { rewrite (in_bucket_keeps lid w1), (in_bucket_keeps lid w); try done; [apply (sh_valid _ _ Hs)|].
    rewrite <- N1. apply (sh_valid _ _ Hs1). }
  assert (forall i, has_id w2 i = has_id w i) as Hi by (intros i; unfold has_id; by rewrite M2, M1).
  destruct (critical_passes lid w2 p Hs2) as (w3 & S3 & Hs3 & N3 & O3 & M3);
    [by rewrite Op|by rewrite Hi, Ip|rewrite Op, B1, N2, N1, Hb; lia|].
  destruct (critical_passes lid w3 q Hs3) as (w4 & S4 & Hs4 & N4 & O4 & M4).
  { by rewrite O3. }
  { unfold has_id. rewrite O3, M3, Iq, M2, M1. exact Hh. }
  { rewrite O3, B2, (in_bucket_perm _ _ _ _ N3), N2, N1. unfold in_bucket in *. rewrite O3.
    rewrite filter_cons. case_decide; simpl; lia. }
  exists w4. split; [|by rewrite N4, N3, N2, N1, O4, O3; split; [apply Permutation_swap|]].
  do 2 run_thread 0%nat. do 2 run_thread 1%nat. run_thread 0%nat. run_thread 1%nat. done.
Qed.

(** One thread after the other writes the index and the copy. *)
Lemma indexes_run w p q :
  exists w', rtc threads_step ([AIndex p; AIndex q], w)
      ([Finished kKadSuccess; Finished kKadSuccess], w') /\
    w_heap w' = w_heap w /\ nodes_ w' = nodes_ w.
Proof using All.
  eexists. split; [do 5 run_thread 0%nat; do 5 run_thread 1%nat; reflexivity|done].
Qed.

(** C8: Two threads that add two nodes with the same id at the same time: when
    each passes its tests before the other has indexed its node, both calls
    report success and nodes_ holds the id twice, the index once. A later
    DropNode of the id then empties the index but leaves one of the two nodes
    in nodes_, where HasNode and GetNode do not see it. *)
Theorem same_id_added_twice lid w p q :
  table_ok lid w -> p <> q -> node_id (obj_of w p) = node_id (obj_of w q) ->
  acceptable lid (obj_of w p) = true -> acceptable lid (obj_of w q) = true ->
  has_id w (node_id (obj_of w p)) = false ->
  (in_bucket w (bucket_of lid (obj_of w p)) (nodes_ w) + 2 <= 8)%nat ->
  exists w' w'',
    rtc threads_step ([AGuards p; AGuards q], w)
      ([Finished kKadSuccess; Finished kKadSuccess], w') /\
    nodes_ w' ≡ₚ p :: q :: nodes_ w /\ node_id (obj_of w' p) = node_id (obj_of w' q) /\
    DropNode p w' = Ok (kKadSuccess, w'') /\
    (p ∈ nodes_ w'' \/ q ∈ nodes_ w'') /\
    GetNode (node_id (obj_of w p)) w'' = Ok (None, w'').
Proof.
  intros Hok Hne Eid Hap Haq Hh Hroom. pose proof (table_shared _ _ Hok) as Hs.
  destruct (both_pushed lid w p q) as (w4 & Hr & N & Ip & Iq); try done.
  destruct (indexes_run w4 p q) as (w' & Hr' & Eh & En).
  assert (rtc threads_step ([AGuards p; AGuards q], w)
    ([Finished kKadSuccess; Finished kKadSuccess], w')) as Hall by (by etrans).
  assert (obj_of w' = obj_of w4) as Eo by (unfold obj_of; by rewrite Eh).
  assert (pool_ok lid ([AGuards p; AGuards q], w)) as Hc by (by split; [|repeat constructor]).
  destruct (pool_rtc _ _ _ Hc Hall) as [Hs' _].
  destruct (DropNode_shared lid w' p Hs') as (w'' & E & _ & En' & Em').
  exists w', w''. split; [done|]. rewrite En. split; [done|]. rewrite Eo, Ip, Iq. split; [done|].
  split; [done|]. split.
  - rewrite En'. apply erase_leaves; [done|..]; rewrite En, N; [left|right; left].
  - unfold GetNode. mstep. by rewrite Em', Eo, Ip, lookup_delete_eq.
Qed.

(** ** Calls on different ids *)

Definition stage_node s : option ptr :=
  match s with
  | AGuards p | ABucket p | ACritical p | AIndex p | AHash p
  | DErase p | DIndex p | DHash p | DLocal p => Some p
  | PReset | PCopy | PAssign _ | URead | Finished _ => None
  end.

Definition stage_id w s : option string := (fun p => node_id (obj_of w p)) <$> stage_node s.

(** The node whose index entry a thread is about to write or remove. *)
Definition pending s : option ptr := match s with AIndex p | DIndex p => Some p | _ => None end.

(** The index is exact, except for the entries that are pending, and a node
    about to get its bucket is not known yet. *)
Record indexed w (pool : list stage) : Prop := {
  ix_apart : NoDup (omap (stage_id w) pool);
  ix_nodup : NoDup ((fun p => node_id (obj_of w p)) <$> nodes_ w);
  ix_new p : ABucket p ∈ pool -> node_id_map_ w !! node_id (obj_of w p) = None;
  ix_added p : AIndex p ∈ pool -> p ∈ nodes_ w /\ node_id_map_ w !! node_id (obj_of w p) = None;
  ix_erased p r : DIndex p ∈ pool -> r ∈ nodes_ w -> node_id (obj_of w r) <> node_id (obj_of w p);
  ix_map i : (forall s p, s ∈ pool -> pending s = Some p -> node_id (obj_of w p) <> i) ->
    forall r, node_id_map_ w !! i = Some r <-> r ∈ nodes_ w /\ node_id (obj_of w r) = i }.

Lemma indexed_perm w pool pool' : pool ≡ₚ pool' -> indexed w pool -> indexed w pool'.
Proof using All.
  intros Hp [G1 G2 G6 G3 G4 G5]. split; [by rewrite <- Hp|done|..].
  - intros p. rewrite <- Hp. apply G6.
  - intros p. rewrite <- Hp. apply G3.
  - intros p r. rewrite <- Hp. apply G4.
  - intros i Hi. apply G5. intros s p. rewrite Hp. apply Hi.
Qed.

(** A thread that ends or moves on keeps the ids apart. *)
Lemma apart_step w w' s s' rest :
  (forall q, node_id (obj_of w' q) = node_id (obj_of w q)) ->
  stage_node s' = stage_node s \/ stage_node s' = None ->
  NoDup (omap (stage_id w) (s :: rest)) -> NoDup (omap (stage_id w') (s' :: rest)).
Proof using All.
  intros Hid Hs Hn.
  assert (forall t, stage_id w' t = stage_id w t) as E.
  { intros t. unfold stage_id. destruct (stage_node t) as [q|]; simpl; [by rewrite Hid|done]. }
  rewrite (list_omap_ext _ (stage_id w) _ (s' :: rest)); [|apply Forall2_same_length_lookup_2; [done|]].
  2: { intros i t t' Ht Ht'. rewrite Ht in Ht'. injection Ht' as <-. apply E. }
  clear E. cbn in *. destruct Hs as [Es|Es].
  - assert (stage_id w s' = stage_id w s) as -> by (unfold stage_id; by rewrite Es). done.
  - assert (stage_id w s' = None) as -> by (unfold stage_id; by rewrite Es).
    destruct (stage_id w s); [by apply NoDup_cons in Hn as [_ ?]|done].
Qed.

(** A section that touches neither nodes_ nor the index. *)
Lemma indexed_quiet w w' s s' rest :
  (forall q, node_id (obj_of w' q) = node_id (obj_of w q)) ->
  stage_node s' = stage_node s \/ stage_node s' = None ->
  nodes_ w' ≡ₚ nodes_ w -> node_id_map_ w' = node_id_map_ w ->
  pending s = None -> pending s' = None ->
  (forall p, s' = ABucket p -> node_id_map_ w !! node_id (obj_of w p) = None) ->
  indexed w (s :: rest) -> indexed w' (s' :: rest).
Proof using All.
  intros Hid Hs En Em Ps Ps' Hnew [G1 G2 G6 G3 G4 G5].
  split; [by eapply apart_step| | | | |].
  - rewrite En. by rewrite (list_fmap_ext _ (fun p => node_id (obj_of w p))).
  - intros p Hin. rewrite Em, Hid. apply elem_of_cons in Hin as [<-|Hin]; [by apply Hnew|].
    apply G6. by right.
  - intros p Hin. rewrite En, Em, Hid. apply G3. apply elem_of_cons in Hin as [<-|Hin]; [done|by right].
  - intros p r Hin. rewrite En, !Hid. apply G4. apply elem_of_cons in Hin as [<-|Hin]; [done|by right].
  - intros i Hi r. rewrite Em, En, Hid. apply G5. intros t p [->|Ht]%elem_of_cons Hp; [congruence|].
    rewrite <- Hid. by apply (Hi t); [right|].
Qed.

Lemma apart_ids w s rest p t q :
  NoDup (omap (stage_id w) (s :: rest)) -> stage_node s = Some p ->
  t ∈ rest -> stage_node t = Some q -> node_id (obj_of w q) <> node_id (obj_of w p).
Proof using All.
  intros Hn Es Ht Et E. cbn in Hn.
  assert (stage_id w s = Some (node_id (obj_of w p))) as Ei by (unfold stage_id; by rewrite Es).
  rewrite Ei in Hn. apply NoDup_cons in Hn as [Hp _]. apply Hp, list_elem_of_omap.
  exists t. split; [done|]. unfold stage_id. rewrite Et. cbn. by rewrite E.
Qed.

Lemma pending_node t q : pending t = Some q -> stage_node t = Some q.
Proof using All. by destruct t. Qed.

Section moving.
Variables (w w' : World) (rest : list stage) (p : ptr).
Hypothesis Hobj : obj_of w' = obj_of w.

(** push_back, when the index does not know the id. *)
Lemma indexed_push :
  indexed w (ACritical p :: rest) -> has_id w (node_id (obj_of w p)) = false ->
  nodes_ w' ≡ₚ p :: nodes_ w -> node_id_map_ w' = node_id_map_ w ->
  indexed w' (AIndex p :: rest).
Proof using All.
  intros [G1 G2 G6 G3 G4 G5] Hh En Em.
  assert (forall t q, t ∈ rest -> pending t = Some q -> node_id (obj_of w q) <> node_id (obj_of w p))
    as Hap by (intros t q Ht Hq; eapply (apart_ids _ (ACritical p)); [done|done|done|by apply pending_node]).
  assert (node_id_map_ w !! node_id (obj_of w p) = None) as Hm
    by (unfold has_id in Hh; by destruct (node_id_map_ w !! _)).
  assert (forall r, r ∈ nodes_ w -> node_id (obj_of w r) <> node_id (obj_of w p)) as Hnew.
  { intros r Hr E. assert (node_id_map_ w !! node_id (obj_of w p) = Some r) as E'; [|congruence].
    apply G5; [|done]. intros t q [->|Ht]%elem_of_cons Hq; [done|eauto]. }
  split; [by eapply apart_step; [by rewrite Hobj|by left|exact G1]|..].
  - rewrite Hobj, En. cbn. apply NoDup_cons. split; [|done]. intros (r & E & Hr)%list_elem_of_fmap. by apply (Hnew r).
  - intros q Hq. rewrite Hobj, Em. apply elem_of_cons in Hq as [|Hq]; [done|]. apply G6. by right.
  - intros q Hq. rewrite Hobj, En, Em. apply elem_of_cons in Hq as [[= ->]|Hq]; [by split; [left|]|].
    destruct (G3 q) as [Hin Hq']; [by right|]. by split; [right|].
  - intros d r Hd%elem_of_cons. rewrite Hobj, En. destruct Hd as [|Hd]; [done|].
    intros [->|Hr]%elem_of_cons; [|by apply G4; [right|]].
    apply not_eq_sym. eapply Hap; [exact Hd|done].
  - intros i Hi r. rewrite Em, En, Hobj, elem_of_cons. rewrite Hobj in Hi. rewrite G5.
    + split; [intros [? ?]; by split; [right|]|]. intros [[->|Hr] E]; [|done].
      by destruct (Hi (AIndex p) p ltac:(left) eq_refl).
    + intros t q [->|Ht]%elem_of_cons Hq; [done|]. by apply (Hi t); [right|].
Qed.

(** The insertion into node_id_map_. *)
Lemma indexed_insert :
  indexed w (AIndex p :: rest) -> nodes_ w' = nodes_ w ->
  node_id_map_ w' = <[node_id (obj_of w p) := p]> (node_id_map_ w) ->
  indexed w' (AHash p :: rest).
Proof using All.
  intros [G1 G2 G6 G3 G4 G5] En Em.
  assert (forall t q, t ∈ rest -> pending t = Some q -> node_id (obj_of w q) <> node_id (obj_of w p))
    as Hap by (intros t q Ht Hq; eapply (apart_ids _ (AIndex p)); [done|done|done|by apply pending_node]).
  destruct (G3 p) as [Hin Hm]; [left|].
  split; [by eapply apart_step; [by rewrite Hobj|by left|exact G1]|by rewrite Hobj, En|..].
  - intros q Hq. rewrite Hobj, Em. apply elem_of_cons in Hq as [|Hq]; [done|].
    rewrite lookup_insert_ne; [apply G6; by right|]. apply not_eq_sym.
    by eapply (apart_ids _ (AIndex p)).
  - intros q Hq. rewrite Hobj, En, Em. apply elem_of_cons in Hq as [|Hq]; [done|].
    rewrite lookup_insert_ne; [apply G3; by right|]. apply not_eq_sym. by eapply Hap.
  - intros d r Hd%elem_of_cons. rewrite Hobj, En. destruct Hd as [|Hd]; [done|]. apply G4. by right.
  - intros i Hi r. rewrite Em, En, Hobj. rewrite Hobj in Hi.
    destruct (decide (node_id (obj_of w p) = i)) as [<-|Hne].
    + rewrite lookup_insert_eq. split; [by intros [= ->]|]. intros [Hr E]. f_equal.
      apply list_elem_of_lookup in Hin as [a Ha]. apply list_elem_of_lookup in Hr as [b Hb].
      assert (a = b) as ->; [|congruence].
      eapply NoDup_lookup; [exact G2|by rewrite list_lookup_fmap, Ha|by rewrite list_lookup_fmap, Hb; simpl; rewrite E].
    + rewrite lookup_insert_ne by done. apply G5. intros t q [->|Ht]%elem_of_cons Hq.
      * by injection Hq as <-.
      * by apply (Hi t); [right|].
Qed.

(** The erasure from nodes_. *)
Lemma indexed_erase :
  indexed w (DErase p :: rest) ->
  nodes_ w' = erase_first (fun r => (node_id (obj_of w r) =? node_id (obj_of w p))%string) (nodes_ w) ->
  node_id_map_ w' = node_id_map_ w ->
  indexed w' (DIndex p :: rest).
Proof using All.
  intros [G1 G2 G6 G3 G4 G5] En Em. rewrite erase_first_filter in En by done.
  assert (forall t q, t ∈ rest -> pending t = Some q -> node_id (obj_of w q) <> node_id (obj_of w p))
    as Hap by (intros t q Ht Hq; eapply (apart_ids _ (DErase p)); [done|done|done|by apply pending_node]).
  split; [by eapply apart_step; [by rewrite Hobj|by left|exact G1]|..].
  - rewrite Hobj, En. apply NoDup_fmap_filter. done.
  - intros q Hq. rewrite Hobj, Em. apply elem_of_cons in Hq as [|Hq]; [done|]. apply G6. by right.
  - intros q Hq. rewrite Hobj, En, Em. apply elem_of_cons in Hq as [|Hq]; [done|].
    destruct (G3 q) as [Hin Hq']; [by right|]. split; [|done]. apply list_elem_of_filter.
    split; [by eapply Hap|done].
  - intros d r Hd%elem_of_cons. rewrite Hobj, En. intros [Hne Hr]%list_elem_of_filter.
    destruct Hd as [[= ->]|Hd]; [done|]. by apply G4; [right|].
  - intros i Hi r. rewrite Em, En, Hobj, list_elem_of_filter. rewrite Hobj in Hi. rewrite G5.
    + specialize (Hi (DIndex p) p ltac:(left) eq_refl). naive_solver.
    + intros t q [->|Ht]%elem_of_cons Hq; [done|]. by apply (Hi t); [right|].
Qed.

(** The erasure from node_id_map_. *)
Lemma indexed_delete :
  indexed w (DIndex p :: rest) -> nodes_ w' = nodes_ w ->
  node_id_map_ w' = delete (node_id (obj_of w p)) (node_id_map_ w) ->
  indexed w' (DHash p :: rest).
Proof using All.
  intros [G1 G2 G6 G3 G4 G5] En Em.
  split; [by eapply apart_step; [by rewrite Hobj|by left|exact G1]|by rewrite Hobj, En|..].
  - intros q Hq. rewrite Hobj, Em. apply elem_of_cons in Hq as [|Hq]; [done|].
    rewrite lookup_delete_None. right. apply G6. by right.
  - intros q Hq. rewrite Hobj, En, Em. apply elem_of_cons in Hq as [|Hq]; [done|].
    destruct (G3 q) as [Hin Hq']; [by right|]. split; [done|].
    rewrite lookup_delete_None. by right.
  - intros d r Hd%elem_of_cons. rewrite Hobj, En. destruct Hd as [|Hd]; [done|]. apply G4. by right.
  - intros i Hi r. rewrite Em, En, Hobj. rewrite Hobj in Hi.
    destruct (decide (node_id (obj_of w p) = i)) as [<-|Hne].
    + rewrite lookup_delete_eq. split; [done|]. intros [Hr E]. by destruct (G4 p r ltac:(left) Hr).
    + rewrite lookup_delete_ne by done. apply G5. intros t q [->|Ht]%elem_of_cons Hq.
      * by injection Hq as <-.
      * by apply (Hi t); [right|].
Qed.
End moving.

Lemma section_indexed lid w s s' w' rest :
  shared_ok lid w -> ready lid w s -> section s w = Ok (s', w') ->
  indexed w (s :: rest) -> indexed w' (s' :: rest).
Proof.
  intros Hok Hr E Hi.
  destruct s as [p|p|p|p|p|p|p|p|p| | |l| |c]; cbn [section] in E;
    try (injection E as <- <-; eapply indexed_quiet; [..|exact Hi]; done || by right).
  - rewrite (add_guards_spec lid w p Hok) in E. injection E as <- <-.
    unfold guards_stage. destruct (acceptable lid (obj_of w p)) eqn:Ha; cbn [negb];
      [destruct (has_id w _) eqn:Hh|]; (eapply indexed_quiet; [..|exact Hi]); try done;
      try (by left); try (by right).
    intros q [= <-]. unfold has_id in Hh. by destruct (node_id_map_ w !! _).
  - rewrite (add_bucket_spec lid w p Hok Hr) in E. injection E as <- <-.
    eapply indexed_quiet; [..|exact Hi]; try done; [|by left].
    apply (set_bucket_keeps lid w p kNodeIdSize_pos Hr).
  - destruct (add_critical_spec lid w p Hok) as (l & Hl & E'). rewrite E' in E.
    injection E as <- <-. unfold critical_stage. destruct (kKadParamK <=? _);
      [|destruct (has_id w _) eqn:Hh]; try (eapply indexed_quiet; [..|exact Hi]; done || by right).
    apply (indexed_push w); try done. cbn. by rewrite Hl, Permutation_app_comm.
  - injection E as <- <-. apply (indexed_insert w); [done|done|done|].
    cbn. destruct (ix_added _ _ Hi p) as [_ ->]; [left|done].
  - injection E as <- <-. by apply (indexed_erase w).
  - injection E as <- <-. by apply (indexed_delete w).
  - injection E as <- <-. eapply indexed_quiet; [..|exact Hi]; done || by left.
  - destruct (drop_local_spec lid w p Hok) as (w2 & E' & Eh & En & Em & _).
    rewrite E' in E. injection E as <- <-.
    eapply indexed_quiet; [..|exact Hi]; try done; [|by right|by rewrite En].
    intros q. unfold obj_of. by rewrite Eh.
Qed.

Lemma insert_cons_perm {A} (l : list A) i x y :
  l !! i = Some x -> exists r, l ≡ₚ x :: r /\ <[i := y]> l ≡ₚ y :: r.
Proof using All.
  intros Hi. exists (delete i l). split; [by apply delete_Permutation|].
  rewrite (delete_Permutation (<[i := y]> l) i y)
    by (apply list_lookup_insert_eq; by eapply lookup_lt_Some).
  f_equiv. clear Hi. revert i. induction l as [|z l IH]; intros [|i]; try done. cbn. by rewrite IH.
Qed.

Lemma threads_indexed lid c c' :
  pool_ok lid c -> indexed c.2 c.1 -> rtc threads_step c c' -> pool_ok lid c' /\ indexed c'.2 c'.1.
Proof.
  intros Hc Hi Hs. induction Hs as [c|c1 c2 c3 Hstep _ IH]; [done|].
  assert (pool_ok lid c2) as Hc2 by (by eapply pool_step; [apply kNodeIdSize_pos| |]).
  apply IH; [done|]. destruct Hstep as [i s s' pool w w' _ Hl _ E]. simpl in *.
  destruct (insert_cons_perm pool i s s' Hl) as (rest & Hp & Hp').
  apply (indexed_perm _ (s' :: rest)); [done|]. eapply section_indexed; [apply Hc|by eapply Forall_lookup_1; [apply Hc|]|exact E|].
  by apply (indexed_perm _ pool).
Qed.

Lemma run_schedule_steps turns pool w pool' w' :
  run_schedule turns pool w = Ok (pool', w') -> rtc threads_step (pool, w) (pool', w').
Proof using All.
  revert pool w. induction turns as [|i turns IH]; intros pool w; simpl; [by intros [= -> ->]|].
  destruct (raced pool w) eqn:Hn; [done|]. destruct (pool !! i) as [s|] eqn:Hi; [|apply IH].
  destruct (section s w) as [[s' w1]|] eqn:E; [|done]. intros Hr%IH.
  assert ((exists c, s = Finished c) \/ forall c, s <> Finished c) as [[c ->]|Hf]
    by (destruct s; eauto).
  - injection E as <- <-. by rewrite list_insert_id in Hr.
  - by eapply run_step.
Qed.

Lemma lookup_apart (pool : list stage) i j s u :
  i <> j -> pool !! i = Some s -> pool !! j = Some u -> u ∈ delete i pool.
Proof using All.
  intros Hne Hi Hj. destruct (decide (j < i)%nat) as [Hlt|Hge].
  - apply (list_elem_of_lookup_2 _ j). by rewrite list_lookup_delete_lt.
  - apply (list_elem_of_lookup_2 _ (pred j)). rewrite list_lookup_delete_ge by lia.
    by replace (S (pred j)) with j by lia.
Qed.

(** No two threads are at the bucket_index of the same node. *)
Lemma buckets_private w pool :
  indexed w pool -> (forall s, s ∈ pool -> publishing s = false) -> raced pool w = false.
Proof using All.
  intros Hix Hp. apply not_true_is_false. intros (i & j & s & u & Hne & Hi & Hj & Hc)%raced_true.
  pose proof (lookup_apart _ _ _ _ _ Hne Hi Hj) as Hu.
  pose proof (delete_Permutation _ _ _ Hi) as Hperm.
  pose proof (Hp s (list_elem_of_lookup_2 _ _ _ Hi)) as Hs.
  apply (indexed_perm _ _ _ Hperm) in Hix as [G1 _ G6 _ _ G5].
  destruct s as [|p| | | | | | | | | | | |], u as [|q|q| | | | | | | | | | |]; cbn in Hc; try done.
  - apply bool_decide_eq_true in Hc as ->.
    by apply (apart_ids w (ABucket q) (delete i pool) q (ABucket q) q G1).
  - apply bool_decide_eq_true in Hc. apply elem_of_cons in Hc as [->|Hin].
    { by apply (apart_ids w (ABucket q) (delete i pool) q (ACritical q) q G1). }
    assert (node_id_map_ w !! node_id (obj_of w p) = Some p) as E.
    { apply G5; [|done]. intros v r [->|Hv]%elem_of_cons Hr; [done|].
      by apply (apart_ids w (ABucket p) (delete i pool) p v r G1); [| |apply pending_node]. }
    by rewrite G6 in E by left.
Qed.

(** C7: Calls of AddNode and DropNode on nodes with pairwise different ids do
    not disturb each other, except at the copy for lock-free readers: at every
    moment of a run without a race so far, two threads race only if one of
    them is between reset() and the assignment of no_lock_for_use_nodes_; and
    when all calls have returned without a race, however their critical
    sections were interleaved, the table is well formed again, its index
    exact. *)
Theorem distinct_ids_keep_table lid w0 pool0 pool w :
  table_ok lid w0 -> Forall starting pool0 -> NoDup (omap (stage_id w0) pool0) ->
  rtc threads_step (pool0, w0) (pool, w) ->
  ((forall s, s ∈ pool -> publishing s = false) -> raced pool w = false) /\
  (Forall finished pool -> table_ok lid w).
Proof.
  intros Hok Hst Hn Hs. rewrite Forall_forall in Hst.
  destruct (threads_indexed lid (pool0, w0) (pool, w)) as [[Hsh _] Hix]; [..|done|].
  - split; [by apply table_shared|]. apply Forall_forall. intros s Hin. by specialize (Hst s Hin); destruct s.
  - split; [done|apply (ok_nodup _ _ Hok)|..].
    + intros p Hp. by specialize (Hst _ Hp).
    + intros p Hp. by specialize (Hst _ Hp).
    + intros p r Hp. by specialize (Hst _ Hp).
    + intros i _ r. apply (ok_map _ _ Hok).
  - simpl in *. split; [by apply buckets_private|]. intros Hf. destruct Hix as [_ G2 _ _ _ G5].
    destruct Hsh. split; try done. intros i r. apply G5.
    rewrite Forall_forall in Hf. intros s p Hin. specialize (Hf s Hin). by destruct s.
Qed.

(** ** Two calls and the copy *)

(** A node the table takes, with room in its bucket for [k] more. *)
Definition room_for (lid : string) w p (k : nat) : Prop :=
  acceptable lid (obj_of w p) = true /\ has_id w (node_id (obj_of w p)) = false /\
  (in_bucket w (bucket_of lid (obj_of w p)) (nodes_ w) + k <= 8)%nat.

(** A call that gets to the publication when [k - 1] others add before it. *)
Definition succeeds (lid : string) w (k : nat) s : Prop :=
  match s with AGuards p => room_for lid w p k | DErase _ => True | _ => False end.

Definition apart_from w s s' : Prop :=
  forall p q, stage_node s = Some p -> stage_node s' = Some q ->
    node_id (obj_of w q) <> node_id (obj_of w p).

Definition two (first : bool) (s u : stage) : list stage := if first then [s; u] else [u; s].

(** The threads before and at the publication do not race by themselves. *)
Lemma two_calm first s u w :
  publishing s = false -> s <> URead -> starting u \/ u = PReset ->
  raced (two first s u) w = false.
Proof using All.
  intros Hs Hr Hu. assert (forall x, clash w u x = true -> publishing x = true \/ x = URead) as Hc
    by (intros x Hx; destruct Hu as [Hu| ->]; [destruct u|]; destruct x; simpl in *; auto; done).
  assert (clash w s u = false /\ clash w u s = false) as [E1 E2].
  { split; [destruct Hu as [Hu| ->]; [destruct u|]; destruct s; done|].
    apply not_true_is_false. intros [|]%Hc; [by rewrite Hs in *|done]. }
  destruct first; cbn; by rewrite E1, E2.
Qed.

Lemma two_run first s s' u w w' c :
  publishing s = false -> s <> URead -> (forall c, s <> Finished c) -> starting u \/ u = PReset ->
  section s w = Ok (s', w') ->
  rtc threads_step (two first s' u, w') c -> rtc threads_step (two first s u, w) c.
Proof using All.
  intros Hp Hr Hf Hu E Hs.
  eapply (run_step _ _ _ (if first then 0 else 1)%nat); [by apply two_calm|by destruct first|done|exact E|].
  by destruct first.
Qed.

Lemma keeps_room lid w w' p k :
  shared_ok lid w -> keeps_objects lid w w' -> nodes_ w' = nodes_ w ->
  node_id_map_ w' !! node_id (obj_of w p) = node_id_map_ w !! node_id (obj_of w p) ->
  room_for lid w p k -> room_for lid w' p k.
Proof.
  intros Hok Hk En Em (Ha & Hh & Hb). destruct (Hk p) as (Ei & Ea & _). split; [by rewrite Ea|].
  split; [unfold has_id; by rewrite Ei, Em|].
  assert (bucket_of lid (obj_of w' p) = bucket_of lid (obj_of w p)) as -> by (unfold bucket_of; by rewrite Ei).
  rewrite En, (in_bucket_keeps lid w w') by (done || apply (sh_valid _ _ Hok)). exact Hb.
Qed.

(** The same objects, and no more nodes in a bucket than [k - k'] new ones. *)
Lemma moves_room lid w w' q k k' :
  obj_of w' = obj_of w ->
  (forall b, (in_bucket w b (nodes_ w') + k' <= in_bucket w b (nodes_ w) + k)%nat) ->
  (has_id w (node_id (obj_of w q)) = false -> has_id w' (node_id (obj_of w q)) = false) ->
  room_for lid w q k -> room_for lid w' q k'.
Proof using All.
  intros Eo Hb Hh (Ha & Hid & Hr). unfold room_for. rewrite Eo. split; [done|]. split; [auto|].
  specialize (Hb (bucket_of lid (obj_of w q))). unfold in_bucket in *. rewrite Eo. lia.
Qed.

Lemma has_id_None w i : has_id w i = false <-> node_id_map_ w !! i = None.
Proof using All. unfold has_id. by destruct (node_id_map_ w !! i). Qed.

(** A call that succeeds gets to the publication, and leaves room for others. *)
Lemma add_to_publication lid w first p u k :
  shared_ok lid w -> room_for lid w p (S k) -> starting u \/ u = PReset ->
  exists w', rtc threads_step (two first (AGuards p) u, w) (two first PReset u, w') /\
    shared_ok lid w' /\
    (forall q n, node_id (obj_of w q) <> node_id (obj_of w p) ->
       room_for lid w q (S n) -> room_for lid w' q n).
Proof.
  intros Hok (Ha & Hh & Hroom) Hu.
  destruct (guards_pass lid w p Hok Ha Hh) as (T1 & w1 & S1 & Hs1 & V1 & B1 & K1 & O1 & N1 & M1).
  pose proof (proj1 (K1 p)) as Ip.
  destruct (critical_passes lid w1 p Hs1 V1) as (w2 & S2 & Hs2 & N2 & O2 & M2).
  { by rewrite has_id_None, M1, Ip, <- has_id_None. }
  { rewrite B1, N1, (in_bucket_keeps lid w w1) by (done || apply (sh_valid _ _ Hok)). lia. }
  destruct (section_shared lid w2 (AIndex p) kNodeIdSize_pos Hs2) as (s3 & w3 & S3 & Hs3 & _); [done..|].
  destruct (section_shared lid w3 (AHash p) kNodeIdSize_pos Hs3) as (s4 & w4 & S4 & Hs4 & _); [done..|].
  pose proof S3 as S3'. pose proof S4 as S4'. injection S3' as <- E3. injection S4' as <- E4.
  exists w4. split; [|split; [done|]].
  - do 4 (eapply two_run; [done|done|done|done|eassumption|]).
    eapply two_run; [done|done|done|done|exact S4|]. done.
  - intros q n Hne Hq. pose proof (proj1 (K1 q)) as Iq.
    assert (room_for lid w1 q (S n)) as Hq1 by (apply (keeps_room lid w); [done..|by rewrite M1|done]).
    assert (room_for lid w2 q n) as Hq2.
    { apply (moves_room lid w1 _ _ (S n)); [done| | |done].
      - intros b. rewrite (in_bucket_perm _ _ _ _ N2). unfold in_bucket. rewrite filter_cons.
        case_decide; simpl; lia.
      - by rewrite !has_id_None, M2. }
    rewrite <- E4, <- E3. apply (moves_room lid w2 _ _ n); [done|done| |done].
    rewrite !has_id_None. cbn. intros E. rewrite O2, Iq in *. rewrite Ip.
    destruct (node_id_map_ w2 !! node_id (obj_of w p)); [done|]. by rewrite lookup_insert_ne.
Qed.

Lemma drop_to_publication lid w first p u :
  shared_ok lid w -> starting u \/ u = PReset ->
  exists w', rtc threads_step (two first (DErase p) u, w) (two first PReset u, w') /\
    shared_ok lid w' /\ (forall q n, room_for lid w q n -> room_for lid w' q n).
Proof.
  intros Hok Hu.
  destruct (section_shared lid w (DErase p) kNodeIdSize_pos Hok) as (s1 & w1 & S1 & Hs1 & _); [done..|].
  destruct (section_shared lid w1 (DIndex p) kNodeIdSize_pos Hs1) as (s2 & w2 & S2 & Hs2 & _); [done..|].
  destruct (section_shared lid w2 (DHash p) kNodeIdSize_pos Hs2) as (s3 & w3 & S3 & Hs3 & _); [done..|].
  pose proof S1 as E1. pose proof S2 as E2. pose proof S3 as E3.
  injection E1 as <- E1. injection E2 as <- E2. injection E3 as <- E3.
  destruct (drop_local_spec lid w3 p Hs3) as (w4 & S4 & Eh & En & Em & _).
  exists w4. split; [|split].
  - do 4 (eapply two_run; [done|done|done|done|eassumption|]). done.
  - by apply (section_shared_ok lid w3 (DLocal p) PReset).
  - intros q n. apply moves_room.
    + unfold obj_of. rewrite Eh, <- E3, <- E2, <- E1. done.
    + intros b. rewrite En, <- E3, <- E2, <- E1. apply Nat.add_le_mono_r. etrans; [apply in_bucket_erase|done].
    + rewrite !has_id_None, Em, <- E3, <- E2, <- E1. cbn. intros E. rewrite lookup_delete_None. by right.
Qed.

Lemma to_publication lid w first s u :
  shared_ok lid w -> succeeds lid w 1 s -> starting u \/ u = PReset ->
  exists w', rtc threads_step (two first s u, w) (two first PReset u, w') /\
    shared_ok lid w' /\
    (forall q n, (forall p, stage_node s = Some p -> node_id (obj_of w q) <> node_id (obj_of w p)) ->
       room_for lid w q (S n) -> room_for lid w' q n).
Proof.
  intros Hok Hs Hu. destruct s as [p| | | | |p| | | | | | | |]; try done.
  - destruct (add_to_publication lid w first p u 0%nat Hok Hs Hu) as (w' & Hr & Hok' & Hq).
    exists w'. split; [done|]. split; [done|]. intros q n Hne. by apply Hq, Hne.
  - destruct (drop_to_publication lid w first p u Hok Hu) as (w' & Hr & Hok' & Hq).
    exists w'. split; [done|]. split; [done|]. intros q n _ Hroom. apply Hq.
    destruct Hroom as (? & ? & ?). split; [done|]. split; [done|]. lia.
Qed.

(** C13: The copy for lock-free readers is not protected: two threads in
    AddNode or DropNode, of different nodes, that both succeed (AddNode: the
    node passes the tests, is not known and its bucket has room for two) can
    come to no_lock_for_use_nodes_.reset() at the same moment, without a race
    until then; there they race, and what follows is undefined. The mutexes of
    the function do not prevent it: the table itself is well formed up to that
    moment. *)
Theorem publication_races lid w s u :
  table_ok lid w -> succeeds lid w 2 s -> succeeds lid w 2 u -> apart_from w s u ->
  exists w', rtc threads_step ([s; u], w) ([PReset; PReset], w') /\
    shared_ok lid w' /\ raced [PReset; PReset] w' = true /\
    (forall c, ~ threads_step ([PReset; PReset], w') c).
Proof.
  intros Hok Hs Hu Hne. pose proof (table_shared _ _ Hok) as Hsh.
  destruct (to_publication lid w true s u Hsh) as (w1 & R1 & Hs1 & Hq1).
  { destruct s; try done. destruct Hs as (? & ? & ?). split; [done|]. split; [done|]. lia. }
  { destruct u; try done; by left. }
  destruct (to_publication lid w1 false u PReset Hs1) as (w2 & R2 & Hs2 & _).
  { destruct u; try done. apply Hq1; [|done]. intros p' Ep. by apply (Hne p' node). }
  { by right. }
  exists w2. split; [by etrans; [exact R1|exact R2]|]. split; [done|]. split; [done|].
  intros c Hstep. inversion Hstep; subst. done.
Qed.
End properties.

(** ** Witnesses *)

Section witnesses.
Import Examples.
#[local] Existing Instance selection_sort.

(** A second object with the id of object 5, which is not in the table. *)
Definition ex_twins : World := ex_new "abcz" 9006 ex_world.

Lemma ex_twins_ok : table_ok "abcd" ex_twins.
Proof. apply ex_new_ok, ex_world_ok. Qed.

(** One thread adds object 5 while another drops object 2. *)
Definition ex_pool : list stage := [AGuards 5%positive; DErase 2%positive].
Definition ex_turns : list nat := [0; 1; 0; 1; 0; 1; 0; 0; 0; 0; 0; 1; 1; 1; 1]%nat.
Definition ex_run : list stage * World :=
  match run_schedule ex_turns ex_pool ex_world with Ok c => c | _ => ([], ex_world) end.

Lemma ex_run_runs : run_schedule ex_turns ex_pool ex_world = Ok (ex_run.1, ex_run.2).
Proof. vm_compute. reflexivity. Qed.

Lemma ex_run_finished : ex_run.1 = [Finished kKadSuccess; Finished kKadSuccess].
Proof. vm_compute. reflexivity. Qed.

Lemma threads_keep_buckets_witness :
  exists k, relations.nsteps threads_step k (ex_pool, ex_world) ex_run /\ (k <= 16)%nat /\
    (in_bucket ex_run.2 3 (nodes_ ex_run.2) <= 8)%nat.
Proof.
  destruct (rtc_nsteps_1 _ _ (run_schedule_steps _ _ _ _ _ ex_run_runs)) as [k Hk].
  destruct (threads_keep_buckets "abcd" ex_world ex_pool k ex_run.1 ex_run.2 ex_world_ok)
    as (_ & Hb & _ & _ & _ & Hle); [by repeat constructor|exact Hk|].
  exists k. split; [by rewrite (surjective_pairing ex_run)|]. split; [exact Hle|apply Hb].
Defined.

Lemma same_id_added_twice_witness :
  exists w', rtc threads_step ([AGuards 5%positive; AGuards 6%positive], ex_twins)
      ([Finished kKadSuccess; Finished kKadSuccess], w') /\ length (nodes_ w') = 6%nat.
Proof.
  destruct (same_id_added_twice "abcd" ex_twins 5%positive 6%positive ex_twins_ok)
    as (w' & w'' & Hr & Hp & _); [done|vm_compute; reflexivity..|vm_compute; lia|].
  exists w'. split; [exact Hr|]. rewrite Hp. vm_compute. reflexivity.
Defined.

Lemma publication_races_witness :
  exists w', rtc threads_step (ex_pool, ex_world) ([PReset; PReset], w') /\
    raced [PReset; PReset] w' = true.
Proof.
  destruct (publication_races "abcd" ex_world (AGuards 5%positive) (DErase 2%positive) ex_world_ok)
    as (w' & Hr & _ & Hrace & _).
  - split; [vm_compute; reflexivity|]. split; [vm_compute; reflexivity|]. vm_compute. lia.
  - done.
  - intros p q [= <-] [= <-]. by vm_compute.
  - by exists w'.
Defined.

Lemma distinct_ids_keep_table_witness :
  table_ok "abcd" ex_run.2 /\ length (nodes_ ex_run.2) = 4%nat.
Proof.
  split; [|vm_compute; reflexivity].
  apply (distinct_ids_keep_table "abcd" ex_world ex_pool ex_run.1 ex_run.2 ex_world_ok).
  - by repeat constructor.
  - by apply (bool_decide_unpack _); vm_compute.
  - exact (run_schedule_steps _ _ _ _ _ ex_run_runs).
  - rewrite ex_run_finished. by repeat constructor.
Defined.
End witnesses.
