(* ===== verification/Robust.v ===== *)
(** No message crashes a started node: [runs lid m] says that [m], run on a
    started node, ends without a fault on a started node. The rules are syntax
    directed; the tactic [run_prog] applies them. The messages excluded are
    those that name a destination or target whose id has the wrong length. *)

From S2P Require Import Prelude Invariants Externals Messages Distance Sorting NodeInfo LocalNodeInfo.
From S2P Require Import ClientNodes BootstrapCache World RoutingTable TableFacts TableProps.
From S2P Require Import Sending SendProps NodeDetection RoutingHandlers RoutingJoin Frames.

Section started.
Context `{Xbase} `{!XbaseLaws} `{KadKey} `{Xip} `{PartialSort} `{!PartialSortLaws}.
#[local] Set Default Proof Using "Type*".
Context (lid : string).

(** A well-formed node after Init, not in client mode. *)
Record started (w : World) : Prop := {
  st_ok : table_ok lid w;
  st_local : exists l x, local_node_ptr_ w = Some l /\ ln_client_mode l = false /\ ln_xip l = Some x;
  st_transport : is_Some (transport_ptr_ w);
  st_gxid : is_Some (w_global_xid w);
  st_detection : is_Some (node_detection_ptr_ w);
  st_dy : is_Some (dy_manager_ w) }.

Lemma started_sys w w' : sys w' = sys w -> table_ok lid w' -> started w -> started w'.
Proof.
  intros E Hok [_ (l & x & El & Em & Ex) Ht Hg Hd Hy]. unfold sys in E. rewrite El in E. simpl in E.
  injection E as E1 E2 E3 E4 E5.
  destruct (local_node_ptr_ w') as [l'|] eqn:El'; [|done]. injection E1 as E1a E1b.
  split; [done| | | | |].
  - exists l', x. split; [done|]. split; congruence.
  - destruct Ht as [v Ev]; rewrite Ev in E2. by destruct (transport_ptr_ w').
  - destruct Hg as [v Ev]; rewrite Ev in E3. by destruct (w_global_xid w').
  - destruct Hd as [v Ev]; rewrite Ev in E4. by destruct (node_detection_ptr_ w').
  - destruct Hy as [v Ev]; rewrite Ev in E5. by destruct (dy_manager_ w').
Qed.

Lemma started_core w w' : core w = core w' -> sys w' = sys w -> started w -> started w'.
Proof.
  intros Ec Es Hs. apply (started_sys w); [done| |done].
  by apply (table_ok_core lid w); [|apply (st_ok w)].
Qed.

Notation runs := (always started).

(** ** Rules *)

Lemma runs_modify (f : World -> World) :
  (forall w, core (f w) = core w /\ sys (f w) = sys w) -> runs (modify f).
Proof.
  intros Hf w Hw. destruct (Hf w) as [Hc Hs]. unfold wp, modify. by apply (started_core w).
Qed.

Lemma runs_run {A} (f : World -> A * World) :
  (forall w, core (f w).2 = core w /\ sys (f w).2 = sys w) -> runs (run f).
Proof.
  intros Hf w Hw. destruct (Hf w) as [Hc Hs]. unfold wp, run. destruct (f w) as [a w'].
  by apply (started_core w).
Qed.

(** From a partial to a total statement, for the operations of the table. *)
Lemma runs_frame {A} (m : M A) :
  (forall w, table_ok lid w -> exists a w', m w = Ok (a, w') /\ table_ok lid w') ->
  frames same_sys m -> runs m.
Proof.
  intros Hm Hf w Hw. destruct (Hm w (st_ok w Hw)) as (a & w' & E & Hok').
  specialize (Hf w). unfold wlp in Hf. unfold wp. rewrite E in *. by apply (started_sys w).
Qed.

(** ** Objects and the local node *)

Lemma runs_mutate p f : (forall n, vital (f n) = vital n) -> runs (mutate p f).
Proof.
  intros Hf. apply runs_frame.
  - intros w Hok. eexists _, _. split; [reflexivity|]. apply table_ok_mutate; auto.
  - unfold mutate. frame. done.
Qed.

Lemma runs_new_NodeInfo i f : runs (new_NodeInfo i f).
Proof.
  apply runs_frame; [|unfold new_NodeInfo; frame; done].
  intros w Hok. eexists _, _. split; [reflexivity|]. by apply table_ok_alloc.
Qed.

Lemma runs_set_local f :
  (forall l, ln_kadmlia_key (f l) = ln_kadmlia_key l /\ ln_client_mode (f l) = ln_client_mode l /\
             ln_xip (f l) = ln_xip l) -> runs (set_local f).
Proof.
  intros Hf w Hw. unfold set_local, wp, modify.
  destruct (st_local w Hw) as (l & x & El & _). destruct (Hf l) as (E1 & E2 & E3).
  apply (started_core w); [|unfold sys|done]; unfold core, local_key; simpl; rewrite El; simpl;
    congruence.
Qed.

Lemma runs_local : runs local.
Proof.
  intros w Hw. destruct (st_local w Hw) as (l & x & El & _). unfold local, wp. msteps. by rewrite El.
Qed.

Lemma runs_local_id : runs local_id.
Proof.
  intros w Hw. unfold wp. by rewrite (local_id_ok lid w (st_ok w Hw)).
Qed.

Lemma runs_local_xip : runs local_xip.
Proof.
  intros w Hw. destruct (st_local w Hw) as (l & x & El & Em & Ex).
  unfold local_xip, local, wp. msteps. rewrite El. msteps.
  unfold LocalNodeInfo_xip, GetXipParser. rewrite Em, Ex. done.
Qed.

Lemma runs_gxid : runs gxid.
Proof.
  intros w Hw. destruct (st_gxid w Hw) as [g Eg]. unfold gxid, wp. msteps. by rewrite Eg.
Qed.

Lemma runs_transport_send pk : runs (transport_send pk).
Proof.
  intros w Hw. destruct (st_transport w Hw) as [t Et].
  destruct (transport_send_spec w t pk Et) as [r E]. unfold wp. rewrite E.
  by apply (started_core w).
Qed.

Lemma runs_obj p : runs (obj p).
Proof. apply always_gets. Qed.

(** ** The table *)

Lemma runs_AddNode p : runs (AddNode p).
Proof.
  apply runs_frame.
  - intros w Hok. destruct codes_distinct as (_ & Hc1 & Hc2).
    destruct (AddNode_spec lid w p kNodeIdSize_pos Hc1 Hc2 Hok) as (w' & E & Hok' & _). eauto.
  - intros w. eapply wlp_mono; [|apply env_AddNode]. intros a w'. apply same_env_sys.
Qed.

Lemma runs_CanAddNode p : runs (CanAddNode p).
Proof.
  apply runs_frame.
  - intros w Hok. destruct codes_distinct as (Hn & _ & _).
    destruct (CanAddNode_spec lid w p kNodeIdSize_pos Hn Hok) as (w' & E & Hok' & _). eauto.
  - intros w. eapply wlp_mono; [|apply env_CanAddNode]. intros a w'. apply same_env_sys.
Qed.

Lemma runs_DropNode p : runs (DropNode p).
Proof.
  apply runs_frame; [|apply sys_DropNode].
  intros w Hok. destruct (DropNode_spec lid w p Hok) as (w' & E & Hok' & _). eauto.
Qed.

Lemma sort_sys target number : frames same_sys (SortNodesByTargetXid target number).
Proof.
  intros w. eapply wlp_mono; [|apply env_sort]. intros a w'. apply same_env_sys.
Qed.

Lemma runs_sort target number : id_ok target -> runs (SortNodesByTargetXid target number).
Proof.
  intros Ht. apply runs_frame; [|apply sort_sys].
  intros w Hok. destruct (sort_xid_spec lid w target number Hok Ht) as (l & E & Hl & _).
  eexists _, _. split; [exact E|]. by apply table_ok_perm.
Qed.

Lemma runs_GetClosestNodes target number : id_ok target -> runs (GetClosestNodes target number false).
Proof.
  intros Ht. unfold GetClosestNodes, nodes. destruct (number =? 0); [apply always_ret|].
  apply always_bind; [by apply runs_sort|]. intros c. destruct (c =? 0); [apply always_ret|].
  apply always_bind; [apply always_gets|]. intros l. apply always_ret.
Qed.
End started.

Notation runs lid := (always (started lid)).

Create HintDb runs.
#[export] Hint Resolve always_ret always_gets runs_new_NodeInfo runs_local runs_local_id
  runs_local_xip runs_gxid runs_transport_send runs_obj runs_AddNode runs_CanAddNode
  runs_DropNode runs_sort runs_GetClosestNodes : runs.

Ltac run_step :=
  lazymatch goal with
  | |- runs _ (_ ≫= _) => apply always_bind; [|intros ?]
  | |- runs _ (when _ _) => apply always_when
  | |- runs _ (for_each _ _) => apply always_for_each; intros ?
  | |- runs _ (modify _) => apply runs_modify; intros ?; split; reflexivity
  | |- runs _ (run _) => apply runs_run; intros ?; split; reflexivity
  | |- runs _ (mutate _ _) => apply runs_mutate; intros ?; reflexivity
  | |- runs _ (set_local _) => apply runs_set_local; intros ?; try (splits; reflexivity)
  | |- runs _ (let '_ := ?x in _) => destruct x
  | |- runs _ (if ?b then _ else _) => destruct b
  | |- runs _ (match ?x with _ => _ end) => destruct x eqn:?
  | |- runs _ ((match ?x with _ => _ end) _) => destruct x; cbv beta
  | |- runs _ _ => solve [auto with runs nocore]
  end.
Ltac run_prog := repeat (cbv zeta; run_step).

Section handlers.
Context `{Xbase} `{!XbaseLaws} `{KadKey} `{Xip} `{PartialSort} `{!PartialSortLaws} `{Wire} `{Bloom}.
#[local] Set Default Proof Using "Type*".
Context (lid : string).
Notation runs := (always (started lid)).
Notation started := (started lid).

(** ** Sending *)

Lemma runs_SetFreqMessage m : runs (SetFreqMessage m).
Proof. unfold SetFreqMessage, next_message_id. run_prog. Qed.

Lemma runs_SendData m ip port : runs (SendData m ip port).
Proof. unfold SendData, SendData_bytes. run_prog. Qed.
#[local] Hint Resolve runs_SetFreqMessage runs_SendData : runs.

Lemma runs_SendData_node m p : runs (SendData_node m p).
Proof. unfold SendData_node. run_prog. Qed.
#[local] Hint Resolve runs_SendData_node : runs.

Lemma runs_RecursiveSend m r : id_ok (get msg_des_node_id m) -> runs (RecursiveSend m r).
Proof. intros Hdes. unfold RecursiveSend. run_prog. Qed.

Lemma runs_SendToClosestNode_hop m b :
  id_ok (get msg_des_node_id m) -> runs (SendToClosestNode_hop m b).
Proof.
  intros Hdes. unfold SendToClosestNode_hop. run_prog; apply runs_RecursiveSend; by destruct b.
Qed.

Lemma runs_IsDestination des : runs (IsDestination des false).
Proof.
  unfold IsDestination. apply always_bind; [apply runs_local_id|]. intros i. simpl. run_prog.
Qed.

Lemma runs_request des s t : runs (request des s t).
Proof. unfold request. run_prog. Qed.
#[local] Hint Resolve runs_IsDestination runs_request : runs.

(** ** Asking for neighbours *)

Lemma runs_SendFindClosestNodes i c l s : runs (SendFindClosestNodes i c l s).
Proof. unfold SendFindClosestNodes, GetExistsNodesBloomfilter, GetNode. run_prog. Qed.
#[local] Hint Resolve runs_SendFindClosestNodes : runs.

Lemma sys_add_random fuel b s q : frames same_sys (add_random_nodes fuel b s q).
Proof.
  revert q. induction fuel as [|fuel IH]; intros q; cbn [add_random_nodes];
    unfold nodes, RandomUint32, obj; frame; try apply IH; done.
Qed.

Lemma runs_GetClosestAlphaNodes fuel : runs (GetClosestAlphaNodes (S fuel)).
Proof.
  apply runs_frame.
  - intros w Hok. destruct (GetClosestAlphaNodes_spec lid w fuel Hok) as (q & w' & _ & _ & E & Hok' & _).
    eauto.
  - unfold GetClosestAlphaNodes, nodes, local_id, local. frame; [apply sort_sys|apply sys_add_random].
Qed.

Lemma runs_FindClosestNodes a c l : runs (FindClosestNodes a c l).
Proof.
  pose proof (runs_GetClosestAlphaNodes 63) as Ha.
  unfold FindClosestNodes, nodes_size, alpha_fuel. run_prog.
Qed.
#[local] Hint Resolve runs_FindClosestNodes : runs.

(** ** Detection *)

Lemma runs_detection : runs NodeDetectionManager.detection.
Proof.
  intros w Hw. destruct (st_detection _ w Hw) as [d Ed].
  unfold NodeDetectionManager.detection, wp. msteps. by rewrite Ed.
Qed.

Lemma runs_set_detection f : runs (NodeDetectionManager.set_detection f).
Proof.
  apply runs_modify. intros w. split; [done|]. unfold sys. simpl. by destruct (node_detection_ptr_ w).
Qed.
#[local] Hint Resolve runs_detection runs_set_detection : runs.

Lemma runs_AddDetectionNode p : runs (NodeDetectionManager.AddDetectionNode p).
Proof. unfold NodeDetectionManager.AddDetectionNode. run_prog. Qed.

Lemma runs_RemoveDetection ip port : runs (NodeDetectionManager.RemoveDetection ip port).
Proof. unfold NodeDetectionManager.RemoveDetection. run_prog. Qed.

Lemma runs_Handshake p : runs (NodeDetectionManager.Handshake_ p).
Proof. unfold NodeDetectionManager.Handshake_. run_prog. Qed.
#[local] Hint Resolve runs_AddDetectionNode runs_RemoveDetection runs_Handshake : runs.

(** The counters are tested before they are changed, so neither overflows. *)
Lemma runs_detect_one key p : runs (NodeDetectionManager.detect_one key p).
Proof.
  intros w Hw. unfold NodeDetectionManager.detect_one, obj. unfold wp. mstep.
  destruct (Z.ltb_spec 0 (detection_delay_count (obj_of w p))).
  { rewrite int_dec_above by lia. mstep. by apply (runs_mutate lid). }
  destruct (Z.leb_spec kDetectionTimes (detection_count (obj_of w p))).
  { by apply runs_set_detection. }
  destruct (wp_elim _ _ _ (runs_Handshake p w Hw)) as (c & w1 & E & Hw1).
  rewrite (step_bind _ _ _ _ _ E). mstep.
  destruct (wlp_elim _ _ _ _ _ (frames_Handshake p w) E) as [Eh _].
  assert (obj_of w1 p = obj_of w p) as -> by (unfold obj_of; by rewrite Eh).
  rewrite int_inc_below by (unfold kDetectionTimes in *; lia). mstep.
  by apply runs_mutate.
Qed.
#[local] Hint Resolve runs_detect_one : runs.

Lemma runs_DoTetection : runs NodeDetectionManager.DoTetection.
Proof. unfold NodeDetectionManager.DoTetection. run_prog. Qed.

(** ** Joining *)

Lemma runs_SetJoin i ip port : runs (SetJoin i ip port).
Proof. unfold SetJoin. run_prog. Qed.

Lemma runs_SendConnectRequest_via i ip port d s : runs (SendConnectRequest_via i ip port d s).
Proof. unfold SendConnectRequest_via. run_prog. Qed.
#[local] Hint Resolve runs_SetJoin runs_SendConnectRequest_via : runs.

Lemma runs_dispatch_dxip packet : runs (dispatch_dxip packet).
Proof.
  intros w Hw. destruct (st_local _ w Hw) as (l & x & El & Em & Ex).
  destruct (st_dy _ w Hw) as [d Ed].
  unfold dispatch_dxip, dy_manager, local, wp. msteps. rewrite Ed. msteps. rewrite El. msteps.
  unfold GetXipParser. rewrite Em, Ex. msteps. simpl use_xip. msteps.
  destruct (DynamicXipManager.DispatchDynamicXip x d) as [dx d'].
  destruct (DynamicXipManager.AddClientNode _ _ d') as [? d''].
  change (started (w <| dy_manager_ := Some d'' |>)).
  apply (started_core _ w); [done| |done]. unfold sys. simpl. by rewrite Ed.
Qed.
#[local] Hint Resolve runs_dispatch_dxip : runs.

Lemma runs_SendBootstrapJoinResponse m p : runs (SendBootstrapJoinResponse m p).
Proof. unfold SendBootstrapJoinResponse. run_prog. Qed.
#[local] Hint Resolve runs_SendBootstrapJoinResponse : runs.

Lemma runs_ResetNodeHeartbeat i : runs (ResetNodeHeartbeat i).
Proof. unfold ResetNodeHeartbeat. run_prog. Qed.
#[local] Hint Resolve runs_ResetNodeHeartbeat : runs.

(** The id read is the node's. *)
Lemma runs_local_id_bind {A} (f : string -> M A) :
  (id_ok lid -> runs (f lid)) -> runs (local_id ≫= f).
Proof.
  intros Hf w Hw. apply wp_bind. unfold wp at 1.
  rewrite (local_id_ok lid w (st_ok _ w Hw)). apply Hf; [|done].
  apply (ok_lid _ w (st_ok _ w Hw)).
Qed.

Lemma runs_sorted_neighbours : runs sorted_neighbours.
Proof. unfold sorted_neighbours, nodes. apply runs_local_id_bind. intros Hl. run_prog. Qed.
#[local] Hint Resolve runs_sorted_neighbours : runs.

Lemma runs_PrintRoutingTable index opens : runs (PrintRoutingTable index opens).
Proof.
  unfold PrintRoutingTable, nodes_size. run_step; [run_prog|]. run_step; [run_prog|]. cbv zeta.
  apply runs_local_id_bind. intros Hl. run_prog.
Qed.

(** ** The operations that cannot fault *)

(** Messages and their side conditions, callbacks and timers. Rejoin is not
    one of them: it needs the bootstrap cache helper and waits for others. *)
Inductive safe_operation : forall A, M A -> Prop :=
  | s_find_request m p :
      (forall req : FindClosestNodesRequest,
         ParseFromString (get msg_data m) = Some req -> id_ok (get fnreq_target_id req)) ->
      safe_operation _ (HandleFindNodesRequest m p)
  | s_find_response m p : safe_operation _ (HandleFindNodesResponse m p)
  | s_node_quit m p : safe_operation _ (HandleNodeQuit m p)
  | s_connect m p : id_ok (get msg_des_node_id m) -> safe_operation _ (HandleConnectRequest m p)
  | s_handshake m p : str_empty (get_from_ip_addr p) = false -> safe_operation _ (HandleHandshake m p)
  | s_join_request m p : safe_operation _ (HandleBootstrapJoinRequest m p)
  | s_join_response m p : safe_operation _ (HandleBootstrapJoinResponse m p)
  | s_heartbeat_request m p : safe_operation _ (HandleHeartbeatRequest m p)
  | s_heartbeat_response m p : safe_operation _ (HandleHeartbeatResponse m p)
  | s_forward m : id_ok (get msg_des_node_id m) -> safe_operation _ (SendToClosestNode m)
  | s_reply m :
      id_ok (get msg_des_node_id m) ->
      (forall hop, last (msg_relay_hop_info m) = Some hop -> id_ok (get rhi_relay_entry_id hop)) ->
      safe_operation _ (SmartSendReply m)
  | s_lost ip port : safe_operation _ (OnHeartbeatFailed ip port)
  | s_heartbeat_timer : safe_operation _ HeartbeatProc
  | s_heartbeat_check : safe_operation _ HeartbeatCheckProc
  | s_print index opens : safe_operation _ (PrintRoutingTable index opens)
  | s_detect : safe_operation _ NodeDetectionManager.DoTetection
  | s_find_timer : safe_operation _ FindNeighbours.

Lemma runs_HandleFindNodesRequest m p :
  (forall req : FindClosestNodesRequest,
     ParseFromString (get msg_data m) = Some req -> id_ok (get fnreq_target_id req)) ->
  runs (HandleFindNodesRequest m p).
Proof.
  intros Hreq. unfold HandleFindNodesRequest, answer_self. run_prog.
  by apply runs_GetClosestNodes, Hreq.
Qed.

Lemma runs_found_node m p pn : runs (handle_found_node m p pn).
Proof. unfold handle_found_node. run_prog. Qed.
#[local] Hint Resolve runs_found_node : runs.

Lemma runs_HandleHandshake m p :
  str_empty (get_from_ip_addr p) = false -> runs (HandleHandshake m p).
Proof.
  intros Hp. unfold HandleHandshake, handshake_request, handshake_response.
  apply always_bind; [auto with runs|]. intros mine.
  destruct (negb mine); [apply always_ret|]. destruct (no_data m); [apply always_ret|].
  destruct (ParseFromString _) as [h|]; [|apply always_ret].
  destruct (if str_empty (get hs_public_ip h) then _ else _) as [ip port] eqn:E.
  assert (str_empty ip = false) as ->
    by (destruct (str_empty (get hs_public_ip h)) eqn:?; by simplify_eq).
  run_prog.
Qed.

Lemma runs_HandleBootstrapJoinResponse m p : runs (HandleBootstrapJoinResponse m p).
Proof.
  unfold HandleBootstrapJoinResponse, GetFindNodesMaxSize, WakeBootstrap. run_prog.
Qed.

Lemma runs_HandleConnectRequest m p :
  id_ok (get msg_des_node_id m) -> runs (HandleConnectRequest m p).
Proof.
  intros Hdes. unfold HandleConnectRequest, SendToClosestNode. run_prog.
  by apply runs_SendToClosestNode_hop.
Qed.

Lemma runs_ret_bind {A B} (a : A) (f : A -> M B) : runs (f a) -> runs (mret a ≫= f).
Proof. intros Hf w Hw. unfold wp. rewrite step_ret. by apply Hf. Qed.

Lemma runs_assoc {A B C} (m : M A) (g : A -> M B) (f : B -> M C) :
  runs (m ≫= fun a => g a ≫= f) -> runs ((m ≫= g) ≫= f).
Proof. intros Hf w Hw. unfold wp. rewrite step_assoc. by apply Hf. Qed.

Lemma runs_not_sent code m :
  runs (SendToClosestNode_hop m true) ->
  runs (mret (code, m) ≫= fun '(code, m) =>
    if negb (code =? kKadSuccess) then SendToClosestNode_hop m true else mret m).
Proof. intros Hm. apply runs_ret_bind. cbv beta iota. destruct (negb _); [done|apply always_ret]. Qed.

(** A reply goes to its destination or to the last relay hop's. *)
Lemma runs_SmartSendReply m :
  id_ok (get msg_des_node_id m) ->
  (forall hop, last (msg_relay_hop_info m) = Some hop -> id_ok (get rhi_relay_entry_id hop)) ->
  runs (SmartSendReply m).
Proof.
  intros Hdes Hhop. pose proof (runs_SendToClosestNode_hop m true Hdes) as Hm.
  unfold SmartSendReply, SendToClosestNode, CheckAndSendMultiRelay.
  destruct (_ || _); [by apply runs_not_sent|]. destruct (_ && _); [by apply runs_not_sent|].
  apply runs_assoc, runs_local_id_bind. intros _. destruct (negb _); [by apply runs_not_sent|].
  destruct (last _) as [hop|] eqn:E; [|by apply runs_not_sent]. cbv zeta.
  assert (forall m', get msg_des_node_id m' = get rhi_relay_entry_id hop ->
    runs (SendToClosestNode_hop m' true)) as Hsend
    by (intros m' Em; apply runs_SendToClosestNode_hop; rewrite Em; by apply Hhop).
  apply runs_assoc, always_bind; [apply runs_local|]. intros l. apply runs_assoc, always_bind.
  { unfold FindClient. run_prog. }
  intros [c|].
  - apply runs_assoc, always_bind; [apply runs_SendData|]. intros [r m']. apply runs_ret_bind.
    cbv beta iota. rewrite Z.eqb_refl. apply always_ret.
  - destruct (negb _); [by apply runs_not_sent, Hsend|].
    apply runs_assoc, always_bind; [apply runs_SendData|]. intros [r m']. apply runs_ret_bind.
    cbv beta iota. rewrite Z.eqb_refl. apply always_ret.
Qed.

Lemma runs_safe A (m : M A) : safe_operation A m -> runs m.
Proof.
  destruct 1; auto using runs_HandleFindNodesRequest, runs_HandleHandshake,
    runs_HandleBootstrapJoinResponse, runs_HandleConnectRequest, runs_SendToClosestNode_hop,
    runs_ResetNodeHeartbeat, runs_DoTetection.
  - unfold HandleFindNodesResponse. run_prog.
  - unfold HandleNodeQuit. run_prog.
  - unfold HandleBootstrapJoinRequest. run_prog.
  - unfold HandleHeartbeatRequest. run_prog.
  - unfold HandleHeartbeatResponse. run_prog.
  - by apply runs_SendToClosestNode_hop.
  - by apply runs_SmartSendReply.
  - unfold OnHeartbeatFailed. run_prog.
  - unfold HeartbeatProc. run_prog.
  - unfold HeartbeatCheckProc. run_prog.
  - by apply runs_PrintRoutingTable.
  - unfold FindNeighbours, GetFindNodesMaxSize. run_prog.
Qed.
End handlers.
