(* ===== verification/HandlerProps.v ===== *)
(** The properties of the message handlers: they do not fault on a started
    node (and what makes one fault), joining happens once and is not undone,
    and what is answered to a node that looks for neighbours. *)

From S2P Require Import Prelude Externals Messages Distance Sorting NodeInfo LocalNodeInfo.
From S2P Require Import ClientNodes BootstrapCache World RoutingTable TableFacts TableProps.
From S2P Require Import Sending SendProps NodeDetection RoutingHandlers RoutingJoin Frames TableSpec Robust.

Section properties.
Context `{Xbase} `{!XbaseLaws} `{KadKey} `{Xip} `{PartialSort} `{!PartialSortLaws} `{Wire} `{Bloom}.
#[local] Set Default Proof Using "Type*".
Implicit Types (w : World) (p : xpacket) (m : RoutingMessage).

(** ** New objects *)

Definition fresh (n : NodeInfo) (w : World) : World :=
  w <| w_heap ::= <[w_next w := n]> |> <| w_next ::= Pos.succ |>.

Lemma new_NodeInfo_spec i f w :
  new_NodeInfo i f w = Ok (w_next w, fresh (f (NodeInfo_of_id (w_now w) i)) w).
Proof. reflexivity. Qed.

Lemma fresh_obj n w : obj_of (fresh n w) (w_next w) = n.
Proof. apply lookup_total_insert_eq. Qed.

Lemma fresh_old lid n w q : table_ok lid w -> q ∈ nodes_ w -> obj_of (fresh n w) q = obj_of w q.
Proof.
  intros Hok Hq. destruct (ok_alive lid w q kNodeIdSize_pos Hok Hq) as [x Ex].
  unfold obj_of, fresh. simpl. apply lookup_total_insert_ne. intros <-.
  by rewrite (ok_fresh _ _ Hok) in Ex.
Qed.

Lemma fresh_ok lid n w : table_ok lid w -> table_ok lid (fresh n w).
Proof. apply table_ok_alloc. Qed.

(** ** No message crashes a node *)

(** C4: on a started node the message handlers, the forwarding of messages and
    of replies, the timers and the transport's callback of a lost peer end
    without undefined behaviour and leave a started node, hence so does every
    sequence of them. The contents of a message are arbitrary but for this: the
    target of a find-nodes request and the destination of a connect request, of
    a forwarded message and of a reply (and the entry id of the reply's last
    relay hop) have the length of an id, and a handshake comes from a non-empty
    address. Rejoin is not among the operations. What a short target does is shown below. *)
Theorem handlers_never_fault lid w A (m : M A) :
  started lid w -> safe_operation A m -> exists a w', m w = Ok (a, w') /\ started lid w'.
Proof.
  intros Hw Hm. by apply wp_elim, runs_safe.
Qed.

(** C40: The length of the target of a find-nodes request is not checked. When
    the table has two nodes or more, they all agree on their bytes up to and
    including the position behind the target's last, and the target is at least
    two bytes shorter than an id (one byte shorter reads the terminating zero,
    which is allowed), a request from an asker that does not call itself public
    and wants at least one node reads outside the target string. *)
Theorem HandleFindNodesRequest_short_target lid w m p (req : FindClosestNodesRequest) :
  table_ok lid w -> get msg_des_node_id m = lid -> no_data m = false ->
  ParseFromString (get msg_data m) = Some req ->
  get pn_nat_type (get fnreq_src_nodeinfo req) <> kNatTypePublic ->
  let target := get fnreq_target_id req in
  (S (String.length target) < kNodeIdSize)%nat -> (2 <= length (nodes_ w))%nat ->
  0 < i32 (u32 (get fnreq_count req + 1)) ->
  (forall q r j, q ∈ nodes_ w -> r ∈ nodes_ w -> (j <= String.length target)%nat ->
     String.get j (node_id (obj_of w q)) = String.get j (node_id (obj_of w r))) ->
  HandleFindNodesRequest m p w = Fault OutOfRange.
Proof.
  intros Hok Hdes Hd Hp Hnat target Ht Hlen Hc Hsame. unfold HandleFindNodesRequest.
  rewrite (step_bind _ _ _ _ _ (local_id_ok lid w Hok)), Hdes, String.eqb_refl, Hd, Hp.
  change (negb true) with false. cbv iota.
  rewrite (step_bind _ _ _ _ _ (new_NodeInfo_spec _ _ w)). unfold obj. mstep. rewrite fresh_obj.
  set (w1 := fresh _ w).
  assert (forall q, q ∈ nodes_ w -> obj_of w1 q = obj_of w q) as Eobj
    by (intros q; by apply (fresh_old lid)).
  rewrite (proj2 (Z.eqb_neq _ kNatTypePublic)) by exact Hnat. unfold when. mstep.
  unfold GetClosestNodes. rewrite (proj2 (Z.eqb_neq _ 0)) by (intros E; rewrite E in Hc; by vm_compute in Hc).
  unfold SortNodesByTargetXid, sort_nodes. rewrite !step_assoc. msteps.
  change (nodes_ w1) with (nodes_ w). set (k := Z.min _ _).
  assert (0 < k) as Hk by lia. rewrite (proj2 (Z.leb_gt k 0)) by done.
  assert (partial_sort (cmp_xid w1 target) (Z.to_nat k) (nodes_ w) = Fault OutOfRange) as Ee.
  { apply partial_sort_compares; [lia|done|]. intros q r Hq Hr. unfold cmp_xid. rewrite !Eobj by done.
    apply closer_short; [apply (ok_valid _ _ Hok); done..|done|]. intros j Hj. by apply Hsame. }
  rewrite !step_assoc. apply step_fault. change (nodes_ w1) with (nodes_ w).
  fold target. by rewrite Ee.
Qed.

(** ** Joining *)

(** C24: the first join wins: once a node has joined, no sequence of messages
    and transport callbacks, further join responses and handshakes included,
    makes it unjoined or changes the bootstrap node it remembers. *)
Theorem join_first_wins w w' :
  joined_ w = true -> rtc handler_step w w' -> join_state w' = join_state w.
Proof.
  intros Hj Hs. revert Hj. induction Hs as [|w w1 w' [A m a w1' Hm E] _ IH]; intros Hj; [done|].
  pose proof (wlp_elim m _ w a w1' (join_handler A m Hm w) E Hj) as E1.
  rewrite IH; [done|]. unfold join_state in E1. congruence.
Qed.

(** ** Answers to a node that looks for neighbours *)

(** A fresh message carries the local id at routine priority. *)
Lemma SetFreqMessage_fresh lid w :
  started lid w ->
  exists m0, SetFreqMessage RoutingMessage_empty w =
      Ok (m0, w <| msg_id_ := u32 (msg_id_ w + 1) |>) /\
    msg_src_node_id m0 = Some lid /\
    msg_priority m0 = Some enum_xpacket_priority_type_routine.
Proof.
  intros Hs. destruct (st_local _ w Hs) as (l & x & El & _ & _).
  destruct (st_gxid _ w Hs) as [g Eg].
  unfold SetFreqMessage. unfold local at 1. msteps. rewrite El. msteps.
  rewrite (step_bind _ _ _ _ _ (local_id_ok lid w (st_ok _ w Hs))).
  unfold gxid. msteps. rewrite Eg. msteps. unfold next_message_id. msteps. cbn [fst snd].
  eexists. splits; [reflexivity|done|done].
Qed.

(** Which nodes of the table an answer may name. *)
Definition answerable (filter : Uint64BloomFilter) (target : string) (n : NodeInfo) : bool :=
  negb (node_id n =? target)%string && negb (bf_Contain filter (node_id n)).

(** The loop takes the first answerable nodes, up to sixteen entries in all. *)
Lemma answer_nodes_spec filter target closest acc :
  (length acc <= 16)%nat ->
  answer_nodes filter target closest acc =
  acc ++ (pb_of <$> take (16 - length acc) (List.filter (answerable filter target) closest)).
Proof.
  revert acc. induction closest as [|n closest IH]; intros acc Hacc; cbn [answer_nodes List.filter].
  { simpl. by rewrite take_nil, app_nil_r. }
  unfold answerable at 1. destruct (node_id n =? target)%string; [by apply IH|].
  destruct (bf_Contain filter (node_id n)); [by apply IH|]. cbn [negb andb].
  destruct (Nat.leb_spec 16 (length acc)).
  - replace (16 - length acc)%nat with 0%nat by lia. by rewrite take_0, app_nil_r.
  - rewrite IH by (rewrite length_app; simpl; lia). rewrite length_app. simpl.
    replace (16 - length acc)%nat with (S (16 - (length acc + 1))) by lia.
    simpl. by rewrite <- app_assoc.
Qed.

Lemma answer_self_spec lid w filter :
  started lid w ->
  exists self, answer_self filter w = Ok (self, w) /\ (length self <= 1)%nat /\
    forall pn, pn ∈ self -> get pn_id pn = lid /\ bf_Contain filter lid = false.
Proof.
  intros Hs. pose proof (st_ok _ w Hs) as Hok. destruct (st_local _ w Hs) as (l & x & El & Em & Ex).
  destruct (st_gxid _ w Hs) as [g Eg].
  assert (local_xip w = Ok (xip_string x, w)) as Exip.
  { unfold local_xip, local. msteps. rewrite El. msteps.
    unfold LocalNodeInfo_xip, GetXipParser. by rewrite Em, Ex. }
  assert (gxid w = Ok (key_Get g, w)) as Egx by (unfold gxid; msteps; by rewrite Eg).
  unfold answer_self, local. msteps. rewrite El. msteps.
  rewrite (step_bind _ _ _ _ _ (local_id_ok lid w Hok)).
  assert (forall ip port nat, exists self,
    (xp ← local_xip; x ← gxid; mret [pb_local lid ip port nat xp x]) w = Ok (self, w) /\
    (length self <= 1)%nat /\ forall pn, pn ∈ self -> get pn_id pn = lid) as Hself.
  { intros ip port nat. rewrite (step_bind _ _ _ _ _ Exip), (step_bind _ _ _ _ _ Egx).
    eexists. split; [reflexivity|]. split; [done|]. by intros pn ->%list_elem_of_singleton. }
  destruct (bf_Contain filter lid) eqn:Ef; simpl negb; cbv iota.
  - exists []. split; [by repeat case_match|]. split; [simpl; lia|]. by intros pn ?%elem_of_nil.
  - destruct (ln_first_node l); [|destruct (negb (str_empty (ln_public_ip l)) && (0 <? ln_public_port l))].
    + destruct (Hself (ln_local_ip l) (ln_local_port l) (ln_nat_type l)) as (self & E & Hl & Hi).
      exists self. naive_solver.
    + destruct (Hself (ln_public_ip l) (ln_public_port l) (ln_nat_type l)) as (self & E & Hl & Hi).
      exists self. naive_solver.
    + exists []. split; [done|]. split; [simpl; lia|]. by intros pn ?%elem_of_nil.
Qed.

Lemma runs_env lid w A (m : M A) :
  runs lid m -> frames same_env m -> started lid w ->
  exists a w', m w = Ok (a, w') /\ started lid w' /\ env w' = env w.
Proof.
  intros Hr Hf Hw. destruct (wp_elim _ _ _ (Hr w Hw)) as (a & w' & E & Hw').
  exists a, w'. splits; [done|done|]. by apply (wlp_elim m (fun _ => same_env w) w a w').
Qed.

Lemma GetClosestNodes_sub lid w target number :
  started lid w -> id_ok target ->
  exists l w', GetClosestNodes target number false w = Ok (l, w') /\ started lid w' /\
    env w' = env w /\ node_id_map_ w' = node_id_map_ w /\ (exists l', l' ≡ₚ nodes_ w /\ w' = w <| nodes_ := l' |>) /\
    (forall q, q ∈ l -> q ∈ nodes_ w') /\
    (Z.of_nat (length (nodes_ w)) <= i32 number -> number <> 0 -> l = nodes_ w').
Proof.
  intros Hs Ht. unfold GetClosestNodes, nodes.
  destruct (Z.eqb_spec number 0) as [->|Hnum].
  { exists [], w. splits; try done; [by exists (nodes_ w); split; [|destruct w]|]. by intros q ?%elem_of_nil. }
  destruct (sort_xid_spec lid w target (i32 number) (st_ok _ w Hs) Ht) as (l & E & Hl & _).
  rewrite (step_bind _ _ _ _ _ E).
  assert (started lid (w <| nodes_ := l |>)) as Hs'.
  { apply (started_sys lid w); [done| |done]. apply table_ok_perm; [done|apply (st_ok _ w Hs)]. }
  destruct (Z.eqb_spec (Z.max 0 (Z.min (i32 number) (Z.of_nat (length (nodes_ w))))) 0) as [Ez|Ez].
  - exists [], (w <| nodes_ := l |>). splits; try done; [by exists l|by intros q ?%elem_of_nil|].
    intros Hsz _. simpl. symmetry. apply length_zero_iff_nil. rewrite Hl. lia.
  - eexists _, (w <| nodes_ := l |>). splits; try done; [by exists l| |].
    + intros q Hq. apply elem_of_take in Hq as (i & Hi & _). by eapply list_elem_of_lookup_2.
    + intros Hsz _. simpl. apply take_ge. rewrite Hl. lia.
Qed.

(** The state after the answer: the asker may have been added, the answer was
    sent. *)
Record answered (lid : string) (w w' : World) : Prop := {
  an_started : started lid w';
  an_map : node_id_map_ w ⊆ node_id_map_ w';
  an_peers q : q ∈ nodes_ w -> peer_of (obj_of w' q) = peer_of (obj_of w q);
  an_size : (length (nodes_ w') <= S (length (nodes_ w)))%nat }.

Lemma asker_one_more lid w q :
  table_ok lid w ->
  wlp (can ← CanAddNode q; when can (_ ← AddNode q; mret tt))
    (fun _ w' => (length (nodes_ w') <= S (length (nodes_ w)))%nat) w.
Proof.
  intros Hok. destruct codes_distinct as (Hnd & Hf & Ha).
  destruct (CanAddNode_spec lid w q kNodeIdSize_pos Hnd Hok) as (w1 & E1 & Hok1 & Hp1 & _).
  unfold wlp. rewrite (step_bind _ _ _ _ _ E1). apply Permutation_length in Hp1.
  match goal with |- context [when ?b _] => destruct b end; [|cbn; lia].
  destruct (AddNode_spec lid w1 q kNodeIdSize_pos Hf Ha Hok1) as (w2 & E2 & _ & Hm).
  cbn [when]. rewrite (step_bind _ _ _ _ _ E2).
  change (length (nodes_ w2) <= S (length (nodes_ w)))%nat.
  destruct (_ =? _); destruct Hm as [Hp2%Permutation_length _]; cbn in Hp2; lia.
Qed.

Lemma asker_added lid w n :
  started lid w ->
  exists w', (when (nat_type n =? kNatTypePublic)
      (can ← CanAddNode (w_next w); when can (_ ← AddNode (w_next w); mret tt))) (fresh n w) = Ok (tt, w') /\
    answered lid w w' /\ env w' = env w.
Proof.
  intros Hs. assert (started lid (fresh n w)) as Hs1.
  { apply (started_sys lid w); [done| |done]. apply fresh_ok, (st_ok _ w Hs). }
  set (m := when _ _).
  destruct (runs_env lid (fresh n w) _ m) as ([] & w' & E & Hs' & Ee);
    [unfold m; run_prog|unfold m; frame; [apply env_CanAddNode|apply env_AddNode]|done|].
  exists w'. splits; [done| |done]. split; [done| | |].
  - assert (frames grows m) as Hg by (unfold m; frame; [apply grows_CanAddNode|apply grows_AddNode]).
    by apply (wlp_elim _ _ _ _ _ (Hg (fresh n w)) E).
  - intros q Hq. assert (frames same_peers m) as Hp
      by (unfold m; frame; [apply same_peers_CanAddNode|apply same_peers_AddNode]).
    rewrite (wlp_elim _ _ _ _ _ (Hp (fresh n w)) E q). by rewrite (fresh_old lid); [|apply (st_ok _ w Hs)|].
  - unfold m in E. destruct (_ =? _); cbn [when] in E; [|injection E as <-; cbn; lia].
    by apply (wlp_elim _ _ _ _ _ (asker_one_more lid (fresh n w) _ (st_ok _ _ Hs1)) E).
Qed.

(** What the answer names: the node itself, then the answerable nodes nearest
    to the target. *)
Definition answer_of (filter : Uint64BloomFilter) (target : string) (self : list PbNodeInfo)
    (l : list ptr) (w : World) : list PbNodeInfo :=
  self ++ (pb_of <$> take (16 - length self) (List.filter (answerable filter target) (obj_of w <$> l))).

Lemma find_nodes_exact lid w m p (req : FindClosestNodesRequest) :
  started lid w -> get msg_des_node_id m = lid -> no_data m = false ->
  ParseFromString (get msg_data m) = Some req -> id_ok (get fnreq_target_id req) ->
  exists m' w' sent self l,
    HandleFindNodesRequest m p w = Ok (m', w') /\ answered lid w w' /\ w_net w' = w_net w ++ sent /\
    (length self <= 1)%nat /\
    (forall pn, pn ∈ self -> get pn_id pn = lid /\ bf_Contain (request_filter req) lid = false) /\
    (forall q, q ∈ l -> q ∈ nodes_ w') /\
    (Z.of_nat (length (nodes_ w')) <= i32 (u32 (get fnreq_count req + 1)) ->
     u32 (get fnreq_count req + 1) <> 0 -> l = nodes_ w') /\
    let nodes := answer_of (request_filter req) (get fnreq_target_id req) self l w' in
    if (length nodes =? 0)%nat then sent = []
    else match SerializeToString (mkFindClosestNodesResponse nodes) with
         | None => sent = []
         | Some data => exists rm,
             sent = data_packets rm (get_from_ip_addr p) (get_from_ip_port p) /\
             msg_data rm = Some data /\ msg_src_node_id rm = Some lid /\
             msg_des_node_id rm = Some (get msg_src_node_id m) /\
             msg_type rm = Some kKadFindNodesResponse /\ msg_id rm = Some (get msg_id m) /\
             msg_priority rm = Some enum_xpacket_priority_type_routine
         end.
Proof.
  intros Hs Hdes Hd Hp Ht. unfold HandleFindNodesRequest.
  rewrite (step_bind _ _ _ _ _ (local_id_ok lid w (st_ok _ w Hs))), Hdes, String.eqb_refl, Hd, Hp.
  change (negb true) with false. cbv iota.
  rewrite (step_bind _ _ _ _ _ (new_NodeInfo_spec _ _ w)). unfold obj. mstep. rewrite fresh_obj.
  set (src := of_pb _ _).
  destruct (asker_added lid w src Hs) as (w2 & E2 & [Hs2 Hm2 Hp2 Hz2] & Ee2).
  rewrite (step_bind _ _ _ _ _ E2).
  destruct (GetClosestNodes_sub lid w2 _ (u32 (get fnreq_count req + 1)) Hs2 Ht)
    as (l & w3 & E3 & Hs3 & Ee3 & _ & (l' & Hl' & ->) & Hl & Hall).
  rewrite (step_bind _ _ _ _ _ E3). set (w3 := w2 <| nodes_ := l' |>) in *.
  destruct (answer_self_spec lid w3 (request_filter req) Hs3) as (self & Eself & Hself & Hid).
  rewrite (step_bind _ _ _ _ _ Eself). mstep. rewrite answer_nodes_spec by lia.
  set (nodes := self ++ _).
  assert (w_net w2 = w_net w) as Enet by (injection Ee2; done).
  assert (answered lid w w3) as Han.
  { split; [done..|]. change (length l' <= S (length (nodes_ w)))%nat. by rewrite Hl'. }
  assert (Z.of_nat (length (nodes_ w3)) <= i32 (u32 (get fnreq_count req + 1)) ->
    u32 (get fnreq_count req + 1) <> 0 -> l = nodes_ w3) as Hall3.
  { intros Hsz. apply Hall. cbn [nodes_ w3] in Hsz. by rewrite <- Hl'. }
  destruct (Nat.eqb_spec (length nodes) 0) as [E0|Hpos].
  { exists m, w3, [], self, l. rewrite app_nil_r. splits; try done. unfold answer_of. fold nodes.
    by rewrite E0. }
  destruct (SetFreqMessage_fresh lid w3 Hs3) as (m0 & Em0 & Esrc & Eprio).
  destruct (SerializeToString (mkFindClosestNodesResponse nodes)) as [data|] eqn:Edata.
  2:{ exists m, w3, [], self, l. rewrite app_nil_r. splits; try done. unfold answer_of. fold nodes.
      rewrite Edata. by destruct (_ =? _)%nat. }
  rewrite (step_bind _ _ _ _ _ Em0). cbv zeta.
  set (w4 := w3 <| msg_id_ := _ |>). set (rm := m0 <| msg_des_node_id := _ |> <| msg_type := _ |>
    <| msg_id := _ |> <| msg_data := _ |>).
  assert (started lid w4) as Hs4 by (by apply (started_core lid w3)).
  destruct (st_transport _ w4 Hs4) as [t Et].
  destruct (SendData_spec w4 t rm (get_from_ip_addr p) (get_from_ip_port p) Et) as [r Es].
  rewrite (step_bind _ _ _ _ _ Es).
  eexists _, _, (data_packets rm (get_from_ip_addr p) (get_from_ip_port p)), self, l.
  split; [reflexivity|]. splits; try done.
  - destruct Han as [_ Hm3 Hp3 Hz3]. split; [by apply (started_core lid w4)|done..].
  - unfold push_net, w4. simpl. by rewrite Enet.
  - unfold answer_of. change (obj_of (push_net _ w4)) with (obj_of w3). fold nodes.
    rewrite (proj2 (Nat.eqb_neq _ _) Hpos), Edata. exists rm. by splits.
Qed.

(** An entry of an answer. *)
Lemma elem_of_answer filter target self l w pn :
  pn ∈ answer_of filter target self l w ->
  pn ∈ self \/ exists q, q ∈ l /\ pn = pb_of (obj_of w q) /\ answerable filter target (obj_of w q) = true.
Proof.
  intros [Hpn|Hpn]%elem_of_app; [by left|right].
  apply list_elem_of_fmap in Hpn as (n & -> & (i & Hn & _)%elem_of_take).
  apply list_elem_of_lookup_2, list_elem_of_In, filter_In in Hn as [Hn Ha].
  apply list_elem_of_In, list_elem_of_fmap in Hn as (q & -> & Hq). by exists q.
Qed.

Lemma find_nodes_answer lid w m p (req : FindClosestNodesRequest) :
  started lid w -> get msg_des_node_id m = lid -> no_data m = false ->
  ParseFromString (get msg_data m) = Some req -> id_ok (get fnreq_target_id req) ->
  let known := bf_Contain (request_filter req) in
  exists m' w' sent, HandleFindNodesRequest m p w = Ok (m', w') /\ started lid w' /\
    w_net w' = w_net w ++ sent /\
    (sent = [] \/ exists rm nodes,
       sent = data_packets rm (get_from_ip_addr p) (get_from_ip_port p) /\
       msg_data rm = SerializeToString (mkFindClosestNodesResponse nodes) /\
       msg_des_node_id rm = Some (get msg_src_node_id m) /\
       msg_type rm = Some kKadFindNodesResponse /\ msg_id rm = Some (get msg_id m) /\
       msg_priority rm = Some enum_xpacket_priority_type_routine /\
       (1 <= length nodes <= 16)%nat /\
       forall pn, pn ∈ nodes -> known (get pn_id pn) = false /\
         (get pn_id pn = lid \/
          get pn_id pn <> get fnreq_target_id req /\
          exists q, q ∈ nodes_ w' /\ pn = pb_of (obj_of w' q))).
Proof.
  intros Hs Hdes Hd Hp Ht known.
  destruct (find_nodes_exact lid w m p req Hs Hdes Hd Hp Ht)
    as (m' & w' & sent & self & l & E & [Hs' _ _ _] & En & Hself & Hid & Hl & _ & Hsent).
  exists m', w', sent. splits; [done..|]. set (nodes := answer_of _ _ self l w') in *. cbv zeta in Hsent.
  destruct (Nat.eqb_spec (length nodes) 0); [by left|].
  destruct (SerializeToString _) as [data|] eqn:Edata; [|by left].
  destruct Hsent as (rm & -> & Edat & _ & Edes & Ety & Eid & Epr). right. exists rm, nodes.
  splits; try done; [by rewrite Edat|lia| |].
  - unfold nodes, answer_of. rewrite length_app, length_fmap, length_take. lia.
  - intros pn [Hpn|(q & Hq & -> & Ha)]%elem_of_answer.
    + destruct (Hid pn Hpn) as [-> Hf]. split; [done|by left].
    + unfold answerable in Ha. bool_props. split; [done|]. right. split; [done|].
      exists q. split; [by apply Hl|done].
Qed.

(** C17: a find-nodes request is answered with one message at most, to the
    address it came from and under its id. The answer names between one and
    sixteen nodes, none of them in the asker's bloom filter: nodes of its table
    other than the target, and possibly the answering node itself, which is not
    compared with the target. It leaves at routine priority: the flash priority
    is written into the request instead. *)
Theorem HandleFindNodesRequest_answer lid w m p (req : FindClosestNodesRequest) :
  started lid w -> get msg_des_node_id m = lid -> no_data m = false ->
  ParseFromString (get msg_data m) = Some req -> id_ok (get fnreq_target_id req) ->
  let known := bf_Contain (request_filter req) in
  exists m' w' sent, HandleFindNodesRequest m p w = Ok (m', w') /\ started lid w' /\
    w_net w' = w_net w ++ sent /\
    (sent = [] \/ exists rm nodes,
       sent = data_packets rm (get_from_ip_addr p) (get_from_ip_port p) /\
       msg_data rm = SerializeToString (mkFindClosestNodesResponse nodes) /\
       msg_des_node_id rm = Some (get msg_src_node_id m) /\
       msg_type rm = Some kKadFindNodesResponse /\ msg_id rm = Some (get msg_id m) /\
       msg_priority rm = Some enum_xpacket_priority_type_routine /\
       (1 <= length nodes <= 16)%nat /\
       forall pn, pn ∈ nodes -> known (get pn_id pn) = false /\
         (get pn_id pn = lid \/
          get pn_id pn <> get fnreq_target_id req /\
          exists q, q ∈ nodes_ w' /\ pn = pb_of (obj_of w' q))).
Proof. apply find_nodes_answer. Qed.

(** What the asker adds to its filter, the answerer finds in it. *)
Lemma request_filter_known `{BL : !BloomLaws} w nodes words q (req : FindClosestNodesRequest) :
  GetExistsNodesBloomfilter nodes w = Ok (words, w) -> fnreq_bloomfilter req = words ->
  q ∈ nodes -> bf_Contain (request_filter req) (node_id (obj_of w q)) = true.
Proof.
  unfold GetExistsNodesBloomfilter. mstep. intros [= <-] Ew Hq.
  rewrite (foldl_bf_Add (fun r => node_id (obj_of w r))) in Ew. set (xs := reverse _) in Ew.
  assert (node_id (obj_of w q) ∈ xs) as Hx.
  { unfold xs. apply elem_of_reverse, list_elem_of_fmap. by exists q. }
  unfold request_filter. rewrite Ew.
  pose proof (bf_words_nonempty kFindNodesBloomfilterBitSize kFindNodesBloomfilterHashNum xs
    eq_refl) as Hne.
  destruct (bf_Uint64Vector _) as [|word rest] eqn:Ev; [done|]. rewrite <- Ev.
  rewrite bf_rebuild_new. by apply bf_contain_all.
Qed.

(** C30: a node that asks for neighbours is only told of nodes it did not name:
    no entry of the answer has the id of a node the asker put into the bloom
    filter of its request. *)
Theorem find_nodes_skips_known `{!BloomLaws} wa nodes words lid w m p (req : FindClosestNodesRequest) :
  GetExistsNodesBloomfilter nodes wa = Ok (words, wa) -> fnreq_bloomfilter req = words ->
  started lid w -> get msg_des_node_id m = lid -> no_data m = false ->
  ParseFromString (get msg_data m) = Some req -> id_ok (get fnreq_target_id req) ->
  exists m' w' sent, HandleFindNodesRequest m p w = Ok (m', w') /\ w_net w' = w_net w ++ sent /\
    (sent = [] \/ exists rm answer,
       sent = data_packets rm (get_from_ip_addr p) (get_from_ip_port p) /\
       msg_data rm = SerializeToString (mkFindClosestNodesResponse answer) /\
       forall pn q, pn ∈ answer -> q ∈ nodes -> get pn_id pn <> node_id (obj_of wa q)).
Proof.
  intros Ek Er Hs Hdes Hd Hp Ht.
  destruct (find_nodes_answer lid w m p req Hs Hdes Hd Hp Ht)
    as (m' & w' & sent & E & _ & En & Hc).
  exists m', w', sent. splits; [done|done|].
  destruct Hc as [->|(rm & answer & -> & Ed & _ & _ & _ & _ & _ & Hall)]; [by left|].
  right. exists rm, answer. splits; [done|done|]. intros pn q Hpn Hq E2.
  destruct (Hall pn Hpn) as [Hno _]. rewrite E2 in Hno.
  by rewrite (request_filter_known wa nodes words q req Ek Er Hq) in Hno.
Qed.

(** ** The response that makes a node join *)

(** The node a join response comes from. *)
Definition responder (w : World) (m : RoutingMessage) (p : xpacket) (res : BootstrapJoinResponse)
    : NodeInfo :=
  (NodeInfo_of_id (w_now w) (get msg_src_node_id m))
    <| local_ip := get_from_ip_addr p |> <| local_port := get_from_ip_port p |>
    <| public_ip := get_from_ip_addr p |> <| public_port := get_from_ip_port p |>
    <| service_type := get msg_src_service_type m |>
    <| nat_type := get jres_nat_type res |>
    <| xid := get jres_xid res |> <| hash64 := xhash64 (get jres_xid res) |>
    <| xip := get jres_xip res |>.

Lemma add_code_same lid w w' n :
  nodes_ w' = nodes_ w -> node_id_map_ w' = node_id_map_ w ->
  (forall q, q ∈ nodes_ w -> obj_of w' q = obj_of w q) ->
  add_code lid w' n = add_code lid w n.
Proof.
  intros En Em Eo. unfold add_code, has_id, has_room. rewrite En, Em.
  assert (in_bucket w' (bucket_of lid n) (nodes_ w) = in_bucket w (bucket_of lid n) (nodes_ w)) as ->;
    [|done].
  unfold in_bucket. f_equal. apply filter_ext_in. intros q Hq. by rewrite Eo.
Qed.

(** What follows the insertion of the bootstrap node. *)
Lemma join_completes lid w i ip port :
  started lid w -> joined_ w = false ->
  exists w', (ok ← SetJoin i ip port;
     if negb ok then mret tt
     else size ← GetFindNodesMaxSize; _ ← FindClosestNodes 1 (i32 size) []; WakeBootstrap) w =
    Ok (tt, w') /\ started lid w' /\
    join_state w' = (true, i, ip, u16 port) /\ (0 < bootstrap_wakeups w')%nat /\
    local_node_ptr_ w' = local_node_ptr_ w.
Proof.
  intros Hs Hj. unfold SetJoin. rewrite step_assoc. mstep. rewrite Hj, step_assoc. mstep. mstep.
  change (negb true) with false. cbv iota. unfold GetFindNodesMaxSize. mstep.
  set (w5 := w <| joined_ := true |> <| after_join_ := _ |> <| bootstrap_id_ := _ |>
    <| bootstrap_ip_ := _ |> <| bootstrap_port_ := _ |>).
  assert (started lid w5) as Hs5 by (by apply (started_core lid w)).
  destruct (wp_elim _ _ _ (runs_FindClosestNodes lid 1 (i32 (RoutingMaxNodesSize_ w5)) [] w5 Hs5))
    as ([] & w6 & E6 & Hs6).
  pose proof (wlp_elim _ (fun _ => join_kept w5) _ _ _ (join_FindClosestNodes _ _ _ w5) E6 eq_refl)
    as Hkept.
  pose proof (wlp_elim _ (fun _ => same_local w5) _ _ _ (local_FindClosestNodes _ _ _ w5) E6) as Hown.
  rewrite (step_bind _ _ _ _ _ E6).
  eexists. splits; [reflexivity|by apply (started_core lid w6)|exact Hkept|simpl; lia|exact Hown].
Qed.

(** A join response makes an unjoined node join: when the answering bootstrap
    node can be added to the table (or is there already), the handler ends, the
    node is joined through the bootstrap id of the response and the address the
    response came from, whoever waits in MultiJoin is woken, and the node's
    public address is the one the response names. *)
Lemma join_response_completes lid w m p (res : BootstrapJoinResponse) :
  started lid w -> joined_ w = false -> get msg_des_node_id m = lid -> no_data m = false ->
  ParseFromString (get msg_data m) = Some res -> get msg_status m <> kKadForbidden ->
  add_code lid w (responder w m p res) ∈ [kKadSuccess; kKadNodeHasAdded] ->
  exists w', HandleBootstrapJoinResponse m p w = Ok (tt, w') /\ started lid w' /\
    join_state w' = (true, get jres_bootstrap_id res, get_from_ip_addr p, u16 (get_from_ip_port p)) /\
    (0 < bootstrap_wakeups w')%nat /\
    (fun l => (ln_public_ip l, ln_public_port l)) <$> local_node_ptr_ w' =
      Some (get jres_public_ip res, u16 (get jres_public_port res)).
Proof.
  intros Hs Hj Hdes Hd Hp Hst Hcode. unfold HandleBootstrapJoinResponse.
  assert (IsDestination (get msg_des_node_id m) false w = Ok (true, w)) as Edst.
  { unfold IsDestination. rewrite (step_bind _ _ _ _ _ (local_id_ok lid w (st_ok _ w Hs))).
    by rewrite Hdes, String.eqb_refl. }
  rewrite (step_bind _ _ _ _ _ Edst), Hd, Hp. change (negb true) with false. cbv iota.
  rewrite (proj2 (Z.eqb_neq _ _)) by (intros E; by apply Hst).
  rewrite (step_bind _ _ _ _ _ (new_NodeInfo_spec _ _ w)).
  change (fresh _ w) with (fresh (responder w m p res) w). set (w1 := fresh _ w).
  destruct (st_local _ w Hs) as (l & x & El & Em & Ex).
  assert (local w1 = Ok (l, w1)) as El1 by (unfold local; mstep; by change (local_node_ptr_ w1) with
    (local_node_ptr_ w); rewrite El).
  rewrite (step_bind _ _ _ _ _ El1). unfold set_local. mstep. rewrite Em. unfold when at 1. mstep.
  set (w2 := w1 <| local_node_ptr_ ::= _ |>).
  assert (started lid w1) as Hs1.
  { apply (started_sys lid w); [done| |done]. apply fresh_ok, (st_ok _ w Hs). }
  assert (started lid w2) as Hs2.
  { apply (started_core lid w1); [| |done]; unfold core, sys, local_key, w2; simpl; by rewrite El. }
  destruct codes_distinct as (_ & Hc1 & Hc2).
  destruct (AddNode_spec lid w2 (w_next w) kNodeIdSize_pos Hc1 Hc2 (st_ok _ w2 Hs2))
    as (w3 & E3 & Hok3 & _).
  assert (add_code lid w2 (obj_of w2 (w_next w)) = add_code lid w (responder w m p res)) as Ecode.
  { assert (obj_of w2 (w_next w) = responder w m p res) as -> by apply fresh_obj.
    apply add_code_same; [done..|]. intros q Hq. by apply (fresh_old lid); [apply (st_ok _ w Hs)|]. }
  rewrite Ecode in E3. rewrite (step_bind _ _ _ _ _ E3). mstep.
  set (w4 := w3 <| bootstrap_nodes_ ::= _ |>).
  pose proof (wlp_elim _ (fun _ => same_env w2) _ _ _ (env_AddNode (w_next w) w2) E3) as Henv.
  assert (started lid w4) as Hs4.
  { apply (started_core lid w3); [done..|]. apply (started_sys lid w2); [|done|done].
    by apply same_env_sys. }
  assert (joined_ w4 = false) as Hj4.
  { change (joined_ w4) with (joined_ w3). injection Henv. congruence. }
  assert (negb (add_code lid w (responder w m p res) =? kKadSuccess) &&
          negb (add_code lid w (responder w m p res) =? kKadNodeHasAdded) = false) as ->.
  { apply elem_of_cons in Hcode as [E|E%list_elem_of_singleton]; rewrite E, Z.eqb_refl; simpl;
      [done|apply andb_false_r]. }
  destruct (join_completes lid w4 (get jres_bootstrap_id res) (get_from_ip_addr p)
    (get_from_ip_port p) Hs4 Hj4) as (w' & E & Hs' & Hst' & Hw' & Hown).
  exists w'. splits; [done..|]. rewrite Hown. change (local_node_ptr_ w4) with (local_node_ptr_ w3).
  assert (local_node_ptr_ w3 = local_node_ptr_ w2) as -> by exact (f_equal (fun e => e.1.1.1.1) Henv).
  change (local_node_ptr_ w2) with ((fun l => l <| ln_public_ip := get jres_public_ip res |>
    <| ln_public_port := u16 (get jres_public_port res) |>) <$> local_node_ptr_ w). by rewrite El.
Qed.

End properties.

(** ** Examples *)

Section witnesses.
Import Examples.
#[local] Existing Instance selection_sort.
#[local] Existing Instance countable_wire.

(** A node after Init. *)
Definition after_init (w : World) : World :=
  w <| node_detection_ptr_ := Some NodeDetectionManager.new |>
    <| dy_manager_ := Some (DynamicXipManager.init 0) |>.

Lemma after_init_ok lid w : table_ok lid w -> table_ok lid (after_init w).
Proof. by apply table_ok_core. Qed.

Definition ex_started : World := after_init ex_world.

Lemma ex_started_ok : started "abcd" ex_started.
Proof.
  split; [|exists ex_local, xip_default; splits; vm_compute; reflexivity
    |by apply (bool_decide_unpack _); vm_compute; reflexivity..].
  exact (after_init_ok "abcd" ex_world ex_world_ok).
Qed.

Definition ex_packet : xpacket := mkXpacket "10.0.0.9" 7000.

Definition ex_bytes {T} `{Proto T} (m : T) : string := default "" (SerializeToString m).

(** A message of "abcz" to the example node. *)
Definition ex_message (data : string) : RoutingMessage :=
  RoutingMessage_empty <| msg_des_node_id := Some "abcd"%string |>
    <| msg_src_node_id := Some "abcz"%string |> <| msg_data := Some data |>.

Lemma ex_parse (T : Type) `{Countable T} (m : T) :
  @ParseFromString T (countable_proto T)
    (get msg_data (ex_message (@ex_bytes T (countable_proto T) m))) = Some m.
Proof. by apply countable_proto_laws. Qed.

Lemma handlers_never_fault_witness :
  exists a w', HandleHeartbeatRequest (ex_message "x") ex_packet ex_started = Ok (a, w') /\
    started "abcd" w'.
Proof.
  exact (handlers_never_fault "abcd" ex_started _ _ ex_started_ok
    (s_heartbeat_request (ex_message "x") ex_packet)).
Defined.

(** Two nodes that share their first byte, and a request with an empty target. *)
Definition ex_near : World := ex_add "abzz" 9002 (ex_add "abce" 9001 ex_empty).

Definition ex_short_request : FindClosestNodesRequest :=
  FindClosestNodesRequest_empty <| fnreq_target_id := Some ""%string |>
    <| fnreq_src_nodeinfo := Some (PbNodeInfo_empty <| pn_nat_type := Some kNatTypeConeNormal |>) |>.

Lemma HandleFindNodesRequest_short_target_witness :
  HandleFindNodesRequest (ex_message (ex_bytes ex_short_request)) ex_packet ex_near = Fault OutOfRange.
Proof.
  apply (HandleFindNodesRequest_short_target "abcd" ex_near _ ex_packet ex_short_request).
  - do 2 apply ex_add_ok. by apply (table_ok_new _ ex_local ex_key).
  - reflexivity.
  - reflexivity.
  - exact (ex_parse FindClosestNodesRequest _).
  - discriminate.
  - simpl. lia.
  - apply Nat.leb_le. vm_compute. reflexivity.
  - reflexivity.
  - intros q r j Hq Hr Hj. assert (nodes_ ex_near ≡ₚ [1; 2]%positive) as Hn
      by (apply (bool_decide_unpack _); vm_compute; reflexivity).
    rewrite Hn in Hq, Hr. replace j with 0%nat by (simpl in Hj; lia).
    apply elem_of_cons in Hq as [->|Hq]; [|apply list_elem_of_singleton in Hq as ->];
      (apply elem_of_cons in Hr as [->|Hr]; [|apply list_elem_of_singleton in Hr as ->]);
      vm_compute; reflexivity.
Defined.

Lemma join_first_wins_witness :
  exists w', rtc handler_step (ex_started <| joined_ := true |>) w' /\
    join_state w' = (true, ""%string, ""%string, 0).
Proof.
  exists (ex_started <| joined_ := true |>).
  assert (rtc handler_step (ex_started <| joined_ := true |>) (ex_started <| joined_ := true |>)) as Hs.
  { apply rtc_once, (handler_run _ _ _ tt _ (h_heartbeat_response (ex_message "x") ex_packet)).
    vm_compute. reflexivity. }
  split; [exact Hs|]. exact (join_first_wins (ex_started <| joined_ := true |>) _ eq_refl Hs).
Defined.

(** "abcz" asks, knowing "abce" (object 1). *)
Definition ex_words : list Z :=
  match GetExistsNodesBloomfilter [1%positive] ex_world with Ok (v, _) => v | _ => [] end.

Definition ex_request : FindClosestNodesRequest :=
  FindClosestNodesRequest_empty <| fnreq_target_id := Some "abcz"%string |>
    <| fnreq_count := Some 8 |> <| fnreq_bloomfilter := ex_words |>.

Lemma HandleFindNodesRequest_answer_witness :
  exists m' w' sent, HandleFindNodesRequest (ex_message (ex_bytes ex_request)) ex_packet ex_started
    = Ok (m', w') /\ w_net w' = sent.
Proof.
  destruct (HandleFindNodesRequest_answer "abcd" ex_started (ex_message (ex_bytes ex_request))
    ex_packet ex_request ex_started_ok) as (m' & w' & sent & E & _ & En & _);
    [reflexivity|vm_compute; reflexivity|exact (ex_parse FindClosestNodesRequest _)|reflexivity|].
  exists m', w', (w_net ex_started ++ sent). split; [exact E|exact En].
Defined.

Lemma find_nodes_skips_known_witness :
  exists m' w', HandleFindNodesRequest (ex_message (ex_bytes ex_request)) ex_packet ex_started
    = Ok (m', w').
Proof.
  destruct (find_nodes_skips_known ex_world [1%positive] ex_words "abcd" ex_started
    (ex_message (ex_bytes ex_request)) ex_packet ex_request) as (m' & w' & sent & E & _);
    [vm_compute; reflexivity|reflexivity|exact ex_started_ok|reflexivity|vm_compute; reflexivity
    |exact (ex_parse FindClosestNodesRequest _)|reflexivity|].
  exists m', w'. exact E.
Defined.

End witnesses.
