(* ===== verification/JoinProps.v ===== *)
(** The loop of MultiJoin: it sends to every endpoint in each round, and it
    ends, with the documented waits, in the first round in which another thread
    joins the node. *)

From S2P Require Import Prelude Invariants Externals Messages Distance Sorting NodeInfo LocalNodeInfo.
From S2P Require Import ClientNodes BootstrapCache World RoutingTable TableFacts TableProps.
From S2P Require Import Sending SendProps NodeDetection RoutingHandlers RoutingJoin Frames Robust.
From S2P Require Import HandlerProps.

(** ** The waits *)

(** The wait of round [i], in seconds: four seconds up to the sixth round,
    then twice as long each time, up to 128. *)
Definition wait_of (i : nat) : Z :=
  if (i <=? 5)%nat then 4 else Z.min 128 (4 * 2 ^ Z.of_nat (i - 5)).

Lemma wait_of_range i : 4 <= wait_of i <= 128.
Proof.
  unfold wait_of. destruct (Nat.leb_spec i 5); [lia|].
  pose proof (Z.pow_le_mono_r 2 0 (Z.of_nat (i - 5))). lia.
Qed.

Lemma next_wait_of i : next_wait (Z.of_nat (S i)) (wait_of i) = wait_of (S i).
Proof.
  pose proof (wait_of_range i) as Hr.
  unfold next_wait, kJoinRetryTimes. destruct (Z.ltb_spec 5 (Z.of_nat (S i))) as [Hlt|Hge].
  - assert (u32 (wait_of i * 2) = wait_of i * 2) as -> by (apply Z.mod_small; lia).
    assert (wait_of (S i) = Z.min 128 (wait_of i * 2)) as ->.
    { unfold wait_of. rewrite (proj2 (Nat.leb_gt (S i) 5)) by lia.
      destruct (Nat.leb_spec i 5) as [Hi|Hi].
      - replace i with 5%nat by lia. reflexivity.
      - replace (Z.of_nat (S i - 5)) with (Z.succ (Z.of_nat (i - 5))) by lia.
        rewrite Z.pow_succ_r by lia. lia. }
    destruct (Z.ltb_spec 128 (wait_of i * 2)); lia.
  - unfold wait_of. rewrite !(proj2 (Nat.leb_le _ 5)) by lia. done.
Qed.

Section join.
Context `{Xbase} `{!XbaseLaws} `{KadKey} `{Xip} `{PartialSort} `{!PartialSortLaws} `{Wire}.
#[local] Set Default Proof Using "Type*".
Context (lid : string).

Definition same_joined : relation World := fun w w' => joined_ w' = joined_ w.

#[export] Instance same_joined_preorder : PreOrder same_joined.
Proof. split; [done|]. intros w1 w2 w3 E1 E2. by transitivity (joined_ w2). Qed.

Lemma joined_Bootstrap ip port s : frames same_joined (Bootstrap ip port s).
Proof.
  unfold Bootstrap, SetFreqMessage, SendData, SendData_bytes, transport_send, local_xip, local_id,
    local, gxid, next_message_id. frame; by unfold same_joined.
Qed.

Lemma runs_Bootstrap ip port s : runs lid (Bootstrap ip port s).
Proof. pose proof runs_SetFreqMessage. pose proof runs_SendData. unfold Bootstrap. run_prog; auto. Qed.

Lemma bootstrap_all_runs boots w :
  started lid w ->
  exists w', bootstrap_all boots w = Ok (tt, w') /\ started lid w' /\ joined_ w' = joined_ w.
Proof.
  intros Hs. assert (runs lid (bootstrap_all boots)) as Hr.
  { unfold bootstrap_all. run_prog. apply runs_Bootstrap. }
  assert (frames same_joined (bootstrap_all boots)) as Hf.
  { unfold bootstrap_all, local. frame. apply joined_Bootstrap. }
  destruct (wp_elim _ _ _ (Hr w Hs)) as ([] & w' & E & Hs'). exists w'. splits; [done|done|].
  by apply (wlp_elim (bootstrap_all boots) (fun _ => same_joined w) w tt w'); [apply Hf|].
Qed.

(** What the other threads do while a round waits. *)
Definition idle (m : M unit) : Prop := runs lid m /\ frames same_joined m.

Definition joining (m : M unit) : Prop :=
  runs lid m /\ forall w w', m w = Ok (tt, w') -> joined_ w' = true.

Lemma join_rounds_end pre m post boots i w :
  started lid w -> joined_ w = false -> (forall x, x ∈ pre -> idle x) -> joining m ->
  exists w', join_rounds (pre ++ m :: post) boots (Z.of_nat i) (wait_of i) w =
      Ok ((kKadSuccess, wait_of <$> seq i (S (length pre))), w') /\
    started lid w' /\ joined_ w' = true.
Proof.
  revert i w. induction pre as [|x pre IH]; intros i w Hs Hj Hpre [Hm Hjoin];
    cbn [app join_rounds];
    destruct (bootstrap_all_runs boots w Hs) as (w1 & E1 & Hs1 & Ej1);
    rewrite (step_bind _ _ _ _ _ E1).
  - destruct (wp_elim _ _ _ (Hm w1 Hs1)) as ([] & w2 & E2 & Hs2).
    rewrite (step_bind _ _ _ _ _ E2). mstep. rewrite (Hjoin w1 w2 E2).
    exists w2. splits; [done|done|]. by apply (Hjoin w1).
  - destruct (Hpre x) as [Hx Hxj]; [left|].
    destruct (wp_elim _ _ _ (Hx w1 Hs1)) as ([] & w2 & E2 & Hs2).
    rewrite (step_bind _ _ _ _ _ E2). mstep.
    pose proof (wlp_elim x (fun _ => same_joined w1) w1 tt w2 (Hxj w1) E2) as Ej2.
    unfold same_joined in Ej2. rewrite Ej2, Ej1, Hj. cbv zeta.
    replace (Z.of_nat i + 1) with (Z.of_nat (S i)) by lia. rewrite next_wait_of.
    destruct (IH (S i) w2 Hs2) as (w' & E & Hs' & Hj'); [congruence|
      intros y Hy; apply Hpre; by right|by split|].
    exists w'. rewrite (step_bind _ _ _ _ _ E). splits; [done|done|done].
Qed.

(** C25: MultiJoin on an unjoined node ends in the first round during whose
    wait another thread joins the node, however many rounds came before, and
    answers success; the rounds waited four seconds each up to the sixth, and
    from then on twice the wait before, but never more than 128 seconds. *)
Theorem MultiJoin_ends pre m post boots w :
  started lid w -> joined_ w = false -> (forall x, x ∈ pre -> idle x) -> joining m ->
  exists w', MultiJoin (pre ++ m :: post) boots w =
      Ok ((kKadSuccess, wait_of <$> seq 0 (S (length pre))), w') /\
    started lid w' /\ joined_ w' = true.
Proof.
  intros Hs Hj Hpre Hm. unfold MultiJoin. mstep. rewrite Hj.
  by apply (join_rounds_end pre m post (endpoints_in_order boots) 0).
Qed.

End join.

Section witness.
Import Examples.
#[local] Existing Instance selection_sort.
#[local] Existing Instance countable_wire.

(** A join response arrives while the second round waits. *)
Lemma MultiJoin_ends_witness :
  exists w', MultiJoin [mret tt; (_ ← SetJoin "abcz" "10.0.0.9" 7000; mret tt)]
      {[ ("10.0.0.9"%string, 7000) ]} ex_started = Ok ((kKadSuccess, [4; 4]), w') /\
    joined_ w' = true.
Proof.
  destruct (MultiJoin_ends "abcd" [mret tt] (_ ← SetJoin "abcz" "10.0.0.9" 7000; mret tt) []
    {[ ("10.0.0.9"%string, 7000) ]} ex_started ex_started_ok eq_refl) as (w' & E & _ & Hj).
  - intros x ->%list_elem_of_singleton. split; [apply always_ret|apply (frames_ret same_joined)].
  - split.
    + apply always_bind; [apply runs_SetJoin|]. intros b. apply always_ret.
    + intros w w'. unfold SetJoin. rewrite bind_unfold. msteps.
      destruct (joined_ w) eqn:E; intros [= <-]; [done|reflexivity].
  - exists w'. split; [exact E|exact Hj].
Defined.
End witness.
