(* ===== verification/DetectionProps.v ===== *)
(** The node detection manager ends its work: an entry is pinged at most
    kDetectionTimes times and then forgotten. *)

From S2P Require Import Prelude Externals Messages Distance Sorting NodeInfo LocalNodeInfo.
From S2P Require Import ClientNodes BootstrapCache World RoutingTable TableFacts TableProps.
From S2P Require Import Sending SendProps NodeDetection RoutingHandlers Frames Robust.
From S2P Require Import HandlerProps.
Import NodeDetectionManager.

(** Rounds of DoTetection an entry for the node [n] can still take part in
    before it is erased. *)
Definition remaining (n : NodeInfo) : nat :=
  (Z.to_nat (detection_delay_count n) + Z.to_nat (kDetectionTimes - detection_count n))%nat.

(** The counters are C++ ints. *)
Definition counters_ok (n : NodeInfo) : Prop :=
  - 2 ^ 31 <= detection_count n /\ detection_delay_count n < 2 ^ 31.

Section detection.
Context `{Xbase} `{!XbaseLaws} `{KadKey} `{Xip} `{PartialSort} `{!PartialSortLaws} `{Wire}.
#[local] Set Default Proof Using "Type*".
Context (lid : string).
Implicit Types (w : World) (p : ptr).

Lemma started_mutate p f w :
  (forall n, vital (f n) = vital n) -> started lid w -> started lid (w <| w_heap ::= alter f p |>).
Proof. intros Hf Hs. exact (runs_mutate lid p f Hf w Hs). Qed.

Lemma started_detection f w :
  started lid w -> started lid (w <| node_detection_ptr_ ::= fmap f |>).
Proof. intros Hs. exact (runs_set_detection lid f w Hs). Qed.

(** ** One ping *)

(** ** One round *)

(** Every entry has at most [n] rounds left, fewer when it is not in [todo]. *)
Definition at_most (n : nat) (todo : list string) w : Prop :=
  exists d, node_detection_ptr_ w = Some d /\ det_destroy d = false /\
    forall k p, detection_nodes_map d !! k = Some p ->
      is_Some (w_heap w !! p) /\ counters_ok (obj_of w p) /\
      (remaining (obj_of w p) <= n)%nat /\ (k ∉ todo -> (remaining (obj_of w p) < n)%nat).

(** Counting down the object of an entry. *)
Lemma at_most_mutate n k p todo (f : NodeInfo -> NodeInfo) w d :
  node_detection_ptr_ w = Some d -> detection_nodes_map d !! k = Some p ->
  at_most n (k :: todo) w ->
  counters_ok (f (obj_of w p)) -> (remaining (f (obj_of w p)) < remaining (obj_of w p))%nat ->
  at_most n todo (w <| w_heap ::= alter f p |>).
Proof.
  intros Ed Hk (d' & Ed' & Hdes & Hall) Hc Hlt. rewrite Ed in Ed'. injection Ed' as <-.
  exists d. splits; [done|done|]. intros k' q Hq. destruct (Hall k' q Hq) as (Ha & Hcq & Hle & Hs).
  destruct (Hall k p Hk) as (Hap & _ & Hlep & _).
  destruct (decide (q = p)) as [->|Hne].
  - rewrite lookup_obj_alter by done. splits; [|done|lia|lia].
    simpl. rewrite lookup_alter_eq. by apply fmap_is_Some.
  - assert (obj_of (w <| w_heap ::= alter f p |>) q = obj_of w q) as ->.
    { unfold obj_of. simpl. by apply lookup_total_alter_ne. }
    splits; [simpl; by rewrite lookup_alter_ne|done|done|].
    intros Hout. apply Hs. intros [->|Hin]%elem_of_cons; [congruence|done].
Qed.

Lemma detect_one_spec n k p todo w d :
  started lid w -> node_detection_ptr_ w = Some d -> detection_nodes_map d !! k = Some p ->
  at_most n (k :: todo) w ->
  exists w', detect_one k p w = Ok (tt, w') /\ started lid w' /\ at_most n todo w' /\
    exists d', node_detection_ptr_ w' = Some d' /\
      forall k', k' <> k -> detection_nodes_map d' !! k' = detection_nodes_map d !! k'.
Proof.
  intros Hs Ed Hk Hat. pose proof Hat as (d' & Ed' & Hdes & Hall).
  rewrite Ed in Ed'. injection Ed' as <-. destruct (Hall k p Hk) as (Ha & [Hc1 Hc2] & Hle & _).
  unfold detect_one, obj. mstep.
  destruct (Z.ltb_spec 0 (detection_delay_count (obj_of w p))) as [Hd|Hd].
  { rewrite int_dec_above by lia. mstep. eexists. split; [reflexivity|]. splits.
    - by apply started_mutate.
    - apply (at_most_mutate n k p todo _ w d); try done.
      + split; simpl; [done|]. lia.
      + unfold remaining. simpl. lia.
    - by exists d. }
  destruct (Z.leb_spec kDetectionTimes (detection_count (obj_of w p))) as [Ht|Ht].
  { unfold set_detection. eexists. split; [reflexivity|]. splits.
    - by apply started_detection.
    - eexists. simpl. rewrite Ed. splits; [reflexivity|done|]. simpl.
      intros k' q [Hne Hq]%lookup_delete_Some. destruct (Hall k' q Hq) as (? & ? & ? & Hst).
      splits; try done. intros Hout. apply Hst. intros [->|Hin]%elem_of_cons; done.
    - eexists. simpl. rewrite Ed. split; [reflexivity|]. simpl. intros k' Hne.
      by rewrite lookup_delete_ne. }
  destruct (wp_elim _ _ _ (runs_Handshake lid p w Hs)) as (c & w1 & E1 & Hs1).
  rewrite (step_bind _ _ _ _ _ E1).
  pose proof (wlp_elim (Handshake_ p) (fun _ => same_detection w) w c w1 (frames_Handshake p w) E1)
    as [Eh En].
  assert (forall q, obj_of w1 q = obj_of w q) as Eo by (intros q; unfold obj_of; by rewrite Eh).
  mstep. rewrite Eo, int_inc_below by (unfold kDetectionTimes in *; lia). mstep.
  eexists. split; [reflexivity|]. splits.
  - by apply started_mutate.
  - apply (at_most_mutate n k p todo _ w1 d); [congruence|done| | |].
    + exists d. rewrite En. splits; [done|done|]. intros k' q Hq. rewrite Eh, Eo. by apply Hall.
    + rewrite Eo. unfold kDetectionTimes in *. split; simpl; [|done]. lia.
    + rewrite Eo. unfold remaining, kDetectionTimes in *. simpl. lia.
  - exists d. simpl. by rewrite En.
Qed.
Lemma detect_all_spec n es w d :
  started lid w -> node_detection_ptr_ w = Some d -> NoDup es.*1 ->
  (forall k p, (k, p) ∈ es -> detection_nodes_map d !! k = Some p) ->
  at_most n es.*1 w ->
  exists w', for_each es (fun e => detect_one e.1 e.2) w = Ok (tt, w') /\ started lid w' /\
    at_most n [] w'.
Proof.
  revert w d. induction es as [|[k p] es IH]; intros w d Hs Ed Hn Hin Hat.
  { by exists w. }
  apply NoDup_cons in Hn as [Hk Hn]. cbn [for_each fst snd].
  destruct (detect_one_spec n k p es.*1 w d Hs Ed (Hin k p ltac:(left)) Hat)
    as (w1 & E1 & Hs1 & Hat1 & d1 & Ed1 & Hsame).
  rewrite (step_bind _ _ _ _ _ E1). apply (IH w1 d1); try done.
  intros k' q Hq. rewrite Hsame; [apply Hin; by right|].
  intros ->. apply Hk, list_elem_of_fmap. by exists (k, q).
Qed.

(** All entries have at most [n] rounds left. *)
Definition rounds_left (n : nat) w : Prop :=
  exists d, node_detection_ptr_ w = Some d /\ det_destroy d = false /\
    forall k p, detection_nodes_map d !! k = Some p ->
      is_Some (w_heap w !! p) /\ counters_ok (obj_of w p) /\ (remaining (obj_of w p) <= n)%nat.

Lemma DoTetection_round n w :
  started lid w -> rounds_left n w ->
  exists w', DoTetection w = Ok (tt, w') /\ started lid w' /\ at_most n [] w'.
Proof.
  intros Hs (d & Ed & Hdes & Hall).
  unfold DoTetection, detection. rewrite step_assoc. mstep. rewrite Ed. mstep. rewrite Hdes.
  apply (detect_all_spec n _ w d); try done.
  - apply NoDup_fst_entries.
  - by intros k p Hin%elem_of_entries.
  - exists d. splits; [done|done|]. intros k p Hk. destruct (Hall k p Hk) as (? & ? & ?).
    splits; try done. intros Hout. destruct Hout. apply list_elem_of_fmap. exists (k, p).
    split; [done|]. by apply elem_of_entries.
Qed.

Lemma at_most_nil_S n w : at_most (S n) [] w -> rounds_left n w.
Proof.
  intros (d & Ed & Hdes & Hall). exists d. splits; [done|done|]. intros k p Hk.
  destruct (Hall k p Hk) as (? & ? & _ & Hlt). splits; [done|done|].
  apply Nat.lt_succ_r, Hlt, not_elem_of_nil.
Qed.

(** C28: detection ends: when every node in the detection map can take part in
    at most [n] rounds (its delay, plus what is left of its four pings), then
    after [n + 1] rounds of the timer the map is empty, whether or not two
    entries share a node, and none of the rounds faults. *)
Theorem detection_ends n w :
  started lid w -> rounds_left n w ->
  exists w' d, for_each (seq 0 (S n)) (fun _ => DoTetection) w = Ok (tt, w') /\
    started lid w' /\ node_detection_ptr_ w' = Some d /\ detection_nodes_map d = ∅.
Proof.
  generalize 0%nat. revert w. induction n as [|n IH]; intros w s Hs Hr;
    destruct (DoTetection_round _ w Hs Hr) as (w1 & E1 & Hs1 & Hat1);
    cbn [seq for_each]; rewrite (step_bind _ _ _ _ _ E1).
  - destruct Hat1 as (d & Ed & _ & Hall). exists w1, d. splits; [done|done|done|].
    apply map_empty. intros k. apply eq_None_not_Some. intros [p Hk].
    destruct (Hall k p Hk) as (_ & _ & _ & Hlt). specialize (Hlt (not_elem_of_nil k)). lia.
  - apply (IH w1 (S s) Hs1). by apply at_most_nil_S.
Qed.
End detection.

Section witness.
Import Examples.
#[local] Existing Instance selection_sort.
#[local] Existing Instance countable_wire.

(** The example node with its object 5 under detection. *)
Definition ex_detecting : World :=
  match AddDetectionNode 5%positive ex_started with Ok (_, w) => w | _ => ex_started end.

Lemma ex_detecting_ok : started "abcd" ex_detecting.
Proof.
  destruct (wp_elim _ _ _ (runs_AddDetectionNode "abcd" 5%positive ex_started ex_started_ok))
    as (c & w & E & Hw).
  unfold ex_detecting. by rewrite E.
Qed.

(** Four pings, and the round that erases the entry. *)
Lemma detection_ends_witness :
  exists w' d, for_each (seq 0 5) (fun _ => DoTetection) ex_detecting = Ok (tt, w') /\
    node_detection_ptr_ w' = Some d /\ detection_nodes_map d = ∅.
Proof.
  destruct (detection_ends "abcd" 4 ex_detecting ex_detecting_ok) as (w' & d & E & _ & Ed & Em).
  - eexists. split; [vm_compute; reflexivity|]. split; [reflexivity|].
    intros k p Hk. assert (p = 5%positive) as ->.
    { revert Hk. rewrite <- elem_of_map_to_list. vm_compute (map_to_list _).
      intros E%list_elem_of_singleton. by injection E. }
    splits; [apply (bool_decide_unpack _); vm_compute; reflexivity
      |split; apply (bool_decide_unpack _); vm_compute; reflexivity
      |apply Nat.leb_le; vm_compute; reflexivity].
  - exists w', d. split; [exact E|]. split; [exact Ed|exact Em].
Defined.
End witness.
