(* ===== verification/NatDetect.v ===== *)
(** NAT type detection: src/nat_handshake_manager.cc (repeated pings to peers)
    and src/nat_manager.cc (the protocol between a node and a bootstrap node,
    its message queue and its life cycle). The state of both managers is one
    record with the log of the pings sent; [TMain] and [TNat] are the two
    transports the manager is started with. *)

From stdpp Require Import pretty.
From S2P Require Import Prelude Externals Messages NodeInfo World RoutingJoin.

Inductive nat_transport_id := TMain | TNat.

#[global] Instance nat_transport_id_eq_dec : EqDecision nat_transport_id.
Proof. solve_decision. Defined.

(** A ping: through which transport, to whom, what. *)
Record ping := mkPing {
  pg_transport : nat_transport_id;
  pg_data : string;
  pg_ip : string;
  pg_port : Z }.

Record NatDetectStruct := mkNatDetectStruct {
  st_ip : string;
  st_port : Z;
  st_transport : nat_transport_id;
  st_detect_port : Z;
  st_message_type : Z;
  st_delay_count : Z;
  st_detect_count : Z }.

#[global] Instance NatDetectStruct_eta : Eta NatDetectStruct := fun r =>
  mkNatDetectStruct (st_ip r) (st_port r) (st_transport r) (st_detect_port r)
    (st_message_type r) (st_delay_count r) (st_detect_count r).

(** NatHandshakeManager. *)
Record HandshakeManager := mkHandshakeManager {
  nh_started : bool;
  peers_ : gmap string NatDetectStruct;
  nh_timer : option (Z * Z) }.

#[global] Instance HandshakeManager_eta : Eta HandshakeManager := fun r =>
  mkHandshakeManager (nh_started r) (peers_ r) (nh_timer r).

(** NatManager, its transports (their local endpoints) and the environment. *)
Record NatManager := mkNatManager {
  nm_started : bool;
  nm_stopped : bool;
  nm_nat_type : Z;
  nm_notified : nat;
  nm_queue : list (RoutingMessage * xpacket);    (* front first *)
  nm_handshake : option HandshakeManager;
  nm_timer : option Z;                           (* pending CallAfter *)
  nm_transport : option (string * Z);
  nm_nat_transport : option (string * Z);
  nm_thread_destroy : bool;
  nm_thread : bool;
  nm_msg_id : Z;
  nm_sent : list ping;                           (* oldest first *)
  nm_send_result : nat -> Z }.

#[global] Instance NatManager_eta : Eta NatManager := fun r =>
  mkNatManager (nm_started r) (nm_stopped r) (nm_nat_type r) (nm_notified r) (nm_queue r)
    (nm_handshake r) (nm_timer r) (nm_transport r) (nm_nat_transport r)
    (nm_thread_destroy r) (nm_thread r) (nm_msg_id r) (nm_sent r) (nm_send_result r).

Notation N := (ST NatManager).

(** The member initializers; [nat_type_] starts as kNatTypePublic. *)
Definition NatManager_new (msg_id : Z) (send_result : nat -> Z) : NatManager :=
  mkNatManager false false kNatTypePublic 0%nat [] None None None None false false msg_id []
    send_result.

Definition nat_message_id : N Z := run (fun m =>
  (u32 (nm_msg_id m + 1), m <| nm_msg_id := u32 (nm_msg_id m + 1) |>)).

Definition SendPing (t : nat_transport_id) (data ip : string) (port : Z) : N Z :=
  run (fun m => (nm_send_result m (length (nm_sent m)),
                 m <| nm_sent ::= fun l => l ++ [mkPing t data ip port] |>)).

(** ** NatHandshakeManager *)

Module NatHandshakeManager.
Section ops.
Context `{Xbase} `{Wire}.

Definition kDetectionPeriod : Z := 50.
Definition kDetectCount : Z := Z.quot 2000 kDetectionPeriod.

Definition new : HandshakeManager := mkHandshakeManager false ∅ None.

Definition manager : N HandshakeManager := h ← gets nm_handshake; from_some NullDeref h.
Definition set_manager (f : HandshakeManager -> HandshakeManager) : N unit :=
  modify (fun m => m <| nm_handshake ::= fmap f |>).

Definition key_of (ip : string) (port : Z) : string := (ip +:+ "_" +:+ pretty port)%string.

(** The transport is never null here; the caller passes one of the two. *)
Definition AddDetection (ip : string) (port : Z) (transport : nat_transport_id)
    (detect_port message_type delay_ms : Z) : N unit :=
  let delay_count := Z.quot delay_ms kDetectionPeriod in
  let st := mkNatDetectStruct ip port transport detect_port message_type delay_count
              kDetectCount in
  _ ← manager;
  set_manager (fun h => h <| peers_ ::= <[key_of ip port := st]> |>).

Definition RemoveDetection (ip : string) (port : Z) : N unit :=
  _ ← manager;
  set_manager (fun h => h <| peers_ ::= delete (key_of ip port) |>).

Definition Start : N bool :=
  h ← manager;
  if nh_started h then mret true
  else
    _ ← set_manager (fun h => h <| peers_ := ∅ |>
          <| nh_timer := Some (kDetectionPeriod * 1000, kDetectionPeriod * 1000) |>
          <| nh_started := true |>);
    mret true.

(** Join stops the timer; the object stays. *)
Definition Stop : N unit :=
  h ← manager;
  if negb (nh_started h) then mret tt
  else set_manager (fun h => h <| nh_timer := None |> <| nh_started := false |>).

Definition DoHandshake (transport : nat_transport_id) (peer_ip : string)
    (detect_port message_type : Z) : N Z :=
  id ← nat_message_id;
  let message :=
    RoutingMessage_empty <| msg_hop_num := Some 0 |>
      <| msg_src_node_id := Some ""%string |> <| msg_des_node_id := Some ""%string |>
      <| msg_type := Some message_type |> <| msg_id := Some id |>
      <| msg_is_root := Some true |> in
  match SerializeToString message with
  | None => mret kKadFailed
  | Some msg => SendPing transport msg peer_ip detect_port
  end.

(** One turn of the loop of DetectProc, on the entry [st] of [key]. *)
Definition detect_peer (key : string) (st : NatDetectStruct) : N unit :=
  let put st := set_manager (fun h => h <| peers_ ::= <[key := st]> |>) in
  if 0 <? st_delay_count st then
    put (st <| st_delay_count ::= fun c => c - 1 |>)
  else
    _ ← when (0 <? st_detect_count st)
          (_ ← DoHandshake (st_transport st) (st_ip st) (st_detect_port st) (st_message_type st);
           mret tt);
    let st := if 0 <? st_detect_count st then st <| st_detect_count ::= fun c => c - 1 |>
              else st in
    if st_detect_count st <=? 0 then set_manager (fun h => h <| peers_ ::= delete key |>)
    else put st.

Definition DetectProc : N unit :=
  h ← manager;
  for_each (entries_by string_ltb (peers_ h)) (fun kv => detect_peer kv.1 kv.2).

End ops.
End NatHandshakeManager.

(** ** The message queue *)

Definition PushMessage (message : RoutingMessage) (packet : xpacket) : N unit :=
  q ← gets nm_queue;
  if 1000 <? Z.of_nat (length q) then mret tt
  else modify (fun m => m <| nm_queue ::= fun q => q ++ [(message, packet)] |>).

(** [None] when the wait of 500 ms ends on an empty queue. *)
Definition GetMessage : N (option (RoutingMessage * xpacket)) :=
  q ← gets nm_queue;
  match q with
  | [] => mret None
  | front :: rest => _ ← modify (fun m => m <| nm_queue := rest |>); mret (Some front)
  end.

Definition Clear : N unit := modify (fun m => m <| nm_queue := [] |>).

(** ** NatManager *)

Section nat_manager.
Context `{Xbase} `{Wire}.

Definition nat_local : N (string * Z) := t ← gets nm_nat_transport; from_some NullDeref t.

(** The bytes of a message, empty when it cannot be serialized. *)
Definition SerializeMessage (m : RoutingMessage) : string :=
  match SerializeToString m with Some msg => msg | None => EmptyString end.

Definition SetNatTypeAndNotify (nat_type : Z) : N bool :=
  t ← gets nm_nat_type;
  if negb (t =? kNatTypeUnknown) then mret false
  else
    _ ← modify (fun m => m <| nm_nat_type := nat_type |> <| nm_notified ::= S |>);
    mret true.

Definition SetNatType (nat_type : Z) : N unit := modify (fun m => m <| nm_nat_type := nat_type |>).

Definition GetLocalNatType : N (bool * Z) := t ← gets nm_nat_type; mret (true, t).

(** The envelope of a message of this protocol. *)
Definition nat_envelope (type : Z) : N RoutingMessage :=
  id ← nat_message_id;
  mret (RoutingMessage_empty <| msg_hop_num := Some 0 |>
          <| msg_src_node_id := Some ""%string |> <| msg_des_node_id := Some ""%string |>
          <| msg_type := Some type |> <| msg_id := Some id |> <| msg_is_root := Some true |>).

(** Serialize [message] and ping it through [t], unless it is empty. *)
Definition ping_message (t : nat_transport_id) (message : RoutingMessage) (ip : string) (port : Z)
    : N unit :=
  let xdata := SerializeMessage message in
  if str_empty xdata then mret tt
  else _ ← SendPing t xdata ip port; mret tt.

Definition SendNatDetectRequest (peer_ip : string) (peer_port : Z) : N unit :=
  message ← nat_envelope kKadNatDetectRequest;
  '(ip, port) ← nat_local;
  let detect_req := mkNatDetectRequest (Some ip) (Some port) in
  match SerializeToString detect_req with
  | None => raise AssertFailed
  | Some data => ping_message TNat (message <| msg_data := Some data |>) peer_ip peer_port
  end.

Definition SendNatDetectFinish (peer_ip : string) (peer_port : Z) : N unit :=
  message ← nat_envelope kKadNatDetectFinish;
  match SerializeToString (mkNatDetectFinish (Some 0)) with
  | None => raise AssertFailed
  | Some data =>
      let message := message <| msg_data := Some data |> in
      if str_empty (SerializeMessage message) then mret tt
      else _ ← nat_local; ping_message TNat message peer_ip peer_port
  end.

Definition HandleNatDetectRequest (message : RoutingMessage) (packet : xpacket) : N unit :=
  let peer_ip := get_from_ip_addr packet in
  let peer_port := get_from_ip_port packet in
  match ParseFromString (T := NatDetectRequest) (get msg_data message) with
  | None => mret tt
  | Some detect_req =>
      let res_message :=
        RoutingMessage_empty <| msg_hop_num := Some 0 |>
          <| msg_src_node_id := Some ""%string |>
          <| msg_des_node_id := Some (get msg_src_node_id message) |>
          <| msg_type := Some kKadNatDetectResponse |>
          <| msg_id := Some (get msg_id message) |>
          <| msg_is_root := Some (get msg_is_root message) |> in
      let is_public := (get ndreq_local_ip detect_req =? peer_ip)%string &&
                       (get ndreq_local_port detect_req =? peer_port) in
      '(_, local_port) ← nat_local;
      let detect_res :=
        mkNatDetectResponse (if is_public then Some kNatTypePublic else None) (Some local_port) in
      match SerializeToString detect_res with
      | None => raise AssertFailed
      | Some data =>
          let xdata := SerializeMessage (res_message <| msg_data := Some data |>) in
          if str_empty xdata then mret tt
          else
            t ← gets nm_transport;
            _ ← from_some NullDeref t;
            _ ← SendPing TMain xdata peer_ip peer_port;
            if get ndres_nat_type detect_res =? kNatTypePublic then mret tt
            else
              NatHandshakeManager.AddDetection peer_ip peer_port TNat peer_port
                kKadNatDetectHandshake2Node 0
      end
  end.

Definition OnTimerNatDetectTimeout : N unit :=
  _ ← SetNatTypeAndNotify kNatTypeConeAbnormal; mret tt.

Definition HandleNatDetectResponse (message : RoutingMessage) (packet : xpacket) : N unit :=
  match ParseFromString (T := NatDetectResponse) (get msg_data message) with
  | None => mret tt
  | Some detect_res =>
      if get ndres_nat_type detect_res =? kNatTypePublic then
        _ ← SetNatTypeAndNotify kNatTypePublic; mret tt
      else
        _ ← NatHandshakeManager.AddDetection (get_from_ip_addr packet) (get_from_ip_port packet)
              TNat (u16 (get ndres_detect_port detect_res)) kKadNatDetectHandshake2Boot 500;
        modify (fun m => m <| nm_timer := Some (1500 * 1000) |>)
  end.

Definition HandleNatDetectHandshake2Node (message : RoutingMessage) (packet : xpacket) : N unit :=
  _ ← SetNatTypeAndNotify kNatTypeConeNormal; mret tt.

(** The handler only logs. *)
Definition HandleNatDetectHandshake2Boot (message : RoutingMessage) (packet : xpacket) : N unit :=
  mret tt.

Definition HandleNatDetectFinish (message : RoutingMessage) (packet : xpacket) : N unit :=
  NatHandshakeManager.RemoveDetection (get_from_ip_addr packet) (get_from_ip_port packet).

(** The switch of ThreadProc. *)
Definition dispatch (message : RoutingMessage) (packet : xpacket) : N unit :=
  let type := get msg_type message in
  if type =? kKadNatDetectRequest then HandleNatDetectRequest message packet
  else if type =? kKadNatDetectResponse then HandleNatDetectResponse message packet
  else if type =? kKadNatDetectHandshake2Node then HandleNatDetectHandshake2Node message packet
  else if type =? kKadNatDetectHandshake2Boot then HandleNatDetectHandshake2Boot message packet
  else if type =? kKadNatDetectFinish then HandleNatDetectFinish message packet
  else mret tt.

(** One turn of the loop of ThreadProc: whether the thread goes on. *)
Definition thread_turn : N bool :=
  destroy ← gets nm_thread_destroy;
  if destroy : bool then mret false
  else
    m ← GetMessage;
    match m with
    | None => mret true
    | Some (message, packet) => _ ← dispatch message packet; mret true
    end.

(** [n] turns of the loop. *)
Fixpoint ThreadProc (n : nat) : N unit :=
  match n with
  | O => mret tt
  | S n' => go ← thread_turn; when go (ThreadProc n')
  end.

(** [others] is what the other threads do during the wait of three seconds. *)
Definition MultiNatDetect (others : N unit) (boot_endpoints : gset (string * Z)) : N bool :=
  started ← gets nm_started;
  if negb started then mret false
  else
    t ← gets nm_nat_type;
    if negb (t =? kNatTypeUnknown) then mret true
    else
      let boots := endpoints_in_order boot_endpoints in
      if (length boots =? 0)%nat then mret false
      else
        _ ← for_each boots (fun kv => SendNatDetectRequest kv.1 kv.2);
        _ ← others;
        t ← gets nm_nat_type;
        if t =? kNatTypeUnknown then mret false
        else
          _ ← for_each boots (fun kv =>
                _ ← SendNatDetectFinish kv.1 kv.2;
                NatHandshakeManager.RemoveDetection kv.1 kv.2);
          mret true.

(** The transports are given by their local endpoints. *)
Definition NatManager_Start (others : N unit) (first_node : bool)
    (boot_endpoints : gset (string * Z)) (transport nat_transport : option (string * Z)) : N bool :=
  match transport, nat_transport with
  | Some t, Some nt =>
      started ← gets nm_started;
      if started : bool then mret true
      else
        _ ← modify (fun m => m <| nm_transport := Some t |> <| nm_nat_type := kNatTypeUnknown |>);
        _ ← Clear;
        _ ← modify (fun m => m <| nm_handshake := Some NatHandshakeManager.new |>);
        ok ← NatHandshakeManager.Start;
        if negb ok then mret false
        else
          _ ← modify (fun m => m <| nm_nat_transport := Some nt |>);
          _ ← when first_node (modify (fun m => m <| nm_nat_type := kNatTypePublic |>));
          _ ← modify (fun m => m <| nm_thread_destroy := false |> <| nm_thread := true |>
                                 <| nm_started := true |>);
          _ ← MultiNatDetect others boot_endpoints;
          mret true
  | _, _ => raise AssertFailed
  end.

Definition ThreadJoin : N unit :=
  _ ← modify (fun m => m <| nm_timer := None |>);
  th ← gets nm_thread;
  when th (modify (fun m => m <| nm_thread_destroy := true |> <| nm_thread := false |>)).

Definition NatManager_Stop : N unit :=
  started ← gets nm_started;
  if negb started then mret tt
  else
    _ ← ThreadJoin;
    _ ← NatHandshakeManager.Stop;
    modify (fun m => m <| nm_nat_transport := None |> <| nm_stopped := true |>).

End nat_manager.
