(* ===== verification/NatProps.v ===== *)
(** NAT detection: the verdict is final and the queue bounded in every run; the
    exchange between a node and a bootstrap node gives the verdict it is meant
    to; a peer is pinged forty times; a stopped manager stays dead. *)

From S2P Require Import Prelude Externals Messages NodeInfo World NatDetect Frames.

(** ** Every run of the manager *)

Section runs.
Context `{Xbase} `{Wire}.

(** The verdict is given once, is told once and is never Unknown; the queue
    does not grow beyond 1001 messages. *)
Definition verdict_kept : relation NatManager := fun m m' =>
  (length (nm_queue m') <= Nat.max (length (nm_queue m)) 1001)%nat /\
  (nm_nat_type m' = nm_nat_type m /\ nm_notified m' = nm_notified m \/
   nm_nat_type m = kNatTypeUnknown /\ nm_nat_type m' <> kNatTypeUnknown /\
     nm_notified m' = S (nm_notified m)).

#[export] Instance verdict_kept_preorder : PreOrder verdict_kept.
Proof.
  split.
  - intros m. split; [lia|by left].
  - intros m1 m2 m3 [Hq1 H1] [Hq2 H2]. split; [lia|].
    destruct H1 as [[E1 N1]|(E1 & N1 & M1)], H2 as [[E2 N2]|(E2 & N2 & M2)];
      [left|right|right|exfalso]; try splits; congruence.
Qed.

(** A step that touches neither the verdict nor the queue. *)
Lemma verdict_same m m' :
  nm_queue m' = nm_queue m -> nm_nat_type m' = nm_nat_type m -> nm_notified m' = nm_notified m ->
  verdict_kept m m'.
Proof. intros Eq Et En. split; [rewrite Eq; lia|by left]. Qed.
#[local] Hint Resolve verdict_same : core.

Lemma verdict_ping t data ip port : frames verdict_kept (SendPing t data ip port).
Proof. unfold SendPing. frame. by apply verdict_same. Qed.
#[local] Hint Resolve verdict_ping : frame.

Lemma verdict_peers f : frames verdict_kept (NatHandshakeManager.set_manager f).
Proof. unfold NatHandshakeManager.set_manager. frame. by apply verdict_same. Qed.
#[local] Hint Resolve verdict_peers : frame.

Lemma verdict_DetectProc : frames verdict_kept NatHandshakeManager.DetectProc.
Proof.
  unfold NatHandshakeManager.DetectProc, NatHandshakeManager.manager,
    NatHandshakeManager.detect_peer, NatHandshakeManager.DoHandshake, nat_message_id.
  frame. by apply verdict_same.
Qed.

Lemma verdict_PushMessage message packet : frames verdict_kept (PushMessage message packet).
Proof.
  intros m. unfold PushMessage, wlp. mstep. destruct (Z.ltb_spec 1000 (Z.of_nat (length (nm_queue m)))).
  - change (verdict_kept m m). reflexivity.
  - split; [simpl; rewrite length_app; simpl; lia|by left].
Qed.

Lemma verdict_GetMessage : frames verdict_kept GetMessage.
Proof.
  intros m. unfold GetMessage, wlp. mstep. destruct (nm_queue m) as [|front rest] eqn:E; [change (verdict_kept m m); reflexivity|].
  split; [simpl; rewrite E; simpl; lia|by left].
Qed.

(** The verdicts the protocol can give. *)
Lemma verdict_notify t :
  t ∈ [kNatTypePublic; kNatTypeConeNormal; kNatTypeConeAbnormal] ->
  frames verdict_kept (SetNatTypeAndNotify t).
Proof.
  intros Ht m. unfold SetNatTypeAndNotify, wlp. mstep.
  destruct (Z.eqb_spec (nm_nat_type m) kNatTypeUnknown) as [E|E]; [|change (verdict_kept m m); reflexivity].
  split; [simpl; lia|right]. splits; [done| |done].
  unfold kNatTypePublic, kNatTypeConeNormal, kNatTypeConeAbnormal, kNatTypeUnknown in *. simpl.
  repeat (apply elem_of_cons in Ht as [->|Ht]; [done|]). by apply elem_of_nil in Ht.
Qed.

Lemma verdict_Request peer_ip peer_port : frames verdict_kept (SendNatDetectRequest peer_ip peer_port).
Proof.
  unfold SendNatDetectRequest, nat_envelope, nat_message_id, nat_local, ping_message.
  frame; by apply verdict_same.
Qed.

Lemma verdict_Finish peer_ip peer_port : frames verdict_kept (SendNatDetectFinish peer_ip peer_port).
Proof.
  unfold SendNatDetectFinish, nat_envelope, nat_message_id, nat_local, ping_message.
  frame; by apply verdict_same.
Qed.

#[local] Hint Extern 1 (frames _ (SetNatTypeAndNotify _)) =>
  apply verdict_notify; set_solver : frame.

Lemma verdict_timeout : frames verdict_kept OnTimerNatDetectTimeout.
Proof. unfold OnTimerNatDetectTimeout. frame. Qed.

Lemma verdict_dispatch message packet : frames verdict_kept (dispatch message packet).
Proof.
  unfold dispatch, HandleNatDetectRequest, HandleNatDetectResponse, HandleNatDetectHandshake2Node,
    HandleNatDetectHandshake2Boot, HandleNatDetectFinish, NatHandshakeManager.AddDetection,
    NatHandshakeManager.RemoveDetection, NatHandshakeManager.manager, nat_local.
  frame; by apply verdict_same.
Qed.
#[local] Hint Resolve verdict_GetMessage verdict_dispatch : frame.

Lemma verdict_thread_turn : frames verdict_kept thread_turn.
Proof. unfold thread_turn. frame. Qed.

(** What can happen to a started manager: a message arrives, the thread takes
    a turn, a timer fires, MultiNatDetect writes to a boot node, Stop. *)
Inductive nat_operation : forall A, N A -> Prop :=
  | no_push message packet : nat_operation unit (PushMessage message packet)
  | no_turn : nat_operation bool thread_turn
  | no_tick : nat_operation unit NatHandshakeManager.DetectProc
  | no_timeout : nat_operation unit OnTimerNatDetectTimeout
  | no_request ip port : nat_operation unit (SendNatDetectRequest ip port)
  | no_finish ip port : nat_operation unit (SendNatDetectFinish ip port)
  | no_forget ip port : nat_operation unit (NatHandshakeManager.RemoveDetection ip port)
  | no_stop : nat_operation unit NatManager_Stop.

Definition nat_step : relation NatManager := fun m m' =>
  exists A (op : N A) a, nat_operation A op /\ op m = Ok (a, m').

Lemma verdict_operation A (op : N A) : nat_operation A op -> frames verdict_kept op.
Proof.
  intros [].
  - apply verdict_PushMessage.
  - apply verdict_thread_turn.
  - apply verdict_DetectProc.
  - apply verdict_timeout.
  - apply verdict_Request.
  - apply verdict_Finish.
  - unfold NatHandshakeManager.RemoveDetection, NatHandshakeManager.manager. frame.
  - unfold NatManager_Stop, ThreadJoin, NatHandshakeManager.Stop, NatHandshakeManager.manager.
    frame; by apply verdict_same.
Qed.

(** C20: whatever arrives and whichever timer fires, in whatever order, a node
    whose NAT type is still unknown is told at most one verdict, which is never
    Unknown again; a verdict once given is final and is not told twice; and a
    queue that starts within 1001 messages (one more than the limit the guard
    names) never exceeds them. *)
Theorem nat_verdict_final m m' :
  rtc nat_step m m' -> (length (nm_queue m) <= 1001)%nat ->
  (length (nm_queue m') <= 1001)%nat /\
  (nm_nat_type m <> kNatTypeUnknown ->
     nm_nat_type m' = nm_nat_type m /\ nm_notified m' = nm_notified m) /\
  (nm_nat_type m = kNatTypeUnknown ->
     nm_notified m' = (nm_notified m +
       if decide (nm_nat_type m' = kNatTypeUnknown) then 0 else 1)%nat).
Proof.
  intros Hsteps Hq.
  assert (verdict_kept m m') as [Hq' Hv].
  { clear Hq. induction Hsteps as [m|m1 m2 m3 (A & op & a & Hop & E) _ IH]; [reflexivity|].
    trans m2; [|exact IH].
    by apply (wlp_elim op (fun _ => verdict_kept m1) m1 a m2 (verdict_operation A op Hop m1)). }
  splits; [lia|by destruct Hv as [?|[? _]]|].
  intros Eu. destruct Hv as [[Et En]|(_ & Hn & En)]; rewrite En.
  - rewrite decide_True by congruence. lia.
  - rewrite decide_False by done. lia.
Qed.
End runs.

(** ** What the exchange needs of the codec *)

(** Protobuf parses what it serialized; a message whose type is set, and the
    three bodies of the detection, can be serialized, the first to a text that
    is not empty. *)
Class NatWireLaws `{Wire} : Prop := {
  nw_message :: ProtoLaws RoutingMessage;
  nw_request :: ProtoLaws NatDetectRequest;
  nw_response :: ProtoLaws NatDetectResponse;
  nw_message_text (m : RoutingMessage) : is_set msg_type m = true ->
    exists s, SerializeToString m = Some s /\ str_empty s = false;
  nw_request_text (r : NatDetectRequest) : exists s, SerializeToString r = Some s;
  nw_response_text (r : NatDetectResponse) : exists s, SerializeToString r = Some s;
  nw_finish_text (r : NatDetectFinish) : exists s, SerializeToString r = Some s }.

Lemma countable_nat_wire_laws : @NatWireLaws countable_wire.
Proof.
  split; try apply countable_proto_laws; try by eexists.
  intros m _. eexists. split; [reflexivity|].
  assert (forall p q : positive, str_empty (pos_digits (prod_encode p q)) = false) as Hne.
  { by intros [] []. }
  apply Hne.
Qed.

(** ** The pings of the handshake manager *)

Section pings.
Context `{Xbase} `{Wire} `{!NatWireLaws}.
#[local] Set Default Proof Using "Type*".
Import NatHandshakeManager.

(** What a tick leaves of an entry. *)
Definition tick_peer (st : NatDetectStruct) : option NatDetectStruct :=
  if 0 <? st_delay_count st then Some (st <| st_delay_count ::= fun c => c - 1 |>)
  else if 1 <? st_detect_count st then Some (st <| st_detect_count ::= fun c => c - 1 |>)
  else None.

Definition pinging (st : NatDetectStruct) : bool :=
  (st_delay_count st <=? 0) && (0 <? st_detect_count st).

(** A ping to the address an entry is about, and how many a tick sends. *)
Definition to_peer (ip : string) (detect_port : Z) (p : ping) : Prop :=
  pg_ip p = ip /\ pg_port p = detect_port.

#[export] Instance to_peer_dec ip port p : Decision (to_peer ip port p).
Proof. unfold to_peer. apply _. Defined.

Definition count_to (ip : string) (port : Z) (l : list ping) : nat :=
  length (filter (to_peer ip port) l).

Definition pings_to (ip : string) (port : Z) (st : NatDetectStruct) : nat :=
  if bool_decide (st_ip st = ip /\ st_detect_port st = port) && pinging st then 1%nat else 0%nat.

(** The pings an entry accounts for. *)
Definition ping_of (st : NatDetectStruct) (p : ping) : Prop :=
  to_peer (st_ip st) (st_detect_port st) p /\ pg_transport p = st_transport st /\
  exists m, ParseFromString (pg_data p) = Some m /\ msg_type m = Some (st_message_type st).

Lemma DoHandshake_spec st m :
  exists c m' p, DoHandshake (st_transport st) (st_ip st) (st_detect_port st) (st_message_type st) m =
      Ok (c, m') /\
    nm_handshake m' = nm_handshake m /\ nm_sent m' = nm_sent m ++ [p] /\ ping_of st p.
Proof.
  unfold DoHandshake, nat_message_id. mstep.
  set (msg := RoutingMessage_empty <| msg_hop_num := _ |> <| msg_src_node_id := _ |>
    <| msg_des_node_id := _ |> <| msg_type := _ |> <| msg_id := _ |> <| msg_is_root := _ |>).
  destruct (nw_message_text msg eq_refl) as (s & E & _). rewrite E.
  do 3 eexists. splits; [reflexivity|reflexivity|reflexivity|].
  split; [by split|]. split; [done|]. exists msg. split; [|done]. simpl. by apply parse_serialize.
Qed.

Lemma count_to_app ip port l l' : count_to ip port (l ++ l') = (count_to ip port l + count_to ip port l')%nat.
Proof. unfold count_to. by rewrite filter_app, length_app. Qed.

Lemma detect_peer_spec k st m h :
  nm_handshake m = Some h ->
  exists m' new, detect_peer k st m = Ok (tt, m') /\
    nm_handshake m' = Some (h <| peers_ ::= partial_alter (fun _ => tick_peer st) k |>) /\
    nm_sent m' = nm_sent m ++ new /\
    (forall ip port, count_to ip port new = pings_to ip port st) /\ Forall (ping_of st) new.
Proof.
  intros Eh. unfold detect_peer, tick_peer, pings_to, pinging, set_manager.
  destruct (Z.ltb_spec 0 (st_delay_count st)) as [Hd|Hd].
  { eexists _, []. splits; [reflexivity| |by rewrite app_nil_r| |by constructor].
    - simpl. by rewrite Eh.
    - intros ip port. rewrite (proj2 (Z.leb_gt _ _)) by lia. by rewrite andb_false_r. }
  destruct (Z.ltb_spec 0 (st_detect_count st)) as [Hc|Hc].
  - destruct (DoHandshake_spec st m) as (c & m1 & p & E & Eh1 & Es & Hp).
    cbn [when]. rewrite step_assoc, (step_bind _ _ _ _ _ E). mstep.
    assert (forall ip port, count_to ip port [p] =
      if bool_decide (st_ip st = ip /\ st_detect_port st = port) && ((st_delay_count st <=? 0) && true)
      then 1%nat else 0%nat) as Hcount.
    { intros ip port. rewrite (proj2 (Z.leb_le _ _)) by lia. destruct Hp as [[<- <-] _].
      unfold count_to. rewrite filter_cons, filter_nil. unfold to_peer.
      destruct (decide _) as [D|D]; [by rewrite bool_decide_eq_true_2|by rewrite bool_decide_eq_false_2]. }
    cbv zeta. change (st_detect_count (st <| st_detect_count ::= fun c => c - 1 |>))
      with (st_detect_count st - 1).
    destruct (Z.ltb_spec 1 (st_detect_count st)).
    + rewrite (proj2 (Z.leb_gt _ _)) by lia. eexists _, [p].
      splits; [reflexivity| |exact Es|exact Hcount|by apply Forall_singleton].
      simpl. by rewrite Eh1, Eh.
    + rewrite (proj2 (Z.leb_le _ _)) by lia. eexists _, [p].
      splits; [reflexivity| |exact Es|exact Hcount|by apply Forall_singleton].
      simpl. by rewrite Eh1, Eh.
  - cbn [when]. mstep. rewrite (proj2 (Z.leb_le _ _)) by lia.
    rewrite (proj2 (Z.ltb_ge 1 _)) by lia. eexists _, [].
    splits; [reflexivity| |by rewrite app_nil_r| |by constructor].
    + simpl. by rewrite Eh.
    + intros ip port. by rewrite !andb_false_r.
Qed.

Lemma tick_all_spec es m h :
  nm_handshake m = Some h -> NoDup es.*1 -> (forall k st, (k, st) ∈ es -> peers_ h !! k = Some st) ->
  exists m' h' new, for_each es (fun kv => detect_peer kv.1 kv.2) m = Ok (tt, m') /\
    nm_handshake m' = Some h' /\ nm_sent m' = nm_sent m ++ new /\
    (forall k, peers_ h' !! k =
       if decide (k ∈ es.*1) then peers_ h !! k ≫= tick_peer else peers_ h !! k) /\
    (forall ip port, count_to ip port new = sum_list (pings_to ip port <$> es.*2)) /\
    Forall (fun p => exists e, e ∈ es /\ ping_of e.2 p) new.
Proof.
  revert m h. induction es as [|[k st] es IH]; intros m h Eh Hnd Hin.
  { exists m, h, []. splits; try done. by rewrite app_nil_r. }
  apply NoDup_cons in Hnd as [Hk Hnd]. cbn [for_each fst snd].
  destruct (detect_peer_spec k st m h Eh) as (m1 & new1 & E1 & Eh1 & Es1 & Hc1 & Hp1).
  rewrite (step_bind _ _ _ _ _ E1).
  destruct (IH m1 _ Eh1 Hnd) as (m2 & h2 & new2 & E2 & Eh2 & Es2 & Hl2 & Hc2 & Hp2).
  { intros k' st' Hin'. simpl. rewrite lookup_partial_alter_ne; [apply Hin; by right|].
    intros <-. apply Hk, list_elem_of_fmap. by exists (k, st'). }
  exists m2, h2, (new1 ++ new2). splits; [done|done|by rewrite Es2, Es1, app_assoc| | |].
  - intros k'. rewrite Hl2. cbn [fmap list_fmap fst]. simpl peers_.
    destruct (decide (k' = k)) as [->|Hne].
    + rewrite decide_False by done. rewrite decide_True by (by left).
      rewrite lookup_partial_alter_eq, (Hin k st) by (by left). done.
    + rewrite lookup_partial_alter_ne by done.
      destruct (decide (k' ∈ es.*1)); [by rewrite decide_True by (by right)|].
      rewrite decide_False; [done|]. by intros [?|?]%elem_of_cons.
  - intros ip port. rewrite count_to_app, Hc1, Hc2. done.
  - apply Forall_app. split.
    + eapply Forall_impl; [exact Hp1|]. intros p Hp. exists (k, st). split; [by left|done].
    + eapply Forall_impl; [exact Hp2|]. intros p (e & He & Hp). exists e. split; [by right|done].
Qed.

(** At most one entry is about an address: the one under [k]. *)
Definition sole (k : string) (ip : string) (port : Z) (h : HandshakeManager) : Prop :=
  forall k' st, peers_ h !! k' = Some st -> st_ip st = ip -> st_detect_port st = port -> k' = k.

Lemma sum_none {A} (f : A -> nat) (l : list A) :
  (forall x, x ∈ l -> f x = 0%nat) -> sum_list (f <$> l) = 0%nat.
Proof.
  induction l as [|x l IH]; [done|]. intros Hl. simpl. rewrite (Hl x) by (by left).
  apply IH. intros y Hy. apply Hl. by right.
Qed.

Lemma sum_one {A} (f : A -> nat) (k : string) (x : A) (l : list (string * A)) :
  NoDup l.*1 -> (k, x) ∈ l -> (forall k' y, (k', y) ∈ l -> k' <> k -> f y = 0%nat) ->
  sum_list (f <$> l.*2) = f x.
Proof.
  induction l as [|[k' y] l IH]; [by intros _ ?%elem_of_nil|].
  intros [Hk Hnd]%NoDup_cons [[= <- <-]|Hin]%elem_of_cons Hz; simpl.
  - rewrite sum_none; [lia|]. intros z ([k' z'] & -> & Hz')%list_elem_of_fmap.
    apply (Hz k'); [by right|]. intros ->. apply Hk, list_elem_of_fmap. by exists (k, z').
  - rewrite (Hz k' y); [|by left|].
    + apply IH; [done|done|]. intros k'' z Hz'. apply Hz. by right.
    + intros ->. apply Hk, list_elem_of_fmap. by exists (k, x).
Qed.

Lemma tick_same st st' :
  tick_peer st = Some st' ->
  (st_ip st', st_detect_port st', st_transport st', st_message_type st') =
  (st_ip st, st_detect_port st, st_transport st, st_message_type st).
Proof.
  unfold tick_peer. destruct (0 <? _); [by intros [= <-]|]. destruct (1 <? _); [by intros [= <-]|done].
Qed.

Lemma DetectProc_spec k ip port m h :
  nm_handshake m = Some h -> sole k ip port h ->
  exists m' h' new, DetectProc m = Ok (tt, m') /\
    nm_handshake m' = Some h' /\ nm_sent m' = nm_sent m ++ new /\
    (forall k', peers_ h' !! k' = peers_ h !! k' ≫= tick_peer) /\ sole k ip port h' /\
    count_to ip port new = from_option (pings_to ip port) 0%nat (peers_ h !! k) /\
    Forall (fun p => exists k' st, peers_ h !! k' = Some st /\ ping_of st p) new.
Proof.
  intros Eh Hsole. unfold DetectProc, manager. rewrite step_assoc. mstep. rewrite Eh. mstep.
  set (es := entries_by string_ltb (peers_ h)).
  assert (forall k st, (k, st) ∈ es <-> peers_ h !! k = Some st) as Hes
    by (intros; apply elem_of_entries).
  assert (NoDup es.*1) as Hnd by apply NoDup_fst_entries.
  destruct (tick_all_spec es m h Eh Hnd) as (m' & h' & new & E & Eh' & Es & Hl & Hc & Hp).
  { intros. by apply Hes. }
  assert (forall k', peers_ h' !! k' = peers_ h !! k' ≫= tick_peer) as Hl'.
  { intros k'. rewrite Hl. destruct (decide _) as [D|D]; [done|].
    destruct (peers_ h !! k') as [st|] eqn:Ek; [|done]. exfalso. apply D, list_elem_of_fmap.
    exists (k', st). split; [done|]. by apply Hes. }
  exists m', h', new. splits; [done|done|done|done| | |].
  - intros k' st' Hk' Hip Hport. rewrite Hl' in Hk'.
    destruct (peers_ h !! k') as [st|] eqn:Ek; [|done]. apply (Hsole k' st Ek);
      apply tick_same in Hk'; congruence.
  - rewrite Hc. assert (forall k' st, (k', st) ∈ es -> k' <> k -> pings_to ip port st = 0%nat) as Hz.
    { intros k' st Hk' Hne. unfold pings_to. rewrite bool_decide_eq_false_2; [done|].
      intros [Hip Hport]. by apply Hne, (Hsole k' st); [apply Hes| |]. }
    destruct (peers_ h !! k) as [st|] eqn:Ek; simpl.
    + apply (sum_one _ k); [done|by apply Hes|done].
    + apply sum_none. intros st ([k' st'] & -> & Hin)%list_elem_of_fmap.
      apply (Hz k' st' Hin). intros ->. apply Hes in Hin. congruence.
  - eapply Forall_impl; [exact Hp|]. intros p ([k' st] & Hin & Hof).
    exists k', st. split; [by apply Hes|done].
Qed.

(** The entry an address has, if any, was put there with these parameters and
    has neither a negative delay nor no pings left. *)
Definition entry_ok (ip : string) (port : Z) (t : nat_transport_id) (type : Z)
    (o : option NatDetectStruct) : Prop :=
  forall st, o = Some st ->
    (st_ip st, st_detect_port st, st_transport st, st_message_type st) = (ip, port, t, type) /\
    0 <= st_delay_count st /\ 0 < st_detect_count st.

(** The pings of an entry in [n] ticks, and whether it is still there then. *)
Definition sent_in (n : nat) (o : option NatDetectStruct) : nat :=
  match o with
  | None => 0%nat
  | Some st => Nat.min (Z.to_nat (st_detect_count st)) (n - Z.to_nat (st_delay_count st))
  end.

Definition alive_after (n : nat) (o : option NatDetectStruct) : Prop :=
  match o with
  | None => False
  | Some st => (n < Z.to_nat (st_delay_count st) + Z.to_nat (st_detect_count st))%nat
  end.

Lemma entry_ok_tick ip port t type o :
  entry_ok ip port t type o -> entry_ok ip port t type (o ≫= tick_peer).
Proof.
  intros Hok st' E. destruct o as [st|]; [|done]. destruct (Hok st eq_refl) as (Ep & Hd & Hc).
  pose proof (tick_same st st' E) as Es. split; [congruence|]. simpl in E. revert E.
  unfold tick_peer. destruct (Z.ltb_spec 0 (st_delay_count st)); [intros [= <-]; simpl; lia|].
  destruct (Z.ltb_spec 1 (st_detect_count st)); [intros [= <-]; simpl; lia|done].
Qed.

Lemma sent_in_tick n ip port t type o :
  entry_ok ip port t type o ->
  sent_in (S n) o = (from_option (pings_to ip port) 0 o + sent_in n (o ≫= tick_peer))%nat /\
  (alive_after (S n) o <-> alive_after n (o ≫= tick_peer)).
Proof.
  intros Hok. destruct o as [st|]; [|done]. destruct (Hok st eq_refl) as (Ep & Hd & Hc). simpl.
  unfold pings_to, pinging, tick_peer. rewrite bool_decide_eq_true_2 by (split; congruence).
  rewrite (proj2 (Z.ltb_lt 0 (st_detect_count st))) by lia.
  destruct (Z.ltb_spec 0 (st_delay_count st)).
  - rewrite (proj2 (Z.leb_gt _ _)) by lia. simpl. split; lia.
  - rewrite (proj2 (Z.leb_le _ _)) by lia. simpl.
    destruct (Z.ltb_spec 1 (st_detect_count st)); simpl; split; lia.
Qed.

Lemma ticks_spec n k ip port t type m h :
  nm_handshake m = Some h -> sole k ip port h -> entry_ok ip port t type (peers_ h !! k) ->
  exists m' h' new, for_each (seq 0 n) (fun _ => DetectProc) m = Ok (tt, m') /\
    nm_handshake m' = Some h' /\ nm_sent m' = nm_sent m ++ new /\
    count_to ip port new = sent_in n (peers_ h !! k) /\
    (is_Some (peers_ h' !! k) <-> alive_after n (peers_ h !! k)) /\
    Forall (fun p => to_peer ip port p -> pg_transport p = t /\
      exists mm, ParseFromString (pg_data p) = Some mm /\ msg_type mm = Some type) new.
Proof.
  generalize 0%nat. revert m h. induction n as [|n IH]; intros m h start Eh Hsole Hok.
  { exists m, h, []. splits; [done|done|by rewrite app_nil_r| | |by constructor].
    - destruct (peers_ h !! k); simpl; [|done]. by rewrite Nat.min_0_r.
    - destruct (peers_ h !! k) as [st|] eqn:E; simpl; [|by rewrite is_Some_alt].
      split; [|done]. intros _. destruct (Hok st eq_refl) as (_ & _ & ?). lia. }
  cbn [seq for_each].
  destruct (DetectProc_spec k ip port m h Eh Hsole)
    as (m1 & h1 & new1 & E1 & Eh1 & Es1 & Hl1 & Hsole1 & Hc1 & Hp1).
  rewrite (step_bind _ _ _ _ _ E1).
  destruct (sent_in_tick n ip port t type (peers_ h !! k) Hok) as [Hsent Halive].
  destruct (IH m1 h1 (S start) Eh1 Hsole1) as (m2 & h2 & new2 & E2 & Eh2 & Es2 & Hc2 & Ha2 & Hp2).
  { rewrite Hl1. by apply entry_ok_tick. }
  exists m2, h2, (new1 ++ new2). splits; [done|done|by rewrite Es2, Es1, app_assoc| | |].
  - by rewrite count_to_app, Hc1, Hc2, Hsent, Hl1.
  - by rewrite Ha2, Halive, Hl1.
  - apply Forall_app. split; [|done]. eapply Forall_impl; [exact Hp1|].
    intros p (k' & st & Hk' & (Hip & Hport) & Ht & Hm) [Hip' Hport'].
    assert (k' = k) as -> by (apply (Hsole k' st); congruence).
    destruct (Hok st Hk') as (Ep & _). split; [congruence|].
    destruct Hm as (mm & Hmm & Hty). exists mm. split; [done|congruence].
Qed.

(** C27: a peer added to the handshake manager, whatever other peers it holds,
    is left alone for its delay and then pinged once per tick, forty times in
    all, at the port to detect, through the transport and with the message type
    it was added with; then it is forgotten. *)
Theorem handshake_pings ip port t detect_port type delay_ms m h n :
  nm_handshake m = Some h -> 0 <= delay_ms -> sole (key_of ip port) ip detect_port h ->
  let delay := Z.to_nat (Z.quot delay_ms kDetectionPeriod) in
  exists m' h' new,
    (_ ← AddDetection ip port t detect_port type delay_ms;
     for_each (seq 0 n) (fun _ => DetectProc)) m = Ok (tt, m') /\
    nm_handshake m' = Some h' /\ nm_sent m' = nm_sent m ++ new /\
    count_to ip detect_port new = Nat.min 40 (n - delay) /\
    (is_Some (peers_ h' !! key_of ip port) <-> (n < delay + 40)%nat) /\
    forall p, p ∈ new -> to_peer ip detect_port p -> pg_transport p = t /\
      exists mm, ParseFromString (pg_data p) = Some mm /\ msg_type mm = Some type.
Proof.
  intros Eh Hd Hsole delay. unfold AddDetection, manager. rewrite !step_assoc. mstep. rewrite Eh. mstep.
  unfold set_manager. mstep.
  set (st := mkNatDetectStruct ip port t detect_port type _ _).
  set (m1 := m <| nm_handshake ::= _ |>).
  assert (nm_handshake m1 = Some (h <| peers_ ::= <[key_of ip port := st]> |>)) as Eh1.
  { unfold m1. simpl. by rewrite Eh. }
  assert (0 <= Z.quot delay_ms kDetectionPeriod) as Hq by (apply Z.quot_pos; [done|done]).
  destruct (ticks_spec n (key_of ip port) ip detect_port t type m1 _ Eh1)
    as (m' & h' & new & E & Eh' & Es & Hc & Ha & Hp).
  - intros k' st'. simpl. destruct (decide (k' = key_of ip port)) as [->|Hne]; [done|].
    rewrite lookup_insert_ne by done. apply Hsole.
  - simpl. rewrite lookup_insert_eq. intros st' [= <-]. splits; [done|done|done].
  - simpl in Hc, Ha. rewrite lookup_insert_eq in Hc, Ha. exists m', h', new.
    splits; [done|done|done|exact Hc|exact Ha|]. by rewrite Forall_forall in Hp.
Qed.
End pings.

(** ** The exchange *)

Section verdict.
Context `{Xbase} `{!XbaseLaws} `{Wire} `{!NatWireLaws}.
#[local] Set Default Proof Using "Type*".
Import NatHandshakeManager.

(** Two constants at different places of the list of message types differ. *)
Lemma types_differ i j a b :
  [kKadNatDetectRequest; kKadNatDetectResponse; kKadNatDetectHandshake2Node] !! i = Some a ->
  [kKadNatDetectRequest; kKadNatDetectResponse; kKadNatDetectHandshake2Node] !! j = Some b ->
  i <> j -> (a =? b) = false.
Proof.
  intros Ea Eb Hij. apply Z.eqb_neq. intros <-. apply Hij.
  pose proof message_types_distinct as Hd. do 9 (apply NoDup_cons in Hd as [_ Hd]).
  eapply (NoDup_lookup _ (9 - 9 + i)%nat (9 - 9 + j)%nat a Hd).
  - by apply (prefix_lookup_Some _ _ _ _ Ea); eexists.
  - by apply (prefix_lookup_Some _ _ _ _ Eb); eexists.
Qed.

Lemma dispatch_Request m p :
  msg_type m = Some kKadNatDetectRequest -> dispatch m p = HandleNatDetectRequest m p.
Proof. unfold dispatch, get. intros ->. simpl. by rewrite Z.eqb_refl. Qed.

Lemma dispatch_Response m p :
  msg_type m = Some kKadNatDetectResponse -> dispatch m p = HandleNatDetectResponse m p.
Proof.
  unfold dispatch, get. intros ->. simpl. by rewrite (types_differ 1 0), Z.eqb_refl.
Qed.

Lemma dispatch_Handshake2Node m p :
  msg_type m = Some kKadNatDetectHandshake2Node -> dispatch m p = HandleNatDetectHandshake2Node m p.
Proof.
  unfold dispatch, get. intros ->. simpl.
  by rewrite (types_differ 2 0), (types_differ 2 1), Z.eqb_refl.
Qed.

(** A datagram arrives from an address: the transport parses it, the processor
    queues it and the thread takes its turn. *)
Definition receive (data ip : string) (port : Z) : N bool :=
  match ParseFromString data with
  | None => mret true
  | Some message => _ ← PushMessage message (mkXpacket ip port); thread_turn
  end.

(** The thread runs and has nothing to do. *)
Definition waiting (m : NatManager) : Prop := nm_queue m = [] /\ nm_thread_destroy m = false.

Lemma receive_spec data ip port message m m' :
  waiting m -> ParseFromString data = Some message ->
  dispatch message (mkXpacket ip port) m = Ok (tt, m') ->
  receive data ip port m = Ok (true, m').
Proof.
  intros [Hq Hd] Hp E. unfold receive. rewrite Hp. unfold PushMessage. rewrite step_assoc. mstep.
  rewrite Hq. cbn [length]. change (1000 <? Z.of_nat 0) with false. cbv iota. mstep.
  set (m1 := m <| nm_queue ::= _ |>).
  assert (nm_queue m1 = [(message, mkXpacket ip port)]) as Hq1 by (unfold m1; simpl; by rewrite Hq).
  unfold thread_turn. mstep. change (nm_thread_destroy m1) with (nm_thread_destroy m). rewrite Hd.
  unfold GetMessage. rewrite step_assoc. mstep. rewrite Hq1, step_assoc. mstep. mstep.
  assert (m1 <| nm_queue := [] |> = m) as -> by (destruct m; simpl in *; by subst).
  by rewrite (step_bind _ _ _ _ _ E).
Qed.

(** What a ping leaves alone. *)
Definition at_rest (m : NatManager) :=
  (nm_queue m, nm_thread_destroy m, (nm_nat_type m, nm_notified m, nm_timer m),
   (nm_handshake m, nm_nat_transport m)).

(** A message of type [type] whose body is [data], in a datagram. *)
Definition carries (type : Z) (data datagram : string) : Prop :=
  exists m, ParseFromString datagram = Some m /\ msg_type m = Some type /\ msg_data m = Some data.

Lemma ping_message_spec t message ip port type data m :
  msg_type message = Some type -> msg_data message = Some data ->
  exists m' s, ping_message t message ip port m = Ok (tt, m') /\ at_rest m' = at_rest m /\
    nm_sent m' = nm_sent m ++ [mkPing t s ip port] /\ carries type data s.
Proof.
  intros Ht Hd. unfold ping_message, SerializeMessage.
  destruct (nw_message_text message) as (s & E & Hne); [unfold is_set; by rewrite Ht|].
  rewrite E, Hne. do 2 eexists. splits; [reflexivity|done|done|].
  exists message. splits; [by apply parse_serialize|done|done].
Qed.

Lemma SendNatDetectRequest_spec m lip lport ip port :
  nm_nat_transport m = Some (lip, lport) ->
  exists m' s data, SendNatDetectRequest ip port m = Ok (tt, m') /\ at_rest m' = at_rest m /\
    nm_sent m' = nm_sent m ++ [mkPing TNat s ip port] /\ carries kKadNatDetectRequest data s /\
    ParseFromString data = Some (mkNatDetectRequest (Some lip) (Some lport)).
Proof.
  intros El. unfold SendNatDetectRequest, nat_envelope, nat_message_id, nat_local.
  rewrite step_assoc. mstep. mstep. rewrite step_assoc. mstep. simpl nm_nat_transport. rewrite El. mstep.
  destruct (nw_request_text (mkNatDetectRequest (Some lip) (Some lport))) as (data & Ed).
  rewrite Ed. cbn [fst snd]. set (m1 := m <| nm_msg_id := _ |>).
  match goal with |- context [ping_message TNat ?msg ip port m1] =>
    destruct (ping_message_spec TNat msg ip port kKadNatDetectRequest data m1 eq_refl eq_refl)
      as (m2 & s & E & Er & Es & Hc) end.
  exists m2, s, data. splits; [exact E|exact Er|exact Es|exact Hc|by apply parse_serialize].
Qed.

(** The answer of a boot node: the node is public when the request came from
    the endpoint the node itself has. *)
Lemma HandleNatDetectRequest_spec m b lip lport ip port bip dport hb :
  ParseFromString (get msg_data m) = Some (mkNatDetectRequest (Some lip) (Some lport)) ->
  nm_nat_transport b = Some (bip, dport) -> is_Some (nm_transport b) -> nm_handshake b = Some hb ->
  let public := bool_decide (ip = lip /\ port = lport) in
  exists b' s data, HandleNatDetectRequest m (mkXpacket ip port) b = Ok (tt, b') /\
    nm_sent b' = nm_sent b ++ [mkPing TMain s ip port] /\ carries kKadNatDetectResponse data s /\
    ParseFromString data =
      Some (mkNatDetectResponse (if public then Some kNatTypePublic else None) (Some dport)) /\
    nm_handshake b' = Some (if public then hb else
      hb <| peers_ ::= <[key_of ip port := mkNatDetectStruct ip port TNat port
                           kKadNatDetectHandshake2Node 0 kDetectCount]> |>).
Proof.
  intros Hp Ent [tr Et] Eh public. unfold HandleNatDetectRequest. cbn [get_from_ip_addr get_from_ip_port].
  rewrite Hp. cbv zeta. unfold nat_local. rewrite step_assoc. mstep. rewrite Ent. mstep.
  match goal with |- context [if ?c then Some kNatTypePublic else None] => assert (c = public) as -> end.
  { unfold public, get. simpl.
    destruct (bool_decide_reflect (ip = lip /\ port = lport)) as [[-> ->]|Hne].
    - by rewrite String.eqb_refl, Z.eqb_refl.
    - apply andb_false_iff. destruct (String.eqb_spec lip ip) as [->|]; [right|by left].
      apply Z.eqb_neq. intros ->. by apply Hne. }
  match goal with |- context [SerializeToString ?r] =>
    destruct (nw_response_text r) as (data & Ed) end.
  rewrite Ed. unfold SerializeMessage.
  match goal with |- context [SerializeToString ?msg] =>
    destruct (nw_message_text msg eq_refl) as (s & Es & Hne); set (rmsg := msg) in * end.
  rewrite Es, Hne. mstep. rewrite Et. mstep. unfold SendPing. mstep. cbn [fst snd].
  assert (carries kKadNatDetectResponse data s) as Hc.
  { exists rmsg. splits; [by apply parse_serialize|done|done]. }
  destruct public; unfold get; cbn [ndres_nat_type default].
  - change (kNatTypePublic =? kNatTypePublic) with true. cbv iota. do 3 eexists.
    splits; [reflexivity|done|exact Hc|by apply parse_serialize|exact Eh].
  - change (dflt =? kNatTypePublic) with false. cbv iota.
    unfold AddDetection, manager, set_manager. rewrite step_assoc. mstep. simpl nm_handshake. rewrite Eh. mstep.
    do 3 eexists. splits; [reflexivity|done|exact Hc|by apply parse_serialize|]. simpl. by rewrite Eh.
Qed.

(** The node's reaction to the answer. *)
Lemma HandleNatDetectResponse_spec m n ip port (public : bool) dport hn :
  ParseFromString (get msg_data m) =
    Some (mkNatDetectResponse (if public then Some kNatTypePublic else None) (Some dport)) ->
  nm_handshake n = Some hn -> nm_nat_type n = kNatTypeUnknown -> 0 <= dport < 2 ^ 16 ->
  exists n', HandleNatDetectResponse m (mkXpacket ip port) n = Ok (tt, n') /\
    if public then nm_nat_type n' = kNatTypePublic /\ nm_notified n' = S (nm_notified n)
    else waiting n -> waiting n' /\
      nm_nat_type n' = kNatTypeUnknown /\ nm_notified n' = nm_notified n /\
      nm_timer n' = Some 1500000 /\
      nm_handshake n' = Some (hn <| peers_ ::= <[key_of ip port := mkNatDetectStruct ip port TNat dport
                                kKadNatDetectHandshake2Boot 10 kDetectCount]> |>).
Proof.
  intros Hp Eh Et Hd. unfold HandleNatDetectResponse. rewrite Hp. destruct public; unfold get; cbn.
  - unfold SetNatTypeAndNotify. rewrite step_assoc. mstep. rewrite Et. cbn.
    eexists. split; [reflexivity|]. done.
  - unfold AddDetection, manager, set_manager. rewrite !step_assoc. mstep. rewrite Eh. mstep. mstep.
    eexists. split; [reflexivity|]. intros [Hq Hw]. simpl. rewrite Eh, u16_id by done. by split.
Qed.

(** The verdict of the first thing that happens to a waiting node. *)
Lemma SetNatTypeAndNotify_spec t m :
  nm_nat_type m = kNatTypeUnknown ->
  exists m', (_ ← SetNatTypeAndNotify t; mret tt) m = Ok (tt, m') /\
    nm_nat_type m' = t /\ nm_notified m' = S (nm_notified m).
Proof.
  intros E. unfold SetNatTypeAndNotify. rewrite step_assoc. mstep. rewrite E. cbn.
  by eexists.
Qed.

(** The first ping of a boot node gives a waiting node its verdict. *)
Lemma boot_pings node boot hb ip port k :
  nm_handshake boot = Some (hb <| peers_ ::= <[key_of ip port := mkNatDetectStruct ip port TNat port
                              kKadNatDetectHandshake2Node 0 kDetectCount]> |>) ->
  sole (key_of ip port) ip port hb -> waiting node -> nm_notified node = k ->
  nm_nat_type node = kNatTypeUnknown ->
  exists boot2 p new, DetectProc boot = Ok (tt, boot2) /\ nm_sent boot2 = nm_sent boot ++ new /\
    p ∈ new /\ to_peer ip port p /\
    forall ip' port', exists node3, receive (pg_data p) ip' port' node = Ok (true, node3) /\
      nm_nat_type node3 = kNatTypeConeNormal /\ nm_notified node3 = S k.
Proof.
  intros Eh Hsole Hw Hk Hu. set (st := mkNatDetectStruct _ _ _ _ _ _ _) in Eh.
  set (h := hb <| peers_ ::= _ |>) in Eh.
  assert (peers_ h !! key_of ip port = Some st) as Hst by apply lookup_insert_eq.
  assert (sole (key_of ip port) ip port h) as Hsole'.
  { intros k' st'. unfold h. simpl. destruct (decide (k' = key_of ip port)) as [->|Hne]; [done|].
    rewrite lookup_insert_ne by done. apply Hsole. }
  destruct (DetectProc_spec _ _ _ boot h Eh Hsole')
    as (boot2 & h2 & new & E & _ & Es & _ & _ & Hc & Hp).
  rewrite Hst in Hc. simpl in Hc. unfold pings_to in Hc.
  rewrite bool_decide_eq_true_2 in Hc by done.
  change (true && pinging st) with true in Hc. cbv iota in Hc. unfold count_to in Hc.
  destruct (filter (to_peer ip port) new) as [|p l] eqn:Ef; [done|].
  assert (p ∈ filter (to_peer ip port) new) as [Hto Hin]%list_elem_of_filter
    by (rewrite Ef; by left).
  exists boot2, p, new. splits; [exact E|exact Es|exact Hin|exact Hto|].
  rewrite Forall_forall in Hp. destruct (Hp p Hin) as (k' & st' & Hk' & (Hip & Hport) & _ & mm & Hmm & Hty).
  assert (k' = key_of ip port) as -> by (destruct Hto; apply (Hsole' k' st'); congruence).
  assert (st' = st) as -> by congruence.
  intros ip' port'.
  destruct (SetNatTypeAndNotify_spec kNatTypeConeNormal node Hu) as (node3 & E3 & ? & ?).
  exists node3. splits; [|done|congruence].
  apply (receive_spec _ ip' port' mm node node3 Hw Hmm). by rewrite dispatch_Handshake2Node.
Qed.

(** C19: one exchange between a node whose NAT type is unknown and a boot node
    that sees the node's request come from the endpoint [sip]:[sport]. When
    that is the node's own local endpoint, the node is told it is public and
    the boot node forgets it. Otherwise the node stays unknown, arms its timer
    of 1.5 seconds and starts, after half a second, to ping the port the boot
    node named; the boot node's next tick pings the node, and that ping makes
    the node cone-normal unless the timer fires first, which makes it
    cone-abnormal. Nothing faults on either side. *)
Theorem nat_detection_verdict node boot hn hb lip lport bip bport sip sport blip dport :
  waiting node -> nm_nat_type node = kNatTypeUnknown -> nm_handshake node = Some hn ->
  nm_nat_transport node = Some (lip, lport) ->
  waiting boot -> is_Some (nm_transport boot) -> nm_handshake boot = Some hb ->
  nm_nat_transport boot = Some (blip, dport) -> 0 <= dport < 2 ^ 16 ->
  sole (key_of sip sport) sip sport hb ->
  exists req res node1 boot1 node2,
    SendNatDetectRequest bip bport node = Ok (tt, node1) /\
    nm_sent node1 = nm_sent node ++ [mkPing TNat req bip bport] /\
    receive req sip sport boot = Ok (true, boot1) /\
    nm_sent boot1 = nm_sent boot ++ [mkPing TMain res sip sport] /\
    receive res bip bport node1 = Ok (true, node2) /\
    if decide (sip = lip /\ sport = lport) then
      nm_nat_type node2 = kNatTypePublic /\ nm_notified node2 = S (nm_notified node) /\
      nm_handshake boot1 = Some hb
    else
      nm_nat_type node2 = kNatTypeUnknown /\ nm_timer node2 = Some 1500000 /\
      nm_handshake node2 = Some (hn <| peers_ ::= <[key_of bip bport :=
        mkNatDetectStruct bip bport TNat dport kKadNatDetectHandshake2Boot 10 kDetectCount]> |>) /\
      (exists boot2 p new, DetectProc boot1 = Ok (tt, boot2) /\ nm_sent boot2 = nm_sent boot1 ++ new /\
         p ∈ new /\ to_peer sip sport p /\
         forall ip port, exists node3, receive (pg_data p) ip port node2 = Ok (true, node3) /\
           nm_nat_type node3 = kNatTypeConeNormal /\ nm_notified node3 = S (nm_notified node)) /\
      (exists node3, OnTimerNatDetectTimeout node2 = Ok (tt, node3) /\
         nm_nat_type node3 = kNatTypeConeAbnormal /\ nm_notified node3 = S (nm_notified node)).
Proof.
  intros Hwn Etn Ehn Eln Hwb Htb Ehb Elb Hd Hsole.
  destruct (SendNatDetectRequest_spec node lip lport bip bport Eln)
    as (node1 & req & body & E1 & Er1 & Es1 & Hc1 & Hb1).
  destruct Hc1 as (msg1 & Hm1 & Ht1 & Hmd1).
  assert (ParseFromString (get msg_data msg1) = Some (mkNatDetectRequest (Some lip) (Some lport))) as Hp1
    by (unfold get; by rewrite Hmd1).
  destruct (HandleNatDetectRequest_spec msg1 boot lip lport sip sport blip dport hb Hp1 Elb Htb Ehb)
    as (boot1 & res & rbody & E2 & Es2 & (msg2 & Hm2 & Ht2 & Hmd2) & Hb2 & Eh2).
  unfold at_rest in Er1. injection Er1 as Eq1 Ed1 Et1 En1 Etm1 Eh1 El1.
  assert (ParseFromString (get msg_data msg2) = Some (mkNatDetectResponse
    (if bool_decide (sip = lip /\ sport = lport) then Some kNatTypePublic else None) (Some dport))) as Hp2
    by (unfold get; by rewrite Hmd2).
  destruct (HandleNatDetectResponse_spec msg2 node1 bip bport _ dport hn Hp2
    ltac:(by rewrite Eh1) ltac:(by rewrite Et1) Hd) as (node2 & E3 & Hend).
  exists req, res, node1, boot1, node2. splits; [exact E1|exact Es1| |exact Es2| |].
  { apply (receive_spec req sip sport msg1 boot boot1 Hwb Hm1). by rewrite dispatch_Request. }
  { apply (receive_spec res bip bport msg2 node1 node2); [|done|by rewrite dispatch_Response].
    destruct Hwn. split; congruence. }
  destruct (decide (sip = lip /\ sport = lport)) as [D|D].
  - rewrite bool_decide_eq_true_2 in Hend, Eh2 by done. destruct Hend as [Et En].
    splits; [done|by rewrite En, En1|done].
  - rewrite bool_decide_eq_false_2 in Hend, Eh2 by done.
    destruct Hend as (Hw2 & Et & En & Etm & Eh).
    { destruct Hwn. split; congruence. }
    splits; [done|done|done| |].
    + apply (boot_pings node2 boot1 hb sip sport); [done|done|done|congruence|done].
    + destruct (SetNatTypeAndNotify_spec kNatTypeConeAbnormal node2 Et) as (node3 & E & ? & En3).
      exists node3. splits; [exact E|done|congruence].
Qed.

End verdict.

(** ** The life cycle *)

Section life_cycle.
Context `{Xbase} `{Wire}.

(** A stopped manager cannot be started again: Stop ends the thread and
    both timers but leaves started_ set, so whatever Start is given it answers
    true, changes nothing, and no message is handled any more. *)
Theorem Stop_Start_dead m h :
  nm_started m = true -> nm_thread m = true -> nm_handshake m = Some h -> nh_started h = true ->
  exists m', NatManager_Stop m = Ok (tt, m') /\
    nm_thread m' = false /\ nm_timer m' = None /\ nm_nat_transport m' = None /\
    (nh_timer <$> nm_handshake m') = Some None /\ thread_turn m' = Ok (false, m') /\
    forall others first boots t nt,
      NatManager_Start others first boots (Some t) (Some nt) m' = Ok (true, m').
Proof.
  intros Hs Ht Eh Hh. unfold NatManager_Stop. mstep. rewrite Hs. cbn [negb].
  unfold ThreadJoin. rewrite step_assoc. mstep. rewrite step_assoc. mstep. simpl nm_thread. rewrite Ht.
  cbn [when]. mstep. unfold NatHandshakeManager.Stop, NatHandshakeManager.manager.
  rewrite !step_assoc. mstep. simpl nm_handshake. rewrite Eh. mstep. rewrite Hh. cbn [negb].
  unfold NatHandshakeManager.set_manager. mstep.
  eexists. splits; [reflexivity|done|done|done|simpl; by rewrite Eh|done|].
  intros others first boots t nt. unfold NatManager_Start. mstep. simpl. by rewrite Hs.
Qed.
End life_cycle.

(** ** Witnesses *)

Section witnesses.
Import Examples.
#[local] Existing Instance countable_wire.
#[local] Existing Instance countable_nat_wire_laws.

(** A started manager whose detection transport is bound to an endpoint. *)
Definition ex_nat (type : Z) (ip : string) (port : Z) : NatManager :=
  mkNatManager true false type 0%nat [] (Some (mkHandshakeManager true ∅ None)) None
    (Some (ip, port)) (Some (ip, port)) false true 7 [] (fun _ => 0).

Definition ex_node : NatManager := ex_nat kNatTypeUnknown "10.0.0.2" 9000.
Definition ex_boot : NatManager := ex_nat kNatTypePublic "1.2.3.4" 9100.

Lemma ex_sole k ip port : sole k ip port (mkHandshakeManager true ∅ None).
Proof. intros k' st E. simpl in E. by rewrite lookup_empty in E. Qed.

Lemma nat_verdict_final_witness : exists m,
  nm_nat_type m = kNatTypeConeAbnormal /\
  (length (nm_queue m) <= 1001)%nat /\ nm_notified m = 1%nat.
Proof.
  assert (rtc nat_step ex_node
    (ex_node <| nm_nat_type := kNatTypeConeAbnormal |> <| nm_notified := 1%nat |>)) as Hr.
  { apply rtc_once. exists unit, OnTimerNatDetectTimeout, tt. split; [constructor|reflexivity]. }
  destruct (nat_verdict_final _ _ Hr ltac:(simpl; lia)) as (Hq & _ & Hn).
  eexists. split; [|split; [exact Hq|exact (Hn eq_refl)]]. reflexivity.
Defined.

Lemma handshake_pings_witness : exists h' new,
  peers_ h' !! "1.2.3.4_9100" = None /\ count_to "1.2.3.4" 9100 new = 40%nat.
Proof.
  destruct (handshake_pings "1.2.3.4" 9100 TNat 9100 kKadNatDetectHandshake2Boot 500 ex_node
    (mkHandshakeManager true ∅ None) 60 eq_refl ltac:(lia) ltac:(apply ex_sole))
    as (m' & h' & new & _ & _ & _ & Hc & Ha & _).
  exists h', new. split; [|exact Hc]. apply eq_None_not_Some. intros Hs%Ha. vm_compute in Hs. lia.
Defined.

(** Behind a NAT: the boot node sees the node at 5.6.7.8:4000. *)
Lemma nat_detection_verdict_witness : exists res node1 boot1 node2,
  nm_sent boot1 = [mkPing TMain res "5.6.7.8" 4000] /\
  receive res "1.2.3.4" 9100 node1 = Ok (true, node2) /\ nm_timer node2 = Some 1500000.
Proof.
  destruct (nat_detection_verdict ex_node ex_boot _ (mkHandshakeManager true ∅ None)
    "10.0.0.2" 9000 "1.2.3.4" 9100 "5.6.7.8" 4000 "1.2.3.4" 9100
    ltac:(done) eq_refl eq_refl eq_refl ltac:(done) ltac:(by eexists) eq_refl eq_refl
    ltac:(lia) ltac:(apply ex_sole))
    as (req & res & node1 & boot1 & node2 & _ & _ & _ & Es & Er & Hv).
  rewrite decide_False in Hv by (intros [? _]; done). destruct Hv as (_ & Ht & _).
  by exists res, node1, boot1, node2.
Defined.

Lemma Stop_Start_dead_witness : exists m',
  NatManager_Stop ex_node = Ok (tt, m') /\ nm_thread m' = false.
Proof.
  destruct (Stop_Start_dead ex_node (mkHandshakeManager true ∅ None) eq_refl eq_refl eq_refl eq_refl)
    as (m' & E & Ht & _).
  by exists m'.
Defined.
End witnesses.
