(* ===== verification/NatSafe.v ===== *)
(** No message crashes a started NatManager: [serves op] says that [op], run on
    a manager whose transports and handshake manager are set, ends without a
    fault and leaves them set. The rules are those of Invariants.v; the tactic
    [serve] applies them. *)

From S2P Require Import Prelude Invariants Externals Messages NodeInfo World NatDetect Frames NatProps.

Section serving.
Context `{Xbase} `{Wire} `{!NatWireLaws}.
#[local] Set Default Proof Using "Type*".

(** A manager after Start and before Stop. *)
Record serving (m : NatManager) : Prop := {
  sv_transport : is_Some (nm_transport m);
  sv_nat_transport : is_Some (nm_nat_transport m);
  sv_handshake : is_Some (nm_handshake m) }.

Notation serves := (always serving).

(** ** Rules *)

Lemma serves_peers f : serves (NatHandshakeManager.set_manager f).
Proof. apply always_modify. intros m [? ? [h E]]. split; [done|done|]. simpl. rewrite E. by eexists. Qed.

Lemma serves_manager : serves NatHandshakeManager.manager.
Proof. apply always_read, sv_handshake. Qed.

Lemma serves_nat_local : serves nat_local.
Proof. apply always_read, sv_nat_transport. Qed.

Lemma serves_transport {A} (f : string * Z -> N A) :
  (forall t, serves (f t)) -> serves (t ← gets nm_transport; t ← from_some NullDeref t; f t).
Proof. apply always_some, sv_transport. Qed.

(** A body that can be serialized. *)
Lemma serves_text {T} `{!Proto T} (r : T) (f : string -> N unit) :
  (exists s, SerializeToString r = Some s) -> (forall s, serves (f s)) ->
  serves (match SerializeToString r with None => raise AssertFailed | Some s => f s end).
Proof. intros [s ->] Hf. apply Hf. Qed.

Lemma serves_message_id : serves nat_message_id.
Proof. by intros m []. Qed.

Lemma serves_ping t data ip port : serves (SendPing t data ip port).
Proof. by intros m []. Qed.

End serving.

Notation serves := (always serving).

Create HintDb serves.
#[export] Hint Resolve always_ret always_gets serves_peers serves_manager serves_nat_local
  serves_message_id serves_ping : serves.

Ltac serve_step :=
  lazymatch goal with
  | |- serves (gets nm_transport ≫= _) => apply serves_transport; intros ?
  | |- serves (_ ≫= _) => apply always_bind; [|intros ?]
  | |- serves (when _ _) => apply always_when
  | |- serves (for_each _ _) => apply always_for_each; intros ?
  | |- serves (modify _) => apply always_modify; by intros ? []
  | |- serves (match ?x with _ => _ end) =>
      first [simple eapply serves_text;
               [first [eapply nw_request_text | eapply nw_response_text | eapply nw_finish_text]
               |intros ?]
            | destruct x]
  | |- serves _ => solve [auto with serves nocore]
  end.
Ltac serve := repeat (cbv zeta; serve_step).

(** ** Operations *)

Section operations.
Context `{Xbase} `{Wire} `{!NatWireLaws}.
#[local] Set Default Proof Using "Type*".

Lemma serves_ping_message t message ip port : serves (ping_message t message ip port).
Proof. unfold ping_message. serve. Qed.
#[local] Hint Resolve serves_ping_message : serves.

Lemma serves_notify t : serves (SetNatTypeAndNotify t).
Proof. unfold SetNatTypeAndNotify. serve. Qed.
#[local] Hint Resolve serves_notify : serves.

Lemma serves_AddDetection ip port t detect_port type delay_ms :
  serves (NatHandshakeManager.AddDetection ip port t detect_port type delay_ms).
Proof. unfold NatHandshakeManager.AddDetection. serve. Qed.

Lemma serves_RemoveDetection ip port : serves (NatHandshakeManager.RemoveDetection ip port).
Proof. unfold NatHandshakeManager.RemoveDetection. serve. Qed.
#[local] Hint Resolve serves_AddDetection serves_RemoveDetection : serves.

Lemma serves_DetectProc : serves NatHandshakeManager.DetectProc.
Proof.
  unfold NatHandshakeManager.DetectProc, NatHandshakeManager.detect_peer,
    NatHandshakeManager.DoHandshake. serve.
Qed.

Lemma serves_SendRequest ip port : serves (SendNatDetectRequest ip port).
Proof. unfold SendNatDetectRequest, nat_envelope. serve. Qed.

Lemma serves_SendFinish ip port : serves (SendNatDetectFinish ip port).
Proof. unfold SendNatDetectFinish, nat_envelope. serve. Qed.
#[local] Hint Resolve serves_SendRequest serves_SendFinish : serves.

Lemma serves_HandleRequest message packet : serves (HandleNatDetectRequest message packet).
Proof. unfold HandleNatDetectRequest. serve. Qed.

Lemma serves_HandleResponse message packet : serves (HandleNatDetectResponse message packet).
Proof. unfold HandleNatDetectResponse. serve. Qed.
#[local] Hint Resolve serves_HandleRequest serves_HandleResponse : serves.

Lemma serves_dispatch message packet : serves (dispatch message packet).
Proof.
  unfold dispatch, HandleNatDetectHandshake2Node, HandleNatDetectHandshake2Boot,
    HandleNatDetectFinish. serve.
Qed.
#[local] Hint Resolve serves_dispatch : serves.

Lemma serves_thread_turn : serves thread_turn.
Proof. unfold thread_turn, GetMessage. serve. Qed.

Lemma serves_ThreadProc n : serves (ThreadProc n).
Proof. induction n as [|n IH]; cbn [ThreadProc]; [apply always_ret|]. serve; auto using serves_thread_turn. Qed.

(** The wait of MultiNatDetect is filled by [others]. *)
Lemma serves_MultiNatDetect others boots : serves others -> serves (MultiNatDetect others boots).
Proof. intros Ho. unfold MultiNatDetect. serve. Qed.

(** ** Every operation *)

Lemma Stop_serving m :
  serving m -> exists m', NatManager_Stop m = Ok (tt, m') /\ (nm_stopped m' = false -> serving m').
Proof.
  intros Hm. destruct (sv_handshake m Hm) as [h Eh].
  unfold NatManager_Stop, ThreadJoin, NatHandshakeManager.Stop, NatHandshakeManager.manager.
  mstep. destruct (nm_started m); cbn [negb]; [|by exists m].
  msteps. destruct (nm_thread _); cbn [when]; msteps; simpl nm_handshake; rewrite Eh; msteps;
    destruct (nh_started h); cbn [negb]; msteps; eexists; by split.
Qed.

(** C22: on a NAT manager that was started and not stopped, no message, timer or
    request of the protocol faults, whatever the message says and in whatever
    state the queue and the detections are; and unless the operation was Stop,
    the next one cannot fault either. *)
Theorem nat_never_faults A (op : N A) m :
  serving m -> nat_operation A op ->
  exists a m', op m = Ok (a, m') /\ (nm_stopped m' = false -> serving m').
Proof.
  intros Hm Hop.
  assert (serves op -> exists a m', op m = Ok (a, m') /\ (nm_stopped m' = false -> serving m')) as Hs.
  { intros Hop'. destruct (wp_elim _ _ _ (Hop' m Hm)) as (a & m' & E & Hm'). by exists a, m'. }
  destruct Hop; [apply Hs..|].
  - unfold PushMessage. serve.
  - apply serves_thread_turn.
  - apply serves_DetectProc.
  - unfold OnTimerNatDetectTimeout. serve.
  - apply serves_SendRequest.
  - apply serves_SendFinish.
  - apply serves_RemoveDetection.
  - destruct (Stop_serving m Hm) as (m' & E & Hm'). by exists tt, m'.
Qed.

(** ** Starting *)

Lemma NatManager_Start_spec others first boots t nt m :
  serves others -> nm_started m = false ->
  exists m', NatManager_Start others first boots (Some t) (Some nt) m = Ok (true, m') /\ serving m'.
Proof.
  intros Ho Es. unfold NatManager_Start, Clear, NatHandshakeManager.Start, NatHandshakeManager.manager.
  mstep. rewrite Es. msteps. simpl nm_handshake. msteps. simpl nh_started. cbv iota.
  unfold NatHandshakeManager.set_manager. msteps. cbn [negb]. msteps.
  match goal with |- context [(when first _ ≫= _) ?m1] =>
    assert (when first (modify (fun m => m <| nm_nat_type := kNatTypePublic |>)) m1 =
      Ok (tt, if first then m1 <| nm_nat_type := kNatTypePublic |> else m1)) as Ew by by destruct first;
    set (m2 := m1) in * end.
  rewrite (step_bind _ _ _ _ _ Ew). msteps.
  match goal with |- context [(MultiNatDetect _ _ ≫= _) ?m1] =>
    assert (serving m1) as Hm by (destruct first; split; by eexists);
    destruct (wp_elim _ _ _ (serves_MultiNatDetect others boots Ho m1 Hm)) as (b & m' & E & Hm') end.
  exists m'. by rewrite (step_bind _ _ _ _ _ E).
Qed.

End operations.

Section witness.
Import Examples.
#[local] Existing Instance countable_wire.
#[local] Existing Instance countable_nat_wire_laws.

(** A started manager whose queue holds a request that cannot be parsed. *)
Definition ex_serving : NatManager :=
  (NatManager_new 0 (fun _ => 0))
    <| nm_started := true |> <| nm_nat_type := kNatTypeUnknown |>
    <| nm_transport := Some ("10.0.0.1"%string, 9000) |>
    <| nm_nat_transport := Some ("10.0.0.1"%string, 9001) |>
    <| nm_handshake := Some (mkHandshakeManager true ∅ None) |>
    <| nm_queue := [(RoutingMessage_empty <| msg_type := Some kKadNatDetectRequest |>
                       <| msg_data := Some "junk"%string |>, mkXpacket "10.0.0.2" 7000)] |>.

Lemma nat_never_faults_witness :
  serving ex_serving /\
  exists a m', thread_turn ex_serving = Ok (a, m') /\ (nm_stopped m' = false -> serving m').
Proof.
  assert (serving ex_serving) as Hm by (split; by eexists).
  split; [exact Hm|]. exact (nat_never_faults bool thread_turn ex_serving Hm no_turn).
Defined.
End witness.
