(* ===== verification/NatThreads.v ===== *)
(** NatManager::Stop against the manager's own thread: Stop waits, while it
    holds mutex_, for a thread whose handlers take mutex_. The threads are a
    step relation whose steps are the operations of NatDetect.v, cut where a
    thread can be made to wait and between the test of thread_destroy_ and the
    message taken from the queue; Stop can return exactly when the thread is
    not bound to tell a verdict before it looks at thread_destroy_ again. *)

From S2P Require Import Prelude Invariants Externals Messages NodeInfo World Frames NatDetect NatProps.

(** ** The threads *)

Section threads.
Context `{Xbase} `{Wire}.

(** Whether the handler of a message calls SetNatTypeAndNotify, which takes
    mutex_; the other handlers take only the locks of the queue and of the
    handshake manager. *)
Definition takes_mutex (message : RoutingMessage) : bool :=
  let type := get msg_type message in
  if type =? kKadNatDetectRequest then false
  else if type =? kKadNatDetectResponse then
    match ParseFromString (T := NatDetectResponse) (get msg_data message) with
    | None => false
    | Some detect_res => get ndres_nat_type detect_res =? kNatTypePublic
    end
  else type =? kKadNatDetectHandshake2Node.

(** A call of Stop: before it, in thread_->join() with mutex_ held, returned. *)
Inductive stopper := Calling | Joining | Returned.

(** ThreadProc: at the loop's condition, inside GetMessage, with a message
    taken from the queue, left. *)
Inductive nat_thread :=
  | Looping
  | Inside
  | Holding (message : RoutingMessage) (packet : xpacket)
  | Left.

(** Stop up to join(). *)
Definition stop_begin : N stopper :=
  started ← gets nm_started;
  if negb started then mret Returned
  else
    _ ← modify (fun m => m <| nm_timer := None |>);
    th ← gets nm_thread;
    if th : bool then
      _ ← modify (fun m => m <| nm_thread_destroy := true |>); mret Joining
    else
      _ ← NatHandshakeManager.Stop;
      _ ← modify (fun m => m <| nm_nat_transport := None |> <| nm_stopped := true |>);
      mret Returned.

(** Stop after join(). *)
Definition stop_end : N unit :=
  _ ← modify (fun m => m <| nm_thread := false |>);
  _ ← NatHandshakeManager.Stop;
  modify (fun m => m <| nm_nat_transport := None |> <| nm_stopped := true |>).

Definition threads : Type := stopper * nat_thread * NatManager.

(** [mutex_] is held by the thread in join(); the others take and release it
    within one step. Inside GetMessage the thread waits up to 500 ms for the
    queue to be non-empty; it does not look at thread_destroy_ there. *)
Inductive nat_threads_step : threads -> threads -> Prop :=
  | nt_stop_begin t m s m' :
      stop_begin m = Ok (s, m') -> nat_threads_step (Calling, t, m) (s, t, m')
  | nt_stop_end m m' :
      stop_end m = Ok (tt, m') -> nat_threads_step (Joining, Left, m) (Returned, Left, m')
  | nt_leave s m :
      nm_thread_destroy m = true -> nat_threads_step (s, Looping, m) (s, Left, m)
  | nt_enter s m :
      nm_thread_destroy m = false -> nat_threads_step (s, Looping, m) (s, Inside, m)
  | nt_wait s m m' :
      GetMessage m = Ok (None, m') -> nat_threads_step (s, Inside, m) (s, Looping, m')
  | nt_take s m m' message packet :
      GetMessage m = Ok (Some (message, packet), m') ->
      nat_threads_step (s, Inside, m) (s, Holding message packet, m')
  | nt_handle s m m' message packet :
      (takes_mutex message = true -> s <> Joining) -> dispatch message packet m = Ok (tt, m') ->
      nat_threads_step (s, Holding message packet, m) (s, Looping, m')
  | nt_push s t m m' message packet :
      PushMessage message packet m = Ok (tt, m') -> nat_threads_step (s, t, m) (s, t, m')
  | nt_tick s t m m' :
      NatHandshakeManager.DetectProc m = Ok (tt, m') -> nat_threads_step (s, t, m) (s, t, m')
  | nt_timeout s t m m' :
      s <> Joining -> OnTimerNatDetectTimeout m = Ok (tt, m') ->
      nat_threads_step (s, t, m) (s, t, m').

(** ** The cuts *)

(** The two halves of Stop are Stop. *)
Lemma stop_halves m :
  (s ← stop_begin; match s with Joining => stop_end | _ => mret tt end) m = NatManager_Stop m.
Proof.
  destruct m as [[] sd nt nn q h ti tr ntr de [] mi se sr]; [reflexivity| |reflexivity..].
  unfold stop_begin, NatManager_Stop, ThreadJoin, modify, gets, when. rewrite !bind_unfold. cbn.
  by destruct h as [[[] ? ?]|].
Qed.

(** What [takes_mutex] says of the handlers. *)
Lemma takes_mutex_spec message packet m :
  takes_mutex message = true ->
  exists t, dispatch message packet m = (_ ← SetNatTypeAndNotify t; mret tt) m.
Proof.
  unfold takes_mutex, dispatch, HandleNatDetectResponse, HandleNatDetectHandshake2Node.
  repeat case_match; try done; intros _; by eexists.
Qed.

(** ** A thread about to tell a verdict is not joined *)

(** The next message the thread handles takes mutex_, whatever is set or
    queued meanwhile. *)
Definition telling (t : nat_thread) (m : NatManager) : Prop :=
  match t with
  | Holding message _ => takes_mutex message = true
  | Inside => match nm_queue m with (message, _) :: _ => takes_mutex message = true | [] => False end
  | Looping | Left => False
  end.

(** A manager that is being stopped. *)
Record stopping (m : NatManager) : Prop := {
  sp_transport : is_Some (nm_transport m);
  sp_nat_transport : is_Some (nm_nat_transport m);
  sp_handshake : is_Some (nm_handshake m);
  sp_destroy : nm_thread_destroy m = true }.

Lemma GetMessage_cases r m m' :
  GetMessage m = Ok (r, m') ->
  match nm_queue m with
  | [] => r = None /\ m' = m
  | front :: _ => r = Some front /\ (stopping m -> stopping m')
  end.
Proof.
  unfold GetMessage. rewrite step_gets. case_match; intros [= <- <-]; [done|].
  split; [done|]. by intros [].
Qed.

Lemma PushMessage_keeps message packet m m' :
  PushMessage message packet m = Ok (tt, m') ->
  (exists l, nm_queue m' = nm_queue m ++ l) /\ (stopping m -> stopping m').
Proof.
  unfold PushMessage. rewrite step_gets. case_match; intros [= <-].
  - split; [exists []; by rewrite app_nil_r|done].
  - split; [by eexists|]. by intros [].
Qed.

(** What a tick of the handshake timer leaves alone. *)
Definition tick_keeps (m m' : NatManager) : Prop :=
  nm_queue m' = nm_queue m /\ (stopping m -> stopping m').

#[local] Instance tick_keeps_preorder : PreOrder tick_keeps.
Proof.
  split; [by intros m; split|]. intros m1 m2 m3 [E1 S1] [E2 S2]. split; [congruence|auto].
Qed.

Lemma peers_keep f : frames tick_keeps (NatHandshakeManager.set_manager f).
Proof.
  unfold NatHandshakeManager.set_manager. intros m. split; [done|]. intros [? ? [h E] ?].
  split; try done. exists (f h). change (f <$> nm_handshake m = Some (f h)). by rewrite E.
Qed.

Lemma ping_keeps t data ip port : frames tick_keeps (SendPing t data ip port).
Proof. intros m. split; [done|]. by intros []. Qed.
#[local] Hint Resolve peers_keep ping_keeps : frame.

Lemma tick_kept : frames tick_keeps NatHandshakeManager.DetectProc.
Proof.
  unfold NatHandshakeManager.DetectProc, NatHandshakeManager.manager,
    NatHandshakeManager.detect_peer, NatHandshakeManager.DoHandshake, nat_message_id.
  frame. split; [done|]. by intros [].
Qed.

(** A push leaves the next message what it is, and so does a tick. *)
Lemma telling_keeps t m m' l :
  nm_queue m' = nm_queue m ++ l -> telling t m -> telling t m'.
Proof. intros E. destruct t; simpl; try done. rewrite E. by destruct (nm_queue m) as [|[]]. Qed.

Lemma deadlock_step t m c :
  telling t m -> nat_threads_step (Joining, t, m) c ->
  exists t' m', c = (Joining, t', m') /\ telling t' m'.
Proof.
  intros Ht Hstep. inversion Hstep; subst; try contradiction.
  - match goal with E : GetMessage _ = _ |- _ => apply GetMessage_cases in E end.
    simpl in Ht. destruct (nm_queue m) as [|[]]; naive_solver.
  - match goal with E : GetMessage _ = _ |- _ => apply GetMessage_cases in E end.
    simpl in Ht. destruct (nm_queue m) as [|[message0 packet0] rest]; [done|].
    match goal with E : _ /\ _ |- _ => destruct E as [[= -> ->] _] end. by do 2 eexists.
  - naive_solver.
  - match goal with E : PushMessage _ _ _ = _ |- _ => apply PushMessage_keeps in E as [[l E] _] end.
    do 2 eexists. split; [done|]. by eapply telling_keeps.
  - match goal with E : NatHandshakeManager.DetectProc _ = _ |- _ =>
      destruct (wlp_elim _ _ _ _ _ (tick_kept m) E) as [E' _] end.
    do 2 eexists. split; [done|]. apply (telling_keeps t m _ []); [by rewrite app_nil_r|done].
Qed.

Lemma deadlock_steps t m c :
  telling t m -> rtc nat_threads_step (Joining, t, m) c ->
  exists t' m', c = (Joining, t', m') /\ telling t' m'.
Proof.
  intros Ht Hs. remember (Joining, t, m) as c0 eqn:E. revert t m Ht E.
  induction Hs as [c|c0 c1 c Hstep _ IH]; intros t m Ht ->; [by exists t, m|].
  destruct (deadlock_step t m c1 Ht Hstep) as (t1 & m1 & -> & Ht1). by eapply IH.
Qed.

(** ** Every other thread is *)

Context `{!XbaseLaws} `{!NatWireLaws}.
#[local] Set Default Proof Using "Type*".

Notation unstopped := (always stopping).

Lemma unstopped_manager : unstopped NatHandshakeManager.manager.
Proof. apply always_read, sp_handshake. Qed.

Lemma unstopped_nat_local : unstopped nat_local.
Proof. apply always_read, sp_nat_transport. Qed.

Lemma unstopped_transport {A} (f : string * Z -> N A) :
  (forall t, unstopped (f t)) -> unstopped (t ← gets nm_transport; t ← from_some NullDeref t; f t).
Proof. apply always_some, sp_transport. Qed.

Lemma unstopped_peers f : unstopped (NatHandshakeManager.set_manager f).
Proof.
  apply always_modify. intros m [? ? [h E] ?]. split; try done.
  exists (f h). change (f <$> nm_handshake m = Some (f h)). by rewrite E.
Qed.

Lemma unstopped_ping t data ip port : unstopped (SendPing t data ip port).
Proof. intros m []. by split. Qed.

Lemma unstopped_AddDetection ip port t dp type delay :
  unstopped (NatHandshakeManager.AddDetection ip port t dp type delay).
Proof.
  apply always_bind; [apply unstopped_manager|]. intros _. apply unstopped_peers.
Qed.

Lemma unstopped_Request message packet : unstopped (HandleNatDetectRequest message packet).
Proof.
  unfold HandleNatDetectRequest. destruct (ParseFromString _); [|apply always_ret].
  apply always_bind; [apply unstopped_nat_local|]. intros [ip port].
  match goal with |- context [SerializeToString ?r] =>
    destruct (nw_response_text r) as (s & ->) end.
  destruct (str_empty _); [apply always_ret|].
  apply unstopped_transport. intros t. apply always_bind; [apply unstopped_ping|]. intros _.
  destruct (_ =? _); [apply always_ret|apply unstopped_AddDetection].
Qed.

(** The handlers that leave mutex_ alone end. *)
Lemma unstopped_dispatch message packet :
  takes_mutex message = false -> unstopped (dispatch message packet).
Proof.
  unfold takes_mutex, dispatch. intros Ht.
  destruct (_ =? kKadNatDetectRequest); [apply unstopped_Request|].
  destruct (_ =? kKadNatDetectResponse).
  { unfold HandleNatDetectResponse. destruct (ParseFromString _) as [r|]; [|apply always_ret].
    rewrite Ht. apply always_bind; [apply unstopped_AddDetection|]. intros _.
    apply always_modify. by intros m []. }
  rewrite Ht. destruct (_ =? kKadNatDetectHandshake2Boot); [apply always_ret|].
  destruct (_ =? kKadNatDetectFinish); [|apply always_ret].
  apply always_bind; [apply unstopped_manager|]. intros _. apply unstopped_peers.
Qed.

Lemma unstopped_end m : stopping m -> exists m', stop_end m = Ok (tt, m').
Proof.
  intros [_ _ [h E] _]. unfold stop_end, NatHandshakeManager.Stop, NatHandshakeManager.manager. mstep.
  rewrite !step_assoc. mstep. cbn [nm_handshake upd]. rewrite E. mstep.
  destruct (nh_started h); cbn [negb]; [|by eexists].
  unfold NatHandshakeManager.set_manager. mstep. by eexists.
Qed.

Lemma Looping_returns m :
  stopping m -> exists m', rtc nat_threads_step (Joining, Looping, m) (Returned, Left, m').
Proof.
  intros Hm. destruct (unstopped_end m Hm) as [m' E]. exists m'.
  apply (rtc_l _ _ (Joining, Left, m)); [by apply nt_leave, sp_destroy|].
  by apply rtc_once, nt_stop_end.
Qed.

Lemma Holding_returns m message packet :
  stopping m -> takes_mutex message = false ->
  exists m', rtc nat_threads_step (Joining, Holding message packet, m) (Returned, Left, m').
Proof.
  intros Hm Ht.
  destruct (wp_elim _ _ _ (unstopped_dispatch message packet Ht m Hm)) as ([] & m1 & E & Hm1).
  destruct (Looping_returns m1 Hm1) as [m' Hs]. exists m'.
  apply (rtc_l _ _ (Joining, Looping, m1)); [|done]. apply nt_handle; [by rewrite Ht|done].
Qed.

(** Unless it is bound to tell a verdict, the thread leaves. *)
Lemma untold_returns t m :
  stopping m -> ~ telling t m ->
  exists m', rtc nat_threads_step (Joining, t, m) (Returned, Left, m').
Proof.
  intros Hm Ht. destruct t as [| |message packet|].
  - by apply Looping_returns.
  - simpl in Ht. destruct (nm_queue m) as [|[message packet] rest] eqn:Eq.
    + destruct (Looping_returns m Hm) as [m' Hs]. exists m'.
      apply (rtc_l _ _ (Joining, Looping, m)); [|done]. apply nt_wait. unfold GetMessage.
      rewrite step_gets. by rewrite Eq.
    + assert (GetMessage m = Ok (Some (message, packet), m <| nm_queue := rest |>)) as E
        by (unfold GetMessage; rewrite step_gets; by rewrite Eq).
      destruct (Holding_returns (m <| nm_queue := rest |>) message packet) as [m' Hs].
      { by destruct Hm. }
      { by apply not_true_is_false. }
      exists m'. apply (rtc_l _ _ (Joining, Holding message packet, m <| nm_queue := rest |>)); [|done].
      by apply nt_take.
  - by apply Holding_returns, not_true_is_false.
  - destruct (unstopped_end m Hm) as [m' E]. exists m'. by apply rtc_once, nt_stop_end.
Qed.

(** No message can make the thread tell a verdict any more. *)
Definition settled (t : nat_thread) (m : NatManager) : Prop :=
  ~ telling t m /\ ~ (t = Inside /\ nm_queue m = []).

Lemma settled_step t m t' m' :
  stopping m -> settled t m -> nat_threads_step (Joining, t, m) (Joining, t', m') ->
  stopping m' /\ settled t' m'.
Proof.
  intros Hm [Ht Hi] Hstep. inversion Hstep; subst; try done.
  - split; [done|]. by split; [|intros []].
  - exfalso. pose proof (sp_destroy _ Hm). congruence.
  - match goal with E : GetMessage _ = _ |- _ => apply GetMessage_cases in E end.
    destruct (nm_queue m) as [|[]] eqn:Eq; [by destruct Hi|naive_solver].
  - match goal with E : GetMessage _ = _ |- _ => apply GetMessage_cases in E end.
    destruct (nm_queue m) as [|[message0 packet0] rest] eqn:Eq; [by destruct Hi|].
    match goal with E : _ /\ _ |- _ => destruct E as [[= -> ->] Hk] end.
    split; [auto|]. split; [|by intros []]. simpl in *. by rewrite Eq in Ht.
  - match goal with E : takes_mutex _ = true -> _ |- _ => rename E into Hf end.
    assert (takes_mutex message = false) as Hf' by (apply not_true_is_false; intros Hx; by apply (Hf Hx)).
    split; [|split; [intros []|by intros []]].
    eapply (always_after (I := stopping)); [by apply (unstopped_dispatch message packet)|exact Hm|eassumption].
  - match goal with E : PushMessage _ _ _ = _ |- _ => destruct (PushMessage_keeps _ _ _ _ E) as [[l El] Hk] end.
    split; [auto|]. unfold settled, telling in *. rewrite El.
    destruct t'; [naive_solver| |naive_solver..].
    destruct (nm_queue m) as [|[]]; [by destruct Hi|]. split; [done|]. by intros [].
  - match goal with E : NatHandshakeManager.DetectProc _ = _ |- _ =>
      destruct (wlp_elim _ _ _ _ _ (tick_kept m) E) as [E' Hk] end.
    split; [auto|]. unfold settled, telling. by rewrite E'.
Qed.

Lemma Returned_stays t m c :
  rtc nat_threads_step (Returned, t, m) c -> c.1.1 = Returned.
Proof.
  intros Hs. remember (Returned, t, m) as c0 eqn:E. revert t m E.
  induction Hs as [c|c0 c1 c Hstep _ IH]; intros t m ->; [done|].
  by inversion Hstep; subst; eapply IH.
Qed.

Lemma settled_steps t m t' m' :
  stopping m -> settled t m -> rtc nat_threads_step (Joining, t, m) (Joining, t', m') ->
  stopping m' /\ settled t' m'.
Proof.
  intros Hm Ht Hs. remember (Joining, t, m) as c0 eqn:E. remember (Joining, t', m') as c' eqn:E'.
  revert t m Hm Ht E. induction Hs as [c|c0 c1 c Hstep Hs IH]; intros t m Hm Ht ->.
  { by injection E' as -> ->. }
  destruct c1 as [[s1 t1] m1].
  assert (s1 = Joining \/ s1 = Returned) as [->| ->] by (inversion Hstep; auto).
  - destruct (settled_step t m t1 m1 Hm Ht Hstep). by eapply IH.
  - apply Returned_stays in Hs. by rewrite E' in Hs.
Qed.

(** C21: NatManager::Stop waits for the manager's thread while it holds mutex_.
    When Stop has begun to wait, some continuation lets it return exactly when
    the thread is not bound to tell a verdict: it does not hold a message
    whose handler takes mutex_ (a handshake from the boot node, or the answer
    that this node is public), nor is it inside GetMessage with such a message
    first in the queue; otherwise neither thread goes on, whatever messages
    and timers follow. Stop can return from every later moment too, whatever
    arrives meanwhile, exactly when besides the thread is not inside
    GetMessage on an empty queue: there a message that arrives after Stop
    began can still block both for ever. *)
Theorem Stop_returns_iff t m :
  stopping m ->
  ((exists t' m', rtc nat_threads_step (Joining, t, m) (Returned, t', m')) <-> ~ telling t m) /\
  ((forall t1 m1, rtc nat_threads_step (Joining, t, m) (Joining, t1, m1) ->
      exists t' m', rtc nat_threads_step (Joining, t1, m1) (Returned, t', m')) <->
   ~ telling t m /\ ~ (t = Inside /\ nm_queue m = [])).
Proof.
  intros Hm.
  assert (forall t1 m1, (exists t' m', rtc nat_threads_step (Joining, t1, m1) (Returned, t', m')) ->
    ~ telling t1 m1) as Hdead.
  { intros t1 m1 (t' & m' & Hs) Ht. by destruct (deadlock_steps _ _ _ Ht Hs) as (? & ? & [=] & _). }
  split; split.
  - apply Hdead.
  - intros Ht. destruct (untold_returns t m Hm Ht) as [m' Hs]. by exists Left, m'.
  - intros Hall. split; [by apply Hdead, Hall|]. intros [-> Eq].
    set (message := RoutingMessage_empty <| msg_type := Some kKadNatDetectHandshake2Node |>).
    set (packet := mkXpacket "" 0).
    apply (Hdead Inside (m <| nm_queue ::= fun q => q ++ [(message, packet)] |>)).
    + apply Hall, rtc_once, (nt_push _ _ _ _ message packet). unfold PushMessage. rewrite step_gets.
      by rewrite Eq.
    + simpl. rewrite Eq. simpl. unfold takes_mutex, message, get. simpl.
      by rewrite (types_differ 2 0), (types_differ 2 1), Z.eqb_refl.
  - intros Ht t1 m1 Hs. destruct (settled_steps t m t1 m1 Hm Ht Hs) as [Hm1 [Ht1 _]].
    destruct (untold_returns t1 m1 Hm1 Ht1) as [m' Hs']. by exists Left, m'.
Qed.
End threads.

Section witness.
Import Examples.
#[local] Existing Instance countable_wire.
#[local] Existing Instance countable_nat_wire_laws.

(** Stop is called while the thread holds a handshake of the boot node, or is
    inside GetMessage when one is queued: it never returns. *)
Definition ex_boot_handshake : RoutingMessage :=
  RoutingMessage_empty <| msg_type := Some kKadNatDetectHandshake2Node |>.

Definition ex_boot_packet : xpacket := mkXpacket "1.2.3.4" 9100.

Definition ex_stopping : NatManager := ex_node <| nm_thread_destroy := true |>.

Definition ex_queued : NatManager :=
  ex_stopping <| nm_queue := [(ex_boot_handshake, ex_boot_packet)] |>.

Lemma Stop_returns_iff_witness :
  stop_begin ex_node = Ok (Joining, ex_stopping) /\
  (exists t m, rtc nat_threads_step (Joining, Looping, ex_stopping) (Returned, t, m)) /\
  (~ exists t m, rtc nat_threads_step (Joining, Holding ex_boot_handshake ex_boot_packet, ex_stopping)
      (Returned, t, m)) /\
  ~ exists t m, rtc nat_threads_step (Joining, Inside, ex_queued) (Returned, t, m).
Proof.
  assert (stopping ex_stopping) as Hs by (split; try eexists; reflexivity).
  assert (stopping ex_queued) as Hq by (split; try eexists; reflexivity).
  split; [reflexivity|]. split; [|split].
  - apply (proj1 (Stop_returns_iff Looping ex_stopping Hs)). exact id.
  - intros He. by apply (proj1 (Stop_returns_iff (Holding ex_boot_handshake ex_boot_packet) ex_stopping Hs)) in He.
  - intros He. by apply (proj1 (Stop_returns_iff Inside ex_queued Hq)) in He.
Defined.
End witness.
