(* ===== verification/Gossip.v ===== *)
(** The gossip layer: src/rumor_filter.cc, src/rumor_message_manager.cc and
    src/rumor_handler.cc. The containers both managers inherit from are library
    code (ContainTemplate, ManagerTemplate). The handler runs on the routing
    node it was given. *)

From S2P Require Import Prelude Externals Messages Distance Sorting NodeInfo LocalNodeInfo World.
From S2P Require Import RoutingTable Sending RoutingHandlers.

(** ** RumorFilter *)

Section rumor_filter.
Context `{ContainTemplate}.

(** Whether the message must be dropped, and the new filter. *)
Definition FiltMessage (message : RoutingMessage) (s : contain) : bool * contain :=
  let gossip := get msg_gossip message in
  if negb (is_set gp_msg_hash gossip) then (true, s)
  else if ct_FindData (get gp_msg_hash gossip) s then (true, s)
  else
    let '(added, s) := ct_AddData (get gp_msg_hash gossip) s in
    (negb added, s).
End rumor_filter.

(** ** RumorMessageManager *)

Section rumor_messages.
Context `{ManagerTemplate RoutingMessage}.

Definition AddMessage (message : RoutingMessage) (m : manager)
    : bool * manager :=
  mt_AddData (get msg_type message) message m.

Definition RemoveMessage (message_type : Z) (m : manager)
    : manager := mt_DeleteKey message_type m.

Definition SearchMessage (message_type : Z) (m : manager)
    : option RoutingMessage := mt_FindData message_type m.

Definition GetAllMessages (m : manager) : list RoutingMessage := mt_GetAllData m.

Definition GetMessageCount (m : manager) : Z := mt_Count m.
End rumor_messages.

(** ** RumorHandler *)

Section rumor_handler.
Context `{Xbase} `{KadKey} `{Xip} `{PartialSort} `{Wire} `{Bloom} `{ManagerTemplate RoutingMessage}.

(** [rh_table]: whether a routing table was given; [rh_messages] is the
    message manager, which may be absent. *)
Record RumorHandler := mkRumorHandler {
  rh_inited : bool;
  rh_just_root : bool;
  rh_table : bool;
  rh_messages : option manager }.

#[global] Instance RumorHandler_eta : Eta RumorHandler := fun r =>
  mkRumorHandler (rh_inited r) (rh_just_root r) (rh_table r) (rh_messages r).

Definition RumorHandler_new (just_root : bool) : RumorHandler :=
  mkRumorHandler false just_root false (Some mt_empty).

(** [table]: whether the pointer handed over is set. *)
Definition RumorHandler_Init (table : bool) (r : RumorHandler) : bool * RumorHandler :=
  if rh_inited r then (true, r)
  else if negb table then (false, r)
  else (true, r <| rh_table := true |> <| rh_inited := true |>).

Definition RumorHandler_UnInit (r : RumorHandler) : bool * RumorHandler :=
  (true, r <| rh_table := false |> <| rh_inited := false |>).

Definition AddRumorMessage (message : RoutingMessage) (r : RumorHandler) : bool * RumorHandler :=
  match rh_messages r with
  | None => (false, r)
  | Some m =>
      let '(added, m) := AddMessage message m in
      (added, r <| rh_messages := Some m |>)
  end.

Definition RemoveRumorMessage (message_type : Z) (r : RumorHandler) : outcome RumorHandler :=
  match rh_messages r with
  | None => Fault NullDeref
  | Some m => Ok (r <| rh_messages := Some (RemoveMessage message_type m) |>)
  end.

Definition FindRumorMessage (message_type : Z) (r : RumorHandler)
    : outcome (option RoutingMessage) :=
  match rh_messages r with
  | None => Fault NullDeref
  | Some m => Ok (SearchMessage message_type m)
  end.

Definition GetAllRumorMessage (r : RumorHandler) : outcome (list RoutingMessage) :=
  match rh_messages r with
  | None => Fault NullDeref
  | Some m => Ok (GetAllMessages m)
  end.

(** The loop of GetAllNeighborNodes when only root nodes count: one node per
    xid, with a root xid. *)
Fixpoint root_neighbors (w : World) (nodes : list ptr) (getted_nodes : gset string) : list ptr :=
  match nodes with
  | [] => []
  | p :: nodes' =>
      let x := xid (obj_of w p) in
      if str_empty x then root_neighbors w nodes' getted_nodes
      else if negb (key_xnetwork_id (GetKadmliaKey_str x) =? kRoot)
      then root_neighbors w nodes' getted_nodes
      else if decide (x ∈ getted_nodes) then root_neighbors w nodes' getted_nodes
      else p :: root_neighbors w nodes' ({[ x ]} ∪ getted_nodes)
  end.

(** The new value of [all_neighbors], which starts empty at every caller. *)
Definition GetAllNeighborNodes (r : RumorHandler) : M (list ptr) :=
  if negb (rh_table r) then raise NullDeref
  else
    lp ← gets local_node_ptr_;
    match lp with
    | None => mret []
    | Some _ =>
        id ← local_id;
        l ← nodes;
        if negb (rh_just_root r) then mret l
        else w ← gets (fun w => w); mret (root_neighbors w l ∅)
    end.

(** gossip::RumorIdentity(id, node).ToString() *)
Definition rumor_key (id : Z) (node : string) : string :=
  MessageIdentity_ToString (mkMessageIdentity id node).

(** The filter a message carries, or a new one. *)
Definition carried_filter (message : RoutingMessage) : Uint64BloomFilter :=
  match msg_bloomfilter message with
  | [] => bf_new kFindNodesBloomfilterBitSize kFindNodesBloomfilterHashNum
  | vec => bf_of_vec vec kFindNodesBloomfilterHashNum
  end.

(** Whether the second loop of SpreadNeighbors sends to a node. *)
Definition spread_to (send_message : RoutingMessage) (old_bloomfilter : Uint64BloomFilter)
    (n : NodeInfo) : bool :=
  negb ((get msg_src_node_id send_message =? xid n)%string ||
        (get msg_src_node_id send_message =? node_id n)%string) &&
  negb (str_empty (xid n)) &&
  negb (bf_Contain old_bloomfilter (rumor_key (get msg_id send_message) (xid n))).

(** SpreadNeighbors(message, neighbors). The function starts with
    assert(false): unless assertions are compiled out ([ndebug]) it ends the
    program. [SendData] writes the version into [send_message] once. *)
Definition SpreadNeighbors (ndebug : bool) (r : RumorHandler) (message : RoutingMessage)
    (neighbors : list ptr) : M RoutingMessage :=
  if negb ndebug then raise AssertFailed
  else
    let message := message <| msg_broadcast := Some true |> in
    if (length neighbors =? 0)%nat then mret message
    else if str_empty (get msg_src_node_id message) then mret message
    else if negb (rh_table r) then raise NullDeref
    else
      lp ← gets local_node_ptr_;
      match lp with
      | None => mret message
      | Some _ =>
          let old_bloomfilter := carried_filter message in
          x ← gxid;
          w ← gets (fun w => w);
          let mid := get msg_id message in
          let new_bloomfilter := bf_Add (rumor_key mid x) old_bloomfilter in
          let new_bloomfilter :=
            foldl (fun f p => bf_Add (rumor_key mid (xid (obj_of w p))) f)
              new_bloomfilter neighbors in
          let send_message := message <| msg_bloomfilter := bf_Uint64Vector new_bloomfilter |> in
          _ ← for_each neighbors (fun p =>
                n ← obj p;
                when (spread_to send_message old_bloomfilter n)
                  (_ ← SendData send_message (public_ip n) (public_port n); mret tt));
          mret message
      end.

Definition SpreadNeighborsRapid (ndebug : bool) (r : RumorHandler) (message : RoutingMessage)
    : M RoutingMessage :=
  all_neighbors ← GetAllNeighborNodes r;
  SpreadNeighbors ndebug r message all_neighbors.

Definition SpreadNeighborsSelfMessage (ndebug : bool) (r : RumorHandler) : M unit :=
  m ← from_some NullDeref (rh_messages r);
  if 0 =? GetMessageCount m then mret tt
  else
    all_neighbors ← GetAllNeighborNodes r;
    for_each (GetAllMessages m) (fun message =>
      _ ← SpreadNeighbors ndebug r message all_neighbors; mret tt).

Definition RumorHandler_SendToClosestNode (r : RumorHandler) (in_message : RoutingMessage)
    : M bool :=
  if negb (rh_table r) then mret false
  else if str_empty (get msg_src_node_id in_message) then mret false
  else _ ← SendToClosestNode in_message; mret true.

(** RumorHandler::LocalNodeInfo(). *)
Definition RumorHandler_LocalNodeInfo (r : RumorHandler) : M (option LocalNodeInfo) :=
  if negb (rh_table r) then mret None else gets local_node_ptr_.

End rumor_handler.
