(* ===== verification/GossipProps.v ===== *)
(** Which neighbours a gossiped message is sent to, and that nobody who receives
    it sends it to one of them again. *)

From S2P Require Import Prelude Externals Messages Distance Sorting NodeInfo LocalNodeInfo.
From S2P Require Import ClientNodes BootstrapCache World RoutingTable TableFacts TableProps.
From S2P Require Import Sending SendProps RoutingHandlers HandlerProps Gossip.

Section spreading.
Context `{Xbase} `{!XbaseLaws} `{KadKey} `{Xip} `{PartialSort} `{!PartialSortLaws} `{Wire}
  `{Bloom} `{!BloomLaws} `{ManagerTemplate RoutingMessage}.
#[local] Set Default Proof Using "Type*".
Implicit Types (w : World) (p : ptr).

(** A filter read back from the words of one that was built on the filter of a
    message says what that one says. *)
Lemma carried_filter_rebuilt message received xs y :
  msg_bloomfilter received = bf_Uint64Vector (foldr bf_Add (carried_filter message) xs) ->
  y ∈ xs -> bf_Contain (carried_filter received) y = true.
Proof.
  intros Ew Hy. unfold carried_filter at 1. rewrite Ew.
  destruct (bf_Uint64Vector (foldr bf_Add (carried_filter message) xs)) as [|z zs] eqn:E.
  - exfalso. unfold carried_filter in E. destruct (msg_bloomfilter message) as [|v vs].
    + by apply (bf_words_nonempty kFindNodesBloomfilterBitSize kFindNodesBloomfilterHashNum xs) in E.
    + by apply (bf_words_nonempty_vec (v :: vs) kFindNodesBloomfilterHashNum xs) in E.
  - rewrite <- E. unfold carried_filter. destruct (msg_bloomfilter message) as [|v vs].
    + rewrite bf_rebuild_new. by apply bf_contain_all.
    + rewrite bf_rebuild_vec. by apply bf_contain_all.
Qed.

(** The second loop of SpreadNeighbors. *)
Lemma spread_loop (f : NodeInfo -> bool) send neighbors w t :
  transport_ptr_ w = Some t ->
  for_each neighbors (fun p =>
    n ← obj p; when (f n) (_ ← SendData send (public_ip n) (public_port n); mret tt)) w =
  Ok (tt, push_net (filter (fun p => f (obj_of w p)) neighbors ≫= fun p =>
    data_packets send (public_ip (obj_of w p)) (public_port (obj_of w p))) w).
Proof.
  revert w. induction neighbors as [|p neighbors IH]; intros w Et.
  { cbn [for_each]. by rewrite push_net_nil. }
  cbn [for_each]. change (obj p) with (gets (fun w => obj_of w p)). rewrite step_assoc. mstep. rewrite filter_cons.
  destruct (f (obj_of w p)) eqn:Ef; cbn [when].
  - destruct (SendData_spec w t send (public_ip (obj_of w p)) (public_port (obj_of w p)) Et) as [r E].
    rewrite step_assoc, (step_bind _ _ _ _ _ E). mstep.
    set (s1 := data_packets send _ _). set (w1 := push_net s1 w).
    rewrite (IH w1 Et). rewrite decide_True by done. cbn [mbind list_bind].
    unfold w1. by rewrite push_net_app.
  - mstep. rewrite (IH w Et). by rewrite decide_False by (by intros []).
Qed.

(** What SpreadNeighbors needs of the node it runs on. *)
Definition can_spread r w : Prop :=
  rh_table r = true /\ is_Some (transport_ptr_ w) /\ is_Some (local_node_ptr_ w) /\
  is_Some (w_global_xid w).

(** The neighbours a message is to reach: those with an xid, other than the
    node it comes from, whose xid its filter does not name. *)
Definition receivers w (message : RoutingMessage) (neighbors : list ptr) : list ptr :=
  filter (fun p =>
    xid (obj_of w p) <> ""%string /\
    xid (obj_of w p) <> get msg_src_node_id message /\
    node_id (obj_of w p) <> get msg_src_node_id message /\
    bf_Contain (carried_filter message) (rumor_key (get msg_id message) (xid (obj_of w p))) = false)
    neighbors.

(** The xids of this node and of its neighbours. *)
Definition named w (neighbors : list ptr) (x : string) : Prop :=
  key_Get <$> w_global_xid w = Some x \/ exists p, p ∈ neighbors /\ xid (obj_of w p) = x.

(** The copies sent, under the filter [words]. *)
Definition copies w (message : RoutingMessage) (words : list Z) (targets : list ptr) :=
  targets ≫= fun p =>
    data_packets (message <| msg_broadcast := Some true |> <| msg_bloomfilter := words |>)
      (public_ip (obj_of w p)) (public_port (obj_of w p)).

(** The words of the filter a message leaves with. *)
Definition spread_words w (message : RoutingMessage) (k : KadmliaKey) (neighbors : list ptr) : list Z :=
  bf_Uint64Vector (foldr bf_Add (carried_filter message)
    (reverse ((fun p => rumor_key (get msg_id message) (xid (obj_of w p))) <$> neighbors) ++
     [rumor_key (get msg_id message) (key_Get k)])).

Lemma spread_to_receivers w message words neighbors :
  filter (fun p => spread_to (message <| msg_broadcast := Some true |> <| msg_bloomfilter := words |>)
    (carried_filter message) (obj_of w p)) neighbors = receivers w message neighbors.
Proof.
  apply list_filter_iff. intros p. unfold spread_to.
  change (get msg_src_node_id (_ <| msg_bloomfilter := words |>)) with (get msg_src_node_id message).
  change (get msg_id (_ <| msg_bloomfilter := words |>)) with (get msg_id message).
  rewrite Is_true_true, !andb_true_iff, !negb_true_iff, orb_false_iff, !String.eqb_neq.
  destruct (xid (obj_of w p)); simpl; naive_solver.
Qed.

(** SpreadNeighbors with assertions compiled out. *)
Lemma SpreadNeighbors_spec r w message neighbors k :
  can_spread r w -> w_global_xid w = Some k -> str_empty (get msg_src_node_id message) = false ->
  neighbors <> [] ->
  SpreadNeighbors true r message neighbors w =
  Ok (message <| msg_broadcast := Some true |>,
      push_net (copies w message (spread_words w message k neighbors) (receivers w message neighbors)) w).
Proof.
  intros (Hr & [t Et] & [l El] & _) Ek Hsrc Hne.
  assert ((length neighbors =? 0)%nat = false) as Hlen by (by destruct neighbors).
  unfold SpreadNeighbors. cbn [negb]. rewrite Hlen.
  change (get msg_src_node_id (message <| msg_broadcast := Some true |>)) with (get msg_src_node_id message).
  rewrite Hsrc, Hr. cbn [negb]. mstep. rewrite El. unfold gxid. rewrite !step_assoc. mstep. rewrite Ek.
  rewrite step_assoc. mstep. mstep. mstep. rewrite foldl_bf_Add.
  change (carried_filter (message <| msg_broadcast := Some true |>)) with (carried_filter message).
  change (get msg_id (message <| msg_broadcast := Some true |>)) with (get msg_id message).
  unfold spread_words. rewrite foldr_app. cbn [foldr].
  rewrite (step_bind _ _ _ _ _ (spread_loop _ _ neighbors w t Et)).
  unfold copies. by rewrite spread_to_receivers.
Qed.

(** The filter a message leaves with names this node and its neighbours. *)
Lemma spread_words_named w message k neighbors received x :
  w_global_xid w = Some k -> msg_bloomfilter received = spread_words w message k neighbors ->
  named w neighbors x ->
  bf_Contain (carried_filter received) (rumor_key (get msg_id message) x) = true.
Proof.
  intros Ek Ew Hx. apply (carried_filter_rebuilt _ _ _ _ Ew), elem_of_app.
  destruct Hx as [Hx|(p & Hp & <-)].
  - right. rewrite Ek in Hx. injection Hx as ->. by apply list_elem_of_singleton.
  - left. apply elem_of_reverse, list_elem_of_fmap. by exists p.
Qed.

(** C33: with assertions compiled out, SpreadNeighbors sends the message, as a
    broadcast, once to each neighbour that has an xid, is not its source (by xid
    or by node id) and is not in the filter it came with, and to no other. Every
    copy carries one new filter; whoever passes such a copy on, to whatever
    neighbours of its own, sends it to none that has the xid of this node or of
    one of its neighbours. With assertions the function ends the program. *)
Theorem SpreadNeighbors_no_echo r w message neighbors :
  can_spread r w -> str_empty (get msg_src_node_id message) = false -> neighbors <> [] ->
  (exists words,
    SpreadNeighbors true r message neighbors w =
      Ok (message <| msg_broadcast := Some true |>,
          push_net (copies w message words (receivers w message neighbors)) w) /\
    forall received r2 w2 neighbors2,
      msg_bloomfilter received = words -> get msg_id received = get msg_id message ->
      can_spread r2 w2 ->
      exists m2 words2 targets,
        SpreadNeighbors true r2 received neighbors2 w2 =
          Ok (m2, push_net (copies w2 received words2 targets) w2) /\
        forall q, q ∈ targets -> q ∈ neighbors2 /\ ~ named w neighbors (xid (obj_of w2 q))) /\
  SpreadNeighbors false r message neighbors w = Fault AssertFailed.
Proof.
  intros Hw Hsrc Hne. split; [|done]. pose proof Hw as (_ & _ & _ & k & Ek).
  exists (spread_words w message k neighbors). split; [by apply SpreadNeighbors_spec|].
  intros received r2 w2 neighbors2 Ew Ei Hw2. pose proof Hw2 as (_ & _ & _ & k2 & Ek2).
  destruct (decide (neighbors2 = [])) as [->|Hne2].
  { eexists _, [], []. by split; [unfold copies; cbn; rewrite push_net_nil|intros q ?%elem_of_nil]. }
  destruct (str_empty (get msg_src_node_id received)) eqn:Esrc.
  { eexists _, [], []. split; [|by intros q ?%elem_of_nil].
    unfold copies. cbn [mbind list_bind]. rewrite push_net_nil. unfold SpreadNeighbors. cbn [negb].
    change (get msg_src_node_id (received <| msg_broadcast := Some true |>)) with (get msg_src_node_id received).
    rewrite Esrc. by destruct neighbors2. }
  do 3 eexists. split; [by apply (SpreadNeighbors_spec r2 w2 received neighbors2 k2)|].
  intros q ((_ & _ & _ & Hq) & Hin)%list_elem_of_filter. split; [done|]. intros Hx.
  by rewrite Ei, (spread_words_named w message k neighbors received _ Ek Ew Hx) in Hq.
Qed.
End spreading.

Section witnesses.
Import Examples.
#[local] Existing Instance selection_sort.
#[local] Existing Instance countable_wire.

Definition ex_rumor : RoutingMessage :=
  RoutingMessage_empty <| msg_src_node_id := Some "abcz"%string |> <| msg_id := Some 12 |>.

(** Three neighbours: the source, one that is sent the message, one without an xid. *)
Definition ex_neighbor (id x : string) : NodeInfo :=
  (NodeInfo_of_id 0 id) <| xid := x |> <| public_ip := "10.0.0.7"%string |> <| public_port := 7007 |>.

Definition ex_spreading : World :=
  ex_world <| w_heap := {[ 1%positive := ex_neighbor "abcz" "xz"; 2%positive := ex_neighbor "abce" "xe";
                           3%positive := ex_neighbor "abcf" "" ]} |>.

Definition ex_handler : RumorHandler := (RumorHandler_new false) <| rh_table := true |>.

Lemma SpreadNeighbors_no_echo_witness : exists m' words,
  SpreadNeighbors true ex_handler ex_rumor [1; 2; 3]%positive ex_spreading
    = Ok (m', push_net (copies ex_spreading ex_rumor words [2%positive]) ex_spreading) /\
  SpreadNeighbors false ex_handler ex_rumor [1; 2; 3]%positive ex_spreading = Fault AssertFailed.
Proof.
  destruct (SpreadNeighbors_no_echo ex_handler ex_spreading ex_rumor [1; 2; 3]%positive)
    as [(words & E & _) Ef];
    [split; [reflexivity|]; split; [|split]; eexists; vm_compute; reflexivity|reflexivity|discriminate|].
  assert (receivers ex_spreading ex_rumor [1; 2; 3]%positive = [2%positive]) as Er
    by (vm_compute; reflexivity).
  rewrite Er in E. exists (ex_rumor <| msg_broadcast := Some true |>), words.
  split; [exact E|exact Ef].
Defined.
End witnesses.
