(* ===== verification/KadMessageHandler.v ===== *)
(** src/kad_message_handler.cc: which handler serves which message type, the
    treatment of messages relayed for clients, and acknowledgements. A node is
    a routing node together with the process-wide NatManager. *)

From S2P Require Import Prelude Externals Messages Distance Sorting NodeInfo LocalNodeInfo.
From S2P Require Import ClientNodes BootstrapCache World RoutingTable Sending NodeDetection.
From S2P Require Import RoutingHandlers NatDetect.

(** The processors AddBaseHandlers registers. *)
Inductive base_handler :=
  | HConnectRequest | HHandshake | HBootstrapJoinRequest | HBootstrapJoinResponse
  | HFindNodesRequest | HFindNodesResponse | HHeartbeatRequest | HHeartbeatResponse
  | HAck | HNat.

Section kad_message_handler.
Context `{Xbase} `{KadKey} `{Xip} `{PartialSort} `{Wire} `{Bloom}.

(** RegisterMessageProcessor, in the order of the source. *)
Definition AddBaseHandlers : list (Z * base_handler) :=
  [(kKadConnectRequest, HConnectRequest);
   (kKadHandshake, HHandshake);
   (kKadBootstrapJoinRequest, HBootstrapJoinRequest);
   (kKadBootstrapJoinResponse, HBootstrapJoinResponse);
   (kKadFindNodesRequest, HFindNodesRequest);
   (kKadFindNodesResponse, HFindNodesResponse);
   (kKadHeartbeatRequest, HHeartbeatRequest);
   (kKadHeartbeatResponse, HHeartbeatResponse);
   (kKadAck, HAck);
   (kKadNatDetectRequest, HNat);
   (kKadNatDetectResponse, HNat);
   (kKadNatDetectHandshake2Node, HNat);
   (kKadNatDetectHandshake2Boot, HNat);
   (kKadNatDetectFinish, HNat)].

Definition processor_of (type : Z) : option base_handler :=
  snd <$> List.find (fun e => e.1 =? type) AddBaseHandlers.

(** A processor on the routing node; the NAT processors do not touch it. *)
Definition run_handler (h : base_handler) (message : RoutingMessage) (packet : xpacket) : M unit :=
  match h with
  | HConnectRequest => _ ← HandleConnectRequest message packet; mret tt
  | HHandshake => _ ← HandleHandshake message packet; mret tt
  | HBootstrapJoinRequest => _ ← HandleBootstrapJoinRequest message packet; mret tt
  | HBootstrapJoinResponse => HandleBootstrapJoinResponse message packet
  | HFindNodesRequest => _ ← HandleFindNodesRequest message packet; mret tt
  | HFindNodesResponse => HandleFindNodesResponse message packet
  | HHeartbeatRequest => _ ← HandleHeartbeatRequest message packet; mret tt
  | HHeartbeatResponse => HandleHeartbeatResponse message packet
  | HAck => mret tt
  | HNat => mret tt
  end.

(** What a message does to the two parts of the node. *)
Definition process (message : RoutingMessage) (packet : xpacket) (s : World * NatManager)
    : outcome (World * NatManager) :=
  match processor_of (get msg_type message) with
  | None => Ok s
  | Some HNat => '(_, m) ← PushMessage message packet s.2; Ok (s.1, m)
  | Some h => '(_, w) ← run_handler h message packet s.1; Ok (w, s.2)
  end.

(** ** Messages of clients *)

Definition add_client (c : ClientNodeInfo) : M unit :=
  modify (fun w => w <| clients ::= fun m => (ClientNodeManager.AddClientNode c m).2 |>).

Definition client_at (id : string) (packet : xpacket) : ClientNodeInfo :=
  (ClientNodeInfo_of_id id) <| cn_public_ip := get_from_ip_addr packet |>
                            <| cn_public_port := get_from_ip_port packet |>.

Definition HandleClientMessage (message : RoutingMessage) (packet : xpacket)
    : M (Z * RoutingMessage) :=
  if negb (is_set msg_client_id message) then mret (kContinue, message)
  else
    lp ← gets local_node_ptr_;
    match lp with
    | None => mret (kKadFailed, message)
    | Some _ =>
        id ← local_id;
        if negb (get msg_relay_flag message) then
          if (get msg_client_id message =? id)%string then mret (kContinue, message)
          else
            _ ← add_client (client_at (get msg_client_id message) packet);
            _ ← when (is_set msg_xid message && negb (str_empty (get msg_xid message)))
                  (add_client (client_at (get msg_xid message) packet));
            mret (kContinue, message <| msg_relay_flag := Some true |>
                                     <| msg_src_node_id := Some id |>)
        else if negb (get msg_des_node_id message =? id)%string then mret (kContinue, message)
        else
          client ← FindClient (get msg_client_id message);
          match client with
          | None => mret (kContinue, message)
          | Some c =>
              let message := message <| msg_relay_flag := Some false |>
                                     <| msg_des_node_id := Some (cn_node_id c) |> in
              SendData message (cn_public_ip c) (cn_public_port c)
          end
    end.

Definition SendAck (message : RoutingMessage) (packet : xpacket) : M unit :=
  res_message ← SetFreqMessage RoutingMessage_empty;
  let res_message :=
    res_message <| msg_src_service_type := Some (get msg_des_service_type message) |>
      <| msg_des_service_type := Some (get msg_src_service_type message) |>
      <| msg_des_node_id := Some (get msg_src_node_id message) |>
      <| msg_type := Some kKadAck |>
      <| msg_id := Some 0 |>
      <| msg_ack_id := Some (get msg_ack_id message) |> in
  _ ← SendData res_message (get_from_ip_addr packet) (get_from_ip_port packet);
  mret tt.

End kad_message_handler.
