(* ===== verification/KadProps.v ===== *)
(** A client's request and its response: the relay remembers where the client
    is and brings the response there. And what a message must look like for the
    processor it goes to not to fault. *)

From S2P Require Import Prelude Invariants Externals Messages Distance Sorting NodeInfo LocalNodeInfo.
From S2P Require Import ClientNodes BootstrapCache World RoutingTable TableFacts TableProps.
From S2P Require Import Sending SendProps NodeDetection RoutingHandlers Frames HandlerFacts.
From S2P Require Import Robust HandlerProps KadMessageHandler.

Section clients.
Context `{Xbase} `{!XbaseLaws} `{KadKey} `{Xip} `{PartialSort} `{!PartialSortLaws} `{Wire}.
#[local] Set Default Proof Using "Type*".
Implicit Types (w : World).

(** What the relay needs to bring a response to the client [c]. *)
Definition relay_view (c : string) (w : World) :=
  (ClientNodeManager.FindClientNode c (clients w), local_node_ptr_ w, transport_ptr_ w).

Definition same_view (c : string) : relation World := fun w w' => relay_view c w' = relay_view c w.

#[export] Instance same_view_preorder c : PreOrder (same_view c).
Proof. split; [done|]. intros w1 w2 w3 E1 E2. by transitivity (relay_view c w2). Qed.

Lemma view_add_client c k : cn_node_id k <> c -> frames (same_view c) (add_client k).
Proof.
  intros Hne. unfold add_client. frame. unfold same_view, relay_view. f_equal. f_equal.
  by apply lookup_insert_ne.
Qed.

Lemma view_SendData c m ip port : frames (same_view c) (SendData m ip port).
Proof. unfold SendData, SendData_bytes, transport_send. by frame. Qed.

(** Messages of the other clients do not disturb what is known of [c]. *)
Lemma view_HandleClientMessage c m p :
  get msg_client_id m <> c -> get msg_xid m <> c -> frames (same_view c) (HandleClientMessage m p).
Proof.
  intros Hc Hx. unfold HandleClientMessage, FindClient, local_id, local.
  repeat first [apply view_SendData | apply view_add_client; done | frame_step]; frame.
Qed.

(** A message of another client is handled. *)
Definition other_client (c : string) : relation World := fun w w' =>
  exists m p r, get msg_client_id m <> c /\ get msg_xid m <> c /\
    HandleClientMessage m p w = Ok (r, w').

Lemma other_clients_view c w w' : rtc (other_client c) w w' -> relay_view c w' = relay_view c w.
Proof.
  induction 1 as [w|w1 w2 w3 (m & p & r & Hc & Hx & E) _ IH]; [done|].
  rewrite IH. exact (wlp_elim _ (fun _ => same_view c w1) w1 r w2 (view_HandleClientMessage c m p Hc Hx w1) E).
Qed.

(** The request of a client is marked and the client's address remembered. *)
Lemma HandleClientMessage_request m p w l lid :
  local_node_ptr_ w = Some l -> LocalNodeInfo_id l = Ok lid ->
  is_set msg_client_id m = true -> get msg_relay_flag m = false -> get msg_client_id m <> lid ->
  exists w' v, HandleClientMessage m p w =
      Ok ((kContinue, m <| msg_relay_flag := Some true |> <| msg_src_node_id := Some lid |>), w') /\
    relay_view (get msg_client_id m) w' = (Some v, local_node_ptr_ w, transport_ptr_ w) /\
    v = client_at (get msg_client_id m) p /\ w_net w' = w_net w.
Proof.
  intros El Eid Hset Hrelay Hne. unfold HandleClientMessage. rewrite Hset. cbn [negb]. mstep.
  rewrite El. unfold local_id, local. rewrite !step_assoc. mstep. rewrite El. mstep. rewrite Eid. mstep.
  rewrite Hrelay. cbn [negb]. rewrite (proj2 (String.eqb_neq _ _) Hne).
  unfold add_client. mstep. set (c1 := client_at (get msg_client_id m) p).
  destruct (is_set msg_xid m && negb (str_empty (get msg_xid m))); cbn [when]; mstep;
    (do 2 eexists; splits; [reflexivity| |reflexivity|done]);
    unfold relay_view, ClientNodeManager.FindClientNode; simpl; rewrite El; f_equal; f_equal.
  - destruct (decide (get msg_xid m = get msg_client_id m)) as [->|Hx].
    + apply lookup_insert_eq.
    + rewrite lookup_insert_ne by done. apply lookup_insert_eq.
  - apply lookup_insert_eq.
Qed.

Lemma HandleClientMessage_response m p w l lid t v :
  relay_view (get msg_client_id m) w = (Some v, Some l, Some t) -> LocalNodeInfo_id l = Ok lid ->
  is_set msg_client_id m = true -> get msg_relay_flag m = true -> get msg_des_node_id m = lid ->
  let m' := m <| msg_relay_flag := Some false |> <| msg_des_node_id := Some (cn_node_id v) |> in
  exists r, HandleClientMessage m p w =
    Ok ((r, SetVersion m'), push_net (data_packets m' (cn_public_ip v) (cn_public_port v)) w).
Proof.
  intros Hv Eid Hset Hrelay Hdes m'. unfold relay_view in Hv. injection Hv as Ec El Et.
  unfold HandleClientMessage. rewrite Hset. cbn [negb]. mstep.
  rewrite El. unfold local_id, local. rewrite !step_assoc. mstep. rewrite El. mstep. rewrite Eid. mstep.
  rewrite Hrelay. cbn [negb]. rewrite (proj2 (String.eqb_eq _ _) Hdes). cbn [negb].
  unfold FindClient. mstep. rewrite Ec. exact (SendData_spec w t m' _ _ Et).
Qed.

(** C34: the relay round trip: the request of a client that is not the relay
    itself goes on with the relay's id as its source and nothing is sent yet;
    after any messages of other clients, the response that carries the
    client's id back to the relay is sent on to the address the request came
    from, addressed to the client and no longer marked as relayed. *)
Theorem client_round_trip w l t lid request p w2 response q :
  local_node_ptr_ w = Some l -> LocalNodeInfo_id l = Ok lid -> transport_ptr_ w = Some t ->
  is_set msg_client_id request = true -> get msg_relay_flag request = false ->
  get msg_client_id request <> lid ->
  exists w1, HandleClientMessage request p w =
      Ok ((kContinue, request <| msg_relay_flag := Some true |> <| msg_src_node_id := Some lid |>), w1) /\
    w_net w1 = w_net w /\
    (rtc (other_client (get msg_client_id request)) w1 w2 ->
     is_set msg_client_id response = true -> get msg_relay_flag response = true ->
     get msg_client_id response = get msg_client_id request -> get msg_des_node_id response = lid ->
     let m := response <| msg_relay_flag := Some false |>
                       <| msg_des_node_id := Some (get msg_client_id request) |> in
     exists r w3, HandleClientMessage response q w2 = Ok ((r, SetVersion m), w3) /\
       w_net w3 = w_net w2 ++ data_packets m (get_from_ip_addr p) (get_from_ip_port p)).
Proof.
  intros El Eid Et Hset Hrelay Hne.
  destruct (HandleClientMessage_request request p w l lid El Eid Hset Hrelay Hne)
    as (w1 & v & E1 & Hv & -> & En).
  exists w1. splits; [exact E1|exact En|]. intros Hothers Hset2 Hrelay2 Hc2 Hdes2 m.
  apply other_clients_view in Hothers. rewrite Hv, El, Et, <- Hc2 in Hothers.
  destruct (HandleClientMessage_response response q w2 l lid t _ Hothers Eid Hset2 Hrelay2 Hdes2)
    as (r & E2).
  rewrite Hc2 in E2. eexists r, _. split; [exact E2|]. done.
Qed.
End clients.

(** ** Every processor *)

Section processors.
Context `{Xbase} `{!XbaseLaws} `{KadKey} `{Xip} `{PartialSort} `{!PartialSortLaws} `{Wire} `{Bloom}.
#[local] Set Default Proof Using "Type*".

(** What the processor [h] assumes of the ids and of the source of a message. *)
Definition processable (h : base_handler) (m : RoutingMessage) (from : xpacket) : Prop :=
  match h with
  | HConnectRequest => id_ok (get msg_des_node_id m)
  | HHandshake => str_empty (get_from_ip_addr from) = false
  | HFindNodesRequest => forall req : FindClosestNodesRequest,
      ParseFromString (get msg_data m) = Some req -> id_ok (get fnreq_target_id req)
  | _ => True
  end.

Lemma runs_run_handler lid h m from : processable h m from -> always (started lid) (run_handler h m from).
Proof.
  intros Hm. destruct h; cbn [run_handler];
    try (apply always_bind; [|intros ?; apply always_ret]);
    try apply always_ret; by apply runs_safe; constructor.
Qed.
End processors.

Section witnesses.
Import Examples.
#[local] Existing Instance countable_wire.

Definition ex_client_request : RoutingMessage :=
  RoutingMessage_empty <| msg_client_id := Some "client"%string |>.

Lemma client_round_trip_witness : exists w1,
  HandleClientMessage ex_client_request (mkXpacket "5.6.7.8" 4000) ex_empty =
    Ok ((kContinue, ex_client_request <| msg_relay_flag := Some true |>
                      <| msg_src_node_id := Some "abcd"%string |>), w1) /\ w_net w1 = [].
Proof.
  destruct (client_round_trip ex_empty ex_local 9000 "abcd" ex_client_request (mkXpacket "5.6.7.8" 4000)
    ex_empty ex_client_request (mkXpacket "1.2.3.4" 4001) eq_refl eq_refl eq_refl eq_refl eq_refl
    ltac:(discriminate)) as (w1 & E & En & _).
  exists w1. split; [exact E|exact En].
Defined.
End witnesses.
