(* ===== verification/Exchange.v ===== *)
(** Two nodes: the join request of one and the answer of the other. The
    operations are those of RoutingHandlers.v, on two separate states; what one
    node hands to its transport is delivered to the other as bytes with a source
    address. *)

From S2P Require Import Prelude Invariants Externals Messages Distance Sorting NodeInfo LocalNodeInfo.
From S2P Require Import NatDetect ClientNodes BootstrapCache World RoutingTable TableFacts TableProps.
From S2P Require Import Sending SendProps NodeDetection RoutingHandlers RoutingJoin Frames Robust.
From S2P Require Import HandlerProps KadMessageHandler.

(** What protobuf documents of the codecs of the exchange: a text parses back,
    every one of these messages can be serialized, and a set field leaves the
    text non-empty. *)
Class MessageWireLaws `{Wire} : Prop := {
  mw_message :: ProtoLaws RoutingMessage;
  mw_message_text (m : RoutingMessage) : exists s, SerializeToString m = Some s }.

Class JoinWireLaws `{Wire} : Prop := {
  jw_messages :: MessageWireLaws;
  jw_request :: ProtoLaws BootstrapJoinRequest;
  jw_response :: ProtoLaws BootstrapJoinResponse;
  jw_request_text (r : BootstrapJoinRequest) : is_set jreq_local_ip r = true ->
    exists s, SerializeToString r = Some s /\ str_empty s = false;
  jw_response_text (r : BootstrapJoinResponse) : is_set jres_public_ip r = true ->
    exists s, SerializeToString r = Some s /\ str_empty s = false }.

Section messages.
Context `{Xbase} `{!XbaseLaws} `{KadKey} `{Xip} `{PartialSort} `{!PartialSortLaws} `{Wire} `{Bloom}.
#[local] Set Default Proof Using "Type*".
Implicit Types (w : World) (p : xpacket) (m : RoutingMessage).

(** A datagram for a node: the worker thread parses it and runs the processor
    registered for its type. *)
Definition deliver (data ip : string) (port : Z) (s : World * NatManager)
    : outcome (World * NatManager) :=
  match ParseFromString data with
  | None => Ok s
  | Some message => process message (mkXpacket ip port) s
  end.

(** ** What a started node reads of itself *)

Definition fresh_message (l : LocalNodeInfo) (id x : string) (mid : Z) : RoutingMessage :=
  RoutingMessage_empty <| msg_hop_num := Some 0 |>
    <| msg_src_service_type := Some (ln_service_type l) |> <| msg_src_node_id := Some id |>
    <| msg_xid := Some x |> <| msg_priority := Some enum_xpacket_priority_type_routine |>
    <| msg_id := Some mid |>.

(** The state after a message id was taken. *)
Definition numbered w : World := w <| msg_id_ := u32 (msg_id_ w + 1) |>.

Record knows_itself (lid : string) w (l : LocalNodeInfo) (x xp : string) : Prop := {
  ki_local : forall w', local_node_ptr_ w' = local_node_ptr_ w -> local w' = Ok (l, w');
  ki_id : forall w', local_node_ptr_ w' = local_node_ptr_ w -> local_id w' = Ok (lid, w');
  ki_xip : forall w', local_node_ptr_ w' = local_node_ptr_ w -> local_xip w' = Ok (xp, w');
  ki_gxid : forall w', w_global_xid w' = w_global_xid w -> gxid w' = Ok (x, w');
  ki_mode : ln_client_mode l = false;
  ki_fresh : SetFreqMessage RoutingMessage_empty w =
    Ok (fresh_message l lid x (u32 (msg_id_ w + 1)), numbered w) }.

Lemma started_knows lid w :
  started lid w -> exists l x xp, local_node_ptr_ w = Some l /\ knows_itself lid w l x xp.
Proof.
  intros Hs. destruct (st_local _ w Hs) as (l & xl & El & Em & Ex).
  destruct (st_gxid _ w Hs) as [g Eg].
  exists l, (key_Get g), (xip_string xl). split; [done|].
  assert (forall w', local_node_ptr_ w' = local_node_ptr_ w -> local w' = Ok (l, w')) as Hl.
  { intros w' E. unfold local. mstep. by rewrite E, El. }
  assert (LocalNodeInfo_id l = Ok lid) as Hid.
  { pose proof (local_id_ok lid w (st_ok _ w Hs)) as E. unfold local_id in E.
    rewrite (step_bind _ _ _ _ _ (Hl w eq_refl)) in E. unfold lift in E.
    by destruct (LocalNodeInfo_id l) as [i|]; [injection E as ->|]. }
  assert (forall w', local_node_ptr_ w' = local_node_ptr_ w -> local_id w' = Ok (lid, w')) as Hi.
  { intros w' E. unfold local_id. rewrite (step_bind _ _ _ _ _ (Hl w' E)). unfold lift. by rewrite Hid. }
  assert (forall w', w_global_xid w' = w_global_xid w -> gxid w' = Ok (key_Get g, w')) as Hg.
  { intros w' E. unfold gxid. mstep. rewrite E, Eg. by msteps. }
  split; [done|done| |done|done|].
  - intros w' E. unfold local_xip. rewrite (step_bind _ _ _ _ _ (Hl w' E)).
    unfold lift, LocalNodeInfo_xip, GetXipParser. by rewrite Em, Ex.
  - unfold SetFreqMessage. rewrite (step_bind _ _ _ _ _ (Hl w eq_refl)).
    rewrite (step_bind _ _ _ _ _ (Hi w eq_refl)), (step_bind _ _ _ _ _ (Hg w eq_refl)).
    unfold next_message_id. by mstep.
Qed.

Lemma numbered_started lid w s : started lid w -> started lid (push_net s (numbered w)).
Proof. intros Hs. by apply (started_core lid w). Qed.

(** Every type is served by the handler registered for it. *)
Lemma find_registered {A} (l : list (Z * A)) t h :
  NoDup (l.*1) -> In (t, h) l -> List.find (fun e => e.1 =? t) l = Some (t, h).
Proof.
  induction l as [|[t' h'] l IH]; [done|]. intros [Hn Hd]%NoDup_cons [[= -> ->]|Hin]; cbn [List.find fst].
  { by rewrite Z.eqb_refl. }
  destruct (Z.eqb_spec t' t) as [->|_]; [|by apply IH].
  exfalso. apply Hn. apply list_elem_of_fmap. exists (t, h). split; [done|]. by apply list_elem_of_In.
Qed.

Lemma registered_types : NoDup (AddBaseHandlers.*1).
Proof.
  assert (AddBaseHandlers.*1 ++ [kKadDropNodeRequest] ≡ₚ
    [kKadConnectRequest; kKadHandshake; kKadBootstrapJoinRequest; kKadBootstrapJoinResponse;
     kKadFindNodesRequest; kKadFindNodesResponse; kKadAck; kKadHeartbeatRequest; kKadHeartbeatResponse;
     kKadNatDetectRequest; kKadNatDetectResponse; kKadNatDetectHandshake2Node;
     kKadNatDetectHandshake2Boot; kKadNatDetectFinish; kKadDropNodeRequest]) as Hp.
  { do 6 apply perm_skip. symmetry. apply (Permutation_middle [kKadHeartbeatRequest; kKadHeartbeatResponse]). }
  pose proof message_types_distinct as Hn. rewrite <- Hp in Hn. by apply NoDup_app in Hn as [Hn _].
Qed.

Lemma registered_processor t h : In (t, h) AddBaseHandlers -> processor_of t = Some h.
Proof. intros Hin. unfold processor_of. by rewrite (find_registered _ t h registered_types Hin). Qed.

(** The packet of a message that can be serialized. *)
Lemma packet_of `{!MessageWireLaws} m ip port :
  exists data, ParseFromString data = Some (SetVersion m) /\
    data_packets m ip port = [mkPacket KData (u16 (get msg_priority (SetVersion m))) data ip (u16 port)].
Proof.
  destruct (mw_message_text (SetVersion m)) as [data E]. exists data.
  split; [by apply mw_message|]. unfold data_packets. by rewrite E.
Qed.

(** The one packet for a node object. *)
Lemma node_packet `{!MessageWireLaws} m n :
  exists pk, node_packets m n = [pk] /\ (pk_ip pk, pk_port pk) = send_endpoint n /\
    ParseFromString (pk_data pk) = Some (SetVersion m).
Proof.
  unfold node_packets, send_endpoint. destruct (packet_of m (local_ip n) (local_port n)) as (data & Ed & Ep).
  destruct (same_vlan n).
  - rewrite Ep. by eexists.
  - destruct (mw_message_text (SetVersion m)) as [data' E]. rewrite E.
    eexists. split; [done|]. split; [done|]. by apply mw_message.
Qed.

(** A datagram is served by the processor of its message. *)
Lemma deliver_run data ip port w n m h w' :
  ParseFromString data = Some m -> processor_of (get msg_type m) = Some h -> h <> HNat ->
  run_handler h m (mkXpacket ip port) w = Ok (tt, w') -> deliver data ip port (w, n) = Ok (w', n).
Proof.
  intros Hp Ht Hh E. unfold deliver. rewrite Hp. unfold process. rewrite Ht. by destruct h; cbn [fst snd]; rewrite ?E.
Qed.

Lemma SetVersion_get {A} `{Dflt A} (f : RoutingMessage -> option A) m :
  (forall m v, f (m <| msg_version_tag := v |>) = f m) -> f (SetVersion m) = f m.
Proof. intros Hf. unfold SetVersion. destruct (negb _); auto. Qed.

End messages.

Section exchange.
Context `{Xbase} `{!XbaseLaws} `{KadKey} `{Xip} `{PartialSort} `{!PartialSortLaws} `{Wire} `{Bloom}.
Context `{!JoinWireLaws}.
#[local] Set Default Proof Using "Type*".
Implicit Types (w : World) (p : xpacket) (m : RoutingMessage).

(** ** The request *)

(** A join request of the node [lid] with the NAT type [nat]. *)
Definition join_request (lid : string) (nat : Z) m : Prop :=
  get msg_type m = kKadBootstrapJoinRequest /\ get msg_src_node_id m = lid /\
  is_client_msg m = false /\ get msg_status m = 0 /\ no_data m = false /\
  exists r, ParseFromString (get msg_data m) = Some r /\ get jreq_nat_type r = nat.

Lemma Bootstrap_sends lid w l ip port service :
  started lid w -> local_node_ptr_ w = Some l -> 0 <= port < 2 ^ 16 ->
  exists r data m prio, Bootstrap ip port service w =
      Ok (r, push_net [mkPacket KData prio data ip port] (numbered w)) /\
    ParseFromString data = Some m /\ join_request lid (ln_nat_type l) m.
Proof.
  intros Hs El Hport. destruct (started_knows lid w Hs) as (l' & x & xp & El' & [K1 K2 K3 K4 K5 K6]).
  rewrite El in El'. injection El' as <-.
  unfold Bootstrap. rewrite (step_bind _ _ _ _ _ K6).
  rewrite (step_bind _ _ _ _ _ (K1 (numbered w) eq_refl)), (step_bind _ _ _ _ _ (K2 (numbered w) eq_refl)).
  cbv zeta. rewrite K5, (step_bind _ _ _ _ _ (K4 (numbered w) eq_refl)). cbn [negb].
  rewrite step_assoc, (step_bind _ _ _ _ _ (K3 (numbered w) eq_refl)). mstep.
  match goal with |- context [SerializeToString ?r] =>
    destruct (jw_request_text r eq_refl) as (body & Eb & Hb); set (req := r) in * end.
  rewrite Eb. unfold SetSpeClientMessage.
  match goal with |- context [SendData ?m0] => set (m := m0) end.
  destruct (st_transport lid (numbered w)) as [t Et]; [by apply (started_core lid w)|].
  destruct (SendData_spec (numbered w) t m ip port Et) as [r E].
  rewrite (step_bind _ _ _ _ _ E).
  destruct (packet_of m ip port) as (data & Ed & ->). rewrite (u16_id port) by done.
  exists r, data, (SetVersion m), (u16 (get msg_priority (SetVersion m))).
  split; [reflexivity|]. split; [done|].
  assert (get msg_data (SetVersion m) = body) as Em by reflexivity.
  unfold join_request. splits; try reflexivity.
  - unfold no_data. by rewrite Em, Hb.
  - exists req. rewrite Em. split; [by apply jw_request|done].
Qed.

(** ** The answer *)

(** A node of the given data; the other fields do not decide whether a table
    takes it. *)
Definition peer (id ip : string) (port nat : Z) : NodeInfo :=
  NodeInfo_fields <| node_id := id |> <| public_ip := ip |> <| public_port := port |> <| nat_type := nat |>.

Lemma add_code_peer lid w n :
  add_code lid w n = add_code lid w (peer (node_id n) (public_ip n) (public_port n) (nat_type n)).
Proof. reflexivity. Qed.

Definition join_answer (lid asker ip : string) (port nat : Z) m : Prop :=
  get msg_type m = kKadBootstrapJoinResponse /\ get msg_src_node_id m = lid /\
  get msg_des_node_id m = asker /\ get msg_status m = 0 /\ no_data m = false /\
  exists r, ParseFromString (get msg_data m) = Some r /\ get jres_bootstrap_id r = lid /\
    get jres_public_ip r = ip /\ get jres_public_port r = port /\ get jres_nat_type r = nat.

Lemma SendBootstrapJoinResponse_sends lid w l m asker nat ip port :
  started lid w -> local_node_ptr_ w = Some l -> join_request asker nat m ->
  str_empty ip = false -> 0 < port < 2 ^ 16 ->
  exists m' data ans prio,
    SendBootstrapJoinResponse m (mkXpacket ip port) w =
      Ok (m', push_net [mkPacket KData prio data ip port] (numbered w)) /\
    is_client_msg m' = false /\
    ParseFromString data = Some ans /\ join_answer lid asker ip port (ln_nat_type l) ans.
Proof.
  intros Hs El (Ht & Hsrc & Hc & Hst & _) Hip Hport.
  destruct (started_knows lid w Hs) as (l' & x & xp & El' & [K1 K2 K3 K4 K5 K6]).
  rewrite El in El'. injection El' as <-.
  unfold SendBootstrapJoinResponse. rewrite (step_bind _ _ _ _ _ K6). cbv zeta.
  set (m' := m <| msg_priority := _ |>). assert (is_client_msg m' = false) as Hc' by done.
  rewrite Hc', (step_bind _ _ _ _ _ (K4 (numbered w) eq_refl)).
  rewrite (step_bind _ _ _ _ _ (K3 (numbered w) eq_refl)). cbv iota. mstep.
  cbn [get_from_ip_addr get_from_ip_port].
  match goal with |- context [str_empty (get jres_public_ip ?r)] =>
    change (get jres_public_ip r) with ip; change (get jres_public_port r) with port end.
  rewrite Hip, (proj2 (Z.leb_gt _ _)) by lia. cbn [orb].
  rewrite (step_bind _ _ _ _ _ (K1 (numbered w) eq_refl)), (step_bind _ _ _ _ _ (K2 (numbered w) eq_refl)).
  match goal with |- context [SerializeToString ?r] =>
    destruct (jw_response_text r eq_refl) as (body & Eb & Hb); set (res := r) in * end.
  rewrite Eb.
  match goal with |- context [SendData ?m0] => set (rm := m0) end.
  destruct (st_transport lid (numbered w)) as [t Et]; [by apply (started_core lid w)|].
  destruct (SendData_spec (numbered w) t rm ip port Et) as [r E].
  rewrite (step_bind _ _ _ _ _ E).
  destruct (packet_of rm ip port) as (data & Ed & ->). rewrite (u16_id port) by lia.
  exists m', data, (SetVersion rm), (u16 (get msg_priority (SetVersion rm))).
  split; [reflexivity|]. split; [done|]. split; [done|].
  assert (get msg_data (SetVersion rm) = body) as Em by reflexivity.
  unfold join_answer. splits; try reflexivity.
  - by rewrite <- Hsrc.
  - by rewrite <- Hst.
  - unfold no_data. by rewrite Em, Hb.
  - exists res. rewrite Em. split; [by apply jw_response|done].
Qed.

Lemma join_request_answered lid w l m asker nat ip port :
  started lid w -> local_node_ptr_ w = Some l -> join_request asker nat m ->
  str_empty ip = false -> 0 < port < 2 ^ 16 ->
  exists m' w' data ans prio,
    HandleBootstrapJoinRequest m (mkXpacket ip port) w = Ok (m', w') /\ started lid w' /\
    w_net w' = w_net w ++ [mkPacket KData prio data ip port] /\
    ParseFromString data = Some ans /\ join_answer lid asker ip port (ln_nat_type l) ans /\
    (add_code lid w (peer asker ip port nat) = kKadSuccess -> has_id w' asker = true).
Proof.
  intros Hs El Hreq Hip Hport. pose proof Hreq as (Ht & Hsrc & Hc & Hst & Hd & r & Hr & Hn).
  unfold HandleBootstrapJoinRequest. rewrite Hd, Hr.
  rewrite (step_bind _ _ _ _ _ (new_NodeInfo_spec _ _ w)).
  match goal with |- context [fresh ?n0 w] => set (n := n0); set (w1 := fresh n w) end.
  assert (started lid w1) as Hs1.
  { apply (started_sys lid w); [done| |done]. apply fresh_ok, (st_ok _ w Hs). }
  destruct (SendBootstrapJoinResponse_sends lid w1 l m asker nat ip port Hs1 El Hreq Hip Hport)
    as (m' & data & ans & prio & E & Hc' & Ea & Hans).
  rewrite (step_bind _ _ _ _ _ E), Hc'. cbn [negb when]. set (w2 := push_net _ _).
  assert (started lid w2) as Hs2 by (by apply numbered_started).
  destruct codes_distinct as (_ & Hc1 & Hc2).
  destruct (AddNode_spec lid w2 (w_next w) kNodeIdSize_pos Hc1 Hc2 (st_ok _ w2 Hs2))
    as (w3 & E3 & Hok3 & Hadd).
  assert (obj_of w2 (w_next w) = n) as Eo by apply (fresh_obj n w).
  rewrite Eo in E3, Hadd. rewrite step_assoc, (step_bind _ _ _ _ _ E3). mstep.
  pose proof (wlp_elim _ (fun _ => same_env w2) _ _ _ (env_AddNode (w_next w) w2) E3) as Henv.
  exists m', w3, data, ans, prio. splits; try done.
  - apply (started_sys lid w2); [by apply same_env_sys|done|done].
  - assert (w_net w3 = w_net w2) as -> by exact (f_equal (fun e => e.1.2.1.1) Henv). done.
  - intros Ecode.
    assert (add_code lid w2 n = kKadSuccess) as Ecode2.
    { rewrite <- Ecode, <- Hsrc, <- Hn. change (add_code lid w (peer _ _ _ _)) with (add_code lid w n).
      apply add_code_same; [done..|]. intros q Hq.
      by apply (fresh_old lid); [apply (st_ok _ w Hs)|]. }
    rewrite Ecode2, Z.eqb_refl in Hadd. destruct Hadd as (_ & Em & _).
    unfold has_id. rewrite Em. change (node_id n) with (get msg_src_node_id m). rewrite Hsrc.
    by rewrite lookup_insert_eq.
Qed.

(** ** The exchange *)

Lemma join_processors :
  processor_of kKadBootstrapJoinRequest = Some HBootstrapJoinRequest /\
  processor_of kKadBootstrapJoinResponse = Some HBootstrapJoinResponse.
Proof. split; apply registered_processor; simpl; tauto. Qed.

(** C9: Joining, end to end: a started node that is not joined bootstraps
    against a started node at an endpoint; the request leaves for that endpoint;
    delivered there from the address at which the bootstrap node sees the asker,
    it is answered with one packet to that address, and the asker enters the
    bootstrap node's table when the table takes it; the answer, delivered back,
    makes the asker joined through the bootstrap node's id and endpoint, wakes
    its MultiJoin, and tells it its own public address. *)
Theorem bootstrap_exchange a lida la b lidb lb natsa natsb ipa porta ipb portb service :
  started lida a -> joined_ a = false -> local_node_ptr_ a = Some la ->
  started lidb b -> local_node_ptr_ b = Some lb ->
  str_empty ipa = false -> 0 < porta < 2 ^ 16 -> 0 < portb < 2 ^ 16 -> kKadForbidden <> 0 ->
  add_code lida a (peer lidb ipb portb (ln_nat_type lb)) ∈ [kKadSuccess; kKadNodeHasAdded] ->
  exists r pka request a1 pkb answer b1 a2,
    Bootstrap ipb portb service a = Ok (r, a1) /\
    w_net a1 = w_net a ++ [mkPacket KData pka request ipb portb] /\
    deliver request ipa porta (b, natsb) = Ok (b1, natsb) /\ started lidb b1 /\
    w_net b1 = w_net b ++ [mkPacket KData pkb answer ipa porta] /\
    (add_code lidb b (peer lida ipa porta (ln_nat_type la)) = kKadSuccess -> has_id b1 lida = true) /\
    deliver answer ipb portb (a1, natsa) = Ok (a2, natsa) /\ started lida a2 /\
    join_state a2 = (true, lidb, ipb, portb) /\ (0 < bootstrap_wakeups a2)%nat /\
    (fun l => (ln_public_ip l, ln_public_port l)) <$> local_node_ptr_ a2 = Some (ipa, porta).
Proof.
  intros Ha Hj Ela Hb Elb Hipa Hpa Hpb Hf Hcode. destruct join_processors as [P1 P2].
  destruct (Bootstrap_sends lida a la ipb portb service Ha Ela) as (r & req & m & prio & E1 & Em & Hm);
    [lia|].
  set (a1 := push_net _ (numbered a)) in E1.
  destruct (join_request_answered lidb b lb m lida (ln_nat_type la) ipa porta Hb Elb Hm Hipa Hpa)
    as (m' & b1 & data & ans & prio' & E2 & Hb1 & En & Eans & Hans & Hadd).
  destruct Hm as (Ht & _). destruct Hans as (Ht2 & Hsrc & Hdes & Hst & Hd & res & Hres & Hid & Hip & Hport & Hnat).
  assert (started lida a1) as Ha1 by (by apply numbered_started).
  destruct (join_response_completes lida a1 ans (mkXpacket ipb portb) res Ha1 Hj Hdes Hd Hres)
    as (a2 & E3 & Ha2 & Hjoin & Hwake & Hown); [by rewrite Hst| |].
  { rewrite add_code_peer. unfold responder. cbn. by rewrite Hsrc, Hnat. }
  exists r, prio, req, a1, prio', data, b1, a2. splits; try done.
  - eapply (deliver_run _ _ _ _ _ m HBootstrapJoinRequest); rewrite ?Ht; [done..|].
    cbn [run_handler]. by rewrite (step_bind _ _ _ _ _ E2).
  - by eapply (deliver_run _ _ _ _ _ ans HBootstrapJoinResponse); rewrite ?Ht2.
  - rewrite Hjoin, Hid. cbn. by rewrite (u16_id portb) by lia.
  - by rewrite Hown, Hip, Hport, (u16_id porta) by lia.
Qed.
End exchange.

(** ** An example: "abcd" joins through "wxyz" *)

Section witness.
Import Examples.
#[local] Existing Instance selection_sort.
#[local] Existing Instance countable_wire.

Lemma ex_join_wire_laws : JoinWireLaws.
Proof.
  assert (forall p q : positive, str_empty (pos_digits (prod_encode p q)) = false) as Hne by (by intros [] []).
  split; [split|..]; try apply countable_proto_laws.
  - intros m. eexists. reflexivity.
  - intros r _. eexists. split; [reflexivity|apply Hne].
  - intros r _. eexists. split; [reflexivity|apply Hne].
Qed.
#[local] Existing Instance ex_join_wire_laws.

Definition ex_own (id : string) : LocalNodeInfo :=
  (LocalNodeInfo_new 0) <| ln_kadmlia_key := Some (mkKey id 1 0) |> <| ln_nat_type := kNatTypePublic |>.

Definition ex_alone (id : string) : World :=
  after_init (RoutingTable_new (Some 9000) (Some (ex_own id)) (Some ex_key) ClientNodeManager.init 100 0
    (fun _ => 0) (fun n => Z.of_nat n)).

Lemma ex_alone_started id : id_ok id -> started id (ex_alone id).
Proof.
  intros Hid. split; [|exists (ex_own id), xip_default; splits; reflexivity|by eexists..].
  apply after_init_ok. by apply (table_ok_new _ (ex_own id) (mkKey id 1 0)).
Qed.

Lemma ex_add_started id i port w : started id w -> started id (ex_add i port w).
Proof.
  intros Hs. assert (runs id (p ← new_NodeInfo i (ex_data port kNatTypePublic); AddNode p)) as Hr
    by (apply always_bind; [apply runs_new_NodeInfo|intros p; apply runs_AddNode]).
  unfold ex_add. destruct (wp_elim _ _ _ (Hr w Hs)) as (a & w' & E & Hs'). by rewrite E.
Qed.

Lemma bootstrap_exchange_witness :
  exists a2 b1, join_state a2 = (true, "wxyz"%string, "1.2.3.4"%string, 9100) /\
    has_id b1 "abcd" = true /\
    (fun l => (ln_public_ip l, ln_public_port l)) <$> local_node_ptr_ a2 = Some ("5.6.7.8"%string, 4000).
Proof.
  destruct (bootstrap_exchange (ex_alone "abcd") "abcd" (ex_own "abcd") (ex_alone "wxyz") "wxyz"
    (ex_own "wxyz") (NatManager_new 0 (fun _ => 0)) (NatManager_new 0 (fun _ => 0))
    "5.6.7.8" 4000 "1.2.3.4" 9100 1)
    as (r & pka & req & a1 & pkb & ans & b1 & a2 & _ & _ & _ & _ & _ & Hadd & _ & _ & Hj & _ & Hown).
  - by apply ex_alone_started.
  - reflexivity.
  - reflexivity.
  - by apply ex_alone_started.
  - reflexivity.
  - reflexivity.
  - lia.
  - lia.
  - discriminate.
  - apply elem_of_cons. left. vm_compute. reflexivity.
  - exists a2, b1. split; [exact Hj|]. split; [|exact Hown]. apply Hadd. vm_compute. reflexivity.
Defined.
End witness.
