(* ===== verification/Discovery.v ===== *)
(** Finding neighbours: a node that asks one it knows for its neighbours comes
    to know each of them, or has no room for it. The asker's request, the
    answer to it and what the asker does with the answer are the operations of
    RoutingHandlers.v; the packets carry bytes from one state to the other. *)

From S2P Require Import Prelude Invariants Externals Messages Distance Sorting NodeInfo LocalNodeInfo.
From S2P Require Import NatDetect ClientNodes BootstrapCache World RoutingTable TableFacts TableProps.
From S2P Require Import Sending SendProps NodeDetection RoutingHandlers RoutingJoin Frames TableSpec Robust.
From S2P Require Import HandlerProps KadMessageHandler Exchange.

(** What protobuf documents of the codecs of a search. *)
Class SearchWireLaws `{Wire} : Prop := {
  sw_messages :: MessageWireLaws;
  sw_request :: ProtoLaws FindClosestNodesRequest;
  sw_answer :: ProtoLaws FindClosestNodesResponse;
  sw_request_text (r : FindClosestNodesRequest) : is_set fnreq_target_id r = true ->
    exists s, SerializeToString r = Some s /\ str_empty s = false;
  sw_answer_text (r : FindClosestNodesResponse) : fnres_nodes r <> [] ->
    exists s, SerializeToString r = Some s /\ str_empty s = false }.

(** ** Room in the table *)

Section covered.
Context `{Xbase} `{!XbaseLaws} `{KadKey} `{Xip} `{PartialSort} `{!PartialSortLaws}.
#[local] Set Default Proof Using "Type*".
Implicit Types (w : World) (p : ptr).

(** The table of [lid] has the node [i], or its bucket for it is full. *)
Definition covered (lid i : string) (w : World) : Prop :=
  is_Some (abs w !! i) \/ (8 <= base.size (bucket_mates lid i (abs w)))%nat.

Lemma dom_abs w : dom (abs w) = dom (node_id_map_ w).
Proof. unfold abs. by rewrite dom_fmap_L. Qed.

Lemma covered_grows lid i w w' : grows w w' -> covered lid i w -> covered lid i w'.
Proof.
  intros Hg. apply subseteq_dom in Hg. rewrite <- !dom_abs in Hg.
  intros [Hi|Hb]; [left|right].
  - apply elem_of_dom. apply Hg. by apply elem_of_dom.
  - etrans; [exact Hb|]. rewrite <- !size_dom. apply subseteq_size. intros j.
    unfold bucket_mates. rewrite !elem_of_dom. intros [e [He Hj]%map_lookup_filter_Some].
    assert (j ∈ dom (abs w')) as [e' He']%elem_of_dom by (apply Hg, elem_of_dom; by exists e).
    exists e'. by apply map_lookup_filter_Some.
Qed.

(** A node the table may hold but does not take is covered. *)
Lemma refused_covered lid w n :
  table_ok lid w -> acceptable lid n = true -> negb (has_id w (node_id n)) && has_room lid w n = false ->
  covered lid (node_id n) w.
Proof.
  intros Hok Ha Hr. unfold covered. rewrite (abs_bucket lid) by done.
  pose proof (abs_has lid w (node_id n) Hok) as Hh. destruct (has_id w (node_id n)).
  { left. by apply (bool_decide_eq_true _). }
  right. unfold has_room, bucket_of, kKadParamK in Hr.
  simpl in Hr. apply negb_false_iff, Z.leb_le in Hr. lia.
Qed.

(** A node the table may hold is covered once AddNode has returned. *)
Lemma AddNode_covers lid w p :
  table_ok lid w -> acceptable lid (obj_of w p) = true ->
  wlp (AddNode p) (fun _ w' => covered lid (node_id (obj_of w p)) w') w.
Proof.
  intros Hok Ha. destruct codes_distinct as (_ & Hf & Hc).
  pose proof (grows_AddNode p w) as Hg.
  destruct (AddNode_spec lid w p kNodeIdSize_pos Hf Hc Hok) as (w' & E & _ & Hm).
  unfold wlp in *. rewrite E in *.
  destruct (negb (has_id w (node_id (obj_of w p))) && has_room lid w (obj_of w p)) eqn:Er.
  - left. unfold add_code in Hm. rewrite Ha in Hm.
    apply andb_true_iff in Er as [Eh%negb_true_iff Er]. rewrite Eh, Er in Hm. cbn [negb] in Hm.
    rewrite Z.eqb_refl in Hm. destruct Hm as (_ & Em & _).
    apply elem_of_dom. rewrite dom_abs, Em. set_solver.
  - by eapply covered_grows, refused_covered.
Qed.
End covered.

(** ** Learning from an answer *)

Section learning.
Context `{Xbase} `{!XbaseLaws} `{KadKey} `{Xip} `{PartialSort} `{!PartialSortLaws} `{Wire} `{Bloom}.
#[local] Set Default Proof Using "Type*".
Implicit Types (w : World) (p : xpacket) (m : RoutingMessage) (pn : PbNodeInfo).

(** A public node with an endpoint, other than the node itself. *)
Definition usable (lid : string) pn : Prop :=
  id_ok (get pn_id pn) /\ get pn_id pn <> lid /\ get pn_nat_type pn = kNatTypePublic /\
  str_empty (get pn_public_ip pn) = false /\ 0 < u16 (get pn_public_port pn).

Lemma usable_acceptable lid pn n :
  usable lid pn -> peer_of n = (get pn_id pn, get pn_public_ip pn, u16 (get pn_public_port pn), kNatTypePublic) ->
  acceptable lid n = true.
Proof.
  intros (Hid & Hne & _ & Hip & Hport) [= Ei Eip Eport En]. unfold acceptable.
  rewrite Ei, Eip, Eport, En, Hip. unfold id_ok in Hid. rewrite Hid, Nat.eqb_refl.
  rewrite (proj2 (String.eqb_neq _ _) Hne), (proj2 (Z.leb_gt _ _) Hport). done.
Qed.

Lemma AddNode_usable lid w q pn :
  table_ok lid w -> usable lid pn ->
  peer_of (obj_of w q) = (get pn_id pn, get pn_public_ip pn, u16 (get pn_public_port pn), kNatTypePublic) ->
  wlp (_ ← AddNode q; mret tt) (fun _ w' => covered lid (get pn_id pn) w') w.
Proof.
  intros Hok Hu Ep. apply wlp_bind. eapply wlp_mono; [|apply (AddNode_covers lid)]; [|done|by eapply usable_acceptable].
  intros code w' Hc. assert (node_id (obj_of w q) = get pn_id pn) as <- by (by injection Ep). done.
Qed.

(** What handle_found_node does to a usable node. *)
Lemma found_node_covered lid w m p pn :
  started lid w -> usable lid pn ->
  wlp (handle_found_node m p pn) (fun _ w' => covered lid (get pn_id pn) w') w.
Proof.
  intros Hs Hu. pose proof Hu as (_ & Hne & Hnat & _). unfold handle_found_node, wlp.
  rewrite (step_bind _ _ _ _ _ (new_NodeInfo_spec _ _ w)).
  match goal with |- context [fresh ?n0 w] => set (n := n0); set (w1 := fresh n w) end.
  assert (table_ok lid w1) as Hok1 by apply fresh_ok, (st_ok _ w Hs).
  set (q := w_next w). assert (obj_of w1 q = n) as Eq by apply fresh_obj.
  assert (peer_of n = (get pn_id pn, get pn_public_ip pn, u16 (get pn_public_port pn), kNatTypePublic))
    as En by (by rewrite <- Hnat).
  destruct codes_distinct as (Hnd & _ & _).
  destruct (CanAddNode_spec lid w1 q kNodeIdSize_pos Hnd Hok1) as (w2 & E2 & Hok2 & _ & Em2 & _).
  pose proof (wlp_elim _ _ _ _ _ (same_peers_CanAddNode q w1) E2 q) as Ep2.
  rewrite Eq in *. rewrite (step_bind _ _ _ _ _ E2).
  rewrite (usable_acceptable lid pn n Hu En). cbn [andb].
  destruct (negb (has_id w1 (node_id n)) && has_room lid w1 n) eqn:Er; cbn [negb].
  2:{ change (covered lid (node_id n) w2). apply (covered_grows lid _ w1); [unfold grows; by rewrite Em2|].
      apply refused_covered; [done|by eapply usable_acceptable|done]. }
  rewrite En in Ep2. assert (node_id (obj_of w2 q) = get pn_id pn /\ nat_type (obj_of w2 q) = kNatTypePublic)
    as [Ei2 Enat2] by (by injection Ep2).
  destruct (ok_local _ _ Hok2) as (k & Hk & _). unfold local_key in Hk.
  unfold local. rewrite step_assoc. mstep. destruct (local_node_ptr_ w2) as [l|] eqn:El; [|done].
  mstep. rewrite (step_bind _ _ _ _ _ (local_id_ok lid w2 Hok2)). unfold obj. mstep.
  rewrite Ei2, Enat2, (proj2 (String.eqb_neq _ _) Hne), andb_false_r, Z.eqb_refl. cbn [negb when orb].
  match goal with |- context [if ?b then _ else _] => destruct b end; [|by apply AddNode_usable].
  unfold gxid. rewrite step_assoc. mstep. destruct (w_global_xid w2) as [g|]; [|exact I]. do 3 mstep.
  match goal with |- context [mutate q ?f] => set (f0 := f); set (w3 := w2 <| w_heap ::= alter f0 q |>) end.
  rewrite (step_bind (mutate q f0) _ w2 tt w3 eq_refl).
  assert (forall n, peer_of (f0 n) = peer_of n) as Hf by done.
  pose proof (wlp_elim _ _ _ tt w3 (same_peers_mutate q f0 Hf w2) eq_refl q) as Ep3.
  apply AddNode_usable; [by apply table_ok_mutate|done|by rewrite Ep3].
Qed.

Lemma found_nodes_covered lid w m p l :
  started lid w ->
  exists w', for_each l (handle_found_node m p) w = Ok (tt, w') /\ started lid w' /\ grows w w' /\
    forall pn, pn ∈ l -> usable lid pn -> covered lid (get pn_id pn) w'.
Proof.
  revert w. induction l as [|x l IH]; intros w Hs.
  { exists w. splits; [done|done|by unfold grows|]. by intros pn ?%elem_of_nil. }
  destruct (wp_elim _ _ _ (runs_found_node lid m p x w Hs)) as ([] & w1 & E1 & Hs1).
  pose proof (wlp_elim _ _ _ _ _ (grows_found_node m p x w) E1) as Hg1.
  destruct (IH w1 Hs1) as (w' & E & Hs' & Hg & Hc). exists w'. cbn [for_each].
  rewrite (step_bind _ _ _ _ _ E1). splits; [done|done|by trans w1|].
  intros pn [->|Hpn]%elem_of_cons Hu; [|by apply Hc]. apply (covered_grows lid _ w1); [done|].
  by apply (wlp_elim _ _ _ _ _ (found_node_covered lid w m p x Hs Hu) E1).
Qed.

(** What an answer to a search of the node does: of its entries, every usable
    one is in the table afterwards, or its bucket is full; nothing is lost. *)
Lemma answer_learned lid w m p (res : FindClosestNodesResponse) :
  started lid w -> get msg_des_node_id m = lid -> no_data m = false ->
  ParseFromString (get msg_data m) = Some res ->
  exists w', HandleFindNodesResponse m p w = Ok (tt, w') /\ started lid w' /\ grows w w' /\
    forall pn, pn ∈ fnres_nodes res -> usable lid pn -> covered lid (get pn_id pn) w'.
Proof.
  intros Hs Hdes Hd Hp. unfold HandleFindNodesResponse.
  rewrite (step_bind _ _ _ _ _ (local_id_ok lid w (st_ok _ w Hs))), Hdes, String.eqb_refl, Hd, Hp.
  by apply found_nodes_covered.
Qed.
End learning.

(** ** The search *)

Section search.
Context `{Xbase} `{!XbaseLaws} `{KadKey} `{Xip} `{PartialSort} `{!PartialSortLaws} `{Wire} `{Bloom}.
Context `{!SearchWireLaws}.
#[local] Set Default Proof Using "Type*".
Implicit Types (w : World) (m : RoutingMessage).

(** A search of [asker] sent to [asked], naming [words] as its filter. *)
Definition search_request (asker asked : string) (count : Z) (words : list Z) m : Prop :=
  get msg_type m = kKadFindNodesRequest /\ get msg_src_node_id m = asker /\
  get msg_des_node_id m = asked /\ no_data m = false /\
  exists r, ParseFromString (get msg_data m) = Some r /\ get fnreq_target_id r = asker /\
    get fnreq_count r = u32 count /\ fnreq_bloomfilter r = words.

(** One packet for a node, whichever of its endpoints it is sent to. *)
Lemma SendFindClosestNodes_sends lid w asked p count known service words :
  started lid w -> node_id_map_ w !! asked = Some p ->
  GetExistsNodesBloomfilter known w = Ok (words, w) ->
  exists pk m, SendFindClosestNodes asked count known service w =
      Ok (kKadSuccess, push_net [pk] (numbered w)) /\
    ParseFromString (pk_data pk) = Some m /\ search_request lid asked count words m.
Proof.
  intros Hs Hp Hw. destruct (started_knows lid w Hs) as (l & x & xp & El & [K1 K2 K3 K4 K5 K6]).
  unfold SendFindClosestNodes, request. rewrite step_assoc, (step_bind _ _ _ _ _ K6), step_ret.
  rewrite (step_bind _ _ _ _ _ (K1 (numbered w) eq_refl)), (step_bind _ _ _ _ _ (K2 (numbered w) eq_refl)).
  assert (GetExistsNodesBloomfilter known (numbered w) = Ok (words, numbered w)) as Hw'
    by (injection Hw as <-; done).
  rewrite (step_bind _ _ _ _ _ Hw'), (step_bind _ _ _ _ _ (K3 (numbered w) eq_refl)).
  rewrite (step_bind _ _ _ _ _ (K4 (numbered w) eq_refl)). cbv zeta.
  match goal with |- context [SerializeToString ?r] =>
    destruct (sw_request_text r eq_refl) as (body & Eb & Hb); set (req := r) in * end.
  rewrite Eb. unfold SetSpeClientMessage, GetNode. rewrite step_assoc. do 2 mstep.
  change (node_id_map_ (numbered w)) with (node_id_map_ w). rewrite Hp.
  match goal with |- context [SendData_node ?m0] => set (m := m0) end.
  destruct (st_transport lid (numbered w)) as [t Et]; [by apply (started_core lid w)|].
  destruct (SendData_node_spec (numbered w) t m p Et) as [r E]. rewrite (step_bind _ _ _ _ _ E).
  destruct (node_packet m (obj_of (numbered w) p)) as (pk & -> & _ & Epk).
  exists pk, (SetVersion m). split; [reflexivity|]. split; [done|].
  assert (get msg_data (SetVersion m) = body) as Em by reflexivity.
  unfold search_request. splits; try reflexivity.
  - unfold no_data. by rewrite Em, Hb.
  - exists req. rewrite Em. splits; [by apply sw_request|done..].
Qed.

(** The filter an asked node rebuilds from the words of a request. *)
Definition words_filter (words : list Z) : Uint64BloomFilter :=
  request_filter (FindClosestNodesRequest_empty <| fnreq_bloomfilter := words |>).

Lemma request_filter_words r : request_filter r = words_filter (fnreq_bloomfilter r).
Proof. reflexivity. Qed.

(** Below the limits of an answer every answerable node of the table is named. *)
Lemma answer_complete filter target self w q :
  (length self <= 1)%nat -> (length (nodes_ w) <= 15)%nat -> q ∈ nodes_ w ->
  answerable filter target (obj_of w q) = true ->
  pb_of (obj_of w q) ∈ answer_of filter target self (nodes_ w) w.
Proof.
  intros Hself Hlen Hq Ha. apply elem_of_app. right. apply list_elem_of_fmap.
  exists (obj_of w q). split; [done|]. rewrite take_ge.
  - apply list_elem_of_In, filter_In. split; [|done]. apply list_elem_of_In, list_elem_of_fmap. by exists q.
  - etrans; [apply filter_length_le|]. rewrite length_fmap. lia.
Qed.

Lemma search_answered lid w m asker ip port count words q :
  started lid w -> search_request asker lid count words m -> id_ok asker ->
  (length (nodes_ w) <= 14)%nat -> 14 <= count < 2 ^ 31 - 1 ->
  q ∈ nodes_ w -> node_id (obj_of w q) <> asker ->
  bf_Contain (words_filter words) (node_id (obj_of w q)) = false ->
  exists m' w' data ans prio res n,
    HandleFindNodesRequest m (mkXpacket ip port) w = Ok (m', w') /\ started lid w' /\ grows w w' /\
    w_net w' = w_net w ++ [mkPacket KData prio data ip (u16 port)] /\
    ParseFromString data = Some ans /\
    get msg_type ans = kKadFindNodesResponse /\ get msg_des_node_id ans = asker /\
    no_data ans = false /\ ParseFromString (get msg_data ans) = Some res /\
    pb_of n ∈ fnres_nodes res /\ peer_of n = peer_of (obj_of w q).
Proof.
  intros Hs (Ht & Hsrc & Hdes & Hd & r & Hr & Htgt & Hcnt & Hwords) Hid Hlen Hcount Hq Hne Hbf.
  destruct (find_nodes_exact lid w m (mkXpacket ip port) r Hs Hdes Hd Hr) as
    (m' & w' & sent & self & l & E & [Hs' Hm Hp Hz] & En & Hself & _ & _ & Hall & Hsent); [by rewrite Htgt|].
  assert (u32 (get fnreq_count r + 1) = count + 1) as Ecnt.
  { rewrite Hcnt. unfold u32. rewrite (Z.mod_small count), Z.mod_small; lia. }
  rewrite Ecnt in Hall. assert (i32 (count + 1) = count + 1) as Ei.
  { unfold i32. rewrite Z.mod_small; lia. }
  assert (l = nodes_ w') as -> by (apply Hall; lia).
  assert (q ∈ nodes_ w') as Hq'.
  { apply (ok_map _ _ (st_ok _ _ Hs') (node_id (obj_of w q))).
    eapply lookup_weaken; [|exact Hm]. by apply (ok_map _ _ (st_ok _ _ Hs)). }
  assert (pb_of (obj_of w' q) ∈ answer_of (request_filter r) (get fnreq_target_id r) self (nodes_ w') w')
    as Hin.
  { apply answer_complete; [done|lia|done|]. assert (node_id (obj_of w' q) = node_id (obj_of w q)) as Enid.
    { specialize (Hp q Hq). by injection Hp. }
    unfold answerable. rewrite request_filter_words, Hwords, Htgt, Enid, Hbf.
    by rewrite (proj2 (String.eqb_neq _ _) Hne). }
  cbv zeta in Hsent. set (nodes := answer_of _ _ _ _ _) in *.
  destruct (sw_answer_text (mkFindClosestNodesResponse nodes)) as (data & Edata & Hdata).
  { simpl. intros E0. rewrite E0 in Hin. by apply elem_of_nil in Hin. }
  rewrite Edata in Hsent. destruct (Nat.eqb_spec (length nodes) 0) as [E0|_].
  { apply length_zero_iff_nil in E0. rewrite E0 in Hin. by apply elem_of_nil in Hin. }
  destruct Hsent as (rm & -> & Edat & _ & Edes & Ety & _ & _).
  destruct (packet_of rm ip port) as (bytes & Eb & Epk). cbn [get_from_ip_addr get_from_ip_port] in En.
  rewrite Epk in En.
  assert (get msg_data (SetVersion rm) = data) as Em.
  { unfold get. rewrite (SetVersion_get msg_data) by done. by rewrite Edat. }
  eexists m', w', bytes, (SetVersion rm), _, (mkFindClosestNodesResponse nodes), (obj_of w' q).
  splits; [exact E|done|done|exact En|exact Eb|..].
  - unfold get. rewrite (SetVersion_get msg_type) by done. by rewrite Ety.
  - unfold get. rewrite (SetVersion_get msg_des_node_id) by done. by rewrite Edes.
  - unfold no_data. rewrite Em, Hdata. unfold is_set. rewrite (SetVersion_get msg_data) by done. by rewrite Edat.
  - rewrite Em. by apply sw_answer.
  - done.
  - by apply Hp.
Qed.

(** C10: Discovery, end to end: a started node that searches at a node it knows,
    whose table is small enough for one answer, sends one packet; delivered
    there, it is answered with one packet to the address it was seen from; and
    once the answer has come back the asker knows every public node of the other
    table its request did not name, or its bucket for it is full. Neither
    node loses a node it knew. *)
Theorem neighbours_learned a lida b lidb nata natb pb q count known words service ipa porta ipb portb :
  started lida a -> started lidb b ->
  node_id_map_ a !! lidb = Some pb -> GetExistsNodesBloomfilter known a = Ok (words, a) ->
  (length (nodes_ b) <= 14)%nat -> 14 <= count < 2 ^ 31 - 1 ->
  q ∈ nodes_ b ->
  let n := obj_of b q in
  node_id n <> lida -> nat_type n = kNatTypePublic -> public_port n < 2 ^ 16 ->
  bf_Contain (words_filter words) (node_id n) = false ->
  exists request a1 b1 answer prio a2,
    SendFindClosestNodes lidb count known service a = Ok (kKadSuccess, a1) /\
    w_net a1 = w_net a ++ [request] /\
    deliver (pk_data request) ipa porta (b, natb) = Ok (b1, natb) /\ started lidb b1 /\ grows b b1 /\
    w_net b1 = w_net b ++ [mkPacket KData prio answer ipa (u16 porta)] /\
    deliver answer ipb portb (a1, nata) = Ok (a2, nata) /\ started lida a2 /\ grows a a2 /\
    covered lida (node_id n) a2.
Proof.
  intros Ha Hb Hpb Hw Hlen Hcount Hq n Hne Hnat Hport Hbf.
  destruct (SendFindClosestNodes_sends lida a lidb pb count known service words Ha Hpb Hw)
    as (pk & m & E1 & Em & Hm).
  set (a1 := push_net [pk] (numbered a)) in E1.
  assert (started lida a1) as Ha1 by (by apply numbered_started).
  destruct (search_answered lidb b m lida ipa porta count words q Hb Hm (ok_lid _ _ (st_ok _ _ Ha)) Hlen
    Hcount Hq Hne Hbf)
    as (m' & b1 & data & ans & prio & res & n' & E2 & Hb1 & Hg1 & En & Eans & Ht & Hdes & Hd & Hres & Hin & Ep).
  destruct (answer_learned lida a1 ans (mkXpacket ipb portb) res Ha1 Hdes Hd Hres)
    as (a2 & E3 & Ha2 & Hg2 & Hc).
  exists pk, a1, b1, data, prio, a2. splits; try done.
  - eapply (deliver_run _ _ _ _ _ m HFindNodesRequest); [done| |done|].
    + destruct Hm as (-> & _). apply registered_processor. simpl. tauto.
    + cbn [run_handler]. by rewrite (step_bind _ _ _ _ _ E2).
  - eapply (deliver_run _ _ _ _ _ ans HFindNodesResponse); [done| |done|done].
    rewrite Ht. apply registered_processor. simpl. tauto.
  - destruct (ok_valid _ _ (st_ok _ _ Hb) q Hq) as (Hid & _ & _ & Hip & Hpos & _). fold n in Hid, Hip, Hpos.
    injection Ep as Ei Eip Eport En'. specialize (Hc (pb_of n') Hin). unfold usable in Hc. cbn in Hc.
    unfold n in *. rewrite Ei, Eip, Eport, En', u16_id in Hc by lia. apply Hc. by splits.
Qed.
End search.

(** ** An example: "abcd" knows "wxyz", which knows "efgh" *)

Section witness.
Import Examples.
#[local] Existing Instance selection_sort.
#[local] Existing Instance countable_wire.

Lemma ex_search_wire_laws : SearchWireLaws.
Proof.
  assert (forall p q : positive, str_empty (pos_digits (prod_encode p q)) = false) as Hne by (by intros [] []).
  assert (forall p : positive, p <> 1%positive -> str_empty (pos_digits p) = false) as Hne1
    by (intros [p|p|] Hp; [reflexivity..|by destruct Hp]).
  split; [split; [apply countable_proto_laws|intros m; eexists; reflexivity]|apply countable_proto_laws..| |].
  - intros r _. eexists. split; [reflexivity|apply Hne].
  - intros [nodes] Hr. eexists. split; [reflexivity|]. apply Hne1. intros E.
    change 1%positive with (encode (mkFindClosestNodesResponse [])) in E.
    apply (inj encode) in E. by rewrite E in Hr.
Qed.
#[local] Existing Instance ex_search_wire_laws.

Definition ex_asker : World := ex_add "wxyz" 9001 (ex_alone "abcd").
Definition ex_asked : World := ex_add "efgh" 9002 (ex_alone "wxyz").
Definition ex_no_words : list Z :=
  match GetExistsNodesBloomfilter [] ex_asker with Ok (v, _) => v | Fault _ => [] end.

Lemma neighbours_learned_witness :
  exists q a2, node_id (obj_of ex_asked q) = "efgh"%string /\ started "abcd" a2 /\ covered "abcd" "efgh" a2.
Proof.
  assert (forall id, id_ok id -> started id (ex_alone id)) as Hs by apply ex_alone_started.
  destruct (neighbours_learned ex_asker "abcd" ex_asked "wxyz" (NatManager_new 0 (fun _ => 0))
    (NatManager_new 0 (fun _ => 0)) 1%positive 1%positive 232 [] ex_no_words 1 "5.6.7.8" 4000 "1.2.3.4" 9100)
    as (rq & a1 & b1 & ans & prio & a2 & _ & _ & _ & _ & _ & _ & _ & Ha2 & _ & Hc).
  - by apply ex_add_started, Hs.
  - by apply ex_add_started, Hs.
  - vm_compute. reflexivity.
  - vm_compute. reflexivity.
  - vm_compute. lia.
  - lia.
  - apply elem_of_cons. left. vm_compute. reflexivity.
  - vm_compute. discriminate.
  - vm_compute. reflexivity.
  - vm_compute. reflexivity.
  - vm_compute. reflexivity.
  - exists 1%positive, a2. split; [vm_compute; reflexivity|]. split; [exact Ha2|].
    exact Hc.
Defined.
End witness.
