(* ===== verification/Routing.v ===== *)
(** Routing through the network: a request for a node that its sender does not
    know is handed from node to node until it reaches that node. The hosts keep
    their own states; a packet is delivered to the host that listens at its
    endpoint, and what that host sends in turn is followed. *)

From S2P Require Import Prelude Invariants Externals Messages Distance Sorting NodeInfo LocalNodeInfo.
From S2P Require Import NatDetect ClientNodes BootstrapCache World RoutingTable TableFacts TableProps.
From S2P Require Import Sending SendProps NodeDetection RoutingHandlers RoutingJoin Frames Robust.
From S2P Require Import HandlerProps KadMessageHandler Exchange.

(** What protobuf documents of the codecs of a connect request. *)
Class ConnectWireLaws `{Wire} : Prop := {
  cw_messages :: MessageWireLaws;
  cw_request :: ProtoLaws ConnectReq;
  cw_request_text (r : ConnectReq) : exists s, SerializeToString r = Some s }.

(** ** Following a packet *)

(** A routing node with the process's NAT manager. *)
Notation host := (World * NatManager)%type.

(** Who listens at an endpoint, and the endpoint a host's packets come from. *)
Record topology := mkTopology {
  listens : string -> Z -> option string;
  seen_as : string -> string * Z }.

Section follow.
Context `{Xbase} `{KadKey} `{Xip} `{PartialSort} `{Wire} `{Bloom}.

(** The host a packet reaches. *)
Definition receiver (T : topology) (net : gmap string host) (pk : packet) : option (string * host) :=
  match listens T (pk_ip pk) (pk_port pk) with
  | None => None
  | Some i => (fun s => (i, s)) <$> net !! i
  end.

(** The hosts a packet from [from] comes through, as long as each of them sends
    one packet in turn, and the network afterwards. *)
Fixpoint follow (fuel : nat) (T : topology) (net : gmap string host) (from : string) (pk : packet)
    : outcome (list string * gmap string host) :=
  match fuel with
  | O => Fault OutOfFuel
  | S fuel' =>
      match receiver T net pk with
      | None => Ok ([], net)
      | Some (i, s) =>
          let '(ip, port) := seen_as T from in
          s' ← deliver (pk_data pk) ip port s;
          let net := <[i := s']> net in
          match drop (length (w_net s.1)) (w_net s'.1) with
          | [pk'] => '(trail, net) ← follow fuel' T net i pk'; Ok (i :: trail, net)
          | _ => Ok ([i], net)
          end
      end
  end.
End follow.

(** ** One hop *)

Section hop.
Context `{Xbase} `{!XbaseLaws} `{KadKey} `{Xip} `{PartialSort} `{!PartialSortLaws} `{Wire} `{Bloom}.
Context `{!ConnectWireLaws}.
#[local] Set Default Proof Using "Type*".
Implicit Types (w : World) (m : RoutingMessage).

(** The host [i] can bring a message closer to [des]: it runs and forwards, and
    the nodes of its table that are closer to [des] than itself, of which there
    is one that does not share its public endpoint, are reached at their
    endpoints. *)
Record relays (des : string) (T : topology) (net : gmap string host) (i : string) w : Prop := {
  re_started : started i w;
  re_active l : local_node_ptr_ w = Some l -> ln_first_node l || joined_ w = true;
  re_reached p : p ∈ nodes_ w -> (xor_distance (node_id (obj_of w p)) des < xor_distance i des)%N ->
    let '(ip, port) := send_endpoint (obj_of w p) in
    listens T ip port = Some (node_id (obj_of w p)) /\ is_Some (net !! node_id (obj_of w p));
  re_closer l : local_node_ptr_ w = Some l -> exists p, p ∈ nodes_ w /\
    (xor_distance (node_id (obj_of w p)) des < xor_distance i des)%N /\
    (public_ip (obj_of w p), public_port (obj_of w p)) <> (ln_public_ip l, ln_public_port l) }.

(** A connect request of [a] for [des] with the body [req]. *)
Record connect_for (a des : string) (req : ConnectReq) m : Prop := {
  cf_type : get msg_type m = kKadConnectRequest;
  cf_des : get msg_des_node_id m = des;
  cf_src : get msg_src_node_id m = a;
  cf_data : ParseFromString (get msg_data m) = Some req }.

(** All hops so far are farther from [des] than [i]. *)
Definition behind (des i : string) m : Prop :=
  NoDup (hop_ids m) /\ Forall (fun h => xor_distance i des < xor_distance h des)%N (hop_ids m).

Lemma connect_for_sent a des req lid m :
  connect_for a des req m -> connect_for a des req (SetVersion (with_hop lid m)).
Proof.
  intros [Ht Hd Hs Hr]. unfold get in *.
  split; unfold get; by rewrite (SetVersion_get _ (with_hop lid m)) by done.
Qed.

Lemma behind_next des i j m :
  behind des i m -> (xor_distance j des < xor_distance i des)%N ->
  behind des j (SetVersion (with_hop i m)).
Proof.
  intros [Hn Hf] Hj. unfold behind, hop_ids. rewrite SetVersion_hops. fold (hop_ids (with_hop i m)).
  rewrite with_hop_ids. split.
  - apply NoDup_app. split; [done|]. split; [|apply NoDup_singleton].
    intros h Hh ->%list_elem_of_singleton. rewrite Forall_forall in Hf. specialize (Hf i Hh). lia.
  - apply Forall_app. split; [|by apply Forall_singleton].
    eapply Forall_impl; [exact Hf|]. intros h Hh. cbn beta in Hh. lia.
Qed.

(** A relay sends a message that has only been farther away to a node of its
    table that is closer. *)
Lemma relay_sends des T net i w m :
  relays des T net i w -> id_ok des -> i <> des -> get msg_des_node_id m = des -> behind des i m ->
  exists m' w' pk j, SendToClosestNode m w = Ok (m', w') /\ started i w' /\
    w_net w' = w_net w ++ [pk] /\ listens T (pk_ip pk) (pk_port pk) = Some j /\ is_Some (net !! j) /\
    ParseFromString (pk_data pk) = Some (SetVersion (with_hop i m)) /\
    (xor_distance j des < xor_distance i des)%N.
Proof.
  intros [Hs Hact Hre Hcl] Hdes Hne Hd [Hn Hf].
  destruct (st_local _ _ Hs) as (l & x & El & _ & _). destruct (st_transport _ _ Hs) as [t Et].
  assert (id_ok (get msg_des_node_id (with_hop i m))) as Hdes' by (by change (id_ok (get msg_des_node_id m)); rewrite Hd).
  destruct (RecursiveSend_spec i w t l (with_hop i m) 0 (st_ok _ _ Hs) Et El Hdes')
    as (m' & w' & sent & E & _ & _ & Hnet & Hc).
  assert (SendToClosestNode m w = Ok (m', w')) as E'.
  { rewrite (SendToClosestNode_forwards i w l); [done|apply Hs|done|by rewrite Hd|by apply Hact]. }
  assert (started i w') as Hs'.
  { eapply always_after; [|exact Hs|exact E']. apply runs_SendToClosestNode_hop. by rewrite Hd. }
  rewrite with_hop_ids in Hc. destruct (Hcl l El) as (q & Hq & Hqd & Hqe).
  assert (may_receive i l (hop_ids m ++ [i]) (obj_of w q)) as Hfit.
  { split; [intros Eq; rewrite Eq in Hqd; lia|]. split; [done|].
    intros [Hin|Eq%list_elem_of_singleton]%elem_of_app; [|rewrite Eq in Hqd; lia].
    rewrite Forall_forall in Hf. specialize (Hf _ Hin). lia. }
  destruct Hc as [(_ & _ & [Hno|Hno])|(p & _ & Hp & _ & Hnear & -> & ->)].
  - exfalso. apply Hno. apply NoDup_app. split; [done|]. split; [|apply NoDup_singleton].
    intros h Hh ->%list_elem_of_singleton. rewrite Forall_forall in Hf. specialize (Hf i Hh). lia.
  - by destruct (Hno q Hq).
  - assert (xor_distance (node_id (obj_of w p)) des < xor_distance i des)%N as Hpd.
    { eapply N.le_lt_trans; [|exact Hqd]. apply N.ltb_ge. rewrite <- Hd. by apply Hnear. }
    destruct (node_packet (with_hop i m) (obj_of w p)) as (pk & Epk & Eend & Eparse).
    rewrite Epk in Hnet. specialize (Hre p Hp Hpd). rewrite <- Eend in Hre. destruct Hre as [Hl Hj].
    eexists _, w', pk, _. by splits.
Qed.
(** A connect request is for this node exactly when it names it. *)
Lemma connect_handler_at m pk i w (req : ConnectReq) :
  started i w -> ParseFromString (get msg_data m) = Some req ->
  get msg_des_node_id m <> i -> HandleConnectRequest m pk w = SendToClosestNode m w.
Proof.
  intros Hs Hr Hne. unfold HandleConnectRequest. rewrite Hr. unfold IsDestination. rewrite step_assoc.
  rewrite (step_bind _ _ _ _ _ (local_id_ok _ _ (st_ok _ _ Hs))).
  rewrite (proj2 (String.eqb_neq _ _) Hne). cbn [negb]. by msteps.
Qed.

Lemma connect_processor : processor_of kKadConnectRequest = Some HConnectRequest.
Proof. apply registered_processor. simpl. tauto. Qed.

Lemma deliver_connect data ip port w nat m m' w' :
  ParseFromString data = Some m -> get msg_type m = kKadConnectRequest ->
  HandleConnectRequest m (mkXpacket ip port) w = Ok (m', w') ->
  deliver data ip port (w, nat) = Ok (w', nat).
Proof.
  intros Hp Ht E. apply (deliver_run _ _ _ _ _ m HConnectRequest); [done| |done|].
  - rewrite Ht. apply connect_processor.
  - cbn [run_handler]. by rewrite (step_bind _ _ _ _ _ E).
Qed.

Lemma relay_delivers a des req T net i w nat data ip port m :
  relays des T net i w -> id_ok des -> i <> des ->
  ParseFromString data = Some m -> connect_for a des req m -> behind des i m ->
  exists w' pk j m', deliver data ip port (w, nat) = Ok (w', nat) /\
    w_net w' = w_net w ++ [pk] /\ listens T (pk_ip pk) (pk_port pk) = Some j /\ is_Some (net !! j) /\
    ParseFromString (pk_data pk) = Some m' /\ connect_for a des req m' /\ behind des j m' /\
    (xor_distance j des < xor_distance i des)%N.
Proof.
  intros Hre Hdes Hne Hp Hm Hb. pose proof Hm as [Ht Hd _ Hr].
  destruct (relay_sends des T net i w m Hre Hdes Hne Hd Hb)
    as (m' & w' & pk & j & E & _ & Hnet & Hl & Hj & Hparse & Hlt).
  exists w', pk, j, (SetVersion (with_hop i m)). splits; try done.
  - eapply deliver_connect; [done..|]. rewrite (connect_handler_at _ _ i w req); [done|apply Hre|done|].
    rewrite Hd. congruence.
  - by apply connect_for_sent.
  - by apply behind_next.
Qed.
(** ** Arrival *)

Import NodeDetectionManager.

(** After [w], the host [w'] detects a node at the endpoint; it is the node [a]
    unless the host was detecting that endpoint before. *)
Definition detecting (w w' : World) (a ip : string) (port : Z) : Prop :=
  exists d d' p, node_detection_ptr_ w = Some d /\ node_detection_ptr_ w' = Some d' /\
    detection_nodes_map d' !! key_of ip port = Some p /\
    (detection_nodes_map d !! key_of ip port = None -> node_id (obj_of w' p) = a).

(** The host takes connect requests of such a node. *)
Definition accepts (nat : Z) w : Prop :=
  (exists d, node_detection_ptr_ w = Some d /\ det_destroy d = false) /\
  forall l, local_node_ptr_ w = Some l -> ln_nat_type l <> kNatTypeConeAbnormal \/ nat <> kNatTypeConeAbnormal.

Lemma AddDetectionNode_spec p w d :
  node_detection_ptr_ w = Some d -> det_destroy d = false ->
  let n := obj_of w p in
  exists r w', AddDetectionNode p w = Ok (r, w') /\ w_net w' = w_net w /\
    detecting w w' (node_id n) (public_ip n) (public_port n).
Proof.
  intros Ed Hd n. unfold AddDetectionNode, detection. msteps. rewrite Ed. msteps. rewrite Hd.
  unfold obj. msteps. unfold mutate. mstep. fold n. set (w1 := w <| w_heap ::= _ |>).
  assert (node_id (obj_of w1 p) = node_id n) as En.
  { unfold n, obj_of, w1. simpl. rewrite !lookup_total_alt, lookup_alter_eq. by destruct (w_heap w !! p). }
  destruct (detection_nodes_map d !! _) as [q|] eqn:Eq.
  - exists kKadFailed, w1. split; [done|]. split; [done|]. exists d, d, q. splits; [done..|]. by rewrite Eq.
  - eexists kKadSuccess, _. split; [reflexivity|]. split; [done|]. eexists d, _, p.
    split; [done|]. split; [by simpl; rewrite Ed|]. split; [by apply lookup_insert_eq|]. by intros _.
Qed.

Lemma connect_arrives a des (req : ConnectReq) w nat data ip port m :
  started des w -> accepts (get creq_nat_type req) w ->
  ParseFromString data = Some m -> connect_for a des req m ->
  exists w', deliver data ip port (w, nat) = Ok (w', nat) /\ started des w' /\ w_net w' = w_net w /\
    detecting w w' a (get creq_public_ip req) (u16 (get creq_public_port req)).
Proof.
  intros Hs [(d & Ed & Hdd) Hnat] Hp Hm. pose proof Hm as [Ht Hd Hsrc Hr].
  assert (id_ok des) as Hdes by apply Hs.
  destruct (st_local _ _ Hs) as (l & x & El & _ & _).
  cut (exists m' w', HandleConnectRequest m (mkXpacket ip port) w = Ok (m', w') /\ w_net w' = w_net w /\
    detecting w w' a (get creq_public_ip req) (u16 (get creq_public_port req))).
  { intros (m' & w' & E & En & Hdet). exists w'. splits; [by eapply deliver_connect| |done|done].
    eapply always_after; [|exact Hs|exact E]. apply runs_HandleConnectRequest. by rewrite Hd. }
  unfold HandleConnectRequest. rewrite Hr, Hd. unfold IsDestination. rewrite step_assoc.
  rewrite (step_bind _ _ _ _ _ (local_id_ok _ _ (st_ok _ _ Hs))), String.eqb_refl. mstep. cbn [negb].
  rewrite (step_bind _ _ _ _ _ (new_NodeInfo_spec _ _ w)).
  match goal with |- context [fresh ?n0 w] => set (n := n0) end.
  unfold local. msteps. change (local_node_ptr_ (fresh n w)) with (local_node_ptr_ w). rewrite El.
  unfold obj. msteps. rewrite fresh_obj.
  assert ((ln_nat_type l =? kNatTypeConeAbnormal) && (nat_type n =? kNatTypeConeAbnormal) = false) as ->.
  { apply andb_false_iff. rewrite !Z.eqb_neq. by apply (Hnat l El). }
  destruct (AddDetectionNode_spec (w_next w) (fresh n w) d Ed Hdd) as (r & w' & E & En & Hdet).
  rewrite fresh_obj in Hdet. rewrite (step_bind _ _ _ _ _ E). eexists m, w'. split; [done|]. split; [done|].
  by rewrite <- Hsrc.
Qed.
(** ** The whole route *)

(** The ids of the network that are no farther from [des] than [i]. *)
Definition within (des : string) (net : gmap string host) (i : string) : gset string :=
  filter (fun k => (xor_distance k des <= xor_distance i des)%N) (dom net).

Lemma within_self des net i : is_Some (net !! i) -> i ∈ within des net i.
Proof. intros Hi%elem_of_dom. apply elem_of_filter. split; [lia|done]. Qed.

Lemma within_dom des net i : within des net i ⊆ dom net.
Proof. by intros k [_ Hk]%elem_of_filter. Qed.

Lemma within_shrinks des net i j s :
  (xor_distance j des < xor_distance i des)%N -> is_Some (net !! i) ->
  (size (within des (<[i := s]> net) j) < size (within des net i))%nat.
Proof.
  intros Hlt Hi. apply subset_size. unfold within. split.
  - intros k. rewrite !elem_of_filter, dom_insert_lookup_L by done. intros [Hk ?]. split; [lia|done].
  - intros Hsub. specialize (Hsub i). rewrite !elem_of_filter, dom_insert_lookup_L in Hsub by done.
    apply elem_of_dom in Hi. destruct (Hsub (conj (N.le_refl _) Hi)). lia.
Qed.

Lemma relays_insert des T net i w k s : relays des T net i w -> relays des T (<[k := s]> net) i w.
Proof.
  intros [Hs Ha Hr Hc]. split; [done..| |done]. intros p Hp Hlt. specialize (Hr p Hp Hlt).
  destruct (send_endpoint _) as [ip port]. destruct Hr as [Hl Hj]. split; [done|].
  destruct (decide (k = node_id (obj_of w p))) as [->|Hne]; [by rewrite lookup_insert_eq|].
  by rewrite lookup_insert_ne.
Qed.

(** Each host of the trail is closer to [des] than the ones before it. *)
Definition closing_in (des : string) : list string -> Prop :=
  StronglySorted (fun i j => (xor_distance j des < xor_distance i des)%N).

Lemma follow_route a des (req : ConnectReq) T wb natb fuel :
  id_ok des -> started des wb -> accepts (get creq_nat_type req) wb ->
  forall net from pk m j,
  net !! des = Some (wb, natb) ->
  (forall k w n, (xor_distance k des <= xor_distance j des)%N -> k <> des ->
     net !! k = Some (w, n) -> relays des T net k w) ->
  listens T (pk_ip pk) (pk_port pk) = Some j -> is_Some (net !! j) ->
  ParseFromString (pk_data pk) = Some m -> connect_for a des req m -> behind des j m ->
  (size (within des net j) <= fuel)%nat ->
  exists trail net' wb', follow fuel T net from pk = Ok (trail ++ [des], net') /\
    closing_in des (trail ++ [des]) /\
    Forall (fun k => (xor_distance k des <= xor_distance j des)%N /\ k ∈ dom net) (trail ++ [des]) /\
    (forall k, k ∉ trail ++ [des] -> net' !! k = net !! k) /\
    net' !! des = Some (wb', natb) /\ started des wb' /\ w_net wb' = w_net wb /\
    detecting wb wb' a (get creq_public_ip req) (u16 (get creq_public_port req)).
Proof.
  intros Hdes Hsb Hacc. induction fuel as [|fuel IH]; intros net from pk m j Eb Hre El [[w nat] Ej] Hp Hm Hb Hf.
  { apply Nat.le_0_r, size_empty_inv in Hf. pose proof (within_self des net j). set_solver. }
  cbn [follow]. unfold receiver. rewrite El, Ej. cbn [fmap option_fmap option_map].
  destruct (seen_as T from) as [ip port]. destruct (decide (j = des)) as [->|Hne].
  - rewrite Eb in Ej. injection Ej as <- <-.
    destruct (connect_arrives a des req wb natb (pk_data pk) ip port m Hsb Hacc Hp Hm)
      as (wb' & E & Hs' & En & Hdet).
    rewrite E. cbn [mbind outcome_bind fst]. rewrite En, drop_ge by done.
    exists [], (<[des := (wb', natb)]> net), wb'. splits; try done.
    + repeat constructor.
    + apply Forall_singleton. split; [lia|]. apply elem_of_dom. by eexists.
    + intros k Hk. rewrite lookup_insert_ne; [done|]. intros <-. by apply Hk, list_elem_of_singleton.
    + apply lookup_insert_eq.
  - destruct (relay_delivers a des req T net j w nat (pk_data pk) ip port m) as
      (w' & pk' & j' & m' & E & En & El' & Hj' & Hp' & Hm' & Hb' & Hlt); [by eapply Hre|done..|].
    rewrite E. cbn [mbind outcome_bind fst]. rewrite En, drop_app_length.
    destruct (IH (<[j := (w', nat)]> net) j pk' m' j') as
      (trail & net' & wb' & Ef & Hc & Hall & Hsame & Hrest); [| |done| |done..| |].
    + by rewrite lookup_insert_ne.
    + intros k w0 n Hk Hkd Ek. rewrite lookup_insert_ne in Ek by (intros ->; lia).
      apply relays_insert. eapply Hre; [lia|done..].
    + rewrite lookup_insert_ne; [done|]. intros ->. lia.
    + pose proof (within_shrinks des net j j' (w', nat) Hlt (mk_is_Some _ _ Ej)). lia.
    + rewrite dom_insert_lookup_L in Hall by (by eexists).
      assert (Forall (fun k => (xor_distance k des < xor_distance j des)%N) (trail ++ [des])) as Hcl.
      { eapply Forall_impl; [exact Hall|]. intros k [Hk _]. lia. }
      exists (j :: trail), net', wb'. split; [by rewrite Ef|]. split; [by constructor|].
      split; [|split; [|done]].
      * simpl. constructor; [split; [lia|apply elem_of_dom; by eexists]|].
        eapply Forall_impl; [exact Hall|]. intros k [Hk ?]. split; [lia|done].
      * intros k [Hkj Hk]%not_elem_of_cons. rewrite (Hsame k Hk). by apply lookup_insert_ne.
Qed.
Lemma relays_numbered des T net i w : relays des T net i w -> relays des T net i (numbered w).
Proof.
  intros [Hs Ha Hr Hc]. pose proof (numbered_started i w [] Hs) as Hs'. rewrite push_net_nil in Hs'.
  by split.
Qed.

Lemma SendConnectRequest_sends a des service T net w l :
  relays des T net a w -> id_ok des -> a <> des ->
  local_node_ptr_ w = Some l -> str_empty (ln_public_ip l) = false ->
  exists w' pk j m, SendConnectRequest des service w = Ok (tt, w') /\
    w_net w' = w_net w ++ [pk] /\ listens T (pk_ip pk) (pk_port pk) = Some j /\ is_Some (net !! j) /\
    ParseFromString (pk_data pk) = Some m /\ connect_for a des (connect_req l) m /\ behind des j m /\
    (xor_distance j des < xor_distance a des)%N.
Proof.
  intros Hre Hdes Hne El Hip. pose proof (re_started _ _ _ _ _ Hre) as Hs.
  destruct (started_knows a w Hs) as (l' & x & xp & El' & [K1 K2 K3 K4 K5 K6]).
  rewrite El in El'. injection El' as <-.
  unfold SendConnectRequest, request. rewrite step_assoc, (step_bind _ _ _ _ _ K6). msteps.
  rewrite (step_bind _ _ _ _ _ (K1 (numbered w) eq_refl)), (step_bind _ _ _ _ _ (K2 (numbered w) eq_refl)).
  destruct (cw_request_text (connect_req l)) as (body & Eb). rewrite Eb. cbv zeta. rewrite Hip.
  unfold mark_client. rewrite K5.
  match goal with |- context [SendToClosestNode ?m0] => set (m := m0) end.
  assert (connect_for a des (connect_req l) m) as Hm by (split; try done; by apply cw_request).
  assert (behind des a m) as Hb by (split; [apply NoDup_nil_2|apply Forall_nil_2]).
  destruct (relay_sends des T net a (numbered w) m (relays_numbered _ _ _ _ _ Hre) Hdes Hne eq_refl Hb)
    as (m' & w' & pk & j & E & _ & Hnet & Hl & Hj & Hparse & Hlt).
  exists w', pk, j, (SetVersion (with_hop a m)).
  splits; [by rewrite (step_bind _ _ _ _ _ E)|done|done|done|done| | |done].
  - by apply connect_for_sent.
  - by apply behind_next.
Qed.

Lemma closing_in_NoDup des l : closing_in des l -> NoDup l.
Proof.
  induction 1 as [|i l Hl IH Hi]; constructor; [|done].
  intros Hin. rewrite Forall_forall in Hi. specialize (Hi i Hin). lia.
Qed.

Lemma trail_short (net : gmap string host) (l : list string) :
  NoDup l -> Forall (fun k => k ∈ dom net) l -> (length l <= size net)%nat.
Proof.
  intros Hn Hl. rewrite <- size_dom, <- (size_list_to_set (C := gset string) l Hn).
  apply subseteq_size. intros k Hk%elem_of_list_to_set. rewrite Forall_forall in Hl. auto.
Qed.

(** C11: Routing, end to end: suppose every host no farther from a node [des]
    than [a] (xor distance) runs and has, unless it is [des], a node closer to
    [des] in its table, behind another public endpoint than its own, and the
    closer nodes in its table can be reached. Then the request by which [a]
    asks [des], which it need not know, to connect is handed from host to host,
    each strictly closer to [des], and reaches [des] in fewer transmissions than
    there are hosts. Hosts off the route are left alone; [des] sends nothing but
    begins to detect [a] at its public endpoint. *)
Theorem connect_request_routed a des service net T wa nata la wb natb :
  a <> des -> net !! a = Some (wa, nata) -> net !! des = Some (wb, natb) ->
  started des wb -> local_node_ptr_ wa = Some la -> str_empty (ln_public_ip la) = false ->
  accepts (ln_nat_type la) wb ->
  (forall i w n, (xor_distance i des <= xor_distance a des)%N -> i <> des ->
     net !! i = Some (w, n) -> relays des T net i w) ->
  exists wa' pk trail net' wb',
    SendConnectRequest des service wa = Ok (tt, wa') /\ w_net wa' = w_net wa ++ [pk] /\
    follow (size net) T (<[a := (wa', nata)]> net) a pk = Ok (trail ++ [des], net') /\
    closing_in des (a :: trail ++ [des]) /\ (length (trail ++ [des]) < size net)%nat /\
    (forall k, k ∉ trail ++ [des] -> net' !! k = <[a := (wa', nata)]> net !! k) /\
    net' !! des = Some (wb', natb) /\ started des wb' /\ w_net wb' = w_net wb /\
    detecting wb wb' a (ln_public_ip la) (u16 (ln_public_port la)).
Proof.
  intros Hne Ea Eb Hsb El Hip Hacc Hre. assert (id_ok des) as Hdes by apply Hsb.
  destruct (SendConnectRequest_sends a des service T net wa la) as
    (wa' & pk & j & m & E & En & Hl & Hj & Hp & Hm & Hb & Hlt); [by eapply Hre; [lia|..]|done..|].
  destruct (follow_route a des (connect_req la) T wb natb (size net) Hdes Hsb Hacc (<[a := (wa', nata)]> net) a pk m j)
    as (trail & net' & wb' & Ef & Hc & Hall & Hsame & Hrest); [| |done| |done..| |].
  - by rewrite lookup_insert_ne.
  - intros k w0 n Hk Hkd Ek. rewrite lookup_insert_ne in Ek by (intros ->; lia).
    apply relays_insert. eapply Hre; [lia|done..].
  - rewrite lookup_insert_ne; [done|]. intros ->. lia.
  - etrans; [apply subseteq_size, within_dom|]. by rewrite dom_insert_lookup_L, size_dom by (by eexists).
  - rewrite dom_insert_lookup_L in Hall by (by eexists).
    assert (closing_in des (a :: trail ++ [des])) as Hca.
    { constructor; [done|]. eapply Forall_impl; [exact Hall|]. intros k [Hk _]. lia. }
    exists wa', pk, trail, net', wb'. splits; try done; try apply Hrest.
    apply (trail_short net (a :: trail ++ [des])); [by eapply closing_in_NoDup|].
    constructor; [apply elem_of_dom; by eexists|]. eapply Forall_impl; [exact Hall|]. by intros k [_ ?].
Qed.
End hop.

(** ** An example: "abcd" reaches "wxyz" through "wbcd" *)

Section witness.
Import Examples.
#[local] Existing Instance selection_sort.
#[local] Existing Instance countable_wire.

Lemma ex_connect_wire_laws : ConnectWireLaws.
Proof.
  split; [split; [apply countable_proto_laws|intros m; eexists; reflexivity]|apply countable_proto_laws|].
  intros r. eexists. reflexivity.
Qed.
#[local] Existing Instance ex_connect_wire_laws.

Definition ex_router_own (id ip : string) : LocalNodeInfo :=
  (ex_own id) <| ln_first_node := true |> <| ln_public_ip := ip |> <| ln_public_port := 9000 |>.

Definition ex_router (id ip : string) : World :=
  after_init (RoutingTable_new (Some 9000) (Some (ex_router_own id ip)) (Some ex_key)
    ClientNodeManager.init 100 0 (fun _ => 0) (fun n => Z.of_nat n)).

Lemma ex_router_started id ip : id_ok id -> started id (ex_router id ip).
Proof.
  intros Hid. split; [|exists (ex_router_own id ip), xip_default; splits; reflexivity|by eexists..].
  apply after_init_ok. by apply (table_ok_new _ (ex_router_own id ip) (mkKey id 1 0)).
Qed.

Definition ex_from : World := ex_add "wbcd" 9001 (ex_router "abcd" "10.0.0.1").
Definition ex_middle : World := ex_add "wxyz" 9002 (ex_router "wbcd" "10.0.0.2").
Definition ex_to : World := ex_router "wxyz" "10.0.0.3".

Definition ex_nat_manager : NatManager := NatManager_new 0 (fun _ => 0).
Definition ex_hosts : gmap string host :=
  <["wxyz" := (ex_to, ex_nat_manager)]>
    (<["wbcd" := (ex_middle, ex_nat_manager)]> (<["abcd" := (ex_from, ex_nat_manager)]> ∅))%string.

Definition ex_topology : topology := mkTopology
  (fun _ port => if port =? 9001 then Some "wbcd"%string else if port =? 9002 then Some "wxyz"%string else None)
  (fun id => (id, 9000)).
Lemma ex_relays i w :
  started i w -> nodes_ w <> [] ->
  (forall l, local_node_ptr_ w = Some l -> ln_first_node l || joined_ w = true /\ ln_public_port l = 9000) ->
  Forall (fun p => let n := obj_of w p in
    listens ex_topology (send_endpoint n).1 (send_endpoint n).2 = Some (node_id n) /\
    is_Some (ex_hosts !! node_id n) /\ public_port n <> 9000 /\
    (xor_distance (node_id n) "wxyz" < xor_distance i "wxyz")%N) (nodes_ w) ->
  relays "wxyz" ex_topology ex_hosts i w.
Proof.
  intros Hs Hne Hl Hall. rewrite Forall_forall in Hall. split; [done| | |].
  - intros l El. by apply Hl.
  - intros p Hp _. destruct (Hall p Hp) as (Hn & Hh & _). by destruct (send_endpoint _).
  - intros l El. destruct (nodes_ w) as [|p ps]; [done|].
    destruct (Hall p) as (_ & _ & Hport & Hd); [by left|]. exists p. split; [by left|]. split; [done|].
    intros [= _ E]. destruct (Hl l El). congruence.
Qed.

Lemma connect_request_routed_witness :
  exists trail (net' : gmap string host) wb', closing_in "wxyz" ("abcd" :: trail ++ ["wxyz"])%string /\
    net' !! "wxyz"%string = Some (wb', ex_nat_manager) /\ detecting ex_to wb' "abcd" "10.0.0.1" 9000.
Proof.
  destruct (connect_request_routed "abcd" "wxyz" 1 ex_hosts ex_topology ex_from ex_nat_manager
    (ex_router_own "abcd" "10.0.0.1") ex_to ex_nat_manager) as
    (wa' & pk & trail & net' & wb' & _ & _ & _ & Hc & _ & _ & Eb & _ & _ & Hdet).
  - discriminate.
  - reflexivity.
  - reflexivity.
  - by apply ex_router_started.
  - reflexivity.
  - reflexivity.
  - split; [by eexists|]. intros l _. right. discriminate.
  - intros i w n _ Hi Ei. unfold ex_hosts in Ei.
    rewrite lookup_insert_ne in Ei by done.
    apply lookup_insert_Some in Ei as [[<- [= <- _]]|[_ [[<- [= <- _]]|[_ Ei]]%lookup_insert_Some]];
      [| |by rewrite lookup_empty in Ei].
    + apply ex_relays; [by apply ex_add_started, ex_router_started|discriminate| |].
      * intros l [= <-]. by split.
      * apply Forall_cons; split; [|by apply Forall_nil_2]. split; [reflexivity|]. split; [by eexists|]. by split.
    + apply ex_relays; [by apply ex_add_started, ex_router_started|discriminate| |].
      * intros l [= <-]. by split.
      * apply Forall_cons; split; [|by apply Forall_nil_2]. split; [reflexivity|]. split; [by eexists|]. by split.
  - exists trail, net', wb'. split; [exact Hc|]. split; [exact Eb|exact Hdet].
Defined.
End witness.
