(* ===== verification/HandshakeExchange.v ===== *)
(** The handshake of two nodes: a node that detects another pings it; the ping,
    delivered, is answered, and the answer makes the other one a neighbour. With
    Routing.v this is how a connect request ends. *)

From S2P Require Import Prelude Invariants Externals Messages Distance Sorting NodeInfo LocalNodeInfo.
From S2P Require Import NatDetect ClientNodes BootstrapCache World RoutingTable TableFacts TableProps.
From S2P Require Import Sending SendProps NodeDetection RoutingHandlers RoutingJoin Frames TableSpec Robust.
From S2P Require Import HandlerProps KadMessageHandler Exchange DetectionProps Discovery Routing.
Import NodeDetectionManager.

(** What protobuf documents of the codecs of a handshake. *)
Class HandshakeWireLaws `{Wire} : Prop := {
  hw_messages :: MessageWireLaws;
  hw_handshake :: ProtoLaws Handshake;
  hw_handshake_text (r : Handshake) : is_set hs_type r = true ->
    exists s, SerializeToString r = Some s /\ str_empty s = false }.

Section handshake.
Context `{Xbase} `{!XbaseLaws} `{KadKey} `{Xip} `{PartialSort} `{!PartialSortLaws} `{Wire} `{Bloom}.
Context `{!HandshakeWireLaws}.
#[local] Set Default Proof Using "Type*".
Implicit Types (w : World) (m : RoutingMessage) (l : LocalNodeInfo).

(** A handshake of the node [src], whose own data is [l], with the node [des]. *)
Definition handshake_of (src des : string) l (type : Z) m : Prop :=
  get msg_type m = kKadHandshake /\ get msg_src_node_id m = src /\ get msg_des_node_id m = des /\
  is_client_msg m = false /\ no_data m = false /\
  exists hs, ParseFromString (get msg_data m) = Some hs /\ get hs_type hs = type /\
    get hs_public_ip hs = ln_public_ip l /\ get hs_public_port hs = ln_public_port l /\
    get hs_nat_type hs = ln_nat_type l.

(** The endpoint the receiver takes for that of a node: the one it was told, or
    the one the packet came from. *)
Definition told l (ip : string) (port : Z) : string * Z :=
  if str_empty (ln_public_ip l) then (ip, port) else (ln_public_ip l, u16 (ln_public_port l)).

(** ** The ping *)

Lemma Handshake_sends lid w l p d :
  started lid w -> local_node_ptr_ w = Some l ->
  node_detection_ptr_ w = Some d -> det_destroy d = false ->
  let n := obj_of w p in
  exists data m, Handshake_ p w =
      Ok (kKadSuccess, push_net [mkPacket KPing 0 data (public_ip n) (public_port n)] (numbered w)) /\
    ParseFromString data = Some m /\ handshake_of lid (node_id n) l kHandshakeRequest m.
Proof.
  intros Hs El Ed Hd n. destruct (started_knows lid w Hs) as (l' & x & xp & El' & [K1 K2 K3 K4 K5 K6]).
  rewrite El in El'. injection El' as <-. unfold Handshake_, detection. rewrite step_assoc. mstep. rewrite Ed.
  mstep. rewrite Hd, (step_bind _ _ _ _ _ K6), (step_bind _ _ _ _ _ (K1 (numbered w) eq_refl)).
  unfold obj. mstep. change (obj_of (numbered w) p) with n. cbv zeta. rewrite K5. mstep.
  destruct (st_transport lid w Hs) as [t Et]. change (transport_ptr_ (numbered w)) with (transport_ptr_ w).
  rewrite Et, (step_bind _ _ _ _ _ (K4 (numbered w) eq_refl)).
  match goal with |- context [SerializeToString ?r] =>
    destruct (hw_handshake_text r eq_refl) as (body & Eb & Hb); set (hs := r) in * end.
  rewrite Eb.
  match goal with |- context [SerializeToString ?r] =>
    destruct (mw_message_text r) as (data & Edata); set (m := r) in * end.
  rewrite Edata.
  destruct (transport_send_spec (numbered w) t (mkPacket KPing 0 data (public_ip n) (public_port n)) Et) as [r E].
  rewrite (step_bind _ _ _ _ _ E). exists data, m. split; [done|]. split; [by apply mw_message|].
  unfold handshake_of. splits; try done.
  exists hs. split; [by apply hw_handshake|done].
Qed.
(** ** The answer *)

(** The node object a handshake makes. *)
Definition shaker (now : Z) m (pk : xpacket) (hs : Handshake) : NodeInfo :=
  let '(pub_ip, pub_port) :=
    if str_empty (get hs_public_ip hs) then (get_from_ip_addr pk, get_from_ip_port pk)
    else (get hs_public_ip hs, u16 (get hs_public_port hs)) in
  (NodeInfo_of_id now (get msg_src_node_id m))
    <| public_ip := pub_ip |> <| public_port := pub_port |>
    <| local_ip := get hs_local_ip hs |>
    <| local_port := u16 (get hs_local_port hs) |>
    <| service_type := get msg_src_service_type m |>
    <| nat_type := get hs_nat_type hs |>
    <| xid := get hs_xid hs |> <| hash64 := xhash64 (get hs_xid hs) |>
    <| xip := get hs_xip hs |>.

(** What HandleHandshake goes on with. *)
Lemma HandleHandshake_enters lid w m pk (hs : Handshake) :
  started lid w -> get msg_des_node_id m = lid -> no_data m = false ->
  ParseFromString (get msg_data m) = Some hs -> str_empty (get_from_ip_addr pk) = false ->
  HandleHandshake m pk w =
    (if get hs_type hs =? kHandshakeResponse
     then _ ← handshake_response m pk hs (w_next w); mret m
     else handshake_request m pk hs (w_next w)) (fresh (shaker (w_now w) m pk hs) w).
Proof.
  intros Hs Hd Hnd Hp Hip. unfold HandleHandshake, IsDestination. rewrite step_assoc.
  rewrite (step_bind _ _ _ _ _ (local_id_ok lid w (st_ok _ w Hs))), Hd, String.eqb_refl. mstep.
  cbn [negb]. rewrite Hnd, Hp. unfold shaker.
  destruct (if str_empty (get hs_public_ip hs) then _ else _) as [ip port] eqn:E.
  assert (str_empty ip = false) as ->
    by (destruct (str_empty (get hs_public_ip hs)) eqn:?; by simplify_eq).
  by rewrite (step_bind _ _ _ _ _ (new_NodeInfo_spec _ _ w)).
Qed.

(** Neither looking at the table nor beginning a detection sends anything. *)
Definition calm : relation World := fun w w' =>
  (local_node_ptr_ w', w_net w', joined_ w') = (local_node_ptr_ w, w_net w, joined_ w).

#[export] Instance calm_preorder : PreOrder calm.
Proof. split; [done|]. intros w1 w2 w3 E1 E2. unfold calm in *. congruence. Qed.

Lemma same_env_calm w w' : same_env w w' -> calm w w'.
Proof. unfold same_env, env, calm. congruence. Qed.

Lemma calm_AddDetectionNode p : frames calm (AddDetectionNode p).
Proof. unfold AddDetectionNode, detection, set_detection, obj. frame; done. Qed.
Lemma add_code_success lid w n :
  add_code lid w n = kKadSuccess -> acceptable lid n && negb (has_id w (node_id n)) && has_room lid w n = true.
Proof.
  destruct codes_distinct as (_ & Hc1 & Hc2). unfold add_code.
  destruct (acceptable lid n), (has_id w (node_id n)), (has_room lid w n); simpl; congruence.
Qed.

(** A node that is asked looks whether it can take the asker, and then detects
    it. *)
Lemma greet_spec lid w p d :
  started lid w -> node_detection_ptr_ w = Some d -> det_destroy d = false ->
  let n := obj_of w p in
  exists can w1 w2, CanAddNode p w = Ok (can, w1) /\
    when can (_ ← AddDetectionNode p; mret tt) w1 = Ok (tt, w2) /\
    started lid w2 /\ grows w w2 /\ calm w w2 /\
    (add_code lid w n = kKadSuccess -> detecting w w2 (node_id n) (public_ip n) (public_port n)).
Proof.
  intros Hs Ed Hd n. destruct codes_distinct as (Hnd & _ & _).
  destruct (CanAddNode_spec lid w p kNodeIdSize_pos Hnd (st_ok _ _ Hs)) as (w1 & E1 & _ & _ & Em & _).
  fold n in E1. pose proof (always_after _ _ _ _ (runs_CanAddNode lid p) Hs E1) as Hs1.
  pose proof (wlp_elim _ _ _ _ _ (env_CanAddNode p w) E1) as Henv. cbv beta in Henv.
  pose proof (wlp_elim _ _ _ _ _ (same_peers_CanAddNode p w) E1 p) as Hpeer. fold n in Hpeer.
  assert (node_detection_ptr_ w1 = Some d) as Ed1 by (rewrite <- Ed; exact (f_equal (fun e => e.2.1.1.2) Henv)).
  assert (grows w w1) as Hg by (unfold grows; by rewrite Em).
  destruct (AddDetectionNode_spec p w1 d Ed1 Hd) as (r & w2 & E2 & _ & Hdet).
  injection Hpeer as Ei Eip Eport _. rewrite Ei, Eip, Eport in Hdet.
  destruct (acceptable lid n && negb (has_id w (node_id n)) && has_room lid w n) eqn:Ec;
    eexists _, w1, _; (split; [exact E1|]); cbn [when].
  - split; [by rewrite (step_bind _ _ _ _ _ E2)|].
    split; [exact (always_after _ _ _ _ (runs_AddDetectionNode lid p) Hs1 E2)|].
    split; [trans w1; [done|exact (wlp_elim _ _ _ _ _ (grows_AddDetectionNode p w1) E2)]|].
    split; [trans w1; [by apply same_env_calm|exact (wlp_elim _ _ _ _ _ (calm_AddDetectionNode p w1) E2)]|].
    intros _. unfold detecting in *. by rewrite Ed, <- Ed1.
  - split; [reflexivity|]. split; [done|]. split; [done|]. split; [by apply same_env_calm|].
    intros Hc%add_code_success. congruence.
Qed.
(** The object made for a node whose handshake carries its data [l]. *)
Lemma shaker_peer now src des l type m ip port (hs : Handshake) :
  handshake_of src des l type m -> ParseFromString (get msg_data m) = Some hs ->
  peer_of (shaker now m (mkXpacket ip port) hs) =
    ((src, (told l ip port).1, (told l ip port).2, ln_nat_type l) : string * string * Z * Z).
Proof.
  intros (_ & <- & _ & _ & _ & hs' & Hp & _ & Eip & Eport & Enat) Hp'. rewrite Hp in Hp'. injection Hp' as ->.
  unfold shaker, told. rewrite Eip, Eport. cbn [get_from_ip_addr get_from_ip_port].
  destruct (str_empty (ln_public_ip l)); cbn; by rewrite Enat.
Qed.

Lemma fresh_started lid n w : started lid w -> started lid (fresh n w).
Proof. intros Hs. apply (started_sys lid w); [done| |done]. apply fresh_ok, (st_ok _ w Hs). Qed.

(** The decision on an object depends on its peer data only. *)
Lemma add_code_fresh lid w n n' :
  started lid w -> peer_of n = peer_of n' -> add_code lid (fresh n w) n = add_code lid w n'.
Proof.
  intros Hs Ep. transitivity (add_code lid w n).
  - apply add_code_same; [done..|]. intros q Hq. by apply (fresh_old lid); [apply (st_ok _ w Hs)|].
  - injection Ep as Ei Eip Eport Enat. unfold add_code, acceptable, has_room, bucket_of.
    by rewrite Ei, Eip, Eport, Enat.
Qed.

Lemma handshake_answered lid w l d m asker lo ip port :
  started lid w -> local_node_ptr_ w = Some l -> handshake_of asker lid lo kHandshakeRequest m ->
  node_detection_ptr_ w = Some d -> det_destroy d = false -> str_empty ip = false ->
  exists m' w' data ans prio, HandleHandshake m (mkXpacket ip port) w = Ok (m', w') /\
    started lid w' /\ grows w w' /\ w_net w' = w_net w ++ [mkPacket KData prio data ip (u16 port)] /\
    ParseFromString data = Some ans /\ handshake_of lid asker l kHandshakeResponse ans /\
    (add_code lid w (peer asker (told lo ip port).1 (told lo ip port).2 (ln_nat_type lo)) = kKadSuccess ->
       detecting w w' asker (told lo ip port).1 (told lo ip port).2).
Proof.
  intros Hs El Hm Ed Hd Hip. pose proof Hm as (Ht & Hsrc & Hdes & Hc & Hnd & hs & Hp & Hty & _).
  rewrite (HandleHandshake_enters lid w m _ hs) by done. rewrite Hty.
  change (kHandshakeRequest =? kHandshakeResponse) with false. cbv iota.
  pose proof (shaker_peer (w_now w) asker lid lo _ m ip port hs Hm Hp) as Epeer.
  set (n := shaker _ m _ hs) in *. set (w0 := fresh n w).
  destruct (greet_spec lid w0 (w_next w) d (fresh_started _ _ _ Hs) Ed Hd)
    as (can & w1 & w2 & E1 & E2 & Hs2 & Hg2 & Hcalm & Hdet).
  assert (obj_of w0 (w_next w) = n) as Eo by apply fresh_obj. rewrite Eo in Hdet.
  injection Hcalm as El2 En2 _. change (local_node_ptr_ w0) with (local_node_ptr_ w) in El2. rewrite El in El2.
  change (w_net w0) with (w_net w) in En2.
  unfold handshake_request. rewrite (step_bind _ _ _ _ _ E1), (step_bind _ _ _ _ _ E2).
  destruct (started_knows lid w2 Hs2) as (l' & x & xp & El' & [K1 K2 K3 K4 K5 K6]).
  rewrite El2 in El'. injection El' as <-.
  rewrite (step_bind _ _ _ _ _ (K1 w2 eq_refl)), (step_bind _ _ _ _ _ (K4 w2 eq_refl)).
  rewrite (step_bind _ _ _ _ _ (K3 w2 eq_refl)). cbv zeta.
  match goal with |- context [SerializeToString ?r] =>
    destruct (hw_handshake_text r eq_refl) as (body & Eb & Hb); set (hs' := r) in * end.
  rewrite Eb, (step_bind _ _ _ _ _ K6), K5. cbn [get_from_ip_addr get_from_ip_port].
  match goal with |- context [SendData ?m0] => set (rm := m0) end.
  destruct (st_transport lid w2 Hs2) as [t Et].
  destruct (SendData_spec (numbered w2) t rm ip port Et) as [r E]. rewrite (step_bind _ _ _ _ _ E).
  destruct (packet_of rm ip port) as (data & Edata & Epk). rewrite Epk.
  eexists _, _, data, (SetVersion rm), _. split; [reflexivity|].
  split; [by apply numbered_started|]. split; [exact Hg2|].
  split; [simpl; by rewrite En2|]. split; [done|].
  assert (get msg_data (SetVersion rm) = body) as Em by reflexivity. split.
  - unfold handshake_of. splits; [reflexivity|by rewrite <- Hdes|by rewrite <- Hsrc|reflexivity| |].
    + unfold no_data. by rewrite Em, Hb.
    + exists hs'. rewrite Em. split; [by apply hw_handshake|done].
  - intros Hadd. injection Epeer as Ei Eip Eport Enat. rewrite <- Eip, <- Eport, <- Ei. apply Hdet.
    rewrite <- Hadd. apply add_code_fresh; [done|]. unfold peer_of. by rewrite Ei, Eip, Eport, Enat.
Qed.
(** ** The new neighbour *)

(** Noting that a node is in the same local network changes nothing that
    AddNode looks at. *)
Lemma note_vlan lid c p w :
  started lid w ->
  exists w', when c (mutate p (fun n => n <| same_vlan := true |>)) w = Ok (tt, w') /\
    started lid w' /\ grows w w' /\ same_env w w' /\ peer_of (obj_of w' p) = peer_of (obj_of w p).
Proof.
  intros Hs. set (f := fun n : NodeInfo => _). destruct c; [|by exists w]. exists (w <| w_heap ::= alter f p |>).
  split; [done|]. split; [by apply (started_mutate lid p f)|]. split; [by unfold grows|]. split; [by unfold same_env|].
  assert (forall n, peer_of (f n) = peer_of n) as Hf by done.
  exact (wlp_elim _ _ _ tt _ (same_peers_mutate p f Hf w) eq_refl p).
Qed.

Lemma join_now lid w i ip port :
  started lid w ->
  exists w', when (negb (joined_ w)) (_ ← SetJoin i ip port; mret tt) w = Ok (tt, w') /\
    started lid w' /\ grows w w' /\ joined_ w' = true /\ w_net w' = w_net w /\
    node_detection_ptr_ w' = node_detection_ptr_ w.
Proof.
  intros Hs. destruct (joined_ w) eqn:Ej; [by exists w|]. unfold SetJoin. cbn [negb when].
  eexists. split; [rewrite step_assoc; mstep; rewrite Ej; by repeat (rewrite ?step_assoc; mstep)|].
  split; [by apply (started_core lid w)|]. by split; [unfold grows|].
Qed.

Lemma handshake_learned lid w d m asker lo ip port :
  started lid w -> handshake_of asker lid lo kHandshakeResponse m ->
  node_detection_ptr_ w = Some d -> str_empty ip = false ->
  acceptable lid (peer asker (told lo ip port).1 (told lo ip port).2 (ln_nat_type lo)) = true ->
  exists w', HandleHandshake m (mkXpacket ip port) w = Ok (m, w') /\ started lid w' /\ grows w w' /\
    w_net w' = w_net w /\ covered lid asker w' /\ joined_ w' = true /\
    exists d', node_detection_ptr_ w' = Some d' /\
      detection_nodes_map d' !! key_of (told lo ip port).1 (told lo ip port).2 = None.
Proof.
  intros Hs Hm Ed Hip Hacc. pose proof Hm as (Ht & Hsrc & Hdes & Hc & Hnd & hs & Hp & Hty & _).
  rewrite (HandleHandshake_enters lid w m _ hs) by done. rewrite Hty, Z.eqb_refl.
  pose proof (shaker_peer (w_now w) asker lid lo _ m ip port hs Hm Hp) as Epeer.
  set (n := shaker _ m _ hs) in *. set (w0 := fresh n w).
  assert (obj_of w0 (w_next w) = n) as Eo by apply fresh_obj.
  unfold handshake_response, obj. rewrite step_assoc. mstep. rewrite Eo.
  unfold RemoveDetection, detection, set_detection. rewrite !step_assoc. mstep.
  change (node_detection_ptr_ w0) with (node_detection_ptr_ w). rewrite Ed. do 2 mstep.
  set (w1 := w0 <| node_detection_ptr_ ::= _ |>).
  assert (started lid w1) as Hs1 by by apply started_detection, fresh_started.
  rewrite step_assoc. match goal with |- context [when ?c (mutate _ _)] => set (vlan := c) end.
  destruct (note_vlan lid vlan (w_next w) w1 Hs1) as (w2 & E2 & Hs2 & Hg2 & He2 & Ep2).
  rewrite (step_bind _ _ _ _ _ E2). change (obj_of w1 (w_next w)) with (obj_of w0 (w_next w)) in Ep2.
  rewrite Eo, Epeer in Ep2. rewrite Hc. cbn [negb when]. rewrite !step_assoc.
  assert (acceptable lid (obj_of w2 (w_next w)) = true) as Hacc2.
  { injection Ep2 as Ei Eip Eport Enat. rewrite <- Hacc. unfold acceptable. by rewrite Ei, Eip, Eport, Enat. }
  destruct (wp_elim _ _ _ (runs_AddNode lid (w_next w) w2 Hs2)) as (code & w3 & E3 & Hs3).
  pose proof (wlp_elim _ _ _ _ _ (AddNode_covers lid w2 (w_next w) (st_ok _ _ Hs2) Hacc2) E3) as Hcov.
  pose proof (wlp_elim _ _ _ _ _ (grows_AddNode (w_next w) w2) E3) as Hg3.
  pose proof (wlp_elim _ _ _ _ _ (env_AddNode (w_next w) w2) E3) as He3. cbv beta in Hcov, Hg3, He3.
  assert (node_id (obj_of w2 (w_next w)) = asker) as Ei by by injection Ep2.
  rewrite Ei in Hcov.
  rewrite (step_bind _ _ _ _ _ E3). msteps.
  destruct (join_now lid w3 (get msg_src_node_id m) (get hs_public_ip hs) (get hs_public_port hs) Hs3)
    as (w4 & E4 & Hs4 & Hg4 & Hj4 & En4 & Ed4).
  rewrite (step_bind _ _ _ _ _ E4). exists w4.
  assert (same_env w1 w3) as He by (by trans w2).
  splits; [done|done|by trans w2; [|trans w3]| |by eapply covered_grows|done|].
  - rewrite En4. exact (f_equal (fun e => e.1.2.1.1) He).
  - assert (node_detection_ptr_ w3 = node_detection_ptr_ w1) as Ed3 by exact (f_equal (fun e => e.2.1.1.2) He).
    eexists. split; [rewrite Ed4, Ed3; simpl; by rewrite Ed|].
    injection Epeer as Ei' Eip Eport Enat. rewrite <- Eip, <- Eport. apply lookup_delete_eq.
Qed.
Lemma handshake_processor : processor_of kKadHandshake = Some HHandshake.
Proof. apply registered_processor. simpl. tauto. Qed.

Lemma deliver_handshake src des l type data ip port w n m m' w' :
  handshake_of src des l type m -> ParseFromString data = Some m ->
  HandleHandshake m (mkXpacket ip port) w = Ok (m', w') -> deliver data ip port (w, n) = Ok (w', n).
Proof.
  intros (Ht & _) Hp E. apply (deliver_run _ _ _ _ _ m HHandshake); [done| |done|].
  - rewrite Ht. apply handshake_processor.
  - cbn [run_handler]. by rewrite (step_bind _ _ _ _ _ E).
Qed.

(** C12: Becoming neighbours, end to end: a started node [b] that detects the
    node [a] sends one ping to the endpoint it detects; delivered at [a], it is
    answered with one packet to where it was seen from, and [a], if its table
    has room for [b], begins to detect [b] in turn; the answer, delivered back,
    makes [b] joined, ends its detection of [a], and puts [a] into the table of
    [b] (or the bucket is full). Neither node loses one it knew. *)
Theorem handshake_exchange a lida la da b lidb lb db p nata natb ipa porta ipb portb :
  started lida a -> local_node_ptr_ a = Some la ->
  node_detection_ptr_ a = Some da -> det_destroy da = false ->
  started lidb b -> local_node_ptr_ b = Some lb ->
  node_detection_ptr_ b = Some db -> det_destroy db = false ->
  node_id (obj_of b p) = lida -> str_empty ipa = false -> str_empty ipb = false ->
  let '(ip_a, port_a) := told la ipa porta in
  let '(ip_b, port_b) := told lb ipb portb in
  acceptable lidb (peer lida ip_a port_a (ln_nat_type la)) = true ->
  exists b1 ping a1 answer prio b2,
    Handshake_ p b = Ok (kKadSuccess, b1) /\
    w_net b1 = w_net b ++ [mkPacket KPing 0 ping (public_ip (obj_of b p)) (public_port (obj_of b p))] /\
    deliver ping ipb portb (a, nata) = Ok (a1, nata) /\ started lida a1 /\ grows a a1 /\
    w_net a1 = w_net a ++ [mkPacket KData prio answer ipb (u16 portb)] /\
    (add_code lida a (peer lidb ip_b port_b (ln_nat_type lb)) = kKadSuccess ->
       detecting a a1 lidb ip_b port_b) /\
    deliver answer ipa porta (b1, natb) = Ok (b2, natb) /\ started lidb b2 /\ grows b b2 /\
    w_net b2 = w_net b1 /\ covered lidb lida b2 /\ joined_ b2 = true /\
    exists d, node_detection_ptr_ b2 = Some d /\ detection_nodes_map d !! key_of ip_a port_a = None.
Proof.
  intros Ha Ela Eda Hda Hb Elb Edb Hdb Ep Hipa Hipb.
  pose proof (handshake_answered lida a la da) as Hans.
  destruct (told la ipa porta) as [ip_a port_a] eqn:Eta, (told lb ipb portb) as [ip_b port_b] eqn:Etb.
  intros Hacc.
  destruct (Handshake_sends lidb b lb p db Hb Elb Edb Hdb) as (ping & m & E1 & Em & Hm). rewrite Ep in Hm.
  set (b1 := push_net _ (numbered b)) in E1.
  assert (started lidb b1) as Hb1 by (by apply numbered_started).
  destruct (Hans m lidb lb ipb portb Ha Ela Hm Eda Hda Hipb)
    as (m' & a1 & answer & ans & prio & E2 & Ha1 & Hga & Hneta & Eans & Hm2 & Hdet).
  rewrite Etb in Hdet.
  destruct (handshake_learned lidb b1 db ans lida la ipa porta Hb1 Hm2 Edb Hipa)
    as (b2 & E3 & Hb2 & Hgb & Hnetb & Hcov & Hj & Hd); [by rewrite Eta|]. rewrite Eta in Hd.
  exists b1, ping, a1, answer, prio, b2.
  splits; try done; [|].
  - exact (deliver_handshake _ _ _ _ _ _ _ _ _ _ _ _ Hm Em E2).
  - exact (deliver_handshake _ _ _ _ _ _ _ _ _ _ _ _ Hm2 Eans E3).
Qed.
End handshake.

(** ** An example: "wxyz" detects "abcd" *)

Section witness.
Import Examples.
#[local] Existing Instance selection_sort.
#[local] Existing Instance countable_wire.

Lemma ex_handshake_wire_laws : HandshakeWireLaws.
Proof.
  assert (forall p q : positive, str_empty (pos_digits (prod_encode p q)) = false) as Hne by (by intros [] []).
  split; [split; [apply countable_proto_laws|intros m; eexists; reflexivity]|apply countable_proto_laws|].
  intros r _. eexists. split; [reflexivity|apply Hne].
Qed.
#[local] Existing Instance ex_handshake_wire_laws.

(** The node "wxyz" has made the object 1 for "abcd". *)
Definition ex_detecting : World := ex_new "abcd" 9001 ex_to.

Lemma handshake_exchange_witness :
  exists b2, covered "wxyz" "abcd" b2 /\ joined_ b2 = true.
Proof.
  destruct (handshake_exchange (ex_router "abcd" "10.0.0.1") "abcd" (ex_router_own "abcd" "10.0.0.1")
    NodeDetectionManager.new ex_detecting "wxyz" (ex_router_own "wxyz" "10.0.0.3") NodeDetectionManager.new
    1%positive ex_nat_manager ex_nat_manager "10.0.0.1" 9000 "10.0.0.3" 9000)
    as (b1 & ping & a1 & ans & prio & b2 & H); try reflexivity.
  - by apply ex_router_started.
  - by apply fresh_started, ex_router_started.
  - exists b2. by destruct H as (_ & _ & _ & _ & _ & _ & _ & _ & _ & _ & _ & Hc & Hj & _).
Defined.
End witness.
