(* ===== verification/Closed.v ===== *)
(** Nodes that talk only among themselves: [K] is the set of ids of a network.
    [honest m] says what a routing message of such a network names: its source,
    the node it asks to connect to, the target of a search and the nodes of an
    answer are of the network. [clean w] says that every node object of [w] has
    an id of the network, or none, and that [w] has sent honest messages only;
    [cleans P m] that [m] keeps a state clean. The section ends with one lemma
    per operation; Network.v runs them against each other. *)

From S2P Require Import Prelude Invariants Externals Messages Distance Sorting NodeInfo LocalNodeInfo.
From S2P Require Import ClientNodes BootstrapCache World RoutingTable Sending NodeDetection.
From S2P Require Import RoutingHandlers RoutingJoin.

(** ** Message types *)

Section types.
Context `{Xbase} `{!XbaseLaws}.
#[local] Set Default Proof Using "Type*".

(** The types whose messages name nodes besides source and destination. *)
Definition naming : list Z := [kKadConnectRequest; kKadFindNodesRequest; kKadFindNodesResponse].

Lemma naming_differ :
  kKadConnectRequest <> kKadFindNodesRequest /\ kKadConnectRequest <> kKadFindNodesResponse /\
  kKadFindNodesRequest <> kKadFindNodesResponse.
Proof.
  pose proof message_types_distinct as Hd. rewrite !NoDup_cons in Hd. set_solver.
Qed.

Lemma plain_types t :
  t ∈ [kKadHandshake; kKadBootstrapJoinRequest; kKadBootstrapJoinResponse; kKadHeartbeatRequest;
       kKadHeartbeatResponse; kKadDropNodeRequest; kKadAck] -> t ∉ naming.
Proof.
  pose proof message_types_distinct as Hd. rewrite !NoDup_cons in Hd. set_solver.
Qed.
End types.

Section closed.
Context `{Xbase} `{KadKey} `{Xip} `{Wire}.
Context (K : string -> Prop) (lid : string).
Implicit Types (w : World) (m : RoutingMessage).

(** An id of the network, or none. *)
Definition named (i : string) : Prop := K i \/ i = ""%string.

Definition named_pb (pn : PbNodeInfo) : Prop := named (get pn_id pn).

Record honest m : Prop := {
  ho_source : K (get msg_src_node_id m);
  ho_connect : get msg_type m = kKadConnectRequest -> K (get msg_des_node_id m);
  ho_search (r : FindClosestNodesRequest) :
    get msg_type m = kKadFindNodesRequest -> ParseFromString (get msg_data m) = Some r ->
    K (get fnreq_target_id r) /\ named_pb (get fnreq_src_nodeinfo r);
  ho_answer (r : FindClosestNodesResponse) :
    get msg_type m = kKadFindNodesResponse -> ParseFromString (get msg_data m) = Some r ->
    Forall named_pb (fnres_nodes r) }.

Definition honest_packet (pk : packet) : Prop :=
  forall m, ParseFromString (pk_data pk) = Some m -> honest m.

Record clean w : Prop := {
  cl_heap : map_Forall (fun _ n => named (node_id n)) (w_heap w);
  cl_net : Forall honest_packet (w_net w);
  cl_local l i : local_node_ptr_ w = Some l -> LocalNodeInfo_id l = Ok i -> i = lid }.

(** The parts of the state [clean] reads. *)
Definition cl_view w := (w_heap w, w_net w, local_node_ptr_ w).

Lemma clean_view w w' : cl_view w' = cl_view w -> clean w -> clean w'.
Proof. unfold cl_view. intros [= E1 E2 E3] [C1 C2 C3]. split; rewrite ?E1, ?E2, ?E3; done. Qed.

Lemma clean_obj w p : clean w -> named (node_id (obj_of w p)).
Proof.
  intros Hw. unfold obj_of. rewrite lookup_total_alt.
  destruct (w_heap w !! p) as [n|] eqn:E; [by apply (cl_heap _ Hw p)|by right].
Qed.

(** ** Honest messages *)

Lemma honest_fields m m' :
  msg_src_node_id m' = msg_src_node_id m -> msg_type m' = msg_type m ->
  msg_des_node_id m' = msg_des_node_id m -> msg_data m' = msg_data m -> honest m -> honest m'.
Proof.
  unfold get. intros E1 E2 E3 E4 [A B C D]. unfold get in *.
  split; unfold get; rewrite ?E1, ?E2, ?E3, ?E4; auto.
Qed.

Lemma honest_SetVersion m : honest m -> honest (SetVersion m).
Proof. unfold SetVersion. destruct (negb _); [|done]. by apply honest_fields. Qed.

Lemma honest_plain m : K (get msg_src_node_id m) -> get msg_type m ∉ naming -> honest m.
Proof. intros Hs Ht. unfold naming in Ht. split; [done|set_solver..]. Qed.

Context `{!XbaseLaws}.
#[local] Set Default Proof Using "Type*".

Lemma honest_connect m :
  K (get msg_src_node_id m) -> get msg_type m = kKadConnectRequest -> K (get msg_des_node_id m) ->
  honest m.
Proof.
  intros Hs Ht Hd. destruct naming_differ as (N1 & N2 & N3). split; [done..| |]; congruence.
Qed.

Lemma honest_search `{!ProtoLaws FindClosestNodesRequest} m (r : FindClosestNodesRequest) :
  K (get msg_src_node_id m) -> get msg_type m = kKadFindNodesRequest ->
  SerializeToString r = Some (get msg_data m) ->
  K (get fnreq_target_id r) -> named_pb (get fnreq_src_nodeinfo r) -> honest m.
Proof.
  intros Hs Ht Hd Hk Hn. destruct naming_differ as (N1 & N2 & N3). split; [done| | |]; try congruence.
  intros r' _ E. rewrite (parse_serialize _ _ Hd) in E. by injection E as <-.
Qed.

Lemma honest_answer `{!ProtoLaws FindClosestNodesResponse} m (r : FindClosestNodesResponse) :
  K (get msg_src_node_id m) -> get msg_type m = kKadFindNodesResponse ->
  SerializeToString r = Some (get msg_data m) -> Forall named_pb (fnres_nodes r) -> honest m.
Proof.
  intros Hs Ht Hd Hn. destruct naming_differ as (N1 & N2 & N3). split; [done| | |]; try congruence.
  intros r' _ E. rewrite (parse_serialize _ _ Hd) in E. by injection E as <-.
Qed.
End closed.

Notation cleans K lid := (ensures (clean K lid)).

(** ** The primitives *)

Section primitives.
Context `{Xbase} `{KadKey} `{Xip} `{Wire}.
Context (K : string -> Prop) (lid : string).
Notation cleans := (cleans K lid).
Notation kept := (cleans (fun _ => True)).

Lemma clean_alter w p f :
  clean K lid w -> (forall n, node_id (f n) = node_id n) -> clean K lid (w <| w_heap ::= alter f p |>).
Proof.
  intros [C1] Hf. split; try done. intros q n. change (alter f p (w_heap w) !! q = Some n -> named K (node_id n)).
  rewrite lookup_alter_Some. intros [(_ & n' & Hn & ->)|[_ Hn]]; [rewrite Hf|]; eauto.
Qed.

Lemma cleans_world : cleans (clean K lid) (gets (fun w => w)).
Proof. by apply ensures_gets. Qed.

Lemma cleans_obj p : cleans (fun n => named K (node_id n)) (obj p).
Proof. apply ensures_gets. intros w Hw. by apply (clean_obj K lid). Qed.

Lemma cleans_local : cleans (fun l => forall i, LocalNodeInfo_id l = Ok i -> i = lid) local.
Proof.
  unfold local. apply (ensures_bind (fun o => forall l i, o = Some l -> LocalNodeInfo_id l = Ok i -> i = lid)).
  - apply ensures_gets. intros w Hw l i. by apply (cl_local K lid).
  - intros o Ho. apply ensures_from_some. intros l E i. by apply Ho.
Qed.

Lemma cleans_local_id : cleans (eq lid) local_id.
Proof.
  unfold local_id. eapply ensures_bind; [apply cleans_local|]. intros l Hl.
  apply ensures_lift. intros i E. symmetry. by apply Hl.
Qed.

Lemma clean_transport_send p : honest_packet K p -> kept (transport_send p).
Proof.
  intros Hp. unfold transport_send. apply (ensures_bind (fun _ => True)); [by apply ensures_gets|intros t _].
  apply (ensures_bind (fun _ => True)); [by apply ensures_from_some|intros _ _].
  apply ensures_run. intros w []. split; [done|]. split; try done.
  apply Forall_app_2; [done|by apply Forall_singleton].
Qed.

Lemma clean_mutate p f : (forall n, node_id (f n) = node_id n) -> kept (mutate p f).
Proof. intros Hf. apply ensures_modify. intros w Hw. by apply clean_alter. Qed.

Lemma clean_new_NodeInfo i f :
  (forall n, node_id (f n) = node_id n) -> named K i -> kept (new_NodeInfo i f).
Proof.
  intros Hf Hi. apply (ensures_bind (fun _ => True)); [by apply ensures_gets|intros now _].
  apply ensures_run. intros w []. split; [done|]. split; try done.
  apply map_Forall_insert_2; [|done]. by rewrite Hf.
Qed.

Lemma clean_set_local f :
  (forall l, ln_kadmlia_key (f l) = ln_kadmlia_key l) -> kept (set_local f).
Proof.
  intros Hf. apply ensures_modify. intros w []. split; try done.
  intros l i. change (f <$> local_node_ptr_ w = Some l -> LocalNodeInfo_id l = Ok i -> i = lid).
  intros (l' & E & ->)%fmap_Some. unfold LocalNodeInfo_id. rewrite Hf. by apply cl_local0.
Qed.

Lemma clean_modify (f : World -> World) : (forall w, cl_view (f w) = cl_view w) -> kept (modify f).
Proof. intros Hf. apply ensures_modify. intros w. by apply clean_view. Qed.

Lemma clean_run_world {A} (f : World -> A * World) :
  (forall w, cl_view (f w).2 = cl_view w) -> kept (run f).
Proof. intros Hf. apply ensures_run. intros w Hw. split; [done|]. by apply (clean_view _ _ w). Qed.
End primitives.

Create HintDb clean.
#[export] Hint Resolve ensures_raise : clean.

(** Walk through a program; what is left are the messages to be proved honest
    and the ids to be proved of the network. *)
Ltac clean_step :=
  lazymatch goal with
  | |- cleans _ _ _ (gets (fun w => w) ≫= _) => eapply ensures_bind; [apply cleans_world|intros ? ?]
  | |- cleans _ _ _ (obj _ ≫= _) => eapply ensures_bind; [apply cleans_obj|intros ? ?]
  | |- cleans _ _ _ (local ≫= _) => eapply ensures_bind; [apply cleans_local|intros ? ?]
  | |- cleans _ _ _ (local_id ≫= _) => eapply ensures_bind; [apply cleans_local_id|intros ? <-]
  | |- cleans _ _ _ (_ ≫= _) => apply (ensures_bind (fun _ => True)); [|intros ? _]
  | |- cleans _ _ _ (when _ _) => apply ensures_when; [exact I|]
  | |- cleans _ _ _ (for_each _ _) => apply ensures_for_each; intros ? ?
  | |- cleans _ _ _ (modify _) => solve [apply clean_modify; intros ?; reflexivity]
  | |- cleans _ _ _ (run _) => apply clean_run_world; intros ?; reflexivity
  | |- cleans _ _ _ (mutate _ _) => apply clean_mutate; intros ?; reflexivity
  | |- cleans _ _ _ (set_local _) => apply clean_set_local; intros ?; try reflexivity
  | |- cleans _ _ _ (new_NodeInfo _ _) => apply clean_new_NodeInfo; [intros ?; reflexivity|try done]
  | |- cleans _ _ _ (mret _) => apply ensures_ret; try exact I
  | |- cleans _ _ _ (gets _) => apply ensures_gets; try done
  | |- cleans _ _ _ (lift _) => apply ensures_lift; try done
  | |- cleans _ _ _ (from_some _ _) => apply ensures_from_some; try done
  | |- cleans _ _ _ (if negb ?b then _ else _) => destruct b eqn:?; cbn [negb]
  | |- cleans _ _ _ (match (if ?b then _ else _) with _ => _ end) => destruct b eqn:?
  | |- cleans _ _ _ (let '_ := ?x in _) => destruct x eqn:?
  | |- cleans _ _ _ (if ?b then _ else _) => destruct b eqn:?
  | |- cleans _ _ _ (match ?x with _ => _ end) => destruct x eqn:?
  | |- cleans _ _ _ ((match ?x with _ => _ end) _) => destruct x; cbv beta
  | |- cleans _ _ _ _ => solve [auto with clean nocore]
  end.
Ltac clean_run := repeat (cbv beta iota zeta; clean_step).

(** ** The table *)

Section table.
Context `{Xbase} `{KadKey} `{Xip} `{Wire} `{PartialSort}.
Context (K : string -> Prop) (lid : string).
Notation cleans := (cleans K lid).
Notation kept := (cleans (fun _ => True)).

Lemma cl_local_xip : kept local_xip.
Proof. unfold local_xip. clean_run. Qed.
Lemma cl_gxid : kept gxid.
Proof. unfold gxid. clean_run. Qed.
Lemma cl_sort c n : kept (sort_nodes c n).
Proof. unfold sort_nodes. clean_run. Qed.
Lemma cl_SetNodeBucket p : kept (SetNodeBucket p).
Proof. unfold SetNodeBucket. clean_run. Qed.
#[local] Hint Resolve cl_sort cl_SetNodeBucket : clean.

Lemma cl_AddNode p : kept (AddNode p).
Proof.
  unfold AddNode, ValidNode, HasNode, nodes_size, NewNodeReplaceOldNode, SortNodesByTargetXid,
    refresh_unlocked, nodes. clean_run.
Qed.

Lemma cl_CanAddNode p : kept (CanAddNode p).
Proof.
  unfold CanAddNode, ValidNode, HasNode, nodes_size, NewNodeReplaceOldNode, SortNodesByTargetXid.
  clean_run.
Qed.

Lemma cl_DropNode p : kept (DropNode p).
Proof.
  unfold DropNode, refresh_unlocked, nodes. clean_run.
  match goal with |- context [DropDxip ?i ?l] => by destruct (DropDxip_frame i l) as (? & ? & ->) end.
Qed.

Lemma cl_GetClosestNodes target n b : kept (GetClosestNodes target n b).
Proof. unfold GetClosestNodes, SortNodesByTargetXid, SortNodesByTargetXip, nodes. clean_run. Qed.

(** Without the search for closer nodes, a destination is the node itself. *)
Lemma cl_IsDestination des : cleans (fun b => b = true -> des = lid) (IsDestination des false).
Proof.
  unfold IsDestination. eapply ensures_bind; [apply cleans_local_id|intros ? <-].
  destruct (String.eqb_spec des lid) as [->|Hne]; by apply ensures_ret.
Qed.

Lemma cl_ResetNodeHeartbeat i : kept (ResetNodeHeartbeat i).
Proof. unfold ResetNodeHeartbeat. clean_run. Qed.

Lemma cl_sorted_neighbours : kept sorted_neighbours.
Proof. unfold sorted_neighbours, SortNodesByTargetXid, nodes. clean_run. Qed.

Lemma cl_PrintRoutingTable index opens : kept (PrintRoutingTable index opens).
Proof. unfold PrintRoutingTable, SortNodesByTargetXid, nodes_size. clean_run. Qed.

(** ** Node detection *)

Lemma cl_detection : kept NodeDetectionManager.detection.
Proof. unfold NodeDetectionManager.detection. clean_run. Qed.
Lemma cl_set_detection f : kept (NodeDetectionManager.set_detection f).
Proof. unfold NodeDetectionManager.set_detection. clean_run. Qed.
#[local] Hint Resolve cl_detection cl_set_detection : clean.

Lemma cl_AddDetectionNode p : kept (NodeDetectionManager.AddDetectionNode p).
Proof. unfold NodeDetectionManager.AddDetectionNode. clean_run. Qed.

Lemma cl_RemoveDetection ip port : kept (NodeDetectionManager.RemoveDetection ip port).
Proof. unfold NodeDetectionManager.RemoveDetection. clean_run. Qed.

(** ** Joining *)

Lemma cl_SetJoin i ip port : kept (SetJoin i ip port).
Proof. unfold SetJoin. clean_run. Qed.
Lemma cl_SetUnJoin : kept SetUnJoin.
Proof. unfold SetUnJoin. clean_run. Qed.
Lemma cl_FindClient i : kept (FindClient i).
Proof. unfold FindClient. clean_run. Qed.
End table.

#[export] Hint Resolve cl_local_xip cl_gxid cl_sort cl_SetNodeBucket cl_AddNode cl_CanAddNode
  cl_DropNode cl_GetClosestNodes cl_ResetNodeHeartbeat cl_sorted_neighbours cl_detection
  cl_set_detection cl_AddDetectionNode cl_RemoveDetection cl_SetJoin cl_SetUnJoin : clean.

(** ** Sending *)

Section sending.
Context `{Xbase} `{!XbaseLaws} `{KadKey} `{Xip} `{Wire} `{!ProtoLaws RoutingMessage} `{PartialSort}.
#[local] Set Default Proof Using "Type*".
Context (K : string -> Prop) (lid : string).
Notation cleans := (cleans K lid).
Notation kept := (cleans (fun _ => True)).

(** A message with the source it gets from SetFreqMessage. *)
Definition from_here (m : RoutingMessage) : Prop := msg_src_node_id m = Some lid.

Lemma cl_message_id : kept next_message_id.
Proof. unfold next_message_id. clean_run. Qed.
#[local] Hint Resolve cl_message_id : clean.

Lemma cl_SetFreqMessage m : cleans from_here (SetFreqMessage m).
Proof. unfold SetFreqMessage. clean_run; reflexivity. Qed.

Lemma cl_request des s t :
  cleans (fun m => from_here m /\ msg_type m = Some t /\ msg_des_node_id m = Some des) (request des s t).
Proof.
  unfold request. eapply ensures_bind; [apply cl_SetFreqMessage|]. intros m Hm. by apply ensures_ret.
Qed.

Lemma honest_sent m data : honest K m -> SerializeToString m = Some data ->
  forall kind flags ip port, honest_packet K (mkPacket kind flags data ip port).
Proof.
  intros Hm E kind flags ip port m' E'. simpl in E'. rewrite (parse_serialize _ _ E) in E'.
  by injection E' as <-.
Qed.

Lemma cl_SendData m ip port : honest K m -> kept (SendData m ip port).
Proof.
  intros Hm. unfold SendData, SendData_bytes. clean_run. apply clean_transport_send.
  eapply honest_sent; [by apply honest_SetVersion|done].
Qed.

Lemma cl_SendData_node m p : honest K m -> kept (SendData_node m p).
Proof.
  intros Hm. unfold SendData_node. clean_run; [by apply cl_SendData|].
  apply clean_transport_send. eapply honest_sent; [by apply honest_SetVersion|done].
Qed.

Lemma cl_RecursiveSend m r : honest K m -> kept (RecursiveSend m r).
Proof. intros Hm. unfold RecursiveSend. clean_run. by apply cl_SendData_node. Qed.

Lemma cl_SendToClosestNode m : honest K m -> kept (SendToClosestNode m).
Proof.
  intros Hm. unfold SendToClosestNode, SendToClosestNode_hop. clean_run.
  apply cl_RecursiveSend. by apply (honest_fields K m).
Qed.
End sending.

#[export] Hint Resolve cl_message_id cl_SendData cl_SendData_node cl_SendToClosestNode : clean.

(** The source of a message made here is the node's id. *)
Lemma from_here_source K lid m : K lid -> from_here lid m -> K (get msg_src_node_id m).
Proof. unfold from_here, get. by intros Hk ->. Qed.

(** Continue with the message SetFreqMessage or [request] made. *)
Ltac made m Hm :=
  lazymatch goal with
  | |- cleans _ _ _ (SetFreqMessage _ ≫= _) =>
      eapply ensures_bind; [apply cl_SetFreqMessage|intros m Hm]
  | |- cleans _ _ _ (request _ _ _ ≫= _) =>
      eapply ensures_bind; [apply cl_request|intros m Hm]
  end.

Section operations.
Context `{Xbase} `{!XbaseLaws} `{KadKey} `{Xip} `{Wire} `{PartialSort} `{Bloom}.
Context `{!ProtoLaws RoutingMessage} `{!ProtoLaws FindClosestNodesRequest}.
Context `{!ProtoLaws FindClosestNodesResponse}.
#[local] Set Default Proof Using "Type*".
Context (K : string -> Prop) (lid : string) (Hlid : K lid).
Notation cleans := (cleans K lid).
Notation kept := (cleans (fun _ => True)).

(** A message of this node of a type that names no other. *)
Lemma honest_made m t :
  msg_src_node_id m = Some lid -> msg_type m = Some t -> t ∉ naming -> honest K m.
Proof. intros Hs Ht Hn. apply honest_plain; unfold get; [by rewrite Hs|by rewrite Ht]. Qed.

Lemma connect_made m i :
  msg_src_node_id m = Some lid -> msg_type m = Some kKadConnectRequest ->
  msg_des_node_id m = Some i -> K i -> honest K m.
Proof. intros Hs Ht Hd Hi. apply honest_connect; unfold get; by rewrite ?Hs, ?Ht, ?Hd. Qed.

(** A search of this node, and an answer. *)
Lemma search_made m (r : FindClosestNodesRequest) s :
  SerializeToString r = Some s -> msg_src_node_id m = Some lid ->
  msg_type m = Some kKadFindNodesRequest -> msg_data m = Some s ->
  K (get fnreq_target_id r) -> named_pb K (get fnreq_src_nodeinfo r) -> honest K m.
Proof.
  intros Hr Hs Ht Hd. apply honest_search; unfold get; by rewrite ?Hs, ?Ht, ?Hd.
Qed.

Lemma answer_made m (r : FindClosestNodesResponse) s :
  SerializeToString r = Some s -> msg_src_node_id m = Some lid ->
  msg_type m = Some kKadFindNodesResponse -> msg_data m = Some s ->
  Forall (named_pb K) (fnres_nodes r) -> honest K m.
Proof.
  intros Hr Hs Ht Hd. apply honest_answer; unfold get; by rewrite ?Hs, ?Ht, ?Hd.
Qed.

(** The fields of a message of this node, whatever the client flag adds. *)
#[local] Ltac fields :=
  repeat match goal with Hb : true = true -> _ |- _ => specialize (Hb eq_refl) end;
  unfold get, mark_client, SetSpeClientMessage in *; repeat case_match; simpl; congruence || done.
#[local] Ltac plain t := eapply (honest_made _ t); [fields|fields|apply plain_types; set_solver].

(** ** Requests *)

Lemma cl_Bootstrap ip port s : kept (Bootstrap ip port s).
Proof.
  unfold Bootstrap. made m Hm. unfold from_here in Hm. clean_run; apply cl_SendData;
    plain kKadBootstrapJoinRequest.
Qed.

Lemma cl_FindCloseNodesWithEndpoint des boot : kept (FindCloseNodesWithEndpoint des boot).
Proof.
  unfold FindCloseNodesWithEndpoint, GetFindNodesMaxSize. do 2 clean_step. made m Hm.
  destruct Hm as (Hs & Ht & _). unfold from_here in Hs. clean_run. apply cl_SendData.
  eapply search_made; [eassumption|fields..|done|by right].
Qed.

Lemma cl_GetNode i : kept (GetNode i).
Proof. unfold GetNode. clean_run. Qed.
Lemma cl_bloom l : kept (GetExistsNodesBloomfilter l).
Proof. unfold GetExistsNodesBloomfilter. clean_run. Qed.
#[local] Hint Resolve cl_GetNode cl_bloom : clean.

Lemma cl_SendFindClosestNodes i c l s : kept (SendFindClosestNodes i c l s).
Proof.
  unfold SendFindClosestNodes. made m Hm. destruct Hm as (Hs & Ht & _). unfold from_here in Hs.
  clean_run. apply cl_SendData_node.
  eapply search_made; [eassumption|fields..|done|by left].
Qed.
#[local] Hint Resolve cl_SendFindClosestNodes : clean.

Lemma cl_add_random fuel b s q : kept (add_random_nodes fuel b s q).
Proof.
  revert q. induction fuel as [|fuel IH]; intros q; cbn [add_random_nodes];
    unfold nodes, RandomUint32; clean_run; auto.
Qed.
#[local] Hint Resolve cl_add_random : clean.

Lemma cl_FindClosestNodes a c l : kept (FindClosestNodes a c l).
Proof.
  unfold FindClosestNodes, GetClosestAlphaNodes, SortNodesByTargetXid, nodes_size, nodes. clean_run.
Qed.

Lemma cl_SendHeartbeat p s : kept (SendHeartbeat p s).
Proof.
  unfold SendHeartbeat. clean_step. made m Hm. destruct Hm as (Hs & Ht & _). unfold from_here in Hs.
  clean_run; apply cl_SendData_node; plain kKadHeartbeatRequest.
Qed.

Lemma cl_SendConnectRequest i s : K i -> kept (SendConnectRequest i s).
Proof.
  intros Hi. unfold SendConnectRequest. made m Hm. destruct Hm as (Hs & Ht & Hd). unfold from_here in Hs.
  clean_run. apply cl_SendToClosestNode.
  eapply connect_made; [fields..|done].
Qed.

Lemma cl_SendConnectRequest_via r ip port i s : K i -> kept (SendConnectRequest_via r ip port i s).
Proof.
  intros Hi. unfold SendConnectRequest_via. made m Hm. destruct Hm as (Hs & Ht & Hd). unfold from_here in Hs.
  clean_run. apply cl_SendData.
  eapply connect_made; [fields..|done].
Qed.

Lemma cl_SendDropNodeRequest i : kept (SendDropNodeRequest i).
Proof.
  unfold SendDropNodeRequest. do 2 clean_step; [by apply ensures_ret|]. made m Hm.
  destruct Hm as (Hs & Ht & _). unfold from_here in Hs. clean_run.
  apply cl_SendToClosestNode. plain kKadDropNodeRequest.
Qed.
#[local] Hint Resolve cl_FindClosestNodes cl_SendConnectRequest_via : clean.

(** ** Node detection *)

Lemma cl_Handshake p : kept (NodeDetectionManager.Handshake_ p).
Proof.
  unfold NodeDetectionManager.Handshake_. clean_step; [auto with clean|]. clean_step; [by apply ensures_ret|].
  made m Hm. unfold from_here in Hm. clean_run. apply clean_transport_send.
  eapply honest_sent; [|eassumption]. plain kKadHandshake.
Qed.
#[local] Hint Resolve cl_Handshake : clean.

Lemma cl_DoTetection : kept NodeDetectionManager.DoTetection.
Proof. unfold NodeDetectionManager.DoTetection, NodeDetectionManager.detect_one. clean_run. Qed.

(** ** Handlers *)

(** The entries of an answer have the ids of node objects. *)
Lemma answer_nodes_named f target ns acc :
  Forall (fun n => named K (node_id n)) ns -> Forall (named_pb K) acc ->
  Forall (named_pb K) (answer_nodes f target ns acc).
Proof.
  intros Hns. revert acc. induction Hns as [|n ns Hn Hns IH]; intros acc Ha; [done|].
  cbn [answer_nodes]. repeat case_match; auto. apply IH, Forall_app_2; [done|]. by apply Forall_singleton.
Qed.

Lemma cl_answer_self f : cleans (Forall (named_pb K)) (answer_self f).
Proof.
  unfold answer_self. clean_run; try apply Forall_nil_2; apply Forall_singleton; by left.
Qed.

(** Walk through a handler. *)
#[local] Ltac handle_step :=
  lazymatch goal with
  | |- ensures _ _ (SetFreqMessage _ ≫= _) =>
      eapply ensures_bind; [apply cl_SetFreqMessage|intros ? Hsrc; unfold from_here in Hsrc]
  | |- ensures _ _ (answer_self _ ≫= _) => eapply ensures_bind; [apply cl_answer_self|intros ? Hself]
  | |- ensures _ _ (IsDestination _ _ ≫= _) => eapply ensures_bind; [apply cl_IsDestination|intros ? Hmine; cbv beta in Hmine]
  | _ => clean_step
  end.
#[local] Ltac handle := repeat (cbv beta iota zeta; handle_step).

Lemma cl_HandleFindNodesRequest m p :
  honest K m -> get msg_type m = kKadFindNodesRequest -> kept (HandleFindNodesRequest m p).
Proof.
  intros Hm Ht. unfold HandleFindNodesRequest. handle.
  - by eapply (ho_search _ _ Hm _ Ht).
  - apply cl_SendData. eapply answer_made; [eassumption|fields..|].
    apply answer_nodes_named; [|done]. apply Forall_fmap, Forall_forall. intros q _. by apply (clean_obj K lid).
Qed.

(** A node that can be added has an id. *)
Lemma CanAddNode_id p w : wlp (CanAddNode p) (fun b _ => b = true -> id_ok (node_id (obj_of w p))) w.
Proof.
  unfold CanAddNode, ValidNode, obj, wlp. mstep. destruct (_ =? _); [done|].
  unfold local_id, local. do 3 mstep. destruct (local_node_ptr_ w) as [l|]; [|exact I].
  mstep. destruct (LocalNodeInfo_id l) as [i|]; [|exact I]. mstep. destruct (_ =? _)%string; [done|].
  do 2 mstep. destruct (Nat.eqb_spec (String.length (node_id (obj_of w p))) kNodeIdSize) as [Hi|_]; [|done].
  match goal with |- match ?m with _ => _ end => by destruct m as [[]|] end.
Qed.

(** The new object has the id it was given. *)
Lemma cl_new_found i f w :
  (forall n, node_id (f n) = node_id n) -> named K i -> clean K lid w ->
  wlp (new_NodeInfo i f) (fun p w' => clean K lid w' /\ node_id (obj_of w' p) = i) w.
Proof.
  intros Hf Hi [C1 C2 C3]. unfold new_NodeInfo, alloc, wlp. mstep. unfold run. split.
  - split; try done. apply map_Forall_insert_2; [|done]. by rewrite Hf.
  - unfold obj_of. simpl. by rewrite lookup_total_insert_eq, Hf.
Qed.

Lemma cl_found_node m p pn : named_pb K pn -> kept (handle_found_node m p pn).
Proof.
  intros Hn w Hw. unfold handle_found_node. apply wlp_bind.
  eapply wlp_mono; [|by apply cl_new_found]. intros q w1 [Hw1 Eq]. apply wlp_bind.
  pose proof (CanAddNode_id q w1) as Hid. pose proof (cl_CanAddNode K lid q w1 Hw1) as Hc.
  unfold wlp in Hid, Hc. unfold wlp at 1. destruct (CanAddNode q w1) as [[b w2]|]; [|done].
  destruct Hc as [_ Hw2]. rewrite Eq in Hid. destruct b; [|by split].
  assert (K (get pn_id pn)) as Hk.
  { destruct Hn as [?|E]; [done|]. specialize (Hid eq_refl). pose proof kNodeIdSize_pos.
    rewrite E in Hid. unfold id_ok in Hid. simpl in Hid. lia. }
  match goal with |- wlp ?c _ _ => cut (kept c); [intros Hrest; by apply Hrest|] end.
  cbn [negb]. handle.
Qed.

Lemma cl_HandleFindNodesResponse m p :
  honest K m -> get msg_type m = kKadFindNodesResponse -> kept (HandleFindNodesResponse m p).
Proof.
  intros Hm Ht. unfold HandleFindNodesResponse. handle. apply cl_found_node.
  eapply Forall_forall; [by eapply (ho_answer _ _ Hm _ Ht)|done].
Qed.

Lemma cl_HandleNodeQuit m p : K (get msg_src_node_id m) -> kept (HandleNodeQuit m p).
Proof. intros Hm. unfold HandleNodeQuit. handle. by left. Qed.

Lemma cl_HandleConnectRequest m p : honest K m -> kept (HandleConnectRequest m p).
Proof.
  intros Hm. unfold HandleConnectRequest. handle. left. apply (ho_source _ _ Hm).
Qed.

Lemma cl_HandleHandshake m p : K (get msg_src_node_id m) -> kept (HandleHandshake m p).
Proof.
  intros Hm. unfold HandleHandshake, handshake_request, handshake_response. handle; try by left.
  all: apply cl_SendData; plain kKadHandshake.
Qed.

Lemma cl_dispatch_dxip p : kept (dispatch_dxip p).
Proof. unfold dispatch_dxip, dy_manager. clean_run. Qed.
#[local] Hint Resolve cl_dispatch_dxip : clean.

Lemma cl_SendBootstrapJoinResponse m p : kept (SendBootstrapJoinResponse m p).
Proof.
  unfold SendBootstrapJoinResponse. handle; apply cl_SendData; plain kKadBootstrapJoinResponse.
Qed.
#[local] Hint Resolve cl_SendBootstrapJoinResponse : clean.

Lemma cl_HandleBootstrapJoinRequest m p :
  K (get msg_src_node_id m) -> kept (HandleBootstrapJoinRequest m p).
Proof. intros Hm. unfold HandleBootstrapJoinRequest. handle. by left. Qed.

Lemma cl_HandleBootstrapJoinResponse m p :
  K (get msg_src_node_id m) -> kept (HandleBootstrapJoinResponse m p).
Proof.
  intros Hm. unfold HandleBootstrapJoinResponse, GetFindNodesMaxSize, WakeBootstrap. handle. by left.
Qed.

Lemma cl_HandleHeartbeatRequest m p : kept (HandleHeartbeatRequest m p).
Proof.
  unfold HandleHeartbeatRequest. handle. apply cl_SendData. plain kKadHeartbeatResponse.
Qed.

(** ** Timers and the transport *)

Lemma cl_OnHeartbeatFailed ip port : kept (OnHeartbeatFailed ip port).
Proof. unfold OnHeartbeatFailed. clean_run. Qed.

Lemma cl_HeartbeatCheckProc : kept HeartbeatCheckProc.
Proof. unfold HeartbeatCheckProc. clean_run. Qed.

Lemma cl_HeartbeatProc : kept HeartbeatProc.
Proof. unfold HeartbeatProc. clean_run. Qed.

Lemma cl_FindNeighbours : kept FindNeighbours.
Proof. unfold FindNeighbours, GetFindNodesMaxSize. clean_run. Qed.

(** ** The life cycle *)

Lemma cl_Init seed : kept (Init seed).
Proof. unfold Init. clean_run. by left. Qed.
End operations.
