(* ===== verification/Demo.v ===== *)
(** src/demo/main.cc: the program that starts one routing node from a
    configuration file and, on request, broadcasts two million test messages. The
    transport, the configuration file and the gossip layer are library code:
    what UdpTransport::Start and Config::Init answer is an argument, and the
    calls of GossipBloomfilterLayer::Broadcast are recorded in order, and so are
    those of UdpTransport::SendData in TestPing, whose only call is commented
    out. The texts printed and the signal handler are left out. *)

From S2P Require Import Prelude Externals Messages Distance Sorting NodeInfo LocalNodeInfo.
From S2P Require Import ClientNodes RoutingUtils BootstrapCache World RoutingTable TableFacts.
From S2P Require Import Sending NodeDetection RoutingHandlers RoutingJoin HandlerFacts Robust.
From S2P Require Import NatDetect KadMessageHandler HandlerProps JoinProps.

(** ** The process *)

(** gossip::kGossipMaxMessageType of the gossip library. *)
Class GossipTypes := { kGossipMaxMessageType : Z }.

Section demo.
Context `{Xbase} `{KadKey} `{Xip} `{PartialSort} `{Wire} `{Bloom} `{Config} `{GossipTypes}.

Definition kBroadcastMessageTest : Z := kGossipMaxMessageType + 1.
Definition kTestNum : Z := 2000000.

(** The globals of main.cc with the singletons they use. A transport is the
    local endpoint it was started on; [dm_table] is the routing_ptr_ of
    kad_message_handler; a report is the count and the milliseconds printed. *)
Record Demo := mkDemo {
  dm_globals : globals;
  dm_nat : NatManager;
  dm_udp : option (string * Z);
  dm_nat_udp : option (string * Z);
  dm_threads : bool;                    (* multi_thread_message_handler *)
  dm_offline_callback : bool;
  dm_test_processor : bool;             (* TestGossipMessageHandler is registered *)
  dm_table : option World;
  dm_b_time : Z;                        (* global_b_time *)
  dm_receive_count : Z;
  dm_reports : list (Z * Z) }.

#[export] Instance Demo_eta : Eta Demo := fun r =>
  mkDemo (dm_globals r) (dm_nat r) (dm_udp r) (dm_nat_udp r) (dm_threads r)
    (dm_offline_callback r) (dm_test_processor r) (dm_table r) (dm_b_time r)
    (dm_receive_count r) (dm_reports r).

(** The process when main begins: [node_id] is RandomString(256). *)
Definition Demo_new (node_id : string) (m : NatManager) : Demo :=
  mkDemo (mkGlobals node_id "" None) m None None false false false None 0 0 [].

(** What the program meets outside: the local endpoint a transport gets for an
    ip and a port, the key PlatformKadmliaKey() makes, the random numbers and
    the rest of the World a new table starts in. *)
Record demo_env := mkDemoEnv {
  de_start : nat_transport_id -> string -> Z -> option (string * Z);
  de_key : KadmliaKey;
  de_score : Z;
  de_rnd : Z;
  de_rnd_http : Z;
  de_rnd_ws : Z;
  de_seed : Z;
  de_clients : ClientNodeManager.t;
  de_now : Z;
  de_send_result : nat -> Z;
  de_draws : nat -> Z }.

(** ** Starting *)

(** [others] as in NatManager::Start. *)
Definition CreateTransport (c : config) (e : demo_env) (others : N unit) (d : Demo)
    : outcome (bool * Demo) :=
  match cfg_string c "node" "local_ip" with
  | None => Ok (false, d)
  | Some local_ip =>
      let local_port := default 0 (cfg_u16 c "node" "local_port") in
      let d := d <| dm_threads := true |> in
      match de_start e TMain local_ip local_port with
      | None => Ok (false, d)
      | Some t =>
          let d := d <| dm_udp := Some t |> <| dm_offline_callback := true |> in
          match de_start e TNat local_ip (if local_port =? 0 then 0 else u16 (local_port + 1)) with
          | None => Ok (false, d)
          | Some nt =>
              let d := d <| dm_nat_udp := Some nt |> in
              let service_public_endpoints := GetPublicEndpointsConfig c ∅ in
              if decide (service_public_endpoints = ∅) then Ok (false, d)
              else
                let first_node := default false (cfg_bool c "node" "first_node") in
                '(ok, m) ← NatManager_Start others first_node service_public_endpoints
                             (Some t) (Some nt) (dm_nat d);
                Ok (ok, d <| dm_nat := m |>)
          end
      end
  end.

(** The zone goes into the key as it is read, all 32 bits of it. *)
Definition demo_key (zone_id : Z) (e : demo_env) : KadmliaKey :=
  key_set_zone_id zone_id (key_set_xnetwork_id kRoot (de_key e)).

(** The new table, before its Init. The message counter is the process's. *)
Definition demo_table (l : LocalNodeInfo) (e : demo_env) (d : Demo) : World :=
  RoutingTable_new (snd <$> dm_udp d) (Some l) (global_xid (dm_globals d)) (de_clients e)
    (nm_msg_id (dm_nat d)) (de_now e) (de_send_result e) (de_draws e).

(** [rounds] as in RoutingTable::MultiJoin. The answer is whether a table is
    returned; one that failed to join stays with kad_message_handler. *)
Definition CreateRoutingTable (c : config) (e : demo_env) (rounds : list (M unit)) (d : Demo)
    : outcome (bool * Demo) :=
  match GetZoneIdFromConfig c with
  | None => Ok (false, d)
  | Some zone_id =>
      '(nat, m) ← GetLocalNatType (dm_nat d);
      let d := d <| dm_nat := m |> in
      local_node_ptr ← CreateLocalInfoFromConfig c (Some (demo_key zone_id e)) nat (global_xid (dm_globals d))
                         (de_score e) (de_rnd e) (de_rnd_http e) (de_rnd_ws e);
      match local_node_ptr with
      | None => Ok (false, d)
      | Some l =>
          '(ok, w) ← Init (de_seed e) (demo_table l e d);
          if negb ok then Ok (false, d)
          else
            let d := d <| dm_table := Some w |> in
            if default false (cfg_bool c "node" "first_node") then Ok (true, d)
            else
              let service_public_endpoints := GetPublicEndpointsConfig c ∅ in
              if decide (service_public_endpoints = ∅) then Ok (false, d)
              else
                '((ret, _), w) ← MultiJoin rounds service_public_endpoints w;
                Ok (ret =? kKadSuccess, d <| dm_table := Some w |>)
      end
  end.

(** The loop over argv: whether -b was given, and the text after the last -c;
    argv\[argc\] is a null pointer. *)
Fixpoint parse_args (argv : list string) (send_broadcast : bool) (config_file : string)
    : outcome (bool * string) :=
  match argv with
  | [] => Ok (send_broadcast, config_file)
  | a :: rest =>
      let send_broadcast := send_broadcast || (a =? "-b")%string in
      if (a =? "-c")%string then
        match rest with
        | [] => Fault NullDeref
        | f :: _ => parse_args rest send_broadcast f
        end
      else parse_args rest send_broadcast config_file
  end.

Inductive demo_end :=
  | Exited (code : Z)
  | Serving (send_broadcast : bool) (d : Demo).

(** main up to the broadcast. *)
Definition demo_main (argv : list string) (config_Init : string -> option config) (e : demo_env)
    (others : N unit) (rounds : list (M unit)) (d : Demo) : outcome demo_end :=
  '(send_broadcast, config_file) ← parse_args argv false "./conf/kaddemo.conf"%string;
  match config_Init config_file with
  | None => Ok (Exited 1)
  | Some c =>
      '(_, g) ← CreateGlobalXid c (dm_globals d);
      '(ok, d) ← CreateTransport c e others (d <| dm_globals := g |>);
      if negb ok then Fault AssertFailed
      else
        let d := d <| dm_test_processor := true |> in
        '(_, m) ← SetNatTypeAndNotify kNatTypePublic (dm_nat d);
        '(ok, d) ← CreateRoutingTable c e rounds (d <| dm_nat := m |>);
        if negb ok then Fault AssertFailed else Ok (Serving send_broadcast d)
  end.

(** ** Messages *)

(** TestGossipMessageHandler; [now] is GetCurrentTimeMsec(). *)
Definition TestGossipMessageHandler (now : Z) (d : Demo) : Demo :=
  let d := if dm_b_time d =? 0 then d <| dm_b_time := now |> else d in
  let d := d <| dm_receive_count ::= fun n => u32 (n + 1) |> in
  if dm_receive_count d mod 10000 =? 0
  then d <| dm_reports ::= fun l => l ++ [(dm_receive_count d, now - dm_b_time d)] |>
  else d.

(** recv: a message from the worker threads, in the registration order of main. *)
Definition demo_process (now : Z) (message : RoutingMessage) (packet : xpacket) (d : Demo)
    : outcome Demo :=
  match processor_of (get msg_type message) with
  | Some HAck => Ok d
  | Some HNat => '(_, m) ← PushMessage message packet (dm_nat d); Ok (d <| dm_nat := m |>)
  | Some h =>
      match dm_table d with
      | None => Fault NullDeref
      | Some w => '(_, w) ← run_handler h message packet w; Ok (d <| dm_table := Some w |>)
      end
  | None =>
      if dm_test_processor d && (get msg_type message =? kBroadcastMessageTest)
      then Ok (TestGossipMessageHandler now d)
      else Ok d
  end.

(** A call of GossipBloomfilterLayer::Broadcast. *)
Record broadcast := mkBroadcast {
  br_local_id : string;
  br_message : RoutingMessage;
  br_nodes : list ptr }.

Definition test_gossip (g : GossipParam) : GossipParam :=
  g <| gp_neighber_count := Some 3 |> <| gp_stop_times := Some 10 |>
    <| gp_gossip_type := Some 1 |> <| gp_max_hop_num := Some 10 |>
    <| gp_evil_rate := Some 0 |>.

(** The body of the loop of TestBroadcast: a copy of the message with an id of
    its own, handed to the gossip layer. *)
Definition broadcast_copy (message : RoutingMessage) : M broadcast :=
  mid ← next_message_id;
  id ← local_id;
  l ← nodes;
  mret (mkBroadcast id (message <| msg_id := Some mid |>) l).

Fixpoint broadcast_loop (n : nat) (message : RoutingMessage) : M (list broadcast) :=
  match n with
  | O => mret []
  | S n' => b ← broadcast_copy message; l ← broadcast_loop n' message; mret (b :: l)
  end.

Definition TestBroadcast : M (list broadcast) :=
  node_ptr ← GetRandomNode;
  match node_ptr with
  | None => mret []
  | Some p =>
      message ← SetFreqMessage RoutingMessage_empty;
      n ← obj p;
      mid ← next_message_id;
      let message :=
        message <| msg_des_node_id := Some (node_id n) |>
                <| msg_type := Some kBroadcastMessageTest |>
                <| msg_id := Some mid |>
                <| msg_broadcast := Some true |> in
      let message :=
        message <| msg_gossip := Some (test_gossip (get msg_gossip message)) |> in
      broadcast_loop (Z.to_nat kTestNum) message
  end.

(** TestPing: one text, sent [kTestNum] times by the transport to the same
    endpoint; the answer is the calls of UdpTransport::SendData. A message that
    cannot be written leaves the text empty. *)
Definition TestPing : M (list (string * string * Z)) :=
  node_ptr ← GetRandomNode;
  match node_ptr with
  | None => mret []
  | Some p =>
      message ← SetFreqMessage RoutingMessage_empty;
      n ← obj p;
      mid ← next_message_id;
      let message :=
        message <| msg_des_node_id := Some (node_id n) |>
                <| msg_type := Some kBroadcastMessageTest |>
                <| msg_id := Some mid |> in
      let data := default ""%string (SerializeToString message) in
      mret (replicate (Z.to_nat kTestNum) (data, "127.0.0.1"%string, 8900))
  end.

End demo.
