(* ===== verification/DemoProps.v ===== *)
(** What the demo program starts: with a complete configuration, and if another
    thread joins it, a node that processes every message with well-formed ids,
    whatever happened to its NAT manager meanwhile; and the messages its
    broadcast test sends. *)

From S2P Require Import Prelude Invariants Externals Messages Distance Sorting NodeInfo LocalNodeInfo.
From S2P Require Import ClientNodes RoutingUtils BootstrapCache World RoutingTable TableFacts.
From S2P Require Import TableProps Sending NodeDetection RoutingHandlers RoutingJoin HandlerFacts.
From S2P Require Import Frames Robust HandlerProps JoinProps NatDetect NatProps NatSafe KadMessageHandler.
From S2P Require Import KadProps Demo.

Section start.
Context `{Xbase} `{!XbaseLaws} `{KadKey} `{Xip} `{PartialSort} `{!PartialSortLaws} `{Wire}.
Context `{!NatWireLaws} `{Bloom} `{Config} `{GossipTypes}.
#[local] Set Default Proof Using "Type*".

(** ** A new table after its Init *)

Lemma Init_starts seed t l k x g cl mid now sr rnd :
  ln_kadmlia_key l = Some k -> id_ok (key_Get k) -> ln_client_mode l = false ->
  ln_xip l = Some x ->
  exists w, Init seed (RoutingTable_new (Some t) (Some l) (Some g) cl mid now sr rnd) = Ok (true, w) /\
    started (key_Get k) w /\ joined_ w = false.
Proof.
  intros Hk Hid Hm Hx. set (w0 := RoutingTable_new _ _ _ _ _ _ _ _).
  assert (exists w, Init seed w0 = Ok (true, w) /\ joined_ w = false /\
    (exists l x, local_node_ptr_ w = Some l /\ ln_client_mode l = false /\ ln_xip l = Some x) /\
    is_Some (transport_ptr_ w) /\ is_Some (w_global_xid w) /\ is_Some (node_detection_ptr_ w) /\
    is_Some (dy_manager_ w)) as (w & E & Hj & Hl & Ht & Hg & Hd & Hy).
  { destruct l. simpl in Hk, Hm, Hx. subst. destruct ln_first_node; eexists;
      (split; [reflexivity|]); splits; try done; do 2 eexists; splits; reflexivity. }
  exists w. splits; [done| |done]. split; try done.
  pose proof (keeps_Init (key_Get k) seed w0 (table_ok_new _ _ _ _ _ _ _ _ _ Hk Hid)) as Hok.
  unfold wlp in Hok. by rewrite E in Hok.
Qed.

(** ** A complete configuration *)

(** What the program needs of its configuration [c] and of the machine. *)
Record complete (c : config) (e : demo_env) (zone_id : Z) : Prop := {
  cm_zone : GetZoneIdFromConfig c = Some zone_id;
  cm_ip : is_Some (cfg_string c "node" "local_ip");
  cm_mode : default false (cfg_bool c "node" "client_mode") = false;
  cm_endpoints : GetPublicEndpointsConfig c ∅ <> ∅;
  cm_start t ip port : is_Some (de_start e t ip port);
  cm_id : id_ok (key_Get (demo_key zone_id e)) }.

Definition first_node (c : config) : bool := default false (cfg_bool c "node" "first_node").

Lemma CreateTransport_spec c e z others d :
  complete c e z -> serves others -> nm_started (dm_nat d) = false ->
  exists t nt m, CreateTransport c e others d =
      Ok (true, d <| dm_threads := true |> <| dm_udp := Some t |> <| dm_offline_callback := true |>
                  <| dm_nat_udp := Some nt |> <| dm_nat := m |>) /\ serving m.
Proof.
  intros Hc Ho Hm. destruct (cm_ip _ _ _ Hc) as [ip Eip]. unfold CreateTransport. rewrite Eip. cbv zeta.
  set (p1 := default 0 _). set (p2 := if p1 =? 0 then 0 else u16 (p1 + 1)).
  destruct (cm_start _ _ _ Hc TMain ip p1) as [t Et]. rewrite Et.
  destruct (cm_start _ _ _ Hc TNat ip p2) as [nt Ent]. rewrite Ent.
  rewrite decide_False by apply (cm_endpoints _ _ _ Hc).
  destruct (NatManager_Start_spec others (first_node c) (GetPublicEndpointsConfig c ∅) t nt (dm_nat d) Ho Hm)
    as (m & E & Hs).
  exists t, nt, m. split; [|done]. simpl dm_nat. unfold first_node in E. by rewrite E.
Qed.

(** The NAT type is settled before the node is created. *)
Lemma SetNatTypeAndNotify_settles m :
  exists b m', SetNatTypeAndNotify kNatTypePublic m = Ok (b, m') /\
    nm_nat_type m' <> kNatTypeUnknown /\ (serving m -> serving m').
Proof.
  unfold SetNatTypeAndNotify. mstep. destruct (Z.eqb_spec (nm_nat_type m) kNatTypeUnknown) as [E|E];
    cbn [negb]; msteps; do 2 eexists; splits; try done. by intros [].
Qed.

Lemma CreateLocalInfoFromConfig_settled c e z t g :
  complete c e z -> t <> kNatTypeUnknown ->
  exists l x, CreateLocalInfoFromConfig c (Some (demo_key z e)) (true, t) (Some g) (de_score e) (de_rnd e)
      (de_rnd_http e) (de_rnd_ws e) = Ok (Some l) /\
    ln_kadmlia_key l = Some (demo_key z e) /\ ln_client_mode l = false /\ ln_xip l = Some x.
Proof.
  intros Hc Ht. destruct (cm_ip _ _ _ Hc) as [ip Eip].
  unfold CreateLocalInfoFromConfig, LocalNodeInfo_Init.
  rewrite (cm_zone _ _ _ Hc), (cm_mode _ _ _ Hc), Eip.
  change (str_empty (GenNodeIdType_code _ _)) with false. cbv iota zeta.
  apply Z.eqb_neq in Ht.
  destruct (default false (cfg_bool c "node" "first_node")); cbn; rewrite Ht; cbn;
    do 2 eexists; splits; reflexivity.
Qed.

(** ** The started program *)

(** What the other threads must do for a node that is not the first to join. *)
Definition joins (lid : string) (rounds : list (M unit)) : Prop :=
  exists pre m post, rounds = pre ++ m :: post /\ (forall x, x ∈ pre -> idle lid x) /\ joining lid m.

Lemma CreateRoutingTable_spec c e z rounds d g t :
  complete c e z -> global_xid (dm_globals d) = Some g -> dm_udp d = Some t ->
  nm_nat_type (dm_nat d) <> kNatTypeUnknown ->
  first_node c = true \/ joins (key_Get (demo_key z e)) rounds ->
  exists w, CreateRoutingTable c e rounds d = Ok (true, d <| dm_table := Some w |>) /\
    started (key_Get (demo_key z e)) w /\ joined_ w = negb (first_node c).
Proof.
  intros Hc Hg Ht Hn Hr. unfold CreateRoutingTable, GetLocalNatType.
  rewrite (cm_zone _ _ _ Hc). msteps. simpl dm_globals. rewrite Hg.
  destruct (CreateLocalInfoFromConfig_settled c e z _ g Hc Hn) as (l & x & El & Ek & Em & Ex).
  simpl. rewrite El. unfold demo_table. simpl. rewrite Ht, Hg. simpl.
  edestruct Init_starts as (w & Ew & Hs & Hj); [exact Ek|apply (cm_id _ _ _ Hc)|exact Em|exact Ex|].
  rewrite Ew. unfold first_node in *. destruct d. simpl in *.
  destruct (default false (cfg_bool c "node" "first_node")).
  { exists w. splits; [reflexivity|exact Hs|exact Hj]. }
  rewrite decide_False by apply (cm_endpoints _ _ _ Hc).
  destruct Hr as [?|(pre & m & post & -> & Hpre & Hm)]; [done|].
  destruct (join_rounds_end _ pre m post (endpoints_in_order (GetPublicEndpointsConfig c ∅)) 0 w
    Hs Hj Hpre Hm) as (w' & E & Hs' & Hj').
  unfold MultiJoin. mstep. rewrite Hj. change (Z.of_nat 0) with 0 in E. change (wait_of 0) with 4 in E.
  rewrite E. simpl. rewrite Z.eqb_refl. exists w'. splits; [reflexivity|exact Hs'|exact Hj'].
Qed.

(** What a message must satisfy for its processor, if it has one. *)
Definition acceptable (x : Z * RoutingMessage * xpacket) : Prop :=
  let '(_, message, packet) := x in
  forall h, processor_of (get msg_type message) = Some h -> processable h message packet.

(** The messages of [traffic], each at its time, in order. *)
Definition demo_receive (traffic : list (Z * RoutingMessage * xpacket)) (d : Demo) : outcome Demo :=
  fold_m (fun d '(now, message, packet) => demo_process now message packet d) traffic d.

(** The program serves the node [lid]. *)
Record demo_serving (lid : string) (d : Demo) : Prop := {
  ds_table : exists w, dm_table d = Some w /\ started lid w;
  ds_nat : serving (dm_nat d) }.

Lemma demo_process_serves lid now message packet d :
  demo_serving lid d -> acceptable (now, message, packet) ->
  exists d', demo_process now message packet d = Ok d' /\ demo_serving lid d'.
Proof.
  intros [(w & Et & Hw) Hn] Hm. unfold demo_process.
  destruct (processor_of _) as [h|] eqn:Eh.
  - assert (always serving (PushMessage message packet)) as Hp by (unfold PushMessage; serve).
    destruct (wp_elim _ _ _ (runs_run_handler lid h message packet (Hm h Eh) w Hw)) as ([] & w' & E & Hw').
    destruct (wp_elim _ _ _ (Hp _ Hn)) as ([] & m' & En & Hm').
    rewrite Et. destruct h;
      first [ rewrite En | rewrite E | idtac ]; cbn [mbind outcome_bind];
      (eexists; split; [reflexivity|]); (split; [|done]); eauto.
  - unfold TestGossipMessageHandler. repeat case_match; eexists; (split; [reflexivity|]); split; eauto.
Qed.

Lemma demo_receive_serves lid traffic d :
  demo_serving lid d -> Forall acceptable traffic ->
  exists d', demo_receive traffic d = Ok d' /\ demo_serving lid d'.
Proof.
  intros Hd Ht. revert d Hd. induction Ht as [|[[now m] p] l Hx _ IH]; intros d Hd; [by exists d|].
  destruct (demo_process_serves lid now m p d Hd Hx) as (d1 & E & Hd1).
  destruct (IH d1 Hd1) as (d' & E' & Hd'). exists d'. split; [|done].
  unfold demo_receive. cbn [fold_m]. by rewrite E.
Qed.

(** C23: started with a complete configuration (zone, ip, bootstrap endpoints,
    not client mode, both transports start), the demo ends up serving the node
    that has the id of its key, its NAT type settled, if it is the first node or
    another thread joins it during one of the rounds of MultiJoin; it is then
    joined unless it is the first node. [others] is what messages and timers do
    to the NAT manager meanwhile. No message for the table may arrive before the
    table exists ([early_message_crashes]); afterwards any sequence of messages
    is processed without a fault, provided that a find-nodes request's target
    and a connect request's destination have the length of an id and that a
    handshake comes from a non-empty address. *)
Theorem demo_serves argv config_Init b file c z e others rounds d :
  parse_args argv false "./conf/kaddemo.conf" = Ok (b, file) -> config_Init file = Some c ->
  complete c e z -> global_node_id (dm_globals d) <> EmptyString ->
  nm_started (dm_nat d) = false -> serves others ->
  first_node c = true \/ joins (key_Get (demo_key z e)) rounds ->
  exists d' w, demo_main argv config_Init e others rounds d = Ok (Serving b d') /\
    dm_table d' = Some w /\ started (key_Get (demo_key z e)) w /\
    joined_ w = negb (first_node c) /\
    serving (dm_nat d') /\ nm_nat_type (dm_nat d') <> kNatTypeUnknown /\
    dm_test_processor d' = true /\
    forall traffic, Forall acceptable traffic ->
      exists d'', demo_receive traffic d' = Ok d'' /\ demo_serving (key_Get (demo_key z e)) d''.
Proof.
  intros Ea Ef Hc Hid Hm Ho Hr. unfold demo_main. rewrite Ea. cbn [mbind outcome_bind]. rewrite Ef.
  unfold CreateGlobalXid. destruct (global_node_id (dm_globals d)) as [|ch s] eqn:Eid; [done|].
  change (str_empty (String ch s)) with false. rewrite (cm_zone _ _ _ Hc). cbn [mbind outcome_bind].
  match goal with |- context [CreateTransport c e others ?d1] =>
    destruct (CreateTransport_spec c e z others d1 Hc Ho Hm) as (t & nt & m & E1 & Hs1) end.
  rewrite E1. cbn [mbind outcome_bind negb]. cbv zeta.
  destruct (SetNatTypeAndNotify_settles m) as (b2 & m2 & E2 & Hn2 & Hs2).
  change (dm_nat (_ <| dm_test_processor := true |>)) with m. rewrite E2. cbn [mbind outcome_bind].
  match goal with |- context [CreateRoutingTable c e rounds ?d2] =>
    destruct (CreateRoutingTable_spec c e z rounds d2 _ t Hc eq_refl eq_refl Hn2 Hr)
      as (w & E3 & Hs3 & Hj3) end.
  rewrite E3. cbn [mbind outcome_bind negb]. do 2 eexists.
  splits; [reflexivity|reflexivity|exact Hs3|exact Hj3|exact (Hs2 Hs1)|exact Hn2|reflexivity|].
  intros traffic. apply demo_receive_serves. split; [by exists w|exact (Hs2 Hs1)].
Qed.

(** Without a bootstrap endpoint the program aborts, the first node of a
    network too, although CreateRoutingTable has a branch for it. *)
Lemma demo_needs_endpoints argv config_Init b file c z e others rounds d :
  parse_args argv false "./conf/kaddemo.conf" = Ok (b, file) -> config_Init file = Some c ->
  GetZoneIdFromConfig c = Some z -> global_node_id (dm_globals d) <> EmptyString ->
  GetPublicEndpointsConfig c ∅ = ∅ ->
  demo_main argv config_Init e others rounds d = Fault AssertFailed.
Proof.
  intros Ea Ef Hz Hid He. unfold demo_main. rewrite Ea. cbn [mbind outcome_bind]. rewrite Ef.
  unfold CreateGlobalXid. destruct (global_node_id (dm_globals d)) as [|ch s] eqn:Eid; [done|].
  change (str_empty (String ch s)) with false. rewrite Hz. cbn [mbind outcome_bind].
  unfold CreateTransport. destruct (cfg_string c "node" "local_ip"); [|done]. cbv zeta.
  destruct (de_start e TMain _ _); [|done]. destruct (de_start e TNat _ _); [|done].
  by rewrite decide_True.
Qed.

(** The transport receives before the table exists: a message for the table
    that arrives then follows a null pointer. *)
Lemma early_message_crashes now message packet d h :
  dm_table d = None -> processor_of (get msg_type message) = Some h -> h <> HAck -> h <> HNat ->
  demo_process now message packet d = Fault NullDeref.
Proof. intros Et Eh ? ?. unfold demo_process. rewrite Eh, Et. by destruct h. Qed.

(** ** The broadcast test *)

Lemma started_message_id lid w n : started lid w -> started lid (w <| msg_id_ := n |>).
Proof. by apply started_core. Qed.

Lemma broadcast_loop_spec lid n message w :
  started lid w ->
  exists w', broadcast_loop n message w =
      Ok ((fun i => mkBroadcast lid (message <| msg_id := Some (u32 (msg_id_ w + i)) |>) (nodes_ w))
            <$> seqZ 1 (Z.of_nat n), w') /\ started lid w'.
Proof.
  revert w. induction n as [|n IH]; intros w Hs; [by exists w|].
  pose proof (started_message_id lid w (u32 (msg_id_ w + 1)) Hs) as Hs1.
  cbn [broadcast_loop]. unfold broadcast_copy, next_message_id, nodes.
  rewrite step_assoc. mstep. cbn [fst snd].
  rewrite step_assoc, (step_bind _ _ _ _ _ (local_id_ok lid _ (st_ok _ _ Hs1))). msteps.
  destruct (IH _ Hs1) as (w' & E & Hs'). rewrite (step_bind _ _ _ _ _ E).
  exists w'. split; [|done]. unfold mret, ST_ret. f_equal. f_equal.
  rewrite (seqZ_cons 1 (Z.of_nat (S n))) by lia. cbn [fmap list_fmap]. f_equal.
  replace (Z.pred (Z.of_nat (S n))) with (Z.of_nat n) by lia.
  change (Z.succ 1) with (1 + 1). rewrite <- fmap_add_seqZ, <- list_fmap_compose.
  apply list_fmap_ext. intros i j _. cbn [compose].
  change (msg_id_ (w <| msg_id_ := _ |>)) with (u32 (msg_id_ w + 1)).
  by replace (u32 (u32 (msg_id_ w + 1) + j)) with (u32 (msg_id_ w + (1 + j)))
    by (unfold u32; rewrite Zplus_mod_idemp_l; f_equal; lia).
Qed.

Lemma u32_add_inj a i j : 1 <= i <= 2 ^ 32 -> 1 <= j <= 2 ^ 32 -> u32 (a + i) = u32 (a + j) -> i = j.
Proof.
  unfold u32. intros Hi Hj E.
  pose proof (Z.div_mod (a + i) (2 ^ 32)). pose proof (Z.div_mod (a + j) (2 ^ 32)). nia.
Qed.

(** A copy of the test message as the gossip layer gets it. *)
Record test_copy (lid : string) (w : World) (p : ptr) (b : broadcast) : Prop := {
  tc_from : br_local_id b = lid;
  tc_nodes : br_nodes b = nodes_ w;
  tc_des : msg_des_node_id (br_message b) = Some (node_id (obj_of w p));
  tc_src : msg_src_node_id (br_message b) = Some lid;
  tc_type : msg_type (br_message b) = Some kBroadcastMessageTest;
  tc_flag : msg_broadcast (br_message b) = Some true }.

(** Both tests start with a random node of the table and a fresh message. *)
Definition with_test_message {A} (none : A) (k : ptr -> RoutingMessage -> NodeInfo -> Z -> M A) : M A :=
  node_ptr ← GetRandomNode;
  match node_ptr with
  | None => mret none
  | Some p =>
      message ← SetFreqMessage RoutingMessage_empty;
      n ← obj p;
      mid ← next_message_id;
      k p message n mid
  end.

Lemma with_test_message_run {A} (m : M A) none k lid w :
  m = with_test_message none k -> started lid w ->
  (nodes_ w = [] /\ m w = Ok (none, w)) \/
  (nodes_ w <> [] /\ exists p message mid w', p ∈ nodes_ w /\ started lid w' /\
     nodes_ w' = nodes_ w /\ msg_src_node_id message = Some lid /\
     m w = k p message (obj_of w p) mid w').
Proof.
  intros -> Hs. unfold with_test_message, GetRandomNode, nodes. rewrite step_assoc. mstep.
  destruct (nodes_ w) as [|p0 ps] eqn:En; [left; by split|right; split; [done|]].
  change (length (p0 :: ps) =? 0)%nat with false. cbv iota. rewrite <- En.
  unfold RandomUint32. rewrite step_assoc. mstep. cbn [fst snd].
  set (r := u32 _). set (w1 := w <| w_drawn ::= S |>).
  assert (Z.to_nat (r mod Z.of_nat (length (nodes_ w))) < length (nodes_ w))%nat as Hr.
  { assert (0 < length (nodes_ w))%nat by (rewrite En; simpl; lia).
    pose proof (Z.mod_pos_bound r (Z.of_nat (length (nodes_ w)))). lia. }
  destruct (lookup_lt_is_Some_2 _ _ Hr) as [p Ep]. mstep. rewrite Ep.
  assert (started lid w1) as Hs1 by by apply (started_core lid w).
  destruct (SetFreqMessage_fresh lid w1 Hs1) as (m0 & E0 & Hsrc & _).
  rewrite (step_bind _ _ _ _ _ E0). unfold obj, next_message_id. msteps. cbn [fst snd].
  do 4 eexists. splits; [by eapply list_elem_of_lookup_2| | |exact Hsrc|reflexivity].
  - by do 2 apply started_message_id.
  - done.
Qed.

(** The broadcast test hands the gossip layer kTestNum copies of one message
    for one node of the table, each with the whole table and with an id no
    other copy has; on an empty table it sends nothing. *)
Theorem broadcast_copies_distinct lid w :
  started lid w ->
  exists l w', TestBroadcast w = Ok (l, w') /\ started lid w' /\
    (nodes_ w = [] -> l = []) /\
    (nodes_ w <> [] -> exists p, p ∈ nodes_ w /\ Forall (test_copy lid w p) l /\
       Z.of_nat (length l) = kTestNum /\ NoDup ((fun b => get msg_id (br_message b)) <$> l)).
Proof.
  intros Hs.
  destruct (with_test_message_run TestBroadcast _ _ lid w eq_refl Hs)
    as [(En & ->)|(En & p & m0 & mid & w3 & Hp & Hs3 & En3 & Hsrc & ->)].
  { by exists [], w. }
  cbv zeta. match goal with |- context [broadcast_loop _ ?m] => set (message := m) end.
  destruct (broadcast_loop_spec lid (Z.to_nat kTestNum) message w3 Hs3) as (w' & E & Hs').
  rewrite Z2Nat.id in E by by unfold kTestNum.
  do 2 eexists. splits; [exact E|exact Hs'|done|]. intros _. exists p. splits; [done| | |].
  - apply Forall_fmap, Forall_true. intros i. by split.
  - rewrite length_fmap, length_seqZ. apply Z2Nat.id. by unfold kTestNum.
  - rewrite <- list_fmap_compose. apply NoDup_fmap_2_strong; [|apply NoDup_seqZ].
    intros i j Hi%elem_of_seqZ Hj%elem_of_seqZ. unfold kTestNum in Hi, Hj.
    apply u32_add_inj; lia.
Qed.

(** The ping test sends one message, by its sender and for a node of the table,
    all the time. *)
Lemma TestPing_spec lid w :
  started lid w ->
  exists l w', TestPing w = Ok (l, w') /\ started lid w' /\
    (nodes_ w = [] -> l = []) /\
    (nodes_ w <> [] -> exists p message,
       p ∈ nodes_ w /\ msg_des_node_id message = Some (node_id (obj_of w p)) /\
       msg_src_node_id message = Some lid /\ msg_type message = Some kBroadcastMessageTest /\
       l = replicate (Z.to_nat kTestNum)
             (default ""%string (SerializeToString message), "127.0.0.1"%string, 8900)).
Proof.
  intros Hs.
  destruct (with_test_message_run TestPing _ _ lid w eq_refl Hs)
    as [(En & ->)|(En & p & m0 & mid & w3 & Hp & Hs3 & En3 & Hsrc & ->)].
  { by exists [], w. }
  cbv zeta. unfold mret, ST_ret. do 2 eexists. split; [reflexivity|]. split; [done|].
  split; [done|]. intros _. exists p. eexists. split; [done|].
  split; [|split; [|split; [|reflexivity]]]; done.
Qed.

End start.

Section witnesses.
Import Examples.
#[local] Existing Instance selection_sort.
#[local] Existing Instance countable_wire.
#[local] Existing Instance countable_nat_wire_laws.
#[local] Instance ex_gossip_types : GossipTypes := {| kGossipMaxMessageType := 99 |}.

Definition ex_demo_config : config :=
  {[ ("node", "zone_id") := inr 1; ("node", "local_ip") := inl "10.0.0.1";
     ("node", "local_port") := inr 9000; ("node", "public_endpoints") := inl "10.0.0.9" ]}%string.

Definition ex_demo_env : demo_env :=
  mkDemoEnv (fun _ ip port => Some (ip, port)) ex_key 0 7 8080 8081 0 ClientNodeManager.init 0 (fun _ => 0) (fun _ => 0).

Definition ex_demo : Demo := Demo_new "demo"%string (NatManager_new 0 (fun _ => 0)).

Lemma ex_demo_complete : complete ex_demo_config ex_demo_env 1.
Proof.
  split; [reflexivity|by eexists|reflexivity| |by intros; eexists|reflexivity].
  apply (bool_decide_unpack _). vm_compute. reflexivity.
Qed.

(** A node that joins while the second round waits; its NAT manager has taken
    three turns in the meantime. *)
Lemma demo_serves_witness :
  exists d' w,
    demo_main ["demo"; "-c"; "a.conf"; "-b"]%string (fun _ => Some ex_demo_config) ex_demo_env
      (ThreadProc 3) [mret tt; (_ ← SetJoin "abcz" "10.0.0.9" 7000; mret tt)] ex_demo =
      Ok (Serving true d') /\ dm_table d' = Some w /\ joined_ w = true.
Proof.
  destruct (demo_serves ["demo"; "-c"; "a.conf"; "-b"]%string (fun _ => Some ex_demo_config) true
    "a.conf"%string ex_demo_config 1 ex_demo_env (ThreadProc 3)
    [mret tt; (_ ← SetJoin "abcz" "10.0.0.9" 7000; mret tt)] ex_demo)
    as (d' & w & E & Et & _ & Hj & _).
  - reflexivity.
  - reflexivity.
  - exact ex_demo_complete.
  - discriminate.
  - reflexivity.
  - apply serves_ThreadProc.
  - right. exists [mret tt], (_ ← SetJoin "abcz" "10.0.0.9" 7000; mret tt), []. splits; [done| |].
    + intros x ->%list_elem_of_singleton. split; [apply always_ret|apply (frames_ret same_joined)].
    + split; [apply always_bind; [apply runs_SetJoin|intros b; apply always_ret]|].
      intros w w'. unfold SetJoin. rewrite bind_unfold. msteps.
      destruct (joined_ w) eqn:E; intros [= <-]; [done|reflexivity].
  - exists d', w. split; [exact E|]. split; [exact Et|exact Hj].
Defined.

End witnesses.
