(* ===== verification/Network.v ===== *)
(** A network of nodes. A node is added, born of its constructor and Init, and
    may vanish; between these events the nodes take steps, one at a time: a
    packet that was once sent reaches a node (any node, any number of times,
    from any source address), a timer fires, the transport reports a lost peer,
    the application calls the node. The section shows that such a network never
    faults and that its tables never name a node outside it. *)

From S2P Require Import Prelude Invariants Externals Messages Distance Sorting NodeInfo LocalNodeInfo.
From S2P Require Import ClientNodes BootstrapCache World RoutingTable TableFacts Sending NodeDetection.
From S2P Require Import RoutingHandlers RoutingJoin HandlerFacts Robust JoinProps NatDetect.
From S2P Require Import KadMessageHandler KadProps DemoProps Closed.

(** ** The network *)

(** The ids that were ever in the network, its nodes, and what they sent. *)
Section network.
Context `{Xbase} `{KadKey} `{Xip} `{PartialSort} `{Wire} `{Bloom}.

Record network := mkNetwork {
  nw_ids : gset string;
  nw_nodes : gmap string World;
  nw_sent : list packet }.

Definition empty_network : network := mkNetwork ∅ ∅ [].

(** A new node that is not a client, after its Init. *)
Definition born (i : string) (w : World) : Prop :=
  exists seed port l k x g cl mid now sr rnd,
    ln_kadmlia_key l = Some k /\ key_Get k = i /\ id_ok i /\ ln_client_mode l = false /\
    ln_xip l = Some x /\
    Init seed (RoutingTable_new (Some port) (Some l) (Some g) cl mid now sr rnd) = Ok (true, w).

(** What can happen to a node of the network. *)
Inductive event (net : network) : forall A, M A -> Prop :=
  | ev_deliver pk m h from :
      pk ∈ nw_sent net -> ParseFromString (pk_data pk) = Some m ->
      processor_of (get msg_type m) = Some h -> str_empty (get_from_ip_addr from) = false ->
      event net _ (run_handler h m from)
  | ev_bootstrap ip port s : event net _ (Bootstrap ip port s)
  | ev_find des boot : event net _ (FindCloseNodesWithEndpoint des boot)
  | ev_connect i s : i ∈ nw_ids net -> event net _ (SendConnectRequest i s)
  | ev_drop i : i ∈ nw_ids net -> event net _ (SendDropNodeRequest i)
  | ev_heartbeat p s : event net _ (SendHeartbeat p s)
  | ev_unjoin : event net _ SetUnJoin
  | ev_lost ip port : event net _ (OnHeartbeatFailed ip port)
  | ev_heartbeat_timer : event net _ HeartbeatProc
  | ev_heartbeat_check : event net _ HeartbeatCheckProc
  | ev_detect : event net _ NodeDetectionManager.DoTetection
  | ev_find_timer : event net _ FindNeighbours
  | ev_print index opens : event net _ (PrintRoutingTable index opens).

(** The node [i] is now [w]. *)
Definition update (i : string) (w : World) (net : network) : network :=
  mkNetwork (nw_ids net) (<[i := w]> (nw_nodes net)) (nw_sent net ++ w_net w).

Inductive network_step (net : network) : network -> Prop :=
  | ns_event i w A (m : M A) a w' :
      nw_nodes net !! i = Some w -> event net A m -> m w = Ok (a, w') ->
      network_step net (update i w' net)
  | ns_time i w now :
      nw_nodes net !! i = Some w -> network_step net (update i (w <| w_now := now |>) net)
  | ns_born i w :
      i ∉ nw_ids net -> born i w ->
      network_step net (mkNetwork ({[i]} ∪ nw_ids net) (<[i := w]> (nw_nodes net)) (nw_sent net))
  | ns_gone i : network_step net (mkNetwork (nw_ids net) (delete i (nw_nodes net)) (nw_sent net)).
End network.

(** ** The invariant *)

Section safety.
Context `{Xbase} `{!XbaseLaws} `{KadKey} `{Xip} `{PartialSort} `{!PartialSortLaws} `{Wire} `{Bloom}.
Context `{!ProtoLaws RoutingMessage} `{!ProtoLaws FindClosestNodesRequest}.
Context `{!ProtoLaws FindClosestNodesResponse}.
#[local] Set Default Proof Using "Type*".
Implicit Types (net : network).

Definition known net (i : string) : Prop := i ∈ nw_ids net.

Record sound net : Prop := {
  so_ids i : known net i -> id_ok i;
  so_sent : Forall (honest_packet (known net)) (nw_sent net);
  so_known i w : nw_nodes net !! i = Some w -> known net i;
  so_started i w : nw_nodes net !! i = Some w -> started i w;
  so_clean i w : nw_nodes net !! i = Some w -> clean (known net) i w }.

(** ** The network only grows *)

Lemma honest_mono (K K' : string -> Prop) m : (forall i, K i -> K' i) -> honest K m -> honest K' m.
Proof.
  intros HK [A B C D].
  assert (forall pn, named_pb K pn -> named_pb K' pn) as Hn by (intros pn [?|?]; [left|right]; auto).
  split; auto.
  - intros r Ht Hr. destruct (C r Ht Hr). auto.
  - intros r Ht Hr. eapply Forall_impl; eauto.
Qed.

Lemma clean_mono (K K' : string -> Prop) lid w :
  (forall i, K i -> K' i) -> clean K lid w -> clean K' lid w.
Proof.
  intros HK [C1 C2 C3]. split; [| |done].
  - intros p n Hn. destruct (C1 p n Hn); [left|right]; auto.
  - eapply Forall_impl; [done|]. intros pk Hpk m Hm. eapply honest_mono; eauto.
Qed.

(** ** New nodes *)

Lemma born_started i w : born i w -> started i w.
Proof.
  intros (seed & t & l & k & x & g & cl & mid & now & sr & rnd & Hk & <- & Hi & Hm & Hx & E).
  destruct (Init_starts seed t l k x g cl mid now sr rnd Hk Hi Hm Hx) as (w' & E' & Hs & _).
  congruence.
Qed.

Lemma born_clean (K : string -> Prop) i w : K i -> born i w -> clean K i w.
Proof.
  intros HK (seed & t & l & k & x & g & cl & mid & now & sr & rnd & Hk & <- & Hi & Hm & Hx & E).
  eapply (wlp_elim _ _ _ _ _ (cl_Init K (key_Get k) HK seed _ _) E). Unshelve.
  split; [apply map_Forall_empty|apply Forall_nil_2|].
  intros l' i' [= <-] El. unfold LocalNodeInfo_id in El. rewrite Hk in El. by injection El as <-.
Qed.

(** ** Events *)

(** A processor serves the type it is registered for. *)
Lemma processor_registered t h : processor_of t = Some h -> In (t, h) AddBaseHandlers.
Proof.
  unfold processor_of. intros E. apply fmap_Some in E as ([t' h'] & E & ->).
  apply find_some in E as [Hin Ht]. by apply Z.eqb_eq in Ht as <-.
Qed.

(** The handlers run on what an honest message names. *)
Lemma deliver_runs net lid m h from :
  sound net -> honest (known net) m -> processor_of (get msg_type m) = Some h ->
  str_empty (get_from_ip_addr from) = false -> runs lid (run_handler h m from).
Proof.
  intros Hnet Hm Hh Hf. apply processor_registered in Hh.
  assert (forall i, known net i -> id_ok i) as Hid by apply Hnet.
  apply runs_run_handler. destruct h; simpl; try done.
  - apply Hid, (ho_connect _ _ Hm). unfold AddBaseHandlers in Hh. simpl in Hh. naive_solver.
  - intros r Hr. apply Hid. eapply (ho_search _ _ Hm r); [|done].
    unfold AddBaseHandlers in Hh. simpl in Hh. naive_solver.
Qed.

Lemma deliver_cleans (K : string -> Prop) lid m h from :
  K lid -> honest K m -> processor_of (get msg_type m) = Some h ->
  cleans K lid (fun _ => True) (run_handler h m from).
Proof.
  intros Hlid Hm Hh. apply processor_registered in Hh. pose proof (ho_source _ _ Hm) as Hs.
  destruct h; cbn [run_handler];
    try (apply (ensures_bind (fun _ => True)); [|intros ? _; by apply ensures_ret]);
    try (by apply ensures_ret);
    auto using cl_HandleConnectRequest, cl_HandleHandshake, cl_HandleBootstrapJoinRequest,
      cl_HandleBootstrapJoinResponse, cl_HandleHeartbeatRequest.
  - apply cl_HandleFindNodesRequest; try done. unfold AddBaseHandlers in Hh. simpl in Hh. naive_solver.
  - apply cl_HandleFindNodesResponse; try done. unfold AddBaseHandlers in Hh. simpl in Hh. naive_solver.
  - apply cl_ResetNodeHeartbeat.
Qed.

(** The requests of the application. *)
Lemma runs_FindCloseNodesWithEndpoint lid des boot : runs lid (FindCloseNodesWithEndpoint des boot).
Proof.
  pose proof (runs_request lid). pose proof (runs_SendData lid).
  unfold FindCloseNodesWithEndpoint, GetFindNodesMaxSize. run_prog; auto.
Qed.

Lemma runs_SendHeartbeat lid p s : runs lid (SendHeartbeat p s).
Proof.
  pose proof (runs_request lid). pose proof (runs_SendData_node lid).
  unfold SendHeartbeat. run_prog; auto.
Qed.

(** A request names the destination it was made for. *)
Lemma runs_request_bind lid des s t (f : RoutingMessage -> M unit) :
  (forall m, get msg_des_node_id m = des -> runs lid (f m)) -> runs lid (request des s t ≫= f).
Proof.
  intros Hf w Hw. unfold wp, request. rewrite step_assoc.
  destruct (wp_elim _ _ _ (runs_SetFreqMessage lid RoutingMessage_empty w Hw)) as (m & w' & E & Hw').
  rewrite (step_bind _ _ _ _ _ E), step_ret. by apply Hf.
Qed.

Lemma runs_SendConnectRequest lid i s : id_ok i -> runs lid (SendConnectRequest i s).
Proof.
  intros Hi. unfold SendConnectRequest. apply runs_request_bind. intros m Hm. run_prog.
  apply runs_SendToClosestNode_hop. unfold mark_client. destruct (ln_client_mode _); by rewrite <- Hm in Hi.
Qed.

Lemma runs_SendDropNodeRequest lid i : id_ok i -> runs lid (SendDropNodeRequest i).
Proof.
  intros Hi. unfold SendDropNodeRequest. run_step; [auto with runs|]. run_step; [run_prog|].
  apply runs_request_bind. intros m Hm. run_prog. apply runs_SendToClosestNode_hop. by rewrite Hm.
Qed.

(** ** Every event *)

Lemma sent_honest net pk m :
  sound net -> pk ∈ nw_sent net -> ParseFromString (pk_data pk) = Some m -> honest (known net) m.
Proof. intros Hnet Hpk. revert m. by apply (proj1 (Forall_forall _ _) (so_sent _ Hnet)). Qed.

Lemma event_runs net lid A (m : M A) : sound net -> event net A m -> runs lid m.
Proof.
  intros Hnet Hm. destruct Hm.
  - eapply deliver_runs; eauto using sent_honest.
  - apply runs_Bootstrap.
  - apply runs_FindCloseNodesWithEndpoint.
  - by apply runs_SendConnectRequest, (so_ids _ Hnet).
  - by apply runs_SendDropNodeRequest, (so_ids _ Hnet).
  - apply runs_SendHeartbeat.
  - unfold SetUnJoin. run_prog.
  - apply runs_safe, s_lost.
  - apply runs_safe, s_heartbeat_timer.
  - apply runs_safe, s_heartbeat_check.
  - apply runs_safe, s_detect.
  - apply runs_safe, s_find_timer.
  - apply runs_safe, s_print.
Qed.

Lemma event_cleans net lid A (m : M A) :
  sound net -> known net lid -> event net A m -> cleans (known net) lid (fun _ => True) m.
Proof.
  intros Hnet Hlid Hm. destruct Hm; auto using cl_Bootstrap, cl_FindCloseNodesWithEndpoint,
    cl_SendConnectRequest, cl_SendDropNodeRequest, cl_SendHeartbeat, cl_SetUnJoin,
    cl_OnHeartbeatFailed, cl_HeartbeatProc, cl_HeartbeatCheckProc, cl_DoTetection,
    cl_FindNeighbours, cl_PrintRoutingTable.
  eapply deliver_cleans; eauto using sent_honest.
Qed.

(** ** Every step *)

Lemma sound_update net i w :
  sound net -> known net i -> started i w -> clean (known net) i w -> sound (update i w net).
Proof.
  intros [S1 S2 S3 S4 S5] Hi Hs Hc. split; try done; cbn [nw_nodes nw_sent update].
  - apply Forall_app_2; [done|apply Hc].
  - intros j w' [[<- <-]|[_ Hj]]%lookup_insert_Some; [done|by eapply S3].
  - intros j w' [[<- <-]|[_ Hj]]%lookup_insert_Some; [done|by apply S4].
  - intros j w' [[<- <-]|[_ Hj]]%lookup_insert_Some; [done|by apply S5].
Qed.

Lemma sound_step net net' : sound net -> network_step net net' -> sound net'.
Proof.
  intros Hnet Hstep. destruct Hstep as [i w A m a w' Hi Hm E|i w now Hi|i w Hi Hw|i].
  - pose proof (so_known _ Hnet i w Hi) as Hk. apply sound_update; try done.
    + pose proof (wp_wlp _ _ _ (event_runs net i A m Hnet Hm w (so_started _ Hnet i w Hi))) as Hr.
      by apply (wlp_elim _ _ _ _ _ Hr E).
    + by apply (wlp_elim _ _ _ _ _ (event_cleans net i A m Hnet Hk Hm w (so_clean _ Hnet i w Hi)) E).
  - apply sound_update; try done; [by apply (so_known _ Hnet i w)| |].
    + apply (started_core _ w); [done|done|by apply (so_started _ Hnet)].
    + apply (clean_view _ _ w); [done|by apply (so_clean _ Hnet)].
  - set (net' := mkNetwork _ _ _).
    assert (forall j, known net' j <-> j = i \/ known net j) as Hnew by (unfold known; set_solver).
    assert (forall j, known net j -> known net' j) as Hmono by (intros j; rewrite Hnew; auto).
    destruct Hnet as [S1 S2 S3 S4 S5]. split; cbn [nw_nodes nw_sent net'].
    + intros j [->|Hj]%Hnew; [|by apply S1].
      destruct (born_started _ _ Hw) as [Hok _ _ _ _ _]. apply Hok.
    + eapply Forall_impl; [done|]. intros pk Hpk m Hm. eapply honest_mono; eauto.
    + intros j w' [[<- <-]|[_ Hj]]%lookup_insert_Some; [by apply Hnew; left|].
      by eapply Hmono, S3.
    + intros j w' [[<- <-]|[_ Hj]]%lookup_insert_Some; [by apply born_started|by apply S4].
    + intros j w' [[<- <-]|[_ Hj]]%lookup_insert_Some.
      * apply born_clean; [by apply Hnew; left|done].
      * eapply clean_mono; [done|by apply S5].
  - destruct Hnet as [S1 S2 S3 S4 S5].
    split; try done; cbn [nw_nodes]; intros j w' [_ Hj]%lookup_delete_Some; eauto.
Qed.

Lemma sound_reachable net : rtc network_step empty_network net -> sound net.
Proof.
  intros Hs. assert (sound empty_network) as H0'.
  { split; [unfold known; set_solver|apply Forall_nil_2|..];
      intros i w Hi; cbn [nw_nodes empty_network] in Hi; by rewrite lookup_empty in Hi. }
  revert H0'. induction Hs as [net|net net1 net' Hstep _ IH]; [done|].
  intros Hnet. by eapply IH, sound_step.
Qed.

(** C5: Network safety: in a network of nodes that are not clients, whatever
    nodes join, call, forget and leave each other and in whatever order, and
    whatever the transport does to the packets they send (lose, delay, repeat,
    deliver to another node or from another address), the table of every node
    is well-formed and holds ids of the network only, never its own, and no
    message, timer or call of the application can crash a node. *)
Theorem network_safe net i w :
  rtc network_step empty_network net -> nw_nodes net !! i = Some w ->
  table_ok i w /\
  (forall p, p ∈ nodes_ w -> node_id (obj_of w p) ∈ nw_ids net /\ node_id (obj_of w p) <> i) /\
  (forall A (m : M A), event net A m -> exists a w', m w = Ok (a, w')).
Proof.
  intros Hs Hi. apply sound_reachable in Hs as Hnet.
  pose proof (so_started _ Hnet i w Hi) as Hst. split; [apply Hst|]. split.
  - intros p Hp. destruct (ok_valid _ _ (st_ok _ _ Hst) p Hp) as (Hid & Hne & _). split; [|done].
    destruct (clean_obj _ _ w p (so_clean _ Hnet i w Hi)) as [?|E]; [done|].
    unfold id_ok in Hid. rewrite E in Hid. pose proof kNodeIdSize_pos. simpl in Hid. lia.
  - intros A m Hm. destruct (wp_elim _ _ _ (event_runs net i A m Hnet Hm w Hst)) as (a & w' & E & _).
    by exists a, w'.
Qed.
End safety.

(** ** An example: two nodes join through a third and find each other *)

Section run.
Context `{Xbase} `{KadKey} `{Xip} `{PartialSort} `{Wire} `{Bloom}.

(** The network after the node [i] ran [m]. *)
Definition run_at {A} (i : string) (m : M A) (net : network) : network :=
  match nw_nodes net !! i with
  | Some w => match m w with Ok (_, w') => update i w' net | Fault _ => net end
  | None => net
  end.

(** The [n]-th packet sent reaches [i] from [ip]. *)
Definition deliver_at (n : nat) (i ip : string) (net : network) : network :=
  match nw_sent net !! n with
  | Some pk =>
      match ParseFromString (T := RoutingMessage) (pk_data pk) with
      | Some m =>
          match processor_of (get msg_type m) with
          | Some h => if str_empty ip then net else run_at i (run_handler h m (mkXpacket ip 9000)) net
          | None => net
          end
      | None => net
      end
  | None => net
  end.

Lemma run_at_steps A i (m : M A) net : event net A m -> rtc network_step net (run_at i m net).
Proof.
  intros Hm. unfold run_at. destruct (nw_nodes net !! i) as [w|] eqn:Ew; [|done].
  destruct (m w) as [[a w']|] eqn:E; [|done]. by eapply rtc_once, ns_event.
Qed.

Lemma deliver_at_steps n i ip net : rtc network_step net (deliver_at n i ip net).
Proof.
  unfold deliver_at. destruct (nw_sent net !! n) as [pk|] eqn:En; [|done].
  destruct (ParseFromString _) as [m|] eqn:Em; [|done].
  destruct (processor_of _) as [h|] eqn:Eh; [|done]. destruct (str_empty ip) eqn:Ei; [done|].
  apply run_at_steps. eapply ev_deliver; eauto. by eapply list_elem_of_lookup_2.
Qed.
End run.

Section witness.
Import Examples.
#[local] Existing Instance selection_sort.
#[local] Existing Instance countable_wire.

#[local] Instance ex_message_laws : ProtoLaws RoutingMessage.
Proof. apply countable_proto_laws. Qed.
#[local] Instance ex_search_laws : ProtoLaws FindClosestNodesRequest.
Proof. apply countable_proto_laws. Qed.
#[local] Instance ex_answer_laws : ProtoLaws FindClosestNodesResponse.
Proof. apply countable_proto_laws. Qed.

Definition ex_key_of (id : string) : KadmliaKey := mkKey id 1 0.

Definition ex_self (first : bool) (id ip : string) : LocalNodeInfo :=
  (LocalNodeInfo_new 0) <| ln_kadmlia_key := Some (ex_key_of id) |> <| ln_nat_type := kNatTypePublic |>
    <| ln_first_node := first |> <| ln_local_ip := ip |>.

Definition ex_member (first : bool) (id ip : string) : World :=
  let w := RoutingTable_new (Some 9000) (Some (ex_self first id ip)) (Some (ex_key_of id))
             ClientNodeManager.init 100 0 (fun _ => 0) (fun n => Z.of_nat n) in
  match Init 0 w with Ok (_, w') => w' | Fault _ => w end.

Definition ex_births : network :=
  mkNetwork {["abcd"; "efgh"; "wxyz"]}%string
    (<["wxyz" := ex_member false "wxyz" "10.0.0.3"]>
     (<["efgh" := ex_member false "efgh" "10.0.0.2"]>
      (<["abcd" := ex_member true "abcd" "10.0.0.1"]> ∅)))%string [].

Definition ids_at (i : string) (net : network) : list string :=
  match nw_nodes net !! i with
  | Some w => (fun p => node_id (obj_of w p)) <$> nodes_ w
  | None => []
  end.

(** "efgh" and "wxyz" join through "abcd"; the search of "wxyz" then tells it
    of "efgh". *)
Definition ex_network : network :=
  deliver_at 11 "wxyz" "10.0.0.1" (deliver_at 8 "abcd" "10.0.0.3"
    (deliver_at 4 "wxyz" "10.0.0.1" (deliver_at 3 "efgh" "10.0.0.1"
      (deliver_at 1 "abcd" "10.0.0.3" (deliver_at 0 "abcd" "10.0.0.2"
        (run_at "wxyz" (Bootstrap "10.0.0.1" 9000 1)
          (run_at "efgh" (Bootstrap "10.0.0.1" 9000 1) ex_births))))))).

Lemma ex_born first id ip : id_ok id -> born id (ex_member first id ip).
Proof.
  intros Hid.
  destruct (Init_starts 0 9000 (ex_self first id ip) (ex_key_of id) xip_default (ex_key_of id)
    ClientNodeManager.init 100 0 (fun _ => 0) (fun n => Z.of_nat n)) as (w & E & _); try done.
  unfold born, ex_member. rewrite E. do 11 eexists. splits; [..|exact E]; done.
Qed.

Lemma ex_births_reached : rtc network_step empty_network ex_births.
Proof.
  eapply rtc_l; [apply (ns_born _ "abcd" (ex_member true "abcd" "10.0.0.1")); [set_solver|by apply ex_born]|].
  eapply rtc_l; [apply (ns_born _ "efgh" (ex_member false "efgh" "10.0.0.2")); [set_solver|by apply ex_born]|].
  eapply rtc_l; [apply (ns_born _ "wxyz" (ex_member false "wxyz" "10.0.0.3")); [set_solver|by apply ex_born]|].
  unfold ex_births, empty_network. cbn [nw_ids nw_nodes nw_sent].
  match goal with |- rtc _ (mkNetwork ?a _ _) (mkNetwork ?b _ _) => assert (a = b) as -> by set_solver end.
  apply rtc_refl.
Qed.

Lemma ex_network_reached : rtc network_step empty_network ex_network.
Proof.
  unfold ex_network. do 6 (etrans; [|apply deliver_at_steps]).
  do 2 (etrans; [|apply run_at_steps, ev_bootstrap]). apply ex_births_reached.
Qed.

Lemma network_safe_witness :
  ids_at "wxyz" ex_network = ["abcd"; "efgh"]%string /\
  forall w, nw_nodes ex_network !! "wxyz"%string = Some w -> table_ok "wxyz" w.
Proof.
  split; [vm_compute; reflexivity|]. intros w Hw.
  exact (proj1 (network_safe ex_network "wxyz" w ex_network_reached Hw)).
Defined.
End witness.
