(* ===== verification/BenchText.v ===== *)
(** The texts of src/bench/node.cc: reading a text line by line with
    std::getline, std::stoi, and the comparison of two routing-table dumps.
    base::StringUtil::str_fmt and HexSubstr are library code. *)

From stdpp Require Import pretty.
From S2P Require Import Prelude.

(** ** Formatting: library code *)

Inductive fmt_arg := FInt (z : Z) | FStr (s : string).

Class StrFmt := {
  str_fmt : string -> list fmt_arg -> string;
  HexSubstr : string -> string }.

(** A [c_str()] read as a C string ends at the first zero byte. *)
Fixpoint c_str (s : string) : string :=
  match s with
  | EmptyString => EmptyString
  | String c s' => if Ascii.eqb c Ascii.zero then EmptyString else String c (c_str s')
  end.

Definition FCstr (s : string) : fmt_arg := FStr (c_str s).

(** std::to_string of an integer. *)
Definition to_string (z : Z) : string := pretty z.

(** ** std::istringstream and std::getline *)

Definition newline : ascii := "010"%char.

Record istringstream := mkStream { is_rest : string; is_good : bool }.

Definition open_string (s : string) : istringstream := mkStream s true.

(** The text up to the next newline, and what follows it. *)
Fixpoint break_line (s : string) : string * option string :=
  match s with
  | EmptyString => (EmptyString, None)
  | String c s' =>
      if Ascii.eqb c newline then (EmptyString, Some s')
      else let '(l, r) := break_line s' in (String c l, r)
  end.

(** Whether a line was read, the stream after it and the new value of [buf].
    On a stream that has already failed or met its end, [buf] is not touched;
    otherwise it is erased first. *)
Definition getline (s : istringstream) (buf : string) : bool * istringstream * string :=
  if negb (is_good s) then (false, s, buf)
  else
    match break_line (is_rest s) with
    | (line, Some rest) => (true, mkStream rest true, line)
    | (line, None) => (negb (str_empty line), mkStream "" false, line)
    end.

(** ** GetLines *)

Fixpoint count_lines (fuel : nat) (strin : istringstream) (buf : string) (sum : Z) : outcome Z :=
  match fuel with
  | O => Fault OutOfFuel
  | S fuel' =>
      let '(ok, strin, buf) := getline strin buf in
      if negb ok then Ok sum else count_lines fuel' strin buf (sum + 1)
  end.

(** Each turn but the last takes a character or meets the end. *)
Definition GetLines (str : string) : outcome Z :=
  count_lines (S (S (String.length str))) (open_string str) "" 0.

(** ** std::stoi *)

Definition is_space (c : ascii) : bool :=
  let n := N_of_ascii c in ((9 <=? n) && (n <=? 13) || (n =? 32))%N.

Definition digit_of (c : ascii) : option Z :=
  let n := Z.of_N (N_of_ascii c) in if (48 <=? n) && (n <=? 57) then Some (n - 48) else None.

(** The digits at the front, [acc] read so far; [None] when there is none. *)
Fixpoint digits_value (s : string) (acc : option Z) : option Z :=
  match s with
  | EmptyString => acc
  | String c s' =>
      match digit_of c with
      | Some d => digits_value s' (Some (10 * default 0 acc + d))
      | None => acc
      end
  end.

Fixpoint skip_spaces (s : string) : string :=
  match s with
  | String c s' => if is_space c then skip_spaces s' else s
  | EmptyString => s
  end.

(** [None] when std::stoi throws: no digit, or a value outside int. *)
Definition stoi (s : string) : option Z :=
  let s := skip_spaces s in
  let value :=
    match s with
    | String "-" s' => Z.opp <$> digits_value s' None
    | String "+" s' => digits_value s' None
    | _ => digits_value s None
    end in
  v ← value;
  if (- 2 ^ 31 <=? v) && (v <? 2 ^ 31) then Some v else None.

(** ** CompareDiffLines *)

Section diff.
Context `{StrFmt}.

(** [line1 + "\n"] *)
Definition with_newline (s : string) : string := (s +:+ String newline "")%string.

Definition diff_format : string := with_newline "%30s %6s %30s".

Definition diff_row (a b c : string) : string :=
  str_fmt diff_format [FCstr a; FCstr b; FCstr c].

(** [while (std::getline(strin1, line1))] *)
Fixpoint diff_both (fuel : nat) (strin1 strin2 : istringstream) (line1 line2 ret : string)
    : outcome (istringstream * string * string) :=
  match fuel with
  | O => Fault OutOfFuel
  | S fuel' =>
      let '(ok, strin1, line1) := getline strin1 line1 in
      if negb ok then Ok (strin2, line2, ret)
      else
        let '(_, strin2, line2) := getline strin2 line2 in
        let vs := if (line1 =? line2)%string then ""%string else "vs"%string in
        diff_both fuel' strin1 strin2 line1 line2 (ret +:+ diff_row line1 vs line2)
  end.

(** [while (std::getline(strin2, line2))] *)
Fixpoint diff_rest (fuel : nat) (strin2 : istringstream) (line2 ret : string) : outcome string :=
  match fuel with
  | O => Fault OutOfFuel
  | S fuel' =>
      let '(ok, strin2, line2) := getline strin2 line2 in
      if negb ok then Ok ret
      else diff_rest fuel' strin2 line2 (ret +:+ diff_row "" "vs" line2)
  end.

Definition CompareDiffLines (str1 str2 : string) : outcome string :=
  let '(_, strin1, line1) := getline (open_string str1) "" in
  let '(_, strin2, line2) := getline (open_string str2) "" in
  if str_empty line1 && str_empty line2 then Ok "both empty"%string
  else
    let ret := if negb (str_empty line1) then with_newline line1 else with_newline line2 in
    '(strin2, line2, ret) ← diff_both (S (S (String.length str1))) strin1 strin2 line1 line2 ret;
    diff_rest (S (S (String.length str2))) strin2 line2 ret.

End diff.

(** ** What the loops compute *)

(** The lines of a text: what is between newlines, and what follows the last
    newline when that is not empty. *)
Fixpoint lines (s : string) : list string :=
  match s with
  | EmptyString => []
  | String c s' =>
      if Ascii.eqb c newline then EmptyString :: lines s'
      else match lines s' with
           | [] => [String c EmptyString]
           | l :: ls => String c l :: ls
           end
  end.

Lemma break_line_some s l r :
  break_line s = (l, Some r) ->
  lines s = l :: lines r /\ (String.length r < String.length s)%nat.
Proof.
  revert l r. induction s as [|c s IH]; intros l r; [done|]. cbn [break_line lines].
  destruct (Ascii.eqb c newline).
  - intros [= <- <-]. split; [done|]. cbn. lia.
  - destruct (break_line s) as [l' r'] eqn:E. intros [= <- ->].
    destruct (IH l' r eq_refl) as [-> Hl]. split; [done|]. cbn. lia.
Qed.

Lemma break_line_none s l :
  break_line s = (l, None) -> lines s = if str_empty l then [] else [l].
Proof.
  revert l. induction s as [|c s IH]; intros l; cbn [break_line lines]; [by intros [= <-]|].
  destruct (Ascii.eqb c newline); [done|].
  destruct (break_line s) as [l' r'] eqn:E. intros [= <- ->].
  rewrite (IH l' eq_refl). unfold str_empty. by destruct l'.
Qed.

(** The lines a stream will still give, and a bound on the turns it takes. *)
Definition remaining (s : istringstream) : list string :=
  if is_good s then lines (is_rest s) else [].
Definition turns (s : istringstream) : nat :=
  if is_good s then S (String.length (is_rest s)) else 0%nat.

Lemma getline_remaining s buf ok s' line :
  getline s buf = (ok, s', line) ->
  (remaining s = if ok then line :: remaining s' else []) /\
  (ok = true -> (turns s' < turns s)%nat) /\ (turns s' <= turns s)%nat.
Proof.
  unfold getline, remaining, turns. destruct (is_good s) eqn:Eg; cbn [negb].
  - destruct (break_line (is_rest s)) as [l [r|]] eqn:E.
    + intros [= <- <- <-]. cbn. destruct (break_line_some _ _ _ E) as [-> Hl].
      split; [done|]. lia.
    + intros [= <- <- <-]. cbn. rewrite (break_line_none _ _ E).
      destruct (str_empty l); cbn; split; done || lia.
  - intros [= <- <- <-]. rewrite Eg. split; [done|]. lia.
Qed.

Lemma count_lines_spec fuel s buf sum :
  (turns s < fuel)%nat ->
  count_lines fuel s buf sum = Ok (sum + Z.of_nat (length (remaining s))).
Proof.
  revert s buf sum. induction fuel as [|fuel IH]; intros s buf sum Hf; [lia|].
  cbn [count_lines]. destruct (getline s buf) as [[ok s'] line] eqn:E.
  destruct (getline_remaining _ _ _ _ _ E) as (-> & Ht & _).
  destruct ok; cbn [negb]; [|f_equal; simpl; lia].
  specialize (Ht eq_refl). rewrite IH by lia. f_equal. simpl. lia.
Qed.

Lemma GetLines_spec str : GetLines str = Ok (Z.of_nat (length (lines str))).
Proof.
  unfold GetLines. rewrite count_lines_spec; [|cbn; lia]. by rewrite Z.add_0_l.
Qed.

Section diff_total.
Context `{StrFmt}.

Lemma diff_both_total fuel s1 s2 line1 line2 ret :
  (turns s1 < fuel)%nat ->
  exists s2' line2' ret', diff_both fuel s1 s2 line1 line2 ret = Ok (s2', line2', ret') /\
    (turns s2' <= turns s2)%nat.
Proof.
  revert s1 s2 line1 line2 ret. induction fuel as [|fuel IH]; intros s1 s2 line1 line2 ret Hf; [lia|].
  cbn [diff_both]. destruct (getline s1 line1) as [[ok s1'] l1] eqn:E1.
  destruct (getline_remaining _ _ _ _ _ E1) as (_ & Ht & _).
  destruct ok; cbn [negb]; [|by do 3 eexists].
  destruct (getline s2 line2) as [[ok2 s2'] l2] eqn:E2.
  destruct (getline_remaining _ _ _ _ _ E2) as (_ & _ & Ht2). specialize (Ht eq_refl).
  destruct (IH s1' s2' l1 l2 (ret +:+ diff_row l1 (if (l1 =? l2)%string then "" else "vs") l2)%string)
    as (s3 & l3 & r3 & E & Hle); [lia|]. exists s3, l3, r3. split; [done|lia].
Qed.

Lemma diff_rest_total fuel s2 line2 ret :
  (turns s2 < fuel)%nat -> exists ret', diff_rest fuel s2 line2 ret = Ok ret'.
Proof.
  revert s2 line2 ret. induction fuel as [|fuel IH]; intros s2 line2 ret Hf; [lia|].
  cbn [diff_rest]. destruct (getline s2 line2) as [[ok s2'] l2] eqn:E2.
  destruct (getline_remaining _ _ _ _ _ E2) as (_ & Ht & _).
  destruct ok; cbn [negb]; [|by eexists]. specialize (Ht eq_refl). apply IH. lia.
Qed.

(** The comparison of two dumps ends on every pair of texts. *)
Lemma CompareDiffLines_total str1 str2 : exists ret, CompareDiffLines str1 str2 = Ok ret.
Proof.
  unfold CompareDiffLines.
  destruct (getline (open_string str1) "") as [[ok1 s1] l1] eqn:E1.
  destruct (getline (open_string str2) "") as [[ok2 s2] l2] eqn:E2.
  destruct (getline_remaining _ _ _ _ _ E1) as (_ & _ & H1).
  destruct (getline_remaining _ _ _ _ _ E2) as (_ & _ & H2). cbn [turns open_string is_good is_rest] in *.
  destruct (str_empty l1 && str_empty l2); [by eexists|].
  destruct (diff_both_total (S (S (String.length str1))) s1 s2 l1 l2
    (if negb (str_empty l1) then with_newline l1 else with_newline l2))
    as (s3 & l3 & r3 & E & Hle); [lia|].
  rewrite E. cbn [mbind outcome_bind]. apply diff_rest_total. lia.
Qed.
End diff_total.
