(* ===== verification/BenchMessages.v ===== *)
(** The messages of src/bench/node.proto and their codec, in the manner of
    Messages.v. All their fields are required: serializing a message that lacks
    one fails, as does parsing it. *)

From S2P Require Import Prelude Messages.

(** node.proto: message AllNodes.Node. *)
Record AllNodesNode := mkAllNodesNode {
  an_local_ip : option string;
  an_local_port : option Z;
  an_public_ip : option string;
  an_public_port : option Z;
  an_service_type : option Z;
  an_nat_type : option Z;
  an_node_id : option string }.

#[global] Instance AllNodesNode_eta : Eta AllNodesNode := fun r =>
  mkAllNodesNode (an_local_ip r) (an_local_port r) (an_public_ip r) (an_public_port r)
    (an_service_type r) (an_nat_type r) (an_node_id r).
Definition AllNodesNode_empty : AllNodesNode :=
  mkAllNodesNode None None None None None None None.
#[global] Instance AllNodesNode_eq_dec : EqDecision AllNodesNode.
Proof. solve_decision. Defined.

(** node.proto: message AllNodes. *)
Record AllNodes := mkAllNodes {
  all_nodes : list AllNodesNode }.

#[global] Instance AllNodes_eta : Eta AllNodes := fun r =>
  mkAllNodes (all_nodes r).
Definition AllNodes_empty : AllNodes :=
  mkAllNodes [].
#[global] Instance AllNodes_eq_dec : EqDecision AllNodes.
Proof. solve_decision. Defined.

(** node.proto: message TestReportNodes. *)
Record TestReportNodes := mkTestReportNodes {
  trn_nodes_size : option Z }.

#[global] Instance TestReportNodes_eta : Eta TestReportNodes := fun r =>
  mkTestReportNodes (trn_nodes_size r).
Definition TestReportNodes_empty : TestReportNodes :=
  mkTestReportNodes None.
#[global] Instance TestReportNodes_eq_dec : EqDecision TestReportNodes.
Proof. solve_decision. Defined.

(** node.proto: message TestConnRequest. *)
Record TestConnRequest := mkTestConnRequest {
  tcreq_tp1 : option Z;
  tcreq_src_ip : option string;
  tcreq_src_port : option Z }.

#[global] Instance TestConnRequest_eta : Eta TestConnRequest := fun r =>
  mkTestConnRequest (tcreq_tp1 r) (tcreq_src_ip r) (tcreq_src_port r).
Definition TestConnRequest_empty : TestConnRequest :=
  mkTestConnRequest None None None.
#[global] Instance TestConnRequest_eq_dec : EqDecision TestConnRequest.
Proof. solve_decision. Defined.

(** node.proto: message TestConnResponse. *)
Record TestConnResponse := mkTestConnResponse {
  tcres_tp1 : option Z;
  tcres_hops1 : option Z;
  tcres_src_ip : option string;
  tcres_src_port : option Z }.

#[global] Instance TestConnResponse_eta : Eta TestConnResponse := fun r =>
  mkTestConnResponse (tcres_tp1 r) (tcres_hops1 r) (tcres_src_ip r) (tcres_src_port r).
Definition TestConnResponse_empty : TestConnResponse :=
  mkTestConnResponse None None None None.
#[global] Instance TestConnResponse_eq_dec : EqDecision TestConnResponse.
Proof. solve_decision. Defined.

(** node.proto: message TestConn2Request. *)
Record TestConn2Request := mkTestConn2Request {
  tc2req_tp1 : option Z;
  tc2req_send_or_relay : option bool;
  tc2req_src_ip : option string;
  tc2req_src_port : option Z }.

#[global] Instance TestConn2Request_eta : Eta TestConn2Request := fun r =>
  mkTestConn2Request (tc2req_tp1 r) (tc2req_send_or_relay r) (tc2req_src_ip r) (tc2req_src_port r).
Definition TestConn2Request_empty : TestConn2Request :=
  mkTestConn2Request None None None None.
#[global] Instance TestConn2Request_eq_dec : EqDecision TestConn2Request.
Proof. solve_decision. Defined.

(** node.proto: message TestConn2Response. *)
Record TestConn2Response := mkTestConn2Response {
  tc2res_tp1 : option Z;
  tc2res_hops1 : option Z;
  tc2res_send_or_relay : option bool }.

#[global] Instance TestConn2Response_eta : Eta TestConn2Response := fun r =>
  mkTestConn2Response (tc2res_tp1 r) (tc2res_hops1 r) (tc2res_send_or_relay r).
Definition TestConn2Response_empty : TestConn2Response :=
  mkTestConn2Response None None None.
#[global] Instance TestConn2Response_eq_dec : EqDecision TestConn2Response.
Proof. solve_decision. Defined.

(** protobuf's SerializeAsString: the empty text when a required field is missing. *)
Definition SerializeAsString {T} `{Proto T} (m : T) : string := default ""%string (SerializeToString m).

Class BenchWire := {
  wire_AllNodes :: Proto AllNodes;
  wire_TestReportNodes :: Proto TestReportNodes;
  wire_TestConnRequest :: Proto TestConnRequest;
  wire_TestConnResponse :: Proto TestConnResponse;
  wire_TestConn2Request :: Proto TestConn2Request;
  wire_TestConn2Response :: Proto TestConn2Response }.

(** ** A concrete codec, for evaluating the model on examples *)

#[global] Instance AllNodesNode_countable : Countable AllNodesNode.
Proof.
  refine (inj_countable'
    (fun r => (an_local_ip r, an_local_port r, an_public_ip r, an_public_port r, an_service_type r, an_nat_type r, an_node_id r))
    (fun '(x0, x1, x2, x3, x4, x5, x6) => mkAllNodesNode x0 x1 x2 x3 x4 x5 x6) _).
  by intros [].
Defined.

#[global] Instance AllNodes_countable : Countable AllNodes.
Proof.
  refine (inj_countable'
    (fun r => all_nodes r)
    (fun x0 => mkAllNodes x0) _).
  by intros [].
Defined.

#[global] Instance TestReportNodes_countable : Countable TestReportNodes.
Proof.
  refine (inj_countable'
    (fun r => trn_nodes_size r)
    (fun x0 => mkTestReportNodes x0) _).
  by intros [].
Defined.

#[global] Instance TestConnRequest_countable : Countable TestConnRequest.
Proof.
  refine (inj_countable'
    (fun r => (tcreq_tp1 r, tcreq_src_ip r, tcreq_src_port r))
    (fun '(x0, x1, x2) => mkTestConnRequest x0 x1 x2) _).
  by intros [].
Defined.

#[global] Instance TestConnResponse_countable : Countable TestConnResponse.
Proof.
  refine (inj_countable'
    (fun r => (tcres_tp1 r, tcres_hops1 r, tcres_src_ip r, tcres_src_port r))
    (fun '(x0, x1, x2, x3) => mkTestConnResponse x0 x1 x2 x3) _).
  by intros [].
Defined.

#[global] Instance TestConn2Request_countable : Countable TestConn2Request.
Proof.
  refine (inj_countable'
    (fun r => (tc2req_tp1 r, tc2req_send_or_relay r, tc2req_src_ip r, tc2req_src_port r))
    (fun '(x0, x1, x2, x3) => mkTestConn2Request x0 x1 x2 x3) _).
  by intros [].
Defined.

#[global] Instance TestConn2Response_countable : Countable TestConn2Response.
Proof.
  refine (inj_countable'
    (fun r => (tc2res_tp1 r, tc2res_hops1 r, tc2res_send_or_relay r))
    (fun '(x0, x1, x2) => mkTestConn2Response x0 x1 x2) _).
  by intros [].
Defined.

Definition countable_bench_wire : BenchWire := {|
  wire_AllNodes := countable_proto _;
  wire_TestReportNodes := countable_proto _;
  wire_TestConnRequest := countable_proto _;
  wire_TestConnResponse := countable_proto _;
  wire_TestConn2Request := countable_proto _;
  wire_TestConn2Response := countable_proto _ |}.
