(* ===== verification/BenchCommand.v ===== *)
(** src/bench/util.cc: the registry of console commands and the parsing of the
    program's arguments into its configuration. base::ArgsParser and the
    setters of base::Config are library code. *)

From S2P Require Import Prelude Externals BenchText.

(** ** class BenchCommand

    The procedures are functors bound to the routing table; [P] names them. *)

Section commands.
Context `{Config} {P : Type}.

Record BenchCommand := mkBenchCommand {
  show_cmd_ : bool;
  map_commands_ : gmap string P }.

#[export] Instance BenchCommand_eta : Eta BenchCommand := fun r =>
  mkBenchCommand (show_cmd_ r) (map_commands_ r).

Definition BenchCommand_new : BenchCommand := mkBenchCommand true ∅.

Definition BenchCommand_Init (show_cmd : bool) (b : BenchCommand) : BenchCommand :=
  b <| show_cmd_ := show_cmd |>.

(** [None] is an empty functor. *)
Definition RegisterCommand (cmd_name : string) (cmd_proc : option P) (b : BenchCommand)
    : outcome BenchCommand :=
  match cmd_proc with
  | None => Fault AssertFailed
  | Some p =>
      match map_commands_ b !! cmd_name with
      | Some _ => Ok b
      | None => Ok (b <| map_commands_ ::= <[cmd_name := p]> |>)
      end
  end.

(** The first non-empty field is the command, the others its arguments. *)
Fixpoint command_of (fields : list string) (cmd : string) (args : list string)
    : string * list string :=
  match fields with
  | [] => (cmd, args)
  | f :: fields' =>
      if str_empty f then command_of fields' cmd args
      else if (cmd =? "")%string then command_of fields' f args
      else command_of fields' cmd (args ++ [f])
  end.

(** What the console does with a line. *)
Inductive processed :=
  | Ignored
  | InvalidCommand (cmd : string)
  | Call (proc : P) (args : list string).

Definition ProcessCommand (cmdline : string) (b : BenchCommand) : processed :=
  if str_empty cmdline then Ignored
  else
    let '(cmd, args) := command_of (LineParser (c_str cmdline) " "%char) "" [] in
    match map_commands_ b !! cmd with
    | None => InvalidCommand cmd
    | Some proc => Call proc args
    end.

(** The lines PrintUsage writes, in the order of the names. *)
Definition PrintUsage `{StrFmt} (b : BenchCommand) : list string :=
  "all commands:"%string ::
  imap (fun n kv => str_fmt " [%d] %s: %s" [FInt (Z.of_nat n); FCstr kv.1; FCstr "help?"])
    (entries_by string_ltb (map_commands_ b)).

(** ** The registry *)

Lemma RegisterCommand_first name p q b b' :
  RegisterCommand name (Some p) b = Ok b' ->
  RegisterCommand name (Some q) b' = Ok b' /\
  map_commands_ b' !! name = Some (default p (map_commands_ b !! name)).
Proof.
  unfold RegisterCommand. destruct (map_commands_ b !! name) as [r|] eqn:E; intros [= <-].
  - by rewrite E.
  - simpl. by rewrite lookup_insert_eq.
Qed.

Lemma RegisterCommand_other name p b b' other :
  other <> name -> RegisterCommand name (Some p) b = Ok b' ->
  map_commands_ b' !! other = map_commands_ b !! other.
Proof.
  unfold RegisterCommand. intros Hne. destruct (map_commands_ b !! name); intros [= <-]; [done|].
  simpl. by rewrite lookup_insert_ne.
Qed.

(** Registering a list of commands one after the other. *)
Fixpoint register_all (l : list (string * P)) (b : BenchCommand) : outcome BenchCommand :=
  match l with
  | [] => Ok b
  | (name, p) :: l' => b' ← RegisterCommand name (Some p) b; register_all l' b'
  end.

Lemma command_of_app fields cmd args :
  cmd <> ""%string ->
  command_of fields cmd args = (cmd, args ++ List.filter (fun f => negb (str_empty f)) fields).
Proof.
  intros Hc. revert args. induction fields as [|f fields IH]; intros args; simpl.
  - by rewrite app_nil_r.
  - destruct (str_empty f); simpl; [apply IH|].
    rewrite (proj2 (String.eqb_neq cmd "") Hc), IH. by rewrite <- app_assoc.
Qed.

(** The command and the arguments of a line are its non-empty fields. *)
Lemma command_of_spec fields :
  command_of fields "" [] =
    match List.filter (fun f => negb (str_empty f)) fields with
    | [] => (""%string, [])
    | cmd :: args => (cmd, args)
    end.
Proof.
  induction fields as [|f fields IH]; simpl; [done|].
  destruct (str_empty f) eqn:E; simpl; [done|].
  rewrite command_of_app; [done|]. intros ->. done.
Qed.
End commands.

Arguments BenchCommand : clear implicits.
Arguments processed : clear implicits.

(** ** class Util *)

Class ArgsParser := {
  args_parser : Type;
  args_new : args_parser;
  (* AddArgType(short name, long name, kMustValue or kNoValue) *)
  AddArgType : ascii -> string -> bool -> args_parser -> args_parser;
  (* Parse(text): whether it succeeded *)
  args_Parse : string -> args_parser -> bool * args_parser;
  HasParam : string -> args_parser -> bool;
  (* GetParam(name, value): [None] when it does not answer kKadSuccess *)
  GetParam_int : string -> args_parser -> option Z;
  GetParam_u16 : string -> args_parser -> option Z;
  GetParam_string : string -> args_parser -> option string }.

(** Config::Set: [None] when it answers false; and Config::Get of an int. *)
Class ConfigSet `{Config} := {
  cfg_int : config -> string -> string -> option Z;
  Set_string : string -> string -> string -> config -> option config;
  Set_bool : string -> string -> bool -> config -> option config;
  Set_u16 : string -> string -> Z -> config -> option config;
  Set_int : string -> string -> Z -> config -> option config }.

Section util.
Context `{ConfigSet} `{ArgsParser}.

(** One argument after the other, each behind a space; an empty one is
    replaced by the character 31. *)
Definition join_args (argv : list string) : string :=
  foldl (fun tmp_params arg =>
    (tmp_params +:+ (if str_empty arg then String "031" "" else arg) +:+ " ")%string) ""%string argv.

(** [argv] without the program's name. *)
Definition ParseParams (argv : list string) (p : args_parser) : bool * args_parser :=
  let p := AddArgType "h"%char "help" false p in
  let p := AddArgType "g"%char "show_cmd" true p in
  let p := AddArgType "p"%char "peer" true p in
  let p := AddArgType "i"%char "identity_index" true p in
  let p := AddArgType "l"%char "local_port" true p in
  let p := AddArgType "a"%char "local_ip" true p in
  let p := AddArgType "L"%char "log_path" true p in
  let p := AddArgType "D"%char "log_level" true p in
  args_Parse (join_args argv) p.

(** [if (given && !config.Set(...)) return false;] *)
Definition set_param {A} (given : option A) (set : A -> config -> option config)
    (next : config -> bool * config) (c : config) : bool * config :=
  match given with
  | None => next c
  | Some v => match set v c with None => (false, c) | Some c' => next c' end
  end.

(** A text that is given and not empty. *)
Definition non_empty (o : option string) : option string :=
  s ← o; if str_empty s then None else Some s.

Definition ResetConfig (p : args_parser) (c : config) : bool * config :=
  set_param (GetParam_int "g" p) (fun v => Set_bool "node" "show_cmd" (v =? 1))
  (set_param (non_empty (GetParam_string "p" p)) (Set_string "node" "public_endpoints")
  (set_param (GetParam_int "i" p) (fun v => Set_bool "node" "first_node" (v =? 0))
  (set_param (GetParam_u16 "l" p) (Set_u16 "node" "local_port")
  (set_param (non_empty (GetParam_string "a" p)) (Set_string "node" "local_ip")
  (set_param (GetParam_string "L" p) (Set_string "node" "log_path")
  (set_param (GetParam_int "D" p) (Set_int "node" "log_level")
  (fun c => (true, c)))))))) c.

(** The program goes on with a configuration, or ends at once. *)
Inductive params_result :=
  | Exits (code : Z)
  | Returns (ok : bool) (c : config).

Definition HandleParamsAndConfig (argv : list string) (c : config) : params_result :=
  let '(ok, p) := ParseParams argv args_new in
  if negb ok then Returns false c
  else if HasParam "h" p then Exits 0
  else
    let '(ok, c) := ResetConfig p c in
    Returns ok c.

End util.
