(* ===== verification/BenchTable.v ===== *)
(** class MyRoutingTable of src/bench/node.cc: the routing table of the bench
    program, with the console commands and the test messages that measure a
    network. Its state holds the state of the base class RoutingTable. Commands
    that sleep take, for each sleep, what the other threads do meanwhile. *)

From S2P Require Import Prelude Externals Messages Distance Sorting NodeInfo LocalNodeInfo.
From S2P Require Import ClientNodes BootstrapCache World RoutingTable Sending NodeDetection.
From S2P Require Import RoutingHandlers RoutingJoin BenchText BenchMessages BenchCommand.

(** ** State *)

Inductive bench_command :=
  | CSave | CLoad | CPrn | CPrt | CPrtSimple | CConn | CConnVia | CConn2 | CConn3
  | CQuery | CGetrt | CGetrt2 | CRtsize | CAutoTest.

Record NodeReport := mkNodeReport { nr_count : Z; nr_ep : string }.

Record NodeSearch := mkNodeSearch { ns_found : bool; ns_node : option ptr }.

Record NodeHops := mkNodeHops {
  nh_total : Z; nh_max : Z; nh_min : Z; nh_nodes : list (option ptr) }.

#[global] Instance NodeSearch_eta : Eta NodeSearch := fun r => mkNodeSearch (ns_found r) (ns_node r).
#[global] Instance NodeHops_eta : Eta NodeHops := fun r =>
  mkNodeHops (nh_total r) (nh_max r) (nh_min r) (nh_nodes r).

(** The member initializers. *)
Definition NodeSearch_new : NodeSearch := mkNodeSearch false None.
Definition NodeHops_new : NodeHops := mkNodeHops 0 (-1) 9999 [].

(** What the program writes: a log line TOP_FATAL(format, arguments) or a text
    on std::cout. *)
Inductive output :=
  | OFatal (format : string) (args : list fmt_arg)
  | OCout (text : string).

(** The constant of the message enumeration in xpbase the test types count from. *)
Class MessageTypes := { kMessageTypeMax : Z }.

Section state.
Context `{Xbase} `{KadKey} `{Xip}.

Record Bench := mkBench {
  b_table : World;                         (* the base class *)
  b_commands : BenchCommand bench_command; (* BenchCommand::Instance() *)
  supernode_ip_ : string;
  supernode_port_ : Z;
  all_nodes_ : list ptr;
  all_nodes_map_ : gmap string ptr;
  report_timer_ : option (Z * Z);
  map_report_nodes_ : gmap string NodeReport;
  search_map_ : gmap string NodeSearch;
  hops_map_ : gmap Z NodeHops;
  last_not_found_map_ : gmap string ptr;
  rt_map_ : gmap string string;
  rt_diff_count_ : Z;
  rt_size_map_ : gmap Z Z;
  time_all_boot_ : Z;
  time_all_full_ : Z;
  time_all_conn_ : Z;
  time_all_getrt2_ : Z;
  b_files : gmap string string;            (* the file system *)
  b_time : Z;                              (* time(NULL) *)
  b_out : list output }.

#[global] Instance Bench_eta : Eta Bench := fun r =>
  mkBench (b_table r) (b_commands r) (supernode_ip_ r) (supernode_port_ r) (all_nodes_ r)
    (all_nodes_map_ r) (report_timer_ r) (map_report_nodes_ r) (search_map_ r) (hops_map_ r)
    (last_not_found_map_ r) (rt_map_ r) (rt_diff_count_ r) (rt_size_map_ r) (time_all_boot_ r)
    (time_all_full_ r) (time_all_conn_ r) (time_all_getrt2_ r) (b_files r) (b_time r) (b_out r).

(** The constructor: the base class, and the member initializers. *)
Definition MyRoutingTable_new (table : World) (commands : BenchCommand bench_command)
    (files : gmap string string) (time : Z) : Bench :=
  mkBench table commands "" 0 [] ∅ None ∅ ∅ ∅ ∅ ∅ 0 ∅ (-1) (-1) (-1) (-1) files time [].
End state.

Arguments Bench {_ _}.

(** The programs of the bench. *)
Notation B := (ST Bench).

Module MyRoutingTable.
Section bench.
Context `{Xbase} `{KadKey} `{Xip} `{PartialSort} `{Wire} `{Bloom} `{Endpoints} `{Config}.
Context `{StrFmt} `{BenchWire} `{MessageTypes}.

(** ** Access to the base class and the outside *)

(** A call of a member of the base class. *)
Definition table {A} (m : M A) : B A := fun b =>
  match m (b_table b) with
  | Ok (a, w) => Ok (a, b <| b_table := w |>)
  | Fault e => Fault e
  end.

Definition TOP_FATAL (format : string) (args : list fmt_arg) : B unit :=
  modify (fun b => b <| b_out ::= fun o => o ++ [OFatal format args] |>).

Definition cout (text : string) : B unit :=
  modify (fun b => b <| b_out ::= fun o => o ++ [OCout text] |>).

Definition cout_line (text : string) : B unit := cout (with_newline text).

(** duration_cast<milliseconds> of the steady clock. *)
Definition GetSteadyTimepoint : B Z := gets (fun b => Z.quot (w_now (b_table b)) (10 ^ 6)).

(** What other threads do while this one sleeps. *)
Definition others : Type := list (B unit).

Definition during_sleep (o : others) : B others :=
  match o with
  | [] => raise OutOfFuel
  | m :: o' => _ ← m; mret o'
  end.

(** A dot per second, then a line end. *)
Definition SleepWait (seconds : nat) (o : others) : B others :=
  _ ← for_each (seq 0 seconds) (fun _ => cout ".");
  o' ← during_sleep o;
  _ ← cout_line "";
  mret o'.

(** ** Test messages *)

Definition kTestMsgBase : Z := kMessageTypeMax + 200.
Definition kTestReportNodes : Z := kTestMsgBase + 0.
Definition kTestConnRequest : Z := kTestMsgBase + 10.
Definition kTestConnResponse : Z := kTestMsgBase + 11.
Definition kTestConnReply : Z := kTestMsgBase + 12.
Definition kTestConn2Request : Z := kTestMsgBase + 20.
Definition kTestConn2Response : Z := kTestMsgBase + 21.
Definition kTestGetrtRequest : Z := kTestMsgBase + 30.
Definition kTestGetrtResponse : Z := kTestMsgBase + 31.
Definition kTestGetrt2Request : Z := kTestMsgBase + 40.
Definition kTestGetrt2Response : Z := kTestMsgBase + 41.

(** SetFreqMessage, then the fields of a message that is sent directly. *)
Definition direct_message (des_node_id : string) (type : Z) : B RoutingMessage :=
  message ← table (SetFreqMessage RoutingMessage_empty);
  l ← table local;
  mret (message <| msg_des_service_type := Some (ln_service_type l) |>
                <| msg_des_node_id := Some des_node_id |>
                <| msg_type := Some type |>
                <| msg_priority := Some enum_xpacket_priority_type_flash |>).

(** SetFreqMessage, then the fields of a message that is routed. *)
Definition routed_message (type des_service_type : Z) (des_node_id : string) : B RoutingMessage :=
  message ← table (SetFreqMessage RoutingMessage_empty);
  mret (message <| msg_type := Some type |>
                <| msg_des_service_type := Some des_service_type |>
                <| msg_des_node_id := Some des_node_id |>).

(** SetSpeClientMessage(message); SendData(message, ip, port); the uint16_t
    parameter cuts the port. *)
Definition send_direct (message : RoutingMessage) (ip : string) (port : Z) : B unit :=
  _ ← table (SendData (SetSpeClientMessage message) ip (u16 port)); mret tt.

Definition send_routed (message : RoutingMessage) : B unit :=
  _ ← table (SendToClosestNode message); mret tt.

(** ** Dumps of nodes *)

(** The rows of the first [max_detail] nodes and the number of the others; the
    pointers of the others are not followed. *)
Fixpoint dump_rows (row : Z -> NodeInfo -> string) (w : World) (max_detail : Z)
    (nodes : list (option ptr)) (n zip_node_count : Z) (ret : string) : outcome (string * Z) :=
  match nodes with
  | [] => Ok (ret, zip_node_count)
  | node :: nodes' =>
      if n <? max_detail then
        match node with
        | None => Fault NullDeref
        | Some p => dump_rows row w max_detail nodes' (n + 1) zip_node_count
                      (ret +:+ row n (obj_of w p))%string
        end
      else dump_rows row w max_detail nodes' (n + 1) (zip_node_count + 1) ret
  end.

Definition zip_line (zip_node_count : Z) : string :=
  if 0 <? zip_node_count
  then str_fmt (with_newline "[...zip_node_count(%d)...] ...") [FInt zip_node_count]
  else ""%string.

Definition dump_nodes (row : Z -> NodeInfo -> string) (nodes : list (option ptr)) (max_detail : Z)
    : B string :=
  let max_detail := if max_detail <? 1 then 9999 else max_detail in
  w ← gets b_table;
  '(ret, zip_node_count) ← lift (dump_rows row w max_detail nodes 0 0 "");
  mret (ret +:+ zip_line zip_node_count)%string.

Definition node_row (n : Z) (node : NodeInfo) : string :=
  str_fmt (with_newline "%4d] %s, dis(%3d), pub(%15s:%5d), local(%15s:%5d), nat(%d)")
    [FInt n; FCstr (HexSubstr (node_id node)); FInt (bucket_index node);
     FCstr (public_ip node); FInt (public_port node); FCstr (local_ip node);
     FInt (local_port node); FInt (nat_type node)].

Definition simple_row (n : Z) (node : NodeInfo) : string :=
  str_fmt (with_newline "%4d] %s, dis(%3d)")
    [FInt n; FCstr (HexSubstr (node_id node)); FInt (bucket_index node)].

Definition GetDumpNodes : list (option ptr) -> Z -> B string := dump_nodes node_row.
Definition GetDumpNodesSimple : list (option ptr) -> Z -> B string := dump_nodes simple_row.

Definition GetDumpSelf : B string :=
  id ← table local_id; l ← table local;
  mret (str_fmt (with_newline "self] %s, dis(  0), pub(%15s:%5d), local(%15s:%5d), nat(1)")
    [FCstr (HexSubstr id); FCstr (ln_public_ip l); FInt (ln_public_port l);
     FCstr (ln_local_ip l); FInt (ln_local_port l)]).

(** The node itself and its whole table. *)
Definition own_dump (dump : list (option ptr) -> Z -> B string) : B string :=
  id ← table local_id;
  nodes ← table (GetClosestNodes id kRoutingMaxNodesSize false);
  self ← GetDumpSelf;
  rows ← dump (Some <$> nodes) kRoutingMaxNodesSize;
  mret (self +:+ rows)%string.

Definition OnCommandPrt (args : list string) : B unit :=
  nodes_info ← own_dump GetDumpNodes; cout_line nodes_info.

Definition OnCommandPrtSimple (args : list string) : B unit :=
  nodes_info ← own_dump GetDumpNodesSimple; cout_line nodes_info.

(** ** save and load *)

Definition file_name : string := "all_nodes".

Definition pb_of_node (n : NodeInfo) : AllNodesNode :=
  mkAllNodesNode (Some (local_ip n)) (Some (local_port n)) (Some (public_ip n))
    (Some (public_port n)) (Some (service_type n)) (Some (nat_type n)) (Some (node_id n)).

Definition OnCommandSave (args : list string) : B unit :=
  b ← gets (fun b => b);
  l ← table local;
  id ← table local_id;
  let pb_all_nodes :=
    mkAllNodes ((fun p => pb_of_node (obj_of (b_table b) p)) <$> all_nodes_ b) in
  let pb_all_nodes := pb_all_nodes <| all_nodes ::= fun ns => ns ++
    [mkAllNodesNode (Some (ln_local_ip l)) (Some (ln_local_port l)) (Some (ln_public_ip l))
       (Some (ln_public_port l)) (Some (ln_service_type l)) (Some (ln_nat_type l)) (Some id)] |> in
  let data := SerializeAsString pb_all_nodes in
  _ ← modify (fun b => b <| b_files ::= <[file_name := data]> |>);
  TOP_FATAL "save count: %d" [FInt (Z.of_nat (length (all_nodes pb_all_nodes)))].

Definition load_node (pb_node : AllNodesNode) : B unit :=
  id ← table local_id;
  if (get an_node_id pb_node =? id)%string then mret tt
  else
    node_ptr ← table (new_NodeInfo (get an_node_id pb_node) (fun n =>
      n <| local_ip := get an_local_ip pb_node |>
        <| local_port := u16 (get an_local_port pb_node) |>
        <| public_ip := get an_public_ip pb_node |>
        <| public_port := u16 (get an_public_port pb_node) |>
        <| service_type := get an_service_type pb_node |>
        <| nat_type := get an_nat_type pb_node |>));
    _ ← table (SetNodeBucket node_ptr);
    n ← table (obj node_ptr);
    modify (fun b => b <| all_nodes_ ::= fun l => l ++ [node_ptr] |>
                       <| all_nodes_map_ ::= <[node_id n := node_ptr]> |>).

(** A file that does not exist reads as the empty text. *)
Definition OnCommandLoad (args : list string) : B unit :=
  data ← gets (fun b => default ""%string (b_files b !! file_name));
  _ ← TOP_FATAL "data size: %d" [FInt (Z.of_nat (String.length data))];
  match ParseFromString (T := AllNodes) data with
  | None => TOP_FATAL "parse failed" []
  | Some pb_all_nodes =>
      _ ← modify (fun b => b <| all_nodes_ := [] |> <| all_nodes_map_ := ∅ |>);
      _ ← for_each (all_nodes pb_all_nodes) load_node;
      l ← gets all_nodes_;
      TOP_FATAL "load count: %d" [FInt (Z.of_nat (length l))]
  end.

(** ** prn *)

Definition SendReportNodes : B unit :=
  all_nodes ← table nodes;
  message ← direct_message "" kTestReportNodes;
  let msg := TestReportNodes_empty <| trn_nodes_size := Some (i32 (Z.of_nat (length all_nodes))) |> in
  b ← gets (fun b => b);
  send_direct (message <| msg_data := Some (SerializeAsString msg) |>)
    (supernode_ip_ b) (supernode_port_ b).

(** [local_node_ptr_->GetXipParser().xnetwork_id()] *)
Definition own_xnetwork_id : B Z :=
  l ← table local;
  x ← lift (r ← GetXipParser l; use_xip r);
  mret (xip_xnetwork_id x).

Definition endpoint_of (packet : xpacket) : string :=
  (get_from_ip_addr packet +:+ ":" +:+ to_string (get_from_ip_port packet))%string.

Definition HandleReportNodes (message : RoutingMessage) (packet : xpacket) : B unit :=
  net ← own_xnetwork_id;
  if negb (net =? kRoot) then mret tt
  else
    match ParseFromString (T := TestReportNodes) (get msg_data message) with
    | None => TOP_FATAL "parse data failed" []
    | Some msg =>
        let node_report := mkNodeReport (get trn_nodes_size msg) (endpoint_of packet) in
        let key := (nr_ep node_report +:+ " | " +:+ HexSubstr (get msg_src_node_id message))%string in
        modify (fun b => b <| map_report_nodes_ ::= <[key := node_report]> |>)
    end.

Definition GetReportNodes : B (Z * gmap string NodeReport) :=
  gets (fun b => (b_time b, map_report_nodes_ b)).

(** The counters of PrintReportNodes. *)
Record report_sums := mkSums { rs_total : Z; rs_full : Z; rs_abnormal : Z; rs_n : Z }.

Fixpoint print_reports (node_count : Z) (details : list (string * NodeReport)) (s : report_sums)
    : B report_sums :=
  match details with
  | [] => mret s
  | kv :: details' =>
      let count := nr_count kv.2 in
      let total := rs_total s + 1 in
      if count =? node_count then
        print_reports node_count details' (mkSums total (rs_full s + 1) (rs_abnormal s) (rs_n s))
      else if node_count <? count then
        print_reports node_count details' (mkSums total (rs_full s) (rs_abnormal s + 1) (rs_n s))
      else if rs_n s <? 20 then
        _ ← TOP_FATAL "  [%d] %s: %d" [FInt (rs_n s); FCstr kv.1; FInt count];
        let n := rs_n s + 1 in
        _ ← when (20 <=? n) (TOP_FATAL "  [...] ..." []);
        print_reports node_count details' (mkSums total (rs_full s) (rs_abnormal s) n)
      else print_reports node_count details' (mkSums total (rs_full s) (rs_abnormal s) (rs_n s))
  end.

Definition PrintReportNodes (struct_prn : Z * gmap string NodeReport) (node_count : Z) : B unit :=
  if node_count <? 0 then TOP_FATAL "node_count(%d) is invalid" [FInt node_count]
  else
    _ ← TOP_FATAL "print report nodes(time=%ld):" [FInt struct_prn.1];
    s ← print_reports node_count (entries_by string_ltb struct_prn.2) (mkSums 0 0 0 0);
    TOP_FATAL "total = %d, full = %d, abnormal = %d"
      [FInt (rs_total s); FInt (rs_full s); FInt (rs_abnormal s)].

(** std::stoi outside of any try block. *)
Definition stoi_uncaught (s : string) : B Z := from_some Uncaught (stoi s).

Definition OnCommandPrn (args : list string) : B unit :=
  node_count ← match args with [] => mret 0 | a :: _ => stoi_uncaught a end;
  struct_prn ← GetReportNodes;
  PrintReportNodes struct_prn node_count.

(** ** conn: one probe, reported hop by hop *)

Definition SendConnReply (reply ip : string) (port : Z) : B unit :=
  message ← direct_message "" kTestConnReply;
  send_direct (message <| msg_data := Some reply |>) ip port.

Definition RelayConnResponse (data : string) (des_service_type : Z) (des_node_id : string) : B unit :=
  message ← routed_message kTestConnResponse des_service_type des_node_id;
  send_routed (message <| msg_data := Some data |>).

(** The request of RelayConnRequest and SendConnVia: sent now, to be answered
    to the public endpoint of this node. *)
Definition conn_request (node_id : string) : B RoutingMessage :=
  l ← table local;
  message ← routed_message kTestConnRequest (ln_service_type l) node_id;
  tp1 ← GetSteadyTimepoint;
  let req := mkTestConnRequest (Some tp1) (Some (ln_public_ip l)) (Some (ln_public_port l)) in
  mret (message <| msg_data := Some (SerializeAsString req) |>).

Definition RelayConnRequest (node_id : string) : B unit :=
  message ← conn_request node_id;
  _ ← send_routed message;
  TOP_FATAL "send test conn" [].

Definition SendConnVia (via_node des_node : ptr) : B unit :=
  des ← table (obj des_node);
  message ← conn_request (node_id des);
  via ← table (obj via_node);
  send_direct message (public_ip via) (public_port via).

(** The first known node whose short id is [node_id]. *)
Definition GetNode (node_id : string) : B (option ptr) :=
  gets (fun b => List.find
    (fun p => HexSubstr (NodeInfo.node_id (obj_of (b_table b) p)) =? node_id)%string (all_nodes_ b)).

Definition OnCommandConn (args : list string) : B unit :=
  _ ← TOP_FATAL "on command conn ..." [];
  match args with
  | [] => TOP_FATAL "need one arg" []
  | a :: _ =>
      node ← GetNode a;
      match node with
      | None => TOP_FATAL "node must in all nodes map" []
      | Some p =>
          n ← table (obj p);
          _ ← RelayConnRequest (node_id n);
          TOP_FATAL "start test conn" []
      end
  end.

Definition OnCommandConnVia (args : list string) : B unit :=
  _ ← TOP_FATAL "on command connvia ..." [];
  match args with
  | a :: v :: _ =>
      des_node ← GetNode a;
      via_node ← GetNode v;
      match des_node, via_node with
      | Some des_node, Some via_node =>
          _ ← SendConnVia via_node des_node;
          TOP_FATAL "start test connvia" []
      | _, _ => TOP_FATAL "both nodes must in all nodes map" []
      end
  | _ => TOP_FATAL "need 2 args" []
  end.

(** "hops(n) id text" *)
Definition conn_reply (message : RoutingMessage) (msg : string) : B string :=
  id ← table local_id;
  mret (str_fmt "hops(%d) %s %s" [FInt (get msg_hop_num message); FCstr (HexSubstr id); FCstr msg]).

Definition HandleConnRequest (message : RoutingMessage) (packet : xpacket) : B unit :=
  match ParseFromString (T := TestConnRequest) (get msg_data message) with
  | None => TOP_FATAL "parse failed" []
  | Some req =>
      mine ← table (IsDestination (get msg_des_node_id message) true);
      if negb mine then
        reply ← conn_reply message "[conn_request] relay the message";
        _ ← SendConnReply reply (get tcreq_src_ip req) (get tcreq_src_port req);
        send_routed message
      else
        id ← table local_id;
        if negb (get msg_des_node_id message =? id)%string then
          reply ← conn_reply message "[conn_request] cant find node";
          SendConnReply reply (get tcreq_src_ip req) (get tcreq_src_port req)
        else
          reply ← conn_reply message "[conn_request] find the des node";
          _ ← SendConnReply reply (get tcreq_src_ip req) (get tcreq_src_port req);
          let res := mkTestConnResponse (Some (get tcreq_tp1 req)) (Some (get msg_hop_num message))
                       (Some (get tcreq_src_ip req)) (Some (get tcreq_src_port req)) in
          RelayConnResponse (SerializeAsString res) (get msg_src_service_type message)
            (get msg_src_node_id message)
  end.

Definition HandleConnResponse (message : RoutingMessage) (packet : xpacket) : B unit :=
  match ParseFromString (T := TestConnResponse) (get msg_data message) with
  | None => TOP_FATAL "parse failed" []
  | Some res =>
      mine ← table (IsDestination (get msg_des_node_id message) true);
      if negb mine then
        reply ← conn_reply message "[conn_response] relay the message";
        _ ← SendConnReply reply (get tcres_src_ip res) (get tcres_src_port res);
        send_routed message
      else
        id ← table local_id;
        if negb (get msg_des_node_id message =? id)%string then
          reply ← conn_reply message "[conn_response] cant find node";
          SendConnReply reply (get tcres_src_ip res) (get tcres_src_port res)
        else
          reply ← conn_reply message "[conn_response] find the des node";
          _ ← TOP_FATAL "%s" [FCstr reply];
          now ← GetSteadyTimepoint;
          let hops1 := i32 (get tcres_hops1 res) in
          hops ← lift (signed 32 (get msg_hop_num message + hops1));
          td ← lift (signed 64 (now - get tcres_tp1 res));
          TOP_FATAL "total cost %lld ms, %d hops" [FInt td; FInt hops]
  end.

Definition HandleConnReply (message : RoutingMessage) (packet : xpacket) : B unit :=
  TOP_FATAL "%s from %s:%d"
    [FCstr (get msg_data message); FCstr (get_from_ip_addr packet); FInt (get_from_ip_port packet)].

(** ** conn2 and query: a probe to every known node *)

Definition kSendTry : nat := 1.

Definition conn2_request (send_or_relay : bool) (node : ptr) : B RoutingMessage :=
  n ← table (obj node);
  message ← routed_message kTestConn2Request (service_type n) (node_id n);
  tp1 ← GetSteadyTimepoint;
  l ← table local;
  let req := mkTestConn2Request (Some tp1) (Some send_or_relay) (Some (ln_public_ip l))
               (Some (ln_public_port l)) in
  mret (message <| msg_data := Some (SerializeAsString req) |>).

(** The pauses of 100 ms between batches are not modelled. *)
Definition SendConn2Request (send_or_relay : bool) : B unit :=
  nodes ← gets all_nodes_;
  _ ← for_each (seq 0 kSendTry) (fun _ =>
        for_each nodes (fun node => message ← conn2_request send_or_relay node; send_routed message));
  TOP_FATAL "send test conn2" [].

Definition ClearQuery : B unit :=
  modify (fun b =>
    b <| search_map_ := foldl (fun m p =>
           <[node_id (obj_of (b_table b) p) := mkNodeSearch false (Some p)]> m) ∅ (all_nodes_ b) |>
      <| hops_map_ := ∅ |>).

Definition OnCommandConn2 (args : list string) : B unit :=
  _ ← TOP_FATAL "on command conn2 ..." [];
  _ ← ClearQuery;
  _ ← SendConn2Request false;
  TOP_FATAL "start test conn2" [].

Definition SendConn2Response (data des_node_id ip : string) (port : Z) : B unit :=
  message ← direct_message des_node_id kTestConn2Response;
  send_direct (message <| msg_data := Some data |>) ip port.

Definition RelayConn2Response (data : string) (des_service_type : Z) (des_node_id : string) : B unit :=
  message ← routed_message kTestConn2Response des_service_type des_node_id;
  send_routed (message <| msg_data := Some data |>).

Definition HandleConn2Request (message : RoutingMessage) (packet : xpacket) : B unit :=
  match ParseFromString (T := TestConn2Request) (get msg_data message) with
  | None => TOP_FATAL "parse failed" []
  | Some req =>
      mine ← table (IsDestination (get msg_des_node_id message) true);
      if negb mine then send_routed message
      else
        id ← table local_id;
        if negb (get msg_des_node_id message =? id)%string then mret tt
        else
          let res := mkTestConn2Response (Some (get tc2req_tp1 req)) (Some (get msg_hop_num message))
                       (Some (get tc2req_send_or_relay req)) in
          if get tc2req_send_or_relay req then
            SendConn2Response (SerializeAsString res) (get msg_src_node_id message)
              (get tc2req_src_ip req) (get tc2req_src_port req)
          else
            RelayConn2Response (SerializeAsString res) (get msg_src_service_type message)
              (get msg_src_node_id message)
  end.

(** One more answer after [td] milliseconds from [node]. *)
Definition count_hop (td : Z) (node : option ptr) (h : NodeHops) : outcome NodeHops :=
  total ← signed 64 (nh_total h + td);
  Ok (h <| nh_total := total |> <| nh_max := Z.max td (nh_max h) |>
        <| nh_min := Z.min td (nh_min h) |> <| nh_nodes ::= fun l => l ++ [node] |>).

(** The part of HandleConn2Response behind its tests. *)
Definition count_response (src : string) (hops td : Z) : B unit :=
  b ← gets (fun b => b);
  let node_search := default NodeSearch_new (search_map_ b !! src) in
  if 0 <=? td then
    node_hops ← lift (count_hop td (ns_node node_search) (default NodeHops_new (hops_map_ b !! hops)));
    modify (fun b => b <| search_map_ ::= <[src := node_search <| ns_found := true |>]> |>
                       <| hops_map_ ::= <[hops := node_hops]> |>)
  else modify (fun b => b <| search_map_ ::= <[src := node_search]> |>).

Definition HandleConn2Response (message : RoutingMessage) (packet : xpacket) : B unit :=
  match ParseFromString (T := TestConn2Response) (get msg_data message) with
  | None => TOP_FATAL "parse failed" []
  | Some res =>
      id ← table local_id;
      let message := if get tc2res_send_or_relay res then message <| msg_des_node_id := Some id |>
                     else message in
      mine ← table (IsDestination (get msg_des_node_id message) true);
      if negb mine then send_routed message
      else if negb (get msg_des_node_id message =? id)%string then mret tt
      else
        now ← GetSteadyTimepoint;
        let hops1 := i32 (get tc2res_hops1 res) in
        hops ← lift (signed 32 (get msg_hop_num message + hops1));
        td ← lift (signed 64 (now - get tc2res_tp1 res));
        count_response (get msg_src_node_id message) hops td
  end.

(** StructQuery *)
Record query := mkQuery { q_hops : list string; q_not_found_nodes : list (option ptr) }.

(** [total / nodes.size()], a division of unsigned 64-bit numbers. *)
Definition hops_avg (h : NodeHops) : Z :=
  let size := Z.of_nat (length (nh_nodes h)) in
  if 0 <? size then i64 (u64 (nh_total h) / size) else -1.

Definition hops_row (kv : Z * NodeHops) : string :=
  str_fmt "%4d %5d ------- %3d %3d %3d"
    [FInt kv.1; FInt (i32 (Z.of_nat (length (nh_nodes kv.2)))); FInt (i32 (hops_avg kv.2));
     FInt (i32 (nh_max kv.2)); FInt (i32 (nh_min kv.2))].

Definition GetQuery : B query :=
  gets (fun b =>
    mkQuery (hops_row <$> entries_by Z.ltb (hops_map_ b))
      ((fun kv => ns_node kv.2) <$>
         List.filter (fun kv => negb (ns_found kv.2)) (entries_by string_ltb (search_map_ b)))).

Definition count_dump (format : string) (nodes : list (option ptr)) : B unit :=
  _ ← TOP_FATAL format [FInt (Z.of_nat (length nodes))];
  nodes_info ← GetDumpNodes nodes 10;
  cout_line nodes_info.

(** Every pointer is followed in the second half. *)
Definition DumpQuery (q : query) : B unit :=
  _ ← TOP_FATAL "hops count rrt(ms) avg max min:" [];
  _ ← for_each (q_hops q) (fun hop => TOP_FATAL "%s" [FCstr hop]);
  _ ← count_dump "not found(count=%ld):" (q_not_found_nodes q);
  ps ← lift (fold_m (fun acc node => match node with
                                     | Some p => Ok (acc ++ [p]) | None => Fault NullDeref end)
               (q_not_found_nodes q) []);
  b ← gets (fun b => b);
  let id p := node_id (obj_of (b_table b) p) in
  let continuous_not_found :=
    List.filter (fun p => bool_decide (is_Some (last_not_found_map_ b !! id p))) ps in
  let current_not_found_map := foldl (fun m p => <[id p := p]> m) ∅ ps in
  _ ← modify (fun b => b <| last_not_found_map_ := current_not_found_map |>);
  count_dump "continuous not found(count=%ld):" (Some <$> continuous_not_found).

Definition OnCommandQuery (args : list string) : B unit := q ← GetQuery; DumpQuery q.

Definition OnCommandConn3 (args : list string) (o : others) : B others :=
  _ ← TOP_FATAL "on command conn3 ..." [];
  _ ← OnCommandConn2 args;
  o ← SleepWait 5 o;
  _ ← OnCommandQuery args;
  mret o.

(** ** getrt and getrt2: the tables of other nodes *)

Definition SendGetrtRequest (ip : string) (port : Z) : B unit :=
  message ← direct_message "" kTestGetrtRequest; send_direct message ip port.

Definition SendGetrt2Request (ip : string) (port : Z) : B unit :=
  message ← direct_message "" kTestGetrt2Request; send_direct message ip port.

Definition OnCommandGetrt (args : list string) : B unit :=
  match args with
  | [] => mret tt
  | a :: _ =>
      match LineParser (c_str a) ":"%char with
      | [peer_ip; port] =>
          match stoi port with
          | None => TOP_FATAL "ip:port parse failed" []
          | Some peer_port => SendGetrtRequest peer_ip peer_port
          end
      | _ => TOP_FATAL "ip:port parse failed" []
      end
  end.

(** The answer to both requests: the dump of this node's table. *)
Definition answer_dump (type : Z) (dump : list (option ptr) -> Z -> B string) (packet : xpacket)
    : B unit :=
  nodes_info ← own_dump dump;
  message ← direct_message "" type;
  send_direct (message <| msg_data := Some nodes_info |>) (get_from_ip_addr packet)
    (get_from_ip_port packet).

Definition HandleGetrtRequest (req_message : RoutingMessage) (packet : xpacket) : B unit :=
  answer_dump kTestGetrtResponse GetDumpNodes packet.

Definition HandleGetrt2Request (req_message : RoutingMessage) (packet : xpacket) : B unit :=
  answer_dump kTestGetrt2Response GetDumpNodesSimple packet.

Definition HandleGetrtResponse (message : RoutingMessage) (packet : xpacket) : B unit :=
  _ ← TOP_FATAL "getrt response:" [];
  cout_line (get msg_data message).

Definition HandleGetrt2Response (message : RoutingMessage) (packet : xpacket) : B unit :=
  let id := get msg_src_node_id message in
  let data := get msg_data message in
  lines ← lift (GetLines data);
  _ ← modify (fun b => b <| rt_size_map_ ::= fun m => <[lines := default 0 (m !! lines) + 1]> m |>
                         <| rt_map_ ::= fun m => <[id := default ""%string (m !! id)]> m |>);
  b ← gets (fun b => b);
  let old := default ""%string (rt_map_ b !! id) in
  let diff := rt_diff_count_ b in
  if (old =? data)%string then mret tt
  else
    _ ← when (diff <? 20)
          (cout_line (str_fmt "%4d] update %s" [FInt diff; FCstr (HexSubstr id)]));
    _ ← when (diff <? 1) (body ← lift (CompareDiffLines old data); cout_line body);
    modify (fun b => b <| rt_diff_count_ ::= Z.add 1 |> <| rt_map_ ::= <[id := data]> |>).

Definition ClearRtdiff : B unit :=
  modify (fun b => b <| rt_diff_count_ := 0 |> <| rt_size_map_ := ∅ |>).

(** The pauses of 50 ms between batches are not modelled. *)
Definition OnCommandGetrt2 (args : list string) : B unit :=
  _ ← TOP_FATAL "on command getrt2 ..." [];
  _ ← ClearRtdiff;
  nodes ← gets all_nodes_;
  for_each (seq 0 kSendTry) (fun _ =>
    for_each nodes (fun node =>
      n ← table (obj node); SendGetrt2Request (public_ip n) (public_port n))).

Definition ParseArg (arg : string) (default_value : Z) : B Z :=
  match stoi arg with
  | Some v => mret v
  | None => _ ← TOP_FATAL "invalid args" []; mret default_value
  end.

(** The known nodes whose last dump had [rt_size] lines. *)
Definition nodes_of_size (rt_size : Z) (b : Bench) : outcome (list ptr) :=
  fold_m (fun nodes kv =>
    lines ← GetLines kv.2;
    Ok (if lines =? rt_size then nodes ++ option_list (all_nodes_map_ b !! kv.1) else nodes))
    (entries_by string_ltb (rt_map_ b)) [].

Definition OnCommandRtsize (args : list string) : B unit :=
  match args with
  | a :: _ =>
      rt_size ← ParseArg a 1;
      b ← gets (fun b => b);
      nodes ← lift (nodes_of_size rt_size b);
      _ ← TOP_FATAL "last rt_map_ which rt_size = %d:" [FInt rt_size];
      nodes_info ← GetDumpNodes (Some <$> nodes) 0;
      cout_line nodes_info
  | [] =>
      _ ← TOP_FATAL "last rt_size_map:" [];
      _ ← cout_line (str_fmt "%7s %5s" [FCstr "rt_size"; FCstr "count"]);
      b ← gets (fun b => b);
      _ ← for_each (entries_by Z.ltb (rt_size_map_ b)) (fun kv =>
            cout_line (str_fmt "%7d %5d" [FInt kv.1; FInt kv.2]));
      TOP_FATAL "last rt_diff_count: %d" [FInt (rt_diff_count_ b)]
  end.

Definition GetGetrt2 (o : others) : B (Z * others) :=
  _ ← ClearRtdiff;
  _ ← OnCommandGetrt2 [];
  o ← SleepWait 5 o;
  diff_count ← gets rt_diff_count_;
  mret (diff_count, o).

(** ** autotest *)

(** The loops sleep in every turn but the last; a turn is counted by [fuel],
    and a loop that outlives [fuel] or [o] has not ended. *)

Fixpoint boot_rounds (fuel : nat) (node_count : Z) (o : others) : B others :=
  match fuel with
  | O => raise OutOfFuel
  | S fuel' =>
      struct_prn ← GetReportNodes;
      if node_count <=? i32 (Z.of_nat (base.size struct_prn.2)) then
        _ ← modify (fun b => b <| time_all_boot_ := b_time b |>);
        mret o
      else o ← SleepWait 3 o; boot_rounds fuel' node_count o
  end.

Definition AutoTestAllBoot (fuel : nat) (node_count : Z) (o : others) : B others :=
  _ ← TOP_FATAL "auto test all boot ..." []; boot_rounds fuel node_count o.

Fixpoint full_rounds (fuel : nat) (rt_size : Z) (o : others) : B others :=
  match fuel with
  | O => raise OutOfFuel
  | S fuel' =>
      struct_prn ← GetReportNodes;
      let sum := Z.of_nat (length (List.filter (fun kv => rt_size <=? nr_count kv.2)
                   (entries_by string_ltb struct_prn.2))) in
      if rt_size <=? sum then
        _ ← modify (fun b => b <| time_all_full_ := b_time b |>);
        mret o
      else o ← SleepWait 3 o; full_rounds fuel' rt_size o
  end.

(** Not called by the program. *)
Definition AutoTestAllFull (fuel : nat) (rt_size : Z) (o : others) : B others :=
  _ ← TOP_FATAL "auto test all full ..." []; full_rounds fuel rt_size o.

Definition max_continuous_success_count : Z := 3.

Fixpoint conn_rounds (fuel : nat) (success_count : Z) (o : others) : B others :=
  match fuel with
  | O => raise OutOfFuel
  | S fuel' =>
      _ ← OnCommandConn2 [];
      o ← SleepWait 5 o;
      q ← GetQuery;
      _ ← DumpQuery q;
      match q_not_found_nodes q with
      | [] =>
          _ ← TOP_FATAL "success" [];
          let success_count := success_count + 1 in
          _ ← when (success_count =? 1) (modify (fun b => b <| time_all_conn_ := b_time b |>));
          if max_continuous_success_count <=? success_count then mret o
          else o ← SleepWait 5 o; conn_rounds fuel' success_count o
      | _ => _ ← TOP_FATAL "failed" []; o ← SleepWait 5 o; conn_rounds fuel' 0 o
      end
  end.

Definition AutoTestAllConn (fuel : nat) (o : others) : B others :=
  _ ← TOP_FATAL "auto test all conn ..." []; conn_rounds fuel 0 o.

Fixpoint getrt2_rounds (fuel : nat) (success_count : Z) (o : others) : B others :=
  match fuel with
  | O => raise OutOfFuel
  | S fuel' =>
      '(diff_count, o) ← GetGetrt2 o;
      if diff_count =? 0 then
        _ ← TOP_FATAL "success" [];
        let success_count := success_count + 1 in
        _ ← when (success_count =? 1) (modify (fun b => b <| time_all_getrt2_ := b_time b |>));
        if max_continuous_success_count <=? success_count then mret o
        else o ← SleepWait 5 o; getrt2_rounds fuel' success_count o
      else _ ← TOP_FATAL "failed" []; o ← SleepWait 5 o; getrt2_rounds fuel' 0 o
  end.

Definition AutoTestAllGetrt2 (fuel : nat) (o : others) : B others :=
  _ ← TOP_FATAL "auto test all getrt2 ..." []; getrt2_rounds fuel 0 o.

Definition OnCommandAutoTest (fuel : nat) (args : list string) (o : others) : B others :=
  match args with
  | [] => _ ← TOP_FATAL "args: node_count" []; mret o
  | a :: _ =>
      match stoi a with
      | None => _ ← TOP_FATAL "invalid args" []; mret o
      | Some node_count =>
          if node_count <? 0 then _ ← TOP_FATAL "invalid node_count" []; mret o
          else
            o ← AutoTestAllBoot fuel node_count o;
            b ← gets (fun b => b);
            _ ← TOP_FATAL "all boot ok, time point: %ld" [FInt (time_all_boot_ b)];
            o ← AutoTestAllGetrt2 fuel o;
            b ← gets (fun b => b);
            _ ← TOP_FATAL "all getrt2 ok, time point: %ld" [FInt (time_all_getrt2_ b)];
            _ ← TOP_FATAL "getrt2 time: %ld" [FInt (time_all_getrt2_ b - time_all_boot_ b)];
            o ← AutoTestAllConn fuel o;
            b ← gets (fun b => b);
            _ ← TOP_FATAL "all conn ok, time point: %ld" [FInt (time_all_conn_ b)];
            _ ← TOP_FATAL "conn time: %ld" [FInt (time_all_conn_ b - time_all_boot_ b)];
            mret o
      end
  end.

(** ** Joining nodes *)

(** The override: the base class's handler, then the first node remembers who
    asked. *)
Definition HandleBootstrapJoinRequest (message : RoutingMessage) (packet : xpacket) : B unit :=
  message ← table (RoutingHandlers.HandleBootstrapJoinRequest message packet);
  match ParseFromString (T := BootstrapJoinRequest) (get msg_data message) with
  | None => mret tt
  | Some join_req =>
      node_ptr ← table (new_NodeInfo (get msg_src_node_id message) (fun n =>
        n <| local_ip := get jreq_local_ip join_req |>
          <| local_port := u16 (get jreq_local_port join_req) |>
          <| public_ip := get_from_ip_addr packet |>
          <| public_port := get_from_ip_port packet |>
          <| service_type := get msg_src_service_type message |>
          <| nat_type := get jreq_nat_type join_req |>
          <| xid := get jreq_xid join_req |>
          <| hash64 := xhash64 (get jreq_xid join_req) |>
          <| xip := get jreq_xip join_req |>));
      _ ← table (SetNodeBucket node_ptr);
      l ← table local;
      if negb (ln_first_node l) then mret tt
      else
        n ← table (obj node_ptr);
        known ← gets all_nodes_map_;
        match known !! node_id n with
        | Some old_node =>
            o ← table (obj old_node);
            if (public_ip o =? public_ip n)%string && (public_port o =? public_port n)
            then TOP_FATAL "node rejoin node_id(%s)" [FCstr (HexSubstr (node_id n))]
            else TOP_FATAL "duplicate node_id(%s)" [FCstr (HexSubstr (node_id n))]
        | None =>
            modify (fun b => b <| all_nodes_map_ ::= <[node_id n := node_ptr]> |>
                               <| all_nodes_ ::= fun l => l ++ [node_ptr] |>)
        end
  end.

(** ** Init *)

Definition commands_in_order : list (string * bench_command) :=
  [("save", CSave); ("load", CLoad); ("prn", CPrn); ("prt", CPrt); ("prt2", CPrtSimple);
   ("conn", CConn); ("connvia", CConnVia); ("conn2", CConn2); ("conn3", CConn3);
   ("query", CQuery); ("getrt", CGetrt); ("getrt2", CGetrt2); ("rtsize", CRtsize);
   ("autotest", CAutoTest)]%string.

(** The name prefix of the log lines is not modelled; [seed] as in
    RoutingTable::Init. *)
Definition Init (seed : Z) (supernode_ip : string) (supernode_port : Z) : B bool :=
  ok ← table (RoutingJoin.Init seed);
  if negb ok then _ ← TOP_FATAL "init routing table failed" []; mret false
  else
    _ ← modify (fun b => b <| supernode_ip_ := supernode_ip |>
                           <| supernode_port_ := u16 supernode_port |>);
    net ← own_xnetwork_id;
    _ ← when (net =? kRoot)
          (_ ← modify (fun b => b <| report_timer_ := Some (2000 * 1000, 2000 * 1000) |>);
           TOP_FATAL "start report timer" []);
    b ← gets (fun b => b);
    commands ← lift (register_all commands_in_order (b_commands b));
    _ ← modify (fun b => b <| b_commands := commands |>);
    mret true.

(** A registered command. *)
Definition run_command (fuel : nat) (c : bench_command) (args : list string) (o : others)
    : B others :=
  match c with
  | CConn3 => OnCommandConn3 args o
  | CAutoTest => OnCommandAutoTest fuel args o
  | _ =>
      _ ← match c with
          | CSave => OnCommandSave args
          | CLoad => OnCommandLoad args
          | CPrn => OnCommandPrn args
          | CPrt => OnCommandPrt args
          | CPrtSimple => OnCommandPrtSimple args
          | CConn => OnCommandConn args
          | CConnVia => OnCommandConnVia args
          | CConn2 => OnCommandConn2 args
          | CQuery => OnCommandQuery args
          | CGetrt => OnCommandGetrt args
          | CGetrt2 => OnCommandGetrt2 args
          | CRtsize => OnCommandRtsize args
          | CConn3 | CAutoTest => mret tt
          end;
      mret o
  end.

(** A line typed at the console. *)
Definition console (fuel : nat) (cmdline : string) (o : others) : B others :=
  commands ← gets b_commands;
  match ProcessCommand cmdline commands with
  | Ignored => mret o
  | InvalidCommand cmd => _ ← cout_line ("Invalid command : " +:+ cmd); mret o
  | Call c args => run_command fuel c args o
  end.

(** std::getline on the lines standard input still holds: at its end the text
    stays empty. *)
Definition getline (input : list string) : string * list string :=
  match input with [] => (""%string, []) | l :: input' => (l, input') end.

(** The first [n] turns of the endless loop of BenchCommand::Run, with the lines
    that are left to read. The other threads run while this one sleeps or
    waits for a line. *)
Fixpoint Run_loop (n fuel : nat) (input : list string) (o : others) : B (list string * others) :=
  match n with
  | O => mret (input, o)
  | S n' =>
      commands ← gets b_commands;
      if negb (show_cmd_ commands) then
        o ← during_sleep o;
        Run_loop n' fuel input o
      else
        _ ← cout (String newline "Enter command > ");
        o ← during_sleep o;
        let '(cmdline, input) := getline input in
        o ← console fuel cmdline o;
        Run_loop n' fuel input o
  end.

Definition Run (n fuel : nat) (input : list string) (o : others) : B (list string * others) :=
  commands ← gets b_commands;
  _ ← for_each (PrintUsage commands) cout_line;
  Run_loop n fuel input o.

End bench.
End MyRoutingTable.
