(* ===== verification/BenchNode.v ===== *)
(** The bench program around its routing table: MyMessageHandler and MyNodeMgr
    of src/bench/node.cc and main of src/bench/main.cc. The transport and
    the worker threads are library code: what they answer is an argument. *)

From S2P Require Import Prelude Externals Messages Distance Sorting NodeInfo LocalNodeInfo.
From S2P Require Import ClientNodes RoutingUtils BootstrapCache World RoutingTable Sending.
From S2P Require Import NodeDetection.
From S2P Require Import RoutingHandlers RoutingJoin NatDetect KadMessageHandler.
From S2P Require Import BenchText BenchMessages BenchCommand BenchTable.

(** ** class MyMessageHandler *)

Inductive bench_handler :=
  | HBase (h : base_handler)
  | HReportNodes | HConnRequest | HConnResponse | HConnReply
  | HConn2Request | HConn2Response | HGetrtRequest | HGetrtResponse
  | HGetrt2Request | HGetrt2Response.

Section handler.
Context `{Xbase} `{KadKey} `{Xip} `{PartialSort} `{Wire} `{Bloom} `{Endpoints} `{Config}.
Context `{StrFmt} `{BenchWire} `{MessageTypes}.
Import MyRoutingTable.

(** KadMessageHandler::Init, then the processors of the test messages. *)
Definition MyMessageHandler_Init : list (Z * bench_handler) :=
  ((fun e => (e.1, HBase e.2)) <$> AddBaseHandlers) ++
  [(kTestReportNodes, HReportNodes);
   (kTestConnRequest, HConnRequest);
   (kTestConnResponse, HConnResponse);
   (kTestConnReply, HConnReply);
   (kTestConn2Request, HConn2Request);
   (kTestConn2Response, HConn2Response);
   (kTestGetrtRequest, HGetrtRequest);
   (kTestGetrtResponse, HGetrtResponse);
   (kTestGetrt2Request, HGetrt2Request);
   (kTestGetrt2Response, HGetrt2Response)].

Definition bench_processor_of (type : Z) : option bench_handler :=
  snd <$> List.find (fun e => e.1 =? type) MyMessageHandler_Init.

(** A processor; HandleBootstrapJoinRequest is the override. *)
Definition run_bench_handler (h : bench_handler) (message : RoutingMessage) (packet : xpacket)
    : B unit :=
  match h with
  | HBase HBootstrapJoinRequest => MyRoutingTable.HandleBootstrapJoinRequest message packet
  | HBase h => table (run_handler h message packet)
  | HReportNodes => HandleReportNodes message packet
  | HConnRequest => HandleConnRequest message packet
  | HConnResponse => HandleConnResponse message packet
  | HConnReply => HandleConnReply message packet
  | HConn2Request => HandleConn2Request message packet
  | HConn2Response => HandleConn2Response message packet
  | HGetrtRequest => HandleGetrtRequest message packet
  | HGetrtResponse => HandleGetrtResponse message packet
  | HGetrt2Request => HandleGetrt2Request message packet
  | HGetrt2Response => HandleGetrt2Response message packet
  end.

(** A message for a handler whose routing_ptr_ is [b]: a processor of the base
    class follows the pointer, one of the bench asserts that it is set; acks
    and NAT messages do not use it. *)
Definition bench_process (message : RoutingMessage) (packet : xpacket) (b : option Bench)
    : outcome (option Bench) :=
  match bench_processor_of (get msg_type message), b with
  | None, _ | Some (HBase HAck), _ | Some (HBase HNat), _ => Ok b
  | Some (HBase _), None => Fault NullDeref
  | Some _, None => Fault AssertFailed
  | Some h, Some b => '(_, b) ← run_bench_handler h message packet b; Ok (Some b)
  end.

(** ** class MyNodeMgr *)

(** [mgr_transport] is the real port of the started transport, and
    [mgr_nat_transport] that of the second one; [mgr_threads] says that the
    worker threads run. *)
Record MyNodeMgr := mkNodeMgr {
  mgr_table : option Bench;      (* routing_table_ *)
  mgr_routing_ptr : bool;        (* message_handler_.routing_ptr_ is set to it *)
  mgr_transport : option Z;
  mgr_nat_transport : option Z;
  mgr_nat_manager : option NatManager;   (* nat_manager_, NatDetect's alone *)
  mgr_threads : bool;
  mgr_first_node : bool;
  mgr_local_ip : string;
  mgr_local_port : Z;
  mgr_supernode_ip : string;
  mgr_supernode_port : Z;
  mgr_real_local_port : Z }.

#[export] Instance MyNodeMgr_eta : Eta MyNodeMgr := fun r =>
  mkNodeMgr (mgr_table r) (mgr_routing_ptr r) (mgr_transport r) (mgr_nat_transport r)
    (mgr_nat_manager r) (mgr_threads r) (mgr_first_node r) (mgr_local_ip r) (mgr_local_port r) (mgr_supernode_ip r) (mgr_supernode_port r)
    (mgr_real_local_port r).

Definition MyNodeMgr_new : MyNodeMgr :=
  mkNodeMgr None false None None None false false "" 0 "" 0 0.

(** The members read so far stay when a later one is missing. *)
Definition LoadConfig (c : config) (m : MyNodeMgr) : outcome (bool * MyNodeMgr) :=
  match cfg_bool c "node" "first_node" with
  | None => Ok (false, m)
  | Some first =>
      let m := m <| mgr_first_node := first |> in
      match cfg_string c "node" "local_ip" with
      | None => Ok (false, m)
      | Some ip =>
          let m := m <| mgr_local_ip := ip |> in
          match cfg_u16 c "node" "local_port" with
          | None => Ok (false, m)
          | Some port =>
              let m := m <| mgr_local_port := port |> in
              match cfg_string c "node" "public_endpoints" with
              | None => Ok (false, m)
              | Some peer =>
                  match endpoints_in_order (ParseEndpoints peer) with
                  | [] => Fault AssertFailed
                  | (ip, port) :: _ =>
                      Ok (true, m <| mgr_supernode_ip := ip |> <| mgr_supernode_port := port |>)
                  end
              end
          end
      end
  end.

(** What Init meets outside: the answer and port of UdpTransport::Start, the
    key made from a random text, the NAT manager's answer, the random score,
    the process's singletons and the rest of the World a new table starts in. *)
Record surroundings := mkSurroundings {
  su_start : option Z;
  su_key : KadmliaKey;
  su_nat : bool * Z;
  su_random : Z;
  su_score : Z;
  su_seed : Z;
  su_gxid : option KadmliaKey;
  su_clients : ClientNodeManager.t;
  su_msg_id : Z;
  su_now : Z;
  su_send_result : nat -> Z;
  su_draws : nat -> Z;
  su_commands : BenchCommand bench_command;
  su_files : gmap string string;
  su_time : Z }.

#[export] Instance surroundings_eta : Eta surroundings := fun r =>
  mkSurroundings (su_start r) (su_key r) (su_nat r) (su_random r) (su_score r) (su_seed r)
    (su_gxid r) (su_clients r) (su_msg_id r) (su_now r) (su_send_result r) (su_draws r)
    (su_commands r) (su_files r) (su_time r).

(** The routing table of Init, before its own Init. *)
Definition new_table (l : LocalNodeInfo) (port : Z) (s : surroundings) : Bench :=
  MyRoutingTable_new
    (RoutingTable_new (Some port) (Some l) (su_gxid s) (su_clients s) (su_msg_id s) (su_now s)
       (su_send_result s) (su_draws s))
    (su_commands s) (su_files s) (su_time s).

Definition MyNodeMgr_Init (c : config) (s : surroundings) (m : MyNodeMgr)
    : outcome (bool * MyNodeMgr) :=
  '(ok, m) ← LoadConfig c m;
  if negb ok then Ok (false, m)
  else
    let m := m <| mgr_threads := true |> in
    match su_start s with
    | None => Ok (false, m)
    | Some port =>
        let m := m <| mgr_transport := Some port |> <| mgr_real_local_port := port |> in
        '(ok, l) ← LocalNodeInfo_Init (mgr_local_ip m) (mgr_local_port m) (mgr_first_node m) false ""
                     (Some (su_key s)) (key_xnetwork_id (su_key s)) kRoleInvalid (su_nat s)
                     (su_random s) (su_gxid s) (LocalNodeInfo_new (su_score s));
        if negb ok then Ok (false, m)
        else
          let l := l <| ln_service_type := kRoot |> in
          '(ok, b) ← Init (su_seed s) (mgr_supernode_ip m) (mgr_supernode_port m) (new_table l port s);
          let m := m <| mgr_table := Some b |> in
          if negb ok then Ok (false, m) else Ok (true, m <| mgr_routing_ptr := true |>)
    end.

(** Nothing calls it: Init has the call commented out. [nat_start] answers the
    second transport's Start, [others] is as in NatManager::Start, and [nm] is
    the process's NatManager. *)
Definition MyNodeMgr_NatDetect (others : N unit) (nat_start : option Z) (nm : NatManager)
    (m : MyNodeMgr) : outcome (bool * MyNodeMgr) :=
  match nat_start with
  | None => Ok (false, m)
  | Some port =>
      let m := m <| mgr_nat_transport := Some port |> in
      '(ok, nm) ← NatManager_Start others (mgr_first_node m)
                    {[ (mgr_supernode_ip m, mgr_supernode_port m) ]}
                    ((fun p => (mgr_local_ip m, p)) <$> mgr_transport m)
                    (Some (mgr_local_ip m, port)) nm;
      Ok (ok, m <| mgr_nat_manager := Some nm |>)
  end.

(** [rounds] as in RoutingTable::MultiJoin. *)
Definition JoinRt (rounds : list (M unit)) (m : MyNodeMgr) : outcome (bool * MyNodeMgr) :=
  match mgr_table m with
  | None => Fault NullDeref
  | Some b =>
      '((ret, _), b) ← table (MultiJoin rounds {[ (mgr_supernode_ip m, mgr_supernode_port m) ]}) b;
      Ok (ret =? kKadSuccess, m <| mgr_table := Some b |>)
  end.

Definition RealLocalPort (m : MyNodeMgr) : Z := mgr_real_local_port m.

(** A message from the worker threads. *)
Definition MyNodeMgr_HandleMessage (message : RoutingMessage) (packet : xpacket) (m : MyNodeMgr)
    : outcome MyNodeMgr :=
  b ← bench_process message packet (if mgr_routing_ptr m then mgr_table m else None);
  Ok (match b with Some b => m <| mgr_table := Some b |> | None => m end).

(** The destructor: the NAT transport and manager, the transport, the threads,
    then the table. *)
Definition MyNodeMgr_destroy (m : MyNodeMgr) : outcome MyNodeMgr :=
  let m := m <| mgr_nat_transport := None |> in
  m ← match mgr_nat_manager m with
      | None => Ok m
      | Some nm => '(_, nm) ← NatManager_Stop nm; Ok (m <| mgr_nat_manager := Some nm |>)
      end;
  let m := m <| mgr_transport := None |> <| mgr_threads := false |> in
  match mgr_table m with
  | None => Ok m
  | Some b => '(_, b) ← table UnInit b; Ok (m <| mgr_table := Some b |>)
  end.

(** ** main.cc *)

Context `{!ConfigSet} `{ArgsParser}.

(** The defaults of main, before the arguments; what Set answers is ignored. *)
Definition main_config (log_level : Z) (c : config) : config :=
  let set o c := default c (o c) in
  let c := set (Set_bool "node" "first_node" true) c in
  let c := set (Set_bool "node" "show_cmd" true) c in
  let c := set (Set_string "node" "local_ip" "127.0.0.1") c in
  let c := set (Set_int "node" "local_port" 0) c in
  let c := set (Set_string "node" "public_endpoints" "127.0.0.1:0") c in
  let c := set (Set_string "node" "log_path" "./xkad_bench.log") c in
  let c := set (Set_int "node" "log_level" log_level) c in
  set (Set_int "node" "zone_id" 1) c.

(** The answer of main when it ends early, or the node that runs. *)
Inductive started_bench :=
  | Ended (code : Z)
  | Running (m : MyNodeMgr).

(** From the configuration to a running node. *)
Definition start_node (c : config) (s : surroundings) (rounds : list (M unit))
    : outcome started_bench :=
  match cfg_bool c "node" "first_node", cfg_bool c "node" "show_cmd" with
  | Some first_node, Some show_cmd =>
      let s := s <| su_commands ::= BenchCommand_Init show_cmd |> in
      '(ok, m) ← MyNodeMgr_Init c s MyNodeMgr_new;
      if negb ok then Ok (Ended 1)
      else if first_node then Ok (Running m)
      else
        '(joined, m) ← JoinRt rounds m;
        if negb joined then Ok (Ended 1) else Ok (Running m)
  | _, _ => Fault AssertFailed
  end.

(** main up to BenchCommand::Run; [g] are the globals of the file, [c] is the
    configuration as it is constructed. *)
Definition bench_main (argv : list string) (log_level : Z) (c : config) (g : globals)
    (s : surroundings) (rounds : list (M unit)) : outcome started_bench :=
  match HandleParamsAndConfig argv (main_config log_level c) with
  | Exits code => Ok (Ended code)
  | Returns false _ => Ok (Ended 1)
  | Returns true c =>
      match cfg_string c "node" "log_path", cfg_int c "node" "log_level" with
      | Some _, Some _ =>
          '(ok, g) ← CreateGlobalXid c g;
          if negb ok then Fault AssertFailed
          else start_node c (s <| su_gxid := global_xid g |>) rounds
      | _, _ => Fault AssertFailed
      end
  end.

(** The console of a running node: nothing ends the loop but a fault. *)
Definition run_console (n fuel : nat) (input : list string) (o : others) (m : MyNodeMgr)
    : outcome (list string * others * MyNodeMgr) :=
  match mgr_table m with
  | None => Fault NullDeref
  | Some b =>
      '(rest, b) ← Run n fuel input o b;
      Ok (rest, m <| mgr_table := Some b |>)
  end.

End handler.
