(* ===== verification/BenchProps.v ===== *)
(** What the bench program's measurements mean: the statistics of the conn2
    probes, the save and load of the known nodes, and where the program fails;
    and what a turn of the console does. *)

From S2P Require Import Prelude Externals Messages Distance Sorting NodeInfo LocalNodeInfo.
From S2P Require Import ClientNodes BootstrapCache World RoutingTable TableFacts TableProps.
From S2P Require Import Sending SendProps NodeDetection RoutingHandlers RoutingJoin Frames Robust.
From S2P Require Import HandlerProps BenchText BenchMessages BenchCommand BenchTable.
Import MyRoutingTable.

Section conn2.
Context `{Xbase} `{KadKey} `{Xip} `{PartialSort} `{Wire} `{Bloom} `{Endpoints} `{Config}.
Context `{StrFmt} `{BenchWire} `{MessageTypes}.
Implicit Types (b : Bench) (w : World).

(** ** Calls of the base class *)

Lemma set_table_same b : b <| b_table := b_table b |> = b.
Proof. by destruct b. Qed.

Lemma table_step {A} (m : M A) b a w :
  m (b_table b) = Ok (a, w) -> table m b = Ok (a, b <| b_table := w |>).
Proof. intros E. unfold table. by rewrite E. Qed.

Lemma table_at {A} (m : M A) b w a w' :
  m w = Ok (a, w') -> table m (b <| b_table := w |>) = Ok (a, b <| b_table := w' |>).
Proof. intros E. unfold table. cbn [b_table upd]. by rewrite E. Qed.

Lemma table_reads {A} (m : M A) b a : m (b_table b) = Ok (a, b_table b) -> table m b = Ok (a, b).
Proof. intros E. by rewrite (table_step _ _ _ _ E), set_table_same. Qed.

Lemma IsDestination_self lid w check :
  local_id w = Ok (lid, w) -> IsDestination lid check w = Ok (true, w).
Proof.
  intros Hl. unfold IsDestination. rewrite (step_bind _ _ _ _ _ Hl). by rewrite String.eqb_refl.
Qed.

(** ** One answer *)

(** A conn2 answer that ends at [lid]: addressed to it, or sent to it directly. *)
Definition answers (lid : string) (message : RoutingMessage) (res : TestConn2Response) : Prop :=
  ParseFromString (get msg_data message) = Some res /\
  (get tc2res_send_or_relay res = true \/ get msg_des_node_id message = lid).

(** The hops of the round trip and its milliseconds, received at [now]. *)
Definition answer_hops (message : RoutingMessage) (res : TestConn2Response) : Z :=
  get msg_hop_num message + i32 (get tc2res_hops1 res).
Definition answer_td (now : Z) (res : TestConn2Response) : Z :=
  Z.quot now (10 ^ 6) - get tc2res_tp1 res.

(** The sums of the handler do not overflow. *)
Definition in_range (now : Z) (message : RoutingMessage) (res : TestConn2Response) : Prop :=
  fits 32 (answer_hops message res) /\ fits 64 (answer_td now res).

Lemma HandleConn2Response_spec lid message packet res b :
  local_id (b_table b) = Ok (lid, b_table b) -> answers lid message res ->
  in_range (w_now (b_table b)) message res ->
  HandleConn2Response message packet b =
    count_response (get msg_src_node_id message) (answer_hops message res)
      (answer_td (w_now (b_table b)) res) b.
Proof.
  intros Hl [Hp Hd] [Hh Ht]. unfold HandleConn2Response. rewrite Hp.
  rewrite (step_bind _ _ _ _ _ (table_reads _ _ _ Hl)).
  assert (get msg_des_node_id (if get tc2res_send_or_relay res
    then message <| msg_des_node_id := Some lid |> else message) = lid) as E.
  { destruct Hd as [Hd| <-]; [by rewrite Hd|]. by destruct (get tc2res_send_or_relay res). }
  rewrite E, (step_bind _ _ _ _ _ (table_reads _ _ _ (IsDestination_self lid _ true Hl))).
  cbn [negb]. rewrite String.eqb_refl. cbn [negb]. unfold GetSteadyTimepoint. mstep.
  assert (get msg_hop_num (if get tc2res_send_or_relay res
    then message <| msg_des_node_id := Some lid |> else message) = get msg_hop_num message /\
    get msg_src_node_id (if get tc2res_send_or_relay res
    then message <| msg_des_node_id := Some lid |> else message) = get msg_src_node_id message)
    as [-> ->] by (by destruct (get tc2res_send_or_relay res)).
  fold (answer_hops message res). rewrite (signed_fits _ _ Hh). mstep.
  change (Z.quot _ _ - _) with (answer_td (w_now (b_table b)) res).
  rewrite (signed_fits _ _ Ht). by mstep.
Qed.

(** ** Many answers *)

(** An answer as the statistics see it. *)
Record sample := mkSample { s_src : string; s_hops : Z; s_td : Z }.

Definition summed (td : Z) (node : option ptr) (h : NodeHops) : NodeHops :=
  h <| nh_total ::= fun t => t + td |> <| nh_max := Z.max td (nh_max h) |>
    <| nh_min := Z.min td (nh_min h) |> <| nh_nodes ::= fun l => l ++ [node] |>.

(** What an answer does when the sum of the round trips does not overflow. *)
Definition count_sample b (s : sample) : Bench :=
  let node_search := default NodeSearch_new (search_map_ b !! s_src s) in
  if 0 <=? s_td s then
    b <| search_map_ ::= <[s_src s := node_search <| ns_found := true |>]> |>
      <| hops_map_ ::= <[s_hops s := summed (s_td s) (ns_node node_search)
                                       (default NodeHops_new (hops_map_ b !! s_hops s))]> |>
  else b <| search_map_ ::= <[s_src s := node_search]> |>.
Definition count_samples (ss : list sample) b : Bench := foldl count_sample b ss.

(** A sample that counts: not from the future. *)
Definition counts (s : sample) : Prop := 0 <= s_td s.
Definition tds (k : Z) (ss : list sample) : list Z :=
  s_td <$> filter (fun s => s_hops s = k /\ 0 <= s_td s) ss.

Definition zsum (l : list Z) : Z := foldr Z.add 0 l.
Definition zmax (l : list Z) : Z := foldr Z.max (-1) l.
Definition zmin (l : list Z) : Z := foldr Z.min 9999 l.

Lemma zsum_app l l' : zsum (l ++ l') = zsum l + zsum l'.
Proof. induction l as [|x l IH]; simpl; lia. Qed.
Lemma zmax_snoc l x : zmax (l ++ [x]) = Z.max x (zmax l).
Proof. induction l as [|y l IH]; simpl; [lia|]. unfold zmax in *. rewrite IH. lia. Qed.
Lemma zmin_snoc l x : zmin (l ++ [x]) = Z.min x (zmin l).
Proof. induction l as [|y l IH]; simpl; [lia|]. unfold zmin in *. rewrite IH. lia. Qed.

Lemma tds_nonneg k ss : 0 <= zsum (tds k ss).
Proof.
  unfold tds, zsum. induction ss as [|s ss IH]; [done|]. rewrite filter_cons.
  case_decide; [rewrite fmap_cons; cbn [foldr]|]; lia.
Qed.

Lemma tds_snoc k ss s :
  tds k (ss ++ [s]) = tds k ss ++ (if decide (s_hops s = k /\ 0 <= s_td s) then [s_td s] else []).
Proof. unfold tds. rewrite filter_app, fmap_app, filter_cons, filter_nil. by case_decide. Qed.

Lemma count_samples_snoc ss s b : count_samples (ss ++ [s]) b = count_sample (count_samples ss b) s.
Proof. unfold count_samples. by rewrite foldl_app. Qed.

(** Entry [h] of hops_map_ sums up the round trips [l]. *)
Definition sums_up (h : NodeHops) (l : list Z) : Prop :=
  nh_total h = zsum l /\ nh_max h = zmax l /\ nh_min h = zmin l /\
  length (nh_nodes h) = length l.

Lemma sums_up_count td node h l :
  sums_up h l -> sums_up (summed td node h) (l ++ [td]).
Proof.
  intros (H1' & H2' & H3' & H4'). unfold sums_up, summed.
  cbn [nh_total nh_max nh_min nh_nodes upd].
  rewrite zsum_app, zmax_snoc, zmin_snoc, !length_app. repeat split; cbn.
  - rewrite H1'. lia.
  - by rewrite H2'.
  - by rewrite H3'.
  - by rewrite H4'.
Qed.

Lemma count_samples_hops ss b k :
  hops_map_ b = ∅ ->
  sums_up (default NodeHops_new (hops_map_ (count_samples ss b) !! k)) (tds k ss) /\
  (is_Some (hops_map_ (count_samples ss b) !! k) <-> tds k ss <> []).
Proof.
  intros Hb. induction ss as [|s ss IH] using rev_ind.
  { cbn. rewrite Hb, lookup_empty. split; [done|]. split; [by intros []|done]. }
  rewrite count_samples_snoc. rewrite tds_snoc in *. unfold count_sample.
  destruct (Z.leb_spec 0 (s_td s)) as [Hs|Hs]; cbn.
  - destruct (decide (s_hops s = k)) as [<-|Hk].
    + rewrite decide_True by done. destruct IH as [IH _]. rewrite lookup_insert_eq. cbn. split.
      * by apply sums_up_count.
      * split; [intros _; by destruct (tds _ ss)|by eexists].
    + rewrite decide_False by tauto. by rewrite lookup_insert_ne, app_nil_r by done.
  - rewrite decide_False by lia. by rewrite app_nil_r.
Qed.

Lemma count_samples_search ss b i :
  let m := search_map_ b in let m' := search_map_ (count_samples ss b) in
  ns_node (default NodeSearch_new (m' !! i)) = ns_node (default NodeSearch_new (m !! i)) /\
  (ns_found (default NodeSearch_new (m' !! i)) = true <->
     ns_found (default NodeSearch_new (m !! i)) = true \/ exists s, s ∈ ss /\ s_src s = i /\ counts s) /\
  (is_Some (m' !! i) <-> is_Some (m !! i) \/ exists s, s ∈ ss /\ s_src s = i).
Proof.
  intros m. induction ss as [|s ss IH] using rev_ind.
  { cbn. split; [done|]. split; (split; [by left|]); intros [|(s & Hs%elem_of_nil & _)]; done. }
  cbv zeta in *. rewrite count_samples_snoc. set (b1 := count_samples ss b) in *.
  destruct IH as (I1 & I2 & I3).
  assert (search_map_ (count_sample b1 s) =
    <[s_src s := mkNodeSearch (if 0 <=? s_td s then true
                               else ns_found (default NodeSearch_new (search_map_ b1 !! s_src s)))
                              (ns_node (default NodeSearch_new (search_map_ b1 !! s_src s)))]>
      (search_map_ b1)) as E.
  { unfold count_sample. destruct (0 <=? s_td s); cbn; [done|].
    by destruct (default NodeSearch_new (search_map_ b1 !! s_src s)). }
  rewrite E. clear E. clearbody b1. setoid_rewrite elem_of_app. setoid_rewrite list_elem_of_singleton.
  destruct (decide (s_src s = i)) as [<-|Hi].
  - rewrite lookup_insert_eq. cbn. split; [done|]. unfold counts. split.
    + destruct (Z.leb_spec 0 (s_td s)).
      * split; [intros _; right; exists s; eauto|done].
      * rewrite I2. split; [intros [?|(s' & ? & ? & ?)]; [by left|right; exists s'; eauto]|].
        intros [?|(s' & [Hs'| ->] & ? & ?)]; [by left|right; by exists s'|lia].
    + split; [intros _; right; exists s; eauto|by eexists].
  - rewrite lookup_insert_ne by done. split; [done|]. split.
    + rewrite I2. clear -Hi. naive_solver.
    + rewrite I3. clear -Hi. naive_solver.
Qed.
(** ** A round of conn2 *)

(** While answers come in, time passes. *)
Inductive event :=
  | ETime (now : Z)
  | EAnswer (message : RoutingMessage) (packet : xpacket).

Definition happens (e : event) : B unit :=
  match e with
  | ETime now => table (modify (fun w => w <| w_now := now |>))
  | EAnswer message packet => HandleConn2Response message packet
  end.

(** [sampled lid now es ss]: the answers of [es] all end at [lid], and [ss] is
    what the statistics see of them when the clock starts at [now]. *)
Inductive sampled (lid : string) : Z -> list event -> list sample -> Prop :=
  | sampled_nil now : sampled lid now [] []
  | sampled_time now now' es ss :
      sampled lid now' es ss -> sampled lid now (ETime now' :: es) ss
  | sampled_answer now message packet res es ss :
      answers lid message res -> in_range now message res -> sampled lid now es ss ->
      sampled lid now (EAnswer message packet :: es)
        (mkSample (get msg_src_node_id message) (answer_hops message res) (answer_td now res) :: ss).

(** Two benches with the same statistics. *)
Definition same_statistics b b' : Prop :=
  search_map_ b' = search_map_ b /\ hops_map_ b' = hops_map_ b.

Lemma count_samples_statistics ss b b' :
  same_statistics b b' -> same_statistics (count_samples ss b) (count_samples ss b').
Proof.
  revert b b'. induction ss as [|s ss IH]; intros b b' Hb; [done|]. cbn. apply IH.
  destruct Hb as [E1 E2]. unfold count_sample, same_statistics.
  rewrite E1. destruct (0 <=? s_td s); cbn; by rewrite E1, E2.
Qed.

Lemma local_id_time lid w now :
  local_id w = Ok (lid, w) -> local_id (w <| w_now := now |>) = Ok (lid, w <| w_now := now |>).
Proof.
  unfold local_id, local. rewrite !step_assoc, !step_gets. cbn [local_node_ptr_ upd].
  destruct (local_node_ptr_ w) as [l|]; [|done]. msteps. unfold lift.
  destruct (LocalNodeInfo_id l); [by intros [= ->]|done].
Qed.

Lemma count_response_runs src hops td b :
  (0 <= td -> fits 64 (nh_total (default NodeHops_new (hops_map_ b !! hops)) + td)) ->
  count_response src hops td b = Ok (tt, count_sample b (mkSample src hops td)).
Proof.
  intros Hf. unfold count_response, count_sample, count_hop. mstep. cbn [s_src s_hops s_td].
  destruct (Z.leb_spec 0 td) as [Htd|Htd].
  - rewrite (signed_fits _ _ (Hf Htd)). reflexivity.
  - done.
Qed.

(** The sum of the round trips of [k] hops. *)
Definition total_of b (k : Z) : Z := nh_total (default NodeHops_new (hops_map_ b !! k)).

Lemma total_sample b s k :
  total_of (count_sample b s) k =
    total_of b k + (if decide (s_hops s = k /\ 0 <= s_td s) then s_td s else 0).
Proof.
  unfold total_of, count_sample. destruct (Z.leb_spec 0 (s_td s)); cbn [hops_map_ upd].
  - destruct (decide (s_hops s = k)) as [<-|Hk].
    + by rewrite decide_True, lookup_insert_eq.
    + rewrite decide_False, lookup_insert_ne by tauto. lia.
  - rewrite decide_False by lia. cbn. lia.
Qed.

Lemma zsum_tds_cons k s ss :
  zsum (tds k (s :: ss)) = (if decide (s_hops s = k /\ 0 <= s_td s) then s_td s else 0) + zsum (tds k ss).
Proof. unfold tds. rewrite filter_cons. by case_decide. Qed.

(** The sums stay below the range of their type. *)
Definition sums_below b ss : Prop := forall k, 0 <= total_of b k /\ total_of b k + zsum (tds k ss) < 2 ^ 63.

Lemma sums_below_step b s ss :
  sums_below b (s :: ss) ->
  (0 <= s_td s -> fits 64 (total_of b (s_hops s) + s_td s)) /\ sums_below (count_sample b s) ss.
Proof.
  intros Hb. split.
  - intros Htd. specialize (Hb (s_hops s)). rewrite zsum_tds_cons, decide_True in Hb by done.
    pose proof (tds_nonneg (s_hops s) ss). unfold fits. cbn. lia.
  - intros k. rewrite total_sample. specialize (Hb k). rewrite zsum_tds_cons in Hb. case_decide; lia.
Qed.

Lemma events_run lid es ss b :
  local_id (b_table b) = Ok (lid, b_table b) -> sampled lid (w_now (b_table b)) es ss ->
  sums_below b ss ->
  exists b', for_each es happens b = Ok (tt, b') /\ same_statistics (count_samples ss b) b' /\
    local_id (b_table b') = Ok (lid, b_table b') /\ w_heap (b_table b') = w_heap (b_table b) /\
    all_nodes_ b' = all_nodes_ b /\ last_not_found_map_ b' = last_not_found_map_ b.
Proof.
  intros Hl Hs. remember (w_now (b_table b)) as now eqn:En. revert b Hl En.
  induction Hs as [now|now now' es ss Hs IH|now message packet res es ss Ha Hr Hs IH]; intros b Hl En Hb.
  - by exists b.
  - set (b1 := b <| b_table := (b_table b) <| w_now := now' |> |>).
    destruct (IH b1) as (b' & E & Hst & Hl' & Eh & Ea & El); [by apply local_id_time|done|done|].
    exists b'. split; [done|]. split; [|done].
    destruct (count_samples_statistics ss b b1) as [S1 S2]; [done|].
    destruct Hst as [S3 S4]. split; congruence.
  - apply sums_below_step in Hb as [Hf Hb]. cbn [for_each happens]. rewrite En in Hr, Hf, Hb.
    pose proof (HandleConn2Response_spec lid message packet res b Hl Ha Hr) as E0.
    rewrite (count_response_runs _ _ _ _ Hf) in E0. rewrite (step_bind _ _ _ _ _ E0).
    match goal with |- context [for_each es happens ?b0] => set (b1 := b0) in * end.
    assert (b_table b1 = b_table b /\ all_nodes_ b1 = all_nodes_ b /\
            last_not_found_map_ b1 = last_not_found_map_ b) as (Et & Ea & El).
    { unfold b1, count_sample. by destruct (0 <=? _). }
    destruct (IH b1) as (b' & E & Hst & Hl' & Eh & Ea' & El'); [by rewrite Et|by rewrite Et|done|].
    exists b'. rewrite Eh, Ea', El', Et, Ea, El. rewrite En. done.
Qed.

(** The map ClearQuery builds. *)
Lemma fresh_search (f : ptr -> string) (l : list ptr) i :
  NoDup (f <$> l) ->
  foldl (fun m p => <[f p := mkNodeSearch false (Some p)]> m) (∅ : gmap string NodeSearch) l !! i =
    (fun p => mkNodeSearch false (Some p)) <$> List.find (fun p => (f p =? i)%string) l.
Proof.
  induction l as [|p l IH] using rev_ind; intros Hn; [done|].
  rewrite fmap_app in Hn. apply NoDup_app in Hn as (Hn & Hp & _).
  rewrite foldl_app. cbn [foldl]. specialize (IH Hn).
  destruct (String.eqb_spec (f p) i) as [<-|Hne].
  - rewrite lookup_insert_eq. assert (List.find (fun q => (f q =? f p)%string) l = None) as E.
    { destruct (List.find _ l) as [q|] eqn:Eq; [|done]. apply List.find_some in Eq as [Hq Eq].
      bool_props. apply list_elem_of_In in Hq. destruct (Hp (f q)).
      - apply list_elem_of_fmap. by exists q.
      - rewrite Eq. by apply list_elem_of_singleton. }
    clear IH Hn Hp. induction l as [|q l IH]; cbn in *; [by rewrite String.eqb_refl|].
    destruct (f q =? f p)%string; [done|]. by apply IH.
  - rewrite lookup_insert_ne, IH by done. clear IH Hn Hp.
    induction l as [|q l IH]; cbn; [by rewrite (proj2 (String.eqb_neq _ _) Hne)|].
    by destruct (f q =? i)%string.
Qed.

Lemma elem_of_not_found b o :
  o ∈ (fun kv => ns_node kv.2) <$>
        List.filter (fun kv => negb (ns_found kv.2)) (entries_by string_ltb (search_map_ b)) <->
  exists i n, search_map_ b !! i = Some n /\ ns_found n = false /\ ns_node n = o.
Proof.
  rewrite list_elem_of_fmap. split.
  - intros ([i n] & -> & Hin). apply list_elem_of_In, List.filter_In in Hin as [Hin Hf].
    apply list_elem_of_In, elem_of_entries in Hin. cbn in *. bool_props. by exists i, n.
  - intros (i & n & Hi & Hf & <-). exists (i, n). split; [done|].
    apply list_elem_of_In, List.filter_In. cbn. rewrite Hf. split; [|done].
    apply list_elem_of_In. by apply elem_of_entries.
Qed.

Lemma find_id_some (f : ptr -> string) (l : list ptr) i p :
  NoDup (f <$> l) ->
  List.find (fun q => (f q =? i)%string) l = Some p <-> p ∈ l /\ f p = i.
Proof.
  intros Hn. split.
  - intros [Hp E]%List.find_some. bool_props. split; [by apply list_elem_of_In|done].
  - intros [Hp <-]. induction l as [|q l IH]; [by apply elem_of_nil in Hp|].
    apply NoDup_cons in Hn as [Hq Hn]. cbn. apply elem_of_cons in Hp as [<-|Hp].
    + by rewrite String.eqb_refl.
    + destruct (String.eqb_spec (f q) (f p)) as [E|_]; [|auto].
      destruct Hq. apply list_elem_of_fmap. by exists p.
Qed.

Lemma find_id_none (f : ptr -> string) (l : list ptr) i :
  List.find (fun q => (f q =? i)%string) l = None <-> i ∉ f <$> l.
Proof.
  split.
  - intros Hf (p & -> & Hp)%list_elem_of_fmap.
    apply list_elem_of_In in Hp. pose proof (List.find_none _ _ Hf p Hp) as E.
    cbv beta in E. by rewrite String.eqb_refl in E.
  - intros Hi. destruct (List.find _ l) as [p|] eqn:E; [|done].
    apply List.find_some in E as [Hp E]. bool_props. destruct Hi. apply list_elem_of_fmap.
    exists p. split; [done|by apply list_elem_of_In].
Qed.

(** The nodes that a query after the samples [ss] lists as not found. *)
Lemma not_found_after (f : ptr -> string) (l : list ptr) ss b o :
  NoDup (f <$> l) ->
  search_map_ b = foldl (fun m p => <[f p := mkNodeSearch false (Some p)]> m) ∅ l ->
  (exists i n, search_map_ (count_samples ss b) !! i = Some n /\ ns_found n = false /\ ns_node n = o) <->
  match o with
  | Some p => p ∈ l /\ ~ (exists s, s ∈ ss /\ s_src s = f p /\ counts s)
  | None => exists s, s ∈ ss /\ s_src s ∉ f <$> l /\
              ~ (exists s', s' ∈ ss /\ s_src s' = s_src s /\ counts s')
  end.
Proof.
  intros Hn Hb.
  assert (forall i, search_map_ b !! i =
    (fun p => mkNodeSearch false (Some p)) <$> List.find (fun p => (f p =? i)%string) l) as Hi
    by (intros i; rewrite Hb; by apply fresh_search). clear Hb.
  split.
  - intros (i & n & En & Hf & Ho). destruct (count_samples_search ss b i) as (I1 & I2 & I3).
    rewrite En in I1, I2, I3. cbn in I1, I2. rewrite Hi in I1, I2, I3.
    destruct (List.find _ l) as [p|] eqn:E; cbn in I1, I2, I3; rewrite <- Ho, I1.
    + apply find_id_some in E as [Hp <-]; [|done]. split; [done|]. intros Hs. naive_solver congruence.
    + apply find_id_none in E.
      destruct (proj1 I3 ltac:(by eexists)) as [[? ?]|(s & Hs & <-)]; [done|].
      exists s. split; [done|]. split; [done|]. intros Hs'. naive_solver congruence.
  - intros Ho. destruct o as [p|].
    + destruct Ho as [Hp Hs]. destruct (count_samples_search ss b (f p)) as (I1 & I2 & I3).
      rewrite Hi, (proj2 (find_id_some f l (f p) p Hn) (conj Hp eq_refl)) in I1, I2, I3.
      cbn in I1, I2, I3. destruct (proj2 I3 ltac:(by left; eexists)) as [n En].
      rewrite En in I1, I2. cbn in I1, I2. exists (f p), n. split; [done|]. split; [|done].
      destruct (ns_found n); [|done]. destruct (proj1 I2 eq_refl); done.
    + destruct Ho as (s & Hs & Hl & Hc). destruct (count_samples_search ss b (s_src s)) as (I1 & I2 & I3).
      rewrite Hi, (proj2 (find_id_none f l (s_src s)) Hl) in I1, I2, I3.
      cbn in I1, I2, I3. destruct (proj2 I3 ltac:(right; by exists s)) as [n En].
      rewrite En in I1, I2. cbn in I1, I2. exists (s_src s), n. split; [done|]. split; [|done].
      destruct (ns_found n); [|done]. destruct (proj1 I2 eq_refl); done.
Qed.

(** C35: A round of conn2: after ClearQuery and any answers to the probes, mixed
    with the passing of time, whose sums do not overflow, hops_map_ holds, for
    exactly the hop counts that occurred, the number, the sum and the maximum
    of the round trips that are not negative, and the smaller of their minimum
    and the initial 9999. A query lists as not found exactly the known nodes
    from which no answer came but with a time stamp of the future, and an empty
    pointer exactly when some unknown node sent only answers from the future. *)
Theorem conn2_statistics lid b es ss :
  let id p := node_id (obj_of (b_table b) p) in
  local_id (b_table b) = Ok (lid, b_table b) -> NoDup (id <$> all_nodes_ b) ->
  sampled lid (w_now (b_table b)) es ss -> (forall k, zsum (tds k ss) < 2 ^ 63) ->
  exists b' q, (_ ← ClearQuery; for_each es happens) b = Ok (tt, b') /\ GetQuery b' = Ok (q, b') /\
    (forall k, sums_up (default NodeHops_new (hops_map_ b' !! k)) (tds k ss) /\
       (is_Some (hops_map_ b' !! k) <-> tds k ss <> [])) /\
    (forall p, Some p ∈ q_not_found_nodes q <->
       p ∈ all_nodes_ b /\ ~ (exists s, s ∈ ss /\ s_src s = id p /\ counts s)) /\
    (None ∈ q_not_found_nodes q <->
       exists s, s ∈ ss /\ s_src s ∉ id <$> all_nodes_ b /\
         ~ (exists s', s' ∈ ss /\ s_src s' = s_src s /\ counts s')).
Proof.
  intros id Hl Hn Hs Hsum. unfold ClearQuery. mstep.
  match goal with |- context [for_each es happens ?b0] => set (b1 := b0) end.
  assert (sums_below b1 ss) as Hb by (intros k; unfold total_of; cbn [hops_map_ b1 upd]; specialize (Hsum k);
      change (hops_map_ b1) with (∅ : gmap Z NodeHops); rewrite lookup_empty; cbn; lia).
  destruct (events_run lid es ss b1 Hl Hs Hb) as (b' & E & [S1 S2] & _).
  exists b'. eexists. split; [done|]. split; [done|]. cbn [q_not_found_nodes]. split.
  - intros k. rewrite S2. by apply count_samples_hops.
  - setoid_rewrite elem_of_not_found. rewrite S1.
    split; [intros p|]; by rewrite (not_found_after id (all_nodes_ b)).
Qed.

(** ** A query over an empty pointer *)

Lemma logs_run {A} (f : A -> output) (l : list A) b :
  exists b', for_each l (fun x => modify (fun b => b <| b_out ::= fun o => o ++ [f x] |>)) b = Ok (tt, b').
Proof.
  revert b. induction l as [|x l IH]; intros b; [by exists b|]. cbn [for_each]. mstep. apply IH.
Qed.

Lemma dump_rows_outcome row w m nodes n z ret :
  dump_rows row w m nodes n z ret = Fault NullDeref \/
  exists r, dump_rows row w m nodes n z ret = Ok r.
Proof.
  revert n z ret. induction nodes as [|[p|] nodes IH]; intros n z ret; cbn [dump_rows].
  - right. by eexists.
  - destruct (n <? m); apply IH.
  - destruct (n <? m); [by left|apply IH].
Qed.

Lemma count_dump_outcome format nodes b :
  count_dump format nodes b = Fault NullDeref \/ exists b', count_dump format nodes b = Ok (tt, b').
Proof.
  unfold count_dump, TOP_FATAL, GetDumpNodes, dump_nodes. mstep. rewrite step_assoc. mstep.
  match goal with |- context [dump_rows ?r ?w ?m ?l ?n ?z ?s] =>
    destruct (dump_rows_outcome r w m l n z s) as [E|[[ret z'] E]]; rewrite E end.
  - by left.
  - right. rewrite step_assoc. msteps. unfold cout_line, cout. by eexists.
Qed.

Lemma DumpQuery_empty_pointer q b :
  None ∈ q_not_found_nodes q -> DumpQuery q b = Fault NullDeref.
Proof.
  intros Hq. unfold DumpQuery, TOP_FATAL. mstep.
  match goal with |- (for_each ?l ?f ≫= _) ?b0 = _ =>
    destruct (logs_run (fun hop => OFatal "%s" [FCstr hop]) l b0) as [b1 E1] end.
  rewrite (step_bind _ _ _ _ _ E1).
  destruct (count_dump_outcome "not found(count=%ld):" (q_not_found_nodes q) b1) as [E2|[b2 E2]];
    [by rewrite (step_fault _ _ _ _ E2)|]. rewrite (step_bind _ _ _ _ _ E2).
  assert (forall acc, fold_m (fun acc node => match node with
    | Some p => Ok (acc ++ [p]) | None => Fault NullDeref end) (q_not_found_nodes q) acc
    = (Fault NullDeref : outcome (list ptr))) as Hf.
  { clear -Hq. induction (q_not_found_nodes q) as [|[p|] l IH]; intros acc; [by apply elem_of_nil in Hq| |done].
    cbn [fold_m mbind outcome_bind]. apply IH. by apply elem_of_cons in Hq as [|]. }
  by rewrite Hf.
Qed.

(** C39: An answer from a node the bench did not probe, with a time stamp of the
    future (another boot's steady clock), is remembered without a node; the
    next query follows the empty pointer. *)
Theorem unknown_answer_breaks_query lid b message packet res :
  local_id (b_table b) = Ok (lid, b_table b) -> answers lid message res ->
  in_range (w_now (b_table b)) message res ->
  search_map_ b !! get msg_src_node_id message = None -> answer_td (w_now (b_table b)) res < 0 ->
  exists b', HandleConn2Response message packet b = Ok (tt, b') /\
    OnCommandQuery [] b' = Fault NullDeref.
Proof.
  intros Hl Ha Hr Hm Htd. rewrite (HandleConn2Response_spec lid message packet res b Hl Ha Hr).
  rewrite count_response_runs by lia. eexists. split; [done|]. unfold OnCommandQuery, GetQuery. mstep.
  apply DumpQuery_empty_pointer. cbn [q_not_found_nodes]. apply elem_of_not_found.
  unfold count_sample. cbn [s_td s_src s_hops]. rewrite Hm.
  destruct (Z.leb_spec 0 (answer_td (w_now (b_table b)) res)); [lia|].
  exists (get msg_src_node_id message), NodeSearch_new. cbn. by rewrite lookup_insert_eq.
Qed.

(** ** The console *)

Definition prompted b : Bench :=
  b <| b_out ::= fun o => o ++ [OCout (String newline "Enter command > ")] |>.

(** A turn of a console that is shown runs one line ... *)
Lemma Run_loop_line n fuel cmdline input m o b :
  show_cmd_ (b_commands b) = true ->
  Run_loop (S n) fuel (cmdline :: input) (m :: o) b =
    (_ ← m; o ← console fuel cmdline o; Run_loop n fuel input o) (prompted b).
Proof.
  intros E. cbn [Run_loop]. msteps. rewrite E. cbn [negb]. unfold cout. msteps.
  cbn [during_sleep getline]. rewrite step_assoc. reflexivity.
Qed.

(** ... and turns for ever at the end of the input, ... *)
Lemma Run_loop_end n fuel o b :
  show_cmd_ (b_commands b) = true ->
  Run_loop (S n) fuel [] (mret tt :: o) b = Run_loop n fuel [] o (prompted b).
Proof.
  intros E. cbn [Run_loop]. msteps. rewrite E. cbn [negb]. unfold cout. msteps.
  cbn [during_sleep getline]. unfold console. msteps. unfold ProcessCommand. cbn [str_empty].
  by msteps.
Qed.

(** ... while one that is hidden leaves the input alone. *)
Lemma Run_loop_hidden n fuel input m o b :
  show_cmd_ (b_commands b) = false ->
  Run_loop (S n) fuel input (m :: o) b = (_ ← m; Run_loop n fuel input o) b.
Proof.
  intros E. cbn [Run_loop]. msteps. rewrite E. cbn [negb during_sleep].
  rewrite step_assoc. reflexivity.
Qed.

(** The loop can be cut anywhere. *)
Lemma Run_loop_split n n' fuel input o b :
  Run_loop (n + n') fuel input o b =
    ('(input, o) ← Run_loop n fuel input o; Run_loop n' fuel input o) b.
Proof.
  revert input o b. induction n as [|n IH]; intros input o b; [done|]. cbn [Nat.add Run_loop].
  msteps. destruct (negb _); msteps; unfold mbind, ST_bind.
  - destruct (during_sleep o b) as [[o1 b1]|e]; [|done]. rewrite IH. done.
  - destruct (cout _ b) as [[[] b1]|e]; [|done]. destruct (during_sleep o b1) as [[o2 b2]|e]; [|done].
    destruct (getline input) as [cmdline input1].
    destruct (console fuel cmdline o2 b2) as [[o3 b3]|e]; [|done]. rewrite IH. done.
Qed.

End conn2.

(** ** save and load *)

Section saved.
Context `{Xbase} `{!XbaseLaws} `{KadKey} `{Xip} `{PartialSort} `{!PartialSortLaws} `{Wire} `{Bloom}.
Context `{Endpoints} `{Config} `{StrFmt} `{BenchWire} `{MessageTypes}.
#[local] Set Default Proof Using "Type*".
Implicit Types (b : Bench) (w : World) (n : NodeInfo).

(** What the file format keeps: a well-formed id and ports of 16 bits. *)
Definition is_port (z : Z) : Prop := 0 <= z < 2 ^ 16.
Definition portable n : Prop := id_ok (node_id n) /\ is_port (local_port n) /\ is_port (public_port n).

(** The node's own line. *)
Definition own_data (l : LocalNodeInfo) (id : string) : NodeInfo :=
  (NodeInfo_of_id 0 id) <| local_ip := ln_local_ip l |> <| local_port := ln_local_port l |>
    <| public_ip := ln_public_ip l |> <| public_port := ln_public_port l |>
    <| service_type := ln_service_type l |> <| nat_type := ln_nat_type l |>.

(** The nodes that [b] saves. *)
Definition saves (l : LocalNodeInfo) (id : string) b : list NodeInfo :=
  (obj_of (b_table b) <$> all_nodes_ b) ++ [own_data l id].

Definition of_line (pb : AllNodesNode) n : NodeInfo :=
  n <| local_ip := get an_local_ip pb |> <| local_port := u16 (get an_local_port pb) |>
    <| public_ip := get an_public_ip pb |> <| public_port := u16 (get an_public_port pb) |>
    <| service_type := get an_service_type pb |> <| nat_type := get an_nat_type pb |>.

(** The new node of a line. *)
Definition loaded_node (lid : string) (now : Z) (pb : AllNodesNode) : NodeInfo :=
  (of_line pb (NodeInfo_of_id now (get an_node_id pb)))
    <| bucket_index := bucket_of lid (NodeInfo_of_id now (get an_node_id pb)) |>.

Lemma loaded_node_data lid now n : portable n -> pb_of_node (loaded_node lid now (pb_of_node n)) = pb_of_node n.
Proof.
  intros (_ & Hl & Hp). unfold pb_of_node, loaded_node, is_port in *. cbn.
  unfold get. cbn. unfold u16. by rewrite !Z.mod_small.
Qed.

Lemma set_bucket_fresh k n w :
  set_bucket k (w_next w) (fresh n w) = fresh (n <| bucket_index := k |>) w.
Proof.
  unfold set_bucket, fresh.
  transitivity (w <| w_heap := alter (fun n => n <| bucket_index := k |>) (w_next w)
    (<[w_next w := n]> (w_heap w)) |> <| w_next := Pos.succ (w_next w) |>); [reflexivity|].
  by rewrite alter_insert_eq.
Qed.

Lemma load_other lid n b :
  table_ok lid (b_table b) -> portable n -> node_id n <> lid ->
  let w := b_table b in
  let w' := fresh (loaded_node lid (w_now w) (pb_of_node n)) w in
  load_node (pb_of_node n) b = Ok (tt, b <| b_table := w' |>
    <| all_nodes_ ::= fun l => l ++ [w_next w] |> <| all_nodes_map_ ::= <[node_id n := w_next w]> |>) /\
  table_ok lid w'.
Proof.
  intros Hok (Hid & _) Hne w w'. split; [|by apply fresh_ok].
  unfold load_node. rewrite (step_bind _ _ _ _ _ (table_reads _ _ _ (local_id_ok lid w Hok))).
  change (get an_node_id (pb_of_node n)) with (node_id n).
  rewrite (proj2 (String.eqb_neq _ _) Hne).
  rewrite (step_bind _ _ _ _ _ (table_step _ _ _ _ (new_NodeInfo_spec _ _ _))).
  set (n1 := of_line (pb_of_node n) (NodeInfo_of_id (w_now w) (node_id n))).
  match goal with |- (_ ≫= _) ?b0 = _ => change b0 with (b <| b_table := fresh n1 w |>) end.
  assert (SetNodeBucket (w_next w) (fresh n1 w) = Ok (kKadSuccess, w')) as E.
  { pose proof (SetNodeBucket_spec lid (fresh n1 w) (w_next w) (fresh_ok lid n1 w Hok)) as E.
    rewrite set_bucket_fresh, fresh_obj in E. by apply E. }
  etransitivity; [exact (step_bind _ _ _ _ _ (table_at _ b _ _ _ E))|].
  etransitivity; [exact (step_bind _ _ _ _ _ (table_at (obj (w_next w)) b w' _ w' eq_refl))|].
  unfold w'. by rewrite fresh_obj.
Qed.

Lemma load_self lid n b :
  table_ok lid (b_table b) -> node_id n = lid -> load_node (pb_of_node n) b = Ok (tt, b).
Proof.
  intros Hok <-. unfold load_node.
  rewrite (step_bind _ _ _ _ _ (table_reads _ _ _ (local_id_ok _ _ Hok))).
  change (get an_node_id (pb_of_node n)) with (node_id n). by rewrite String.eqb_refl.
Qed.

(** The lines of the nodes that a bench has loaded. *)
Definition known_lines b : list AllNodesNode := (fun p => pb_of_node (obj_of (b_table b) p)) <$> all_nodes_ b.

(** What a load leaves: objects allocated in order, older objects as they were. *)
Record loads (lid : string) b b' : Prop := {
  ld_ok : table_ok lid (b_table b');
  ld_next : (w_next (b_table b) <= w_next (b_table b'))%positive;
  ld_old p : (p < w_next (b_table b))%positive -> obj_of (b_table b') p = obj_of (b_table b) p;
  ld_nodes : nodes_ (b_table b') = nodes_ (b_table b);
  ld_new : NoDup (all_nodes_ b') /\ Forall (fun p => p < w_next (b_table b'))%positive (all_nodes_ b') }.

Lemma loads_lines lid (ns : list NodeInfo) b :
  table_ok lid (b_table b) -> Forall portable ns ->
  NoDup (all_nodes_ b) -> Forall (fun p => p < w_next (b_table b))%positive (all_nodes_ b) ->
  exists b', for_each (pb_of_node <$> ns) load_node b = Ok (tt, b') /\ loads lid b b' /\
    known_lines b' = known_lines b ++ (pb_of_node <$> filter (fun n => node_id n <> lid) ns).
Proof.
  intros Hok Hns. revert b Hok. induction Hns as [|n ns Hn Hns IH]; intros b Hok Hnd Hlt.
  { exists b. rewrite app_nil_r. by split_and!. }
  rewrite fmap_cons, filter_cons. cbn [for_each].
  destruct (decide (node_id n = lid)) as [E|Hne].
  { rewrite (step_bind _ _ _ _ _ (load_self lid n b Hok E)), decide_False by naive_solver. by apply IH. }
  destruct (load_other lid n b Hok Hn Hne) as [E Hok1].
  rewrite (step_bind _ _ _ _ _ E), decide_True by done. clear E.
  match goal with |- context [for_each _ _ ?b0] => set (b1 := b0) end.
  set (w := b_table b) in *.
  assert (forall p, (p < w_next w)%positive -> obj_of (b_table b1) p = obj_of w p) as Hold.
  { intros p Hp. apply lookup_total_insert_ne. lia. }
  assert (all_nodes_ b1 = all_nodes_ b ++ [w_next w]) as Ea by done.
  rewrite Forall_forall in Hlt.
  destruct (IH b1) as (b' & E & [G1 G2 G3 G4 G5] & El); [done|..].
  - rewrite Ea. apply NoDup_app. split_and!; [done| |apply NoDup_singleton].
    intros p Hp%Hlt ->%list_elem_of_singleton. lia.
  - rewrite Ea. apply Forall_app_2; [apply Forall_forall|apply Forall_singleton]; cbn; [|lia].
    intros p Hp%Hlt. change (p < Pos.succ (w_next w))%positive. lia.
  - exists b'. split; [exact E|]. change (w_next (b_table b1)) with (Pos.succ (w_next w)) in *. split.
    + split; fold w; [done|lia| |done|done]. intros p Hp. rewrite G3 by lia. by apply Hold.
    + rewrite El. unfold known_lines. rewrite Ea, fmap_app, fmap_cons, <- app_assoc. f_equal.
      * apply list_fmap_ext. intros i p Hp%list_elem_of_lookup_2%Hlt. by rewrite Hold.
      * cbn [fmap list_fmap app]. f_equal.
        transitivity (pb_of_node (loaded_node lid (w_now w) (pb_of_node n))).
        -- f_equal. apply fresh_obj.
        -- by apply loaded_node_data.
Qed.



(** C37: What one bench node saves another one loads: OnCommandSave writes one
    line per known node and one for the node itself, and OnCommandLoad of that
    file, on any well-formed node, gives new objects, one for each line but
    those of its own id, in order, with the same addresses, ports, service type
    and nat type; the routing table itself and all older objects stay. *)
Theorem load_reads_what_save_wrote `{!ProtoLaws AllNodes} lid lid' l data b b' :
  local (b_table b) = Ok (l, b_table b) -> local_id (b_table b) = Ok (lid, b_table b) ->
  Forall portable (saves l lid b) ->
  SerializeToString (mkAllNodes (pb_of_node <$> saves l lid b)) = Some data ->
  table_ok lid' (b_table b') -> b_files b' !! file_name = Some data ->
  (exists b1, OnCommandSave [] b = Ok (tt, b1) /\ b_files b1 = <[file_name := data]> (b_files b)) /\
  exists b2, OnCommandLoad [] b' = Ok (tt, b2) /\ loads lid' b' b2 /\
    known_lines b2 = pb_of_node <$> filter (fun n => node_id n <> lid') (saves l lid b).
Proof.
  intros Hl Hid Hp Hs Hok Hf. split.
  - unfold OnCommandSave. mstep. rewrite (step_bind _ _ _ _ _ (table_reads _ _ _ Hl)).
    rewrite (step_bind _ _ _ _ _ (table_reads _ _ _ Hid)). cbv zeta. mstep.
    unfold TOP_FATAL, modify. eexists. split; [reflexivity|]. cbn [b_files upd].
    revert Hs. unfold saves. rewrite fmap_app, <- list_fmap_compose. intros Hs.
    match type of Hs with SerializeToString ?m = _ =>
      transitivity (<[file_name := SerializeAsString m]> (b_files b)); [reflexivity|] end.
    unfold SerializeAsString. by rewrite Hs.
  - unfold OnCommandLoad, TOP_FATAL. mstep. rewrite Hf. change (default ""%string (Some data)) with data. mstep.
    rewrite (parse_serialize _ _ Hs). mstep.
    match goal with |- context [(for_each _ _ ≫= _) ?b0] =>
      destruct (loads_lines lid' (saves l lid b) b0) as (b2 & E & [G1 G2 G3 G4 G5] & El);
        [done|done|apply NoDup_nil_2|apply Forall_nil_2|] end.
    cbn [all_nodes]. rewrite (step_bind _ _ _ _ _ E). mstep. eexists.
    split; [reflexivity|]. split; [by split|]. exact El.
Qed.
End saved.

(** ** Examples *)

Section witnesses.
Import Externals.Examples.
#[local] Existing Instance selection_sort.
#[local] Existing Instance countable_wire.
#[local] Existing Instance countable_bench_wire.
#[local] Instance ex_str_fmt : StrFmt := {| str_fmt format _ := format; HexSubstr s := s |}.
#[local] Instance ex_types : MessageTypes := {| kMessageTypeMax := 1000 |}.
#[local] Instance ex_all_nodes_laws : ProtoLaws AllNodes.
Proof. apply countable_proto_laws. Qed.

(** The node "abcd" knows "abce" and "qqqq" (objects 1 and 4). *)
Definition ex_bench : Bench :=
  (MyRoutingTable_new ex_started BenchCommand_new ∅ 1000) <| all_nodes_ := [1; 4]%positive |>.

Definition ex_res (tp1 : Z) : TestConn2Response := mkTestConn2Response (Some tp1) (Some 2) (Some false).

Definition ex_answer (src : string) (tp1 : Z) : RoutingMessage :=
  RoutingMessage_empty <| msg_des_node_id := Some "abcd"%string |> <| msg_src_node_id := Some src |>
    <| msg_hop_num := Some 1 |> <| msg_data := Some (SerializeAsString (ex_res tp1)) |>.

Lemma ex_answers src tp1 : answers "abcd" (ex_answer src tp1) (ex_res tp1).
Proof. split; [by apply countable_proto_laws|by right]. Qed.

(** Nothing overflows in the example. *)
Lemma ex_in_range now src tp1 :
  (-1000 <=? Z.quot now (10 ^ 6) - tp1) && (Z.quot now (10 ^ 6) - tp1 <=? 1000) = true ->
  in_range now (ex_answer src tp1) (ex_res tp1).
Proof.
  intros [H1 H2]%andb_true_iff. apply Z.leb_le in H1. apply Z.leb_le in H2.
  split; [by apply (bool_decide_unpack _); vm_compute|]. unfold fits, answer_td. cbn [get ex_res tc2res_tp1].
  unfold get; cbn. lia.
Qed.

(** "abce" answers after 7 ms, "zzzz" with a time stamp of the future. *)
Definition ex_events : list event :=
  [ETime 7000000; EAnswer (ex_answer "abce" 0) (mkXpacket "" 0);
   EAnswer (ex_answer "zzzz" 9) (mkXpacket "" 0)].

Lemma conn2_statistics_witness :
  exists b' q, (_ ← ClearQuery; for_each ex_events happens) ex_bench = Ok (tt, b') /\
    GetQuery b' = Ok (q, b') /\ Some 4%positive ∈ q_not_found_nodes q.
Proof.
  destruct (conn2_statistics "abcd" ex_bench ex_events
    [mkSample "abce" 3 7; mkSample "zzzz" 3 (-2)]) as (b' & q & E & Eq & _ & Hq & _).
  - vm_compute. reflexivity.
  - apply (bool_decide_unpack _). vm_compute. reflexivity.
  - apply sampled_time.
    exact (sampled_answer "abcd" 7000000 (ex_answer "abce" 0) _ (ex_res 0) _ _ (ex_answers _ _)
      (ex_in_range 7000000 "abce" 0 eq_refl)
      (sampled_answer "abcd" 7000000 (ex_answer "zzzz" 9) _ (ex_res 9) _ _ (ex_answers _ _)
        (ex_in_range 7000000 "zzzz" 9 eq_refl)
        (sampled_nil "abcd" 7000000))).
  - intros k. unfold tds. rewrite !filter_cons, filter_nil. do 2 case_decide; cbn; lia.
  - exists b', q. split; [exact E|]. split; [exact Eq|]. apply Hq. split.
    + apply (bool_decide_unpack _). vm_compute. reflexivity.
    + intros (s & Hs & Hi & _). apply elem_of_cons in Hs as [->|Hs];
        [|apply list_elem_of_singleton in Hs as ->]; vm_compute in Hi; discriminate Hi.
Defined.

Lemma unknown_answer_breaks_query_witness :
  exists b', HandleConn2Response (ex_answer "zzzz" 9) (mkXpacket "" 0) ex_bench = Ok (tt, b') /\
    OnCommandQuery [] b' = Fault NullDeref.
Proof.
  apply (unknown_answer_breaks_query "abcd" ex_bench _ _ (ex_res 9)).
  - vm_compute. reflexivity.
  - apply ex_answers.
  - by apply ex_in_range.
  - vm_compute. reflexivity.
  - vm_compute. reflexivity.
Defined.

(** The file of the example node, loaded by itself. *)
Definition ex_file : string :=
  SerializeAsString (mkAllNodes (pb_of_node <$> saves ex_local "abcd" ex_bench)).

Lemma load_reads_what_save_wrote_witness :
  exists b2, OnCommandLoad [] (ex_bench <| b_files := {[ file_name := ex_file ]} |>) = Ok (tt, b2) /\
    length (known_lines b2) = 2%nat.
Proof.
  destruct (load_reads_what_save_wrote "abcd" "abcd" ex_local ex_file ex_bench
    (ex_bench <| b_files := {[ file_name := ex_file ]} |>)) as (_ & b2 & E & _ & El).
  - vm_compute. reflexivity.
  - vm_compute. reflexivity.
  - repeat apply List.Forall_cons; [..|apply Forall_nil_2]; (split; [reflexivity|]);
      (split; split; vm_compute; (reflexivity || discriminate)).
  - reflexivity.
  - exact (st_ok _ _ ex_started_ok).
  - reflexivity.
  - exists b2. split; [exact E|]. rewrite El. vm_compute. reflexivity.
Defined.
End witnesses.
