(* ===== verification/BenchSafe.v ===== *)
(** The bench program on a started node: [bruns lid R m] says that the bench
    program [m], run while the node is started, ends without a fault on a
    started node and relates the states before and after by [R]. A test message
    crashes the bench only by an overflow, and its getrt2 test succeeds when no
    node answers. *)

From S2P Require Import Prelude Externals Messages Distance Sorting NodeInfo LocalNodeInfo.
From S2P Require Import ClientNodes BootstrapCache World RoutingTable TableFacts TableProps.
From S2P Require Import Sending NodeDetection RoutingHandlers RoutingJoin Robust.
From S2P Require Import HandlerProps KadMessageHandler.
From S2P Require Import BenchText BenchMessages BenchCommand BenchTable BenchNode BenchProps.
Import MyRoutingTable.

Section rules.
Context `{Xbase} `{!XbaseLaws} `{KadKey} `{Xip} `{PartialSort} `{!PartialSortLaws} `{Wire} `{Bloom}.
Context `{Endpoints} `{Config} `{StrFmt} `{BenchWire} `{MessageTypes}.
#[local] Set Default Proof Using "Type*".
Context (lid : string) (R : relation Bench) `{!PreOrder R}.
Context (R_table : forall b w, R b (b <| b_table := w |>)).
Context (R_out : forall b f, R b (b <| b_out ::= f |>)).

Definition bruns {A} (m : B A) : Prop :=
  forall b, started lid (b_table b) -> wp m (fun _ b' => started lid (b_table b') /\ R b b') b.

Lemma bruns_ret {A} (a : A) : bruns (mret a).
Proof. intros b Hb. by split. Qed.

Lemma bruns_bind {A C} (m : B A) (f : A -> B C) : bruns m -> (forall a, bruns (f a)) -> bruns (m ≫= f).
Proof.
  intros Hm Hf b Hb. apply wp_bind. eapply wp_mono; [|by apply Hm]. intros a b1 [Hb1 HR].
  eapply wp_mono; [|by apply Hf]. intros c b2 [Hb2 HR2]. split; [done|by trans b1].
Qed.



Lemma bruns_for_each {A} (l : list A) (f : A -> B unit) : (forall x, bruns (f x)) -> bruns (for_each l f).
Proof.
  intros Hf. induction l as [|x l IH]; [apply bruns_ret|]. by apply bruns_bind.
Qed.


Lemma bruns_modify (f : Bench -> Bench) :
  (forall b, b_table (f b) = b_table b /\ R b (f b)) -> bruns (modify f).
Proof. intros Hf b Hb. unfold wp, modify. destruct (Hf b) as [-> HR]. by split. Qed.

(** What the base class does on a started node. *)
Lemma bruns_table {A} (m : M A) : runs lid m -> bruns (table m).
Proof.
  intros Hm b Hb. specialize (Hm _ Hb). unfold wp, table in *.
  destruct (m (b_table b)) as [[a w]|]; [|done]. by split.
Qed.


Lemma bruns_cout t : bruns (cout t).
Proof. apply bruns_modify. intros b. split; [done|apply R_out]. Qed.

(** ** Messages and dumps *)

Lemma bruns_direct des t : bruns (direct_message des t).
Proof.
  apply bruns_bind; [apply bruns_table, runs_SetFreqMessage|]. intros m.
  apply bruns_bind; [apply bruns_table, runs_local|]. intros l. apply bruns_ret.
Qed.

Lemma bruns_send_direct m ip port : bruns (send_direct m ip port).
Proof. apply bruns_bind; [apply bruns_table, runs_SendData|]. intros r. apply bruns_ret. Qed.















Lemma bruns_getrt2 ip port : bruns (SendGetrt2Request ip port).
Proof. apply bruns_bind; [apply bruns_direct|]. intros m. apply bruns_send_direct. Qed.
End rules.

(** ** Test messages *)

Section handlers.
Context `{Xbase} `{!XbaseLaws} `{KadKey} `{Xip} `{PartialSort} `{!PartialSortLaws} `{Wire} `{Bloom}.
Context `{Endpoints} `{Config} `{StrFmt} `{BenchWire} `{MessageTypes}.
#[local] Set Default Proof Using "Type*".
Context (lid : string).

Definition any : relation Bench := fun _ _ => True.
#[local] Instance any_preorder : PreOrder any.
Proof. by split. Qed.

Notation bsafe := (bruns lid any).

Lemma any_table b w : any b (b <| b_table := w |>).
Proof. done. Qed.
Lemma any_out b f : any b (b <| b_out ::= f |>).
Proof. done. Qed.
#[local] Hint Resolve any_table any_out any_preorder : core.






(** Fields that are set after the destination do not change it. *)
Lemma id_ok_data m d x : get msg_des_node_id m = x -> id_ok x ->
  id_ok (get msg_des_node_id (m <| msg_data := d |>)).
Proof. by intros <-. Qed.
#[local] Hint Resolve id_ok_data : core.



(** ** The sums of the two responses *)






Definition ends (m : B unit) (b : Bench) : Prop :=
  exists b', m b = Ok (tt, b') /\ started lid (b_table b').


Lemma ends_at (m m' : B unit) b b' : m b = m' b' -> ends m' b' -> ends m b.
Proof. intros E (b2 & E2 & Hb2). exists b2. by rewrite E. Qed.








End handlers.

(** ** The getrt2 test without answers *)

Section getrt2.
Context `{Xbase} `{!XbaseLaws} `{KadKey} `{Xip} `{PartialSort} `{!PartialSortLaws} `{Wire} `{Bloom}.
Context `{Endpoints} `{Config} `{StrFmt} `{BenchWire} `{MessageTypes}.
#[local] Set Default Proof Using "Type*".
Context (lid : string).

(** What only an answer or the end of the test changes. *)
Definition answers_seen (b : Bench) :=
  (rt_map_ b, rt_diff_count_ b, rt_size_map_ b, b_time b, time_all_getrt2_ b, all_nodes_ b).

Definition unanswered : relation Bench := fun b b' => answers_seen b' = answers_seen b.
#[local] Instance unanswered_preorder : PreOrder unanswered.
Proof. split; [done|]. intros b1 b2 b3 E1 E2. by transitivity (answers_seen b2). Qed.

Lemma unanswered_table b w : unanswered b (b <| b_table := w |>).
Proof. done. Qed.
Lemma unanswered_out b f : unanswered b (b <| b_out ::= f |>).
Proof. done. Qed.
#[local] Hint Resolve unanswered_table unanswered_out unanswered_preorder : core.

Lemma quiet_step {A} (m : B A) b :
  bruns lid unanswered m -> started lid (b_table b) ->
  exists a b', m b = Ok (a, b') /\ started lid (b_table b') /\ unanswered b b'.
Proof. intros Hm Hb. apply wp_elim. by apply Hm. Qed.

Lemma quiet_requests (nodes : list ptr) :
  bruns lid unanswered (for_each (seq 0 kSendTry) (fun _ =>
    for_each nodes (fun node =>
      n ← table (obj node); SendGetrt2Request (public_ip n) (public_port n)))).
Proof.
  do 2 (apply bruns_for_each; auto; intros ?). apply bruns_bind; auto.
  - apply bruns_table, runs_obj; auto.
  - intros n. by apply bruns_getrt2.
Qed.

(** [OnCommandGetrt2] resets the counters and sends the requests. *)
Lemma OnCommandGetrt2_runs b :
  started lid (b_table b) ->
  exists b', OnCommandGetrt2 [] b = Ok (tt, b') /\ started lid (b_table b') /\
    answers_seen b' = (rt_map_ b, 0, ∅, b_time b, time_all_getrt2_ b, all_nodes_ b).
Proof.
  intros Hb. unfold OnCommandGetrt2, TOP_FATAL, ClearRtdiff. msteps.
  match goal with |- context [for_each _ _ ?b0] =>
    destruct (quiet_step _ b0 (quiet_requests (all_nodes_ b0)) Hb) as ([] & b' & E & Hb' & HR) end.
  exists b'. split; [exact E|]. split; [done|]. by rewrite HR.
Qed.

Lemma SleepWait_idle n o b :
  started lid (b_table b) ->
  exists b', SleepWait n (mret tt :: o) b = Ok (o, b') /\ started lid (b_table b') /\ unanswered b b'.
Proof.
  intros Hb. destruct (quiet_step (SleepWait n (mret tt :: o)) b) as (o' & b' & E & Hb' & HR); [|done|].
  { unfold SleepWait. apply bruns_bind; auto.
    - apply bruns_for_each; auto. intros _. by apply bruns_cout.
    - intros _. apply bruns_bind; auto; [by apply bruns_ret|]. intros o'.
      apply bruns_bind; auto; [by apply bruns_cout|]. intros _. by apply bruns_ret. }
  exists b'. rewrite E. split; [|done]. revert E. unfold SleepWait.
  match goal with |- context [for_each ?l ?f] => destruct (for_each l f b) as [[[] b1]|] eqn:E1 end;
    [|by rewrite (step_fault _ _ _ _ E1)].
  rewrite (step_bind _ _ _ _ _ E1). unfold cout_line, cout. cbn [during_sleep]. msteps.
  by intros [= <- _].
Qed.

Lemma GetGetrt2_idle o b :
  started lid (b_table b) ->
  exists b', GetGetrt2 (mret tt :: o) b = Ok ((0, o), b') /\ started lid (b_table b') /\
    answers_seen b' = (rt_map_ b, 0, ∅, b_time b, time_all_getrt2_ b, all_nodes_ b).
Proof.
  intros Hb. unfold GetGetrt2, ClearRtdiff. mstep.
  match goal with |- context [OnCommandGetrt2 [] ≫= _] =>
    match goal with |- context [(_ ≫= _) ?b0 = _] =>
      destruct (OnCommandGetrt2_runs b0) as (b1 & E1 & Hb1 & S1); [done|] end end.
  rewrite (step_bind _ _ _ _ _ E1).
  destruct (SleepWait_idle 5 o b1 Hb1) as (b2 & E2 & Hb2 & S2).
  rewrite (step_bind _ _ _ _ _ E2). mstep. unfold unanswered in S2. rewrite S1 in S2.
  exists b2. assert (rt_diff_count_ b2 = 0) as -> by (by injection S2). done.
Qed.

(** A round without answers is a success: after [c] successes one more. *)
Lemma round_idle fuel c o b :
  started lid (b_table b) -> 0 <= c ->
  exists b', started lid (b_table b') /\
    (rt_map_ b', b_time b', time_all_getrt2_ b') =
      (rt_map_ b, b_time b, if c =? 0 then b_time b else time_all_getrt2_ b) /\ rt_size_map_ b' = ∅ /\
    getrt2_rounds (S fuel) c (mret tt :: o) b =
      (if max_continuous_success_count <=? c + 1 then mret o
       else o ← SleepWait 5 o; getrt2_rounds fuel (c + 1) o) b'.
Proof.
  intros Hb Hc. destruct (GetGetrt2_idle o b Hb) as (b1 & E & Hb1 & S1).
  cbn [getrt2_rounds]. rewrite (step_bind _ _ _ _ _ E). cbn [Z.eqb]. unfold TOP_FATAL. mstep.
  unfold answers_seen in S1. injection S1 as S1 _ S3 S4 S5 _.
  destruct (Z.eqb_spec c 0) as [->|Hne]; cbn [when].
  - eexists. split; [|split; [|split; [|reflexivity]]]; [done| |done]. cbn. by rewrite S1, S4.
  - destruct (Z.eqb_spec (c + 1) 1); [lia|]. cbn [when]. rewrite step_ret.
    eexists. split; [|split; [|split; [|reflexivity]]]; [done| |done]. cbn. by rewrite S1, S4, S5.
Qed.

Lemma pause_idle fuel c o b :
  started lid (b_table b) ->
  exists b', started lid (b_table b') /\ answers_seen b' = answers_seen b /\
    (o ← SleepWait 5 (mret tt :: o); getrt2_rounds fuel c o) b = getrt2_rounds fuel c o b'.
Proof.
  intros Hb. destruct (SleepWait_idle 5 o b Hb) as (b' & E & Hb' & HR). exists b'.
  split; [done|]. split; [done|]. by rewrite (step_bind _ _ _ _ _ E).
Qed.

(** C38: The getrt2 test of autotest takes the silence of the network for
    success: when every request is lost (no other thread does anything during
    the pauses), three rounds of requests are counted as three successes, the
    test ends after five pauses and records its time, and not one dump of
    another node was received or compared. *)
Theorem getrt2_succeeds_unanswered b :
  started lid (b_table b) ->
  exists b', AutoTestAllGetrt2 3 (replicate 5 (mret tt)) b = Ok ([], b') /\
    rt_map_ b' = rt_map_ b /\ rt_size_map_ b' = ∅ /\ time_all_getrt2_ b' = b_time b.
Proof.
  intros Hb. unfold AutoTestAllGetrt2, TOP_FATAL. mstep.
  match goal with |- context [getrt2_rounds 3 0 _ ?b0] => set (b1 := b0) end.
  change (replicate 5 (mret tt)) with ([mret tt; mret tt; mret tt; mret tt; mret tt] : others).
  destruct (round_idle 2 0 [mret tt; mret tt; mret tt; mret tt] b1) as (b2 & Hb2 & S2 & _ & ->); [done..|].
  destruct (pause_idle 2 1 [mret tt; mret tt; mret tt] b2 Hb2) as (b3 & Hb3 & S3 & E3).
  destruct (round_idle 1 1 [mret tt; mret tt] b3) as (b4 & Hb4 & S4 & _ & E4); [done..|].
  destruct (pause_idle 1 2 [mret tt] b4 Hb4) as (b5 & Hb5 & S5 & E5).
  destruct (round_idle 0 2 [] b5) as (b6 & Hb6 & S6 & Sz & E6); [done..|].
  exists b6. split.
  { transitivity (getrt2_rounds 2 1 [mret tt; mret tt; mret tt] b3); [exact E3|]. rewrite E4.
    transitivity (getrt2_rounds 1 2 [mret tt] b5); [exact E5|]. rewrite E6. reflexivity. }
  assert (rt_map_ b1 = rt_map_ b /\ b_time b1 = b_time b) as [M1 T1] by done.
  clearbody b1. clear E3 E4 E5 E6 Hb2 Hb3 Hb4 Hb5 Hb6 Hb. unfold answers_seen in *.
  injection S2 as M2 T2 G2. injection S3 as M3 _ _ T3 G3 _.
  injection S4 as M4 T4 G4. injection S5 as M5 _ _ T5 G5 _. injection S6 as M6 T6 G6.
  split; [congruence|]. split; [done|]. congruence.
Qed.
End getrt2.

(** ** Examples *)

Section witnesses.
Import Externals.Examples.
#[local] Existing Instance selection_sort.
#[local] Existing Instance countable_wire.
#[local] Existing Instance countable_bench_wire.
#[local] Existing Instance ex_str_fmt.
#[local] Existing Instance ex_types.



Lemma getrt2_succeeds_unanswered_witness :
  exists b', AutoTestAllGetrt2 3 (replicate 5 (mret tt)) ex_bench = Ok ([], b') /\
    rt_size_map_ b' = ∅ /\ time_all_getrt2_ b' = 1000.
Proof.
  destruct (getrt2_succeeds_unanswered "abcd" ex_bench ex_started_ok) as (b' & E & _ & Es & Et).
  exists b'. split; [exact E|]. split; [exact Es|exact Et].
Defined.
End witnesses.
